(* ===== verification/_CoqProject ===== *)
-Q . S2P
Prelude.v
Bytes.v
Text.v
Float64.v
FloatOrder.v
Env.v
PyVal.v
JsonRead.v
F32.v
Numpy.v
Http.v
Config.v
Wire.v
Client.v
Server.v
ClientFacts.v
Sessions.v
Ideal.v
Typed.v
RefServer.v
ClientProps.v
IdealProps.v
Sift.v
Net.v
TcpClient.v
Accuracy.v
Report.v
Bench.v
Pool.v
TcpBench.v
TcpProps.v
Protobuf.v
GrpcStubs.v
GrpcRef.v
GrpcClient.v
GrpcProps.v
RunProps.v
Qdrant.v
Redis.v
Hnswlib.v
SweepProps.v
QdrantProps.v
PrintProps.v
PoolProps.v
Smoke.v
ScriptProps.v
Num.v
Disk.v
KvCharts.v
KvLayout.v
KvProps.v
VecCharts.v
VecProps.v
