(* ===== verification/Prelude.v ===== *)
(** * A verification of the Python programs of rostam-bench

    The repository measures the Rostam engine against others.  Its Python programs are a client
    plugin for VectorDBBench with a smoke test ([src/vectordbbench/rostam/], [smoke_test.py]),
    the client side of the SIFT-1M benchmarks ([src/sift1m/*.py]) and two generators of SVG
    charts ([src/netkv/charts/mkcharts.py], [src/vectordbbench/charts/make_charts.py]).  This
    library models all of them and proves what makes their results trustworthy: what the
    client says it stored is what was stored, both of its wires mean the same, the client is its
    specification without wires, its streams stay in step, the figures are those of the measurements, and the charts show their data.

    ** Conventions

    Code that may raise is a [result]; stateful code is a computation of [M W] (this file), in
    which the state survives an exception, as in Python.  [wp] and the tactics [wp_step],
    [wp_steps] and [client_steps] run such code symbolically.  Floats are IEEE binary64
    ([Float64]), float32 rows are kept as bit patterns ([F32]), strings are UTF-8 byte strings.
    Everything is executable; each property with hypotheses is followed by a [_witness] that
    applies it to a concrete input.

    Third-party code is an interface: a class with its operations, and a second class with the
    documented behaviour the theorems rely on, shown satisfiable by a reference instance.
    [Numpy]/[NumpyLaws] (numpy), [Http]/[HttpLaws] (requests), [PointServer], [WorkingServer],
    [SearchServer], [ContentServer] and [SmokeServer] (the Rostam server), [Peer] (what is at the
    other end of a TCP connection, if it accepts one), [Disk]/[DiskLaws] (the files the chart
    generators write, any write of which may fail), [Clock] (the readings of the clock), [Codec]/[CodecLaws] (the
    protobuf messages) and [Grpc]/[GrpcLaws] (the grpc package), [Qdrant] with
    [QdrantService] and [QdrantEngine], [Redis] with [RedisService] and [RedisEngine],
    [Hnswlib]/[HnswlibService], and [Libm] ([math.log10]).

    ** Files

    Shared: [Prelude] (exceptions, [result], [M] and its [wp], ranges, slices, dictionaries,
    lists), [Bytes] (big-endian integers, [struct], parser combinators), [Text] (Python's
    string operations, decimal numbers), [Float64] and [FloatOrder] (arithmetic, formatting,
    sorting), [Accuracy] (quotients of integers in binary64 against their exact values),
    [F32] (float32 patterns), [PyVal] (Python values, [json.dumps]), [JsonRead] (a
    reader of JSON texts), [Env] (environment variables, files, settings), [Numpy], [Http].

    - [Config]: [rostam/config.py] and [rostam/cli.py], the settings and their translation.
    - [Wire]: the frames RVB1 and RVQ1 and the JSON bodies of [rostam/rostam.py], and parsers of
      the frames written from that file's format comments.
    - [Client]: class [Rostam], method by method; [init] is the context manager, [insert_chunk]
      the body of the loop of [insert_embeddings].
    - [Server]: what a Rostam server promises; [RefServer]: servers that keep the promise, some
      that fail, and the demonstration data.
    - [ClientFacts], [Sessions]: lemmas on the methods (the automaton of a wire, loading,
      searching, frames; HTTP sessions, filters, construction).
    - [ClientProps]: the client's properties.
    - [Ideal]: the client's specification, a machine that knows neither wires nor sessions and
      hands each call's content to the server, and the simulation of each method; [Typed]: the
      types of requests, and that every method sends only requests of their type; [IdealProps]:
      what follows for whole sequences of calls.
    - [Sift]: [read_fvecs] and [read_ivecs] of the scripts of [sift1m]: each script has its own
      copy in its file, proved equal to these.
    - [Net], [TcpClient]: a socket whose reads return what the kernel likes, and the frames and
      reader of [rostam_py_client.py]; [Report]: the lines of the tables that
      the scripts print, and their reading; [Bench]: the timed loops, percentiles and recalls
      that the scripts share; [Pool]: the workers of a pool as state machines that run at the
      same time against one server, in any order; [TcpBench]: the runs of [rostam_py_client.py]; [TcpProps]: their
      properties.
    - [Protobuf]: reading protobuf fields and descriptors; [GrpcStubs]: the generated
      [grpc_stubs/vector_pb2.py] and [vector_pb2_grpc.py]; [GrpcRef]: a codec that writes the
      bytes of proto3 and a network of servers, instances of their interfaces; [GrpcClient]:
      [rostam_grpc_client.py] over the stubs; [GrpcProps]: their properties.
    - [RunProps]: [rostam_py_client.py] and [rostam_grpc_client.py] from the environment and the
      files to the figures.
    - [Qdrant] ([qdrant_bench.py] and
      [qdrant_latency_qps.py]), [Redis] ([redis_bench.py]), [Hnswlib] ([hnswlib_bench.py]),
      [Smoke] ([smoke_test.py]); [ScriptProps]: properties of their parts; [SweepProps]:
      [hnswlib_bench.py], [redis_bench.py] and [qdrant_bench.py] from the environment and the
      files to the figures; [QdrantProps]: the same of [qdrant_latency_qps.py]; [PrintProps]:
      what the six scripts print; [PoolProps]: the pools of the three latency scripts.
    - [Disk]: the texts of [pathlib]'s paths, the disk and a reference disk with directories that
      cannot be written to; [Num]: the arithmetic the label placement needs, in binary64 and in
      rationals; [KvCharts]:
      [mkcharts.py]; [KvLayout]: the placement in exact arithmetic; [KvProps]: its properties.
    - [VecCharts]: [make_charts.py]; [VecProps]: its properties.

    ** What is shown

    - Loading ([ClientProps]): whatever the server answers, [insert_embeddings] reports exactly
      what was stored, unless an exception interrupts it; against a server in working order it
      completes; the binary and JSON requests decode to the same points; sequences of calls
      keep each wire's discipline, by the answers themselves (JSON only after an answer that
      says the wire is not supported, and never after a binary success; one fallback at most,
      announced by one warning), and keep the two copies of the filter equal.
    - Searching: both wires ask the same query, and the ids returned are the server's.
    - Specification ([IdealProps]): against a server that answers by what a request means, any
      sequence of calls, failing ones included, does exactly what [Ideal] says, so the settings
      of the wires cannot be observed; and whatever the server answers, each request has its
      route's type.
    - Life cycle: [init] is balanced for any body that uses the client through its methods, and does
      not nest, sessions opened outside it leak,
      construction either returns a usable client or raises.
    - Streams ([TcpProps]): requests round-trip, [_recvn] is exact however the stream is cut,
      responses are consumed whole; runs report the times and hits they measured, and workers
      count what they send.
    - Stubs ([GrpcProps]): a call of the stub is a call of the servicer, its exceptions included; the
      embedded descriptor is that of [vector.proto].
    - Whole runs ([RunProps], [SweepProps]): with settings that can be read, the files they name
      and a server or an index that answers, the scripts end, the database holds each vector
      once, and the recalls, percentiles and rates they report are those of the answers, the
      times and the queries of the run.
    - Output ([PrintProps]): whatever happens, the scripts print what they have measured, nothing
      before their data are read, and
      the lines of their tables read back as the figures under the names of the header; the
      recall read is the nearest decimal of the exact one.
    - Pools ([PoolProps]): in whatever order the workers of a pool connect, read the clock,
      query and finish, they make a fixed number of steps; the server is at any moment in the
      state it reaches by answering the queries made so far one after the other; and the total
      is the one computed by [pool_sum], which runs each worker on a copy of the world.
    - Scripts ([ScriptProps]): Redis gets every vector once, Qdrant is measured only when
      indexed or already nearly so, the latency runs and the sweeps count alike, and from its
      environment and its files the smoke test loads every vector once, builds once and asks every
      query, and its verdict, and what it prints, is the server's: it passes exactly when more than nine in ten of the true ids are among the answers.
    - Charts ([KvProps], [VecProps]): labels never overlap, stay in the frame when they fit and
      move only when they must; colours follow engines; text is escaped; every chart reaches
      every target unless a write fails, and then what has been written until then, and what the
      generators print of it; the tables of the vector charts agree with their curves.

    ** Fuel

    Loops that end by a measure carry enough fuel by construction: [recv_loop] starts with one
    turn more than the bytes wanted, each turn reading at least one.  Loops that end on the
    clock or on a service ([qps_loop], [wait_ready], [wait_indexed]) take the number of turns
    allowed; the theorems hold for every fuel beyond the turns needed, and running out is an
    exception the program does not have ([OtherError]).  The machines of [Pool] take no fuel.  The printing of integers and the reader
    of JSON texts compute their fuel from their argument, and their round-trip lemmas show it is
    enough; the shortest decimal of a float is searched among at most 17 digits.

    ** Not modelled

    The sleeps between polls; [docker], shell scripts and the Go servers; the registration of
    the messages with protobuf's runtime; the import of the client from the smoke test's [VDB];
    [click] and [pydantic] validation, whose results are the records of [Config]; dates and
    threads; the compensated sum of floats of Python 3.12 and later, which the mean of a latency
    run would use; chart files that are links to other files; writes to the standard output that
    fail.  In a whole script the processes of a pool run each on its own copy of the world
    and with its own clock; that this gives what they give together is proved in [PoolProps],
    for a server that handles a request at a time. *)

From stdpp Require Export base list strings gmap numbers.
From Stdlib Require Export ZArith Lia.

#[global] Open Scope Z_scope.

(** ** Exceptions and results *)

(** The exceptions the modelled code raises or lets through.  [OtherError] stands for an
    exception of a third-party library, named by a tag. *)
Inductive exn :=
| RuntimeError (msg : string)
| AlreadyExists
| HTTPError (status : Z)
| StructError
| IndexError
| KeyError (key : string)
| ValueError
| TypeError
| AttributeError
| OverflowError
| ZeroDivisionError
| ConnectionError (msg : string)
| AssertionError (msg : string)
| SystemExit (msg : string)
| NotImplementedError (msg : string)
| OtherError (tag : string).

(** [except Exception] catches everything but the [BaseException]s. *)
Definition is_Exception (e : exn) : bool :=
  match e with SystemExit _ => false | _ => true end.

Inductive result (A : Type) :=
| Ok (a : A)
| Raise (e : exn).
Arguments Ok {_} _.
Arguments Raise {_} _.

#[export] Instance result_ret : MRet result := @Ok.
#[export] Instance result_bind : MBind result := fun A B f m =>
  match m with Ok a => f a | Raise e => Raise e end.
#[export] Instance result_fmap : FMap result := fun A B f m =>
  match m with Ok a => Ok (f a) | Raise e => Raise e end.

Definition is_ok {A} (r : result A) : bool :=
  match r with Ok _ => true | Raise _ => false end.

(** [[f(x) for x in xs]], where [f] may raise. *)
Fixpoint mapR {A B} (f : A -> result B) (xs : list A) : result (list B) :=
  match xs with
  | [] => Ok []
  | x :: xs => y ← f x; ys ← mapR f xs; Ok (y :: ys)
  end.

Lemma mapR_ok {A B} (f : A -> result B) (g : A -> B) xs :
  (forall x, x ∈ xs -> f x = Ok (g x)) -> mapR f xs = Ok (g <$> xs).
Proof.
  induction xs as [|x xs IH]; intros Hf; [done|]. cbn [mapR].
  rewrite Hf, IH; [done|intros y Hy; apply Hf; by right|by left].
Qed.

(** ** Stateful code that may raise: the state survives an exception, as in Python *)

Definition M (W A : Type) : Type := W -> result A * W.

#[export] Instance M_ret W : MRet (M W) := fun A a w => (Ok a, w).
#[export] Instance M_bind W : MBind (M W) := fun A B f m w =>
  match m w with
  | (Ok a, w') => f a w'
  | (Raise e, w') => (Raise e, w')
  end.

Section Monad.
Context {W : Type}.

Definition raise {A} (e : exn) : M W A := fun w => (Raise e, w).
Definition get_state : M W W := fun w => (Ok w, w).
Definition modify (f : W -> W) : M W unit := fun w => (Ok tt, f w).
Definition lift_result {A} (r : result A) : M W A := fun w => (r, w).

(** [try: m except E as e: h(e)], where [catches] tells which exceptions [E] covers *)
Definition try_catch {A} (catches : exn -> bool) (m : M W A) (h : exn -> M W A) : M W A :=
  fun w => match m w with
           | (Raise e, w') => if catches e then h e w' else (Raise e, w')
           | ok => ok
           end.

(** [try: m finally: f]: an exception of [f] replaces the outcome of [m]. *)
Definition try_finally {A} (m : M W A) (f : M W unit) : M W A := fun w =>
  let '(r, w') := m w in
  match f w' with
  | (Ok _, w'') => (r, w'')
  | (Raise e, w'') => (Raise e, w'')
  end.
End Monad.

(** What a loop body does to the loop: go on ([continue] or falling through), or leave the
    enclosing function with a value ([return]). *)
Inductive flow (A : Type) :=
| Next
| Return (a : A).
Arguments Next {_}.
Arguments Return {_} _.

(** [for x in xs: body(x)] *)
Fixpoint for_loop {W X A} (xs : list X) (body : X -> M W (flow A)) : M W (flow A) :=
  match xs with
  | [] => mret Next
  | x :: xs =>
      f ← body x;
      match f with Next => for_loop xs body | Return a => mret (Return a) end
  end.

(** The same, for a body that always falls through. *)
Fixpoint for_each {W X : Type} (xs : list X) (body : X -> M W unit) : M W unit :=
  match xs with [] => mret tt | x :: xs => _ ← body x; for_each xs body end.

(** [assert b, msg] *)
Definition py_assert {W} (b : bool) (msg : string) : M W unit :=
  if b then mret tt else raise (AssertionError msg).

(** ** A weakest-precondition calculus for [M] *)

(** The outcome of a computation, and the state it leaves. *)
Definition outcome {W A} (m : M W A) (w : W) : result A := fst (m w).
Definition after {W A} (m : M W A) (w : W) : W := snd (m w).

Definition wp {W A} (m : M W A) (w : W) (Q : result A -> W -> Prop) : Prop :=
  Q (outcome m w) (after m w).

Section Wp.
Context {W : Type}.

Lemma wp_ret {A} (a : A) w (Q : result A -> W -> Prop) : Q (Ok a) w -> wp (mret a) w Q.
Proof. done. Qed.

Lemma wp_raise {A} e w (Q : result A -> W -> Prop) : Q (Raise e) w -> wp (raise e) w Q.
Proof. done. Qed.

Lemma wp_run {A} (m : M W A) w Q : wp m w Q <-> Q (outcome m w) (after m w).
Proof. done. Qed.

Lemma wp_bind {A B} (m : M W A) (f : A -> M W B) w Q :
  wp m w (fun r w' => match r with Ok a => wp (f a) w' Q | Raise e => Q (Raise e) w' end) ->
  wp (m ≫= f) w Q.
Proof. unfold wp, outcome, after, mbind, M_bind. by destruct (m w) as [[a|e] w']. Qed.

Lemma wp_get w (Q : result W -> W -> Prop) : Q (Ok w) w -> wp get_state w Q.
Proof. done. Qed.

Lemma wp_modify f w (Q : result unit -> W -> Prop) : Q (Ok tt) (f w) -> wp (modify f) w Q.
Proof. done. Qed.

Lemma wp_lift {A} (r : result A) w (Q : result A -> W -> Prop) : Q r w -> wp (lift_result r) w Q.
Proof. done. Qed.

Lemma wp_try_catch {A} (p : exn -> bool) (m : M W A) h w (Q : result A -> W -> Prop) :
  wp m w (fun r w' => match r with
                      | Ok a => Q (Ok a) w'
                      | Raise e => if p e then wp (h e) w' Q else Q (Raise e) w'
                      end) ->
  wp (try_catch p m h) w Q.
Proof.
  unfold wp, outcome, after, try_catch. destruct (m w) as [[a|e] w']; simpl; [done|].
  by destruct (p e).
Qed.

Lemma wp_try_finally {A} (m : M W A) f w (Q : result A -> W -> Prop) :
  wp m w (fun r w' => wp f w' (fun rf w'' =>
    Q (match rf with Ok _ => r | Raise e => Raise e end) w'')) ->
  wp (try_finally m f) w Q.
Proof. unfold wp, outcome, after, try_finally. destruct (m w) as [r w']; simpl. by destruct (f w') as [[]]. Qed.

Lemma wp_mono {A} (m : M W A) w (P Q : result A -> W -> Prop) :
  wp m w P -> (forall r w', P r w' -> Q r w') -> wp m w Q.
Proof. unfold wp. eauto. Qed.

Lemma wp_and {A} (m : M W A) w (P Q : result A -> W -> Prop) :
  wp m w P -> wp m w Q -> wp m w (fun r w' => P r w' /\ Q r w').
Proof. by split. Qed.

(** The loop rule: an invariant on the elements already treated. *)
Lemma wp_for {X A} (I : list X -> W -> Prop) (xs : list X) (body : X -> M W (flow A)) w
    (Q : result (flow A) -> W -> Prop) :
  I [] w ->
  (forall done x rest w, xs = done ++ x :: rest -> I done w ->
     wp (body x) w (fun r w' =>
       match r with
       | Ok Next => I (done ++ [x]) w'
       | Ok (Return a) => Q (Ok (Return a)) w'
       | Raise e => Q (Raise e) w'
       end)) ->
  (forall w, I xs w -> Q (Ok Next) w) ->
  wp (for_loop xs body) w Q.
Proof.
  intros H0 Hstep Hend.
  cut (forall rest done w, xs = done ++ rest -> I done w -> wp (for_loop rest body) w Q).
  { intros H. by apply (H xs [] w). }
  clear w H0. induction rest as [|x rest IH]; intros done w Hxs HI; simpl.
  - apply wp_ret, Hend. by rewrite Hxs, app_nil_r.
  - apply wp_bind. eapply wp_mono; [by apply (Hstep done x rest)|].
    intros [[|a]|e] w' HQ; simpl in *; [|by apply wp_ret|done].
    apply (IH (done ++ [x])); [|done]. by rewrite <- app_assoc.
Qed.

(** The rule of [for_each], for bodies that return. *)
Lemma wp_for_each {X} (I : list X -> W -> Prop) (xs : list X) (body : X -> M W unit) w
    (Q : result unit -> W -> Prop) :
  I [] w ->
  (forall done x rest w, xs = done ++ x :: rest -> I done w ->
     wp (body x) w (fun r w' => r = Ok tt /\ I (done ++ [x]) w')) ->
  (forall w, I xs w -> Q (Ok tt) w) ->
  wp (for_each xs body) w Q.
Proof.
  intros H0 Hstep Hend.
  cut (forall rest done w, xs = done ++ rest -> I done w -> wp (for_each rest body) w Q).
  { intros H. by apply (H xs [] w). }
  clear w H0. induction rest as [|x rest IH]; intros done w Hxs HI; cbn [for_each].
  - apply wp_ret, Hend. by rewrite Hxs, app_nil_r.
  - apply wp_bind. eapply wp_mono; [by apply (Hstep done x rest)|]. intros r w' [-> HI']. cbn beta iota.
    apply (IH (done ++ [x])); [|done]. by rewrite <- app_assoc.
Qed.
End Wp.
#[global] Typeclasses Opaque M.

(** Run the symbolic execution of [wp] over the constructs of the monad. *)
Ltac wp_step :=
  lazymatch goal with
  | |- wp (mret _) _ _ => apply wp_ret
  | |- wp (raise _) _ _ => apply wp_raise
  | |- wp (_ ≫= _) _ _ => apply wp_bind
  | |- wp get_state _ _ => apply wp_get
  | |- wp (modify _) _ _ => apply wp_modify
  | |- wp (lift_result _) _ _ => apply wp_lift
  | |- wp (try_catch _ _ _) _ _ => apply wp_try_catch
  | |- wp (try_finally _ _) _ _ => apply wp_try_finally
  end.
Ltac wp_steps := repeat (wp_step; cbn beta iota).

(** ** Ranges and slices *)

(** [range(start, stop, step)] for a positive [step]. *)
Definition py_range (start stop step : nat) : list nat :=
  (fun k => start + k * step)%nat <$> seq 0 ((stop - start + step - 1) / step)%nat.

(** [xs[a:b]] for [0 <= a], [0 <= b]: out-of-range bounds are clipped. *)
Definition py_slice {A} (xs : list A) (a b : nat) : list A := take (b - a) (drop a xs).

Declare Scope py_scope.
Delimit Scope py_scope with py.
Notation "xs @[ a : b ]" := (py_slice xs a b) (at level 1, a at level 60, b at level 60,
  format "xs @[ a : b ]") : py_scope.
#[global] Open Scope py_scope.

Create HintDb py discriminated.
Create Rewrite HintDb py.

Lemma py_range_lookup n step k x :
  (0 < step)%nat -> py_range 0 n step !! k = Some x -> x = (k * step)%nat /\ (x < n)%nat.
Proof.
  intros Hs. unfold py_range. rewrite list_lookup_fmap.
  intros (j & Hj & ->)%fmap_Some. apply lookup_seq in Hj as [-> Hk].
  split; [lia|]. rewrite Nat.sub_0_r in Hk.
  pose proof (Nat.Div0.mul_div_le (n + step - 1) step).
  destruct (decide (n = 0)%nat) as [->|]; [rewrite Nat.div_small in Hk; lia|nia].
Qed.

Lemma py_range_end n step : (0 < step)%nat -> (n <= length (py_range 0 n step) * step)%nat.
Proof.
  intros Hs. unfold py_range. rewrite length_fmap, length_seq, Nat.sub_0_r.
  pose proof (Nat.div_mod_eq (n + step - 1) step).
  pose proof (Nat.mod_upper_bound (n + step - 1) step). nia.
Qed.

(** The loop rule for [for start in range(0, n, step)], by the number of turns made. *)
Lemma wp_for_range {W A} (I : nat -> W -> Prop) (n step : nat) (body : nat -> M W (flow A)) w
    (Q : result (flow A) -> W -> Prop) :
  (0 < step)%nat ->
  I 0%nat w ->
  (forall j w, (j * step < n)%nat -> I j w ->
     wp (body (j * step)%nat) w (fun r w' =>
       match r with
       | Ok Next => I (S j) w'
       | Ok (Return a) => Q (Ok (Return a)) w'
       | Raise e => Q (Raise e) w'
       end)) ->
  (forall w, I (length (py_range 0 n step)) w -> Q (Ok Next) w) ->
  wp (for_loop (py_range 0 n step) body) w Q.
Proof.
  intros Hs H0 Hstep Hend. apply (wp_for (fun done => I (length done))); [done| |done].
  intros done x rest w' Hxs HI.
  assert (py_range 0 n step !! length done = Some x) as Hx by by rewrite Hxs, list_lookup_middle.
  apply py_range_lookup in Hx as [-> Hlt]; [|done].
  eapply wp_mono; [by apply Hstep|]. intros [[|a]|e] w'' HQ; [|done..].
  by rewrite length_app, Nat.add_1_r.
Qed.

(** The same over consecutive chunks, by the number of elements treated. *)
Lemma wp_for_chunks {W A} (I : nat -> W -> Prop) (n step : nat) (body : nat -> M W (flow A)) w
    (Q : result (flow A) -> W -> Prop) :
  (0 < step)%nat ->
  I 0%nat w ->
  (forall start w, (start < n)%nat -> I start w ->
     wp (body start) w (fun r w' =>
       match r with
       | Ok Next => I (Nat.min (start + step) n) w'
       | Ok (Return a) => Q (Ok (Return a)) w'
       | Raise e => Q (Raise e) w'
       end)) ->
  (forall w, I n w -> Q (Ok Next) w) ->
  wp (for_loop (py_range 0 n step) body) w Q.
Proof.
  intros Hs H0 Hstep Hend. apply (wp_for_range (fun j => I (Nat.min (j * step) n))); [done..| |].
  - intros j w' Hj HI. rewrite Nat.min_l in HI by lia.
    by rewrite Nat.mul_succ_l; apply Hstep.
  - intros w' HI. apply Hend. rewrite Nat.min_r in HI; [done|]. by apply py_range_end.
Qed.

Lemma Forall_elem {A} (P : A -> Prop) l x : Forall P l -> x ∈ l -> P x.
Proof. intros H Hx%list_elem_of_In. exact (proj1 (List.Forall_forall P l) H x Hx). Qed.

Section Slices.
Context {A : Type}.
Implicit Types xs : list A.

Lemma length_py_slice xs a b :
  length xs@[a : b] = Nat.min (b - a) (length xs - a).
Proof. unfold py_slice. by rewrite length_take, length_drop. Qed.

Lemma take_py_slice xs a b : (a <= b)%nat -> take a xs ++ xs@[a : b] = take b xs.
Proof.
  intros Hab. unfold py_slice. rewrite take_take_drop.
  by replace (a + (b - a))%nat with b by lia.
Qed.

Lemma Forall_py_slice (P : A -> Prop) xs a b : Forall P xs -> Forall P xs@[a : b].
Proof. intros. unfold py_slice. by apply Forall_take, Forall_drop. Qed.

Lemma py_slice_all xs n : length xs = n -> xs@[0 : n] = xs.
Proof. intros <-. unfold py_slice. by rewrite drop_0, Nat.sub_0_r, take_ge. Qed.

Lemma py_slice_app_l (xs ys : list A) b :
  (b <= length xs)%nat -> (xs ++ ys)@[0 : b] = take b xs.
Proof. intros. unfold py_slice. rewrite Nat.sub_0_r, drop_0, take_app_le; [done|lia]. Qed.
End Slices.

Lemma zip_with_py_slice {A B C} (f : A -> B -> C) xs ys a b :
  zip_with f xs@[a : b] ys@[a : b] = (zip_with f xs ys)@[a : b].
Proof. unfold py_slice. by rewrite zip_with_drop, zip_with_take. Qed.

(** ** Python dictionaries, in insertion order *)

Definition dict (V : Type) := list (string * V).

Fixpoint dict_get {V} (k : string) (d : dict V) : option V :=
  match d with
  | [] => None
  | (k', v) :: d => if String.eqb k k' then Some v else dict_get k d
  end.

(** [d[k]] *)
Definition dict_item {V} (k : string) (d : dict V) : result V :=
  match dict_get k d with Some v => Ok v | None => Raise (KeyError k) end.

(** [d[k] = v]: an existing key keeps its place. *)
Fixpoint dict_set {V} (k : string) (v : V) (d : dict V) : dict V :=
  match d with
  | [] => [(k, v)]
  | (k', v') :: d => if String.eqb k k' then (k', v) :: d else (k', v') :: dict_set k v d
  end.

Lemma dict_get_set {V} k k' (v : V) d :
  dict_get k (dict_set k' v d) = if String.eqb k k' then Some v else dict_get k d.
Proof.
  induction d as [|[k0 v0] d IH]; simpl; [done|].
  destruct (String.eqb_spec k' k0) as [->|Hk]; simpl.
  - by destruct (String.eqb k k0).
  - rewrite IH. destruct (String.eqb_spec k k0) as [->|]; [|done].
    by destruct (String.eqb_spec k0 k').
Qed.
#[export] Hint Rewrite @dict_get_set : py.
#[export] Hint Resolve Forall_py_slice : py.
