(* ===== verification/Bytes.v ===== *)
(** * Bytes: big-endian integers, [struct.pack]/[struct.unpack], and parsers of byte strings

    Everything that crosses a wire in this program goes through the definitions of this file.
    A [bytes] object is a [list byte]; a fixed-width unsigned integer is a [Z] whose range is
    checked where the code checks it ([struct.pack] raises [struct.error]).  The second half
    is a small library of parsers, used to state what the receiving side of a wire format
    reads back. *)

From S2P Require Import Prelude.
From Stdlib Require Export Strings.Byte.
From Stdlib Require Import DecimalString DecimalZ.

#[export] Instance byte_eq_dec : EqDecision byte := Byte.byte_eq_dec.

(** ** Bytes as integers *)

Definition Z_of_byte (b : byte) : Z := Z.of_N (Byte.to_N b).
Definition byte_of_Z (z : Z) : byte :=
  match Byte.of_N (Z.to_N (z mod 256)) with Some b => b | None => x00 end.

Lemma Z_of_byte_range b : 0 <= Z_of_byte b < 256.
Proof. unfold Z_of_byte. pose proof (Byte.to_N_bounded b). lia. Qed.

Lemma Z_of_byte_of_Z z : Z_of_byte (byte_of_Z z) = z mod 256.
Proof.
  unfold Z_of_byte, byte_of_Z. pose proof (Z.mod_pos_bound z 256 ltac:(lia)).
  destruct (Byte.of_N (Z.to_N (z mod 256))) as [b|] eqn:E.
  - apply Byte.to_of_N in E. rewrite E. lia.
  - apply Byte.of_N_None_iff in E. lia.
Qed.

Lemma byte_of_Z_of_byte b : byte_of_Z (Z_of_byte b) = b.
Proof.
  unfold byte_of_Z. rewrite Z.mod_small by apply Z_of_byte_range.
  unfold Z_of_byte. by rewrite N2Z.id, Byte.of_to_N.
Qed.

(** ** Big-endian integers *)

Fixpoint be_bytes (n : nat) (v : Z) : list byte :=
  match n with
  | O => []
  | S n => be_bytes n (v / 256) ++ [byte_of_Z v]
  end.

Definition be_val (bs : list byte) : Z := foldl (fun acc b => acc * 256 + Z_of_byte b) 0 bs.

Definition is_u (n : nat) (v : Z) : Prop := 0 <= v < 256 ^ Z.of_nat n.
#[export] Instance is_u_dec n v : Decision (is_u n v).
Proof. unfold is_u. apply _. Defined.

Lemma length_be_bytes n v : length (be_bytes n v) = n.
Proof. revert v; induction n as [|n IH]; intros v; simpl; [done|]. rewrite length_app, IH; simpl; lia. Qed.

Lemma be_val_snoc bs b : be_val (bs ++ [b]) = be_val bs * 256 + Z_of_byte b.
Proof. unfold be_val. by rewrite foldl_app. Qed.

Lemma be_val_bytes n v : be_val (be_bytes n v) = v mod 256 ^ Z.of_nat n.
Proof.
  revert v; induction n as [|n IH]; intros v; [simpl; by rewrite Z.mod_1_r|].
  cbn [be_bytes]. rewrite be_val_snoc, IH, Z_of_byte_of_Z, Nat2Z.inj_succ, Z.pow_succ_r by lia.
  rewrite (Z.mul_comm 256), Z.mul_comm, (Z.mul_comm _ 256), Z.rem_mul_r; lia.
Qed.

Lemma be_val_bytes_small n v : is_u n v -> be_val (be_bytes n v) = v.
Proof. intros Hv. rewrite be_val_bytes. by apply Z.mod_small. Qed.

Lemma be_val_range bs : is_u (length bs) (be_val bs).
Proof.
  unfold is_u. induction bs as [|b bs IH] using rev_ind; [cbn; lia|].
  rewrite be_val_snoc, length_app, Nat2Z.inj_add, Z.pow_add_r by lia.
  pose proof (Z_of_byte_range b). simpl. lia.
Qed.

Lemma be_bytes_val bs : be_bytes (length bs) (be_val bs) = bs.
Proof.
  induction bs as [|b bs IH] using rev_ind; [done|].
  rewrite length_app, Nat.add_comm. cbn [be_bytes Nat.add length]. rewrite be_val_snoc.
  pose proof (Z_of_byte_range b).
  rewrite Z.div_add_l, (Z.div_small (Z_of_byte b)), Z.add_0_r, IH by lia. f_equal.
  rewrite <- (byte_of_Z_of_byte b) at 2. unfold byte_of_Z at 1 2. f_equal.
  by rewrite Z.add_comm, Z.mod_add by lia.
Qed.

Lemma be_bytes_inj n v v' : is_u n v -> is_u n v' -> be_bytes n v = be_bytes n v' -> v = v'.
Proof. intros Hv Hv' E. by rewrite <- (be_val_bytes_small n v), E, be_val_bytes_small. Qed.

#[export] Hint Rewrite length_be_bytes @length_app @length_fmap : py.

(** ** [struct.pack] and [struct.unpack] with the [">"] byte order *)

(** The format characters the program uses: [4s], [B], [H], [I], [Q]. *)
Inductive sfmt := Fs (n : nat) | FB | FH | FI | FQ.
Inductive sarg := SBytes (bs : list byte) | SInt (z : Z).

Definition fmt_size (f : sfmt) : nat :=
  match f with Fs n => n | FB => 1 | FH => 2 | FI => 4 | FQ => 8 end.

Definition struct_calcsize (fs : list sfmt) : nat := sum_list (fmt_size <$> fs).

Definition pack_uint (n : nat) (z : Z) : result (list byte) :=
  if decide (is_u n z) then Ok (be_bytes n z) else Raise StructError.

(** [ns] pads with zero bytes or truncates to [n] bytes. *)
Definition pack_one (f : sfmt) (a : sarg) : result (list byte) :=
  match f, a with
  | Fs n, SBytes bs => Ok (take n (bs ++ replicate n x00))
  | Fs _, SInt _ => Raise StructError
  | _, SBytes _ => Raise StructError
  | f, SInt z => pack_uint (fmt_size f) z
  end.

Fixpoint struct_pack (fs : list sfmt) (args : list sarg) : result (list byte) :=
  match fs, args with
  | [], [] => Ok []
  | f :: fs, a :: args =>
      b ← pack_one f a; bs ← struct_pack fs args; Ok (b ++ bs)
  | _, _ => Raise StructError
  end.

Definition unpack_one (f : sfmt) (bs : list byte) : sarg :=
  match f with Fs _ => SBytes bs | _ => SInt (be_val bs) end.

Fixpoint unpack_fields (fs : list sfmt) (bs : list byte) : list sarg :=
  match fs with
  | [] => []
  | f :: fs => unpack_one f (take (fmt_size f) bs) :: unpack_fields fs (drop (fmt_size f) bs)
  end.

(** The buffer must have exactly the size of the format. *)
Definition struct_unpack (fs : list sfmt) (bs : list byte) : result (list sarg) :=
  if decide (length bs = struct_calcsize fs) then Ok (unpack_fields fs bs)
  else Raise StructError.

Lemma pack_uint_ok n z : is_u n z -> pack_uint n z = Ok (be_bytes n z).
Proof. intros. unfold pack_uint. by rewrite decide_True. Qed.

Lemma pack_uint_err n z : ~ is_u n z -> pack_uint n z = Raise StructError.
Proof. intros. unfold pack_uint. by rewrite decide_False. Qed.

Lemma struct_unpack_uint n f z :
  fmt_size f = n -> (forall k, f <> Fs k) -> is_u n z ->
  struct_unpack [f] (be_bytes n z) = Ok [SInt z].
Proof.
  intros Hn Hf Hz. unfold struct_unpack, struct_calcsize. cbn.
  rewrite decide_True by (rewrite length_be_bytes; lia).
  rewrite Hn, take_ge by (rewrite length_be_bytes; lia).
  destruct f as [k| | | |]; [by destruct (Hf k)|..]; cbn; by rewrite be_val_bytes_small.
Qed.

(** ** Parsers *)

Definition parser (A : Type) : Type := list byte -> option (A * list byte).

#[export] Instance parser_ret : MRet parser := fun A a bs => Some (a, bs).
#[export] Instance parser_bind : MBind parser := fun A B f p bs =>
  match p bs with Some (a, rest) => f a rest | None => None end.

Definition p_fail {A} : parser A := fun _ => None.
Definition p_guard (b : bool) : parser unit := fun bs => if b then Some (tt, bs) else None.

(** Exactly [n] bytes. *)
Definition p_take (n : nat) : parser (list byte) := fun bs =>
  if decide (n <= length bs)%nat then Some (take n bs, drop n bs) else None.

(** A big-endian unsigned integer of [n] bytes. *)
Definition p_uint (n : nat) : parser Z := bs ← p_take n; mret (be_val bs).

Fixpoint p_count {A} (n : nat) (p : parser A) : parser (list A) :=
  match n with
  | O => mret []
  | S n => x ← p; xs ← p_count n p; mret (x :: xs)
  end.

(** The parser must consume its whole input. *)
Definition p_run {A} (p : parser A) (bs : list byte) : option A :=
  match p bs with Some (a, []) => Some a | _ => None end.

Lemma p_take_app bs rest n : length bs = n -> p_take n (bs ++ rest) = Some (bs, rest).
Proof.
  intros <-. unfold p_take. rewrite decide_True by (rewrite length_app; lia).
  by rewrite take_app_length, drop_app_length.
Qed.

Lemma p_uint_app n z rest : is_u n z -> p_uint n (be_bytes n z ++ rest) = Some (z, rest).
Proof.
  intros Hz. unfold p_uint, mbind, parser_bind. rewrite p_take_app by apply length_be_bytes.
  unfold mret, parser_ret. by rewrite be_val_bytes_small.
Qed.

Lemma p_count_app {A} (p : parser A) (enc : A -> list byte) xs rest :
  (forall x rest, x ∈ xs -> p (enc x ++ rest) = Some (x, rest)) ->
  p_count (length xs) p (concat (enc <$> xs) ++ rest) = Some (xs, rest).
Proof.
  revert rest; induction xs as [|x xs IH]; intros rest H; [done|].
  cbn. unfold mbind, parser_bind. rewrite <- app_assoc, H by set_solver.
  rewrite IH; [done|]. set_solver.
Qed.

Lemma p_guard_true b bs : b = true -> p_guard b bs = Some (tt, bs).
Proof. by intros ->. Qed.

(** Run a parser over an explicit concatenation. *)
Ltac parse_steps :=
  unfold mbind, parser_bind, mret, parser_ret;
  repeat first
    [ rewrite <- !app_assoc
    | rewrite p_guard_true by done
    | rewrite p_take_app by (autorewrite with py; done)
    | rewrite p_uint_app by (assumption || (unfold is_u; lia)) ].
