(* ===== verification/Text.v ===== *)
(** * Text: the [str] operations the program uses

    A Python [str] is carried as the [string] of its UTF-8 bytes.  Every operation below
    ([rstrip('/')], [split(':')], [replace], ["exist" in s.lower()], ...) looks only for ASCII
    characters, for which working on the UTF-8 bytes and on the code points is the same;
    [str_take] counts characters. *)

From S2P Require Import Prelude Bytes.
From Stdlib Require Export Ascii.

#[global] Open Scope string_scope.
#[global] Open Scope list_scope.
#[global] Open Scope Z_scope.

Definition ascii_Z (c : ascii) : Z := Z.of_N (N_of_ascii c).
Definition Z_ascii (z : Z) : ascii := ascii_of_N (Z.to_N z).

(** [s.encode()] *)
Definition encode (s : string) : list byte := String.list_byte_of_string s.

Lemma encode_app s t : encode (s +:+ t) = encode s ++ encode t.
Proof.
  unfold encode, String.list_byte_of_string.
  induction s as [|c s IH]; [done|]. simpl. f_equal. apply IH.
Qed.

Lemma str_app_assoc s t u : (s +:+ t) +:+ u = s +:+ (t +:+ u).
Proof. induction s as [|c s IH]; [done|]. exact (f_equal (String c) IH). Qed.

Lemma str_app_nil_r s : s +:+ "" = s.
Proof. induction s as [|c s IH]; [done|]. exact (f_equal (String c) IH). Qed.

Lemma str_length_app s t : String.length (s +:+ t) = (String.length s + String.length t)%nat.
Proof. induction s as [|c s IH]; [done|]. exact (f_equal S IH). Qed.

Lemma encode_inj s t : encode s = encode t -> s = t.
Proof.
  intros E. rewrite <- (String.string_of_list_byte_of_string s), <- (String.string_of_list_byte_of_string t).
  unfold encode in E. by rewrite E.
Qed.

Lemma length_encode s : length (encode s) = String.length s.
Proof. unfold encode, String.list_byte_of_string. induction s as [|c s IH]; [done|]. simpl. by f_equal. Qed.

(** ** Joining, stripping, splitting *)

(** [sep.join(parts)] *)
Fixpoint str_join (sep : string) (parts : list string) : string :=
  match parts with
  | [] => ""
  | [p] => p
  | p :: ps => p +:+ sep +:+ str_join sep ps
  end.

(** An f-string, as its pieces. *)
Definition cat (pieces : list string) : string := str_join "" pieces.

(** [s.rstrip(c)] for a one-character argument *)
Fixpoint str_rstrip (c : ascii) (s : string) : string :=
  match s with
  | "" => ""
  | String a s =>
      match str_rstrip c s with
      | "" => if Ascii.eqb a c then "" else String a ""
      | t => String a t
      end
  end.

(** [s.split(c)] for a one-character separator *)
Fixpoint str_split (c : ascii) (s : string) : list string :=
  match s with
  | "" => [""]
  | String a s =>
      let parts := str_split c s in
      if Ascii.eqb a c then "" :: parts
      else match parts with
           | p :: ps => String a p :: ps
           | [] => [String a ""]
           end
  end.

(** [s.lower()] on the ASCII letters *)
Definition ascii_lower (c : ascii) : ascii :=
  let n := ascii_Z c in if (65 <=? n) && (n <=? 90) then Z_ascii (n + 32) else c.
Fixpoint str_lower (s : string) : string :=
  match s with "" => "" | String a s => String (ascii_lower a) (str_lower s) end.

(** [sub in s] *)
Fixpoint str_contains (sub s : string) : bool :=
  String.prefix sub s || match s with "" => false | String _ s => str_contains sub s end.

Lemma prefix_app s t : String.prefix s (s +:+ t) = true.
Proof. induction s as [|c s IH]; [by destruct t|]. change (String c s +:+ t) with (String c (s +:+ t)). cbn [String.prefix]. by destruct (ascii_dec c c). Qed.

(** [s.replace(c, t)] for a one-character pattern *)
Fixpoint str_replace (c : ascii) (t : string) (s : string) : string :=
  match s with
  | "" => ""
  | String a s => if Ascii.eqb a c then t +:+ str_replace c t s else String a (str_replace c t s)
  end.

(** [s[:n]], which counts code points: the bytes after the first of a character go with it *)
Definition continues_char (c : ascii) : bool := (128 <=? ascii_Z c) && (ascii_Z c <? 192).
Fixpoint str_take (n : nat) (s : string) : string :=
  match s with
  | "" => ""
  | String c s =>
      if continues_char c then String c (str_take n s)
      else match n with O => "" | S n => String c (str_take n s) end
  end.
Example str_take_utf8 : str_take 3 "→é1x" = "→é1".
Proof. done. Qed.

(** ** Decimal numbers *)

Definition digit (d : Z) : ascii := Z_ascii (48 + d).
Definition digit_val (c : ascii) : option Z :=
  let n := ascii_Z c in if (48 <=? n) && (n <=? 57) then Some (n - 48) else None.

Fixpoint dec_nonneg (fuel : nat) (z : Z) : string :=
  match fuel with
  | O => ""
  | S fuel =>
      if z <? 10 then String (digit z) ""
      else dec_nonneg fuel (z / 10) +:+ String (digit (z mod 10)) ""
  end.

(** [str(z)], [b'%d' % z] *)
Definition dec (z : Z) : string :=
  let body := dec_nonneg (S (Z.to_nat (Z.log2 (Z.abs z)))) (Z.abs z) in
  if z <? 0 then String "-" body else body.

(** One character of [int(s)]: the accumulator, and whether a digit must follow. *)
Definition int_step (st : option (Z * bool)) (c : ascii) : option (Z * bool) :=
  match st with
  | None => None
  | Some (acc, need) =>
      if Ascii.eqb c "_" then if need then None else Some (acc, true)
      else match digit_val c with
           | Some d => Some (10 * acc + d, false)
           | None => None
           end
  end.

Definition int_digits (s : string) : option Z :=
  match foldl int_step (Some (0, true)) (String.list_ascii_of_string s) with
  | Some (z, false) => Some z
  | _ => None
  end.

(** The ASCII white space that [int] strips. *)
Definition is_space (c : ascii) : bool :=
  let n := ascii_Z c in ((9 <=? n) && (n <=? 13)) || ((28 <=? n) && (n <=? 32)).

(** [s.split()]: the words between white space *)
Fixpoint words_from (word : string) (s : string) : list string :=
  match s with
  | "" => if String.eqb word "" then [] else [word]
  | String c s =>
      if is_space c then (if String.eqb word "" then [] else [word]) ++ words_from "" s
      else words_from (word +:+ String c "") s
  end.
Definition str_words (s : string) : list string := words_from "" s.

Fixpoint str_lstrip_space (s : string) : string :=
  match s with
  | "" => ""
  | String a t => if is_space a then str_lstrip_space t else s
  end.
Fixpoint str_rstrip_space (s : string) : string :=
  match s with
  | "" => ""
  | String a s =>
      match str_rstrip_space s with
      | "" => if is_space a then "" else String a ""
      | t => String a t
      end
  end.

(** [int(s)] for a [str]: an optional sign and decimal digits, underscores between digits. *)
Definition int_of_str (s : string) : result Z :=
  let parse t := match int_digits t with Some z => Ok z | None => Raise ValueError end in
  match str_rstrip_space (str_lstrip_space s) with
  | "" => Raise ValueError
  | String c t =>
      if Ascii.eqb c "-" then Z.opp <$> parse t
      else if Ascii.eqb c "+" then parse t
      else parse (String c t)
  end.

Definition str_forall (P : ascii -> Prop) (s : string) : Prop :=
  Forall P (String.list_ascii_of_string s).

Definition is_digit (c : ascii) : Prop := exists d, 0 <= d < 10 /\ c = digit d.

Lemma digit_cases (P : ascii -> Prop) d :
  0 <= d < 10 ->
  P "0"%char -> P "1"%char -> P "2"%char -> P "3"%char -> P "4"%char ->
  P "5"%char -> P "6"%char -> P "7"%char -> P "8"%char -> P "9"%char -> P (digit d).
Proof.
  intros Hd. assert (d = 0 \/ d = 1 \/ d = 2 \/ d = 3 \/ d = 4 \/ d = 5 \/ d = 6 \/ d = 7 \/ d = 8 \/ d = 9)
    as H by lia.
  by repeat destruct H as [->|H]; [..|subst].
Qed.

Lemma list_ascii_app s t :
  String.list_ascii_of_string (s +:+ t) =
  String.list_ascii_of_string s ++ String.list_ascii_of_string t.
Proof. induction s as [|c s IH]; [done|]. simpl. by f_equal. Qed.

Lemma digit_val_digit d : 0 <= d < 10 -> digit_val (digit d) = Some d.
Proof.
  intros Hd. unfold digit_val.
  assert (ascii_Z (digit d) = 48 + d) as ->.
  { unfold ascii_Z, digit, Z_ascii. rewrite N_ascii_embedding; lia. }
  destruct (48 <=? 48 + d) eqn:E1; [|lia]. destruct (48 + d <=? 57) eqn:E2; [|lia].
  cbn [andb]. f_equal. lia.
Qed.

Lemma int_step_digit acc need d :
  0 <= d < 10 -> int_step (Some (acc, need)) (digit d) = Some (10 * acc + d, false).
Proof.
  intros Hd. unfold int_step.
  assert (Ascii.eqb (digit d) "_" = false) as -> by by apply (digit_cases (fun c => Ascii.eqb c "_" = false)).
  by rewrite digit_val_digit.
Qed.

Lemma dec_nonneg_digits fuel z : 0 <= z -> str_forall is_digit (dec_nonneg fuel z).
Proof.
  revert z; induction fuel as [|fuel IH]; intros z Hz; [constructor|]. simpl.
  destruct (Z.ltb_spec z 10).
  - constructor; [|constructor]. by exists z.
  - unfold str_forall. rewrite list_ascii_app. apply Forall_app_2.
    + apply IH. by apply Z.div_pos.
    + constructor; [|constructor]. exists (z mod 10). split; [by apply Z.mod_pos_bound|done].
Qed.

Lemma dec_nonneg_val fuel z :
  0 <= z < 10 ^ Z.of_nat fuel -> (0 < fuel)%nat ->
  foldl int_step (Some (0, true)) (String.list_ascii_of_string (dec_nonneg fuel z)) = Some (z, false).
Proof.
  revert z; induction fuel as [|fuel IH]; intros z Hz Hf; [lia|]. cbn [dec_nonneg].
  destruct (Z.ltb_spec z 10).
  - cbn [String.list_ascii_of_string foldl]. by rewrite int_step_digit by lia.
  - destruct (decide (fuel = 0)%nat) as [->|]; [simpl in Hz; lia|].
    rewrite list_ascii_app, foldl_app. cbn [String.list_ascii_of_string foldl].
    rewrite Nat2Z.inj_succ, Z.pow_succ_r in Hz by lia.
    rewrite IH; [|split; [apply Z.div_pos; lia|apply Z.div_lt_upper_bound; lia]|lia].
    rewrite int_step_digit by (apply Z.mod_pos_bound; lia).
    repeat f_equal. pose proof (Z.div_mod z 10). lia.
Qed.

Lemma dec_fuel z : 0 <= z -> z < 10 ^ Z.of_nat (S (Z.to_nat (Z.log2 z))).
Proof.
  intros Hz. rewrite Nat2Z.inj_succ, Z2Nat.id by apply Z.log2_nonneg.
  destruct (decide (z = 0)) as [->|]; [done|].
  destruct (Z.log2_spec z) as [_ Hlt]; [lia|]. eapply Z.lt_le_trans; [done|].
  apply Z.pow_le_mono_l. pose proof (Z.log2_nonneg z). lia.
Qed.

Lemma str_strip_id s :
  str_forall (fun c => is_space c = false) s -> str_rstrip_space (str_lstrip_space s) = s.
Proof.
  intros H. assert (str_lstrip_space s = s) as ->.
  { destruct s as [|c s]; [done|]. inversion H as [|?? Hc _]; subst. simpl. by rewrite Hc. }
  unfold str_forall in H. induction s as [|c s IH]; [done|].
  inversion H as [|?? Hc Hs]; subst. simpl. rewrite IH by done. destruct s; [|done]. by rewrite Hc.
Qed.

Lemma digit_not_space c : is_digit c -> is_space c = false.
Proof. intros (d & Hd & ->). by apply (digit_cases (fun c => is_space c = false)). Qed.

Lemma digit_not_sign c : is_digit c -> Ascii.eqb c "-" = false /\ Ascii.eqb c "+" = false.
Proof.
  intros (d & Hd & ->).
  by apply (digit_cases (fun c => Ascii.eqb c "-" = false /\ Ascii.eqb c "+" = false)).
Qed.

(** The shape of the text of a number: an optional sign, and digits that have its value. *)
Lemma dec_split z : exists body,
  dec z = (if z <? 0 then String "-" body else body) /\
  str_forall is_digit body /\ int_digits body = Some (Z.abs z).
Proof.
  exists (dec_nonneg (S (Z.to_nat (Z.log2 (Z.abs z)))) (Z.abs z)). pose proof (Z.abs_nonneg z).
  split; [done|]. split; [by apply dec_nonneg_digits|].
  unfold int_digits. rewrite dec_nonneg_val; [done| |lia]. by split; [|apply dec_fuel].
Qed.

(** The text of a number reads back as the number. *)
Lemma int_of_dec z : int_of_str (dec z) = Ok z.
Proof.
  destruct (dec_split z) as (body & -> & Hd & Hv).
  assert (str_forall (fun c => is_space c = false) body) as Hs
    by exact (Forall_impl _ digit_not_space Hd).
  unfold int_of_str. destruct (Z.ltb_spec z 0).
  - rewrite str_strip_id by by constructor. cbn -[int_digits]. rewrite Hv. cbn. f_equal. lia.
  - rewrite str_strip_id by done. destruct body as [|c s]; [done|].
    inversion Hd as [|?? Hc _]; subst.
    destruct (digit_not_sign c Hc) as [-> ->]. rewrite Hv. f_equal. lia.
Qed.

Lemma dec_inj x y : dec x = dec y -> x = y.
Proof. intros E. pose proof (int_of_dec x) as H. rewrite E, int_of_dec in H. by simplify_eq. Qed.
#[export] Hint Rewrite int_of_dec : py.
