(* ===== verification/Float64.v ===== *)
(** * Binary64: Python's [float], its literals, its comparisons and its formatting

    A [float] is a [spec_float] of the Standard Library at precision 53 and maximal exponent
    1024: IEEE 754 binary64 with round-to-nearest-even, executable in the kernel.  Formatting
    ([f"{x:.1f}"], [f"{x:g}"], [f"{n:,.0f}"], [repr(x)]) rounds the exact rational value of
    the float to nearest-even, as CPython's correctly rounded conversions do. *)

From S2P Require Import Prelude Bytes Text.
From Stdlib Require Export SpecFloat.
From Stdlib Require Import QArith.

#[global] Open Scope Z_scope.

Definition float := spec_float.

Definition fadd : float -> float -> float := SFadd 53 1024.
Definition fsub : float -> float -> float := SFsub 53 1024.
Definition fmul : float -> float -> float := SFmul 53 1024.
Definition fsqrt : float -> float := SFsqrt 53 1024.
Definition fltb : float -> float -> bool := SFltb.
Definition fleb : float -> float -> bool := SFleb.
Definition feqb : float -> float -> bool := SFeqb.

(** The number of binary digits. *)
Lemma digits2_pos_log2 m : Zpos (digits2_pos m) = Z.log2 (Zpos m) + 1.
Proof.
  induction m as [m IH|m IH|]; cbn [digits2_pos]; [| |done].
  - rewrite Pos2Z.inj_succ, IH, Pos2Z.inj_xI, Z.log2_succ_double; lia.
  - rewrite Pos2Z.inj_succ, IH, Pos2Z.inj_xO, Z.log2_double; lia.
Qed.

(** [n / d], correctly rounded, for any integers [n] and [d > 0]: how an integer, a decimal
    literal and the true division of two integers become a [float]. *)
Definition f_of_ratio (n : Z) (d : positive) : float :=
  match n with
  | Z0 => S754_zero false
  | Zpos m => SFdiv 53 1024 (S754_finite false m 0) (S754_finite false d 0)
  | Zneg m => SFdiv 53 1024 (S754_finite true m 0) (S754_finite false d 0)
  end.

Definition f_of_Z (z : Z) : float := f_of_ratio z 1.

Definition f_is_zero (x : float) : bool := match x with S754_zero _ => true | _ => false end.

(** Python's [/] on floats raises on a zero divisor. *)
Definition py_fdiv (x y : float) : result float :=
  if f_is_zero y then Raise ZeroDivisionError else Ok (SFdiv 53 1024 x y).

(** [n / d] on Python integers *)
Definition py_int_div (n d : Z) : result float :=
  match d with
  | Z0 => Raise ZeroDivisionError
  | Zpos d => Ok (f_of_ratio n d)
  | Zneg d => Ok (f_of_ratio (- n) d)
  end.

(** The exact value of a finite float. *)
Definition f_to_Q (x : float) : option Q :=
  match x with
  | S754_zero _ => Some 0%Q
  | S754_finite s m e =>
      let z := if s then Zneg m else Zpos m in
      Some (if 0 <=? e then inject_Z (z * 2 ^ e) else (z # Z.to_pos (2 ^ (- e))))
  | _ => None
  end.

Definition f_sign (x : float) : bool :=
  match x with
  | S754_zero s | S754_infinity s | S754_finite s _ _ => s
  | S754_nan => false
  end.

(** [int(x)]: truncation towards zero. *)
Definition int_of_float (x : float) : result Z :=
  match x with
  | S754_nan => Raise ValueError
  | S754_infinity _ => Raise OverflowError
  | S754_zero _ => Ok 0
  | S754_finite s m e =>
      let a := if 0 <=? e then Zpos m * 2 ^ e else Zpos m / 2 ^ (- e) in
      Ok (if s then - a else a)
  end.

(** ** Decimal literals *)

(** A numeral of the source, [lit_num / 10 ^ lit_scale]. *)
Record lit := Lit { lit_num : Z; lit_scale : nat }.

Fixpoint uint_len (d : Decimal.uint) : nat :=
  match d with
  | Decimal.Nil => 0
  | Decimal.D0 d | Decimal.D1 d | Decimal.D2 d | Decimal.D3 d | Decimal.D4 d
  | Decimal.D5 d | Decimal.D6 d | Decimal.D7 d | Decimal.D8 d | Decimal.D9 d => S (uint_len d)
  end.

Definition lit_of_number (n : Number.number) : option lit :=
  match n with
  | Number.Decimal (Decimal.Decimal i f) =>
      let i' := Z.of_int i in
      let f' := Z.of_uint f in
      let k := uint_len f in
      let a := Z.abs i' * 10 ^ Z.of_nat k + f' in
      Some (Lit (if i' <? 0 then - a else a) k)
  | _ => None
  end.
Definition lit_to_number (l : lit) : option Number.number := None.

Declare Scope lit_scope.
Delimit Scope lit_scope with lit.
Bind Scope lit_scope with lit.
Number Notation lit lit_of_number lit_to_number : lit_scope.

Definition f_of_lit (l : lit) : float := f_of_ratio (lit_num l) (Z.to_pos (10 ^ Z.of_nat (lit_scale l))).

(** ** Formatting *)

(** [n / d] to the nearest integer, ties to even. *)
Definition round_half_even (n : Z) (d : positive) : Z :=
  let q := n / Zpos d in
  match (2 * (n mod Zpos d)) ?= Zpos d with
  | Lt => q
  | Gt => q + 1
  | Eq => if Z.even q then q else q + 1
  end.

Definition pad_left (c : ascii) (n : nat) (s : string) : string :=
  Nat.iter (n - String.length s) (String c) s.

(** [z / 10 ^ k] for [z >= 0], with exactly [k] decimals. *)
Definition fixed_string (k : nat) (z : Z) : string :=
  if decide (k = 0%nat) then dec z
  else dec (z / 10 ^ Z.of_nat k) +:+ "." +:+ pad_left "0" k (dec (z mod 10 ^ Z.of_nat k)).

(** [f"{q:.kf}"] of a rational *)
Definition fmt_fixed_Q (k : nat) (neg : bool) (q : Q) : string :=
  let body := fixed_string k (round_half_even (Z.abs (Qnum q) * 10 ^ Z.of_nat k) (Qden q)) in
  if neg then String "-" body else body.

Definition fmt_nonfinite (x : float) : string :=
  match x with S754_nan => "nan" | S754_infinity true => "-inf" | _ => "inf" end.

(** [f"{x:.kf}"] *)
Definition fmt_fixed (k : nat) (x : float) : string :=
  match f_to_Q x with
  | Some q => fmt_fixed_Q k (f_sign x) q
  | None => fmt_nonfinite x
  end.

(** The decimal exponent of a positive rational: [10 ^ e <= q < 10 ^ (e + 1)]. *)
Fixpoint dec_exp_up (fuel : nat) (e : Z) (n d : Z) : Z :=
  match fuel with
  | O => e
  | S fuel => if 10 * d <=? n then dec_exp_up fuel (e + 1) n (10 * d) else e
  end.
Fixpoint dec_exp_down (fuel : nat) (e : Z) (n d : Z) : Z :=
  match fuel with
  | O => e
  | S fuel => if n <? d then dec_exp_down fuel (e - 1) (10 * n) d else e
  end.
Definition dec_exp (q : Q) : Z :=
  let n := Z.abs (Qnum q) in let d := Zpos (Qden q) in
  if n <? d then dec_exp_down 400 0 n d else dec_exp_up 400 0 n d.

(** [q] rounded to [p] significant digits: the digits as an integer of [p] digits, and the
    decimal exponent of the first one. *)
Definition sig_digits (p : nat) (q : Q) : Z * Z :=
  let e := dec_exp q in
  let k := Z.of_nat p - 1 - e in
  let n := Z.abs (Qnum q) in
  let m := if 0 <=? k then round_half_even (n * 10 ^ k) (Qden q)
           else round_half_even n (Qden q * Z.to_pos (10 ^ (- k))) in
  if 10 ^ Z.of_nat p <=? m then (m / 10, e + 1) else (m, e).

(** Remove the trailing zeros of a digit string after the point, and the point itself. *)
Fixpoint strip_zeros (k : nat) (z : Z) : nat * Z :=
  match k with
  | O => (O, z)
  | S k' => if z mod 10 =? 0 then strip_zeros k' (z / 10) else (k, z)
  end.

Definition exp_string (e : Z) : string :=
  (if e <? 0 then "e-" else "e+") +:+ pad_left "0" 2 (dec (Z.abs e)).

(** A number of [p] significant digits [m] with first exponent [e], without trailing zeros,
    in fixed notation when [lo <= e < hi] and in scientific notation otherwise. *)
Definition general_string (p : nat) (lo hi : Z) (m e : Z) : string :=
  if (lo <=? e) && (e <? hi) then
    if Z.of_nat p - 1 <=? e then dec (m * 10 ^ (e - (Z.of_nat p - 1)))
    else let '(k, z) := strip_zeros (Z.to_nat (Z.of_nat p - 1 - e)) m in fixed_string k z
  else let '(k, z) := strip_zeros (p - 1) m in fixed_string k z +:+ exp_string e.

(** [f"{x:g}"] *)
Definition fmt_g (x : float) : string :=
  match f_to_Q x with
  | None => fmt_nonfinite x
  | Some q =>
      let body := if Qnum q =? 0 then "0"
                  else let '(m, e) := sig_digits 6 q in general_string 6 (-4) 6 m e in
      if f_sign x then String "-" body else body
  end.

(** The float nearest to [m * 10 ^ (e - (p - 1))]. *)
Definition f_of_digits (p : nat) (m e : Z) : float :=
  let k := e - (Z.of_nat p - 1) in
  if 0 <=? k then f_of_ratio (m * 10 ^ k) 1 else f_of_ratio m (Z.to_pos (10 ^ (- k))).

Fixpoint shortest (fuel p : nat) (a : float) (q : Q) : nat * (Z * Z) :=
  let '(m, e) := sig_digits p q in
  match fuel with
  | O => (p, (m, e))
  | S fuel => if feqb (f_of_digits p m e) a then (p, (m, e)) else shortest fuel (S p) a q
  end.

(** [repr(x)]: the fewest significant digits (at most 17) that read back as [x]. *)
Definition float_repr (x : float) : string :=
  match f_to_Q x with
  | None => fmt_nonfinite x
  | Some q =>
      let body :=
        if Qnum q =? 0 then "0.0"
        else let '(p, (m, e)) := shortest 16 1 (SFabs x) q in
             if ((-4 <=? e) && (e <? 16)) && (Z.of_nat p - 1 <=? e)
             then general_string p (-4) 16 m e +:+ ".0"
             else general_string p (-4) 16 m e in
      if f_sign x then String "-" body else body
  end.
