(* ===== verification/FloatOrder.v ===== *)
(** * The order of floats, and sorting

    [fleb] and [fltb] on the floats that are numbers are a total preorder; [f_sort] is
    [list.sort()] on a list of them: the stable sort by [<]. *)

From S2P Require Import Prelude Float64.
From Stdlib Require Import Sorted.

#[local] Open Scope Z_scope.

Definition f_is_nan (x : float) : bool := match x with S754_nan => true | _ => false end.

(** The place of a number in the order, compared lexicographically. *)
Definition rank (x : float) : Z * Z * Z :=
  match x with
  | S754_nan => (0, 0, 0)
  | S754_zero _ => (0, 0, 0)
  | S754_infinity s => (if s then -2 else 2, 0, 0)
  | S754_finite s m e => if s then (-1, - e, Zneg m) else (1, e, Zpos m)
  end.

Definition lex_le (a b : Z * Z * Z) : Prop :=
  a.1.1 < b.1.1 \/ a.1.1 = b.1.1 /\ (a.1.2 < b.1.2 \/ a.1.2 = b.1.2 /\ a.2 <= b.2).

Ltac solve_rank := cbn; split; intros; first [discriminate | reflexivity | lia | exfalso; lia].

Lemma fleb_rank x y : f_is_nan x = false -> f_is_nan y = false -> (fleb x y = true <-> lex_le (rank x) (rank y)).
Proof.
  intros Hx Hy. unfold fleb, SFleb, lex_le.
  destruct x as [sx|sx| |sx mx ex], y as [sy|sy| |sy my ey]; try done; destruct sx, sy; try solve_rank;
    cbn [SFcompare]; change (Pos.compare_cont Eq mx my) with (Pos.compare mx my);
    destruct (Z.compare_spec ex ey); try solve_rank; destruct (Pos.compare_spec mx my); solve_rank.
Qed.

Lemma fltb_negb x y : f_is_nan x = false -> f_is_nan y = false -> fltb x y = negb (fleb y x).
Proof.
  intros Hx Hy. unfold fltb, SFltb, fleb, SFleb.
  destruct x as [sx|sx| |sx mx ex], y as [sy|sy| |sy my ey]; try done; try (by destruct sx); try (by destruct sy);
    try (by destruct sx, sy).
  cbn [SFcompare]. change (Pos.compare_cont Eq mx my) with (Pos.compare mx my).
  change (Pos.compare_cont Eq my mx) with (Pos.compare my mx).
  rewrite (Z.compare_antisym ex ey), (Pos.compare_antisym mx my).
  by destruct sx, sy, (Z.compare ex ey), (Pos.compare mx my).
Qed.

Lemma fleb_total x y : f_is_nan x = false -> f_is_nan y = false -> fleb x y = true \/ fleb y x = true.
Proof. intros Hx Hy. rewrite !fleb_rank by done. unfold lex_le. lia. Qed.

Lemma fleb_trans x y z :
  f_is_nan x = false -> f_is_nan y = false -> f_is_nan z = false ->
  fleb x y = true -> fleb y z = true -> fleb x z = true.
Proof. intros Hx Hy Hz. rewrite !fleb_rank by done. unfold lex_le. lia. Qed.

Lemma fleb_refl x : f_is_nan x = false -> fleb x x = true.
Proof. intros Hx. rewrite fleb_rank by done. unfold lex_le. lia. Qed.

(** ** Sorting *)

Fixpoint f_insert (x : float) (l : list float) : list float :=
  match l with
  | [] => [x]
  | y :: l' => if fltb y x then y :: f_insert x l' else x :: l
  end.
Definition f_sort (l : list float) : list float := foldr f_insert [] l.

Definition numbers (l : list float) : Prop := Forall (fun x => f_is_nan x = false) l.
Definition f_sorted : list float -> Prop := StronglySorted (fun x y => fleb x y = true).

Lemma f_insert_perm x l : f_insert x l ≡ₚ x :: l.
Proof.
  induction l as [|y l IH]; [done|]. cbn. destruct (fltb y x); [|done].
  rewrite IH. by constructor.
Qed.

Lemma f_sort_perm l : f_sort l ≡ₚ l.
Proof. induction l as [|x l IH]; [done|]. cbn. rewrite f_insert_perm. by constructor. Qed.

Lemma length_f_sort l : length (f_sort l) = length l.
Proof. by rewrite (f_sort_perm l). Qed.

Lemma numbers_perm l k : l ≡ₚ k -> numbers k -> numbers l.
Proof. unfold numbers. intros ->. done. Qed.

Lemma f_insert_sorted x l : f_is_nan x = false -> numbers l -> f_sorted l -> f_sorted (f_insert x l).
Proof.
  intros Hx. induction l as [|y l IH]; intros Hl Hs; [repeat constructor|].
  inversion Hl as [|?? Hy Hl']; subst. apply StronglySorted_inv in Hs as [Hs Hys]. cbn.
  rewrite fltb_negb by done. destruct (fleb x y) eqn:E; cbn.
  - repeat constructor; [done..|]. apply List.Forall_forall. intros z Hz%list_elem_of_In.
    pose proof (Forall_elem _ _ _ Hys Hz). pose proof (Forall_elem _ _ _ Hl' Hz). by eapply (fleb_trans x y z).
  - constructor; [by apply IH|]. rewrite f_insert_perm. constructor; [|done].
    destruct (fleb_total x y) as [E'|E']; [done..|congruence|done].
Qed.

Lemma f_sort_sorted l : numbers l -> f_sorted (f_sort l).
Proof.
  induction 1 as [|x l Hx Hl IH]; [constructor|]. apply f_insert_sorted; [done| |done].
  by eapply numbers_perm; [apply f_sort_perm|].
Qed.

(** In a sorted list an earlier element is no greater. *)
Lemma f_sorted_lookup l i j x y :
  numbers l -> f_sorted l -> (i <= j)%nat -> l !! i = Some x -> l !! j = Some y -> fleb x y = true.
Proof.
  intros Hl Hs. revert i j. induction Hs as [|z l Hs IH Hz]; intros i j Hij Hi Hj; [done|].
  inversion Hl as [|?? Hnz Hl']; subst. destruct i as [|i], j as [|j]; cbn in *; simplify_eq; try lia.
  - by apply fleb_refl.
  - apply (Forall_elem _ _ _ Hz). by eapply list_elem_of_lookup_2.
  - apply (IH Hl' i j); [lia|done..].
Qed.
