(* ===== verification/Env.v ===== *)
(** * The environment of a script: its variables, its files, its settings

    The scripts of [sift1m] read their settings from environment variables when they start,
    as texts that [int] and [float] turn into numbers, and their data from files. *)

From S2P Require Import Prelude Text Float64.

(** The variables that are set, and [os.getenv(key, default)]. *)
Definition environment := string -> option string.
Definition getenv (env : environment) (key dflt : string) : string := default dflt (env key).

(** The bytes of the file at a path, or what opening it raises. *)
Definition file_system := string -> result (list Byte.byte).

(** The settings of a benchmark client: the directory of the data, the address of the server,
    the number of workers and the duration of their runs. *)
Record settings := { SIFT : string; ADDR : string; CONC : Z; DUR : float }.

(** ** [float(s)] *)

Definition is_digit_char (c : ascii) : bool := match digit_val c with Some _ => true | None => false end.

(** An underscore is allowed between two digits. *)
Fixpoint drop_underscores (after_digit : bool) (l : list ascii) : option (list ascii) :=
  match l with
  | [] => Some []
  | c :: l =>
      if Ascii.eqb c "_" then
        if after_digit && match l with d :: _ => is_digit_char d | [] => false end
        then drop_underscores false l else None
      else cons c <$> drop_underscores (is_digit_char c) l
  end.

(** The leading digits: their value after [acc], their number, and the rest. *)
Fixpoint read_digits (acc : Z) (n : nat) (l : list ascii) : Z * nat * list ascii :=
  match l with
  | c :: l' => match digit_val c with Some d => read_digits (10 * acc + d) (S n) l' | None => (acc, n, l) end
  | [] => (acc, n, l)
  end.

(** [m * 10^e], correctly rounded *)
Definition f_of_scaled (m e : Z) : float :=
  if 0 <=? e then f_of_Z (m * 10 ^ e) else f_of_ratio m (Z.to_pos (10 ^ (- e))).

(** Digits, perhaps a fraction, perhaps an exponent. *)
Definition read_decimal (l : list ascii) : option float :=
  let '(m, ni, l) := read_digits 0 0 l in
  let '(m, nf, l) := match l with "."%char :: l' => read_digits m 0 l' | _ => (m, 0%nat, l) end in
  if Nat.eqb (ni + nf) 0 then None
  else match l with
  | [] => Some (f_of_scaled m (- Z.of_nat nf))
  | c :: l =>
      if Ascii.eqb (ascii_lower c) "e" then
        let '(s, l) := match l with "-"%char :: l' => (-1, l') | "+"%char :: l' => (1, l') | _ => (1, l) end in
        match read_digits 0 0 l with
        | (e, S _, []) => Some (f_of_scaled m (s * e - Z.of_nat nf))
        | _ => None
        end
      else None
  end.

Definition read_unsigned_float (s : string) : option float :=
  if existsb (String.eqb (str_lower s)) ["inf"; "infinity"] then Some (S754_infinity false)
  else if String.eqb (str_lower s) "nan" then Some S754_nan
  else l ← drop_underscores false (String.list_ascii_of_string s); read_decimal l.

Definition float_of_str (s : string) : result float :=
  let parse t := match read_unsigned_float t with Some x => Ok x | None => Raise ValueError end in
  match str_rstrip_space (str_lstrip_space s) with
  | "" => Raise ValueError
  | String c t =>
      if Ascii.eqb c "-" then SFopp <$> parse t
      else if Ascii.eqb c "+" then parse t
      else parse (String c t)
  end.
