(* ===== verification/PyVal.v ===== *)
(** * Python data as it crosses the program: configuration dictionaries and JSON documents

    [pyval] holds the values the client keeps in dictionaries, hands to the HTTP library as
    [json=...] and gets back from [r.json()]; [json_dumps] is the standard library's
    [json.dumps] with its default separators and [ensure_ascii=True]. *)

From S2P Require Import Prelude Bytes Text Float64.

#[warnings="-register-all"]
Inductive pyval :=
| VNone
| VBool (b : bool)
| VInt (z : Z)
| VFloat (f : float)
| VStr (s : string)
| VList (l : list pyval)
| VDict (d : list (string * pyval)).

(** The induction principle that goes through lists and dictionaries. *)
Section Ind.
Variable P : pyval -> Prop.
Hypothesis HNone : P VNone.
Hypothesis HBool : forall b, P (VBool b).
Hypothesis HInt : forall z, P (VInt z).
Hypothesis HFloat : forall f, P (VFloat f).
Hypothesis HStr : forall s, P (VStr s).
Hypothesis HList : forall l, Forall P l -> P (VList l).
Hypothesis HDict : forall d, Forall (fun kv => P kv.2) d -> P (VDict d).

Fixpoint pyval_ind' (v : pyval) : P v :=
  match v with
  | VNone => HNone
  | VBool b => HBool b
  | VInt z => HInt z
  | VFloat f => HFloat f
  | VStr s => HStr s
  | VList l => HList l ((fix go l : Forall P l :=
      match l with [] => List.Forall_nil _ | v :: l => List.Forall_cons _ _ _ (pyval_ind' v) (go l) end) l)
  | VDict d => HDict d ((fix go d : Forall (fun kv => P kv.2) d :=
      match d with [] => List.Forall_nil _ | kv :: d => List.Forall_cons _ _ _ (pyval_ind' kv.2) (go d) end) d)
  end.
End Ind.

(** [bool(v)] *)
Definition truthy (v : pyval) : bool :=
  match v with
  | VNone => false
  | VBool b => b
  | VInt z => negb (z =? 0)
  | VFloat f => negb (f_is_zero f)
  | VStr s => negb (String.eqb s "")
  | VList l => match l with [] => false | _ => true end
  | VDict d => match d with [] => false | _ => true end
  end.

(** [int(v)] *)
Definition py_int (v : pyval) : result Z :=
  match v with
  | VBool b => Ok (Z.b2z b)
  | VInt z => Ok z
  | VFloat f => int_of_float f
  | VStr s => int_of_str s
  | VNone | VList _ | VDict _ => Raise TypeError
  end.

(** [d.get(k, default)] *)
Definition dict_get_default (k : string) (dflt : pyval) (d : dict pyval) : pyval :=
  default dflt (dict_get k d).

(** ** [json.dumps] *)

(** The code points of a UTF-8 string. *)
Fixpoint code_points (s : string) : list Z :=
  let low c := Z.land (ascii_Z c) 63 in
  match s with
  | "" => []
  | String a s1 =>
      let n := ascii_Z a in
      if n <? 128 then n :: code_points s1
      else match s1 with
        | "" => []
        | String b s2 =>
            if n <? 224 then Z.land n 31 * 64 + low b :: code_points s2
            else match s2 with
              | "" => []
              | String c s3 =>
                  if n <? 240 then Z.land n 15 * 4096 + low b * 64 + low c :: code_points s3
                  else match s3 with
                    | "" => []
                    | String d s4 =>
                        Z.land n 7 * 262144 + low b * 4096 + low c * 64 + low d :: code_points s4
                    end
              end
        end
  end.

Definition hex_digit (z : Z) : ascii := if z <? 10 then digit z else Z_ascii (87 + z).

(** [repr(s)]: in single quotes, or in double ones if that spares escapes.  Characters outside
    ASCII are taken to be printable. *)
Definition repr_char (quote c : ascii) : string :=
  let n := ascii_Z c in
  if Ascii.eqb c quote || Ascii.eqb c "\" then String "\" (String c "")
  else if n =? 10 then "\n" else if n =? 13 then "\r" else if n =? 9 then "\t"
  else if (n <? 32) || (n =? 127) then String "\" (String "x" (String (hex_digit (n / 16)) (String (hex_digit (n mod 16)) "")))
  else String c "".
Definition double_quote : ascii := "034".
Fixpoint repr_body (quote : ascii) (s : string) : string :=
  match s with "" => "" | String c s => repr_char quote c +:+ repr_body quote s end.
Definition py_repr (s : string) : string :=
  let quote := if str_contains "'" s && negb (str_contains (String double_quote "") s) then double_quote else "'"%char in
  String quote (repr_body quote s +:+ String quote "").
Example py_repr_bulk : py_repr "bulk" = "'bulk'".
Proof. done. Qed.
Example py_repr_escapes : py_repr (String "009" "it's\") = cat [String double_quote "\tit's\\"; String double_quote ""].
Proof. done. Qed.
(** [f"\\u{n:04x}"] *)
Definition u_escape (n : Z) : string :=
  String "\" (String "u" (String (hex_digit (n / 4096 mod 16)) (String (hex_digit (n / 256 mod 16))
    (String (hex_digit (n / 16 mod 16)) (String (hex_digit (n mod 16)) ""))))).

Definition json_escape (n : Z) : string :=
  if n =? 34 then String "\" (String "034" "")
  else if n =? 92 then "\\"
  else if n =? 10 then "\n"
  else if n =? 13 then "\r"
  else if n =? 9 then "\t"
  else if n =? 12 then "\f"
  else if n =? 8 then "\b"
  else if (32 <=? n) && (n <=? 126) then String (Z_ascii n) ""
  else if n <? 65536 then u_escape n
  else u_escape (55296 + Z.land (Z.shiftr (n - 65536) 10) 1023)
       +:+ u_escape (56320 + Z.land (n - 65536) 1023).

Definition dquote : string := String "034" "".

(** A text with the double quotes written as backquotes. *)
Definition q (s : string) : string := str_replace "`" dquote s.

Definition json_string (s : string) : string :=
  dquote +:+ foldr (fun n t => json_escape n +:+ t) "" (code_points s) +:+ dquote.

(** [json.dumps(v)] *)
Fixpoint json_dumps (v : pyval) : string :=
  match v with
  | VNone => "null"
  | VBool true => "true"
  | VBool false => "false"
  | VInt z => dec z
  | VFloat f =>
      match f with
      | S754_nan => "NaN"
      | S754_infinity false => "Infinity"
      | S754_infinity true => "-Infinity"
      | _ => float_repr f
      end
  | VStr s => json_string s
  | VList l => "[" +:+ str_join ", " (json_dumps <$> l) +:+ "]"
  | VDict d => "{" +:+ str_join ", " ((fun kv => json_string kv.1 +:+ ": " +:+ json_dumps kv.2) <$> d) +:+ "}"
  end.
