(* ===== verification/JsonRead.v ===== *)
(** * Reading JSON back

    The server reads the JSON the client writes ([json.dumps] for filters, a format string for
    payloads).  [json_read] is a reader of JSON texts without fractional numbers, into
    [pyval]; it gives meaning to those bytes, and [json_read_dumps] says that what
    [json.dumps] prints is read back as the value that was printed.  Escapes above U+007F are
    not read (the reader answers [None]). *)

From S2P Require Import Prelude Bytes Text Float64 PyVal.

Fixpoint skip_ws (s : string) : string :=
  match s with
  | String c t => if existsb (Ascii.eqb c) [" "; "009"; "010"; "013"]%char then skip_ws t else s
  | "" => ""
  end.

(** [tok s]: [s] without a leading [tok], after white space. *)
Fixpoint expect (tok s : string) : option string :=
  match tok, s with
  | "", _ => Some s
  | String a tok, String b s => if Ascii.eqb a b then expect tok s else None
  | _, _ => None
  end.

Definition hex_val (c : ascii) : option Z :=
  let n := ascii_Z c in
  if (48 <=? n) && (n <=? 57) then Some (n - 48)
  else if (97 <=? n) && (n <=? 102) then Some (n - 87)
  else if (65 <=? n) && (n <=? 70) then Some (n - 55)
  else None.

Definition hex4 (a b c d : ascii) : option ascii :=
  a ← hex_val a; b ← hex_val b; c ← hex_val c; d ← hex_val d;
  let n := 4096 * a + 256 * b + 16 * c + d in
  if n <? 128 then Some (Z_ascii n) else None.

Definition unescape (c : ascii) : option ascii :=
  if Ascii.eqb c "n" then Some "010"%char
  else if Ascii.eqb c "r" then Some "013"%char
  else if Ascii.eqb c "t" then Some "009"%char
  else if Ascii.eqb c "f" then Some "012"%char
  else if Ascii.eqb c "b" then Some "008"%char
  else if Ascii.eqb c "\" || Ascii.eqb c "/" || Ascii.eqb c "034" then Some c
  else None.

Definition string_cons (c : ascii) (r : option (string * string)) : option (string * string) :=
  '(s, t) ← r; Some (String c s, t).

(** The rest of a string literal, after the opening quote. *)
Fixpoint read_string (s : string) : option (string * string) :=
  match s with
  | "" => None
  | String c t =>
      if Ascii.eqb c "034" then Some ("", t)
      else if Ascii.eqb c "\" then
        match t with
        | String "u" (String h1 (String h2 (String h3 (String h4 t)))) =>
            match hex4 h1 h2 h3 h4 with Some x => string_cons x (read_string t) | None => None end
        | String e t =>
            match unescape e with Some x => string_cons x (read_string t) | None => None end
        | "" => None
        end
      else string_cons c (read_string t)
  end.

(** The longest run of digits. *)
Fixpoint read_digits (s : string) : string * string :=
  match s with
  | String c t => match digit_val c with
                  | Some _ => let '(d, t) := read_digits t in (String c d, t)
                  | None => ("", s)
                  end
  | "" => ("", "")
  end.

Definition read_int (s : string) : option (Z * string) :=
  match s with
  | "" => None
  | String c t =>
      if Ascii.eqb c "-" then let '(d, t) := read_digits t in z ← int_digits d; Some (- z, t)
      else let '(d, t) := read_digits s in z ← int_digits d; Some (z, t)
  end.

Fixpoint read_value (fuel : nat) (s : string) : option (pyval * string) :=
  match fuel with
  | O => None
  | S fuel =>
      match skip_ws s with
      | "" => None
      | String c t =>
          if Ascii.eqb c "n" then t ← expect "ull" t; Some (VNone, t)
          else if Ascii.eqb c "t" then t ← expect "rue" t; Some (VBool true, t)
          else if Ascii.eqb c "f" then t ← expect "alse" t; Some (VBool false, t)
          else if Ascii.eqb c "034" then '(x, t) ← read_string t; Some (VStr x, t)
          else if Ascii.eqb c "[" then
            match expect "]" (skip_ws t) with
            | Some t => Some (VList [], t)
            | None => '(l, t) ← read_list fuel t; Some (VList l, t)
            end
          else if Ascii.eqb c "{" then
            match expect "}" (skip_ws t) with
            | Some t => Some (VDict [], t)
            | None => '(d, t) ← read_members fuel t; Some (VDict d, t)
            end
          else '(z, t) ← read_int (String c t); Some (VInt z, t)
      end
  end
with read_list (fuel : nat) (s : string) : option (list pyval * string) :=
  match fuel with
  | O => None
  | S fuel =>
      '(v, t) ← read_value fuel s;
      match expect "," (skip_ws t) with
      | Some t => '(l, t) ← read_list fuel t; Some (v :: l, t)
      | None => t ← expect "]" (skip_ws t); Some ([v], t)
      end
  end
with read_members (fuel : nat) (s : string) : option (list (string * pyval) * string) :=
  match fuel with
  | O => None
  | S fuel =>
      t ← expect dquote (skip_ws s); '(k, t) ← read_string t;
      t ← expect ":" (skip_ws t); '(v, t) ← read_value fuel t;
      match expect "," (skip_ws t) with
      | Some t => '(d, t) ← read_members fuel t; Some ((k, v) :: d, t)
      | None => t ← expect "}" (skip_ws t); Some ([(k, v)], t)
      end
  end.

(** A whole text: one value and nothing but white space after it. *)
Definition json_read (s : string) : option pyval :=
  '(v, t) ← read_value (S (String.length s)) s;
  match skip_ws t with "" => Some v | _ => None end.

(** ** What [json.dumps] prints is read back *)

(** Values without floats whose strings are ASCII. *)
Definition str_ascii (s : string) : bool :=
  forallb (fun c => ascii_Z c <? 128) (String.list_ascii_of_string s).

Fixpoint json_plain (v : pyval) : bool :=
  match v with
  | VFloat _ => false
  | VStr s => str_ascii s
  | VList l => forallb json_plain l
  | VDict d => forallb (fun kv => str_ascii kv.1 && json_plain kv.2) d
  | _ => true
  end.

(** The fuel that reading a value needs. *)
Fixpoint json_size (v : pyval) : nat :=
  match v with
  | VList l => S (sum_list_with (fun v => S (json_size v)) l)
  | VDict d => S (sum_list_with (fun kv => S (json_size kv.2)) d)
  | _ => 1
  end.

(** A text that does not continue a number. *)
Definition stops (s : string) : Prop :=
  match s with String c _ => digit_val c = None | "" => True end.

Lemma read_string_escape c t :
  ascii_Z c < 128 -> read_string (json_escape (ascii_Z c) +:+ t) = string_cons c (read_string t).
Proof. destruct c as [[] [] [] [] [] [] [] []]; intros Hc; try reflexivity; vm_compute in Hc; discriminate Hc. Qed.

Lemma read_json_string s rest :
  str_ascii s = true ->
  read_string (foldr (fun n t => json_escape n +:+ t) "" (code_points s) +:+ dquote +:+ rest) =
  Some (s, rest).
Proof.
  induction s as [|c s IH]; [done|]. unfold str_ascii. simpl.
  intros [Hc Hs]%andb_true_iff. rewrite Hc. cbn [foldr]. rewrite str_app_assoc, read_string_escape by lia.
  by rewrite IH.
Qed.

Lemma read_digits_app body rest :
  str_forall is_digit body -> stops rest -> read_digits (body +:+ rest) = (body, rest).
Proof.
  unfold str_forall. induction body as [|c s IH]; intros Hd Hr.
  - destruct rest as [|c rest]; [done|]. simpl in *. by rewrite Hr.
  - inversion Hd as [|?? (d & Hd' & ->) Hs]; subst. simpl. rewrite IH by done.
    by rewrite digit_val_digit.
Qed.

Lemma read_int_dec z rest : stops rest -> read_int (dec z +:+ rest) = Some (z, rest).
Proof.
  intros Hr. destruct (dec_split z) as (body & -> & Hd & Hv). destruct (Z.ltb_spec z 0).
  - simpl. rewrite read_digits_app by done. rewrite Hv. cbn. do 2 f_equal. lia.
  - destruct body as [|c s]; [done|]. unfold read_int.
    change (String c s +:+ rest) with (String c (s +:+ rest)).
    inversion Hd as [|?? Hc _]; subst. destruct (digit_not_sign c Hc) as [-> _].
    change (String c (s +:+ rest)) with (String c s +:+ rest).
    rewrite read_digits_app by done. rewrite Hv. cbn. do 2 f_equal. lia.
Qed.

Lemma read_list_space fuel s : read_list fuel (String " " s) = read_list fuel s.
Proof. by destruct fuel as [|[|fuel]]. Qed.

Lemma read_members_space fuel s : read_members fuel (String " " s) = read_members fuel s.
Proof. by destruct fuel. Qed.

Lemma read_value_space fuel s : read_value fuel (String " " s) = read_value fuel s.
Proof. by destruct fuel. Qed.

(** Not a character that starts another kind of value. *)
Definition no_mark (c : ascii) : Prop :=
  forall x, In x [" "; "009"; "010"; "013"; "n"; "t"; "f"; "034"; "["; "{"]%char -> Ascii.eqb c x = false.

(** The tests on the first character of a value send a digit or a minus sign to [read_int]. *)
Lemma read_value_number fuel c t :
  no_mark c ->
  read_value (S fuel) (String c t) = '(z, t) ← read_int (String c t); Some (VInt z, t).
Proof.
  intros Hc. cbn [read_value skip_ws existsb].
  rewrite !Hc by (simpl; tauto). cbn [orb]. by rewrite !Hc by (simpl; tauto).
Qed.

Lemma number_head z : exists c t, dec z = String c t /\
  no_mark c.
Proof.
  destruct (dec_split z) as (body & -> & Hd & Hv).
  destruct (z <? 0).
  - eexists _, _; split; [done|]. intros x Hx. simpl in Hx. by repeat destruct Hx as [<-|Hx].
  - destruct body as [|c s]; [done|]. eexists _, _; split; [done|].
    inversion Hd as [|?? (d & Hd' & ->) _]; subst. intros x Hx. simpl in Hx.
    by repeat destruct Hx as [<-|Hx]; try apply (digit_cases (fun c => Ascii.eqb c _ = false)).
Qed.

Lemma str_join_cons sep p ps : ps <> [] -> str_join sep (p :: ps) = p +:+ sep +:+ str_join sep ps.
Proof. by destruct ps. Qed.

Definition reads (v : pyval) : Prop := forall fuel rest,
  json_plain v = true -> (json_size v <= fuel)%nat -> stops rest ->
  read_value fuel (json_dumps v +:+ rest) = Some (v, rest).

(** The punctuation [json.dumps] writes. *)
Lemma expect_comma x : expect "," (skip_ws (", " +:+ x)) = Some (String " " x).
Proof. done. Qed.
Lemma expect_bracket x : expect "]" (skip_ws ("]" +:+ x)) = Some x.
Proof. done. Qed.
Lemma expect_brace x : expect "}" (skip_ws ("}" +:+ x)) = Some x.
Proof. done. Qed.
Lemma expect_quote x : expect dquote (skip_ws (dquote +:+ x)) = Some x.
Proof. done. Qed.
Lemma expect_colon x : expect ":" (skip_ws (": " +:+ x)) = Some (String " " x).
Proof. done. Qed.
Lemma no_comma_bracket x : expect "," (skip_ws ("]" +:+ x)) = None.
Proof. done. Qed.
Lemma no_comma_brace x : expect "," (skip_ws ("}" +:+ x)) = None.
Proof. done. Qed.
Create Rewrite HintDb json.
#[local] Hint Rewrite str_app_assoc expect_comma expect_bracket expect_brace expect_quote
  expect_colon no_comma_bracket no_comma_brace read_list_space read_members_space
  read_value_space : json.
Ltac json := repeat (autorewrite with json; cbn [mbind option_bind]).

Lemma read_list_dumps l fuel rest :
  Forall reads l -> l <> [] -> forallb json_plain l = true ->
  (sum_list_with (fun v => S (json_size v)) l <= fuel)%nat ->
  read_list fuel (str_join ", " (json_dumps <$> l) +:+ "]" +:+ rest) = Some (l, rest).
Proof.
  intros Hl. revert fuel. induction Hl as [|v l Hv Hl IH]; intros fuel Hne Hp Hf; [done|].
  simpl in Hp, Hf. apply andb_true_iff in Hp as [Hpv Hpl].
  destruct fuel as [|fuel]; [lia|]. cbn [read_list]. rewrite fmap_cons.
  destruct l as [|v' l].
  - cbn [fmap list_fmap str_join]. rewrite Hv by (done || lia). by json.
  - rewrite str_join_cons by done. json. rewrite Hv by (done || lia). json.
    by rewrite IH by (done || lia).
Qed.

Lemma read_members_dumps d fuel rest :
  Forall (fun kv => reads kv.2) d -> d <> [] ->
  forallb (fun kv => str_ascii kv.1 && json_plain kv.2) d = true ->
  (sum_list_with (fun kv => S (json_size kv.2)) d <= fuel)%nat ->
  read_members fuel (str_join ", "
    ((fun kv => json_string kv.1 +:+ ": " +:+ json_dumps kv.2) <$> d) +:+ "}" +:+ rest) = Some (d, rest).
Proof.
  intros Hd. revert fuel. induction Hd as [|[k v] d Hv Hd IH]; intros fuel Hne Hp Hf; [done|].
  simpl in Hp, Hf, Hv. apply andb_true_iff in Hp as [[Hk Hpv]%andb_true_iff Hpd].
  destruct fuel as [|fuel]; [lia|]. cbn [read_members]. rewrite fmap_cons. cbn [fst snd].
  unfold json_string at 1. destruct d as [|kv' d].
  - cbn [fmap list_fmap str_join]. json. rewrite read_json_string by done. json.
    rewrite Hv by (done || lia). by json.
  - rewrite str_join_cons by done. json. rewrite read_json_string by done. json.
    rewrite Hv by (done || lia). json. by rewrite IH by (done || lia).
Qed.

Lemma read_value_quote fuel s :
  read_value (S fuel) (dquote +:+ s) = '(x, t) ← read_string s; Some (VStr x, t).
Proof. done. Qed.

Lemma expect_one c s t : expect (String c "") s = Some t -> s = String c t.
Proof. destruct s as [|a s]; [done|]. simpl. destruct (Ascii.eqb_spec c a); [|done]. by intros [= ->]; subst. Qed.

(** A non-empty list does not begin with a closing bracket, nor an object with a brace. *)
Lemma read_value_bracket fuel s l t :
  read_list fuel s = Some (l, t) ->
  read_value (S fuel) ("[" +:+ s) = Some (VList l, t).
Proof.
  intros H. change (read_value (S fuel) ("[" +:+ s)) with
    (match expect "]" (skip_ws s) with
     | Some t => Some (VList [], t)
     | None => '(l, t) ← read_list fuel s; Some (VList l, t)
     end).
  destruct (expect "]" (skip_ws s)) as [t'|] eqn:E; [|by rewrite H].
  apply expect_one in E. destruct fuel as [|[|fuel]]; [done..|].
  cbn [read_list read_value] in H. rewrite E in H. done.
Qed.

Lemma read_value_brace fuel s d t :
  read_members fuel s = Some (d, t) ->
  read_value (S fuel) ("{" +:+ s) = Some (VDict d, t).
Proof.
  intros H. change (read_value (S fuel) ("{" +:+ s)) with
    (match expect "}" (skip_ws s) with
     | Some t => Some (VDict [], t)
     | None => '(d, t) ← read_members fuel s; Some (VDict d, t)
     end).
  destruct (expect "}" (skip_ws s)) as [t'|] eqn:E; [|by rewrite H].
  apply expect_one in E. destruct fuel as [|fuel]; [done|].
  cbn [read_members] in H. rewrite E in H. done.
Qed.

Lemma read_value_dumps v : reads v.
Proof.
  induction v as [|b|z|f|s|l IH|d IH] using pyval_ind'; intros fuel rest Hp Hf Hr;
    (destruct fuel as [|fuel]; [simpl in Hf; lia|]); [done|by destruct b| |done| | |].
  - destruct (number_head z) as (c & t & E & Hc). cbn [json_dumps]. rewrite E at 1.
    change (String c t +:+ rest) with (String c (t +:+ rest)).
    rewrite read_value_number by done.
    change (String c (t +:+ rest)) with (String c t +:+ rest). by rewrite <- E, read_int_dec.
  - cbn [json_dumps]. unfold json_string. json. by rewrite read_value_quote, read_json_string.
  - destruct l as [|v l]; [done|]. cbn [json_dumps json_size] in *. json.
    apply read_value_bracket, read_list_dumps; [done|done|done|lia].
  - destruct d as [|kv d]; [done|]. cbn [json_dumps json_size] in *. json.
    apply read_value_brace, read_members_dumps; [done|done|done|lia].
Qed.

(** ** The length of a text bounds the fuel its reading needs *)

Lemma length_dec z : (1 <= String.length (dec z))%nat.
Proof. destruct (number_head z) as (c & t & -> & _). cbn. lia. Qed.

Lemma length_str_join {A} (f : A -> string) (size : A -> nat) sep l :
  (1 <= String.length sep)%nat -> Forall (fun x => size x <= String.length (f x))%nat l ->
  (sum_list_with (fun x => S (size x)) l <= S (String.length (str_join sep (f <$> l))))%nat.
Proof.
  intros Hs. induction 1 as [|x l Hx Hl IH]; [simpl; lia|]. rewrite fmap_cons.
  destruct l as [|y l]; [simpl in *; lia|].
  rewrite str_join_cons by done. rewrite !str_length_app. cbn [sum_list_with] in *. lia.
Qed.

Lemma length_json_dumps v : json_plain v = true -> (json_size v <= String.length (json_dumps v))%nat.
Proof.
  induction v as [|b|z|f|s|l IH|d IH] using pyval_ind'; intros Hp.
  - cbn; lia.
  - destruct b; cbn; lia.
  - apply length_dec.
  - done.
  - cbn [json_dumps json_size]. unfold json_string. rewrite !str_length_app. cbn. lia.
  - cbn [json_dumps json_size json_plain] in *. rewrite !str_length_app. cbn [String.length].
    pose proof (length_str_join json_dumps json_size ", " l) as H.
    assert (Forall (fun x => json_size x <= String.length (json_dumps x))%nat l) as HF; [|specialize (H ltac:(cbn; lia) HF); lia].
    rewrite forallb_forall in Hp. apply List.Forall_forall. intros x Hx.
    exact (proj1 (List.Forall_forall _ _) IH x Hx (Hp x Hx)).
  - cbn [json_dumps json_size json_plain] in *. rewrite !str_length_app. cbn [String.length].
    pose proof (length_str_join (fun kv => json_string kv.1 +:+ ": " +:+ json_dumps kv.2)
      (fun kv => json_size kv.2) ", " d) as H.
    assert (Forall (fun kv => json_size kv.2 <=
      String.length (json_string kv.1 +:+ ": " +:+ json_dumps kv.2))%nat d) as HF; [|specialize (H ltac:(cbn; lia) HF); lia].
    rewrite forallb_forall in Hp. apply List.Forall_forall. intros x Hx.
    specialize (Hp x Hx). apply andb_true_iff in Hp as [_ Hp].
    pose proof (proj1 (List.Forall_forall _ _) IH x Hx Hp). rewrite !str_length_app. lia.
Qed.

Lemma json_read_app v rest :
  json_plain v = true -> stops rest ->
  read_value (S (String.length (json_dumps v +:+ rest))) (json_dumps v +:+ rest) = Some (v, rest).
Proof.
  intros Hp Hr. apply read_value_dumps; [done| |done].
  pose proof (length_json_dumps v Hp). rewrite str_length_app. lia.
Qed.

Lemma json_read_dumps v : json_plain v = true -> json_read (json_dumps v) = Some v.
Proof.
  intros Hp. unfold json_read. pose proof (json_read_app v "" Hp I) as H.
  rewrite str_app_nil_r in H. by rewrite H.
Qed.
