(* ===== verification/F32.v ===== *)
(** * Binary32: the single-precision floats the vectors are made of

    On every wire of the program a vector is a sequence of float32 bit patterns.  A float32 is
    here its bit pattern, a [Z] in [[0, 2^32)]; [f32_value] is the Python float it widens to
    (exactly) and [f32_round] the bit pattern of the nearest float32 of a Python float
    (round-to-nearest-even), which is what [struct.pack(">f", x)] stores.  NaN payloads are
    not represented: every NaN has the pattern [0x7fc00000]. *)

From S2P Require Import Prelude Bytes Float64.

Definition f32_nan : Z := 2143289344.

Definition f32_sign (w : Z) : bool := Z.testbit w 31.
Definition f32_exp (w : Z) : Z := Z.land (Z.shiftr w 23) 255.
Definition f32_man (w : Z) : Z := Z.land w 8388607.

Definition is_f32 (w : Z) : Prop := is_u 4 w.
Definition is_f32_nan (w : Z) : bool := (f32_exp w =? 255) && negb (f32_man w =? 0).

(** The widening conversion float32 -> float64. *)
Definition f32_value (w : Z) : float :=
  let s := f32_sign w in
  let signed m := if s then - m else m in
  if f32_exp w =? 255 then if f32_man w =? 0 then S754_infinity s else S754_nan
  else if f32_exp w =? 0 then binary_normalize 53 1024 (signed (f32_man w)) (-149) s
  else binary_normalize 53 1024 (signed (f32_man w + 8388608)) (f32_exp w - 150) s.

Definition f32_pack (s : bool) (biased m : Z) : Z :=
  (if s then 2147483648 else 0) + biased * 8388608 + m.

(** The bit pattern of a binary32 value. *)
Definition f32_bits (x : spec_float) : Z :=
  match x with
  | S754_nan => f32_nan
  | S754_infinity s => f32_pack s 255 0
  | S754_zero s => f32_pack s 0 0
  | S754_finite s m e =>
      if Zpos m <? 8388608 then f32_pack s 0 (Zpos m)
      else f32_pack s (e + 150) (Zpos m - 8388608)
  end.

(** The narrowing conversion float64 -> float32. *)
Definition f32_narrow (x : float) : spec_float :=
  match x with
  | S754_finite s m e => binary_round 24 128 s m e
  | _ => x
  end.
Definition f32_round (x : float) : Z := f32_bits (f32_narrow x).

(** [struct.pack(">f", x)]: a finite float too large for binary32 is refused. *)
Definition pack_f32 (x : float) : result (list byte) :=
  match x, f32_narrow x with
  | S754_finite _ _ _, S754_infinity _ => Raise OverflowError
  | _, y => Ok (be_bytes 4 (f32_bits y))
  end.

(** ** The conversions are inverse on float32 values *)

Lemma iter_xO m d : Zpos (Pos.iter xO m d) = Zpos m * 2 ^ Zpos d.
Proof.
  rewrite <- Pos2Z.inj_pow. induction d as [|d IH] using Pos.peano_ind; [cbn; lia|].
  rewrite Pos.iter_succ, Pos.pow_succ_r. lia.
Qed.

Lemma iter_pos_iter {A} (f : A -> A) p x : iter_pos f p x = Pos.iter f x p.
Proof.
  revert x; induction p as [p IH|p IH|]; intros x; cbn [iter_pos Pos.iter]; [|by rewrite !IH|done].
  by rewrite !IH, <- !Pos.iter_swap.
Qed.

(** Shifting right by bits that are all zero is exact. *)
Lemma shr_exact p m :
  iter_pos shr_1 p (Build_shr_record (Zpos (Pos.iter xO m p)) false false) =
  Build_shr_record (Zpos m) false false.
Proof.
  rewrite iter_pos_iter. induction p as [|p IH] using Pos.peano_ind; [done|].
  rewrite Pos.iter_succ_r, Pos.iter_succ. apply IH.
Qed.

Lemma digits2_iter_xO m p : Zpos (digits2_pos (Pos.iter xO m p)) = Zpos (digits2_pos m) + Zpos p.
Proof.
  induction p as [|p IH] using Pos.peano_ind; [cbn; lia|].
  rewrite Pos.iter_succ. cbn [digits2_pos]. lia.
Qed.

Lemma shr_fexp_canonical prec emax m e :
  fexp prec emax (Zpos (digits2_pos m) + e) = e ->
  shr_fexp prec emax (Zpos m) e loc_Exact = (Build_shr_record (Zpos m) false false, e).
Proof. intros H. unfold shr_fexp, Zdigits2. by rewrite H, Z.sub_diag. Qed.

Lemma round_canonical prec emax s m e :
  fexp prec emax (Zpos (digits2_pos m) + e) = e -> e <= emax - prec ->
  binary_round_aux prec emax s (Zpos m) e loc_Exact = S754_finite s m e.
Proof.
  intros H He. unfold binary_round_aux. rewrite shr_fexp_canonical by done.
  cbn [shr_m loc_of_shr_record round_nearest_even]. rewrite shr_fexp_canonical by done.
  cbn [shr_m]. by rewrite (proj2 (Z.leb_le _ _) He).
Qed.

Lemma shr_fexp_shifted prec emax m e p :
  fexp prec emax (Zpos (digits2_pos m) + (e + Zpos p)) = e + Zpos p ->
  shr_fexp prec emax (Zpos (Pos.iter xO m p)) e loc_Exact =
  (Build_shr_record (Zpos m) false false, e + Zpos p).
Proof.
  intros H. unfold shr_fexp, Zdigits2. rewrite digits2_iter_xO.
  replace (Zpos (digits2_pos m) + Zpos p + e) with (Zpos (digits2_pos m) + (e + Zpos p)) by lia.
  rewrite H. replace (e + Zpos p - e) with (Zpos p) by lia.
  cbn [shr shr_record_of_loc]. by rewrite shr_exact.
Qed.

Lemma round_shifted prec emax s m e p :
  fexp prec emax (Zpos (digits2_pos m) + (e + Zpos p)) = e + Zpos p -> e + Zpos p <= emax - prec ->
  binary_round_aux prec emax s (Zpos (Pos.iter xO m p)) e loc_Exact = S754_finite s m (e + Zpos p).
Proof.
  intros H He. unfold binary_round_aux. rewrite shr_fexp_shifted by done.
  cbn [shr_m loc_of_shr_record round_nearest_even]. rewrite shr_fexp_canonical by done.
  cbn [shr_m]. by rewrite (proj2 (Z.leb_le _ _) He).
Qed.

(** Widening a canonical binary32 number and narrowing it again is the identity. *)
Lemma narrow_widen s m e :
  fexp 24 128 (Zpos (digits2_pos m) + e) = e -> e <= 104 ->
  f32_narrow (binary_round 53 1024 s m e) = S754_finite s m e.
Proof.
  intros H He. assert (-149 <= e /\ Zpos (digits2_pos m) <= 24) as [He' Hd].
  { unfold fexp, emin in H. lia. }
  destruct (53 - Zpos (digits2_pos m)) as [|p|p] eqn:Hp; [lia| |lia].
  unfold binary_round at 1, shl_align at 1.
  replace (fexp 53 1024 (Zpos (digits2_pos m) + e)) with (e - Zpos p) by (unfold fexp, emin; lia).
  replace (e - Zpos p - e) with (Zneg p) by lia.
  rewrite round_canonical; [|rewrite digits2_iter_xO; unfold fexp, emin; lia|lia].
  unfold f32_narrow, binary_round, shl_align. rewrite digits2_iter_xO.
  replace (Zpos (digits2_pos m) + Zpos p + (e - Zpos p)) with (Zpos (digits2_pos m) + e) by lia.
  rewrite H. replace (e - (e - Zpos p)) with (Zpos p) by lia.
  replace e with (e - Zpos p + Zpos p) at 2 by lia.
  apply round_shifted; rewrite ?Z.sub_add; [done|lia].
Qed.

Lemma f32_fields w : is_f32 w ->
  w = f32_pack (f32_sign w) (f32_exp w) (f32_man w) /\ 0 <= f32_exp w < 256 /\ 0 <= f32_man w < 8388608.
Proof.
  unfold is_f32, is_u, f32_pack, f32_sign, f32_exp, f32_man. intros Hw. change (256 ^ Z.of_nat 4) with 4294967296 in Hw.
  change 255 with (Z.ones 8). change 8388607 with (Z.ones 23). rewrite !Z.land_ones by lia.
  rewrite Z.shiftr_div_pow2 by lia. change (2 ^ 23) with 8388608. change (2 ^ 8) with 256.
  assert (Z.testbit w 31 = negb (w / 2147483648 =? 0)) as ->.
  { rewrite Z.testbit_eqb by lia. change (2 ^ 31) with 2147483648.
    rewrite Z.mod_small by (split; [apply Z.div_pos|apply Z.div_lt_upper_bound]; lia).
    assert (w / 2147483648 < 2) by (apply Z.div_lt_upper_bound; lia).
    assert (0 <= w / 2147483648) by (apply Z.div_pos; lia).
    assert (w / 2147483648 = 0 \/ w / 2147483648 = 1) as [-> | ->] by lia; done. }
  split; [|split; apply Z.mod_pos_bound; lia].
  destruct (Z.eqb_spec (w / 2147483648) 0); cbn [negb]; Z.div_mod_to_equations; lia.
Qed.

Lemma signed_normalize (s : bool) m e z :
  0 < m -> binary_normalize 53 1024 (if s then - m else m) e z = binary_round 53 1024 s (Z.to_pos m) e.
Proof. intros. destruct m as [|m|m]; [lia| |lia]. by destruct s. Qed.

(** Every float32 but the NaNs survives widening and rounding back. *)
Lemma f32_round_value w : is_f32 w -> is_f32_nan w = false -> f32_round (f32_value w) = w.
Proof.
  intros Hw Hn. destruct (f32_fields w Hw) as (E & He & Hm). rewrite E at 2.
  unfold is_f32_nan in Hn. unfold f32_round, f32_value.
  clear E Hw. revert He Hm Hn. generalize (f32_sign w), (f32_exp w), (f32_man w).
  clear w. intros s ex m He Hm Hn.
  destruct (Z.eqb_spec ex 255) as [->|Hinf]; [by destruct (Z.eqb_spec m 0) as [->|]|].
  destruct (Z.eqb_spec ex 0) as [->|Hsub].
  - destruct (decide (m = 0)) as [->|Hm0]; [by destruct s|].
    destruct m as [|m|m]; [done| |lia].
    rewrite signed_normalize, narrow_widen by
      (rewrite ?digits2_pos_log2; unfold fexp, emin; cbn [Z.to_pos];
       assert (Z.log2 (Zpos m) < 23) by (apply Z.log2_lt_pow2; lia); lia).
    cbn. by rewrite (proj2 (Z.ltb_lt _ _)) by lia.
  - rewrite signed_normalize by lia.
    assert (Z.log2 (m + 8388608) = 23) by (apply Z.log2_unique; lia).
    rewrite narrow_widen by (rewrite ?digits2_pos_log2, ?Z2Pos.id by lia; unfold fexp, emin; lia).
    cbn [f32_bits]. rewrite Z2Pos.id by lia. rewrite (proj2 (Z.ltb_ge _ _)) by lia.
    unfold f32_pack. lia.
Qed.

(** Packing a float32 value gives its bytes. *)
Lemma pack_f32_value w : is_f32 w -> is_f32_nan w = false -> pack_f32 (f32_value w) = Ok (be_bytes 4 w).
Proof.
  intros Hw Hn. pose proof (f32_round_value w Hw Hn) as Hr. unfold f32_round in Hr. unfold pack_f32.
  destruct (f32_value w) as [s|s| |s m e] eqn:Ev; try by rewrite Hr.
  destruct (f32_narrow (S754_finite s m e)) as [s'|s'| |s' m' e'] eqn:En; try by rewrite Hr.
  subst w. by destruct s'; vm_compute in Ev.
Qed.
