(* ===== verification/Numpy.v ===== *)
(** * The numpy interface

    numpy is third-party code: the operations the program calls are the fields of the class
    [Numpy], and what the program relies on is the class [NumpyLaws], numpy's documented
    behaviour on well-shaped arguments.  Ill-shaped arguments (ragged rows, a length mismatch
    in an assignment) are left to the implementation: the laws say nothing of them.
    [numpy_ref] is one implementation, so that theorems can be applied to concrete inputs. *)

From S2P Require Import Prelude Bytes Float64 F32.

(** A two-dimensional float32 array: its [shape], and its rows as bit patterns. *)
Record f32array := { nd_shape : list nat; nd_rows : list (list Z) }.

Definition row_bytes (row : list Z) : list byte := concat (be_bytes 4 <$> row).

Class Numpy := {
  (** the conversion of one Python float to float32, as a bit pattern *)
  np_float32 : float -> Z;
  (** the conversion of one float32 to a Python float ([.tolist()]) *)
  np_float64 : Z -> float;
  (** [np.ascontiguousarray(x, dtype=np.float32)] for a list of lists *)
  np_asarray_f32 : list (list float) -> result f32array;
  (** [rows[a:b]] *)
  np_slice_rows : f32array -> nat -> nat -> f32array;
  (** [rec = np.empty(n, dtype=np.dtype([("id", ">u8"), ("vec", ">f4", (dim,))]));
      rec["id"] = ids; rec["vec"] = rows; rec.tobytes()] *)
  np_records_tobytes : nat -> nat -> list Z -> f32array -> result (list byte);
  (** [q = np.ascontiguousarray(query, dtype=">f4")]: [q.size] and [q.tobytes()] *)
  np_be_f4 : list float -> result (Z * list byte);
  (** [np.fromfile(path, dtype="int32", count=count)] on the bytes of a file, as the bit
      patterns of the elements; [None] reads everything *)
  np_fromfile_i32 : list byte -> option nat -> list Z;
  (** [x.reshape(-1, cols)] *)
  np_reshape : list Z -> Z -> result (list (list Z))
}.

Definition f32_matrix (d : nat) (rows : list (list Z)) : f32array :=
  {| nd_shape := [length rows; d]; nd_rows := rows |}.

Definition le_val (bs : list byte) : Z := be_val (reverse bs).

Fixpoint chunks (fuel : nat) {A} (k : nat) (l : list A) : list (list A) :=
  match fuel, l with
  | S fuel, _ :: _ => take k l :: chunks fuel k (drop k l)
  | _, _ => []
  end.

Definition np_float32_row {NP : Numpy} (v : list float) : list Z := np_float32 <$> v.
Definition np_float32_rows {NP : Numpy} (vs : list (list float)) : list (list Z) :=
  np_float32_row <$> vs.
Definition np_float64_rows {NP : Numpy} (rows : list (list Z)) : list (list float) :=
  (fun r : list Z => np_float64 <$> r) <$> rows.

(** The bytes of a file of little-endian 32-bit words. *)
Definition i32_file (ws : list Z) : list byte := concat ((fun w => reverse (be_bytes 4 w)) <$> ws).

Class NumpyLaws {NP : Numpy} := {
  np_float32_range x : is_f32 (np_float32 x);
  np_float32_float64 w : is_f32 w -> is_f32_nan w = false -> np_float32 (np_float64 w) = w;
  (** widening is exact *)
  np_float64_value w : is_f32 w -> np_float64 w = f32_value w;
  np_asarray_f32_rect d (vs : list (list float)) :
    vs <> [] -> Forall (fun v => length v = d) vs ->
    np_asarray_f32 vs = Ok (f32_matrix d (np_float32_rows vs));
  np_slice_rows_matrix d rows a b :
    np_slice_rows (f32_matrix d rows) a b = f32_matrix d rows@[a : b];
  np_records_tobytes_ok d ids rows :
    length ids = length rows -> Forall (is_u 8) ids -> Forall (fun r => length r = d) rows ->
    np_records_tobytes (length rows) d ids (f32_matrix d rows) =
      Ok (concat (zip_with (fun i r => be_bytes 8 i ++ row_bytes r) ids rows));
  np_be_f4_ok (q : list float) : np_be_f4 q = Ok (Z.of_nat (length q), row_bytes (np_float32_row q));
  (** little-endian 32-bit elements; a trailing partial element is dropped *)
  np_fromfile_i32_words (ws : list Z) :
    Forall (is_u 4) ws ->
    np_fromfile_i32 (i32_file ws) None = ws;
  np_fromfile_i32_count (bs : list byte) n :
    np_fromfile_i32 bs (Some n) = take n (np_fromfile_i32 bs None);
  np_reshape_ok (rows : list (list Z)) c :
    rows <> [] -> 0 < c -> Forall (fun r => Z.of_nat (length r) = c) rows ->
    np_reshape (concat rows) c = Ok rows;
  np_reshape_err (l : list Z) c :
    0 < c -> Z.of_nat (length l) mod c <> 0 -> np_reshape l c = Raise ValueError
}.
Arguments NumpyLaws : clear implicits.

(** ** A reference implementation *)

(** The pattern of the nearest float32; the reduction makes its range evident. *)
Definition ref_float32 (x : float) : Z := f32_round x mod 4294967296.

Definition ref_asarray (vs : list (list float)) : result f32array :=
  match vs with
  | [] => Ok {| nd_shape := [0%nat]; nd_rows := [] |}
  | v :: _ =>
      if forallb (fun u => Nat.eqb (length u) (length v)) vs
      then Ok (f32_matrix (length v) ((fun r : list float => ref_float32 <$> r) <$> vs)) else Raise ValueError
  end.

Definition ref_slice (a : f32array) (i j : nat) : f32array :=
  {| nd_shape := match nd_shape a with
                 | [] => []
                 | _ :: s => length (nd_rows a)@[i : j] :: s
                 end;
     nd_rows := (nd_rows a)@[i : j] |}.

Definition ref_records (n d : nat) (ids : list Z) (a : f32array) : result (list byte) :=
  if Nat.eqb (length ids) n && Nat.eqb (length (nd_rows a)) n &&
     forallb (fun i => bool_decide (is_u 8 i)) ids
  then Ok (concat (zip_with (fun i r => be_bytes 8 i ++ row_bytes r) ids (nd_rows a)))
  else Raise ValueError.

Definition ref_fromfile (bs : list byte) (count : option nat) : list Z :=
  let ws := le_val <$> chunks (length bs) 4 (take (length bs / 4 * 4) bs) in
  match count with Some n => take n ws | None => ws end.

Definition ref_reshape (l : list Z) (c : Z) : result (list (list Z)) :=
  if (0 <? c) && (Z.of_nat (length l) mod c =? 0) then Ok (chunks (length l) (Z.to_nat c) l)
  else Raise ValueError.

#[export] Instance numpy_ref : Numpy := {|
  np_float32 := ref_float32;
  np_float64 := f32_value;
  np_asarray_f32 := ref_asarray;
  np_slice_rows := ref_slice;
  np_records_tobytes := ref_records;
  np_be_f4 q := Ok (Z.of_nat (length q), row_bytes (ref_float32 <$> q));
  np_fromfile_i32 := ref_fromfile;
  np_reshape := ref_reshape
|}.

Lemma chunks_concat {A} fuel k (rows : list (list A)) :
  (0 < k)%nat -> Forall (fun r => length r = k) rows -> (length (concat rows) <= fuel)%nat ->
  chunks fuel k (concat rows) = rows.
Proof.
  intros Hk. revert fuel. induction rows as [|r rows IH]; intros fuel Hr Hf; [by destruct fuel|].
  inversion Hr as [|?? Hlen Hr']; subst. cbn [concat] in *. rewrite length_app in Hf.
  destruct fuel as [|fuel]; [lia|]. destruct r as [|z r]; [simpl in *; lia|]. cbn [chunks app].
  change (z :: r ++ concat rows) with ((z :: r) ++ concat rows).
  rewrite take_app_length, drop_app_length. f_equal. apply IH; [done|]. simpl in Hf. lia.
Qed.

Lemma length_concat_rect {A} k (rows : list (list A)) :
  Forall (fun r => length r = k) rows -> length (concat rows) = (length rows * k)%nat.
Proof. induction 1 as [|r rows Hr _ IH]; [done|]. cbn. rewrite length_app. lia. Qed.

Lemma length_i32_word w : length (reverse (be_bytes 4 w)) = 4%nat.
Proof. by rewrite length_reverse, length_be_bytes. Qed.

Lemma length_i32_file ws : length (i32_file ws) = (length ws * 4)%nat.
Proof.
  unfold i32_file. rewrite (length_concat_rect 4), length_fmap; [done|].
  apply Forall_fmap, Forall_true. intros w. apply length_i32_word.
Qed.

Lemma ref_fromfile_words ws : Forall (is_u 4) ws -> ref_fromfile (i32_file ws) None = ws.
Proof.
  intros Hws. unfold ref_fromfile. rewrite length_i32_file, Nat.div_mul by lia.
  rewrite take_ge by (rewrite length_i32_file; lia). unfold i32_file.
  rewrite chunks_concat; [|lia| |].
  - induction Hws as [|w ws Hw _ IH]; [done|]. rewrite !fmap_cons, IH. f_equal.
    unfold le_val. rewrite reverse_involutive. by apply be_val_bytes_small.
  - apply Forall_fmap, Forall_true. intros w. apply length_i32_word.
  - pose proof (length_i32_file ws) as Hl. unfold i32_file in Hl. lia.
Qed.

#[export] Instance numpy_ref_laws : NumpyLaws numpy_ref.
Proof.
  split; cbn.
  - intros x. unfold is_f32, is_u, ref_float32. by apply Z.mod_pos_bound.
  - intros w Hw Hn. unfold ref_float32. rewrite f32_round_value by done. by apply Z.mod_small.
  - done.
  - intros d vs Hne Hd. destruct vs as [|v vs]; [done|]. inversion Hd; subst. unfold ref_asarray.
    rewrite (proj2 (forallb_forall _ _)); [done|].
    intros u Hu. apply Nat.eqb_eq. exact (proj1 (List.Forall_forall _ _) Hd u Hu).
  - done.
  - intros d ids rows Hl Hids Hrows. unfold ref_records. cbn.
    rewrite Hl, !Nat.eqb_refl, (proj2 (forallb_forall _ _)); [done|].
    intros i Hi. apply bool_decide_eq_true. exact (proj1 (List.Forall_forall _ _) Hids i Hi).
  - done.
  - apply ref_fromfile_words.
  - done.
  - intros rows c Hne Hc Hrows. unfold ref_reshape.
    assert (Forall (fun r => length r = Z.to_nat c) rows) as Hrows'
      by (eapply Forall_impl; [|exact Hrows]; cbn; lia).
    rewrite (length_concat_rect (Z.to_nat c)), Nat2Z.inj_mul, Z2Nat.id, Z.mod_mul by (done || lia).
    rewrite (proj2 (Z.ltb_lt _ _)) by lia. cbn. rewrite chunks_concat; [done|lia|done|].
    by rewrite (length_concat_rect (Z.to_nat c)).
  - intros l c Hc Hmod. unfold ref_reshape.
    rewrite (proj2 (Z.eqb_neq _ _)) by done. by rewrite andb_false_r.
Qed.
