(* ===== verification/Http.v ===== *)
(** * HTTP: the [requests] library and the server behind it, as an interface

    Neither [requests] nor the Rostam server is code of this repository.  The class [Http]
    gives the state of the outside world a type [H] and one transition, [http_send]: what
    comes back (a response, or an exception of the library) and the next state.  Around it,
    this file models what the client itself does with sessions: opening one, its
    [Authorization] header, posting, closing.  The environment keeps the list of requests sent, of what each came back with,
    of sessions still open and of messages logged, so that theorems can speak of them. *)

From S2P Require Import Prelude Bytes Text Float64 PyVal.

Inductive http_method := POST | DELETE.
Inductive http_body := NoBody | JsonBody (v : pyval) | RawBody (bs : list byte).

Record request := {
  rq_method : http_method;
  rq_url : string;
  rq_auth : option string;              (* the session's Authorization header *)
  rq_headers : list (string * string);  (* the headers of this request *)
  rq_body : http_body;
  rq_timeout : Z
}.

Definition is_raw (rq : request) : bool := match rq_body rq with RawBody _ => true | _ => false end.

Record response := {
  status_code : Z;
  r_text : string;
  r_json : result pyval   (* what [r.json()] returns or raises *)
}.

Class Http (H : Type) := {
  http_send : request -> H -> result response * H;
  (** [r.raise_for_status()] *)
  http_raise_for_status : response -> result unit
}.

(** [requests] documents that [raise_for_status] raises [HTTPError] on 4xx and 5xx; the
    exceptions it raises by itself are its own, never the client's private [_AlreadyExists]. *)
Class HttpLaws (H : Type) {HT : Http H} := {
  raise_for_status_ok r : status_code r < 400 \/ 600 <= status_code r ->
    http_raise_for_status r = Ok tt;
  raise_for_status_err r : 400 <= status_code r < 600 ->
    http_raise_for_status r = Raise (HTTPError (status_code r));
  send_own_exceptions rq h h' : http_send rq h <> (Raise AlreadyExists, h')
}.

(** ** Sessions *)

Record session := { sess_id : nat; sess_auth : option string }.

(** The levels of the client's log messages. *)
Inductive log_level := INFO | WARNING.

Record env (H : Type) := {
  env_http : H;
  env_log : list request;   (* every request sent, oldest first *)
  env_answers : list (result response);   (* what each of them came back with *)
  env_next : nat;           (* the sessions opened so far are numbered below *)
  env_open : list nat;      (* the sessions opened and not closed *)
  env_messages : list (log_level * string)   (* what the client has logged, oldest first *)
}.
Arguments env_http {_} _.
Arguments env_log {_} _.
Arguments env_answers {_} _.
Arguments env_next {_} _.
Arguments env_open {_} _.
Arguments env_messages {_} _.

Section Session.
Context {H : Type} {HT : Http H}.

(** [requests.Session()], with the header the client sets on it *)
Definition session_new (auth : option string) : M (env H) session := fun e =>
  (Ok {| sess_id := env_next e; sess_auth := auth |},
   {| env_http := env_http e; env_log := env_log e; env_answers := env_answers e; env_next := S (env_next e);
      env_open := env_next e :: env_open e; env_messages := env_messages e |}).

(** [s.close()] *)
Definition session_close (s : session) : M (env H) unit := fun e =>
  (Ok tt, {| env_http := env_http e; env_log := env_log e; env_answers := env_answers e; env_next := env_next e;
             env_open := filter (fun i => i <> sess_id s) (env_open e); env_messages := env_messages e |}).

(** [log.info(msg)], [log.warning(msg)] *)
Definition log (level : log_level) (msg : string) : M (env H) unit := fun e =>
  (Ok tt, {| env_http := env_http e; env_log := env_log e; env_answers := env_answers e; env_next := env_next e; env_open := env_open e;
             env_messages := env_messages e ++ [(level, msg)] |}).

Definition session_send (rq : request) : M (env H) response := fun e =>
  let '(r, h) := http_send rq (env_http e) in
  (r, {| env_http := h; env_log := env_log e ++ [rq]; env_answers := env_answers e ++ [r]; env_next := env_next e;
         env_open := env_open e; env_messages := env_messages e |}).

(** [s.post(url, json=v, timeout=t)] *)
Definition post_json (s : session) (url : string) (v : pyval) (timeout : Z) : M (env H) response :=
  session_send {| rq_method := POST; rq_url := url; rq_auth := sess_auth s; rq_headers := [];
                  rq_body := JsonBody v; rq_timeout := timeout |}.

(** [s.post(url, data=bs, headers=hs, timeout=t)] *)
Definition post_data (s : session) (url : string) (bs : list byte) (hs : list (string * string))
    (timeout : Z) : M (env H) response :=
  session_send {| rq_method := POST; rq_url := url; rq_auth := sess_auth s; rq_headers := hs;
                  rq_body := RawBody bs; rq_timeout := timeout |}.

(** [s.delete(url, timeout=t)] *)
Definition http_delete (s : session) (url : string) (timeout : Z) : M (env H) response :=
  session_send {| rq_method := DELETE; rq_url := url; rq_auth := sess_auth s; rq_headers := [];
                  rq_body := NoBody; rq_timeout := timeout |}.
End Session.
