(* ===== verification/Config.v ===== *)
(** * Configuration: [vectordbbench/rostam/config.py] and [cli.py]

    The connection settings, the index settings and what the command line makes of its
    options.  [DBConfig], [DBCaseConfig], [BaseModel], [SecretStr] and [click] are third-party:
    a [SecretStr] is the string it wraps. *)

From S2P Require Import Prelude Bytes Text Float64 PyVal.

(** The metrics the code names, and any other member of the enumeration. *)
Inductive MetricType := L2 | IP | OtherMetric (name : string).

Record RostamConfig := {
  cfg_url : string;
  cfg_api_key : option string;
  cfg_load_path : string;
  cfg_binary_wire : bool;
  cfg_binary_query : bool
}.

Definition default_url : string := "http://127.0.0.1:8080".

(** [RostamConfig(url=...)]: every other field at its default *)
Definition RostamConfig_url (url : string) : RostamConfig :=
  {| cfg_url := url; cfg_api_key := None; cfg_load_path := "bulk";
     cfg_binary_wire := true; cfg_binary_query := true |}.

Definition RostamConfig_default : RostamConfig := RostamConfig_url default_url.

(** The dictionary the client receives.  [None] is a missing key; for the API key and the load
    path it is the value [None] as well, which the client treats alike. *)
Record db_dict := {
  db_url : option string;
  db_api_key : option string;
  db_load_path : option string;
  db_binary_wire : option bool;
  db_binary_query : option bool
}.

(** An empty secret is falsy, and becomes [None]. *)
Definition to_dict (c : RostamConfig) : db_dict :=
  {| db_url := Some (cfg_url c);
     db_api_key := match cfg_api_key c with
                   | Some k => if String.eqb k "" then None else Some k
                   | None => None
                   end;
     db_load_path := Some (cfg_load_path c);
     db_binary_wire := Some (cfg_binary_wire c);
     db_binary_query := Some (cfg_binary_query c) |}.

Record RostamHNSWConfig := {
  metric_type : option MetricType;
  hnsw_m : Z;
  hnsw_ef_construction : Z;
  hnsw_ef_search : Z;
  hnsw_quant : string
}.

Definition RostamHNSWConfig_default : RostamHNSWConfig :=
  {| metric_type := None; hnsw_m := 16; hnsw_ef_construction := 200; hnsw_ef_search := 64;
     hnsw_quant := "" |}.

Definition parse_metric (c : RostamHNSWConfig) : string :=
  match metric_type c with
  | Some L2 => "l2"
  | Some IP => "dot"
  | _ => "cosine"
  end.

Definition index_param (c : RostamHNSWConfig) : dict pyval :=
  [("metric", VStr (parse_metric c));
   ("m", VInt (hnsw_m c));
   ("ef_construction", VInt (hnsw_ef_construction c));
   ("ef_search", VInt (hnsw_ef_search c));
   ("quant", VStr (hnsw_quant c))].

Definition search_param (c : RostamHNSWConfig) : dict pyval := [].

(** ** The command line *)

Record RostamTypedDict := {
  p_url : string;
  p_m : Z;
  p_ef_construction : Z;
  p_ef_search : Z;
  p_quant : string
}.

(** The options' defaults *)
Definition cli_defaults : RostamTypedDict :=
  {| p_url := "http://127.0.0.1:8080"; p_m := 16; p_ef_construction := 200; p_ef_search := 64;
     p_quant := "" |}.

(** The [db_config] and [db_case_config] that the command passes to [run]. *)
Definition RostamHNSW (p : RostamTypedDict) : RostamConfig * RostamHNSWConfig :=
  (RostamConfig_url (p_url p),
   {| metric_type := None; hnsw_m := p_m p; hnsw_ef_construction := p_ef_construction p;
      hnsw_ef_search := p_ef_search p; hnsw_quant := p_quant p |}).
