(* ===== verification/Wire.v ===== *)
(** * The two binary wires of the HTTP client, and its JSON bodies

    [_binary_body] ("RVB1"), [_query_body] ("RVQ1") and [_json_body] of
    [vectordbbench/rostam/rostam.py], against parsers of the two frame formats written from
    the format comments of that file ([rvb1_parse], [rvq1_parse]). *)

From S2P Require Import Prelude Bytes Text Float64 F32 PyVal JsonRead Numpy.

Definition _BULK_MAGIC : list byte := encode "RVB1".
Definition _BULK_FLAG_PAYLOADS : Z := Z.shiftl 1 0.
Definition _BULK_FLAG_UPSERT : Z := Z.shiftl 1 1.
Definition _BINARY_HEADERS : list (string * string) := [("Content-Type", "application/octet-stream")].
Definition _BINARY_UNSUPPORTED : list Z := [400; 404; 415].
Definition _QUERY_MAGIC : list byte := encode "RVQ1".
Definition _QUERY_FLAG_FILTER : Z := Z.shiftl 1 0.

(** [b'{"id":{"kind":"int","int":%d}}' % i] *)
Definition id_payload (i : Z) : list byte := encode (q "{`id`:{`kind`:`int`,`int`:" +:+ dec i +:+ "}}").

(** The metadata of the JSON path: [{"id": {"kind": "int", "int": i}}] *)
Definition id_metadata (i : Z) : pyval :=
  VDict [("id", VDict [("kind", VStr "int"); ("int", VInt i)])].

Section Encode.
Context {NP : Numpy}.

(** [_as_f32(embeddings)]: the array numpy makes of the rows *)
Definition _as_f32 (embeddings : list (list float)) : result f32array := np_asarray_f32 embeddings.

Definition payload_record (i : Z) : result (list byte) :=
  let blob := id_payload i in
  len ← struct_pack [FI] [SInt (Z.of_nat (length blob))];
  Ok (len ++ blob).

Definition _binary_body (ids : list Z) (rows : f32array) (upsert payloads : bool) : result (list byte) :=
  match nd_shape rows with
  | [n; dim] =>
      let flags := 0 in
      let flags := if payloads then Z.lor flags _BULK_FLAG_PAYLOADS else flags in
      let flags := if upsert then Z.lor flags _BULK_FLAG_UPSERT else flags in
      header ← struct_pack [Fs 4; FI; FI; FI]
                 [SBytes _BULK_MAGIC; SInt flags; SInt (Z.of_nat n); SInt (Z.of_nat dim)];
      rec ← np_records_tobytes n dim ids rows;
      pays ← (if payloads then mapR payload_record ids else Ok []);
      Ok (header ++ rec ++ concat pays)
  | _ => Raise ValueError
  end.

Definition _query_body (query : list float) (k : Z) (filter_blob : list byte) : result (list byte) :=
  '(size, data) ← np_be_f4 query;
  let present := match filter_blob with [] => false | _ => true end in
  let flags := if present then _QUERY_FLAG_FILTER else 0 in
  header ← struct_pack [Fs 4; FI; FI; FI; FB; FB; FH; FQ]
             [SBytes _QUERY_MAGIC; SInt flags; SInt k; SInt size; SInt 0; SInt 0; SInt 0; SInt 0];
  let out := header ++ data in
  if present then
    len ← struct_pack [FI] [SInt (Z.of_nat (length filter_blob))];
    Ok (out ++ len ++ filter_blob)
  else Ok out.

Definition _json_body (ids : list Z) (rows : f32array) (payloads upsert : bool) : pyval :=
  let vecs := np_float64_rows (nd_rows rows) in
  let point i (v : list float) :=
    VDict ([("id", VInt i); ("vector", VList (VFloat <$> v))]
           ++ if payloads then [("metadata", id_metadata i)] else []) in
  let points := zip_with point ids vecs in
  let body := [("points", VList points)] in
  VDict (if upsert then dict_set "upsert" (VBool true) body else body).
End Encode.

(** ** What the frames mean: parsers written from the format comments *)

Record rvb1_frame := {
  rvb1_payloads : bool;
  rvb1_upsert : bool;
  rvb1_dim : Z;
  rvb1_rows : list (Z * list Z);     (* id, float32 patterns *)
  rvb1_pays : list (list byte)
}.

Definition rvb1_row (dim : Z) : parser (Z * list Z) :=
  i ← p_uint 8; v ← p_count (Z.to_nat dim) (p_uint 4); mret (i, v).

Definition sized_blob : parser (list byte) := len ← p_uint 4; p_take (Z.to_nat len).

Definition rvb1_parse : parser rvb1_frame :=
  magic ← p_take 4;
  _ ← p_guard (bool_decide (magic = encode "RVB1"));
  flags ← p_uint 4; count ← p_uint 4; dim ← p_uint 4;
  rows ← p_count (Z.to_nat count) (rvb1_row dim);
  pays ← (if Z.testbit flags 0 then p_count (Z.to_nat count) sized_blob else mret []);
  mret {| rvb1_payloads := Z.testbit flags 0; rvb1_upsert := Z.testbit flags 1;
          rvb1_dim := dim; rvb1_rows := rows; rvb1_pays := pays |}.

Record rvq1_frame := {
  rvq1_k : Z;
  rvq1_rc : Z; rvq1_opa : Z; rvq1_staleness : Z;
  rvq1_query : list Z;
  rvq1_filter : option (list byte)
}.

Definition rvq1_parse : parser rvq1_frame :=
  magic ← p_take 4;
  _ ← p_guard (bool_decide (magic = encode "RVQ1"));
  flags ← p_uint 4; k ← p_uint 4; dim ← p_uint 4;
  rc ← p_uint 1; opa ← p_uint 1; reserved ← p_uint 2; _ ← p_guard (reserved =? 0);
  staleness ← p_uint 8;
  query ← p_count (Z.to_nat dim) (p_uint 4);
  blob ← (if Z.testbit flags 0 then b ← sized_blob; mret (Some b) else mret None);
  mret {| rvq1_k := k; rvq1_rc := rc; rvq1_opa := opa; rvq1_staleness := staleness;
          rvq1_query := query; rvq1_filter := blob |}.

(** ** Round trips *)

Lemma p_words ws rest :
  Forall (is_u 4) ws -> p_count (length ws) (p_uint 4) (row_bytes ws ++ rest) = Some (ws, rest).
Proof.
  intros Hws. apply p_count_app. intros w rest' Hw. apply p_uint_app.
  exact (Forall_elem _ _ _ Hws Hw).
Qed.

Lemma rvb1_row_app d i v rest :
  is_u 8 i -> length v = d -> Forall (is_u 4) v ->
  rvb1_row (Z.of_nat d) ((be_bytes 8 i ++ row_bytes v) ++ rest) = Some ((i, v), rest).
Proof.
  intros Hi <- Hv. unfold rvb1_row. parse_steps. by rewrite Nat2Z.id, p_words.
Qed.

Lemma sized_blob_app blob rest :
  is_u 4 (Z.of_nat (length blob)) ->
  sized_blob ((be_bytes 4 (Z.of_nat (length blob)) ++ blob) ++ rest) = Some (blob, rest).
Proof. intros Hl. unfold sized_blob. parse_steps. rewrite Nat2Z.id. by apply p_take_app. Qed.

Lemma length_id_payload i : (length (id_payload i) = 28 + String.length (dec i))%nat.
Proof.
  unfold id_payload. rewrite length_encode, !str_length_app.
  change (String.length (q _)) with 26%nat. change (String.length "}}") with 2%nat. lia.
Qed.

(** A chunk the wire can carry: one id per row, ids of 64 bits, rows of [d] words. *)
Record wire_chunk (d : nat) (ids : list Z) (rows : list (list Z)) : Prop := {
  chunk_length : length ids = length rows;
  chunk_ids : Forall (is_u 8) ids;
  chunk_dim : Forall (fun r => length r = d) rows;
  chunk_words : Forall (Forall (is_u 4)) rows;
  chunk_count : is_u 4 (Z.of_nat (length rows));
  chunk_width : is_u 4 (Z.of_nat d)
}.

Lemma rvb1_rows_app d ids rows rest :
  wire_chunk d ids rows ->
  p_count (length rows) (rvb1_row (Z.of_nat d))
    (concat (zip_with (fun i r => be_bytes 8 i ++ row_bytes r) ids rows) ++ rest) =
  Some (zip ids rows, rest).
Proof.
  intros [Hl Hids Hd Hw _ _].
  rewrite zip_with_zip. replace (length rows) with (length (zip ids rows)) by (rewrite length_zip_with; lia).
  apply p_count_app. intros [i r] rest' Hir. cbn [uncurry].
  apply rvb1_row_app.
  - exact (Forall_elem _ _ _ Hids (elem_of_zip_l _ _ _ _ Hir)).
  - exact (Forall_elem _ _ _ Hd (elem_of_zip_r _ _ _ _ Hir)).
  - exact (Forall_elem _ _ _ Hw (elem_of_zip_r _ _ _ _ Hir)).
Qed.

(** The decimal text of a 64-bit id has at most 20 characters. *)
Lemma length_dec_nonneg fuel z k :
  0 <= z < 10 ^ Z.of_nat k -> (0 < k)%nat -> (String.length (dec_nonneg fuel z) <= k)%nat.
Proof.
  revert z k; induction fuel as [|fuel IH]; intros z k Hz Hk; [simpl; lia|]. cbn [dec_nonneg].
  destruct (Z.ltb_spec z 10); [simpl; lia|]. rewrite str_length_app. cbn [String.length].
  destruct k as [|[|k]]; [lia|simpl in Hz; lia|].
  rewrite Nat2Z.inj_succ, Z.pow_succ_r in Hz by lia.
  assert (String.length (dec_nonneg fuel (z / 10)) <= S k)%nat; [|lia].
  apply IH; [|lia]. split; [apply Z.div_pos; lia|apply Z.div_lt_upper_bound; lia].
Qed.

Lemma id_payload_size i : is_u 8 i -> is_u 4 (Z.of_nat (length (id_payload i))).
Proof.
  intros Hi. rewrite length_id_payload. unfold is_u in *.
  change (256 ^ Z.of_nat 8) with 18446744073709551616 in Hi. change (256 ^ Z.of_nat 4) with 4294967296.
  assert (String.length (dec i) <= 20)%nat; [|lia].
  unfold dec. rewrite (proj2 (Z.ltb_ge i 0)), Z.abs_eq by lia.
  apply length_dec_nonneg; [|lia]. split; [lia|]. change (10 ^ Z.of_nat 20) with 100000000000000000000. lia.
Qed.

(** The record of one payload: its length, and its bytes. *)
Definition payload_bytes (i : Z) : list byte :=
  be_bytes 4 (Z.of_nat (length (id_payload i))) ++ id_payload i.

Lemma payload_record_ok i : is_u 8 i -> payload_record i = Ok (payload_bytes i).
Proof.
  intros Hi. unfold payload_record. cbn [struct_pack pack_one fmt_size].
  rewrite pack_uint_ok by by apply id_payload_size. cbn [mbind result_bind].
  by rewrite app_nil_r.
Qed.

Lemma payload_records_ok ids :
  Forall (is_u 8) ids -> mapR payload_record ids = Ok (payload_bytes <$> ids).
Proof.
  induction 1 as [|i ids Hi _ IH]; [done|]. cbn [mapR]. by rewrite payload_record_ok, IH.
Qed.

Lemma payload_blobs_app ids rest :
  Forall (is_u 8) ids ->
  p_count (length ids) sized_blob (concat (payload_bytes <$> ids) ++ rest) = Some (id_payload <$> ids, rest).
Proof.
  intros Hids. 
  assert (forall rest, p_count (length (id_payload <$> ids)) sized_blob
    (concat ((fun b => be_bytes 4 (Z.of_nat (length b)) ++ b) <$> (id_payload <$> ids)) ++ rest) =
    Some (id_payload <$> ids, rest)) as H.
  { intros rest'. apply p_count_app. intros b rest'' (i & -> & Hi)%list_elem_of_fmap.
    apply sized_blob_app, id_payload_size. exact (Forall_elem _ _ _ Hids Hi). }
  specialize (H rest). rewrite length_fmap, <- list_fmap_compose in H. exact H.
Qed.

Definition bulk_flags (upsert payloads : bool) : Z :=
  Z.lor (if payloads then 1 else 0) (if upsert then 2 else 0).

(** The frame of a chunk. *)
Definition chunk_frame (d : nat) (ids : list Z) (rows : list (list Z)) (upsert payloads : bool) : rvb1_frame :=
  {| rvb1_payloads := payloads; rvb1_upsert := upsert; rvb1_dim := Z.of_nat d;
     rvb1_rows := zip ids rows; rvb1_pays := if payloads then id_payload <$> ids else [] |}.

Definition query_flags (blob : list byte) : Z := match blob with [] => 0 | _ => 1 end.

Section RoundTrip.
Context {NP : Numpy} {NL : NumpyLaws NP}.

Lemma binary_body_bytes d ids rows upsert payloads :
  wire_chunk d ids rows ->
  _binary_body ids (f32_matrix d rows) upsert payloads =
  Ok (_BULK_MAGIC ++ be_bytes 4 (bulk_flags upsert payloads) ++
      be_bytes 4 (Z.of_nat (length rows)) ++ be_bytes 4 (Z.of_nat d) ++
      concat (zip_with (fun i r => be_bytes 8 i ++ row_bytes r) ids rows) ++
      concat (if payloads then payload_bytes <$> ids else [])).
Proof.
  intros [Hl Hids Hd Hw Hc Hdd]. unfold _binary_body, f32_matrix at 1. cbn [nd_shape].
  assert (is_u 4 (bulk_flags upsert payloads)) as Hf by (destruct upsert, payloads; done).
  replace (if upsert then Z.lor (if payloads then _ else _) _ else if payloads then _ else _)
    with (bulk_flags upsert payloads) by (by destruct upsert, payloads).
  cbn [struct_pack pack_one fmt_size]. rewrite !pack_uint_ok by done. cbn [mbind result_bind].
  rewrite np_records_tobytes_ok by done. cbn [mbind result_bind].
  replace (if payloads then mapR payload_record ids else Ok []) with
    (Ok (if payloads then payload_bytes <$> ids else []))
    by (destruct payloads; [by rewrite payload_records_ok|done]).
  cbn [mbind result_bind]. change (take 4 (_BULK_MAGIC ++ replicate 4 x00)) with _BULK_MAGIC.
  by rewrite app_nil_r, <- !app_assoc.
Qed.

Lemma binary_body_parse d ids rows upsert payloads :
  wire_chunk d ids rows ->
  exists bs, _binary_body ids (f32_matrix d rows) upsert payloads = Ok bs /\
             p_run rvb1_parse bs = Some (chunk_frame d ids rows upsert payloads).
Proof.
  intros H. eexists; split; [by apply binary_body_bytes|].
  pose proof (rvb1_rows_app d ids rows) as Hrows. destruct H as [Hl Hids Hd Hw Hc Hdd].
  assert (is_u 4 (bulk_flags upsert payloads)) as Hf by (destruct upsert, payloads; done).
  unfold p_run, rvb1_parse. parse_steps. rewrite Nat2Z.id, Hrows by done.
  assert (Z.testbit (bulk_flags upsert payloads) 0 = payloads) as -> by by destruct upsert, payloads.
  assert (Z.testbit (bulk_flags upsert payloads) 1 = upsert) as -> by by destruct upsert, payloads.
  unfold chunk_frame. destruct payloads; [|done].
  rewrite <- (app_nil_r (concat _)), <- Hl. by rewrite payload_blobs_app.
Qed.

Lemma query_body_bytes query k blob :
  is_u 4 k -> is_u 4 (Z.of_nat (length query)) -> is_u 4 (Z.of_nat (length blob)) ->
  _query_body query k blob =
  Ok (_QUERY_MAGIC ++ be_bytes 4 (query_flags blob) ++ be_bytes 4 k ++
      be_bytes 4 (Z.of_nat (length query)) ++ be_bytes 1 0 ++ be_bytes 1 0 ++ be_bytes 2 0 ++
      be_bytes 8 0 ++ row_bytes (np_float32_row query) ++
      match blob with [] => [] | _ => be_bytes 4 (Z.of_nat (length blob)) ++ blob end).
Proof.
  intros Hk Hq Hb. unfold _query_body. rewrite np_be_f4_ok. cbn [mbind result_bind].
  cbn [struct_pack pack_one fmt_size].
  replace (if match blob with [] => false | _ => true end then _QUERY_FLAG_FILTER else 0)
    with (query_flags blob) by by destruct blob.
  assert (is_u 4 (query_flags blob)) by by destruct blob.
  rewrite !pack_uint_ok by done. cbn [mbind result_bind].
  change (take 4 (_QUERY_MAGIC ++ replicate 4 x00)) with _QUERY_MAGIC.
  by destruct blob; cbn [mbind result_bind]; rewrite ?app_nil_r, <- !app_assoc.
Qed.

Lemma query_body_parse query k blob :
  is_u 4 k -> is_u 4 (Z.of_nat (length query)) -> is_u 4 (Z.of_nat (length blob)) ->
  exists bs, _query_body query k blob = Ok bs /\
    p_run rvq1_parse bs =
      Some {| rvq1_k := k; rvq1_rc := 0; rvq1_opa := 0; rvq1_staleness := 0;
              rvq1_query := np_float32_row query;
              rvq1_filter := match blob with [] => None | _ => Some blob end |}.
Proof.
  intros Hk Hq Hb. eexists; split; [by apply query_body_bytes|].
  assert (is_u 4 (query_flags blob)) by by destruct blob.
  assert (Forall (is_u 4) (np_float32_row query)) as Hw
    by (apply Forall_fmap, Forall_true; intros x; apply np_float32_range).
  assert (length (np_float32_row query) = length query) as Hlen by apply length_fmap.
  unfold p_run, rvq1_parse. parse_steps. rewrite Nat2Z.id, <- Hlen, p_words by done.
  destruct blob as [|b blob]; [done|].
  change (Z.testbit (query_flags (b :: blob)) 0) with true. cbn iota.
  rewrite <- (app_nil_r (be_bytes 4 _ ++ _)). by rewrite sized_blob_app.
Qed.
End RoundTrip.

(** The payload of a point is, as JSON, the metadata of the JSON path. *)
Section Payload.
Variables (i : Z) (num : string).
Hypothesis Hnum : forall f, read_value (S f) num = Some (VInt i, "}}").

Lemma read_int_member f : read_members (S (S f)) (q "`int`:" +:+ num) = Some ([("int", VInt i)], "}").
Proof.
  change (read_members (S (S f)) (q "`int`:" +:+ num)) with
    ('(v, t) ← read_value (S f) num;
     match expect "," (skip_ws t) with
     | Some t => '(d, t) ← read_members (S f) t; Some (("int", v) :: d, t)
     | None => t ← expect "}" (skip_ws t); Some ([("int", v)], t)
     end).
  by rewrite Hnum.
Qed.

Lemma read_kind_members f :
  read_members (S (S (S f))) (q "`kind`:`int`,`int`:" +:+ num) =
  Some ([("kind", VStr "int"); ("int", VInt i)], "}").
Proof.
  change (read_members (S (S (S f))) (q "`kind`:`int`,`int`:" +:+ num)) with
    ('(d, t) ← read_members (S (S f)) (q "`int`:" +:+ num); Some (("kind", VStr "int") :: d, t)).
  by rewrite read_int_member.
Qed.

Lemma read_id_member f :
  read_members (S (S (S (S (S f))))) (q "`id`:{`kind`:`int`,`int`:" +:+ num) =
  Some ([("id", VDict [("kind", VStr "int"); ("int", VInt i)])], "").
Proof.
  pose proof (read_value_brace _ _ _ _ (read_kind_members f)) as H.
  change (read_members (S (S (S (S (S f))))) (q "`id`:{`kind`:`int`,`int`:" +:+ num)) with
    ('(v, t) ← read_value (S (S (S (S f)))) ("{" +:+ q "`kind`:`int`,`int`:" +:+ num);
     match expect "," (skip_ws t) with
     | Some t => '(d, t) ← read_members (S (S (S (S f)))) t; Some (("id", v) :: d, t)
     | None => t ← expect "}" (skip_ws t); Some ([("id", v)], t)
     end).
  by rewrite H.
Qed.
End Payload.

Lemma q_open_brace x :
  q "{`id`:{`kind`:`int`,`int`:" +:+ x = "{" +:+ (q "`id`:{`kind`:`int`,`int`:" +:+ x).
Proof. by vm_compute. Qed.

Lemma json_read_id_payload i :
  json_read (String.string_of_list_byte (id_payload i)) = Some (id_metadata i).
Proof.
  unfold id_payload, encode. rewrite String.string_of_list_byte_of_string. unfold json_read.
  assert (forall f, read_value (S f) (dec i +:+ "}}") = Some (VInt i, "}}")) as Hnum
    by (intros f; apply (read_value_dumps (VInt i)); [done|cbn; lia|done]).
  assert (exists f, String.length (q "{`id`:{`kind`:`int`,`int`:" +:+ dec i +:+ "}}") = S (S (S (S (S f)))))
    as [f ->] by (rewrite str_length_app; change (String.length (q _)) with 26%nat; by eexists).
  pose proof (read_value_brace _ _ _ _ (read_id_member i _ Hnum f)) as H.
  by rewrite q_open_brace, H.
Qed.
