(* ===== verification/Client.v ===== *)
(** * The VectorDBBench client: class [Rostam] of [vectordbbench/rostam/rostam.py]

    The object is the record [rostam]; a method is a computation of [M world], where the world
    is the object and the environment of {!Http}: the server, the requests sent, the sessions
    open.  An exception leaves the object as the code left it.  Log messages are kept
    with their level in the environment.  The text of a filter of another kind, which is
    VectorDBBench's, is given with it. *)

From S2P Require Import Prelude Bytes Text Float64 F32 PyVal JsonRead Numpy Http Config Wire.

Definition INSERT_BATCH : nat := 1000.
Lemma INSERT_BATCH_eq : Z.of_nat INSERT_BATCH = 1000.
Proof. done. Qed.
#[global] Opaque INSERT_BATCH.

Record rostam := {
  dim : Z;
  collection_name : string;
  base : string;
  api_key : option string;
  load_path : string;
  query_filter : option pyval;
  binary : bool;
  binary_proven : bool;
  binary_query : bool;
  binary_query_proven : bool;
  filter_blob : list byte;
  cur_session : option session
}.

(** Attribute assignments. *)
Definition set_binary (b : bool) (s : rostam) : rostam :=
  Build_rostam (dim s) (collection_name s) (base s) (api_key s) (load_path s) (query_filter s)
    b (binary_proven s) (binary_query s) (binary_query_proven s) (filter_blob s) (cur_session s).
Definition set_binary_proven (b : bool) (s : rostam) : rostam :=
  Build_rostam (dim s) (collection_name s) (base s) (api_key s) (load_path s) (query_filter s)
    (binary s) b (binary_query s) (binary_query_proven s) (filter_blob s) (cur_session s).
Definition set_binary_query (b : bool) (s : rostam) : rostam :=
  Build_rostam (dim s) (collection_name s) (base s) (api_key s) (load_path s) (query_filter s)
    (binary s) (binary_proven s) b (binary_query_proven s) (filter_blob s) (cur_session s).
Definition set_binary_query_proven (b : bool) (s : rostam) : rostam :=
  Build_rostam (dim s) (collection_name s) (base s) (api_key s) (load_path s) (query_filter s)
    (binary s) (binary_proven s) (binary_query s) b (filter_blob s) (cur_session s).
Definition set_filter (f : option pyval) (blob : list byte) (s : rostam) : rostam :=
  Build_rostam (dim s) (collection_name s) (base s) (api_key s) (load_path s) f
    (binary s) (binary_proven s) (binary_query s) (binary_query_proven s) blob (cur_session s).
Definition set_session (x : option session) (s : rostam) : rostam :=
  Build_rostam (dim s) (collection_name s) (base s) (api_key s) (load_path s) (query_filter s)
    (binary s) (binary_proven s) (binary_query s) (binary_query_proven s) (filter_blob s) x.

Record world (H : Type) := { w_self : rostam; w_env : env H }.
Arguments w_self {_} _.
Arguments w_env {_} _.

(** VectorDBBench's filters: the two kinds the code handles, and any other. *)
Inductive FilterOp := NonFilter | NumGE | OtherFilter (name : string).
Record Filter := { filter_type : FilterOp; int_field : string; int_value : pyval }.

Definition supported_filter_types : list FilterOp := [NonFilter; NumGE].

(** [int(x) for x in xs] *)
Definition _to_ints (xs : list pyval) : result (list Z) := mapR py_int xs.

(** [[int(h["id"]) for h in r.json().get("results", [])]] *)
Definition hit_id (h : pyval) : result Z :=
  match h with
  | VDict d => v ← dict_item "id" d; py_int v
  | _ => Raise TypeError
  end.
Definition result_ids (j : pyval) : result (list Z) :=
  match j with
  | VDict d =>
      match dict_get_default "results" (VList []) d with
      | VList hs => mapR hit_id hs
      | VStr s => if String.eqb s "" then Ok [] else Raise TypeError
      | VDict d => match d with [] => Ok [] | _ => Raise TypeError end
      | _ => Raise TypeError
      end
  | _ => Raise AttributeError
  end.

Definition insert_failed (start : nat) (r : response) : exn :=
  RuntimeError ("insert failed @" +:+ dec (Z.of_nat start) +:+ ": " +:+ dec (status_code r) +:+ " " +:+ r_text r).

(** The warnings of a rejected binary wire; of the answer they keep the first 200 characters. *)
Definition bulk_warning (r : response) : string :=
  "Rostam server rejected the binary bulk wire (" +:+ dec (status_code r) +:+ ": " +:+ str_take 200 (r_text r) +:+
  "); falling back to JSON for the rest of the load".
Definition query_warning (r : response) : string :=
  "Rostam server rejected the binary query wire (" +:+ dec (status_code r) +:+ ": " +:+ str_take 200 (r_text r) +:+
  "); falling back to JSON queries for the rest of the run".

Definition unsupported (r : response) : bool := existsb (Z.eqb (status_code r)) _BINARY_UNSUPPORTED.

Section Methods.
Context {H : Type} {HT : Http H} {NP : Numpy}.
Implicit Types w : world H.

(** Code that touches only the environment. *)
Definition on_env {A} (m : M (env H) A) : M (world H) A := fun w =>
  let '(r, e) := m (w_env w) in (r, {| w_self := w_self w; w_env := e |}).
Definition self : M (world H) rostam := fun w => (Ok (w_self w), w).
Definition update (f : rostam -> rostam) : M (world H) unit := fun w =>
  (Ok tt, {| w_self := f (w_self w); w_env := w_env w |}).

(** ** Sessions and URLs *)

Definition _new_session (key : option string) : M (env H) session :=
  session_new (match key with
               | Some k => if String.eqb k "" then None else Some ("Bearer " +:+ k)
               | None => None
               end).

Definition _sess : M (world H) session :=
  c ← self;
  match cur_session c with
  | Some s => mret s
  | None => on_env (_new_session (api_key c))
  end.

Definition _url (base : string) (parts : list string) : string :=
  str_join "/" ([base; "v1"; "collections"] ++ parts).

(** [init], a context manager: what it does before its [yield], and its [finally]. *)
Definition init_enter : M (world H) unit :=
  c ← self;
  s ← on_env (_new_session (api_key c));
  update (set_session (Some s)).
Definition init_exit : M (world H) unit :=
  c ← self;
  _ ← (match cur_session c with
       | Some s => on_env (session_close s)
       | None => raise AttributeError
       end);
  update (set_session None).

(** [with self.init(): body] *)
Definition init {A} (body : M (world H) A) : M (world H) A :=
  _ ← init_enter; try_finally body init_exit.

(** ** Construction *)

Definition _create (base name : string) (s : session) (dim : Z) (idx : dict pyval) : M (env H) unit :=
  metric ← lift_result (dict_item "metric" idx);
  m ← lift_result (dict_item "m" idx);
  efc ← lift_result (dict_item "ef_construction" idx);
  efs ← lift_result (dict_item "ef_search" idx);
  let cfg := [("dim", VInt dim); ("metric", metric); ("m", m); ("ef_construction", efc);
              ("ef_search", efs)] in
  cfg ← (if truthy (dict_get_default "quant" VNone idx)
         then quant ← lift_result (dict_item "quant" idx); mret (dict_set "quant" quant cfg)
         else mret cfg);
  r ← post_json s (_url base []) (VDict [("name", VStr name); ("config", VDict cfg)]) 120;
  if (status_code r =? 200) || (status_code r =? 201) then mret tt
  else if (status_code r =? 409) || str_contains "exist" (str_lower (r_text r))
  then raise AlreadyExists
  else raise (RuntimeError ("create collection failed: " +:+ dec (status_code r) +:+ " " +:+ r_text r)).

Definition reuse_message (name : string) : string := "Rostam collection " +:+ name +:+ " already exists; reusing".

Definition is_AlreadyExists (e : exn) : bool :=
  match e with AlreadyExists => true | _ => false end.

Definition __init__ (dim : Z) (db_config : db_dict) (case_config : RostamHNSWConfig)
    (collection_name : string) (drop_old : bool) : M (env H) rostam :=
  url ← lift_result (match db_url db_config with Some u => Ok u | None => Raise (KeyError "url") end);
  let base := str_rstrip "/" url in
  let load_path := match db_load_path db_config with
                   | Some p => if String.eqb p "" then "bulk" else p
                   | None => "bulk"
                   end in
  if negb (existsb (String.eqb load_path) ["bulk"; "payload"; "batch"])
  then raise (RuntimeError ("unknown load_path " +:+ py_repr load_path))
  else
    s ← _new_session (db_api_key db_config);
    let idx := index_param case_config in
    _ ← (if drop_old
         then _ ← http_delete s (_url base [collection_name]) 60; mret tt
         else mret tt);
    _ ← try_catch is_AlreadyExists (_create base collection_name s dim idx)
          (fun e => if drop_old then raise e
                    else log INFO (reuse_message collection_name));
    _ ← session_close s;
    mret {| dim := dim; collection_name := collection_name; base := base;
            api_key := db_api_key db_config; load_path := load_path; query_filter := None;
            binary := default true (db_binary_wire db_config); binary_proven := false;
            binary_query := default true (db_binary_query db_config);
            binary_query_proven := false; filter_blob := []; cur_session := None |}.

(** ** Loading *)

(** One turn of the loop of [insert_embeddings], on the chunk that begins at [start]. *)
Definition insert_chunk (s : session) (url : string) (inline payload_path : bool)
    (metadata : list Z) (rows : f32array) (n start : nat) : M (world H) (flow (nat * option exn)) :=
  let stop := Nat.min (start + INSERT_BATCH) n in
  let ids := metadata@[start : stop] in
  let chunk := np_slice_rows rows start stop in
  let json_path :=
    r ← on_env (post_json s url (_json_body ids chunk payload_path inline) 600);
    if negb (status_code r =? 200) then mret (Return (start, Some (insert_failed start r)))
    else mret Next in
  c ← self;
  if binary c then
    body ← lift_result (_binary_body ids chunk inline payload_path);
    r ← on_env (post_data s url body _BINARY_HEADERS 600);
    c ← self;
    if unsupported r && negb (binary_proven c) then
      _ ← on_env (log WARNING (bulk_warning r));
      _ ← update (set_binary false);
      json_path
    else if negb (status_code r =? 200) then
      mret (Return (start, Some (insert_failed start r)))
    else
      _ ← update (set_binary_proven true);
      mret Next
  else json_path.

Definition insert_embeddings (embeddings : list (list float)) (metadata : list pyval)
    : M (world H) (nat * option exn) :=
  metadata ← lift_result (_to_ints metadata);
  s ← _sess;
  c ← self;
  let inline := String.eqb (load_path c) "batch" in
  let payload_path := existsb (String.eqb (load_path c)) ["payload"; "batch"] in
  let url := _url (base c) [collection_name c; "points"; if inline then "batch" else "bulk"] in
  let n := length metadata in
  rows ← lift_result (_as_f32 embeddings);
  try_catch is_Exception
    (f ← for_loop (py_range 0 n INSERT_BATCH)
           (insert_chunk s url inline payload_path metadata rows n);
     match f with
     | Next => mret (n, None)
     | Return r => mret r
     end)
    (fun e => mret (0%nat, Some e)).

Definition optimize : M (world H) unit :=
  c ← self;
  if String.eqb (load_path c) "batch" then
    on_env (log INFO "Rostam load_path=batch: points indexed inline, no build step")
  else
    s ← _sess;
    r ← on_env (post_json s (_url (base c) [collection_name c; "points"; "bulk"; "build"])
                  (VDict []) (24 * 3600));
    if negb (status_code r =? 200)
    then raise (RuntimeError ("bulk build failed: " +:+ dec (status_code r) +:+ " " +:+ r_text r))
    else mret tt.

(** ** Querying *)

Definition num_ge_filter (field : string) (value : Z) : pyval :=
  VDict [("op", VStr "gte"); ("field", VStr field);
         ("value", VDict [("kind", VStr "int"); ("int", VInt value)])].

Definition prepare_filter (filters : Filter) : M (world H) unit :=
  match filter_type filters with
  | NonFilter => update (set_filter None [])
  | NumGE =>
      c ← self;
      if String.eqb (load_path c) "bulk" then
        raise (RuntimeError ("Rostam filter cases require load_path='payload' (or 'batch'); "
                             +:+ "load_path='bulk' stores no payload to filter on"))
      else
        value ← lift_result (py_int (int_value filters));
        let f := num_ge_filter (int_field filters) value in
        update (set_filter (Some f) (encode (json_dumps f)))
  | OtherFilter name => raise (RuntimeError ("unsupported filter for Rostam: " +:+ name))
  end.

Definition query_json (query : list float) (k : Z) (f : option pyval) : pyval :=
  let body := [("query", VList (VFloat <$> query)); ("k", VInt k)] in
  VDict (match f with Some f => dict_set "filter" f body | None => body end).

Definition search_embedding (query : list float) (k : Z) : M (world H) (list Z) :=
  s ← _sess;
  c ← self;
  let url := _url (base c) [collection_name c; "points"; "search"] in
  let json_path :=
    c ← self;
    r ← on_env (post_json s url (query_json query k (query_filter c)) 120);
    _ ← lift_result (http_raise_for_status r);
    j ← lift_result (r_json r);
    lift_result (result_ids j) in
  if binary_query c then
    body ← lift_result (_query_body query k (filter_blob c));
    r ← on_env (post_data s url body _BINARY_HEADERS 120);
    c ← self;
    if unsupported r && negb (binary_query_proven c) then
      _ ← on_env (log WARNING (query_warning r));
      _ ← update (set_binary_query false);
      json_path
    else
      _ ← lift_result (http_raise_for_status r);
      _ ← update (set_binary_query_proven true);
      j ← lift_result (r_json r);
      lift_result (result_ids j)
  else json_path.
End Methods.
