(* ===== verification/Server.v ===== *)
(** * What the server reads: the contract between the client and the vector API

    The Rostam server is not code of this repository.  This file gives the meaning of the
    requests the client sends ([request_points], [request_query]), and the interfaces the
    client's theorems are proved against: a server that accepts points ([PointServer]) and a
    server whose search answers depend only on the query it decodes ([SearchServer]). *)

From S2P Require Import Prelude Bytes Text Float64 F32 PyVal JsonRead Numpy Http Wire Client.

Record point := { pt_id : Z; pt_vec : list Z; pt_meta : option pyval }.

(** The points a chunk is meant to store. *)
Definition chunk_point (payload : bool) (i : Z) (r : list Z) : point :=
  {| pt_id := i; pt_vec := r; pt_meta := if payload then Some (id_metadata i) else None |}.
Definition chunk_points (payload : bool) (ids : list Z) (rows : list (list Z)) : list point :=
  zip_with (chunk_point payload) ids rows.

(** Decode every element of a list. *)
Fixpoint all_some {A B} (f : A -> option B) (l : list A) : option (list B) :=
  match l with
  | [] => Some []
  | x :: l => y ← f x; ys ← all_some f l; Some (y :: ys)
  end.

Lemma all_some_fmap {A B C} (f : A -> option B) (g : C -> A) (h : C -> B) l :
  (forall x, x ∈ l -> f (g x) = Some (h x)) -> all_some f (g <$> l) = Some (h <$> l).
Proof.
  induction l as [|x l IH]; intros Hl; [done|]. rewrite !fmap_cons. cbn [all_some].
  rewrite Hl by set_solver. cbn [mbind option_bind]. rewrite IH; [done|set_solver].
Qed.

Lemma zip_with_zip_fmap {A B C D} (f : A * B -> C -> D) (g : A -> C) l (k : list B) :
  zip_with f (zip l k) (g <$> l) = zip_with (fun a b => f (a, b) (g a)) l k.
Proof.
  revert k. induction l as [|a l IH]; intros [|b k]; [done..|]. cbn. f_equal. apply IH.
Qed.

Section Decode.
Context {NP : Numpy}.

(** A frame's rows, with the metadata of its payloads. *)
Definition frame_points (f : rvb1_frame) : option (list point) :=
  if rvb1_payloads f then
    metas ← all_some (fun b => json_read (String.string_of_list_byte b)) (rvb1_pays f);
    Some (zip_with (fun row m => {| pt_id := row.1; pt_vec := row.2; pt_meta := Some m |}) (rvb1_rows f) metas)
  else Some ((fun row => {| pt_id := row.1; pt_vec := row.2; pt_meta := None |}) <$> rvb1_rows f).

(** A JSON number as a float32. *)
Definition json_f32 (v : pyval) : option Z :=
  match v with VFloat x => Some (np_float32 x) | _ => None end.
Definition json_vector (v : pyval) : option (list Z) :=
  match v with VList l => all_some json_f32 l | _ => None end.

Definition json_point (v : pyval) : option point :=
  match v with
  | VDict d =>
      match dict_get "id" d, dict_get "vector" d with
      | Some (VInt i), Some v =>
          vec ← json_vector v;
          Some {| pt_id := i; pt_vec := vec; pt_meta := dict_get "metadata" d |}
      | _, _ => None
      end
  | _ => None
  end.

Definition json_points (v : pyval) : option (list point) :=
  match v with
  | VDict d => match dict_get "points" d with
               | Some (VList ps) => all_some json_point ps
               | _ => None
               end
  | _ => None
  end.

(** The points an insert request carries, on either wire. *)
Definition request_points (rq : request) : option (list point) :=
  match rq_body rq with
  | RawBody bs => f ← p_run rvb1_parse bs; frame_points f
  | JsonBody v => json_points v
  | NoBody => None
  end.

(** The query a search request carries, on either wire. *)
Record search_query := { sq_vec : list Z; sq_k : Z; sq_filter : option pyval }.

Definition json_query (v : pyval) : option search_query :=
  match v with
  | VDict d =>
      match dict_get "query" d, dict_get "k" d with
      | Some v, Some (VInt k) =>
          vec ← json_vector v;
          Some {| sq_vec := vec; sq_k := k; sq_filter := dict_get "filter" d |}
      | _, _ => None
      end
  | _ => None
  end.

Definition frame_query (f : rvq1_frame) : option search_query :=
  match rvq1_filter f with
  | None => Some {| sq_vec := rvq1_query f; sq_k := rvq1_k f; sq_filter := None |}
  | Some b =>
      v ← json_read (String.string_of_list_byte b);
      Some {| sq_vec := rvq1_query f; sq_k := rvq1_k f; sq_filter := Some v |}
  end.

Definition request_query (rq : request) : option search_query :=
  match rq_body rq with
  | RawBody bs => f ← p_run rvq1_parse bs; frame_query f
  | JsonBody v => json_query v
  | NoBody => None
  end.

(** A binary body is of one kind: their magics differ. *)
Lemma raw_query_no_points rq bs sq :
  rq_body rq = RawBody bs -> request_query rq = Some sq -> request_points rq = None.
Proof.
  unfold request_query, request_points. intros ->. unfold p_run, rvq1_parse, rvb1_parse, mbind, parser_bind, option_bind.
  destruct (p_take 4 bs) as [[magic rest]|]; [|done]. unfold p_guard.
  destruct (decide (magic = encode "RVQ1")) as [->|Hm]; [by intros _; vm_compute|].
  by rewrite (bool_decide_eq_false_2 _ Hm).
Qed.

(** ** The contracts *)

(** A server that accepts points.  [accepted] is the sequence of points it has taken. *)
Class PointServer (H : Type) {HT : Http H} := {
  accepted : H -> list point;
  (** a request answered 200 is applied, whole *)
  accepted_ok rq pts h r h' :
    request_points rq = Some pts -> http_send rq h = (Ok r, h') -> status_code r = 200 ->
    accepted h' = accepted h ++ pts;
  (** a binary body refused with 400, 404 or 415 applied nothing *)
  accepted_refused rq bs h r h' :
    rq_body rq = RawBody bs -> http_send rq h = (Ok r, h') -> unsupported r = true ->
    accepted h' = accepted h
}.

(** A server in working order, which speaks the binary bulk wire or does not. *)
Class WorkingServer (H : Type) {HT : Http H} := {
  speaks_binary : bool;
  working_ok rq pts h r h' :
    request_points rq = Some pts -> (is_raw rq = true -> speaks_binary = true) ->
    http_send rq h = (r, h') -> exists a, r = Ok a /\ status_code a = 200;
  working_refuses rq h r h' :
    is_raw rq = true -> speaks_binary = false ->
    http_send rq h = (r, h') -> exists a, r = Ok a /\ unsupported a = true
}.

(** A server that understands both query wires and answers by its state and the decoded
    query. *)
Class SearchServer (H : Type) {HT : Http H} := {
  search_answer : H -> search_query -> response;
  search_answer_ok rq sq h :
    request_query rq = Some sq -> exists h', http_send rq h = (Ok (search_answer h sq), h')
}.

(** ** Both wires say the same *)

Context {NL : NumpyLaws NP}.

Lemma frame_points_chunk d ids rows upsert payloads :
  frame_points (chunk_frame d ids rows upsert payloads) = Some (chunk_points payloads ids rows).
Proof.
  unfold frame_points, chunk_frame, chunk_points. cbn [rvb1_payloads rvb1_rows rvb1_pays].
  destruct payloads.
  - rewrite (all_some_fmap _ id_payload id_metadata) by (intros; apply json_read_id_payload).
    cbn [mbind option_bind]. by rewrite zip_with_zip_fmap.
  - rewrite (zip_with_zip (chunk_point false)). f_equal. by apply list_fmap_ext; intros ? [].
Qed.

Definition finite_rows (rows : list (list Z)) : Prop :=
  Forall (Forall (fun w => is_f32 w /\ is_f32_nan w = false)) rows.

Lemma json_vector_row r :
  Forall (fun w => is_f32 w /\ is_f32_nan w = false) r ->
  json_vector (VList (VFloat <$> (np_float64 <$> r))) = Some r.
Proof.
  intros Hr. cbn. rewrite <- list_fmap_compose.
  rewrite (all_some_fmap _ _ id), list_fmap_id; [done|].
  intros w Hw. cbn. destruct (Forall_elem _ _ _ Hr Hw). by rewrite np_float32_float64.
Qed.

Lemma json_points_chunk d ids rows upsert payloads :
  finite_rows rows ->
  json_points (_json_body ids (f32_matrix d rows) payloads upsert) = Some (chunk_points payloads ids rows).
Proof.
  intros Hf. unfold _json_body, json_points, f32_matrix; cbn [nd_rows].
  replace (dict_get "points" _) with (Some (VList (zip_with (fun i (v : list float) =>
    VDict ([("id", VInt i); ("vector", VList (VFloat <$> v))]
           ++ if payloads then [("metadata", id_metadata i)] else [])) ids (np_float64_rows rows))))
    by by destruct upsert.
  unfold np_float64_rows, chunk_points. rewrite zip_with_fmap_r, zip_with_zip, (zip_with_zip (chunk_point _)).
  apply all_some_fmap. intros [i r] Hir. cbn [uncurry].
  pose proof (json_vector_row r (Forall_elem _ _ _ Hf (elem_of_zip_r _ _ _ _ Hir))) as Hv.
  unfold json_point. destruct payloads; cbn [app dict_get String.eqb Ascii.eqb Bool.eqb]; by rewrite Hv.
Qed.
End Decode.
