(* ===== verification/ClientFacts.v ===== *)
(** * Lemmas about the client's methods

    Rules that run the methods of {!Client} symbolically, the automaton of a wire (probing,
    proven binary, fallen back to JSON), and the facts about loading and searching that the
    properties of {!ClientProps} are read off from. *)

From S2P Require Import Prelude Bytes Text Float64 F32 PyVal JsonRead Numpy Http Config Wire Client Server.

(** The environment after a request, answered by [r]. *)
Definition sent {H} (rq : request) (r : result response) (h : H) (e : env H) : env H :=
  {| env_http := h; env_log := env_log e ++ [rq]; env_answers := env_answers e ++ [r]; env_next := env_next e; env_open := env_open e;
     env_messages := env_messages e |}.

(** The environment after a message. *)
Definition noted {H} (level : log_level) (msg : string) (e : env H) : env H :=
  {| env_http := env_http e; env_log := env_log e; env_answers := env_answers e; env_next := env_next e; env_open := env_open e;
     env_messages := env_messages e ++ [(level, msg)] |}.

Section Rules.
Context {H : Type} {HT : Http H} {NP : Numpy}.

Lemma wp_on_env {A} (m : M (env H) A) w Q :
  wp m (w_env w) (fun r e => Q r {| w_self := w_self w; w_env := e |}) -> wp (on_env m) w Q.
Proof. unfold wp, outcome, after, on_env. by destruct (m (w_env w)). Qed.

Lemma wp_self (w : world H) (Q : result rostam -> world H -> Prop) : Q (Ok (w_self w)) w -> wp self w Q.
Proof. done. Qed.

Lemma wp_update f (w : world H) (Q : result unit -> world H -> Prop) :
  Q (Ok tt) {| w_self := f (w_self w); w_env := w_env w |} -> wp (update f) w Q.
Proof. done. Qed.

Lemma wp_send rq e (Q : result response -> env H -> Prop) :
  (forall r h, http_send rq (env_http e) = (r, h) -> Q r (sent rq r h e)) -> wp (session_send rq) e Q.
Proof. intros HQ. unfold wp, outcome, after, session_send. destruct (http_send rq (env_http e)). by apply HQ. Qed.

Lemma wp_log level msg e (Q : result unit -> env H -> Prop) : Q (Ok tt) (noted level msg e) -> wp (log level msg) e Q.
Proof. done. Qed.

(** [_sess] only ever opens a session: the server and the logs stay as they are. *)
Lemma wp_sess (w : world H) (Q : result session -> world H -> Prop) :
  (forall s nx op, Q (Ok s) {| w_self := w_self w;
     w_env := {| env_http := env_http (w_env w); env_log := env_log (w_env w);
                 env_answers := env_answers (w_env w); env_next := nx; env_open := op;
                 env_messages := env_messages (w_env w) |} |}) ->
  wp _sess w Q.
Proof.
  intros HQ. unfold _sess. apply wp_bind, wp_self. destruct (cur_session (w_self w)) as [s|].
  - apply wp_ret. specialize (HQ s (env_next (w_env w)) (env_open (w_env w))).
    by destruct w as [? []].
  - apply wp_on_env. apply HQ.
Qed.
End Rules.

Ltac client_step :=
  first
    [ wp_step
    | lazymatch goal with
      | |- wp (on_env _) _ _ => apply wp_on_env
      | |- wp self _ _ => apply wp_self
      | |- wp (update _) _ _ => apply wp_update
      | |- wp (post_json _ _ _ _) _ _ => unfold post_json
      | |- wp (post_data _ _ _ _ _) _ _ => unfold post_data
      | |- wp (session_send _) _ _ => apply wp_send; intros
      | |- wp (log _ _) _ _ => apply wp_log
      end ].
Ltac client_steps := repeat (client_step; cbn [w_self w_env]).

(** Two descriptions of one transition of the server agree. *)
Ltac same_send :=
  match goal with
  | E1 : http_send ?rq ?h = _, E2 : http_send ?rq ?h = _ |- _ => rewrite E1 in E2; simplify_eq
  end.

(** ** The automaton of a wire *)

Inductive wire_mode := Probing | Proven | Fallback.

Definition mode_of (on proven : bool) : wire_mode :=
  if on then if proven then Proven else Probing else Fallback.
Definition bulk_mode (c : rostam) : wire_mode := mode_of (binary c) (binary_proven c).
Definition query_mode (c : rostam) : wire_mode := mode_of (binary_query c) (binary_query_proven c).

(** One request and what it came back with. *)
Definition exchange : Type := request * result response.
Definition in_binary (x : exchange) : Prop := is_raw x.1 = true.
Definition in_json (x : exchange) : Prop := is_raw x.1 = false.

(** What the bulk wire and the query wire take for a success. *)
Definition bulk_good (r : response) : bool := status_code r =? 200.
Definition query_good {H} {HT : Http H} (r : response) : bool := is_ok (http_raise_for_status r).

(** A wire, by the answers it takes for a success. *)
Section Automaton.
Variable good : response -> bool.

(** An answer that proves the binary wire, one that rules it out, and one that settles nothing. *)
Definition proves (a : result response) : Prop := exists r, a = Ok r /\ good r = true /\ unsupported r = false.
Definition rejects (a : result response) : Prop := exists r, a = Ok r /\ unsupported r = true.
Definition settles_nothing (a : result response) : Prop :=
  forall r, a = Ok r -> good r = false /\ unsupported r = false.

(** One use of the wire: its mode, what it sends and what that comes back with, its next mode. *)
Inductive wire_step : wire_mode -> list exchange -> wire_mode -> Prop :=
| step_unencodable m : wire_step m [] m
| step_probe_ok x : in_binary x -> proves x.2 -> wire_step Probing [x] Proven
| step_probe_fail x : in_binary x -> settles_nothing x.2 -> wire_step Probing [x] Probing
| step_fall_back x y : in_binary x -> rejects x.2 -> in_json y -> wire_step Probing [x; y] Fallback
| step_proven x : in_binary x -> wire_step Proven [x] Proven
| step_fallback x : in_json x -> wire_step Fallback [x] Fallback.

Inductive wire_run : wire_mode -> list exchange -> wire_mode -> Prop :=
| run_nil m : wire_run m [] m
| run_step m1 t1 m2 t2 m3 : wire_step m1 t1 m2 -> wire_run m2 t2 m3 -> wire_run m1 (t1 ++ t2) m3.

Lemma wire_run_one m t m' : wire_step m t m' -> wire_run m t m'.
Proof. intros Hs. rewrite <- (app_nil_r t). econstructor; [done|constructor]. Qed.

Lemma wire_run_app m1 t1 m2 t2 m3 : wire_run m1 t1 m2 -> wire_run m2 t2 m3 -> wire_run m1 (t1 ++ t2) m3.
Proof.
  intros H1 H2. induction H1 as [|m1 t1 m2 t1' m3' Hs _ IH]; [done|].
  rewrite <- app_assoc. econstructor; eauto.
Qed.

(** A binary exchange that leaves the wire open. *)
Definition probe (x : exchange) : Prop := in_binary x /\ settles_nothing x.2.

(** What a run sends, told without the client's modes: probes that settle nothing; then, if one
    is answered with a success, binary requests for good, and if one is refused as not supported,
    JSON requests for good. *)
Lemma wire_run_shape m t m' : wire_run m t m' ->
  match m with
  | Probing =>
      Forall probe t /\ m' = Probing \/
      (exists ps x bs, t = ps ++ x :: bs /\ Forall probe ps /\ in_binary x /\ proves x.2 /\
         Forall in_binary bs /\ m' = Proven) \/
      (exists ps x y js, t = ps ++ x :: y :: js /\ Forall probe ps /\ in_binary x /\ rejects x.2 /\
         in_json y /\ Forall in_json js /\ m' = Fallback)
  | Proven => Forall in_binary t /\ m' = Proven
  | Fallback => Forall in_json t /\ m' = Fallback
  end.
Proof.
  induction 1 as [m|m1 t1 m2 t2 m3 Hs Hr IH].
  - destruct m; [left| |]; by split.
  - destruct Hs as [m|x Hb Hp|x Hb Hn|x y Hb Hj Hy|x Hb|x Hj]; cbn [app].
    + done.
    + destruct IH as [Hall ->]. right. left. by exists [], x, t2.
    + destruct IH as [[Hall ->]|[(ps & z & bs & -> & Hps & Hz)|(ps & z & y & js & -> & Hps & Hz)]].
      * left. split; [by constructor|done].
      * right. left. exists (x :: ps), z, bs. split; [done|]. split; [by constructor|done].
      * right. right. exists (x :: ps), z, y, js. split; [done|]. split; [by constructor|done].
    + destruct IH as [Hall ->]. right. right. by exists [], x, y, t2.
    + destruct IH as [Hall ->]. split; [by constructor|done].
    + destruct IH as [Hall ->]. split; [by constructor|done].
Qed.

(** [x] settles the wire for a later [y]: after a JSON request every request is JSON, and after a
    binary request answered with a success every request is binary. *)
Definition settles (x y : exchange) : Prop :=
  (in_json x -> in_json y) /\ (in_binary x -> proves x.2 -> in_binary y).

Lemma json_settles x t : in_json x -> Forall in_json t -> Forall (settles x) t.
Proof.
  intros Hx Ht. eapply Forall_impl; [|exact Ht]. intros y Hy. split; [done|].
  unfold in_json, in_binary in *. congruence.
Qed.
Lemma binary_settles x t : in_binary x -> Forall in_binary t -> Forall (settles x) t.
Proof.
  intros Hx Ht. eapply Forall_impl; [|exact Ht]. intros y Hy. split; [|done].
  unfold in_json, in_binary in *. congruence.
Qed.
Lemma open_settles x t : in_binary x -> ~ proves x.2 -> Forall (settles x) t.
Proof.
  intros Hx Hp. apply Forall_forall. intros y _. split; [|done].
  unfold in_json, in_binary in *. congruence.
Qed.

Lemma probe_proves_nothing a : settles_nothing a -> ~ proves a.
Proof. intros Hn (r & -> & Hg & _). destruct (Hn r eq_refl). congruence. Qed.
Lemma rejection_proves_nothing a : rejects a -> ~ proves a.
Proof. intros (r & -> & Hr) (r' & E & _ & Hr'). simplify_eq. congruence. Qed.

(** Every run of the automaton settles its wire once. *)
Lemma wire_run_settles m t m' : wire_run m t m' -> ForallOrdPairs settles t.
Proof.
  induction 1 as [m|m1 t1 m2 t2 m3 Hs Hr IH]; [constructor|].
  pose proof (wire_run_shape _ _ _ Hr) as Hshape.
  destruct Hs as [m|x Hb Hp|x Hb Hn|x y Hb Hj Hy|x Hb|x Hj]; cbn [app].
  - done.
  - constructor; [|done]. apply binary_settles; [done|apply Hshape].
  - constructor; [|done]. apply open_settles; [done|by apply probe_proves_nothing].
  - constructor; [apply open_settles; [done|by apply rejection_proves_nothing]|]. constructor; [|done]. apply json_settles; [done|apply Hshape].
  - constructor; [|done]. apply binary_settles; [done|apply Hshape].
  - constructor; [|done]. apply json_settles; [done|apply Hshape].
Qed.

(** [w'] follows [w] by exchanges that run the wire [mode] by the automaton. *)
Definition follows {H} (mode : rostam -> wire_mode) (w w' : world H) : Prop :=
  exists xs, env_log (w_env w') = env_log (w_env w) ++ xs.*1 /\
    env_answers (w_env w') = env_answers (w_env w) ++ xs.*2 /\
    wire_run (mode (w_self w)) xs (mode (w_self w')).

Lemma follows_refl {H} mode (w w' : world H) :
  env_log (w_env w') = env_log (w_env w) -> env_answers (w_env w') = env_answers (w_env w) ->
  mode (w_self w') = mode (w_self w) -> follows mode w w'.
Proof. intros Hl Ha Hm. exists []. rewrite Hl, Ha, !app_nil_r, Hm. split_and!; [done|done|constructor]. Qed.

Lemma follows_trans {H} mode (w1 w2 w3 : world H) :
  follows mode w1 w2 -> follows mode w2 w3 -> follows mode w1 w3.
Proof.
  intros (x1 & L1 & A1 & H1) (x2 & L2 & A2 & H2). exists (x1 ++ x2).
  rewrite L2, L1, A2, A1, !fmap_app, !app_assoc. split_and!; [done|done|]. by eapply wire_run_app.
Qed.

Lemma follows_step {H} mode (w w' : world H) xs :
  env_log (w_env w') = env_log (w_env w) ++ xs.*1 -> env_answers (w_env w') = env_answers (w_env w) ++ xs.*2 ->
  wire_step (mode (w_self w)) xs (mode (w_self w')) -> follows mode w w'.
Proof. intros Hl Ha Hs. exists xs. split_and!; [done|done|]. by apply wire_run_one. Qed.

(** Steps of one and of two exchanges. *)
Lemma follows_one {H} mode (w w' : world H) rq a :
  env_log (w_env w') = env_log (w_env w) ++ [rq] -> env_answers (w_env w') = env_answers (w_env w) ++ [a] ->
  wire_step (mode (w_self w)) [(rq, a)] (mode (w_self w')) -> follows mode w w'.
Proof. apply (follows_step mode w w' [(rq, a)]). Qed.
Lemma follows_two {H} mode (w w' : world H) rq a rq' a' :
  env_log (w_env w') = env_log (w_env w) ++ [rq; rq'] -> env_answers (w_env w') = env_answers (w_env w) ++ [a; a'] ->
  wire_step (mode (w_self w)) [(rq, a); (rq', a')] (mode (w_self w')) -> follows mode w w'.
Proof. apply (follows_step mode w w' [(rq, a); (rq', a')]). Qed.
End Automaton.

(** Case analysis on what a step of a method depends on. *)
Ltac client_case :=
  match goal with
  | |- match ?r with Ok _ => _ | Raise _ => _ end => tryif is_var r then destruct r else destruct r eqn:?
  | |- wp (if ?b then _ else _) _ _ => destruct b eqn:?
  end.
Ltac client_run := repeat (client_steps; cbn [w_self w_env]; try client_case).

(** A run of at most two requests is a step of the automaton. *)
Ltac known_answer := first [assumption | by match goal with E : _ = _ |- _ => rewrite E end].
Ltac answer_class :=
  cbn [snd]; first
    [ eexists; split_and!; [reflexivity|known_answer|known_answer]
    | eexists; split; [reflexivity|known_answer]
    | intros ? ?; simplify_eq; split; known_answer ].
Ltac automaton_step :=
  unfold bulk_mode, query_mode, mode_of; cbn;
  repeat match goal with E : _ (w_self _) = _ |- _ => rewrite E end;
  cbn [negb] in *; rewrite ?andb_true_r, ?andb_false_r, ?negb_true_iff, ?negb_false_iff in *;
  first [ discriminate
        | by apply step_proven | by apply step_fallback
        | apply step_probe_ok; [reflexivity|answer_class]
        | apply step_probe_fail; [reflexivity|answer_class]
        | apply step_fall_back; [reflexivity|answer_class|reflexivity] ].
Ltac log_grows := cbn [env_log env_answers w_env sent noted]; rewrite <- ?app_assoc; reflexivity.
Ltac solve_follows proven :=
  first
    [ by apply follows_refl
    | first [eapply follows_one; [log_grows|log_grows|] | eapply follows_two; [log_grows|log_grows|]];
      unfold bulk_good, query_good in *; destruct proven eqn:Hproven; automaton_step ].

Section Wires.
Context {H : Type} {HT : Http H} {NP : Numpy}.

Lemma insert_chunk_follows s url inline payload metadata rows n start (w : world H) :
  wp (insert_chunk s url inline payload metadata rows n start) w (fun _ w' => follows bulk_good bulk_mode w w').
Proof. unfold insert_chunk. client_run. all: solve_follows (binary_proven (w_self w)). Qed.

Lemma insert_follows e m (w : world H) :
  wp (insert_embeddings e m) w (fun _ w' => follows bulk_good bulk_mode w w').
Proof.
  unfold insert_embeddings. client_steps.
  destruct (_to_ints m) as [ids|]; [|by apply follows_refl]. client_steps.
  apply wp_sess. intros s nx op. client_steps.
  destruct (_as_f32 e) as [rows|]; [|by apply follows_refl]. client_steps.
  set (w1 := Build_world _ _ _).
  apply (wp_mono _ _ (fun _ w' => follows bulk_good bulk_mode w1 w')).
  - apply (wp_for (fun _ w' => follows bulk_good bulk_mode w1 w')).
    + by apply follows_refl.
    + intros done x rest w' _ Hw'. eapply wp_mono; [apply insert_chunk_follows|].
      intros [[|a]|e'] w'' Hw''; by eapply follows_trans.
    + done.
  - intros [[|a]|e'] w' Hw'; client_steps; try destruct (is_Exception e'); done.
Qed.

Lemma search_follows q k (w : world H) :
  wp (search_embedding q k) w (fun _ w' => follows query_good query_mode w w').
Proof.
  unfold search_embedding. client_steps. apply wp_sess. intros s nx op.
  client_run. all: solve_follows (binary_query_proven (w_self w)).
Qed.
End Wires.

(** ** Loading *)

(** The load paths that send each point's metadata. *)
Definition stores_payload (c : rostam) : bool := existsb (String.eqb (load_path c)) ["payload"; "batch"].

(** The arguments of a load: one id per row, 64-bit ids, rows of one dimension whose values
    are numbers. *)
Record load (d : nat) (ids : list Z) (rows : list (list Z)) : Prop := {
  load_length : length ids = length rows;
  load_ids : Forall (is_u 8) ids;
  load_dim : Forall (fun r => length r = d) rows;
  load_finite : finite_rows rows;
  load_width : is_u 4 (Z.of_nat d)
}.

(** The number of chunks of a load. *)
Definition load_chunks (n : nat) : nat := length (py_range 0 n INSERT_BATCH).

Lemma load_chunks_cover n : (n <= load_chunks n * INSERT_BATCH)%nat.
Proof. apply py_range_end. pose proof INSERT_BATCH_eq. lia. Qed.

Lemma load_chunks_pos {A} (l : list A) : l <> [] -> (0 < load_chunks (length l))%nat.
Proof. intros Hl. pose proof (load_chunks_cover (length l)). destruct l; [done|]. cbn in *. lia. Qed.

Definition chunk_end (n start : nat) : nat := Nat.min (start + INSERT_BATCH) n.

Lemma load_chunk d ids rows start :
  load d ids rows ->
  wire_chunk d ids@[start : chunk_end (length ids) start] rows@[start : chunk_end (length ids) start].
Proof.
  intros [Hl Hids Hd Hf Hw]. split; auto with py.
  - by rewrite !length_py_slice, Hl.
  - apply Forall_py_slice. eapply Forall_impl; [|exact Hf]. intros r Hr.
    eapply Forall_impl; [|exact Hr]. by intros w [].
  - rewrite length_py_slice. pose proof INSERT_BATCH_eq. unfold is_u, chunk_end. lia.
Qed.

(** The two bodies of a chunk, as requests, carry the same points. *)
Section Bodies.
Context {NP : Numpy} {NL : NumpyLaws NP}.
Variables (d : nat) (ids : list Z) (rows : list (list Z)) (upsert payload : bool).
Variables (url : string) (auth : option string) (headers : list (string * string)) (timeout : Z).

Lemma binary_request_points body :
  wire_chunk d ids rows ->
  _binary_body ids (f32_matrix d rows) upsert payload = Ok body ->
  request_points (Build_request POST url auth headers (RawBody body) timeout) =
  Some (chunk_points payload ids rows).
Proof.
  intros Hc E. destruct (binary_body_parse d ids rows upsert payload Hc) as (bs & E' & Hp).
  rewrite E in E'. injection E' as ->. unfold request_points. cbn [rq_body].
  rewrite Hp. apply frame_points_chunk.
Qed.

Lemma json_request_points :
  finite_rows rows ->
  request_points (Build_request POST url auth headers
    (JsonBody (_json_body ids (f32_matrix d rows) payload upsert)) timeout) =
  Some (chunk_points payload ids rows).
Proof. apply json_points_chunk. Qed.
End Bodies.

Section Loading.
Context {H : Type} {HT : Http H} {NP : Numpy} {NL : NumpyLaws NP} {PS : PointServer H}.

Definition taken (w : world H) : list point := accepted (env_http (w_env w)).

(** The failure of the chunk that begins at [k]: everything before it was accepted, and
    the request that carried it was answered with another status than 200. *)
Definition chunk_refused (w w' : world H) (pts : list point) (k : nat) (err : exn) : Prop :=
  exists h rq r,
    accepted h = taken w ++ take k pts /\
    request_points rq = Some pts@[k : chunk_end (length pts) k] /\
    http_send rq h = (Ok r, env_http (w_env w')) /\
    status_code r <> 200 /\ err = insert_failed k r.

Lemma insert_chunk_spec s url inline payload d ids rows k (w0 w : world H) :
  load d ids rows -> (k < length ids)%nat ->
  taken w = taken w0 ++ take k (chunk_points payload ids rows) ->
  wp (insert_chunk s url inline payload ids (f32_matrix d rows) (length ids) k) w (fun r w' =>
    match r with
    | Ok Next => taken w' = taken w0 ++ take (chunk_end (length ids) k) (chunk_points payload ids rows)
    | Ok (Return (n, Some e)) => n = k /\ chunk_refused w0 w' (chunk_points payload ids rows) k e
    | Ok (Return (_, None)) => False
    | Raise _ => True
    end).
Proof.
  intros Hload Hk Hw. pose proof (load_chunk d ids rows k Hload) as Hchunk.
  assert (length (chunk_points payload ids rows) = length ids) as Hlen.
  { unfold chunk_points. rewrite length_zip_with. pose proof (load_length _ _ _ Hload). lia. }
  assert (chunk_points payload ids@[k : chunk_end (length ids) k] rows@[k : chunk_end (length ids) k]
          = (chunk_points payload ids rows)@[k : chunk_end (length ids) k]) as Hpts
    by apply zip_with_py_slice.
  assert (forall rq h r h', request_points rq = Some (chunk_points payload ids rows)@[k : chunk_end (length ids) k] ->
    accepted h = taken w -> http_send rq h = (Ok r, h') -> (status_code r =? 200) = true ->
    accepted h' = taken w0 ++ take (chunk_end (length ids) k) (chunk_points payload ids rows)) as Hok.
  { intros rq h r h' Hrq Hh Hsend Hr%Z.eqb_eq. rewrite (accepted_ok _ _ _ _ _ Hrq Hsend Hr), Hh, Hw, <- app_assoc.
    rewrite take_py_slice; [done|unfold chunk_end; lia]. }
  assert (forall rq h r h' w', request_points rq = Some (chunk_points payload ids rows)@[k : chunk_end (length ids) k] ->
    accepted h = taken w -> http_send rq h = (Ok r, h') -> (status_code r =? 200) = false ->
    env_http (w_env w') = h' ->
    k = k /\ chunk_refused w0 w' (chunk_points payload ids rows) k (insert_failed k r)) as Hbad.
  { intros rq h r h' w' Hrq Hh Hsend Hr%Z.eqb_neq <-. split; [done|]. exists h, rq, r.
    by rewrite Hlen, Hh, Hw. }
  rewrite <- Hpts in Hok, Hbad.
  unfold insert_chunk. rewrite np_slice_rows_matrix. fold (chunk_end (length ids) k).
  assert (finite_rows rows@[k : chunk_end (length ids) k]) as Hfin
    by apply Forall_py_slice, (load_finite _ _ _ Hload).
  client_run; cbn [env_http w_env sent noted] in *; unfold taken in *;
    rewrite ?negb_true_iff, ?negb_false_iff in *; try exact I.
  all: first [ eapply Hbad; cycle 4; [cbn; reflexivity|..] | cbn; eapply Hok ]; cycle 2; [eassumption|eassumption|..].
  all: try by (eapply binary_request_points; eassumption).
  all: try by apply json_request_points.
  all: try reflexivity.
  all: match goal with E : _ && _ = true |- _ => apply andb_true_iff in E as [? _] end.
  all: eapply accepted_refused; [|eassumption|assumption]; reflexivity.
Qed.

(** What the outcome of a load says of the points the server took. *)
Definition load_outcome (w : world H) (pts : list point) (r : result (nat * option exn)) (w' : world H) : Prop :=
  match r with
  | Ok (n, None) => n = length pts /\ taken w' = taken w ++ pts
  | Ok (k, Some err) =>
      (k < length pts)%nat /\ chunk_refused w w' pts k err \/ k = 0%nat /\ is_Exception err = true
  | Raise e => is_Exception e = false
  end.

Lemma load_points d ids rows payload : load d ids rows -> length (chunk_points payload ids rows) = length ids.
Proof. intros []. unfold chunk_points. rewrite length_zip_with. lia. Qed.

Lemma insert_spec e m d ids rows (w : world H) :
  _to_ints m = Ok ids -> _as_f32 e = Ok (f32_matrix d rows) -> load d ids rows ->
  wp (insert_embeddings e m) w (load_outcome w (chunk_points (stores_payload (w_self w)) ids rows)).
Proof.
  intros Hids Hrows Hload. unfold insert_embeddings.
  set (pts := chunk_points _ ids rows).
  assert (length pts = length ids) as Hlen by by apply (load_points d).
  client_steps. rewrite Hids. client_steps. apply wp_sess. intros s nx op.
  client_steps. rewrite Hrows. client_steps.
  apply (wp_for_chunks (fun k w' => taken w' = taken w ++ take k pts)).
  - pose proof INSERT_BATCH_eq. lia.
  - by rewrite take_0, app_nil_r.
  - intros k w' Hk Hw'. eapply wp_mono; [by apply (insert_chunk_spec _ _ _ _ d _ _ _ w)|].
    intros [[|[n [err|]]]|err] w''; [done| |done|].
    + intros [-> Hr]. client_steps. left. split; [lia|done].
    + intros _. destruct (is_Exception err) eqn:He; client_steps; [by right|done].
  - intros w' Hw'. client_steps. split; [done|].
    rewrite Hw', take_ge; [done|lia].
Qed.
End Loading.

(** ** Loading into a server in working order *)

Section Working.
Context {H : Type} {HT : Http H} {NP : Numpy} {NL : NumpyLaws NP} {PS : PointServer H} {WS : WorkingServer H}.

(** The client believes in the binary wire only where the server speaks it. *)
Definition honest (w : world H) : Prop := binary_proven (w_self w) = true -> speaks_binary = true.

Definition falls_back (w : world H) : bool := binary (w_self w) && negb speaks_binary.

Lemma supported_200 r : status_code r = 200 -> unsupported r = false.
Proof. intros E. unfold unsupported. by rewrite E. Qed.

Lemma insert_chunk_works s url inline payload d ids rows k (w : world H) :
  load d ids rows -> (k < length ids)%nat -> honest w ->
  wp (insert_chunk s url inline payload ids (f32_matrix d rows) (length ids) k) w (fun r w' =>
    r = Ok Next /\ honest w' /\
    taken w' = taken w ++ (chunk_points payload ids rows)@[k : chunk_end (length ids) k] /\
    binary (w_self w') = binary (w_self w) && speaks_binary /\
    length (env_log (w_env w')) = (length (env_log (w_env w)) + (if falls_back w then 2 else 1))%nat).
Proof.
  intros Hload Hk Hhon. pose proof (load_chunk d ids rows k Hload) as Hchunk.
  unfold insert_chunk. rewrite np_slice_rows_matrix. fold (chunk_end (length ids) k).
  unfold chunk_points. rewrite <- zip_with_py_slice. fold (chunk_points payload).
  set (ids' := ids@[_ : _]) in *. set (rows' := rows@[_ : _]) in *.
  assert (finite_rows rows') as Hfin by apply Forall_py_slice, (load_finite _ _ _ Hload).
  destruct (binary_body_parse d ids' rows' inline payload Hchunk) as (bs & Hbody & _).
  pose proof (fun url auth headers timeout =>
    binary_request_points d ids' rows' inline payload url auth headers timeout bs Hchunk Hbody) as Hraw.
  pose proof (fun url auth headers timeout =>
    json_request_points d ids' rows' inline payload url auth headers timeout Hfin) as Hjson.
  client_steps. unfold honest, falls_back, taken in *.
  destruct (binary (w_self w)) eqn:Hb; client_steps; [rewrite Hbody|]; client_steps.
  - destruct speaks_binary eqn:Hs.
    + edestruct working_ok as (a & Hr & Ha); [apply Hraw|done|eassumption|]; subst.
      client_steps. rewrite supported_200, Ha by done. cbn [andb negb Z.eqb Pos.eqb].
      client_steps. split_and!; [done|done| |done|cbn; rewrite length_app; cbn; lia].
      cbn. eapply accepted_ok; [apply Hraw|eassumption|done].
    + edestruct working_refuses as (a & Hr & Ha); [| |eassumption|]; [done|done|]; subst.
      client_steps. destruct (binary_proven (w_self w)) eqn:Hp; [by discriminate (Hhon eq_refl)|].
      rewrite Ha. cbn [andb negb]. client_steps.
      edestruct working_ok as (a' & Hr & Ha'); [apply Hjson|done|eassumption|]; subst.
      client_steps. rewrite Ha'. client_steps.
      split_and!; [done|cbn; congruence| |done|cbn; rewrite !length_app; cbn; lia]. cbn [w_env sent noted env_http].
      etransitivity; [eapply accepted_ok; [apply Hjson|eassumption|done]|]. cbn. f_equal.
      eapply accepted_refused; [|eassumption|done]; done.
  - edestruct working_ok as (a & Hr & Ha); [apply Hjson|done|eassumption|]; subst.
    client_steps. rewrite Ha. client_steps.
    split_and!; [done|done| |done|cbn; rewrite length_app; cbn; lia].
    cbn. eapply accepted_ok; [apply Hjson|eassumption|done].
Qed.

(** The state after [j] chunks. *)
Definition loaded (w0 : world H) (pts : list point) (j : nat) (w : world H) : Prop :=
  honest w /\ taken w = taken w0 ++ take (Nat.min (j * INSERT_BATCH) (length pts)) pts /\
  binary (w_self w) = (if (0 <? j)%nat then binary (w_self w0) && speaks_binary else binary (w_self w0)) /\
  length (env_log (w_env w)) =
    (length (env_log (w_env w0)) + j + (if (0 <? j)%nat && falls_back w0 then 1 else 0))%nat.

Lemma insert_chunk_loaded s url inline payload d ids rows j (w0 w : world H) :
  load d ids rows -> (j * INSERT_BATCH < length ids)%nat ->
  loaded w0 (chunk_points payload ids rows) j w ->
  wp (insert_chunk s url inline payload ids (f32_matrix d rows) (length ids) (j * INSERT_BATCH)) w
    (fun r w' => r = Ok Next /\ loaded w0 (chunk_points payload ids rows) (S j) w').
Proof.
  intros Hload Hj (Hhon & Htak & Hbin & Hlog).
  eapply wp_mono; [by apply (insert_chunk_works _ _ _ _ d)|]. cbn beta.
  intros r w' (-> & Hhon' & Htak' & Hbin' & Hlog'). split; [done|].
  pose proof (load_points _ _ _ payload Hload) as Hlen. unfold loaded in *.
  rewrite Hlen in *. split_and!; [done|..].
  - rewrite Htak', Htak, <- app_assoc, Nat.min_l by lia. f_equal.
    rewrite take_py_slice by (unfold chunk_end; lia).
    unfold chunk_end. f_equal. lia.
  - rewrite Hbin', Hbin. destruct j; cbn; [done|]. by rewrite <- andb_assoc, andb_diag.
  - rewrite Hlog', Hlog. unfold falls_back in *. rewrite Hbin.
    destruct j; cbn; destruct (binary (w_self w0)), speaks_binary; cbn; lia.
Qed.

Lemma insert_works e m d ids rows (w : world H) :
  _to_ints m = Ok ids -> _as_f32 e = Ok (f32_matrix d rows) -> load d ids rows -> honest w ->
  wp (insert_embeddings e m) w (fun r w' =>
    r = Ok (length ids, None) /\ loaded w (chunk_points (stores_payload (w_self w)) ids rows) (load_chunks (length ids)) w').
Proof.
  intros Hids Hrows Hload Hhon. unfold insert_embeddings.
  client_steps. rewrite Hids. client_steps. apply wp_sess. intros s nx op.
  client_steps. rewrite Hrows. client_steps.
  apply (wp_for_range (loaded w (chunk_points (stores_payload (w_self w)) ids rows))).
  - pose proof INSERT_BATCH_eq. lia.
  - split_and!; [done|..]; cbn.
    + by rewrite take_0, app_nil_r.
    + done.
    + by rewrite Nat.add_0_r, Nat.add_0_r.
  - intros j w' Hj Hw'. eapply wp_mono; [by apply (insert_chunk_loaded _ _ _ _ d)|].
    by intros r w'' [-> Hw''].
  - intros w' Hw'. by client_steps.
Qed.
End Working.

(** ** Searching *)

(** The query a search is meant to ask. *)
Definition wanted {NP : Numpy} (query : list float) (k : Z) (f : option pyval) : search_query :=
  {| sq_vec := np_float32_row query; sq_k := k; sq_filter := f |}.

Definition filter_bytes (f : option pyval) : list byte :=
  match f with Some f => encode (json_dumps f) | None => [] end.

(** The two copies of the filter say the same: what [prepare_filter] keeps true. *)
Record filter_in_step (c : rostam) : Prop := {
  step_blob : filter_blob c = filter_bytes (query_filter c);
  step_plain : forall f, query_filter c = Some f -> json_plain f = true
}.

Lemma json_read_bytes v : json_plain v = true ->
  json_read (String.string_of_list_byte (encode (json_dumps v))) = Some v.
Proof. intros Hv. unfold encode. rewrite String.string_of_list_byte_of_string. by apply json_read_dumps. Qed.

Lemma encode_json_nonempty v : json_plain v = true -> encode (json_dumps v) <> [].
Proof. intros Hv E. pose proof (json_read_bytes v Hv) as Hr. rewrite E in Hr. discriminate Hr. Qed.

Section Queries.
Context {NP : Numpy} {NL : NumpyLaws NP}.
Variables (query : list float) (k : Z) (c : rostam).
Hypothesis Hk : is_u 4 k.
Hypothesis Hquery : is_u 4 (Z.of_nat (length query)).
Hypothesis Hfilter : filter_in_step c.
Hypothesis Hblob : is_u 4 (Z.of_nat (length (filter_blob c))).

Lemma binary_request_query url auth headers timeout :
  exists bs, _query_body query k (filter_blob c) = Ok bs /\
    request_query (Build_request POST url auth headers (RawBody bs) timeout) =
    Some (wanted query k (query_filter c)).
Proof.
  destruct (query_body_parse query k (filter_blob c)) as (bs & Hbs & Hp); [done..|].
  exists bs. split; [done|]. unfold request_query. cbn [rq_body]. rewrite Hp.
  cbn [mbind option_bind]. unfold frame_query. cbn [rvq1_filter rvq1_query rvq1_k]. destruct Hfilter as [-> Hplain].
  destruct (query_filter c) as [f|]; cbn [filter_bytes]; [|done].
  specialize (Hplain f eq_refl). pose proof (encode_json_nonempty f Hplain) as Hne.
  pose proof (json_read_bytes f Hplain) as Hr.
  destruct (encode (json_dumps f)) as [|b bs']; [done|]. by rewrite Hr.
Qed.

Lemma json_vector_floats : json_vector (VList (VFloat <$> query)) = Some (np_float32_row query).
Proof. by apply all_some_fmap. Qed.

Lemma json_request_query url auth headers timeout :
  request_query (Build_request POST url auth headers (JsonBody (query_json query k (query_filter c))) timeout) =
  Some (wanted query k (query_filter c)).
Proof.
  unfold request_query. cbn [rq_body]. unfold query_json, json_query.
  destruct (query_filter c) as [f|]; cbn [dict_set dict_get String.eqb Ascii.eqb Bool.eqb];
    by rewrite json_vector_floats.
Qed.
End Queries.

Section Searching.
Context {H : Type} {HT : Http H} {NP : Numpy} {NL : NumpyLaws NP} {SS : SearchServer H}.

(** What the client makes of an answer, on either wire. *)
Definition answer_ids (r : response) : result (list Z) :=
  _ ← http_raise_for_status r; j ← r_json r; result_ids j.

Lemma search_spec query k (w : world H) :
  is_u 4 k -> is_u 4 (Z.of_nat (length query)) -> filter_in_step (w_self w) ->
  is_u 4 (Z.of_nat (length (filter_blob (w_self w)))) ->
  let answer := search_answer (env_http (w_env w)) (wanted query k (query_filter (w_self w))) in
  (binary_query (w_self w) = true -> unsupported answer = false) ->
  wp (search_embedding query k) w (fun r w' => r = answer_ids answer /\
    exists rq, request_query rq = Some (wanted query k (query_filter (w_self w))) /\
      request_points rq = None /\
      http_send rq (env_http (w_env w)) = (Ok answer, env_http (w_env w')) /\
      env_log (w_env w') = env_log (w_env w) ++ [rq]).
Proof.
  intros Hk Hq Hf Hb answer Hans. unfold search_embedding, answer_ids.
  client_steps. apply wp_sess. intros s nx op. client_steps.
  destruct (binary_query (w_self w)) eqn:Hbin; client_steps.
  - destruct (binary_request_query query k (w_self w) Hk Hq Hf Hb
      (_url (base (w_self w)) [collection_name (w_self w); "points"; "search"])
      (sess_auth s) _BINARY_HEADERS 120) as (bs & -> & Hrq).
    client_steps. destruct (search_answer_ok _ _ (env_http (w_env w)) Hrq) as [h' E].
    cbn [env_http w_env] in *. same_send. match goal with E : http_send _ _ = _ |- _ => fold answer in E end. fold answer.
    match type of Hrq with request_query ?rq = _ =>
      pose proof (raw_query_no_points rq bs _ eq_refl Hrq) as Hnp end.
    client_steps. rewrite Hans by done. cbn [andb].
    client_steps. destruct (http_raise_for_status answer) as [[]|e]; [|by eauto 8]. client_steps.
    destruct (r_json answer); [|by eauto 8]. client_steps. by eauto 8.
  - pose proof (json_request_query query k (w_self w)
      (_url (base (w_self w)) [collection_name (w_self w); "points"; "search"]) (sess_auth s) [] 120) as Hrq.
    assert (forall url auth hs tm, request_points (Build_request POST url auth hs
      (JsonBody (query_json query k (query_filter (w_self w)))) tm) = None) as Hnp by by destruct (query_filter (w_self w)).
    destruct (search_answer_ok _ _ (env_http (w_env w)) Hrq) as [h' E].
    cbn [env_http w_env] in *. same_send. match goal with E : http_send _ _ = _ |- _ => fold answer in E end. fold answer.
    client_steps. destruct (http_raise_for_status answer) as [[]|e]; [|by eauto 8]. client_steps.
    destruct (r_json answer); [|by eauto 8]. client_steps. by eauto 8.
Qed.
End Searching.

(** ** Frames: what each method may change of the object *)

Definition bulk_changed (c c' : rostam) : Prop := exists b p, c' = set_binary_proven p (set_binary b c).
Definition query_changed (c c' : rostam) : Prop :=
  exists b p, c' = set_binary_query_proven p (set_binary_query b c).

Lemma bulk_changed_refl c : bulk_changed c c.
Proof. exists (binary c), (binary_proven c). by destruct c. Qed.
Lemma bulk_changed_trans c1 c2 c3 : bulk_changed c1 c2 -> bulk_changed c2 c3 -> bulk_changed c1 c3.
Proof. intros (b & p & ->) (b' & p' & ->). by exists b', p'. Qed.
Lemma query_changed_refl c : query_changed c c.
Proof. exists (binary_query c), (binary_query_proven c). by destruct c. Qed.

Lemma bulk_changed_off c b : bulk_changed c (set_binary b c).
Proof. by exists b, (binary_proven c). Qed.
Lemma bulk_changed_proven c p : bulk_changed c (set_binary_proven p c).
Proof. exists (binary c), p. by destruct c. Qed.
Lemma query_changed_off c b : query_changed c (set_binary_query b c).
Proof. by exists b, (binary_query_proven c). Qed.
Lemma query_changed_proven c p : query_changed c (set_binary_query_proven p c).
Proof. exists (binary_query c), p. by destruct c. Qed.
Create HintDb frame discriminated.
#[export] Hint Resolve bulk_changed_refl bulk_changed_off bulk_changed_proven
  query_changed_refl query_changed_off query_changed_proven : frame.

Ltac solve_frame := cbn [w_self]; first [reflexivity | solve [auto with frame]].

Section Frames.
Context {H : Type} {HT : Http H} {NP : Numpy}.

Lemma insert_chunk_frame s url inline payload metadata rows n start (w : world H) :
  wp (insert_chunk s url inline payload metadata rows n start) w
    (fun _ w' => bulk_changed (w_self w) (w_self w')).
Proof. unfold insert_chunk. client_run. all: solve_frame. Qed.

Lemma insert_frame e m (w : world H) :
  wp (insert_embeddings e m) w (fun _ w' => bulk_changed (w_self w) (w_self w')).
Proof.
  unfold insert_embeddings. client_steps.
  destruct (_to_ints m) as [ids|]; [|solve_frame]. client_steps.
  apply wp_sess. intros s nx op. client_steps.
  destruct (_as_f32 e) as [rows|]; [|solve_frame]. client_steps.
  apply (wp_mono _ _ (fun _ w' => bulk_changed (w_self w) (w_self w'))).
  - apply (wp_for (fun _ w' => bulk_changed (w_self w) (w_self w'))).
    + solve_frame.
    + intros done x rest w' _ Hw'. eapply wp_mono; [apply insert_chunk_frame|].
      intros [[|a]|e'] w'' Hw''; by eapply bulk_changed_trans.
    + done.
  - intros [[|a]|e'] w' Hw'; client_steps; try destruct (is_Exception e'); done.
Qed.

Lemma search_frame q k (w : world H) :
  wp (search_embedding q k) w (fun _ w' => query_changed (w_self w) (w_self w')).
Proof.
  unfold search_embedding. client_steps. apply wp_sess. intros s nx op. client_run. all: solve_frame.
Qed.

Lemma optimize_frame (w : world H) : wp optimize w (fun _ w' => w_self w' = w_self w).
Proof.
  unfold optimize. client_steps. client_case; client_steps; [done|].
  apply wp_sess. intros s nx op. client_run. all: solve_frame.
Qed.

Lemma prepare_frame f (w : world H) :
  wp (prepare_filter f) w (fun _ w' => env_log (w_env w') = env_log (w_env w) /\
    exists x blob, w_self w' = set_filter x blob (w_self w)).
Proof.
  assert (forall c, exists x blob, c = set_filter x blob c) as Hsame.
  { intros c. exists (query_filter c), (filter_blob c). by destruct c. }
  unfold prepare_filter. destruct (filter_type f); client_run; split; try done; eauto.
Qed.
End Frames.

(** ** Messages *)

(** What the client logs once it is built: that a wire was rejected, by an answer that says it is
    not supported, or that there is nothing to build. *)
Inductive client_message : log_level * string -> Prop :=
| bulk_rejected r : unsupported r = true -> client_message (WARNING, bulk_warning r)
| query_rejected r : unsupported r = true -> client_message (WARNING, query_warning r)
| nothing_to_build : client_message (INFO, "Rostam load_path=batch: points indexed inline, no build step").

(** The number of warnings that begin so. *)
Definition warnings (start : string) (ms : list (log_level * string)) : nat :=
  length (List.filter (fun m => match m.1 with WARNING => String.prefix start m.2 | INFO => false end) ms).
Definition bulk_start : string := "Rostam server rejected the binary bulk wire (".
Definition query_start : string := "Rostam server rejected the binary query wire (".

Lemma warnings_app start ms ms' : warnings start (ms ++ ms') = (warnings start ms + warnings start ms')%nat.
Proof. unfold warnings. by rewrite List.filter_app, length_app. Qed.

(** From [w] to [w'] each wire was warned of exactly when it was given up, and no wire was taken
    up again. *)
Definition announced {H} (w w' : world H) : Prop :=
  exists ms, env_messages (w_env w') = env_messages (w_env w) ++ ms /\ Forall client_message ms /\
    (warnings bulk_start ms + Nat.b2n (binary (w_self w')) = Nat.b2n (binary (w_self w)))%nat /\
    (warnings query_start ms + Nat.b2n (binary_query (w_self w')) = Nat.b2n (binary_query (w_self w)))%nat.

Lemma announced_quiet {H} (w w' : world H) :
  env_messages (w_env w') = env_messages (w_env w) ->
  binary (w_self w') = binary (w_self w) -> binary_query (w_self w') = binary_query (w_self w) -> announced w w'.
Proof. intros Hm Hb Hq. exists []. rewrite app_nil_r, Hb, Hq. split_and!; [done|constructor|done|done]. Qed.

Lemma announced_trans {H} (w1 w2 w3 : world H) : announced w1 w2 -> announced w2 w3 -> announced w1 w3.
Proof.
  intros (m1 & E1 & F1 & B1 & Q1) (m2 & E2 & F2 & B2 & Q2). exists (m1 ++ m2).
  rewrite E2, E1, app_assoc, !warnings_app. split_and!; [done|by apply Forall_app|lia|lia].
Qed.

Lemma announced_one {H} (w w' : world H) level m :
  env_messages (w_env w') = env_messages (w_env w) ++ [(level, m)] -> client_message (level, m) ->
  (warnings bulk_start [(level, m)] + Nat.b2n (binary (w_self w')) = Nat.b2n (binary (w_self w)))%nat ->
  (warnings query_start [(level, m)] + Nat.b2n (binary_query (w_self w')) = Nat.b2n (binary_query (w_self w)))%nat ->
  announced w w'.
Proof. intros Hm Hc Hb Hq. exists [(level, m)]. split_and!; [done|by repeat constructor|done|done]. Qed.

Lemma bulk_warned r :
  warnings bulk_start [(WARNING, bulk_warning r)] = 1%nat /\ warnings query_start [(WARNING, bulk_warning r)] = 0%nat.
Proof. split; [|done]. unfold warnings, bulk_warning. cbn [List.filter fst snd]. fold bulk_start. by rewrite prefix_app. Qed.
Lemma query_warned r :
  warnings bulk_start [(WARNING, query_warning r)] = 0%nat /\ warnings query_start [(WARNING, query_warning r)] = 1%nat.
Proof. split; [done|]. unfold warnings, query_warning. cbn [List.filter fst snd]. fold query_start. by rewrite prefix_app. Qed.

Lemma announced_bulk {H} (w w' : world H) r :
  env_messages (w_env w') = env_messages (w_env w) ++ [(WARNING, bulk_warning r)] -> unsupported r = true ->
  binary (w_self w) = true -> binary (w_self w') = false -> binary_query (w_self w') = binary_query (w_self w) ->
  announced w w'.
Proof.
  intros Hm Hr Hb Hb' Hq. destruct (bulk_warned r) as [E0 E1].
  apply (announced_one _ _ _ _ Hm); [by apply bulk_rejected|by rewrite E0, Hb, Hb'|by rewrite E1, Hq].
Qed.

Lemma announced_query {H} (w w' : world H) r :
  env_messages (w_env w') = env_messages (w_env w) ++ [(WARNING, query_warning r)] -> unsupported r = true ->
  binary_query (w_self w) = true -> binary_query (w_self w') = false -> binary (w_self w') = binary (w_self w) ->
  announced w w'.
Proof.
  intros Hm Hr Hb Hb' Hq. destruct (query_warned r) as [E0 E1].
  apply (announced_one _ _ _ _ Hm); [by apply query_rejected|by rewrite E0, Hq|by rewrite E1, Hb, Hb'].
Qed.

(** At most one message, from the run of a method. *)
Ltac warned := [> cbn [env_messages w_env sent noted]; reflexivity|assumption|assumption|reflexivity|reflexivity].
Ltac solve_announced :=
  first
    [ by apply announced_quiet
    | eapply announced_one; [cbn [env_messages w_env sent noted]; reflexivity|apply nothing_to_build|done|done]
    | repeat match goal with E : _ && _ = true |- _ => apply andb_true_iff in E as [? ?] end;
      first [eapply announced_bulk; warned | eapply announced_query; warned] ].

Section Messages.
Context {H : Type} {HT : Http H} {NP : Numpy}.

Lemma insert_chunk_announced s url inline payload metadata rows n start (w : world H) :
  wp (insert_chunk s url inline payload metadata rows n start) w (fun _ w' => announced w w').
Proof. unfold insert_chunk. client_run. all: solve_announced. Qed.

Lemma insert_announced e m (w : world H) : wp (insert_embeddings e m) w (fun _ w' => announced w w').
Proof.
  unfold insert_embeddings. client_steps.
  destruct (_to_ints m) as [ids|]; [|solve_announced]. client_steps.
  apply wp_sess. intros s nx op. client_steps.
  destruct (_as_f32 e) as [rows|]; [|solve_announced]. client_steps.
  set (w1 := Build_world _ _ _). apply (wp_mono _ _ (fun _ w' => announced w1 w')).
  - apply (wp_for (fun _ w' => announced w1 w')).
    + solve_announced.
    + intros done x rest w' _ Hw'. eapply wp_mono; [apply insert_chunk_announced|].
      intros [[|a]|e'] w'' Hw''; by eapply announced_trans.
    + done.
  - intros [[|a]|e'] w' Hw'; client_steps; try destruct (is_Exception e'); done.
Qed.

Lemma search_announced q k (w : world H) : wp (search_embedding q k) w (fun _ w' => announced w w').
Proof. unfold search_embedding. client_steps. apply wp_sess. intros s nx op. client_run. all: solve_announced. Qed.

Lemma optimize_announced (w : world H) : wp optimize w (fun _ w' => announced w w').
Proof.
  unfold optimize. client_steps. client_case; client_steps; [solve_announced|].
  apply wp_sess. intros s nx op. client_run. all: solve_announced.
Qed.

Lemma prepare_announced f (w : world H) : wp (prepare_filter f) w (fun _ w' => announced w w').
Proof. unfold prepare_filter. destruct (filter_type f); client_run. all: solve_announced. Qed.
End Messages.

(** ** Sequences of calls *)

(** A call of one of the client's methods; an exception goes to the caller, who may go on. *)
Inductive call :=
| CInsert (embeddings : list (list float)) (metadata : list pyval)
| COptimize
| CPrepare (f : Filter)
| CSearch (query : list float) (k : Z).

Section Calls.
Context {H : Type} {HT : Http H} {NP : Numpy}.

Definition run_call (c : call) (w : world H) : world H :=
  match c with
  | CInsert e m => after (insert_embeddings e m) w
  | COptimize => after optimize w
  | CPrepare f => after (prepare_filter f) w
  | CSearch q k => after (search_embedding q k) w
  end.
Definition run_calls (cs : list call) (w : world H) : world H := foldl (fun w c => run_call c w) w cs.

(** What a call sends, and what it comes back with. *)
Definition call_wire (c : call) (w : world H) : list exchange :=
  zip (drop (length (env_log (w_env w))) (env_log (w_env (run_call c w))))
      (drop (length (env_answers (w_env w))) (env_answers (w_env (run_call c w)))).
Definition is_insert (c : call) : bool := match c with CInsert _ _ => true | _ => false end.
Definition is_search (c : call) : bool := match c with CSearch _ _ => true | _ => false end.

(** What the calls of one kind send, over a sequence of calls. *)
Fixpoint wire_trace (kind : call -> bool) (cs : list call) (w : world H) : list exchange :=
  match cs with
  | [] => []
  | c :: cs => (if kind c then call_wire c w else []) ++ wire_trace kind cs (run_call c w)
  end.

Lemma follows_wire good mode c (w : world H) :
  follows good mode w (run_call c w) ->
  wire_run good (mode (w_self w)) (call_wire c w) (mode (w_self (run_call c w))).
Proof. intros (xs & Hlog & Hans & Hrun). unfold call_wire. by rewrite Hlog, Hans, !drop_app_length, zip_fst_snd. Qed.

Lemma call_bulk c (w : world H) :
  wire_run bulk_good (bulk_mode (w_self w)) (if is_insert c then call_wire c w else []) (bulk_mode (w_self (run_call c w))).
Proof.
  destruct c as [e m| |f|q k]; cbn [is_insert].
  - apply (follows_wire bulk_good bulk_mode (CInsert e m)), insert_follows.
  - pose proof (optimize_frame w) as Hf. apply wp_run in Hf. cbn [run_call]. rewrite Hf. constructor.
  - pose proof (prepare_frame f w) as Hf. apply wp_run in Hf as (_ & x & b & Hf).
    cbn [run_call]. rewrite Hf. constructor.
  - pose proof (search_frame q k w) as Hf. apply wp_run in Hf as (b & p & Hf).
    cbn [run_call]. rewrite Hf. constructor.
Qed.

Lemma call_query c (w : world H) :
  wire_run query_good (query_mode (w_self w)) (if is_search c then call_wire c w else []) (query_mode (w_self (run_call c w))).
Proof.
  destruct c as [e m| |f|q k]; cbn [is_search].
  - pose proof (insert_frame e m w) as Hf. apply wp_run in Hf as (b & p & Hf).
    cbn [run_call]. rewrite Hf. constructor.
  - pose proof (optimize_frame w) as Hf. apply wp_run in Hf. cbn [run_call]. rewrite Hf. constructor.
  - pose proof (prepare_frame f w) as Hf. apply wp_run in Hf as (_ & x & b & Hf).
    cbn [run_call]. rewrite Hf. constructor.
  - apply (follows_wire query_good query_mode (CSearch q k)), search_follows.
Qed.

(** The fallbacks announced over a sequence of calls. *)
Lemma calls_announced cs (w : world H) : announced w (run_calls cs w).
Proof.
  revert w. induction cs as [|c cs IH]; intros w; [by apply announced_quiet|].
  eapply announced_trans; [|apply IH]. destruct c as [e m| |f|q k]; cbn [run_call].
  - pose proof (insert_announced e m w) as Ha. by apply wp_run in Ha.
  - pose proof (optimize_announced w) as Ha. by apply wp_run in Ha.
  - pose proof (prepare_announced f w) as Ha. by apply wp_run in Ha.
  - pose proof (search_announced q k w) as Ha. by apply wp_run in Ha.
Qed.

Lemma calls_wire good mode (kind : call -> bool) :
  (forall c (w : world H),
    wire_run good (mode (w_self w)) (if kind c then call_wire c w else []) (mode (w_self (run_call c w)))) ->
  forall cs (w : world H), wire_run good (mode (w_self w)) (wire_trace kind cs w) (mode (w_self (run_calls cs w))).
Proof.
  intros Hc cs. induction cs as [|c cs IH]; intros w; [constructor|].
  eapply wire_run_app; [apply (Hc c w)|apply IH].
Qed.
End Calls.
