(* ===== verification/Sessions.v ===== *)
(** * Sessions, filters and construction

    Lemmas on the rest of the client's life: which HTTP sessions its methods open and close,
    the invariant of its two copies of the filter, and its constructor. *)

From S2P Require Import Prelude Bytes Text Float64 F32 PyVal JsonRead Numpy Http Config Wire Client Server ClientFacts.

(** ** Sessions *)

(** The environment with one more session open. *)
Definition opened {H} (e : env H) : env H :=
  {| env_http := env_http e; env_log := env_log e; env_answers := env_answers e; env_next := S (env_next e);
     env_open := env_next e :: env_open e; env_messages := env_messages e |}.

Definition same_sessions {H} (e e' : env H) : Prop :=
  env_next e' = env_next e /\ env_open e' = env_open e.

(** Sessions are numbered in the order they are opened. *)
Definition numbered {H} (e : env H) : Prop := Forall (fun i => (i < env_next e)%nat) (env_open e).

(** The environment after [_sess]: as it was inside [init], one more session outside. *)
Definition env_sess {H} (w : world H) : env H :=
  match cur_session (w_self w) with Some _ => w_env w | None => opened (w_env w) end.

Lemma filter_below (n : nat) l : Forall (fun i => (i < n)%nat) l -> filter (fun i => i <> n) l = l.
Proof.
  induction 1 as [|i l Hi _ IH]; [done|]. rewrite filter_cons_True by lia. by rewrite IH.
Qed.

Lemma filter_newest (n : nat) l :
  Forall (fun i => (i < n)%nat) l -> filter (fun i => i <> n) (n :: l) = l.
Proof. intros Hl. rewrite filter_cons_False by tauto. by apply filter_below. Qed.

Lemma same_sessions_refl {H} (e : env H) : same_sessions e e.
Proof. done. Qed.

Section SessionRules.
Context {H : Type} {HT : Http H} {NP : Numpy}.

Lemma wp_sess_exact (w : world H) (Q : result session -> world H -> Prop) :
  (forall s, Q (Ok s) {| w_self := w_self w; w_env := env_sess w |}) -> wp _sess w Q.
Proof.
  intros HQ. unfold _sess, env_sess in *. client_steps.
  destruct (cur_session (w_self w)) as [s|]; client_steps; [by destruct w|apply HQ].
Qed.

Lemma insert_chunk_sessions s url inline payload metadata rows n start (w : world H) :
  wp (insert_chunk s url inline payload metadata rows n start) w
    (fun _ w' => same_sessions (w_env w) (w_env w')).
Proof. unfold insert_chunk. client_run. all: done. Qed.

(** A load opens a session exactly when there is none to use. *)
Lemma insert_sessions e m (w : world H) :
  is_ok (_to_ints m) = true ->
  wp (insert_embeddings e m) w (fun _ w' => same_sessions (env_sess w) (w_env w')).
Proof.
  intros Hm. unfold insert_embeddings. client_steps.
  destruct (_to_ints m) as [ids|]; [|done]. client_steps.
  apply wp_sess_exact. intros s. client_steps.
  destruct (_as_f32 e) as [rows|]; [|done]. client_steps.
  apply (wp_mono _ _ (fun _ w' => same_sessions (env_sess w) (w_env w'))).
  - apply (wp_for (fun _ w' => same_sessions (env_sess w) (w_env w'))); [done| |done].
    intros done x rest w' _ [Hn Ho]. eapply wp_mono; [apply insert_chunk_sessions|].
    intros [[|a]|e'] w'' [Hn' Ho']; split; congruence.
  - intros [[|a]|e'] w' Hw'; client_steps; try destruct (is_Exception e'); done.
Qed.

Lemma search_sessions q k (w : world H) :
  wp (search_embedding q k) w (fun _ w' => same_sessions (env_sess w) (w_env w')).
Proof.
  unfold search_embedding. client_steps. apply wp_sess_exact. intros s. client_run. all: done.
Qed.

Lemma optimize_sessions (w : world H) :
  wp optimize w (fun _ w' => same_sessions (if String.eqb (load_path (w_self w)) "batch" then w_env w else env_sess w) (w_env w')).
Proof.
  unfold optimize. client_steps. destruct (String.eqb _ _); client_steps; [done|].
  apply wp_sess_exact. intros s. client_run. all: done.
Qed.

Lemma prepare_sessions f (w : world H) :
  wp (prepare_filter f) w (fun _ w' => w_env w' = w_env w).
Proof. unfold prepare_filter. destruct (filter_type f); client_run; done. Qed.
End SessionRules.

(** ** Inside [init] *)

Section Inside.
Context {H : Type} {HT : Http H} {NP : Numpy}.

(** What the methods do to the session of the object and to the sessions open. *)
Definition stays_inside (w w' : world H) : Prop :=
  cur_session (w_self w') = cur_session (w_self w) /\ same_sessions (w_env w) (w_env w').

Lemma env_sess_inside (w : world H) s : cur_session (w_self w) = Some s -> env_sess w = w_env w.
Proof. unfold env_sess. by intros ->. Qed.

Lemma call_inside c (w : world H) s :
  cur_session (w_self w) = Some s -> stays_inside w (run_call c w).
Proof.
  intros Hs. pose proof (env_sess_inside w s Hs) as He. destruct c as [e m| |f|q k]; cbn [run_call].
  - pose proof (insert_frame e m w) as Hf. apply wp_run in Hf as (b & p & Hf). split; [by rewrite Hf|].
    destruct (is_ok (_to_ints m)) eqn:Hm.
    + pose proof (insert_sessions e m w Hm) as Hi. apply wp_run in Hi. by rewrite He in Hi.
    + unfold insert_embeddings, after, mbind, M_bind, lift_result. by destruct (_to_ints m).
  - pose proof (optimize_frame w) as Hf. apply wp_run in Hf. split; [by rewrite Hf|].
    pose proof (optimize_sessions w) as Hi. apply wp_run in Hi. rewrite He in Hi. by destruct (String.eqb _ _).
  - pose proof (prepare_frame f w) as Hf. apply wp_run in Hf as (_ & x & b & Hf). split; [by rewrite Hf|].
    pose proof (prepare_sessions f w) as Hi. apply wp_run in Hi. by rewrite Hi.
  - pose proof (search_frame q k w) as Hf. apply wp_run in Hf as (b & p & Hf). split; [by rewrite Hf|].
    pose proof (search_sessions q k w) as Hi. apply wp_run in Hi. by rewrite He in Hi.
Qed.

(** The code a worker may write in its [with client.init()]: it touches the client by its four
    methods and by reading its attributes only, and is otherwise any code, made of values and
    exceptions, sequences that depend on what came before, [try] in both forms, and loops. *)
Inductive client_code : forall A, M (world H) A -> Prop :=
| code_result A (r : result A) : client_code A (lift_result r)
| code_self : client_code _ self
| code_insert e m : client_code _ (insert_embeddings e m)
| code_optimize : client_code _ optimize
| code_prepare f : client_code _ (prepare_filter f)
| code_search q k : client_code _ (search_embedding q k)
| code_bind A B (m : M (world H) A) (f : A -> M (world H) B) :
    client_code _ m -> (forall a, client_code _ (f a)) -> client_code _ (m ≫= f)
| code_catch A p (m : M (world H) A) h :
    client_code _ m -> (forall e, client_code _ (h e)) -> client_code _ (try_catch p m h)
| code_finally A (m : M (world H) A) f :
    client_code _ m -> client_code _ f -> client_code _ (try_finally m f).

Lemma code_for {X A} (xs : list X) (body : X -> M (world H) (flow A)) :
  (forall x, client_code _ (body x)) -> client_code _ (for_loop xs body).
Proof.
  intros Hb. induction xs as [|x xs IH]; cbn [for_loop]; [apply (code_result _ (Ok Next))|].
  apply code_bind; [done|]. intros [|a]; [done|]. apply (code_result _ (Ok (Return a))).
Qed.

Lemma stays_inside_trans (w1 w2 w3 : world H) : stays_inside w1 w2 -> stays_inside w2 w3 -> stays_inside w1 w3.
Proof. intros [Hc [Hn Ho]] [Hc' [Hn' Ho']]. split; [|split]; congruence. Qed.

(** Such code leaves the session of the object, and the sessions open, as they are. *)
Lemma client_code_inside A (m : M (world H) A) : client_code A m ->
  forall w s, cur_session (w_self w) = Some s -> stays_inside w (after m w).
Proof.
  induction 1 as [A r| |e m| |f|q k|A B m f _ IHm _ IHf|A p m h _ IHm _ IHh|A m f _ IHm _ IHf]; intros w s Hs.
  - done.
  - done.
  - by apply (call_inside (CInsert e m) w s).
  - by apply (call_inside COptimize w s).
  - by apply (call_inside (CPrepare f) w s).
  - by apply (call_inside (CSearch q k) w s).
  - specialize (IHm w s Hs). unfold after, mbind, M_bind in *. destruct (m w) as [[a|e] w1]; [|done].
    cbn [snd] in IHm. eapply stays_inside_trans; [exact IHm|]. apply (IHf a w1 s). by rewrite (proj1 IHm).
  - specialize (IHm w s Hs). unfold after, try_catch in *. destruct (m w) as [[a|e] w1]; [done|].
    cbn [snd] in IHm. destruct (p e); [|done]. eapply stays_inside_trans; [exact IHm|]. apply (IHh e w1 s). by rewrite (proj1 IHm).
  - specialize (IHm w s Hs). unfold after, try_finally in *. destruct (m w) as [r w1]. cbn [snd] in IHm.
    assert (stays_inside w1 (f w1).2) as Hf by (apply (IHf w1 s); by rewrite (proj1 IHm)).
    destruct (f w1) as [[[]|e] w2]; cbn [snd] in *; by eapply stays_inside_trans.
Qed.

(** The world in which [with self.init()] runs its body. *)
Definition entered (w : world H) : world H := after init_enter w.

Lemma wp_init_enter (w : world H) (Q : result unit -> world H -> Prop) : Q (Ok tt) (entered w) -> wp init_enter w Q.
Proof. done. Qed.

(** What is left when the body has ended in [w]: the client has no session, which is an error if
    the body has left none to close. *)
Lemma wp_init_exit (w : world H) (Q : result unit -> world H -> Prop) :
  match cur_session (w_self w) with
  | Some s => Q (Ok tt) {| w_self := set_session None (w_self w); w_env := after (session_close s) (w_env w) |}
  | None => Q (Raise AttributeError) w
  end ->
  wp init_exit w Q.
Proof. intros HQ. unfold init_exit. client_steps. by destruct (cur_session (w_self w)) as [s|]; client_steps. Qed.

Lemma entered_session (w : world H) :
  exists s, cur_session (w_self (entered w)) = Some s /\ sess_id s = env_next (w_env w).
Proof. by eexists. Qed.

Lemma entered_env (w : world H) : w_env (entered w) = opened (w_env w).
Proof. done. Qed.

Lemma entered_numbered (w : world H) : numbered (w_env w) -> numbered (w_env (entered w)).
Proof.
  unfold numbered. rewrite entered_env. cbn [opened env_next env_open]. intros Hn.
  constructor; [lia|]. eapply Forall_impl; [|exact Hn]. cbn. lia.
Qed.

Lemma wp_init {A} (body : M (world H) A) (w : world H) (Q : result A -> world H -> Prop) :
  wp body (entered w) (fun r w' =>
    match cur_session (w_self w') with
    | Some s => Q r {| w_self := set_session None (w_self w');
                       w_env := after (session_close s) (w_env w') |}
    | None => Q (Raise AttributeError) w'
    end) ->
  wp (init body) w Q.
Proof.
  intros HQ. unfold init. apply wp_bind, wp_init_enter, wp_try_finally. eapply wp_mono; [exact HQ|].
  intros r w' Hr. cbn beta in Hr. apply wp_init_exit. by destruct (cur_session (w_self w')).
Qed.

Lemma init_spec {A} (body : M (world H) A) (w : world H) :
  numbered (w_env w) -> wp body (entered w) (fun _ w' => stays_inside (entered w) w') ->
  wp (init body) w (fun r w' =>
    r = outcome body (entered w) /\ cur_session (w_self w') = None /\
    env_open (w_env w') = env_open (w_env w) /\
    env_http (w_env w') = env_http (w_env (after body (entered w)))).
Proof.
  intros Hn Hbody. apply wp_init. apply wp_run in Hbody as [Hc [Hx Ho]].
  destruct (entered_session w) as (s & Hs & Hid). apply wp_run. rewrite Hc, Hs.
  split_and!; [done|done| |done]. cbn. rewrite Hid, Ho. cbn. by apply filter_newest.
Qed.
End Inside.

(** ** The two copies of the filter *)

(** The bytes sent in binary are those of the filter sent as JSON, and there is none where no
    payload is stored. *)
Record filter_sound (c : rostam) : Prop := {
  sound_blob : filter_blob c = filter_bytes (query_filter c);
  sound_bulk : load_path c = "bulk" -> query_filter c = None
}.

Section Filters.
Context {H : Type} {HT : Http H} {NP : Numpy}.

Lemma prepare_sound f (w : world H) :
  filter_sound (w_self w) -> wp (prepare_filter f) w (fun _ w' => filter_sound (w_self w')).
Proof.
  intros Hs. unfold prepare_filter. destruct (filter_type f); client_run; try done.
  split; [done|]. cbn. intros Hb. match goal with E : String.eqb _ _ = false |- _ => by rewrite Hb in E end.
Qed.

Lemma call_filter_sound c (w : world H) : filter_sound (w_self w) -> filter_sound (w_self (run_call c w)).
Proof.
  intros Hs. destruct c as [e m| |f|q k]; cbn [run_call].
  - pose proof (insert_frame e m w) as Hf. apply wp_run in Hf as (b & p & ->). by destruct Hs.
  - pose proof (optimize_frame w) as Hf. apply wp_run in Hf. by rewrite Hf.
  - by pose proof (prepare_sound f w Hs).
  - pose proof (search_frame q k w) as Hf. apply wp_run in Hf as (b & p & ->). by destruct Hs.
Qed.

Lemma calls_filter_sound cs (w : world H) :
  filter_sound (w_self w) -> filter_sound (w_self (run_calls cs w)).
Proof.
  revert w. induction cs as [|c cs IH]; intros w Hs; [done|]. by apply (IH (run_call c w)), call_filter_sound.
Qed.
End Filters.

(** The filter of a numeric case, as a server reads it. *)
Lemma num_ge_plain field v : str_ascii field = true -> json_plain (num_ge_filter field v) = true.
Proof. intros Hf. cbn. by rewrite Hf. Qed.

(** ** Construction *)

(** The body of the request that creates the collection. *)
Definition create_body (name : string) (dim : Z) (c : RostamHNSWConfig) : pyval :=
  VDict [("name", VStr name);
         ("config", VDict ([("dim", VInt dim); ("metric", VStr (parse_metric c)); ("m", VInt (hnsw_m c));
                            ("ef_construction", VInt (hnsw_ef_construction c));
                            ("ef_search", VInt (hnsw_ef_search c))]
                           ++ if String.eqb (hnsw_quant c) "" then [] else [("quant", VStr (hnsw_quant c))]))].

(** What the answer to that request means. *)
Inductive create_meaning := Created | Exists | Refused.
Definition create_answer (r : response) : create_meaning :=
  if (status_code r =? 200) || (status_code r =? 201) then Created
  else if (status_code r =? 409) || str_contains "exist" (str_lower (r_text r)) then Exists
  else Refused.

Section Construction.
Context {H : Type} {HT : Http H} {HL : HttpLaws H} {NP : Numpy}.

Definition create_request (base name : string) (s : session) (dim : Z) (c : RostamHNSWConfig) : request :=
  {| rq_method := POST; rq_url := _url base []; rq_auth := sess_auth s; rq_headers := [];
     rq_body := JsonBody (create_body name dim c); rq_timeout := 120 |}.

Lemma wp_create base name s dim c (e : env H) (Q : result unit -> env H -> Prop) :
  (forall r h, http_send (create_request base name s dim c) (env_http e) = (r, h) ->
    Q (match r with
       | Ok r => match create_answer r with
                 | Created => Ok tt
                 | Exists => Raise AlreadyExists
                 | Refused => Raise (RuntimeError ("create collection failed: " +:+ dec (status_code r) +:+ " " +:+ r_text r))
                 end
       | Raise x => Raise x
       end) (sent (create_request base name s dim c) r h e)) ->
  wp (_create base name s dim (index_param c)) e Q.
Proof.
  intros HQ. unfold create_request, create_body in HQ.
  unfold _create, index_param. cbn [dict_item dict_get String.eqb Ascii.eqb Bool.eqb dict_get_default].
  client_steps. replace (truthy _) with (negb (String.eqb (hnsw_quant c) "")) by done.
  destruct (String.eqb (hnsw_quant c) "") eqn:Hq; cbn [negb]; client_steps;
    (match goal with E : http_send _ _ = _ |- _ => specialize (HQ _ _ E) end);
    (match goal with |- match ?r with _ => _ end => destruct r as [r|x]; [|done] end); unfold create_answer in HQ;
    destruct (_ || (status_code r =? 201)); try (client_steps; done);
    destruct ((status_code r =? 409) || _); client_steps; done.
Qed.

(** The [load_path] of the settings, and the three the client knows. *)
Definition chosen_load_path (db : db_dict) : string :=
  match db_load_path db with Some p => if String.eqb p "" then "bulk" else p | None => "bulk" end.
Definition known_load_path (p : string) : bool := existsb (String.eqb p) ["bulk"; "payload"; "batch"].

Definition bearer (key : option string) : option string :=
  match key with Some k => if String.eqb k "" then None else Some ("Bearer " +:+ k) | None => None end.

(** The client built from the settings. *)
Definition new_client (dim : Z) (db : db_dict) (url name : string) : rostam :=
  {| dim := dim; collection_name := name; base := str_rstrip "/" url; api_key := db_api_key db;
     load_path := chosen_load_path db; query_filter := None;
     binary := default true (db_binary_wire db); binary_proven := false;
     binary_query := default true (db_binary_query db); binary_query_proven := false;
     filter_blob := []; cur_session := None |}.

Definition delete_request (base name : string) (s : session) : request :=
  {| rq_method := DELETE; rq_url := _url base [name]; rq_auth := sess_auth s; rq_headers := [];
     rq_body := NoBody; rq_timeout := 60 |}.

(** The collection is there: it was created, or it already was and may be reused. *)
Definition usable (drop_old : bool) (a : response) : Prop :=
  match create_answer a with Created => True | Exists => drop_old = false | Refused => False end.

Definition built (dim : Z) (db : db_dict) (url name : string) (c : RostamHNSWConfig) (drop_old : bool)
    (e : env H) (r : result rostam) (e' : env H) : Prop :=
  let s := {| sess_id := env_next e; sess_auth := bearer (db_api_key db) |} in
  let base := str_rstrip "/" url in
  let create := create_request base name s dim c in
  match r with
  | Ok x =>
      x = new_client dim db url name /\ env_open e' = env_open e /\
      env_log e' = env_log e ++ (if drop_old then [delete_request base name s] else []) ++ [create] /\
      exists h a, http_send create h = (Ok a, env_http e') /\ usable drop_old a /\
        env_messages e' = env_messages e ++
          (match create_answer a with Exists => [(INFO, reuse_message name)] | _ => [] end)
  | Raise _ => env_open e' = env_next e :: env_open e
  end.

(** The environment once the creation was answered: an existing collection is reported. *)
Definition answered (name : string) (a : response) (e : env H) : env H :=
  match create_answer a with Exists => noted INFO (reuse_message name) e | _ => e end.

Lemma wp_new_session key (e : env H) (Q : result session -> env H -> Prop) :
  Q (Ok {| sess_id := env_next e; sess_auth := bearer key |}) (opened e) -> wp (_new_session key) e Q.
Proof. done. Qed.

(** The creation of the collection, when an existing one may be reused or not. *)
Lemma wp_create_or_reuse base name s dim c (drop_old : bool) (e : env H) (Q : result unit -> env H -> Prop) :
  (forall a h, http_send (create_request base name s dim c) (env_http e) = (Ok a, h) -> usable drop_old a ->
    Q (Ok tt) (answered name a (sent (create_request base name s dim c) (Ok a) h e))) ->
  (forall x a h, Q (Raise x) (sent (create_request base name s dim c) a h e)) ->
  wp (try_catch is_AlreadyExists (_create base name s dim (index_param c))
        (fun e => if drop_old then raise e else log INFO (reuse_message name))) e Q.
Proof.
  intros Hok Hbad. client_step. apply wp_create. intros [a|x] h Hsend.
  - specialize (Hok _ _ Hsend). unfold usable in Hok.
    unfold answered in Hok. destruct (create_answer a); [by apply Hok| |apply Hbad].
    cbn. destruct drop_old; client_steps; [apply Hbad|by apply Hok].
  - destruct x; try apply Hbad. by destruct (send_own_exceptions _ _ _ Hsend).
Qed.

Lemma construct_spec dim db url name c drop_old (e : env H) :
  numbered e -> db_url db = Some url -> known_load_path (chosen_load_path db) = true ->
  wp (__init__ dim db c name drop_old) e (built dim db url name c drop_old e).
Proof.
  intros Hn Hurl Hlp. unfold __init__. fold (chosen_load_path db). fold (known_load_path (chosen_load_path db)).
  rewrite Hurl, Hlp. cbn [negb]. client_steps. apply wp_new_session.
  set (s := Build_session _ _). set (base := str_rstrip "/" url).
  assert (forall e1, env_next e1 = S (env_next e) -> env_open e1 = env_next e :: env_open e ->
    env_log e1 = env_log e ++ (if drop_old then [delete_request base name s] else []) ->
    env_messages e1 = env_messages e ->
    wp (_ ← try_catch is_AlreadyExists (_create base name s dim (index_param c))
          (fun x => if drop_old then raise x else log INFO (reuse_message name));
        _ ← session_close s; mret (new_client dim db url name)) e1
      (built dim db url name c drop_old e)) as Hrest.
  { intros e1 Hx Ho Hl Hm. client_step. apply wp_create_or_reuse.
    - intros a h Hsend Ha. client_step. apply wp_run. unfold session_close, outcome, after; cbn [fst snd].
      assert (forall e2, env_open (answered name a e2) = env_open e2 /\ env_log (answered name a e2) = env_log e2 /\
        env_http (answered name a e2) = env_http e2) as Hsame by (intros e2; unfold answered; by destruct (create_answer a)).
      destruct (Hsame (sent (create_request base name s dim c) (Ok a) h e1)) as (Ho2 & Hl2 & Hh2).
      client_steps. split_and!; [done| | |].
      + cbn. rewrite Ho2. cbn. rewrite Ho. by apply filter_newest.
      + cbn. rewrite Hl2. cbn. by rewrite Hl, <- app_assoc.
      + exists (env_http e1), a. cbn. rewrite Hh2. split; [done|]. split; [done|].
        unfold answered. destruct (create_answer a); cbn; by rewrite Hm, ?app_nil_r.
    - done. }
  apply wp_bind. destruct drop_old.
  - apply wp_bind. unfold http_delete. apply wp_send. intros [a|x] h Hsend; [|done].
    apply wp_ret. by apply Hrest.
  - apply wp_ret. apply Hrest; [done|done|by rewrite app_nil_r|done].
Qed.

Lemma construct_bad_path dim db url name c drop_old (e : env H) :
  db_url db = Some url -> known_load_path (chosen_load_path db) = false ->
  __init__ dim db c name drop_old e =
  (Raise (RuntimeError ("unknown load_path " +:+ py_repr (chosen_load_path db))), e).
Proof.
  intros Hurl Hlp. unfold __init__. fold (chosen_load_path db). fold (known_load_path (chosen_load_path db)).
  by rewrite Hurl, Hlp.
Qed.
End Construction.
