(* ===== verification/Ideal.v ===== *)
(** * The client without wires: an abstract specification of class [Rostam]

    What a client of a collection is for, with no binary wires, no fallbacks, no sessions and no
    second copy of the filter: it hands the server the points and the queries themselves.  The
    file ends with the simulation: against a server whose answers depend on what a request
    means, every method of {!Client} does what its specification does, whatever the state of
    its wires. *)

From S2P Require Import Prelude Bytes Text Float64 F32 PyVal JsonRead Numpy Http Config Wire Client Server ClientFacts Sessions.

(** ** What a request means *)

Inductive content := CPoints (upsert : bool) (pts : list point) | CQuery (sq : search_query).

Section Content.
Context {NP : Numpy}.

Definition request_upsert (rq : request) : bool :=
  match rq_body rq with
  | RawBody bs => match p_run rvb1_parse bs with Some f => rvb1_upsert f | None => false end
  | JsonBody (VDict d) => match dict_get "upsert" d with Some (VBool b) => b | _ => false end
  | _ => false
  end.

Definition request_content (rq : request) : option content :=
  match request_points rq with
  | Some pts => Some (CPoints (request_upsert rq) pts)
  | None => CQuery <$> request_query rq
  end.
End Content.

(** A server whose answer to a request depends on its URL, its credentials and its meaning, not
    on how it is written; except that it may not speak one of the binary wires, which it then
    refuses with 400, 404 or 415.  These answers leave a server as it was. *)
Class ContentServer (H : Type) {HT : Http H} {NP : Numpy} := {
  speaks_bulk : bool;
  speaks_query : bool;
  content_send : string -> option string -> content -> H -> result response * H;
  content_spoken rq c h :
    rq_method rq = POST -> request_content rq = Some c ->
    (is_raw rq = true -> match c with CPoints _ _ => speaks_bulk | CQuery _ => speaks_query end = true) ->
    http_send rq h = content_send (rq_url rq) (rq_auth rq) c h;
  content_unspoken rq c h :
    rq_method rq = POST -> request_content rq = Some c -> is_raw rq = true ->
    match c with CPoints _ _ => speaks_bulk | CQuery _ => speaks_query end = false ->
    exists r, http_send rq h = (Ok r, h) /\ unsupported r = true;
  content_refused u a c h r h' :
    content_send u a c h = (Ok r, h') -> unsupported r = true -> h' = h
}.

(** ** The specification *)

Record ideal (H : Type) := Ideal {
  il_base : string;
  il_name : string;
  il_auth : option string;
  il_load_path : string;
  il_filter : option pyval;
  il_server : H
}.
Arguments Ideal {_} _ _ _ _ _ _.
Arguments il_base {_} _.
Arguments il_name {_} _.
Arguments il_auth {_} _.
Arguments il_load_path {_} _.
Arguments il_filter {_} _.
Arguments il_server {_} _.

(** What a call returns. *)
Inductive call_reply :=
| Inserted (r : nat * option exn)
| Done
| Found (ids : list Z).

Section Spec.
Context {H : Type} {HT : Http H} {NP : Numpy} {CS : ContentServer H}.

Definition with_server (h : H) (s : ideal H) : ideal H :=
  Ideal (il_base s) (il_name s) (il_auth s) (il_load_path s) (il_filter s) h.
Definition with_filter (f : option pyval) (s : ideal H) : ideal H :=
  Ideal (il_base s) (il_name s) (il_auth s) (il_load_path s) f (il_server s).

(** Hand [c] to the collection's route [parts]. *)
Definition ideal_post (parts : list string) (c : content) : M (ideal H) response := fun s =>
  let '(r, h) := content_send (_url (il_base s) (il_name s :: parts)) (il_auth s) c (il_server s) in
  (r, with_server h s).

Definition ideal_chunk (inline : bool) (pts : list point) (n start : nat) : M (ideal H) (flow (nat * option exn)) :=
  r ← ideal_post ["points"; if inline then "batch" else "bulk"] (CPoints inline pts@[start : chunk_end n start]);
  if status_code r =? 200 then mret Next else mret (Return (start, Some (insert_failed start r))).

Definition ideal_insert (e : list (list float)) (m : list pyval) : M (ideal H) (nat * option exn) :=
  ids ← lift_result (_to_ints m);
  s ← get_state;
  rows ← lift_result (_as_f32 e);
  let pts := chunk_points (existsb (String.eqb (il_load_path s)) ["payload"; "batch"]) ids (nd_rows rows) in
  let n := length ids in
  try_catch is_Exception
    (f ← for_loop (py_range 0 n INSERT_BATCH) (ideal_chunk (String.eqb (il_load_path s) "batch") pts n);
     match f with Next => mret (n, None) | Return r => mret r end)
    (fun e => mret (0%nat, Some e)).

Definition build_request (base name : string) (auth : option string) : request :=
  {| rq_method := POST; rq_url := _url base [name; "points"; "bulk"; "build"]; rq_auth := auth; rq_headers := [];
     rq_body := JsonBody (VDict []); rq_timeout := 24 * 3600 |}.

Definition ideal_optimize : M (ideal H) unit := fun s =>
  if String.eqb (il_load_path s) "batch" then (Ok tt, s)
  else
    let '(r, h) := http_send (build_request (il_base s) (il_name s) (il_auth s)) (il_server s) in
    ((r ← r;
      if status_code r =? 200 then Ok tt
      else Raise (RuntimeError ("bulk build failed: " +:+ dec (status_code r) +:+ " " +:+ r_text r))),
     with_server h s).

Definition ideal_prepare (f : Filter) : M (ideal H) unit :=
  match filter_type f with
  | NonFilter => modify (with_filter None)
  | NumGE =>
      s ← get_state;
      if String.eqb (il_load_path s) "bulk" then
        raise (RuntimeError ("Rostam filter cases require load_path='payload' (or 'batch'); "
                             +:+ "load_path='bulk' stores no payload to filter on"))
      else
        v ← lift_result (py_int (int_value f));
        modify (with_filter (Some (num_ge_filter (int_field f) v)))
  | OtherFilter name => raise (RuntimeError ("unsupported filter for Rostam: " +:+ name))
  end.

Definition ideal_search (query : list float) (k : Z) : M (ideal H) (list Z) :=
  s ← get_state;
  r ← ideal_post ["points"; "search"] (CQuery (wanted query k (il_filter s)));
  lift_result (answer_ids r).

Definition ideal_call (c : call) : M (ideal H) call_reply :=
  match c with
  | CInsert e m => r ← ideal_insert e m; mret (Inserted r)
  | COptimize => _ ← ideal_optimize; mret Done
  | CPrepare f => _ ← ideal_prepare f; mret Done
  | CSearch q k => ids ← ideal_search q k; mret (Found ids)
  end.

(** The same calls of the client. *)
Definition client_call (c : call) : M (world H) call_reply :=
  match c with
  | CInsert e m => r ← insert_embeddings e m; mret (Inserted r)
  | COptimize => _ ← optimize; mret Done
  | CPrepare f => _ ← prepare_filter f; mret Done
  | CSearch q k => ids ← search_embedding q k; mret (Found ids)
  end.
End Spec.

(** What a caller sees of a sequence of calls; it goes on after an exception. *)
Fixpoint observe {W A B} (step : A -> M W B) (cs : list A) (w : W) : list (result B) * W :=
  match cs with
  | [] => ([], w)
  | c :: cs => let '(r, w') := step c w in let '(rs, w'') := observe step cs w' in (r :: rs, w'')
  end.

(** ** The simulation *)

(** The credentials the client's next request carries. *)
Definition auth_of (c : rostam) : option string :=
  match cur_session c with Some s => sess_auth s | None => bearer (api_key c) end.

(** What the specification sees of the client: neither its wires nor its sessions. *)
Definition view {H} (w : world H) : ideal H :=
  let c := w_self w in
  Ideal (base c) (collection_name c) (auth_of c) (load_path c) (query_filter c) (env_http (w_env w)).

(** The two copies of the filter say the same, and fit the wire. *)
Record fits (c : rostam) : Prop := {
  fits_step : filter_in_step c;
  fits_blob : is_u 4 (Z.of_nat (length (filter_blob c)))
}.

(** A wire believed proven is one the server speaks. *)
Record good {H} {HT : Http H} {NP : Numpy} {CS : ContentServer H} (c : rostam) : Prop := {
  good_fits : fits c;
  good_bulk : binary_proven c = true -> speaks_bulk = true;
  good_query : binary_query_proven c = true -> speaks_query = true
}.

(** Calls whose arguments the wires can carry. *)
Definition wf_call {NP : Numpy} (c : call) : Prop :=
  match c with
  | CInsert e m => exists d ids rows,
      _to_ints m = Ok ids /\ _as_f32 e = Ok (f32_matrix d rows) /\ load d ids rows
  | COptimize => True
  | CPrepare f => str_ascii (int_field f) = true /\
      forall v, py_int (int_value f) = Ok v -> is_u 4 (Z.of_nat (length (encode (json_dumps (num_ge_filter (int_field f) v)))))
  | CSearch q k => is_u 4 k /\ is_u 4 (Z.of_nat (length q))
  end.

Section Meaning.
Context {NP : Numpy} {NL : NumpyLaws NP}.
Variables (d : nat) (ids : list Z) (rows : list (list Z)) (upsert payload : bool).
Variables (url : string) (auth : option string) (headers : list (string * string)) (timeout : Z).

Lemma binary_request_content :
  wire_chunk d ids rows -> exists body,
  _binary_body ids (f32_matrix d rows) upsert payload = Ok body /\
  request_content (Build_request POST url auth headers (RawBody body) timeout) =
  Some (CPoints upsert (chunk_points payload ids rows)).
Proof.
  intros Hc. destruct (binary_body_parse d ids rows upsert payload Hc) as (body & E & Hp). exists body.
  split; [done|]. unfold request_content. rewrite (binary_request_points d ids rows upsert payload url auth headers timeout body Hc E).
  unfold request_upsert. cbn [rq_body]. by rewrite Hp.
Qed.

Lemma json_request_content :
  finite_rows rows ->
  request_content (Build_request POST url auth headers (JsonBody (_json_body ids (f32_matrix d rows) payload upsert)) timeout) =
  Some (CPoints upsert (chunk_points payload ids rows)).
Proof. intros Hf. unfold request_content. rewrite json_request_points by done. by destruct upsert. Qed.
End Meaning.

(** The two bodies of a query mean the same. *)
Lemma query_content {NP : Numpy} {NL : NumpyLaws NP} url auth hs t q k c :
  fits c -> is_u 4 k -> is_u 4 (Z.of_nat (length q)) ->
  (exists bs, _query_body q k (filter_blob c) = Ok bs /\
    request_content (Build_request POST url auth hs (RawBody bs) t) = Some (CQuery (wanted q k (query_filter c)))) /\
  request_content (Build_request POST url auth [] (JsonBody (query_json q k (query_filter c))) t) =
    Some (CQuery (wanted q k (query_filter c))).
Proof.
  intros [Hf Hb] Hk Hq. split.
  - destruct (binary_request_query q k c Hk Hq Hf Hb url auth hs t) as (bs & E & Hm). exists bs. split; [done|].
    match type of Hm with request_query ?rq = _ => pose proof (raw_query_no_points rq bs _ eq_refl Hm) as Hnp end.
    unfold request_content. by rewrite Hnp, Hm.
  - unfold request_content. rewrite (json_request_query q k c url auth [] t).
    by assert (request_points (Build_request POST url auth [] (JsonBody (query_json q k (query_filter c))) t) = None)
      as -> by by destruct (query_filter c).
Qed.


(** ** Simulation by a view of the state

    [m], on a state that satisfies [I], does what [sm] does on the view of that state, with
    the same outcome, and ends with [I] again. *)
Section Refines.
Context {W V : Type} (vw : W -> V) (I : W -> Prop).

Definition refines {A} (m : M W A) (sm : M V A) : Prop :=
  forall w, I w -> wp m w (fun r w' => sm (vw w) = (r, vw w') /\ I w').

Lemma refines_ret {A} (a : A) : refines (mret a) (mret a).
Proof. done. Qed.

Lemma refines_raise {A} e : refines (@raise W A e) (raise e).
Proof. done. Qed.

Lemma refines_lift {A} (r : result A) : refines (lift_result r) (lift_result r).
Proof. done. Qed.

Lemma refines_bind {A B} (m : M W A) sm (f : A -> M W B) sf :
  refines m sm -> (forall a, refines (f a) (sf a)) -> refines (m ≫= f) (sm ≫= sf).
Proof.
  intros Hm Hf w Hw. destruct (Hm w Hw) as [E Hw']. unfold wp, outcome, after, mbind, M_bind in *.
  rewrite E. destruct (m w) as [[a|e] w']; [by apply Hf|done].
Qed.

Lemma refines_try_catch {A} p (m : M W A) sm h sh :
  refines m sm -> (forall e, p e = true -> refines (h e) (sh e)) ->
  refines (try_catch p m h) (try_catch p sm sh).
Proof.
  intros Hm Hh w Hw. destruct (Hm w Hw) as [E Hw']. unfold wp, outcome, after, try_catch in *.
  rewrite E. destruct (m w) as [[a|e] w']; [done|]. cbn in *. destruct (p e) eqn:Hp; [by apply Hh|done].
Qed.

Lemma refines_for {X A} (xs : list X) (body : X -> M W (flow A)) sbody :
  (forall x, x ∈ xs -> refines (body x) (sbody x)) -> refines (for_loop xs body) (for_loop xs sbody).
Proof.
  induction xs as [|x xs IH]; intros Hb; [apply refines_ret|]. cbn [for_loop].
  apply refines_bind; [apply Hb; set_solver|]. intros [|a]; [|apply refines_ret].
  apply IH. set_solver.
Qed.
End Refines.

Section Simulation.
Context {H : Type} {HT : Http H} {NP : Numpy} {NL : NumpyLaws NP} {CS : ContentServer H}.

Lemma good_after_load c c' :
  bulk_changed c c' -> (binary_proven c' = true -> speaks_bulk = true) -> good c -> good c'.
Proof. intros (b & p & ->) Hp [[[] ?] ? ?]. by split; [split|..]. Qed.
Lemma good_after_search c c' :
  query_changed c c' -> (binary_query_proven c' = true -> speaks_query = true) -> good c -> good c'.
Proof. intros (b & p & ->) Hp [[[] ?] ? ?]. by split; [split|..]. Qed.

(** The session a method uses carries the credentials of the view, and the view does not
    change. *)
Lemma wp_sess_view (w : world H) (Q : result session -> world H -> Prop) :
  (forall s nx op, sess_auth s = auth_of (w_self w) ->
    Q (Ok s) {| w_self := w_self w;
      w_env := {| env_http := env_http (w_env w); env_log := env_log (w_env w);
                 env_answers := env_answers (w_env w); env_next := nx; env_open := op;
                 env_messages := env_messages (w_env w) |} |}) ->
  wp _sess w Q.
Proof.
  intros HQ. unfold _sess, auth_of in *. apply wp_bind, wp_self. destruct (cur_session (w_self w)) as [s|].
  - apply wp_ret. specialize (HQ s (env_next (w_env w)) (env_open (w_env w)) eq_refl). by destruct w as [? []].
  - by apply wp_on_env, HQ.
Qed.

(** What a server makes of a request, by its wire. *)
Definition spoken (c : content) : bool := match c with CPoints _ _ => speaks_bulk | CQuery _ => speaks_query end.

Section Answers.
Variables (url : string) (auth : option string) (hs : list (string * string)) (t : Z) (c : content).

Lemma json_answer v h :
  request_content (Build_request POST url auth hs (JsonBody v) t) = Some c ->
  http_send (Build_request POST url auth hs (JsonBody v) t) h = content_send url auth c h.
Proof. intros Hm. by rewrite (content_spoken (Build_request POST url auth hs (JsonBody v) t) c h eq_refl Hm). Qed.

Lemma binary_answer bs h :
  request_content (Build_request POST url auth hs (RawBody bs) t) = Some c ->
  let send := http_send (Build_request POST url auth hs (RawBody bs) t) h in
  spoken c = true /\ send = content_send url auth c h \/
  spoken c = false /\ exists no, send = (Ok no, h) /\ unsupported no = true.
Proof.
  intros Hm send. subst send. set (rq := Build_request _ _ _ _ _ _) in *. destruct (spoken c) eqn:Hs.
  - left. by rewrite (content_spoken rq c h eq_refl Hm).
  - right. split; [done|]. by apply (content_unspoken rq c h).
Qed.
End Answers.

Lemma ideal_post_eq parts c (s : ideal H) :
  ideal_post parts c s =
  let '(r, h) := content_send (_url (il_base s) (il_name s :: parts)) (il_auth s) c (il_server s) in (r, with_server h s).
Proof. done. Qed.

Lemma ideal_chunk_eq inline pts n start (s : ideal H) :
  ideal_chunk inline pts n start s =
  let '(r, h) := content_send (_url (il_base s) [il_name s; "points"; if inline then "batch" else "bulk"])
    (il_auth s) (CPoints inline pts@[start : chunk_end n start]) (il_server s) in
  (r ← r; Ok (if status_code r =? 200 then Next else Return (start, Some (insert_failed start r))), with_server h s).
Proof.
  unfold ideal_chunk, ideal_post, mbind, M_bind. destruct (content_send _ _ _ _) as [[r|e] h]; [|done].
  cbn. by destruct (status_code r =? 200).
Qed.

(** Follow the answers to the requests sent, on both sides. *)
Ltac answers Sbin Sjson :=
  cbn [query_filter set_binary_query] in *;
  repeat match goal with E : http_send _ _ = _ |- _ => first [rewrite Sbin in E | rewrite Sjson in E] end;
  simplify_eq;
  repeat match goal with E : unsupported _ && _ = true |- _ => apply andb_true_iff in E as [E _] end;
  try match goal with U : unsupported ?r = true, E : content_send _ _ _ _ = (Ok ?r, _) |- _ =>
    pose proof (content_refused _ _ _ _ _ _ E U); subst end;
  repeat match goal with E : content_send _ _ _ _ = _ |- _ => rewrite E end; cbn;
  rewrite ?negb_true_iff, ?negb_false_iff in *;
  repeat match goal with E : (_ =? 200) = _ |- _ => rewrite E end;
  unfold answer_ids; repeat match goal with E : _ = _ :> result _ |- _ => rewrite E; cbn end; done.

(** The chunks of one load, on states that differ from its first by what the bulk wire
    learns. *)
Section Chunks.
Variables (c : rostam) (d : nat) (ids : list Z) (rows : list (list Z)).
Hypothesis Hload : load d ids rows.
Hypothesis Hgood : good c.

Definition in_load (w : world H) : Prop :=
  bulk_changed c (w_self w) /\ (binary_proven (w_self w) = true -> speaks_bulk = true).

Lemma in_load_view (w : world H) : in_load w ->
  view w = Ideal (base c) (collection_name c) (auth_of c) (load_path c) (query_filter c) (env_http (w_env w)).
Proof. unfold view, in_load, auth_of. by intros [(b & p & ->) _]. Qed.

Lemma chunk_refines s (inline payload : bool) start :
  (start < length ids)%nat -> sess_auth s = auth_of c ->
  refines view in_load
    (insert_chunk s (_url (base c) [collection_name c; "points"; if inline then "batch" else "bulk"]) inline payload
       ids (f32_matrix d rows) (length ids) start)
    (ideal_chunk inline (chunk_points payload ids rows) (length ids) start).
Proof.
  intros Hstart Hauth w Hw. pose proof (load_chunk d ids rows start Hload) as Hc.
  set (url := _url _ _). set (stop := chunk_end (length ids) start) in *.
  assert (finite_rows rows@[start : stop]) as Hfin by apply Forall_py_slice, (load_finite _ _ _ Hload).
  assert (chunk_points payload ids@[start : stop] rows@[start : stop] = (chunk_points payload ids rows)@[start : stop]) as Hpts
    by apply zip_with_py_slice.
  destruct (binary_request_content d _ _ inline payload url (sess_auth s) _BINARY_HEADERS 600 Hc) as (body & Hbody & Hbin).
  pose proof (json_request_content d ids@[start : stop] _ inline payload url (sess_auth s) [] 600 Hfin) as Hjson.
  rewrite Hpts in Hbin, Hjson.
  rewrite Hauth in *. pose proof (fun h => json_answer _ _ _ _ _ _ h Hjson) as Sjson.
  unfold insert_chunk, post_data, post_json. rewrite np_slice_rows_matrix. fold (chunk_end (length ids) start) stop.
  rewrite Hbody, ideal_chunk_eq, (in_load_view w Hw), Hauth. cbn [il_base il_name il_auth il_server]. fold url stop.
  destruct Hw as [Hw Hproven].
  destruct (binary_answer _ _ _ _ _ _ (env_http (w_env w)) Hbin) as [[Hs Sbin]|[Hs (no & Sbin & Hno)]]; cbn [spoken] in Hs.
  - client_run; cbn [env_http w_env sent noted] in *.
    all: assert (forall w', bulk_changed (w_self w) (w_self w') -> in_load w') as Hin
      by (intros w' Hc'; split; [by eapply bulk_changed_trans|done]).
    all: rewrite in_load_view by (apply Hin; solve_frame); (split; [|apply Hin; solve_frame]).
    all: answers Sbin Sjson.
  - assert (binary_proven (w_self w) = false) as Hun
      by (destruct (binary_proven (w_self w)); [by rewrite Hs in Hproven; discriminate Hproven|done]).
    client_run; cbn [env_http w_env sent noted] in *.
    all: try (rewrite Sbin in *; simplify_eq; rewrite Hno, Hun in *; discriminate).
    all: assert (forall w', bulk_changed (w_self w) (w_self w') -> binary_proven (w_self w') = false -> in_load w') as Hin
      by (intros w' Hc' E; split; [by eapply bulk_changed_trans|by rewrite E]).
    all: rewrite in_load_view by (apply Hin; [solve_frame|done]); (split; [|apply Hin; [solve_frame|done]]).
    all: answers Sbin Sjson.
Qed.

Lemma chunks_refine s (inline payload : bool) (n := length ids) :
  sess_auth s = auth_of c ->
  refines view in_load
    (try_catch is_Exception
       (f ← for_loop (py_range 0 n INSERT_BATCH)
              (insert_chunk s (_url (base c) [collection_name c; "points"; if inline then "batch" else "bulk"]) inline payload
                 ids (f32_matrix d rows) n);
        match f with Next => mret (n, None) | Return r => mret r end)
       (fun e => mret (0%nat, Some e)))
    (try_catch is_Exception
       (f ← for_loop (py_range 0 n INSERT_BATCH) (ideal_chunk inline (chunk_points payload ids rows) n);
        match f with Next => mret (n, None) | Return r => mret r end)
       (fun e => mret (0%nat, Some e))).
Proof.
  intros Hs. apply refines_try_catch; [|intros ? _; apply refines_ret].
  apply refines_bind; [|intros [|]; apply refines_ret].
  apply refines_for. intros start Hstart. apply chunk_refines; [|done].
  apply list_elem_of_lookup in Hstart as [k Hk]. apply py_range_lookup in Hk as [_ Hk]; [done|].
  pose proof INSERT_BATCH_eq. lia.
Qed.
End Chunks.

(** What a method does on [w], its specification does on the view of [w]. *)
Definition implements {A} (m : M (world H) A) (sm : M (ideal H) A) (w : world H) : Prop :=
  wp m w (fun r w' => sm (view w) = (r, view w') /\ good (w_self w')).

Lemma implements_fmap {A B} (m : M (world H) A) sm (f : A -> B) w :
  implements m sm w -> implements (a ← m; mret (f a)) (a ← sm; mret (f a)) w.
Proof.
  unfold implements, wp, outcome, after, mbind, M_bind. intros [E Hg]. rewrite E. by destruct (m w) as [[a|e] w'].
Qed.

(** The specification of a load whose arguments convert. *)
Lemma ideal_insert_eq e m ids a (s : ideal H) :
  _to_ints m = Ok ids -> _as_f32 e = Ok a ->
  let pts := chunk_points (existsb (String.eqb (il_load_path s)) ["payload"; "batch"]) ids (nd_rows a) in
  let n := length ids in
  ideal_insert e m s =
  try_catch is_Exception
    (f ← for_loop (py_range 0 n INSERT_BATCH) (ideal_chunk (String.eqb (il_load_path s) "batch") pts n);
     match f with Next => mret (n, None) | Return r => mret r end)
    (fun e => mret (0%nat, Some e)) s.
Proof. intros Hm He pts n. unfold ideal_insert. by rewrite Hm, He. Qed.

Lemma insert_implements e m (w : world H) :
  good (w_self w) -> wf_call (CInsert e m) -> implements (insert_embeddings e m) (ideal_insert e m) w.
Proof.
  intros Hgood (d & ids & rows & Hids & Hrows & Hload). unfold implements, insert_embeddings.
  rewrite (ideal_insert_eq _ _ _ _ (view w) Hids Hrows), Hids. client_steps. apply wp_sess_view. intros s nx op Hs.
  apply wp_bind, wp_self, wp_bind. rewrite Hrows. apply wp_lift. cbn [w_self].
  eapply wp_mono; [eapply (chunks_refine (w_self w)); [done..|]; split; [apply bulk_changed_refl|apply (good_bulk _ Hgood)]|].
  intros r w' [E [Hl Hp]]. split; [exact E|by eapply good_after_load].
Qed.

Lemma optimize_implements (w : world H) : good (w_self w) -> implements optimize ideal_optimize w.
Proof.
  intros Hgood. unfold implements, optimize, ideal_optimize. client_steps.
  destruct (String.eqb (load_path (w_self w)) "batch") eqn:Hp; client_steps.
  { change (il_load_path (view w)) with (load_path (w_self w)). by rewrite Hp. }
  apply wp_sess_view. intros s nx op Hs.
  change (il_load_path (view w)) with (load_path (w_self w)). rewrite Hp.
  change (il_auth (view w)) with (auth_of (w_self w)). rewrite <- Hs.
  client_run; unfold build_request; cbn [env_http w_env sent noted view il_base il_name il_server il_auth] in *;
    match goal with E : http_send _ _ = _ |- _ => rewrite E end; cbn; rewrite ?negb_true_iff, ?negb_false_iff in *;
    repeat match goal with E : (_ =? 200) = _ |- _ => rewrite E end; done.
Qed.

Lemma prepare_implements f (w : world H) :
  good (w_self w) -> wf_call (CPrepare f) -> implements (prepare_filter f) (ideal_prepare f) w.
Proof.
  intros Hgood [Hfield Hfits]. unfold implements, prepare_filter, ideal_prepare.
  destruct (filter_type f); [| |by client_steps].
  - client_steps. split; [done|]. destruct Hgood; by split; [split; [split|]|..].
  - client_steps. destruct (String.eqb (load_path (w_self w)) "bulk") eqn:Hp; client_steps.
    { unfold mbind, M_bind, get_state. change (il_load_path (view w)) with (load_path (w_self w)). by rewrite Hp. }
    unfold mbind, M_bind, get_state. change (il_load_path (view w)) with (load_path (w_self w)). rewrite Hp.
    destruct (py_int (int_value f)) as [v|e]; [|done]. client_steps.
    split; [done|]. destruct Hgood. split; [|done..]. split; [|by apply Hfits].
    split; [done|]. intros x Hx. injection Hx as <-. by apply num_ge_plain.
Qed.

Lemma ideal_search_eq q k (s : ideal H) :
  ideal_search q k s =
  let '(r, h) := content_send (_url (il_base s) [il_name s; "points"; "search"]) (il_auth s)
    (CQuery (wanted q k (il_filter s))) (il_server s) in
  (r ← r; answer_ids r, with_server h s).
Proof.
  unfold ideal_search, ideal_post, mbind, M_bind. cbn.
  by destruct (content_send _ _ _ _) as [[r|e] h].
Qed.

Lemma search_implements q k (w : world H) :
  good (w_self w) -> wf_call (CSearch q k) -> implements (search_embedding q k) (ideal_search q k) w.
Proof.
  intros Hgood [Hk Hq]. unfold implements. rewrite ideal_search_eq. unfold search_embedding, post_data, post_json.
  client_steps. apply wp_sess_view. intros s nx op Hs. client_steps.
  set (url := _url (base (w_self w)) _).
  destruct (query_content url (sess_auth s) _BINARY_HEADERS 120 q k (w_self w) (good_fits _ Hgood) Hk Hq) as [(bs & Hbs & Hbin) Hjson].
  rewrite Hbs, Hs in *. pose proof (fun h => json_answer _ _ _ _ _ _ h Hjson) as Sjson.
  change (_url (il_base (view w)) _) with url. change (il_auth (view w)) with (auth_of (w_self w)).
  change (il_filter (view w)) with (query_filter (w_self w)). change (il_server (view w)) with (env_http (w_env w)).
  destruct (binary_answer _ _ _ _ _ _ (env_http (w_env w)) Hbin) as [[Hp Sbin]|[Hp (no & Sbin & Hno)]]; cbn [spoken] in Hp.
  - client_run; cbn [env_http w_env sent noted] in *.
    all: (split; [|eapply good_after_search; [solve_frame|done|done]]).
    all: answers Sbin Sjson.
  - assert (binary_query_proven (w_self w) = false) as Hun
      by (destruct (binary_query_proven (w_self w)) eqn:E; [by rewrite (good_query _ Hgood E) in Hp|done]).
    client_run; cbn [env_http w_env sent noted] in *.
    all: try (rewrite Sbin in *; simplify_eq; rewrite Hno, Hun in *; discriminate).
    all: (split; [|eapply good_after_search; [solve_frame|by cbn; rewrite Hun|done]]).
    all: answers Sbin Sjson.
Qed.

Lemma call_implements c (w : world H) :
  good (w_self w) -> wf_call c -> implements (client_call c) (ideal_call c) w.
Proof.
  intros Hg Hc. destruct c; cbn [client_call ideal_call].
  - by apply (implements_fmap _ _ Inserted), insert_implements.
  - by apply (implements_fmap _ _ (fun _ => Done)), optimize_implements.
  - by apply (implements_fmap _ _ (fun _ => Done)), prepare_implements.
  - by apply (implements_fmap _ _ Found), search_implements.
Qed.

(** Call by call, the client and its specification stay in step. *)
Lemma calls_implement cs (w : world H) :
  good (w_self w) -> Forall wf_call cs ->
  observe ideal_call cs (view w) =
    ((observe client_call cs w).1, view (observe client_call cs w).2) /\
  good (w_self (observe client_call cs w).2).
Proof.
  intros Hg Hcs. revert w Hg. induction Hcs as [|c cs Hc _ IH]; intros w Hg; [done|].
  destruct (call_implements c w Hg Hc) as [E Hg']. cbn [observe]. unfold outcome, after in *. rewrite E.
  destruct (client_call c w) as [r w'] eqn:Ec. cbn [fst snd] in *. destruct (IH w' Hg') as [E' Hg''].
  rewrite E'. by destruct (observe client_call cs w').
Qed.

(** A new client. *)
Lemma new_client_good dim db url name : good (new_client dim db url name).
Proof. by split; [split; [split|]|..]. Qed.

(** Two new clients that differ by their wires only are one to the specification. *)
Lemma view_new_client dim dim' db db' url name (e : env H) :
  db_api_key db = db_api_key db' -> db_load_path db = db_load_path db' ->
  view {| w_self := new_client dim db url name; w_env := e |} =
  view {| w_self := new_client dim' db' url name; w_env := e |}.
Proof. intros Hk Hl. unfold view, new_client, auth_of, chosen_load_path. cbn. by rewrite Hk, Hl. Qed.
End Simulation.
