(* ===== verification/Typed.v ===== *)
(** * What the client may send: the types of its requests

    Each route of a collection takes one kind of body.  [typed] says which, for a client's
    collection, credentials and load path; the lemmas show that every request of every
    well-formed call is typed, whatever the server answers. *)

From S2P Require Import Prelude Bytes Text Float64 F32 PyVal JsonRead Numpy Http Config Wire Client Server ClientFacts Sessions Ideal.

(** A point is stored with its id as metadata, on the load paths that store any. *)
Definition point_typed (payload : bool) (p : point) : Prop :=
  is_u 8 (pt_id p) /\ Forall (fun w => is_f32 w /\ is_f32_nan w = false) (pt_vec p) /\
  pt_meta p = if payload then Some (id_metadata (pt_id p)) else None.

Section Typed.
Context {NP : Numpy} {NL : NumpyLaws NP}.

Inductive typed (c : rostam) (rq : request) : Prop :=
| typed_insert pts (inline := String.eqb (load_path c) "batch") :
    rq_url rq = _url (base c) [collection_name c; "points"; if inline then "batch" else "bulk"] ->
    request_points rq = Some pts -> request_upsert rq = inline ->
    Forall (point_typed (stores_payload c)) pts -> (length pts <= INSERT_BATCH)%nat ->
    typed c rq
| typed_build :
    rq_url rq = _url (base c) [collection_name c; "points"; "bulk"; "build"] ->
    rq_body rq = JsonBody (VDict []) -> load_path c <> "batch" ->
    typed c rq
| typed_search sq :
    rq_url rq = _url (base c) [collection_name c; "points"; "search"] ->
    request_query rq = Some sq -> request_points rq = None ->
    (load_path c = "bulk" -> sq_filter sq = None) ->
    typed c rq.

(** What holds of every request: its method, its credentials, and a content type exactly when
    the body is binary. *)
Record framed (c : rostam) (rq : request) : Prop := {
  framed_method : rq_method rq = POST;
  framed_auth : rq_auth rq = auth_of c;
  framed_headers : rq_headers rq = if is_raw rq then _BINARY_HEADERS else [];
  framed_typed : typed c rq
}.
End Typed.

(** A state in which searches can be sent: the filter fits the wire, and there is none where
    no payload is stored. *)
Record ready (c : rostam) : Prop := {
  ready_fits : fits c;
  ready_bulk : load_path c = "bulk" -> query_filter c = None
}.

(** The fixed part of a client, which types its requests. *)
Definition same_target (c c' : rostam) : Prop :=
  base c' = base c /\ collection_name c' = collection_name c /\ load_path c' = load_path c /\ auth_of c' = auth_of c.

Section Sends.
Context {H : Type} {HT : Http H} {NP : Numpy} {NL : NumpyLaws NP}.

(** [w'] follows [w] by requests of one kind; [inserting], a framed request that carries points. *)
Definition sends (P : request -> Prop) (w w' : world H) : Prop :=
  exists rqs, env_log (w_env w') = env_log (w_env w) ++ rqs /\ Forall P rqs.
Definition inserting (c : rostam) (rq : request) : Prop := framed c rq /\ is_Some (request_points rq).

Lemma sends_refl P (w w' : world H) : env_log (w_env w') = env_log (w_env w) -> sends P w w'.
Proof. intros E. exists []. by rewrite app_nil_r. Qed.

Lemma sends_mono (P P' : request -> Prop) (w w' : world H) : (forall rq, P rq -> P' rq) -> sends P w w' -> sends P' w w'.
Proof. intros HP (rqs & L & Hr). exists rqs. split; [done|]. by eapply Forall_impl. Qed.

Lemma sends_trans P (w1 w2 w3 : world H) : sends P w1 w2 -> sends P w2 w3 -> sends P w1 w3.
Proof.
  intros (r1 & L1 & H1) (r2 & L2 & H2). exists (r1 ++ r2). rewrite L2, L1, app_assoc. split; [done|by apply Forall_app].
Qed.

Lemma sends_log P (w w' : world H) rqs :
  env_log (w_env w') = env_log (w_env w) ++ rqs -> Forall P rqs -> sends P w w'.
Proof. intros L Hr. by exists rqs. Qed.

Lemma framed_same c c' rq : same_target c c' -> framed c rq -> framed c' rq.
Proof.
  intros (Hb & Hn & Hl & Ha) [Hm Hau Hh Ht]. split; [done|congruence|done|]. unfold stores_payload in *.
  destruct Ht as [pts inline Hu Hp Hup Hpt Hlen|Hu Hbody Hlp|sq Hu Hq Hnp Hf].
  - eapply typed_insert; unfold stores_payload; rewrite ?Hl, ?Hb, ?Hn; eassumption.
  - apply typed_build; rewrite ?Hl, ?Hb, ?Hn; assumption.
  - eapply typed_search; rewrite ?Hl, ?Hb, ?Hn; eassumption.
Qed.

Lemma chunk_points_typed d ids rows payload :
  load d ids rows -> Forall (point_typed payload) (chunk_points payload ids rows).
Proof.
  intros [_ Hids _ Hf _]. unfold chunk_points. rewrite zip_with_zip.
  apply Forall_fmap, List.Forall_forall. intros [i r] Hir%list_elem_of_In. unfold point_typed; cbn.
  split_and!; [|exact (Forall_elem _ _ _ Hf (elem_of_zip_r _ _ _ _ Hir))|by destruct payload].
  exact (Forall_elem _ _ _ Hids (elem_of_zip_l _ _ _ _ Hir)).
Qed.

(** Close a goal [sends] from the requests of a symbolic run. *)
Ltac solve_sends :=
  first
    [ by apply sends_refl
    | eapply sends_log; [cbn [env_log w_env sent noted]; rewrite <- ?app_assoc; reflexivity|];
      repeat (apply Forall_cons_2; [done|]); apply Forall_nil_2 ].

Lemma chunk_sends c d ids rows s start (w : world H) :
  load d ids rows -> (start < length ids)%nat -> sess_auth s = auth_of c ->
  let inline := String.eqb (load_path c) "batch" in
  wp (insert_chunk s (_url (base c) [collection_name c; "points"; if inline then "batch" else "bulk"]) inline
        (stores_payload c) ids (f32_matrix d rows) (length ids) start) w (fun _ w' => sends (inserting c) w w').
Proof.
  intros Hload Hstart Hs inline. pose proof (load_chunk d ids rows start Hload) as Hc.
  set (url := _url _ _). set (stop := chunk_end (length ids) start) in *.
  assert (finite_rows rows@[start : stop]) as Hfin by apply Forall_py_slice, (load_finite _ _ _ Hload).
  destruct (binary_request_content d _ _ inline (stores_payload c) url (auth_of c) _BINARY_HEADERS 600 Hc)
    as (body & Hbody & _).
  set (pts := chunk_points (stores_payload c) ids@[start : stop] rows@[start : stop]).
  assert (Forall (point_typed (stores_payload c)) pts) as Hpts.
  { subst pts. unfold chunk_points. rewrite zip_with_py_slice. by apply Forall_py_slice, (chunk_points_typed d). }
  assert (length pts <= INSERT_BATCH)%nat as Hlen.
  { subst pts. unfold chunk_points. rewrite zip_with_py_slice, length_py_slice. unfold stop, chunk_end. lia. }
  pose proof (binary_request_points d _ _ inline (stores_payload c) url (auth_of c) _BINARY_HEADERS 600 _ Hc Hbody) as Hbp.
  assert (inserting c (Build_request POST url (auth_of c) _BINARY_HEADERS (RawBody body) 600)) as Hbin.
  { split; [|by eexists]. split; [done..|]. eapply typed_insert; [done|exact Hbp| |done..].
    destruct (binary_body_parse d _ _ inline (stores_payload c) Hc) as (b & E & Hp). rewrite Hbody in E. injection E as <-.
    unfold request_upsert. cbn [rq_body]. by rewrite Hp. }
  assert (inserting c (Build_request POST url (auth_of c) []
    (JsonBody (_json_body ids@[start : stop] (f32_matrix d rows@[start : stop]) (stores_payload c) inline)) 600)) as Hjson.
  { split; [|eexists; by apply json_request_points]. split; [done..|].
    eapply typed_insert; [done|by apply json_request_points| |done..].
    fold inline. by destruct inline. }
  unfold insert_chunk. rewrite np_slice_rows_matrix. fold (chunk_end (length ids) start) stop. rewrite Hbody.
  unfold post_data, post_json. rewrite Hs. client_run; solve_sends.
Qed.

Lemma insert_inserts e m (w : world H) :
  wf_call (CInsert e m) -> wp (insert_embeddings e m) w (fun _ w' => sends (inserting (w_self w)) w w').
Proof.
  intros (d & ids & rows & Hids & Hrows & Hload). unfold insert_embeddings. rewrite Hids. client_steps.
  apply wp_sess_view. intros s nx op Hs. client_steps. rewrite Hrows. client_steps.
  set (w1 := Build_world _ _ _). assert (sends (inserting (w_self w)) w w1) as H1 by by apply sends_refl.
  apply (wp_for_range (fun _ w' => sends (inserting (w_self w)) w w')); [pose proof INSERT_BATCH_eq; lia|done| |done].
  intros j w' Hj Hw'. eapply wp_mono; [by apply (chunk_sends (w_self w) d)|].
  intros [[|[]]|x] w'' Hw''; client_steps; try destruct (is_Exception x); client_steps; by eapply sends_trans.
Qed.

Lemma insert_sends e m (w : world H) :
  wf_call (CInsert e m) -> wp (insert_embeddings e m) w (fun _ w' => sends (framed (w_self w)) w w').
Proof.
  intros Hc. eapply wp_mono; [by apply insert_inserts|]. intros r w'. cbn beta. apply sends_mono. by intros rq [].
Qed.

Lemma optimize_sends (w : world H) : wp optimize w (fun _ w' => sends (framed (w_self w)) w w').
Proof.
  unfold optimize. client_steps. destruct (String.eqb_spec (load_path (w_self w)) "batch"); client_steps; [by apply sends_refl|].
  apply wp_sess_view. intros s nx op Hs. unfold post_json.
  assert (framed (w_self w) (build_request (base (w_self w)) (collection_name (w_self w)) (auth_of (w_self w)))) as Hb
    by (split; [done..|by apply typed_build]).
  unfold build_request in Hb. rewrite Hs. client_run; solve_sends.
Qed.

Lemma search_sends q k (w : world H) :
  ready (w_self w) -> wf_call (CSearch q k) -> wp (search_embedding q k) w (fun _ w' => sends (framed (w_self w)) w w').
Proof.
  intros [Hfit Hbulk] [Hk Hq]. unfold search_embedding, post_data, post_json. client_steps.
  apply wp_sess_view. intros s nx op Hs. client_steps. set (url := _url (base (w_self w)) _).
  destruct Hfit as [Hf Hb].
  destruct (binary_request_query q k (w_self w) Hk Hq Hf Hb url (auth_of (w_self w)) _BINARY_HEADERS 120) as (bs & Hbs & Hrq).
  assert (framed (w_self w) (Build_request POST url (auth_of (w_self w)) _BINARY_HEADERS (RawBody bs) 120)) as Hbin.
  { split; [done..|]. eapply typed_search; [done|exact Hrq| |exact Hbulk]. by eapply raw_query_no_points. }
  assert (framed (w_self w) (Build_request POST url (auth_of (w_self w)) []
    (JsonBody (query_json q k (query_filter (w_self w)))) 120)) as Hjson.
  { split; [done..|]. eapply typed_search; [done|by apply json_request_query| |exact Hbulk].
    by destruct (query_filter (w_self w)). }
  rewrite Hbs, Hs. client_run; cbn [query_filter set_binary_query] in *; solve_sends.
Qed.
(** The methods keep the target, and a ready state ready. *)
Definition keeps (c c' : rostam) : Prop := same_target c c' /\ (ready c -> ready c').

Lemma keeps_bulk c c' : bulk_changed c c' -> keeps c c'.
Proof. intros (b & p & ->). split; [done|]. by intros [[[] ?] ?]. Qed.
Lemma keeps_query c c' : query_changed c c' -> keeps c c'.
Proof. intros (b & p & ->). split; [done|]. by intros [[[] ?] ?]. Qed.

Lemma prepare_keeps f (w : world H) :
  wf_call (CPrepare f) -> wp (prepare_filter f) w (fun _ w' => keeps (w_self w) (w_self w')).
Proof.
  intros [Hfield Hfits]. unfold prepare_filter. destruct (filter_type f); client_steps; [done| |done].
  destruct (String.eqb_spec (load_path (w_self w)) "bulk"); client_steps; [done|].
  destruct (py_int (int_value f)) as [v|e]; client_steps; [|done].
  split; [done|]. intros _. split; [|done]. split; [|by apply Hfits].
  split; [done|]. intros x Hx. injection Hx as <-. by apply num_ge_plain.
Qed.

Lemma call_typed c (w : world H) :
  ready (w_self w) -> wf_call c ->
  sends (framed (w_self w)) w (run_call c w) /\ keeps (w_self w) (w_self (run_call c w)).
Proof.
  intros Hr Hc. destruct c as [e m| |f|q k]; cbn [run_call].
  - split; [by apply insert_sends|]. apply keeps_bulk, insert_frame.
  - split; [by apply optimize_sends|]. pose proof (optimize_frame w) as Hf. apply wp_run in Hf. by rewrite Hf.
  - split; [|by apply prepare_keeps]. apply sends_refl. pose proof (prepare_frame f w) as Hf. by apply wp_run in Hf as [-> _].
  - split; [by apply search_sends|]. apply keeps_query, search_frame.
Qed.

Lemma sends_same c c' (w w' : world H) : same_target c c' -> sends (framed c) w w' -> sends (framed c') w w'.
Proof. intros Ht. apply sends_mono. intros rq. by apply framed_same. Qed.

Lemma calls_typed cs (w : world H) :
  ready (w_self w) -> Forall wf_call cs -> sends (framed (w_self w)) w (run_calls cs w).
Proof.
  intros Hr Hcs. revert w Hr. induction Hcs as [|c cs Hc _ IH]; intros w Hr; [by apply sends_refl|].
  destruct (call_typed c w Hr Hc) as [Hs [Ht Hk]]. eapply sends_trans; [exact Hs|].
  eapply sends_same; [|apply IH; by apply Hk].
  destruct Ht as (Hb & Hn & Hl & Ha). split_and!; congruence.
Qed.
End Sends.
