(* ===== verification/RefServer.v ===== *)
(** * Reference servers

    Concrete servers for the interfaces of {!Server}: they show that the contracts can be met,
    and the theorems are applied to them.  [serving b] stores what it is sent and answers
    searches; it speaks the binary wires when [b] is true, and otherwise refuses every binary
    body with 400.  [failing] stores what it is sent until its requests run out, then either
    answers 500 or drops the connection. *)

From S2P Require Import Prelude Bytes Text Float64 F32 PyVal JsonRead Numpy Http Config Wire Client Server ClientFacts.

Definition reply (status : Z) (text : string) (json : result pyval) : response :=
  {| status_code := status; r_text := text; r_json := json |}.
Definition reply_200 : response := reply 200 "ok" (Ok (VDict [])).
Definition reply_400 : response := reply 400 "invalid character" (Raise ValueError).
Definition reply_500 : response := reply 500 "internal error" (Raise ValueError).

(** [raise_for_status] as [requests] documents it. *)
Definition ref_raise_for_status (r : response) : result unit :=
  if (400 <=? status_code r) && (status_code r <? 600) then Raise (HTTPError (status_code r)) else Ok tt.

Record serving (binary : bool) := Serving { sv_points : list point }.
Arguments Serving {_} _.
Arguments sv_points {_} _.

(** The ids of the first [k] points, as the results of a search. *)
Definition search_reply (pts : list point) (sq : search_query) : response :=
  reply 200 "ok" (Ok (VDict [("results",
    VList ((fun p => VDict [("id", VInt (pt_id p))]) <$> take (Z.to_nat (sq_k sq)) pts))])).

Definition serving_send {binary} (rq : request) (h : serving binary) : result response * serving binary :=
  if is_raw rq && negb binary then (Ok reply_400, h)
  else (Ok match request_query rq with
           | Some sq => search_reply (sv_points h) sq
           | None => reply_200
           end,
        Serving (sv_points h ++ default [] (request_points rq))).

#[export] Instance serving_http binary : Http (serving binary) :=
  { http_send := serving_send; http_raise_for_status := ref_raise_for_status }.

Lemma serving_send_eq binary rq (h : serving binary) :
  (is_raw rq = true -> binary = true) ->
  http_send rq h = (Ok match request_query rq with
                       | Some sq => search_reply (sv_points h) sq
                       | None => reply_200
                       end,
                    Serving (sv_points h ++ default [] (request_points rq))).
Proof.
  intros Hb. cbn. unfold serving_send. destruct (is_raw rq); [|done].
  destruct binary; [done|by discriminate (Hb eq_refl)].
Qed.

Lemma serving_send_refused binary rq (h : serving binary) :
  is_raw rq = true -> binary = false -> http_send rq h = (Ok reply_400, h).
Proof. intros E ->. cbn. unfold serving_send. by rewrite E. Qed.

Lemma serving_reply_200 (pts : list point) (o : option search_query) :
  status_code match o with Some sq => search_reply pts sq | None => reply_200 end = 200.
Proof. by destruct o. Qed.

#[export] Program Instance serving_points binary : PointServer (serving binary) := {| accepted := sv_points |}.
Next Obligation.
  intros binary rq pts h r h' Hpts Hsend Hr.
  destruct (is_raw rq && negb binary) eqn:E.
  - apply andb_true_iff in E as [E ->%negb_true_iff].
    rewrite serving_send_refused in Hsend by done. by simplify_eq.
  - rewrite serving_send_eq, Hpts in Hsend; [by simplify_eq|].
    intros Hraw. rewrite Hraw in E. by destruct binary.
Qed.
Next Obligation.
  intros binary rq bs h r h' Hraw Hsend Hr.
  assert (is_raw rq = true) as E by (unfold is_raw; by rewrite Hraw).
  destruct binary.
  - rewrite serving_send_eq in Hsend by done. simplify_eq.
    unfold unsupported in Hr. by rewrite serving_reply_200 in Hr.
  - rewrite serving_send_refused in Hsend by done. by simplify_eq.
Qed.

#[export] Program Instance serving_working binary : WorkingServer (serving binary) :=
  {| speaks_binary := binary |}.
Next Obligation.
  intros binary rq pts h r h' Hpts Hb Hsend. rewrite serving_send_eq in Hsend by done. simplify_eq.
  eexists. split; [done|]. apply serving_reply_200.
Qed.
Next Obligation.
  intros binary rq h r h' Hraw Hb Hsend. rewrite serving_send_refused in Hsend by done. simplify_eq.
  by eexists.
Qed.

#[export] Program Instance serving_search : SearchServer (serving true) :=
  {| search_answer h sq := search_reply (sv_points h) sq |}.
Next Obligation. intros rq sq h Hsq. eexists. by rewrite serving_send_eq, Hsq by done. Qed.

(** ** A server that fails *)

Record failing := Failing { fl_points : list point; fl_left : nat; fl_drops : bool }.

Definition failing_send (rq : request) (h : failing) : result response * failing :=
  match fl_left h with
  | O => (if fl_drops h then Raise (ConnectionError "reset by peer") else Ok reply_500, h)
  | S n => (Ok reply_200, Failing (fl_points h ++ default [] (request_points rq)) n (fl_drops h))
  end.

#[export] Instance failing_http : Http failing :=
  { http_send := failing_send; http_raise_for_status := ref_raise_for_status }.

#[export] Program Instance failing_points : PointServer failing := {| accepted := fl_points |}.
Next Obligation.
  intros rq pts [ps [|n] []] r h' Hpts Hsend Hr; cbn in Hsend; rewrite ?Hpts in Hsend; by simplify_eq.
Qed.
Next Obligation. intros rq bs [ps [|n] []] r h' Hraw Hsend Hr; cbn in Hsend; by simplify_eq. Qed.

Lemma ref_raise_ok r : status_code r < 400 \/ 600 <= status_code r -> ref_raise_for_status r = Ok tt.
Proof.
  intros Hr. unfold ref_raise_for_status.
  destruct (Z.leb_spec 400 (status_code r)), (Z.ltb_spec (status_code r) 600); try done; lia.
Qed.
Lemma ref_raise_err r : 400 <= status_code r < 600 ->
  ref_raise_for_status r = Raise (HTTPError (status_code r)).
Proof.
  intros Hr. unfold ref_raise_for_status.
  destruct (Z.leb_spec 400 (status_code r)), (Z.ltb_spec (status_code r) 600); try done; lia.
Qed.

#[export] Instance serving_laws binary : HttpLaws (serving binary).
Proof.
  split; [apply ref_raise_ok|apply ref_raise_err|]. intros rq h h'. cbn. unfold serving_send.
  by destruct (is_raw rq && negb binary).
Qed.
#[export] Instance failing_laws : HttpLaws failing.
Proof.
  split; [apply ref_raise_ok|apply ref_raise_err|]. intros rq [ps [|n] []] h'; discriminate.
Qed.

(** ** A client, and its environment before it sends anything *)

Definition fresh_env {H} (h : H) : env H :=
  {| env_http := h; env_log := []; env_answers := []; env_next := 0; env_open := []; env_messages := [] |}.

Definition fresh_client (load_path : string) (binary binary_query : bool) : rostam :=
  {| dim := 2; collection_name := "c"; base := "http://127.0.0.1:8080"; api_key := None;
     load_path := load_path; query_filter := None; binary := binary; binary_proven := false;
     binary_query := binary_query; binary_query_proven := false; filter_blob := [];
     cur_session := None |}.

Definition start {H} (c : rostam) (h : H) : world H := {| w_self := c; w_env := fresh_env h |}.

(** A small load: two points of two dimensions. *)
Definition demo_metadata : list pyval := [VInt 7; VInt 8].
Definition demo_ids : list Z := [7; 8].
Definition demo_vectors : list (list float) := [[f_of_ratio 3 2; f_of_Z 2]; [f_of_ratio 1 4; f_of_Z (-3)]].
Definition demo_rows : list (list Z) := np_float32_rows demo_vectors.

Lemma demo_ids_ok : _to_ints demo_metadata = Ok demo_ids.
Proof. done. Qed.
Lemma demo_rows_ok : _as_f32 demo_vectors = Ok (f32_matrix 2 demo_rows).
Proof. by vm_compute. Qed.
Lemma demo_load : load 2 demo_ids demo_rows.
Proof.
  split; [done| |by repeat constructor| |done].
  - apply (bool_decide_unpack _). by vm_compute.
  - apply (bool_decide_unpack _). by vm_compute.
Qed.

(** A filtered case, and one without a filter. *)
Definition demo_filter : Filter := {| filter_type := NumGE; int_field := "id"; int_value := VInt 8 |}.
Definition demo_unfiltered : Filter := {| filter_type := NonFilter; int_field := ""; int_value := VNone |}.
