(* ===== verification/ClientProps.v ===== *)
(** * What the client guarantees

    The properties of class [Rostam]: loading, the two wires and their fallback, searching,
    filters, sessions and construction.  Each is proved against the interfaces of {!Server}
    and applied to a server of {!RefServer}. *)

From S2P Require Import Prelude Bytes Text Float64 F32 PyVal JsonRead Numpy Http Config Wire Client Server ClientFacts Sessions RefServer.

(** ** Loading *)

Section Loading.
Context {H : Type} {HT : Http H} {NP : Numpy} {NL : NumpyLaws NP} {PS : PointServer H}.

(** C2: whatever the server answers, a load is honest about what was stored.  If
    [insert_embeddings] returns [(n, None)], then the server has taken exactly the [n] points
    asked for, each once and in order, after the ones it had; a chunk that was refused in
    binary and sent again as JSON counts once.  If it returns [(k, err)] from a status, then
    all points before [k] were taken when the request carrying the chunk at [k] was answered
    with a status other than 200, and [err] reports that answer; the only other failure is
    [(0, exception)].  No [Exception] escapes. *)
Theorem insert_exactly_once e m d ids rows (w : world H) :
  _to_ints m = Ok ids -> _as_f32 e = Ok (f32_matrix d rows) -> load d ids rows ->
  wp (insert_embeddings e m) w
    (load_outcome w (chunk_points (stores_payload (w_self w)) ids rows)).
Proof. apply insert_spec. Qed.
End Loading.

Lemma insert_exactly_once_witness :
  let w := start (fresh_client "payload" true true) (Failing [] 0 false) in
  wp (insert_embeddings demo_vectors demo_metadata) w (load_outcome w (chunk_points true demo_ids demo_rows)) /\
  outcome (insert_embeddings demo_vectors demo_metadata) w = Ok (0%nat, Some (insert_failed 0 reply_500)).
Proof.
  split; [|by vm_compute].
  apply (insert_exactly_once demo_vectors demo_metadata 2 demo_ids demo_rows
    (start (fresh_client "payload" true true) (Failing [] 0 false))).
  - apply demo_ids_ok.
  - apply demo_rows_ok.
  - apply demo_load.
Defined.

Section Working.
Context {H : Type} {HT : Http H} {NP : Numpy} {NL : NumpyLaws NP} {PS : PointServer H} {WS : WorkingServer H}.

(** C3: against a server in working order, whether or not it speaks the binary wire, a load
    succeeds: it returns [(n, None)] with every point taken, in one request per chunk of
    1000, plus a single one when the server turns out not to speak the binary wire, after
    which the client no longer tries it. *)
Theorem insert_completes e m d ids rows (w : world H) :
  _to_ints m = Ok ids -> _as_f32 e = Ok (f32_matrix d rows) -> load d ids rows ->
  ids <> [] -> honest w ->
  let run := insert_embeddings e m in
  let w' := after run w in
  outcome run w = Ok (length ids, None) /\
  taken w' = taken w ++ chunk_points (stores_payload (w_self w)) ids rows /\
  binary (w_self w') = binary (w_self w) && speaks_binary /\
  length (env_log (w_env w')) =
    (length (env_log (w_env w)) + load_chunks (length ids) + (if falls_back w then 1 else 0))%nat.
Proof.
  intros Hids Hrows Hload Hne Hhon run w'. subst run w'.
  pose proof (insert_works e m d ids rows w Hids Hrows Hload Hhon) as Hw.
  apply wp_run in Hw as (-> & _ & Htak & Hbin & Hlog). split; [done|].
  pose proof (load_chunks_pos _ Hne) as Hpos. pose proof (load_chunks_cover (length ids)) as Hcov.
  rewrite (proj2 (Nat.ltb_lt _ _) Hpos) in Hbin, Hlog.
  rewrite Htak, take_ge by (rewrite (load_points _ _ _ _ Hload); lia). done.
Qed.
End Working.

Lemma insert_completes_witness :
  let w := start (fresh_client "bulk" true true) (Serving [] : serving false) in
  let run := insert_embeddings demo_vectors demo_metadata in
  let w' := after run w in
  outcome run w = Ok (2%nat, None) /\ taken w' = [] ++ chunk_points false demo_ids demo_rows /\
  binary (w_self w') = false /\ length (env_log (w_env w')) = (0 + load_chunks 2 + 1)%nat.
Proof.
  refine (insert_completes demo_vectors demo_metadata 2 demo_ids demo_rows
    (start (fresh_client "bulk" true true) (Serving [] : serving false))
    demo_ids_ok demo_rows_ok demo_load _ _); discriminate.
Defined.

(** ** The two bulk wires *)

Section BulkWires.
Context {NP : Numpy} {NL : NumpyLaws NP}.

(** C6: round trip of the RVB1 wire.  The body [_binary_body] builds for a chunk, read back
    as the format comment says, has the two flags and the dimension given, the ids and the
    vectors row by row bit for bit, and one payload per row exactly when payloads are asked
    for. *)
Theorem rvb1_roundtrip d ids rows upsert payloads :
  wire_chunk d ids rows ->
  exists bs, _binary_body ids (f32_matrix d rows) upsert payloads = Ok bs /\
    p_run rvb1_parse bs =
    Some {| rvb1_payloads := payloads; rvb1_upsert := upsert; rvb1_dim := Z.of_nat d;
            rvb1_rows := zip ids rows; rvb1_pays := if payloads then id_payload <$> ids else [] |}.
Proof. apply binary_body_parse. Qed.

(** C7: the two bulk wires say the same.  For a chunk of numbers, the points a server decodes
    from the binary body and from the JSON body are equal, vectors bit for bit and metadata
    included: falling back changes nothing of what is stored. *)
Theorem bulk_wires_agree d ids rows upsert payloads url auth headers timeout :
  wire_chunk d ids rows -> finite_rows rows ->
  exists bs, _binary_body ids (f32_matrix d rows) upsert payloads = Ok bs /\
    request_points (Build_request POST url auth headers (RawBody bs) timeout) =
    request_points (Build_request POST url auth headers
      (JsonBody (_json_body ids (f32_matrix d rows) payloads upsert)) timeout).
Proof.
  intros Hc Hf. destruct (binary_body_parse d ids rows upsert payloads Hc) as (bs & Hbs & _).
  exists bs. split; [done|].
  by rewrite (binary_request_points d ids rows upsert payloads), json_request_points.
Qed.
End BulkWires.

Lemma demo_chunk : wire_chunk 2 demo_ids demo_rows.
Proof. split; try (apply (bool_decide_unpack _); by vm_compute); done. Qed.

Lemma rvb1_roundtrip_witness :
  exists bs, _binary_body demo_ids (f32_matrix 2 demo_rows) true true = Ok bs /\
    p_run rvb1_parse bs =
    Some {| rvb1_payloads := true; rvb1_upsert := true; rvb1_dim := 2;
            rvb1_rows := zip demo_ids demo_rows; rvb1_pays := id_payload <$> demo_ids |}.
Proof. refine (rvb1_roundtrip 2 demo_ids demo_rows true true demo_chunk). Defined.

Lemma bulk_wires_agree_witness :
  exists bs, _binary_body demo_ids (f32_matrix 2 demo_rows) true true = Ok bs /\
    request_points (Build_request POST "u" None [] (RawBody bs) 600) =
    request_points (Build_request POST "u" None []
      (JsonBody (_json_body demo_ids (f32_matrix 2 demo_rows) true true)) 600).
Proof.
  refine (bulk_wires_agree 2 demo_ids demo_rows true true "u" None [] 600 demo_chunk _).
  apply (load_finite 2 demo_ids). apply demo_load.
Defined.

(** ** Searching *)

Section QueryWires.
Context {NP : Numpy} {NL : NumpyLaws NP}.

(** C8: round trip of the RVQ1 wire.  The body [_query_body] builds, read back as the format
    comment says, has the [k] given, the query rounded to float32, zero read-consistency,
    opacity and staleness fields, and the filter's bytes exactly when there is a filter. *)
Theorem rvq1_roundtrip query k blob :
  is_u 4 k -> is_u 4 (Z.of_nat (length query)) -> is_u 4 (Z.of_nat (length blob)) ->
  exists bs, _query_body query k blob = Ok bs /\
    p_run rvq1_parse bs =
      Some {| rvq1_k := k; rvq1_rc := 0; rvq1_opa := 0; rvq1_staleness := 0;
              rvq1_query := np_float32_row query;
              rvq1_filter := match blob with [] => None | _ => Some blob end |}.
Proof. apply query_body_parse. Qed.
End QueryWires.

Lemma rvq1_roundtrip_witness :
  exists bs, _query_body [f_of_Z 1; f_of_ratio 1 2] 10 [x7b; x7d] = Ok bs /\
    p_run rvq1_parse bs =
      Some {| rvq1_k := 10; rvq1_rc := 0; rvq1_opa := 0; rvq1_staleness := 0;
              rvq1_query := np_float32_row [f_of_Z 1; f_of_ratio 1 2]; rvq1_filter := Some [x7b; x7d] |}.
Proof. apply (rvq1_roundtrip [f_of_Z 1; f_of_ratio 1 2] 10 [x7b; x7d]); done. Defined.

Section Searching.
Context {H : Type} {HT : Http H} {NP : Numpy} {NL : NumpyLaws NP} {SS : SearchServer H}.

(** C9: a search means the same on both wires.  Against a server that answers by the query it
    decodes, a search returns the ids that the server's answer to the wanted query (the
    vector in float32, [k], the filter in force) holds, or raises what reading that answer
    raises: whether the client speaks binary, has proven it, or speaks JSON. *)
Theorem search_means_query query k (w : world H) :
  is_u 4 k -> is_u 4 (Z.of_nat (length query)) ->
  filter_in_step (w_self w) -> is_u 4 (Z.of_nat (length (filter_blob (w_self w)))) ->
  let answer := search_answer (env_http (w_env w)) (wanted query k (query_filter (w_self w))) in
  (binary_query (w_self w) = true -> unsupported answer = false) ->
  outcome (search_embedding query k) w = answer_ids answer.
Proof. intros Hk Hq Hf Hb answer Ha. by apply (search_spec query k w Hk Hq Hf Hb Ha). Qed.
End Searching.

(** A client with two points in its server, in the middle of a filtered case. *)
Definition demo_server : serving true := Serving (chunk_points true demo_ids demo_rows).
Definition demo_filtered (binary_query : bool) : world (serving true) :=
  after (prepare_filter demo_filter) (start (fresh_client "payload" true binary_query) demo_server).

Lemma search_means_query_witness :
  outcome (search_embedding [f_of_Z 1; f_of_Z 2] 1) (demo_filtered true) =
  answer_ids (search_answer demo_server (wanted [f_of_Z 1; f_of_Z 2] 1 (Some (num_ge_filter "id" 8)))).
Proof.
  refine (search_means_query [f_of_Z 1; f_of_Z 2] 1 (demo_filtered true) _ _ _ _ _).
  - done.
  - done.
  - split; [done|]. intros f Hf. injection Hf as <-. reflexivity.
  - done.
  - done.
Defined.

Example search_both_wires :
  outcome (search_embedding [f_of_Z 1; f_of_Z 2] 1) (demo_filtered true) = Ok [7] /\
  outcome (search_embedding [f_of_Z 1; f_of_Z 2] 1) (demo_filtered false) = Ok [7].
Proof. by vm_compute. Qed.

(** ** Sequences of calls *)

Section Calls.
Context {H : Type} {HT : Http H} {NP : Numpy}.
Implicit Types w : world H.

(** C10: the discipline of the two wires.  Over any sequence of calls, whatever the server
    answers, the loads' requests and their answers run the automaton of the bulk wire from its
    mode before to its mode after, and the searches' those of the query wire.  In the automaton
    a binary request leaves an unsettled wire unsettled only if it fails, proves it if its answer
    is a success (200 for a load, one that [raise_for_status] lets pass for a search), and is
    followed by JSON only if its answer says that the wire is not supported.  So, whatever the
    client remembers: after the first binary success on a wire every later request on it is
    binary, after the first JSON request every later one is JSON, and neither wire's rejection
    touches the other.  The client logs one warning for each wire it gives up, quoting an answer
    that says that the wire is not supported, and none otherwise. *)
Theorem wires_discipline cs w :
  let loads := wire_trace is_insert cs w in
  let searches := wire_trace is_search cs w in
  let w' := run_calls cs w in
  wire_run bulk_good (bulk_mode (w_self w)) loads (bulk_mode (w_self w')) /\
  wire_run query_good (query_mode (w_self w)) searches (query_mode (w_self w')) /\
  ForallOrdPairs (settles bulk_good) loads /\ ForallOrdPairs (settles query_good) searches /\
  announced w w'.
Proof.
  intros loads searches w'.
  pose proof (calls_wire _ _ _ call_bulk cs w) as Hb. pose proof (calls_wire _ _ _ call_query cs w) as Hq.
  split_and!; [done|done|by eapply wire_run_settles|by eapply wire_run_settles|apply calls_announced].
Qed.

(** The requests of a client that begins with an unsettled bulk wire: binary ones that settle
    nothing; then, if one succeeds, binary ones for good; and if one is refused as not supported,
    JSON ones for good. *)
Theorem wires_settle cs w :
  bulk_mode (w_self w) = Probing ->
  let t := wire_trace is_insert cs w in
  let m' := bulk_mode (w_self (run_calls cs w)) in
  Forall (probe bulk_good) t /\ m' = Probing \/
  (exists ps x bs, t = ps ++ x :: bs /\ Forall (probe bulk_good) ps /\ in_binary x /\ proves bulk_good x.2 /\
     Forall in_binary bs /\ m' = Proven) \/
  (exists ps x y js, t = ps ++ x :: y :: js /\ Forall (probe bulk_good) ps /\ in_binary x /\ rejects x.2 /\
     in_json y /\ Forall in_json js /\ m' = Fallback).
Proof.
  intros Hm t m'. pose proof (wire_run_shape _ _ _ _ (calls_wire _ _ _ call_bulk cs w)) as Hs. by rewrite Hm in Hs.
Qed.

(** C11: the two copies of the filter stay in step.  Over any sequence of calls, the bytes the
    binary wire sends as the filter are [json.dumps] of the filter the JSON wire sends, none
    when there is none; and a client on the [bulk] load path, which stores no payload, never
    has a filter. *)
Theorem filter_stays_sound cs w :
  filter_sound (w_self w) -> filter_sound (w_self (run_calls cs w)).
Proof. apply calls_filter_sound. Qed.
End Calls.

Lemma filter_stays_sound_witness :
  filter_sound (w_self (run_calls
    [CPrepare demo_filter; CSearch [f_of_Z 1; f_of_Z 2] 1; CPrepare demo_unfiltered]
    (start (fresh_client "payload" true true) demo_server))).
Proof.
  refine (filter_stays_sound _ (start (fresh_client "payload" true true) demo_server) _).
  split; [done|discriminate].
Defined.



(** ** Sessions *)

Section Sessions.
Context {H : Type} {HT : Http H} {NP : Numpy}.
Implicit Types w : world H.

(** C26: a worker's [with client.init()] is balanced.  For any body that uses the client only
    through its four methods and by reading its attributes, however it chooses, repeats, catches
    and raises: the outcome of the body passes through unchanged, whether it returns or raises,
    the one session that was opened is closed, the sessions open are those that were, and the
    object is left without a session. *)
Theorem init_balanced {A} (body : M (world H) A) w :
  client_code A body -> numbered (w_env w) ->
  let w' := after (init body) w in
  outcome (init body) w = outcome body (entered w) /\
  cur_session (w_self w') = None /\ env_open (w_env w') = env_open (w_env w).
Proof.
  intros Hbody Hn w'. destruct (entered_session w) as (s & Hs & _).
  destruct (init_spec body w Hn (client_code_inside _ _ Hbody _ s Hs)) as (Hr & Hc & Ho & _).
  exact (conj Hr (conj Hc Ho)).
Qed.

(** Another [init] is not such a body: [init] does not nest.  Entering it again inside its own
    body closes the inner session and then, having forgotten the outer one, raises
    [AttributeError] in place of whatever the body did, with the outer session left open. *)
Theorem init_nested {A} (body : M (world H) A) w :
  client_code A body -> numbered (w_env w) ->
  outcome (init (init body)) w = Raise AttributeError /\
  env_open (w_env (after (init (init body)) w)) = env_next (w_env w) :: env_open (w_env w).
Proof.
  intros Hbody Hn. set (inner := init body).
  pose proof (entered_numbered w Hn) as Hn'.
  destruct (entered_session (entered w)) as (s & Hs & _).
  destruct (init_spec body (entered w) Hn' (client_code_inside _ _ Hbody _ s Hs)) as (_ & Hc & Ho & _).
  fold inner in Hc, Ho. apply (wp_init inner w (fun r w' => r = Raise AttributeError /\
    env_open (w_env w') = env_next (w_env w) :: env_open (w_env w))).
  apply wp_run. by rewrite Hc.
Qed.

(** Outside [init] a search works, and leaks: it opens a session of its own, which stays
    open after it returns or raises, one more at every call. *)
Theorem search_outside_leaks q k w :
  cur_session (w_self w) = None ->
  env_open (w_env (after (search_embedding q k) w)) = env_next (w_env w) :: env_open (w_env w).
Proof.
  intros Hs. pose proof (search_sessions q k w) as Hl. apply wp_run in Hl as [_ ->].
  unfold env_sess. by rewrite Hs.
Qed.
End Sessions.

(** A worker that searches, and searches again or gives up by what it found. *)
Definition demo_worker {H} {HT : Http H} {NP : Numpy} : M (world H) (list Z) :=
  ids ← search_embedding [f_of_Z 1; f_of_Z 2] 1;
  if bool_decide (ids = [7]) then search_embedding [f_of_Z 1; f_of_Z 2] 2 else raise ValueError.

Lemma demo_worker_code {H} {HT : Http H} {NP : Numpy} : client_code _ demo_worker.
Proof.
  apply code_bind; [apply code_search|]. intros ids. case_bool_decide; [apply code_search|].
  apply (code_result _ (Raise ValueError)).
Qed.

Lemma init_balanced_witness :
  let w := start (fresh_client "payload" true true) demo_server in
  outcome (init demo_worker) w = Ok [7; 8] /\ env_open (w_env (after (init demo_worker) w)) = [].
Proof.
  pose proof (init_balanced demo_worker (start (fresh_client "payload" true true) demo_server)
    demo_worker_code (List.Forall_nil _)) as (Hr & _ & Ho).
  split; [|exact Ho]. etransitivity; [exact Hr|]. by vm_compute.
Defined.

Lemma init_nested_witness :
  let w := start (fresh_client "payload" true true) demo_server in
  outcome (init (init demo_worker)) w = Raise AttributeError.
Proof.
  exact (proj1 (init_nested demo_worker (start (fresh_client "payload" true true) demo_server)
    demo_worker_code (List.Forall_nil _))).
Defined.

Lemma search_outside_leaks_witness :
  env_open (w_env (after (search_embedding [f_of_Z 1; f_of_Z 2] 1)
    (start (fresh_client "payload" true true) demo_server))) = [0%nat].
Proof.
  exact (search_outside_leaks [f_of_Z 1; f_of_Z 2] 1
    (start (fresh_client "payload" true true) demo_server) eq_refl).
Defined.

(** ** Construction *)

Section Construction.
Context {H : Type} {HT : Http H} {HL : HttpLaws H} {NP : Numpy}.

(** C27: construction.  With a known load path, [__init__] either returns the client of the
    settings with its session closed, having sent the deletion (when an old collection is to
    be dropped) and one creation request whose answer was 200 or 201, or, when nothing is to
    be dropped, said that the collection exists; or it raises, and leaves its session open. *)
Theorem construct_outcome dim db url name c drop_old (e : env H) :
  numbered e -> db_url db = Some url -> known_load_path (chosen_load_path db) = true ->
  wp (__init__ dim db c name drop_old) e (built dim db url name c drop_old e).
Proof. apply construct_spec. Qed.

(** An unknown load path is refused before anything is sent or opened. *)
Theorem construct_unknown_path dim db url name c drop_old (e : env H) :
  db_url db = Some url -> known_load_path (chosen_load_path db) = false ->
  __init__ dim db c name drop_old e =
  (Raise (RuntimeError ("unknown load_path " +:+ py_repr (chosen_load_path db))), e).
Proof. apply construct_bad_path. Qed.

(** The command line cannot run a filter case.  Whatever its options, a client built
    from them is on the [bulk] load path, so [prepare_filter] refuses the numeric filter. *)
Theorem cli_refuses_filters p dim name drop_old (e e' : env H) c f :
  numbered e ->
  __init__ dim (to_dict (RostamHNSW p).1) (RostamHNSW p).2 name drop_old e = (Ok c, e') ->
  filter_type f = NumGE ->
  exists msg, outcome (prepare_filter f) {| w_self := c; w_env := e' |} = Raise (RuntimeError msg).
Proof.
  intros Hn Hc Hf.
  pose proof (construct_spec dim (to_dict (RostamHNSW p).1) (p_url p) name (RostamHNSW p).2 drop_old e
    Hn eq_refl eq_refl) as Hw.
  apply wp_run in Hw. unfold outcome, after in Hw. rewrite Hc in Hw. destruct Hw as [-> _].
  eexists. unfold prepare_filter. rewrite Hf. reflexivity.
Qed.
End Construction.

(** The first environment of a process. *)
Definition demo_env : env (serving true) := fresh_env (Serving []).

Lemma construct_outcome_witness :
  wp (__init__ 2 (to_dict RostamConfig_default) RostamHNSWConfig_default "c" true) demo_env
    (built 2 (to_dict RostamConfig_default) default_url "c" RostamHNSWConfig_default true demo_env).
Proof.
  refine (construct_outcome 2 (to_dict RostamConfig_default) default_url "c" RostamHNSWConfig_default true
    demo_env _ _ _); [constructor|done|done].
Defined.

Lemma construct_unknown_path_witness :
  let db := {| db_url := Some "http://h"; db_api_key := None; db_load_path := Some "stream";
               db_binary_wire := None; db_binary_query := None |} in
  __init__ 2 db RostamHNSWConfig_default "c" true demo_env =
  (Raise (RuntimeError "unknown load_path 'stream'"), demo_env).
Proof.
  exact (construct_unknown_path 2
    {| db_url := Some "http://h"; db_api_key := None; db_load_path := Some "stream";
       db_binary_wire := None; db_binary_query := None |} "http://h" "c" RostamHNSWConfig_default true
    demo_env eq_refl eq_refl).
Defined.

(** What the constructor returns for the command line's defaults. *)
Definition demo_built : result rostam * env (serving true) :=
  __init__ 2 (to_dict (RostamHNSW cli_defaults).1) (RostamHNSW cli_defaults).2 "c" true demo_env.

Lemma cli_refuses_filters_witness :
  match demo_built with
  | (Ok c, e) => exists msg, outcome (prepare_filter demo_filter) {| w_self := c; w_env := e |} = Raise (RuntimeError msg)
  | _ => False
  end.
Proof.
  refine (cli_refuses_filters cli_defaults 2 "c" true demo_env _ _ demo_filter _ _ _);
    [constructor|reflexivity|reflexivity].
Defined.

(** What an exception hides.  When the connection breaks in the middle of a load,
    [insert_embeddings] reports that nothing was inserted, although the chunks before the break
    are stored: here the first 1000 of 1001 points. *)
Theorem insert_exception_forgets :
  let w := start (fresh_client "bulk" true true) (Failing [] 1 true) in
  let run := insert_embeddings (replicate 1001 [f_of_Z 1]) ((VInt ∘ Z.of_nat) <$> seq 0 1001) in
  outcome run w = Ok (0%nat, Some (ConnectionError "reset by peer")) /\
  map pt_id (taken (after run w)) = map Z.of_nat (seq 0 1000).
Proof. by vm_compute. Qed.
