(* ===== verification/IdealProps.v ===== *)
(** * The client against its abstract specification

    {!Ideal} proves that every method of class [Rostam] does what its specification without
    wires does.  Here are the theorems for whole lives of a client, and a strict server to
    apply them to. *)

From S2P Require Import Prelude Bytes Text Float64 F32 PyVal JsonRead Numpy Http Config Wire Client Server ClientFacts Sessions RefServer Ideal Typed.

(** ** A strict server

    It takes vectors of one dimension only, replaces the points it is told to upsert, answers
    a search with the ids of its first points, and speaks each binary wire or not. *)

Record strict (bulk query : bool) := Strict { st_points : list point }.
Arguments Strict {_ _} _.
Arguments st_points {_ _} _.

Definition strict_dim : nat := 2.

(** The points kept when [new] ones are upserted. *)
Definition others (new pts : list point) : list point :=
  List.filter (fun p => negb (existsb (fun p' => pt_id p =? pt_id p') new)) pts.

Definition strict_answer {bulk query} (c : content) (h : strict bulk query) : result response * strict bulk query :=
  match c with
  | CPoints upsert pts =>
      if forallb (fun p => (length (pt_vec p) =? strict_dim)%nat) pts
      then (Ok reply_200, Strict ((if upsert then others pts (st_points h) else st_points h) ++ pts))
      else (Ok reply_400, h)
  | CQuery sq =>
      if (length (sq_vec sq) =? strict_dim)%nat then (Ok (search_reply (st_points h) sq), h) else (Ok reply_400, h)
  end.

Definition strict_send {bulk query} (rq : request) (h : strict bulk query) : result response * strict bulk query :=
  match request_content rq with
  | Some c =>
      if is_raw rq && negb (match c with CPoints _ _ => bulk | CQuery _ => query end)
      then (Ok reply_400, h) else strict_answer c h
  | None => (Ok reply_200, h)
  end.

#[export] Instance strict_http bulk query : Http (strict bulk query) :=
  { http_send := strict_send; http_raise_for_status := ref_raise_for_status }.

#[export] Program Instance strict_content bulk query : ContentServer (strict bulk query) :=
  {| speaks_bulk := bulk; speaks_query := query; content_send _ _ c h := strict_answer c h |}.
Next Obligation.
  intros bulk query rq c h _ Hm Hs. cbn. unfold strict_send. rewrite Hm.
  destruct (is_raw rq); [|done]. by rewrite Hs.
Qed.
Next Obligation.
  intros bulk query rq c h _ Hm Hr Hs. exists reply_400. cbn. unfold strict_send. by rewrite Hm, Hr, Hs.
Qed.
Next Obligation.
  intros bulk query u a c h r h' E Hr. unfold strict_answer in E.
  destruct c; case_match; simplify_eq; done.
Qed.

(** ** The theorems *)

Section Refinement.
Context {H : Type} {HT : Http H} {NP : Numpy} {NL : NumpyLaws NP} {CS : ContentServer H}.

(** C1: refinement.  Against a server that answers by what a request means, and speaks each
    binary wire or refuses it, a client in a good state refines the specification of
    {!Ideal}: over any sequence of well-formed calls, going on after exceptions, each call
    returns or raises exactly what the specification does with the same points, queries and
    filter, and the states stay in step.  The binary wires, their probes and fallbacks, the
    bytes of the filter and the sessions are invisible. *)
Theorem client_refines_ideal cs (w : world H) :
  good (w_self w) -> Forall wf_call cs ->
  let '(replies, w') := observe client_call cs w in
  observe ideal_call cs (view w) = (replies, view w') /\ good (w_self w').
Proof. intros Hg Hcs. pose proof (calls_implement cs w Hg Hcs). by destruct (observe client_call cs w). Qed.

(** C5: the two wires are settings of speed only.  Two new clients of one collection whose
    settings agree on the key and the load path, whatever they say of the binary wires, get
    the same replies and the same exceptions from the same server over any sequence of
    well-formed calls, and leave it in the same state. *)
Theorem wires_transparent dim db db' url name cs (e : env H) :
  db_api_key db = db_api_key db' -> db_load_path db = db_load_path db' -> Forall wf_call cs ->
  let '(replies, w) := observe client_call cs {| w_self := new_client dim db url name; w_env := e |} in
  let '(replies', w') := observe client_call cs {| w_self := new_client dim db' url name; w_env := e |} in
  replies = replies' /\ env_http (w_env w) = env_http (w_env w').
Proof.
  intros Hk Hl Hcs. set (w1 := Build_world _ (new_client dim db url name) e). set (w2 := Build_world _ (new_client dim db' url name) e).
  assert (view w1 = view w2) as Hv by by apply view_new_client.
  pose proof (calls_implement cs w1 (new_client_good _ _ _ _) Hcs) as [E1 _].
  pose proof (calls_implement cs w2 (new_client_good _ _ _ _) Hcs) as [E2 _].
  rewrite Hv, E2 in E1. destruct (observe client_call cs w1), (observe client_call cs w2). cbn [fst snd] in E1.
  apply pair_equal_spec in E1 as [-> Hview]. split; [done|]. exact (eq_sym (f_equal il_server Hview)).
Qed.
End Refinement.

(** A client's life: a load, a build, a filtered search, a search of another dimension, which
    the server refuses, and a last search. *)
Definition demo_life : list call :=
  [CInsert demo_vectors demo_metadata; CInsert demo_vectors demo_metadata; COptimize; CPrepare demo_filter;
   CSearch [f_of_Z 1; f_of_Z 2] 3; CSearch [f_of_Z 1] 3; CInsert [[f_of_Z 1]] [VInt 9];
   CPrepare demo_unfiltered; CSearch [f_of_Z 1; f_of_Z 2] 3].

Definition demo_one : list (list Z) := np_float32_rows [[f_of_Z 1]].
Lemma demo_one_load : load 1 [9] demo_one.
Proof.
  split; [done| |by repeat constructor| |done]; apply (bool_decide_unpack _); by vm_compute.
Qed.

Lemma demo_life_wf : Forall wf_call demo_life.
Proof.
  assert (wf_call (CInsert demo_vectors demo_metadata)) as Hdemo
    by (exists 2%nat, demo_ids, demo_rows; auto using demo_ids_ok, demo_rows_ok, demo_load).
  assert (wf_call (CInsert [[f_of_Z 1]] [VInt 9])) as Hone
    by (exists 1%nat, [9], demo_one; split; [done|]; split; [by vm_compute|apply demo_one_load]).
  repeat apply Forall_cons_2; try apply Forall_nil_2; try done.
  split; [done|]. intros v Hv. by injection Hv as <-.
Qed.

(** What the settings ask for: a collection loaded with payloads, with both binary wires or
    with neither. *)
Definition demo_db (wires : bool) : db_dict :=
  {| db_url := Some "http://h/"; db_api_key := Some "key"; db_load_path := Some "payload";
     db_binary_wire := Some wires; db_binary_query := Some wires |}.
Definition demo_strict : env (strict false true) := fresh_env (Strict []).
Definition demo_world (wires : bool) : world (strict false true) :=
  {| w_self := new_client 2 (demo_db wires) "http://h/" "c"; w_env := demo_strict |}.

Lemma client_refines_ideal_witness :
  let '(replies, w') := observe client_call demo_life (demo_world true) in
  observe ideal_call demo_life (view (demo_world true)) = (replies, view w') /\ good (H := strict false true) (w_self w').
Proof.
  pose proof (client_refines_ideal demo_life (demo_world true) (new_client_good _ _ _ _) demo_life_wf) as Hlife.
  exact Hlife.
Defined.

Lemma wires_transparent_witness :
  let '(replies, w) := observe client_call demo_life
    {| w_self := new_client 2 (demo_db true) "http://h/" "c"; w_env := demo_strict |} in
  let '(replies', w') := observe client_call demo_life
    {| w_self := new_client 2 (demo_db false) "http://h/" "c"; w_env := demo_strict |} in
  replies = replies' /\ env_http (w_env w) = env_http (w_env w').
Proof.
  pose proof (wires_transparent 2 (demo_db true) (demo_db false) "http://h/" "c" demo_life demo_strict
    eq_refl eq_refl demo_life_wf) as Hlife.
  exact Hlife.
Defined.

(** The replies are the same, and the requests are not. *)
Example demo_wires :
  (observe client_call demo_life (demo_world true)).1 =
    [Ok (Inserted (2%nat, None)); Ok (Inserted (2%nat, None)); Ok Done; Ok Done; Ok (Found [7; 8; 7]);
     Raise (HTTPError 400); Ok (Inserted (0%nat, Some (insert_failed 0 reply_400))); Ok Done; Ok (Found [7; 8; 7])] /\
  is_raw <$> env_log (w_env (observe client_call demo_life (demo_world true)).2) = [true; false; false; false; true; true; false; true] /\
  is_raw <$> env_log (w_env (observe client_call demo_life (demo_world false)).2) = [false; false; false; false; false; false; false].
Proof. by vm_compute. Qed.

(** ** Types of the requests *)

Section Types.
Context {H : Type} {HT : Http H} {NP : Numpy} {NL : NumpyLaws NP}.

(** C4: the client is well typed.  From a ready state and over any sequence of well-formed
    calls, whatever the server answers, everything the client sends is a POST with its
    credentials, with a content type exactly when the body is binary, to a route of its
    collection that takes what the body decodes to: [points/batch] and [points/bulk] a chunk
    of at most 1000 points with the metadata of the load path and the matching upsert flag,
    [points/search] a query, with no filter on the [bulk] load path, and [points/bulk/build]
    an empty body. *)
Theorem requests_typed cs (w : world H) :
  ready (w_self w) -> Forall wf_call cs ->
  exists rqs, env_log (w_env (run_calls cs w)) = env_log (w_env w) ++ rqs /\ Forall (framed (w_self w)) rqs.
Proof. apply calls_typed. Qed.
End Types.

Lemma requests_typed_witness :
  exists rqs, env_log (w_env (run_calls demo_life (demo_world true))) = [] ++ rqs /\
    Forall (framed (w_self (demo_world true))) rqs.
Proof.
  pose proof (requests_typed demo_life (demo_world true)) as Ht. apply Ht; [|apply demo_life_wf].
  by split; [split; [split|]|].
Defined.
