(* ===== verification/Sift.v ===== *)
(** * The SIFT files: [read_fvecs] and [read_ivecs] of the scripts of [sift1m]

    Every script of the directory begins with the same two readers; they are modelled once
    here, on the bytes of the file, over the numpy interface.  A row of an [fvecs] file is kept
    as float32 bit patterns, a row of an [ivecs] file as integers. *)

From S2P Require Import Prelude Bytes Float64 Env F32 Numpy.

(** The value of an [int32] element. *)
Definition s32 (w : Z) : Z := if w <? 2147483648 then w else w - 4294967296.

(** [x[:, 1:]] *)
Definition drop_column (x : list (list Z)) : list (list Z) := (fun r : list Z => drop 1 r) <$> x.

(** The elements of an [int32] array, as integers. *)
Definition int32_rows (x : list (list Z)) : list (list Z) := (fun r : list Z => s32 <$> r) <$> x.

Section Readers.
Context {NP : Numpy}.

(** [int(x[0])] *)
Definition first_int (x : list Z) : result Z :=
  match x with [] => Raise IndexError | w :: _ => Ok (s32 w) end.

Definition read_fvecs (bs : list byte) : result (list (list Z)) :=
  let x := np_fromfile_i32 bs None in
  d ← first_int x;
  rows ← np_reshape x (d + 1);
  Ok (drop_column rows).

Definition read_ivecs (bs : list byte) : result (list (list Z)) :=
  let x := np_fromfile_i32 bs None in
  d ← first_int x;
  rows ← np_reshape x (d + 1);
  Ok (int32_rows (drop_column rows)).

(** The readers are called with the path of a file. *)
Definition load_fvecs (files : file_system) (path : string) : result (list (list Z)) :=
  bs ← files path; read_fvecs bs.
Definition load_ivecs (files : file_system) (path : string) : result (list (list Z)) :=
  bs ← files path; read_ivecs bs.
End Readers.

(** Rewrites what a script's own copy of a reader returns, given what these return. *)
Ltac read_as H :=
  let T := type of H in
  match T with
  | ?load ?files ?path = _ =>
      match goal with |- context [?read files path] => change (read files path) with (load files path) end
  end; rewrite H.

(** [SIFT] of the scripts that have no setting for it *)
Definition SIFT_DIR : string := "/tmp/rostam-sift1m/sift".

(** The words of a file of vectors of dimension [d]: each row after its length. *)
Definition vecs_words (d : nat) (rows : list (list Z)) : list Z :=
  concat ((fun r : list Z => Z.of_nat d :: r) <$> rows).
Definition vecs_file (d : nat) (rows : list (list Z)) : list byte := i32_file (vecs_words d rows).

(** Rows of [d] words, [d] within the range of a length. *)
Record vecs (d : nat) (rows : list (list Z)) : Prop := {
  vecs_some : rows <> [];
  vecs_dim : Forall (fun r => length r = d) rows;
  vecs_range : Forall (Forall (is_u 4)) rows;
  vecs_length : Z.of_nat d < 2147483647
}.

(** Every vector under its number. *)
Definition numbered (base : list (list Z)) : list (Z * list Z) := zip (Z.of_nat <$> seq 0 (length base)) base.

Lemma length_numbered base : length (numbered base) = length base.
Proof. unfold numbered. rewrite length_zip_with, length_fmap, length_seq. lia. Qed.

Section Facts.
Context {NP : Numpy} {NL : NumpyLaws NP}.

Lemma s32_small z : 0 <= z < 2147483648 -> s32 z = z.
Proof. intros Hz. unfold s32. by rewrite (proj2 (Z.ltb_lt _ _)) by lia. Qed.

Lemma vecs_words_range d rows : vecs d rows -> Forall (is_u 4) (vecs_words d rows).
Proof.
  intros [_ _ Hr Hd]. unfold vecs_words. apply Forall_concat, Forall_fmap.
  eapply Forall_impl; [|exact Hr]. intros r Hw. constructor; [|done].
  unfold is_u. change (256 ^ Z.of_nat 4) with 4294967296. lia.
Qed.

Lemma first_int_words d rows : vecs d rows -> first_int (vecs_words d rows) = Ok (Z.of_nat d).
Proof.
  intros [Hne _ _ Hd]. destruct rows as [|r rows]; [done|]. cbn. f_equal. apply s32_small. lia.
Qed.

Lemma reshape_words d rows :
  vecs d rows -> np_reshape (vecs_words d rows) (Z.of_nat d + 1) = Ok ((fun r : list Z => Z.of_nat d :: r) <$> rows).
Proof.
  intros [Hne Hdim _ _]. apply np_reshape_ok; [by destruct rows|lia|].
  apply Forall_fmap. eapply Forall_impl; [|exact Hdim]. intros r Hr. cbn in *. lia.
Qed.

Lemma drop_heads d (rows : list (list Z)) : drop_column ((fun r : list Z => Z.of_nat d :: r) <$> rows) = rows.
Proof. unfold drop_column. rewrite <- list_fmap_compose. by rewrite <- (list_fmap_id rows) at 2. Qed.

Lemma read_fvecs_file d rows : vecs d rows -> read_fvecs (vecs_file d rows) = Ok rows.
Proof.
  intros Hv. unfold read_fvecs, vecs_file. rewrite np_fromfile_i32_words by by apply vecs_words_range.
  rewrite first_int_words by done. cbn [mbind result_bind]. rewrite reshape_words by done.
  cbn [mbind result_bind]. by rewrite drop_heads.
Qed.

Lemma read_ivecs_file d rows :
  vecs d rows -> read_ivecs (vecs_file d rows) = Ok (int32_rows rows).
Proof.
  intros Hv. unfold read_ivecs, vecs_file. rewrite np_fromfile_i32_words by by apply vecs_words_range.
  rewrite first_int_words by done. cbn [mbind result_bind]. rewrite reshape_words by done.
  cbn [mbind result_bind]. by rewrite drop_heads.
Qed.

(** ** The data of a run *)

(** The directory holds the queries and the ground truth, in their formats. *)
Definition sift_data (files : file_system) (dir : string) (queries gt : list (list Z)) : Prop :=
  exists d g, vecs d queries /\ vecs g gt /\
    files (dir +:+ "/sift_query.fvecs") = Ok (vecs_file d queries) /\
    files (dir +:+ "/sift_groundtruth.ivecs") = Ok (vecs_file g gt).

(** It holds the vectors to search, of dimension [d]. *)
Definition base_data (files : file_system) (dir : string) (d : nat) (base : list (list Z)) : Prop :=
  vecs d base /\ files (dir +:+ "/sift_base.fvecs") = Ok (vecs_file d base).

Lemma load_data files dir queries gt :
  sift_data files dir queries gt ->
  load_fvecs files (dir +:+ "/sift_query.fvecs") = Ok queries /\
  load_ivecs files (dir +:+ "/sift_groundtruth.ivecs") = Ok (int32_rows gt).
Proof.
  intros (d & g & Hq & Hg & Fq & Fg). unfold load_fvecs, load_ivecs. rewrite Fq, Fg.
  split; [by apply (read_fvecs_file d)|by apply (read_ivecs_file g)].
Qed.

Lemma load_base files dir d base :
  base_data files dir d base -> load_fvecs files (dir +:+ "/sift_base.fvecs") = Ok base.
Proof. intros [Hb Fb]. unfold load_fvecs. rewrite Fb. by apply (read_fvecs_file d). Qed.

Lemma data_queries files dir queries gt : sift_data files dir queries gt -> (0 < length queries)%nat.
Proof. intros (d & _ & [Hq _ _ _] & _). destruct queries; [done|cbn; lia]. Qed.

(** The dimension the scripts read off the first vector. *)
Lemma vecs_head d base : vecs d base -> length (default [] (head base)) = d.
Proof. intros [Hne Hd _ _]. destruct base as [|r base]; [done|]. by inversion Hd. Qed.
End Facts.
