(* ===== verification/Net.v ===== *)
(** * A TCP connection, as a client of the [socket] module sees it

    The connection holds the bytes that have arrived and not been read, and what the kernel
    will do with each [recv_into]: the number of bytes it hands out is its choice, between one
    and what was asked for ([sk_sched]; when the schedule is exhausted it hands out all it
    can).  With no byte left to come the peer has closed, and [recv_into] returns 0.  The peer
    accepts a connection or does not, and is then a function from what is sent to it to what it
    sends back. *)

From S2P Require Import Prelude Bytes.

Record sock := {
  sk_in : list byte;
  sk_sched : list nat;
  sk_sent : list byte;
  sk_open : bool
}.

(** What is at the other end: whether [socket.create_connection((host, port))] connects, or what it
    raises ([OSError] when the host is unknown, refuses or cannot be reached, [OverflowError] when
    there is no such port), and the reply to each [sendall]. *)
Class Peer := {
  create_connection : string -> Z -> result unit;
  peer_reply : list byte -> list byte
}.

Section Net.
Context {P : Peer}.

Definition sendall (data : list byte) : M sock unit := fun s =>
  (Ok tt, {| sk_in := sk_in s ++ peer_reply data; sk_sched := sk_sched s;
             sk_sent := sk_sent s ++ data; sk_open := sk_open s |}).

(** [recv_into(view, n)]: the bytes written to the start of the view *)
Definition recv_into (n : nat) : M sock (list byte) := fun s =>
  let k := match sk_sched s with c :: _ => Nat.min (Nat.max 1 c) n | [] => n end in
  (Ok (take k (sk_in s)),
   {| sk_in := drop k (sk_in s); sk_sched := tail (sk_sched s); sk_sent := sk_sent s; sk_open := sk_open s |}).

Definition sock_close : M sock unit := fun s =>
  (Ok tt, {| sk_in := sk_in s; sk_sched := sk_sched s; sk_sent := sk_sent s; sk_open := false |}).

Definition connected (sched : list nat) : sock :=
  {| sk_in := []; sk_sched := sched; sk_sent := []; sk_open := true |}.

Lemma wp_sendall data s (Q : result unit -> sock -> Prop) :
  Q (Ok tt) {| sk_in := sk_in s ++ peer_reply data; sk_sched := sk_sched s;
               sk_sent := sk_sent s ++ data; sk_open := sk_open s |} ->
  wp (sendall data) s Q.
Proof. done. Qed.

(** A read hands out a prefix of what is there: empty only when nothing is left. *)
Lemma wp_recv_into n s (Q : result (list byte) -> sock -> Prop) :
  (0 < n)%nat ->
  (forall k sched, (0 < k <= n)%nat ->
    Q (Ok (take k (sk_in s)))
      {| sk_in := drop k (sk_in s); sk_sched := sched; sk_sent := sk_sent s; sk_open := sk_open s |}) ->
  wp (recv_into n) s Q.
Proof.
  intros Hn HQ. unfold wp, recv_into, outcome, after; cbn [fst snd].
  destruct (sk_sched s) as [|c sched]; apply HQ; lia.
Qed.
End Net.
