(* ===== verification/TcpClient.v ===== *)
(** * The TCP client of [sift1m/rostam_py_client.py]

    The frame of a search request ([encode_search]), the reading of a response off a socket
    ([_recvn], [search]), and the grammar of both written from the script's header comment. *)

From S2P Require Import Prelude Bytes Text Float64 F32 Net.

Definition K : Z := 10.
Definition OP : list byte := encode "vector_search".
Definition COLL : list byte := encode "sift".

(** [host, port = ADDR.split(":")]: the address [connect] dials *)
Definition connect_address (ADDR : string) : result (string * Z) :=
  match str_split ":" ADDR with
  | [host; port] => p ← int_of_str port; Ok (host, p)
  | _ => Raise ValueError
  end.

Definition encode_search (query : list float) (k : Z) : result (list byte) :=
  let dim := length query in
  head ← struct_pack [FB; FB] [SInt 0; SInt (Z.of_nat (length COLL))];
  sizes ← struct_pack [FI; FI] [SInt k; SInt (Z.of_nat dim)];
  floats ← mapR pack_f32 query;
  let args := head ++ COLL ++ sizes ++ concat floats in
  op_len ← struct_pack [FB] [SInt (Z.of_nat (length OP))];
  args_len ← struct_pack [FI] [SInt (Z.of_nat (length args))];
  let body := op_len ++ OP ++ args_len ++ args in
  len ← struct_pack [FI] [SInt (Z.of_nat (length body))];
  Ok (len ++ body).

(** [struct.unpack(fmt, bs)[0]], for a format of one integer *)
Definition unpack_int (f : sfmt) (bs : list byte) : result Z :=
  args ← struct_unpack [f] bs;
  match args with SInt z :: _ => Ok z | _ => Raise StructError end.

(** [buf[i:i+len(data)] = data] *)
Definition splice (buf : list byte) (i : nat) (data : list byte) : list byte :=
  take i buf ++ data ++ drop (i + length data) buf.

Section Client.
Context {P : Peer}.

(** The loop of [_recvn]; each turn reads at least one byte, so [S n] turns are enough. *)
Fixpoint recv_loop (fuel n got : nat) (buf : list byte) : M sock (list byte) :=
  match fuel with
  | O => raise (OtherError "out of fuel")
  | S fuel =>
      if (got <? n)%nat then
        data ← recv_into (n - got);
        let r := length data in
        if Nat.eqb r 0 then raise (ConnectionError "server closed")
        else recv_loop fuel n (got + r) (splice buf got data)
      else mret buf
  end.
Definition _recvn (n : nat) : M sock (list byte) := recv_loop (S n) n 0 (replicate n x00).

(** [for _ in range(count)]: one id per record of 12 bytes, from [off] on *)
Fixpoint read_ids (count : nat) (body : list byte) (off : nat) : result (list Z) :=
  match count with
  | O => Ok []
  | S count =>
      i ← unpack_int FQ body@[off : off + 8];
      ids ← read_ids count body (off + 12);
      Ok (i :: ids)
  end.

(** [body[0]] *)
Definition first_byte (body : list byte) : result Z :=
  match body with [] => Raise IndexError | b :: _ => Ok (Z_of_byte b) end.

Definition search (frame : list byte) : M sock (list Z) :=
  _ ← sendall frame;
  head ← _recvn 4;
  blen ← lift_result (unpack_int FI head);
  body ← _recvn (Z.to_nat blen);
  status ← lift_result (first_byte body);
  if negb (status =? 0) then raise (RuntimeError ("server status " +:+ dec status))
  else
    count ← lift_result (unpack_int FI body@[5 : 9]);
    lift_result (read_ids (Z.to_nat count) body 9).
End Client.

(** ** The grammar of the header comment *)

Record search_request := {
  rq_op : list byte; rq_flags : Z; rq_coll : list byte; rq_k : Z; rq_query : list Z
}.

(** A byte string after its length, on [n] bytes. *)
Definition p_sized (n : nat) : parser (list byte) := len ← p_uint n; p_take (Z.to_nat len).

Definition p_args : parser (Z * list byte * Z * list Z) :=
  flags ← p_uint 1; coll ← p_sized 1; k ← p_uint 4; dim ← p_uint 4;
  query ← p_count (Z.to_nat dim) (p_uint 4);
  mret (flags, coll, k, query).

(** A whole frame; every length must agree with what it counts. *)
Definition search_request_parse (bs : list byte) : option search_request :=
  body ← p_run (p_sized 4) bs;
  '(op, args) ← p_run (op ← p_sized 1; args ← p_sized 4; mret (op, args)) body;
  '(flags, coll, k, query) ← p_run p_args args;
  Some {| rq_op := op; rq_flags := flags; rq_coll := coll; rq_k := k; rq_query := query |}.

(** A response: its status, and its hits as ids and float32 distances. *)
Definition hit_bytes (h : Z * Z) : list byte := be_bytes 8 h.1 ++ be_bytes 4 h.2.
Definition response_payload (hits : list (Z * Z)) : list byte :=
  be_bytes 4 (Z.of_nat (length hits)) ++ concat (hit_bytes <$> hits).
Definition response_body (status : Z) (payload : list byte) : list byte :=
  be_bytes 1 status ++ be_bytes 4 (Z.of_nat (length payload)) ++ payload.
Definition response_frame (status : Z) (payload : list byte) : list byte :=
  let body := response_body status payload in be_bytes 4 (Z.of_nat (length body)) ++ body.

(** ** Encoding *)

Lemma p_sized_app n bs rest :
  is_u n (Z.of_nat (length bs)) -> p_sized n (be_bytes n (Z.of_nat (length bs)) ++ bs ++ rest) = Some (bs, rest).
Proof. intros Hl. unfold p_sized. parse_steps. rewrite Nat2Z.id. by apply p_take_app. Qed.

Lemma p_sized_end n bs :
  is_u n (Z.of_nat (length bs)) -> p_sized n (be_bytes n (Z.of_nat (length bs)) ++ bs) = Some (bs, []).
Proof. intros Hl. pose proof (p_sized_app n bs [] Hl) as E. by rewrite app_nil_r in E. Qed.

Lemma mapR_pack_values ws :
  Forall (fun w => is_f32 w /\ is_f32_nan w = false) ws ->
  mapR pack_f32 (f32_value <$> ws) = Ok ((be_bytes 4) <$> ws).
Proof. induction 1 as [|w ws [Hw Hn] _ IH]; [done|]. cbn. by rewrite pack_f32_value, IH. Qed.

Lemma length_words ws : length (concat (be_bytes 4 <$> ws)) = (4 * length ws)%nat.
Proof. induction ws as [|w ws IH]; [done|]. cbn [fmap list_fmap concat]. rewrite length_app, length_be_bytes, IH. cbn. lia. Qed.

Lemma p_query ws rest : Forall (is_u 4) ws ->
  p_count (length ws) (p_uint 4) (concat (be_bytes 4 <$> ws) ++ rest) = Some (ws, rest).
Proof. intros Hw. apply p_count_app. intros w rest' Hin. apply p_uint_app. exact (Forall_elem _ _ _ Hw Hin). Qed.

(** The bytes of a request for [ws]. *)
Definition args_bytes (ws : list Z) (k : Z) : list byte :=
  be_bytes 1 0 ++ be_bytes 1 4 ++ COLL ++ be_bytes 4 k ++ be_bytes 4 (Z.of_nat (length ws)) ++ concat (be_bytes 4 <$> ws).
Definition body_bytes (ws : list Z) (k : Z) : list byte :=
  be_bytes 1 13 ++ OP ++ be_bytes 4 (Z.of_nat (length (args_bytes ws k))) ++ args_bytes ws k.
Definition request_bytes (ws : list Z) (k : Z) : list byte :=
  be_bytes 4 (Z.of_nat (length (body_bytes ws k))) ++ body_bytes ws k.

Lemma length_args ws k : length (args_bytes ws k) = (14 + 4 * length ws)%nat.
Proof. unfold args_bytes. rewrite !length_app, !length_be_bytes, length_words. cbn. lia. Qed.
Lemma length_body ws k : length (body_bytes ws k) = (32 + 4 * length ws)%nat.
Proof. unfold body_bytes. rewrite !length_app, !length_be_bytes, length_args. cbn. lia. Qed.

(** A query of numbers, with a [k] and a dimension that fit the wire. *)
Record search_args (ws : list Z) (k : Z) : Prop := {
  args_k : is_u 4 k;
  args_dim : 4 * Z.of_nat (length ws) + 32 < 4294967296;
  args_numbers : Forall (fun w => is_f32 w /\ is_f32_nan w = false) ws
}.

Lemma encode_search_bytes ws k : search_args ws k -> encode_search (f32_value <$> ws) k = Ok (request_bytes ws k).
Proof.
  intros [Hk Hd Hn]. unfold encode_search. rewrite length_fmap.
  cbn [struct_pack pack_one fmt_size].
  assert (is_u 4 (Z.of_nat (length ws))) by (unfold is_u; change (256 ^ Z.of_nat 4) with 4294967296; lia).
  rewrite !(pack_uint_ok 1), !(pack_uint_ok 4) by done. cbn [mbind result_bind].
  rewrite mapR_pack_values by done. cbn [mbind result_bind]. rewrite !app_nil_r, <- !app_assoc.
  fold COLL. change (length COLL) with 4%nat. change (Z.of_nat 4) with 4. fold (args_bytes ws k).
  pose proof (length_args ws k) as Ha. pose proof (length_body ws k) as Hb.
  rewrite !pack_uint_ok by (done || (unfold is_u; change (256 ^ Z.of_nat 4) with 4294967296; lia)).
  cbn [mbind result_bind]. rewrite !app_nil_r.
  change (Z.of_nat (length OP)) with 13. fold (body_bytes ws k).
  rewrite pack_uint_ok by (unfold is_u; change (256 ^ Z.of_nat 4) with 4294967296; lia).
  cbn [mbind result_bind]. by rewrite app_nil_r.
Qed.

Lemma u4_length n : Z.of_nat n < 4294967296 -> is_u 4 (Z.of_nat n).
Proof. unfold is_u. change (256 ^ Z.of_nat 4) with 4294967296. lia. Qed.

Lemma request_parse ws k :
  search_args ws k ->
  search_request_parse (request_bytes ws k) =
  Some {| rq_op := OP; rq_flags := 0; rq_coll := COLL; rq_k := k; rq_query := ws |}.
Proof.
  intros [Hk Hd Hn]. pose proof (length_args ws k) as Ha. pose proof (length_body ws k) as Hb.
  assert (Forall (is_u 4) ws) as Hws by (eapply Forall_impl; [|exact Hn]; by intros ? []).
  assert (p_run p_args (args_bytes ws k) = Some (0, COLL, k, ws)) as Hargs.
  { unfold p_run, p_args, args_bytes. parse_steps. rewrite (p_sized_app 1 COLL) by done.
    parse_steps. rewrite Nat2Z.id.
    rewrite <- (app_nil_r (concat _)). by rewrite p_query. }
  assert (p_run (op ← p_sized 1; args ← p_sized 4; mret (op, args)) (body_bytes ws k) = Some (OP, args_bytes ws k)) as Hbody.
  { unfold p_run, body_bytes. unfold mbind, parser_bind. rewrite (p_sized_app 1 OP) by done.
    by rewrite p_sized_end by (apply u4_length; lia). }
  assert (p_run (p_sized 4) (request_bytes ws k) = Some (body_bytes ws k)) as Hreq.
  { unfold p_run, request_bytes. by rewrite p_sized_end by (apply u4_length; lia). }
  unfold search_request_parse. rewrite Hreq.
  cbn [mbind option_bind]. rewrite Hbody. cbn [mbind option_bind]. by rewrite Hargs.
Qed.

(** ** Reading *)

(** What reading [n] bytes after [pre] comes to: it does not depend on how the kernel cut the
    stream. *)
Definition received (n : nat) (pre : list byte) (s : sock) (r : result (list byte)) (s' : sock) : Prop :=
  sk_sent s' = sk_sent s /\ sk_open s' = sk_open s /\
  if decide (n <= length (sk_in s))%nat
  then r = Ok (pre ++ take n (sk_in s)) /\ sk_in s' = drop n (sk_in s)
  else r = Raise (ConnectionError "server closed") /\ sk_in s' = [].

Lemma take_splice buf i data :
  (i + length data <= length buf)%nat -> take (i + length data) (splice buf i data) = take i buf ++ data.
Proof.
  intros Hl. unfold splice. rewrite app_assoc. rewrite take_app_length'; [done|].
  rewrite length_app, length_take. lia.
Qed.

Lemma length_splice buf i data :
  (i + length data <= length buf)%nat -> length (splice buf i data) = length buf.
Proof. intros Hl. unfold splice. rewrite !length_app, length_take, length_drop. lia. Qed.

Lemma recv_loop_spec fuel n got buf s :
  length buf = n -> (got <= n)%nat -> (n - got < fuel)%nat ->
  wp (recv_loop fuel n got buf) s (received (n - got) (take got buf) s).
Proof.
  revert got buf s. induction fuel as [|fuel IH]; intros got buf s Hb Hg Hf; [lia|]. cbn [recv_loop].
  destruct (Nat.ltb_spec got n) as [Hlt|Hge].
  - apply wp_bind, wp_recv_into; [lia|]. intros k sched Hk. rewrite length_take.
    destruct (Nat.eqb_spec (Nat.min k (length (sk_in s))) 0) as [Hz|Hz].
    + apply wp_raise. split_and!; [done..|]. rewrite decide_False by lia.
      split; [done|]. cbn [sk_in]. apply drop_ge. lia.
    + rewrite <- length_take. set (data := take k (sk_in s)).
      assert (length data = Nat.min k (length (sk_in s))) as Hd by apply length_take.
      assert (got + length data <= length buf)%nat as Hfit by lia.
      eapply wp_mono; [apply IH; [by rewrite length_splice|lia..]|].
      intros r s' (Hs & Ho & Hr). rewrite (take_splice _ _ _ Hfit) in Hr. cbn [sk_in sk_sent sk_open] in *.
      rewrite length_drop, Hd in Hr. split_and!; [done..|]. destruct (decide _) as [Hle|Hle] in Hr.
      * rewrite decide_True by lia. destruct Hr as [-> Hin].
        assert (Nat.min k (length (sk_in s)) = k) as Hmin by lia. rewrite Hmin in *.
        rewrite Hin, drop_drop, <- app_assoc. unfold data.
        rewrite take_take_drop. by replace (k + (n - (got + k)))%nat with (n - got)%nat by lia.
      * by rewrite decide_False by lia.
  - apply wp_ret. replace (n - got)%nat with 0%nat by lia. split_and!; [done..|].
    rewrite decide_True by lia. by rewrite take_0, app_nil_r, take_ge by lia.
Qed.

(** ** Responses *)

(** What [search] makes of the body of a response. *)
Definition decode_response (body : list byte) : result (list Z) :=
  status ← first_byte body;
  if negb (status =? 0) then Raise (RuntimeError ("server status " +:+ dec status))
  else
    count ← unpack_int FI body@[5 : 9];
    read_ids (Z.to_nat count) body 9.

(** The same stream, read again. *)
Definition sized (body : list byte) : list byte := be_bytes 4 (Z.of_nat (length body)) ++ body.

Lemma unpack_int_ok f n z :
  fmt_size f = n -> (forall k, f <> Fs k) -> is_u n z -> unpack_int f (be_bytes n z) = Ok z.
Proof. intros Hn Hf Hz. unfold unpack_int. by rewrite (struct_unpack_uint n). Qed.

Section Search.
Context {P : Peer}.

Lemma recvn_spec n s : wp (_recvn n) s (received n [] s).
Proof.
  pose proof (recv_loop_spec (S n) n 0 (replicate n x00) s) as Hr.
  rewrite Nat.sub_0_r in Hr. apply Hr; [apply length_replicate|lia|lia].
Qed.

(** Reading [n] bytes that are there. *)
Lemma wp_recvn n s pre rest (Q : result (list byte) -> sock -> Prop) :
  sk_in s = pre ++ rest -> length pre = n ->
  (forall s', sk_in s' = rest -> sk_sent s' = sk_sent s -> sk_open s' = sk_open s -> Q (Ok pre) s') ->
  wp (_recvn n) s Q.
Proof.
  intros Hin Hn HQ. eapply wp_mono; [apply recvn_spec|]. intros r s' (Hs & Ho & Hr).
  rewrite Hin, decide_True in Hr by (rewrite length_app; lia).
  rewrite take_app_length', drop_app_length' in Hr by done. destruct Hr as [-> Hr]. by apply HQ.
Qed.

(** A search on a connection with nothing left to read, answered by a frame. *)
Lemma tcp_search_spec frame body s :
  sk_in s = [] -> peer_reply frame = sized body -> is_u 4 (Z.of_nat (length body)) ->
  wp (search frame) s (fun r s' =>
    r = decode_response body /\ sk_in s' = [] /\ sk_sent s' = sk_sent s ++ frame /\ sk_open s' = sk_open s).
Proof.
  intros Hin Hpeer Hlen. unfold search. wp_step. apply wp_sendall. wp_step.
  apply (wp_recvn _ _ (be_bytes 4 (Z.of_nat (length body))) body); [|apply length_be_bytes|].
  { cbn. by rewrite Hin, Hpeer. }
  intros s1 Hin1 Hs1 Ho1. cbn [sk_sent sk_open] in *. wp_steps.
  rewrite (unpack_int_ok FI 4) by done. wp_steps. rewrite Nat2Z.id.
  apply (wp_recvn _ _ body []); [by rewrite app_nil_r|done|].
  intros s2 Hin2 Hs2 Ho2. rewrite Hs1 in Hs2. rewrite Ho1 in Ho2.
  unfold decode_response. wp_steps. destruct (first_byte body) as [status|e]; [|done].
  cbn [mbind result_bind]. destruct (negb (status =? 0)); wp_steps; [done|].
  by destruct (unpack_int FI _) as [count|e].
Qed.

(** The peer closes before the end of its response. *)
Lemma tcp_search_closed frame n body s :
  sk_in s = [] -> is_u 4 (Z.of_nat (length body)) -> (n < length (sized body))%nat ->
  peer_reply frame = take n (sized body) ->
  wp (search frame) s (fun r _ => r = Raise (ConnectionError "server closed")).
Proof.
  intros Hin Hlen Hn Hpeer. unfold sized in *. rewrite length_app, length_be_bytes in Hn.
  unfold search. wp_step. apply wp_sendall. wp_step. destruct (decide (n < 4)%nat) as [Hlt|Hge].
  - eapply wp_mono; [apply recvn_spec|]. intros r s' (_ & _ & Hr). cbn [sk_in] in Hr.
    rewrite Hin, Hpeer, decide_False in Hr; [by destruct Hr as [-> _]|].
    cbn. rewrite length_take. lia.
  - apply (wp_recvn _ _ (be_bytes 4 (Z.of_nat (length body))) (take (n - 4) body)); [|apply length_be_bytes|].
    { cbn. rewrite Hin, Hpeer, take_app_ge by (rewrite length_be_bytes; lia). by rewrite length_be_bytes. }
    intros s1 Hin1 _ _. wp_steps. rewrite (unpack_int_ok FI 4) by done. wp_steps. rewrite Nat2Z.id.
    eapply wp_mono; [apply recvn_spec|]. intros r s' (_ & _ & Hr).
    rewrite Hin1, decide_False in Hr; [by destruct Hr as [-> _]|]. rewrite length_take. lia.
Qed.
End Search.

(** *** Decoding *)

(** A hit as the wire carries it. *)
Definition is_hit (h : Z * Z) : Prop := is_u 8 h.1 /\ is_u 4 h.2.

Lemma length_hit_bytes h : length (hit_bytes h) = 12%nat.
Proof. unfold hit_bytes. by rewrite length_app, !length_be_bytes. Qed.

Lemma read_ids_hits hits pre rest :
  Forall is_hit hits ->
  read_ids (length hits) (pre ++ concat (hit_bytes <$> hits) ++ rest) (length pre) = Ok hits.*1.
Proof.
  intros Hh. revert pre. induction Hh as [|h hits [Hid Hd] _ IH]; intros pre; [done|].
  cbn [length read_ids fmap list_fmap concat]. unfold hit_bytes at 1.
  replace ((pre ++ ((be_bytes 8 h.1 ++ be_bytes 4 h.2) ++ concat (hit_bytes <$> hits)) ++ rest)@[length pre : length pre + 8])
    with (be_bytes 8 h.1).
  2:{ unfold py_slice. rewrite drop_app_length, <- !app_assoc, take_app_length'; [done|]. rewrite length_be_bytes. lia. }
  rewrite (unpack_int_ok FQ 8) by done. cbn [mbind result_bind].
  specialize (IH (pre ++ hit_bytes h)). rewrite length_app, length_hit_bytes in IH.
  unfold hit_bytes at 1 in IH. rewrite <- !app_assoc in IH. rewrite <- !app_assoc. by rewrite IH.
Qed.

Lemma decode_hits hits :
  Forall is_hit hits -> is_u 4 (Z.of_nat (length hits)) ->
  decode_response (response_body 0 (response_payload hits)) = Ok hits.*1.
Proof.
  intros Hh Hn. unfold decode_response, response_body, response_payload.
  change (be_bytes 1 0) with [x00]. cbn [app first_byte mbind result_bind]. change (negb _) with false. cbn iota.
  set (len := be_bytes 4 (Z.of_nat (length (_ ++ _)))).
  assert (length len = 4%nat) as Hlen by apply length_be_bytes.
  pose proof (read_ids_hits hits (x00 :: len ++ be_bytes 4 (Z.of_nat (length hits))) [] Hh) as Hr.
  replace (py_slice _ 5 9) with (be_bytes 4 (Z.of_nat (length hits))).
  2:{ unfold py_slice. rewrite app_comm_cons, drop_app_length' by (cbn; lia).
      rewrite take_app_length'; [done|]. rewrite length_be_bytes. done. }
  rewrite (unpack_int_ok FI 4) by done. cbn [mbind result_bind]. rewrite Nat2Z.id.
  cbn [length] in Hr. rewrite length_app, Hlen, length_be_bytes, app_nil_r in Hr.
  cbn [app] in Hr. by rewrite <- app_assoc in Hr.
Qed.

Lemma decode_status status payload :
  is_u 1 status -> status <> 0 ->
  decode_response (response_body status payload) = Raise (RuntimeError ("server status " +:+ dec status)).
Proof.
  intros Hs Hne. unfold decode_response, response_body. cbn [be_bytes app first_byte].
  rewrite Z_of_byte_of_Z, Z.mod_small by (unfold is_u in Hs; change (256 ^ Z.of_nat 1) with 256 in Hs; lia).
  cbn [mbind result_bind]. by rewrite (proj2 (Z.eqb_neq _ _)) by done.
Qed.
