(* ===== verification/Accuracy.v ===== *)
(** * The accuracy of the figures

    A recall is the quotient of two integers, rounded to binary64 and then to the decimals of a
    table.  Here: the quotient is within half a unit in the last place, so that the rounding
    to decimals, and a comparison with a decimal, give what they would give of the exact
    quotient, for any number of queries that occurs. *)

From S2P Require Import Prelude Bytes Text Float64.

(** ** Digits and locations *)

Lemma Zdigits2_unique z n : 0 < n -> 2 ^ (n - 1) <= z < 2 ^ n -> Zdigits2 z = n.
Proof.
  intros Hn Hz. destruct z as [|p|p]; [|cbn [Zdigits2]; rewrite digits2_pos_log2|].
  - pose proof (Z.pow_pos_nonneg 2 (n - 1)). lia.
  - enough (Z.log2 (Zpos p) = n - 1) by lia. apply Z.log2_unique; [lia|].
    by replace (Z.succ (n - 1)) with n by lia.
  - pose proof (Z.pow_pos_nonneg 2 (n - 1)). lia.
Qed.

Lemma Zdigits2_bounds z : 0 < z -> 2 ^ (Zdigits2 z - 1) <= z < 2 ^ Zdigits2 z /\ 0 < Zdigits2 z.
Proof.
  intros Hz. destruct z as [|p|p]; [lia| |lia]. cbn [Zdigits2]; rewrite digits2_pos_log2. pose proof (Z.log2_spec (Zpos p) Hz).
  pose proof (Z.log2_nonneg (Zpos p)). rewrite Z.add_simpl_r. by split; [|lia].
Qed.

(** Where [q + r / d] is between [q] and [q + 1]. *)
Definition location_of (d r : Z) : location := if r =? 0 then loc_Exact else loc_Inexact (2 * r ?= d).

Lemma new_location_of d r : 0 <= r < d -> new_location d r = location_of d r.
Proof.
  intros Hr. unfold new_location, new_location_even, new_location_odd, location_of.
  destruct (Z.even d) eqn:Hd; [done|]. destruct (r =? 0); [done|]. f_equal.
  assert (Z.odd d = true) as Ho by by rewrite <- Z.negb_even, Hd.
  apply Z.odd_spec in Ho as [k ->].
  destruct (Z.compare_spec (2 * r + 1) (2 * k + 1)), (Z.compare_spec (2 * r) (2 * k + 1)); try done; lia.
Qed.

(** Rounding to the nearest integer, where [q + r / d] lies; at a tie the result is even. *)
Lemma round_nearest d q r :
  0 <= r < d ->
  let m := round_nearest_even q (location_of d r) in
  q <= m <= q + 1 /\ Z.abs (2 * (m * d - (q * d + r))) <= d.
Proof.
  intros Hr m. subst m. unfold location_of, round_nearest_even.
  destruct (Z.eqb_spec r 0) as [->|Hr0]; [nia|].
  destruct (Z.compare_spec (2 * r) d) as [H|H|H]; [destruct (Z.even q)|..]; nia.
Qed.

Lemma shr_record_location m l : shr_m (shr_record_of_loc m l) = m /\ loc_of_shr_record (shr_record_of_loc m l) = l.
Proof. by destruct l as [|[]]. Qed.

(** A step to the right: the bit that leaves becomes part of the location. *)
Lemma location_odd d r : 0 <= r < d -> location_of (2 * d) (d + r) = loc_Inexact (if r =? 0 then Eq else Gt).
Proof.
  intros Hr. unfold location_of. rewrite (proj2 (Z.eqb_neq (d + r) 0)) by lia. f_equal.
  destruct (Z.eqb_spec r 0); [apply Z.compare_eq_iff|apply Z.compare_gt_iff]; lia.
Qed.
Lemma location_even d r : 0 <= r < d -> location_of (2 * d) r = if r =? 0 then loc_Exact else loc_Inexact Lt.
Proof.
  intros Hr. unfold location_of. destruct (Z.eqb_spec r 0); [done|]. f_equal. apply Z.compare_lt_iff. lia.
Qed.

Lemma shr_1_location q d r :
  0 < q -> 0 <= r < d ->
  let s := shr_1 (shr_record_of_loc q (location_of d r)) in
  shr_m s = q / 2 /\ loc_of_shr_record s = location_of (2 * d) ((q mod 2) * d + r).
Proof.
  intros Hq Hr. cbn zeta. rewrite Zmod_even.
  assert (q mod 2 * d + r = if Z.even q then r else d + r) as E by (rewrite Zmod_even; destruct (Z.even q); lia).
  rewrite Zmod_even in E. rewrite E. clear E.
  replace (q / 2) with (Z.div2 q) by apply Z.div2_div.
  destruct q as [|[p|p|]|]; [lia| | | |lia]; cbn [Z.even]; rewrite ?location_odd, ?location_even by done;
    unfold location_of; destruct (r =? 0); try (by split); by destruct (2 * r ?= d).
Qed.

(** ** Division *)

Lemma shr_fexp_none m e l : 2 ^ 52 <= m < 2 ^ 53 -> -1074 <= e -> shr_fexp 53 1024 m e l = (shr_record_of_loc m l, e).
Proof.
  intros Hm He. unfold shr_fexp. rewrite (Zdigits2_unique m 53) by (cbn; lia).
  unfold fexp, emin. replace (Z.max _ _ - e) with 0 by lia. done.
Qed.

Lemma shr_fexp_one m e l :
  2 ^ 53 <= m < 2 ^ 54 -> -1074 <= e -> shr_fexp 53 1024 m e l = (shr_1 (shr_record_of_loc m l), e + 1).
Proof.
  intros Hm He. unfold shr_fexp. rewrite (Zdigits2_unique m 54) by (cbn; lia).
  unfold fexp, emin. replace (Z.max _ _ - e) with 1 by lia. done.
Qed.

(** The end of the rounding, which brings a mantissa rounded up to [2 ^ 53] back into range. *)
Lemma rounded_up m e :
  2 ^ 52 <= m <= 2 ^ 53 -> -1074 <= e <= 900 ->
  exists (M : positive) E,
    (let '(mrs, e') := shr_fexp 53 1024 m e loc_Exact in
     match shr_m mrs with
     | Z0 => S754_zero false
     | Zpos m => if e' <=? 1024 - 53 then S754_finite false m e' else S754_infinity false
     | _ => S754_nan
     end) = S754_finite false M E /\
    2 ^ 52 <= Zpos M < 2 ^ 53 /\ e <= E <= e + 1 /\ Zpos M * 2 ^ (E - e) = m.
Proof.
  intros Hm He. destruct (Z.eq_dec m (2 ^ 53)) as [->|Hne].
  - rewrite shr_fexp_one by (cbn; lia). cbn [shr_record_of_loc shr_1 shr_m Z.pow Z.pow_pos Pos.iter Z.mul Pos.mul].
    exists (2 ^ 52)%positive, (e + 1). rewrite (proj2 (Z.leb_le _ _)) by lia.
    replace (e + 1 - e) with 1 by lia. split_and!; [done|done|done|lia|lia|done].
  - rewrite shr_fexp_none by lia. cbn [shr_record_of_loc shr_m]. destruct m as [|M|]; [lia| |lia].
    exists M, e. rewrite (proj2 (Z.leb_le _ _)) by lia. rewrite Z.sub_diag. split_and!; [done|lia..].
Qed.

(** Rounding [(q + r / d) * 2 ^ e]. *)
Lemma binary_round_aux_nearest q e d r :
  2 ^ 52 <= q < 2 ^ 54 -> -1074 <= e <= 800 -> 0 <= r < d ->
  exists (M : positive) E,
    binary_round_aux 53 1024 false q e (location_of d r) = S754_finite false M E /\
    2 ^ 52 <= Zpos M < 2 ^ 53 /\ e <= E <= e + 2 /\
    Z.abs (2 * (Zpos M * 2 ^ (E - e) * d - (q * d + r))) <= 2 ^ (E - e) * d.
Proof.
  intros Hq He Hr. unfold binary_round_aux. destruct (Z.lt_ge_cases q (2 ^ 53)) as [Hs|Hs].
  - rewrite shr_fexp_none by lia. destruct (shr_record_location q (location_of d r)) as [-> ->].
    destruct (round_nearest d q r Hr) as [Hm Hn]. set (m := round_nearest_even _ _) in *.
    destruct (rounded_up m e ltac:(lia) ltac:(lia)) as (M & E & -> & HM & HE & Heq).
    exists M, E. split_and!; [done|lia|lia|lia|lia|]. rewrite Heq.
    pose proof (Z.pow_pos_nonneg 2 (E - e)). nia.
  - rewrite shr_fexp_one by lia. destruct (shr_1_location q d r) as [-> ->]; [lia|done|].
    assert (0 <= q mod 2 < 2) as Hb by (apply Z.mod_pos_bound; lia). pose proof (Z.div_mod q 2 ltac:(lia)) as Hdm.
    destruct (round_nearest (2 * d) (q / 2) (q mod 2 * d + r) ltac:(nia)) as [Hm Hn].
    set (m := round_nearest_even _ _) in *.
    assert (2 ^ 52 <= q / 2 < 2 ^ 53) as Hq2 by lia.
    destruct (rounded_up m (e + 1) ltac:(lia) ltac:(lia)) as (M & E & -> & HM & HE & Heq).
    exists M, E. split_and!; [done|lia|lia|lia|lia|].
    replace (2 ^ (E - e)) with (2 * 2 ^ (E - (e + 1))) by (rewrite <- Z.pow_succ_r by lia; f_equal; lia).
    pose proof (Z.pow_pos_nonneg 2 (E - (e + 1))). nia.
Qed.

(** The quotient of two integers, at most one and not too small, is a float of 53 bits, within
    half a unit of its last place. *)
Lemma f_of_ratio_nearest m d :
  0 < m <= Zpos d -> Zpos d < 2 ^ 512 ->
  exists (M : positive) t,
    f_of_ratio m d = S754_finite false M (- t) /\ 2 ^ 52 <= Zpos M < 2 ^ 53 /\ 51 <= t <= 600 /\
    Z.abs (2 * (Zpos M * Zpos d - m * 2 ^ t)) <= Zpos d.
Proof.
  intros Hm Hd. destruct m as [|m|m]; [lia| |lia]. unfold f_of_ratio, SFdiv, SFdiv_core_binary. rewrite !Z.add_0_r.
  destruct (Zdigits2_bounds (Zpos m) ltac:(lia)) as [Bm Pm]. destruct (Zdigits2_bounds (Zpos d) ltac:(lia)) as [Bd Pd].
  set (d1 := Zdigits2 (Zpos m)) in *. set (d2 := Zdigits2 (Zpos d)) in *.
  assert (d1 <= d2) as H12.
  { destruct (Z.le_gt_cases d1 d2); [done|]. pose proof (Z.pow_le_mono_r 2 d2 (d1 - 1)). lia. }
  assert (d2 <= 512) as H2.
  { destruct (Z.le_gt_cases d2 512); [done|]. pose proof (Z.pow_le_mono_r 2 512 (d2 - 1)). lia. }
  unfold fexp, emin. set (s := d2 - d1 + 53).
  replace (Z.min _ _) with (- s) by lia. replace (0 - 0 - - s) with s by lia.
  replace (match s with Z0 => Zpos m | Zpos _ => Z.shiftl (Zpos m) s | Zneg _ => 0 end) with (Zpos m * 2 ^ s).
  2: { rewrite <- Z.shiftl_mul_pow2 by lia. by destruct s eqn:Es; try lia. }
  pose proof (Z_div_mod (Zpos m * 2 ^ s) (Zpos d) ltac:(lia)) as Hdm. destruct (Z.div_eucl _ _) as [q r].
  destruct Hdm as [Hdm Hr]. rewrite new_location_of by lia.
  assert (2 ^ s = 2 ^ 53 * 2 ^ (d2 - d1)) as Es by (rewrite <- Z.pow_add_r by lia; f_equal; lia).
  assert (2 ^ d2 = 2 ^ d1 * 2 ^ (d2 - d1)) as E2 by (rewrite <- Z.pow_add_r by lia; f_equal; lia).
  assert (2 ^ d1 = 2 * 2 ^ (d1 - 1)) as E1 by (rewrite <- Z.pow_succ_r by lia; f_equal; lia).
  assert (2 ^ d2 = 2 * 2 ^ (d2 - 1)) as E3 by (rewrite <- Z.pow_succ_r by lia; f_equal; lia).
  pose proof (Z.pow_pos_nonneg 2 (d2 - d1)) as Pk. set (k := 2 ^ (d2 - d1)) in *.
  assert (2 ^ 52 * Zpos d < Zpos m * 2 ^ s < 2 ^ 54 * Zpos d) as Hq by (rewrite Es; nia).
  destruct (binary_round_aux_nearest q (- s) (Zpos d) r) as (M & E & Hb & HM & HE & Herr); [nia|lia|lia|].
  exists M, (- E). rewrite Z.opp_involutive. split_and!; [exact Hb|lia|lia|lia|lia|].
  assert (2 ^ s = 2 ^ (- E) * 2 ^ (E - - s)) as Et by (rewrite <- Z.pow_add_r by lia; f_equal; lia).
  replace (q * Zpos d + r) with (Zpos m * 2 ^ s) in Herr by lia. rewrite Et in Herr.
  pose proof (Z.pow_pos_nonneg 2 (E - - s)) as Pu. set (u := 2 ^ (E - - s)) in *. set (v := 2 ^ (- E)) in *. nia.
Qed.

(** ** Decimals of a quotient *)

Lemma round_half_even_nearest n d : Z.abs (2 * (round_half_even n d * Zpos d - n)) <= Zpos d.
Proof.
  unfold round_half_even. pose proof (Z.div_mod n (Zpos d) ltac:(lia)). pose proof (Z.mod_pos_bound n (Zpos d) ltac:(lia)).
  destruct (Z.compare_spec (2 * (n mod Zpos d)) (Zpos d)); [destruct (Z.even _)|..]; nia.
Qed.

(** To [k] decimals, a quotient is printed as the nearest decimal of its exact value. *)
Lemma fmt_ratio_nearest k m d :
  0 <= m <= Zpos d -> 10 ^ Z.of_nat k * Zpos d < 2 ^ 50 ->
  exists u, fmt_fixed k (f_of_ratio m d) = fixed_string k u /\ Z.abs (2 * (u * Zpos d - 10 ^ Z.of_nat k * m)) <= Zpos d.
Proof.
  intros Hm Hk. pose proof (Z.pow_pos_nonneg 10 (Z.of_nat k) ltac:(lia) ltac:(lia)) as Hp. set (p := 10 ^ Z.of_nat k) in *.
  destruct (Z.eq_dec m 0) as [->|Hm0].
  { exists 0. split; [done|lia]. }
  destruct (f_of_ratio_nearest m d) as (M & t & -> & HM & Ht & Herr); [lia|nia|].
  exists (round_half_even (Zpos M * p) (Z.to_pos (2 ^ t))). split.
  - unfold fmt_fixed, f_to_Q. rewrite (proj2 (Z.leb_gt 0 (- t))) by lia. rewrite Z.opp_involutive. done.
  - pose proof (round_half_even_nearest (Zpos M * p) (Z.to_pos (2 ^ t))) as Hr. set (u := round_half_even _ _) in *.
    pose proof (Z.pow_le_mono_r 2 51 t ltac:(lia) ltac:(lia)) as Hv. set (v := 2 ^ t) in *.
    rewrite Z2Pos.id in Hr by lia.
    assert (Z.abs (2 * (u * Zpos d - p * m)) * v <= Zpos d * v + p * Zpos d) as Hb by nia.
    nia.
Qed.

(** Nine tenths, as a float and as a fraction, are exceeded by the same quotients. *)
Lemma above_nine_tenths m d :
  0 <= m <= Zpos d -> Zpos d < 2 ^ 50 -> fltb (f_of_lit 0.90%lit) (f_of_ratio m d) = (9 * Zpos d <? 10 * m).
Proof.
  intros Hm Hd. destruct (Z.eq_dec m 0) as [->|Hm0].
  { rewrite (proj2 (Z.ltb_ge _ _)) by lia. done. }
  destruct (f_of_ratio_nearest m d) as (M & t & -> & HM & Ht & Herr); [lia|nia|].
  assert (f_of_lit 0.90%lit = S754_finite false 8106479329266893 (-53)) as -> by by vm_compute.
  unfold fltb, SFltb, SFcompare. change (Pos.compare_cont Eq 8106479329266893 M) with (8106479329266893 ?= M)%positive.
  destruct (Z.compare_spec (-53) (- t)) as [E|H|H].
  - assert (t = 53) as -> by lia. symmetry.
    destruct (Pos.compare_spec 8106479329266893 M) as [<-|HM'|HM']; [apply Z.ltb_ge; lia|apply Z.ltb_lt|apply Z.ltb_ge].
    + assert (8106479329266894 * Zpos d <= Zpos M * Zpos d) as Hx by (apply Z.mul_le_mono_nonneg_r; [apply Pos2Z.is_nonneg|exact (proj2 (Z.le_succ_l 8106479329266893 (Zpos M)) HM')]).
      clear HM HM' Ht. set (x := Zpos M * Zpos d) in *. clearbody x. lia.
    + assert (Zpos M * Zpos d <= 8106479329266892 * Zpos d) as Hx by (apply Z.mul_le_mono_nonneg_r; [apply Pos2Z.is_nonneg|exact (proj1 (Z.lt_succ_r (Zpos M) 8106479329266892) HM')]).
      clear HM HM' Ht. set (x := Zpos M * Zpos d) in *. clearbody x. lia.
  - assert (2 ^ 52 * Zpos d <= Zpos M * Zpos d) as Hx by (clear Herr; apply Z.mul_le_mono_nonneg_r; lia). symmetry. apply Z.ltb_lt.
    assert (t = 51 \/ t = 52) as Et by lia. clear HM H Ht. set (x := Zpos M * Zpos d) in *. clearbody x.
    destruct Et as [-> | ->]; lia.
  - assert (Zpos M * Zpos d <= 2 ^ 53 * Zpos d) as Hx by (clear Herr; apply Z.mul_le_mono_nonneg_r; lia). symmetry. apply Z.ltb_ge.
    assert (2 ^ 54 * m <= 2 ^ t * m) as Hy by (apply Z.mul_le_mono_nonneg_r; [lia|apply Z.pow_le_mono_r; lia]).
    rewrite (Z.mul_comm m (2 ^ t)) in Herr. clear HM H Ht. set (x := Zpos M * Zpos d) in *. set (y := 2 ^ t * m) in *.
    clearbody x y. lia.
Qed.
