(* ===== verification/Report.v ===== *)
(** * The tables that the benchmark scripts print

    A latency script prints a line of six columns for each setting, a sweep one of three; a
    header names the columns.  The columns are padded to a width and set apart by a blank. *)

From S2P Require Import Prelude Bytes Text Float64.

(** [f"{s:<n}"] *)
Definition ljust (n : nat) (s : string) : string := s +:+ Nat.iter (n - String.length s) (String " ") "".

(** Columns, each with its width. *)
Definition table_line (cells : list (nat * string)) : string := str_join " " ((fun c => ljust c.1 c.2) <$> cells).

(** ** Latency scripts *)

Definition latency_header : string :=
  table_line [(6, "ef"); (9, "recall"); (10, "p50(us)"); (10, "p99(us)"); (10, "mean(us)"); (12, "satQPS")]%nat.
Definition latency_line (ef : Z) (recall p50 p99 mean qps : float) : string :=
  table_line [(6, dec ef); (9, fmt_fixed 4 recall); (10, fmt_fixed 1 p50); (10, fmt_fixed 1 p99); (10, fmt_fixed 1 mean);
              (12, fmt_fixed 0 qps)]%nat.

(** ** Sweeps: [w] is the width of the last column, and [title] its name. *)

Definition sweep_header (w : nat) (title : string) : string :=
  table_line [(8, "efSearch"); (12, "recall@10"); (w, title)]%nat.
Definition sweep_line (w : nat) (row : Z * float * float) : string :=
  let '(ef, recall, qps) := row in table_line [(8, dec ef); (12, fmt_fixed 4 recall); (w, fmt_fixed 0 qps)]%nat.

(** ** Reading a line back *)

(** A text without blanks. *)
Definition is_word (s : string) : Prop := s <> "" /\ str_forall (fun c => is_space c = false) s.

Lemma words_from_word acc s rest :
  str_forall (fun c => is_space c = false) s -> words_from acc (s +:+ rest) = words_from (acc +:+ s) rest.
Proof.
  unfold str_forall. revert acc. induction s as [|c s IH]; intros acc Hs; [by rewrite str_app_nil_r|].
  inversion Hs as [|?? Hc Hs']; subst. change (String c s +:+ rest) with (String c (s +:+ rest)).
  cbn [words_from]. rewrite Hc, IH by done.
  by rewrite str_app_assoc.
Qed.

Lemma words_from_blanks n s : words_from "" (Nat.iter n (String " ") "" +:+ s) = str_words s.
Proof. induction n as [|n IH]; [done|]. exact IH. Qed.

Lemma str_words_word s n rest : is_word s -> str_words (s +:+ Nat.iter (S n) (String " ") "" +:+ rest) = s :: str_words rest.
Proof.
  intros [Hne Hs]. unfold str_words at 1. rewrite words_from_word by done. change (words_from ("" +:+ s) _) with ((if String.eqb s "" then [] else [s]) ++ words_from "" (Nat.iter n (String " ") "" +:+ rest)).
  destruct (String.eqb_spec s ""); [done|]. cbn [app].
  f_equal. apply words_from_blanks.
Qed.

Lemma str_words_last s n : is_word s -> str_words (s +:+ Nat.iter n (String " ") "") = [s].
Proof.
  intros Hs. destruct n as [|n].
  - cbn [Nat.iter nat_rect]. destruct Hs as [Hne Hs]. unfold str_words. rewrite words_from_word by done.
    change (words_from _ _) with (if String.eqb s "" then [] else [s]). by destruct (String.eqb_spec s "").
  - pose proof (str_words_word s n "" Hs) as H. by rewrite str_app_nil_r in H.
Qed.

Lemma iter_blanks n s : Nat.iter n (String " ") "" +:+ " " +:+ s = Nat.iter (S n) (String " ") "" +:+ s.
Proof. induction n as [|n IH]; [done|]. change (String " " (Nat.iter n (String " ") "" +:+ " " +:+ s) = String " " (Nat.iter (S n) (String " ") "" +:+ s)). by rewrite IH. Qed.

(** A line is read back as the texts of its columns, however wide they are. *)
Lemma words_table cells : Forall (fun c => is_word c.2) cells -> str_words (table_line cells) = cells.*2.
Proof.
  intros Hc. induction Hc as [|[n s] cells Hs Hcells IH]; [done|]. cbn [snd] in Hs. destruct cells as [|c cells].
  - by apply str_words_last.
  - change (table_line ((n, s) :: c :: cells)) with (ljust n s +:+ " " +:+ table_line (c :: cells)).
    change (((n, s) :: c :: cells).*2) with (s :: (c :: cells).*2). rewrite <- IH.
    rewrite <- (str_words_word s (n - String.length s) _ Hs). unfold ljust. by rewrite str_app_assoc, iter_blanks.
Qed.

(** Texts of numbers are words. *)
Lemma is_word_app s t : is_word s -> str_forall (fun c => is_space c = false) t -> is_word (s +:+ t).
Proof.
  intros [Hne Hs] Ht. split; [by destruct s|]. unfold str_forall. rewrite list_ascii_app. by apply Forall_app_2.
Qed.

Lemma is_word_dec z : is_word (dec z).
Proof.
  destruct (dec_split z) as (body & Hz & Hd & _). rewrite Hz.
  assert (str_forall (fun c => is_space c = false) body) as Hs by exact (Forall_impl _ digit_not_space Hd).
  destruct (z <? 0); [split; [done|by constructor]|]. split; [|done]. intros ->.
  pose proof (int_of_dec z) as Hi. rewrite Hz in Hi. destruct (z <? 0); discriminate.
Qed.

Lemma pad_zeros_word n s : str_forall (fun c => is_space c = false) s -> str_forall (fun c => is_space c = false) (pad_left "0" n s).
Proof. intros Hs. unfold pad_left. induction (n - String.length s)%nat as [|k IH]; [done|]. by constructor. Qed.

Lemma is_word_fixed k x : is_word (fmt_fixed k x).
Proof.
  unfold fmt_fixed. destruct (f_to_Q x) as [v|].
  - assert (forall z, is_word (fixed_string k z)) as Hw.
    { intros z. unfold fixed_string. case_decide; [apply is_word_dec|]. apply is_word_app; [apply is_word_dec|].
      constructor; [done|]. apply pad_zeros_word, is_word_dec. }
    unfold fmt_fixed_Q. destruct (f_sign x); [|apply Hw]. split; [done|]. constructor; [done|]. apply Hw.
  - by destruct x as [|[]| |]; split; try done; repeat constructor.
Qed.
Create HintDb report.
#[export] Hint Resolve is_word_dec is_word_fixed : report.
Ltac line_words := apply words_table; repeat (apply Forall_cons_2; [cbn [snd]; auto with report|]); apply Forall_nil_2; exact I.

Lemma latency_line_words ef r a b m qps :
  str_words (latency_line ef r a b m qps) =
    [dec ef; fmt_fixed 4 r; fmt_fixed 1 a; fmt_fixed 1 b; fmt_fixed 1 m; fmt_fixed 0 qps].
Proof. line_words. Qed.

Lemma sweep_line_words w ef r qps : str_words (sweep_line w (ef, r, qps)) = [dec ef; fmt_fixed 4 r; fmt_fixed 0 qps].
Proof. line_words. Qed.

