(* ===== verification/Bench.v ===== *)
(** * The measuring loops shared by the benchmark scripts

    The latency scripts ([rostam_py_client.py], [qdrant_latency_qps.py],
    [rostam_grpc_client.py]) measure alike: a timed loop of queries with its percentiles and
    recall, and workers that query until a deadline.  The loops are modelled here over any
    client, a computation of [M W], and a clock: [ticks n] is what its [n]-th reading returns.
    A loop that ends on the clock takes fuel, the number of readings allowed. *)

From S2P Require Import Prelude Bytes Text Float64 FloatOrder Report.

Class Clock := ticks : nat -> float.

(** The client's world, the number of clock readings made, and the lines printed. *)
Record bench (W : Type) := BenchOut { b_world : W; b_reads : nat; b_out : list string }.
Arguments BenchOut {_} _ _ _.
Arguments b_world {_} _.
Arguments b_reads {_} _.
Arguments b_out {_} _.
(** Before anything is printed. *)
Abbreviation Bench w c := (BenchOut w c []).

(** [xs[i]] *)
Definition py_item {A} (xs : list A) (i : Z) : result A :=
  let j := if i <? 0 then i + Z.of_nat (length xs) else i in
  if j <? 0 then Raise IndexError
  else match xs !! Z.to_nat j with Some x => Ok x | None => Raise IndexError end.

(** [i % m] *)
Definition py_mod (i m : Z) : result Z := if m =? 0 then Raise ZeroDivisionError else Ok (i mod m).

(** [sum(xs)] of floats, each addition rounded, from left to right (as before Python 3.12, whose
    [sum] compensates) *)
Definition py_sum (xs : list float) : float := foldl fadd (f_of_Z 0) xs.

(** [len(set(a) & set(b))] *)
Definition common (a b : list Z) : Z := Z.of_nat (size (list_to_set a ∩ list_to_set b : gset Z)).

(** ** The ground truth *)

(** [gt[:, :k]] *)
Definition columns (k : Z) (gt : list (list Z)) : list (list Z) := (fun r : list Z => take (Z.to_nat k) r) <$> gt.
(** [set(int(x) for x in gt[i])] *)
Definition truth_at (gt : list (list Z)) (i : nat) : result (list Z) := py_item gt (Z.of_nat i).
(** [set(int(x) + 1 for x in gt[i])]: the ids of the Rostam servers are 1-based *)
Definition one_based (row : list Z) : list Z := (fun x => x + 1) <$> row.
Definition truth_of (gt : list (list Z)) (i : nat) : result (list Z) :=
  row ← py_item gt (Z.of_nat i); Ok (one_based row).

(** ** Percentiles and recall *)

(** [LAT_N] and [K] of the latency scripts *)
Definition LAT_N : nat := 2000.
Definition RECALL_K : Z := 10.

Definition p50 (lats : list float) : result float := py_item lats (Z.of_nat (length lats) / 2).
Definition p99 (lats : list float) : result float :=
  i ← int_of_float (fmul (f_of_Z (Z.of_nat (length lats))) (f_of_lit 0.99%lit)); py_item lats i.
Definition mean (lats : list float) : result float := py_fdiv (py_sum lats) (f_of_Z (Z.of_nat (length lats))).
Definition recall (hits n k : Z) : result float := py_int_div hits (n * k).

(** What a latency run returns: the recall, the median, the 99th percentile, the mean. *)
Definition figures (lats : list float) (hits : Z) : result (float * float * float * float) :=
  let lats := f_sort lats in
  r ← recall hits (Z.of_nat LAT_N) RECALL_K;
  a ← p50 lats;
  b ← p99 lats;
  m ← mean lats;
  Ok (r, a, b, m).

Section Measure.
Context {W : Type} {C : Clock}.

Definition on_world {A} (m : M W A) : M (bench W) A := fun b =>
  let '(r, w) := m (b_world b) in (r, BenchOut w (b_reads b) (b_out b)).
Definition clock : M (bench W) float := fun b => (Ok (ticks (b_reads b)), BenchOut (b_world b) (S (b_reads b)) (b_out b)).
Definition print (line : string) : M (bench W) unit := fun b => (Ok tt, BenchOut (b_world b) (b_reads b) (b_out b ++ [line])).

(** A query between two readings, in microseconds. *)
Definition timed {A} (m : M W A) : M (bench W) (A * float) :=
  t0 ← clock; a ← on_world m; t1 ← clock; mret (a, fmul (fsub t1 t0) (f_of_Z 1000000)).

(** [for i in todo: time the query; compare its ids with the truth] *)
Fixpoint timed_queries (query : nat -> M W (list Z)) (truth : nat -> result (list Z)) (todo : list nat)
    (lats : list float) (hits : Z) : M (bench W) (list float * Z) :=
  match todo with
  | [] => mret (lats, hits)
  | i :: todo =>
      '(ids, t) ← timed (query i);
      tr ← lift_result (truth i);
      timed_queries query truth todo (lats ++ [t]) (hits + common ids tr)
  end.

(** [for _ in range(n): op(i); i += 1] *)
Fixpoint batch (n : nat) (op : Z -> M W unit) (i : Z) : M W unit :=
  match n with O => mret tt | S n => _ ← op i; batch n op (i + 1) end.

(** [while time.time() < stop: 16 queries], counting them *)
Fixpoint qps_loop (fuel : nat) (op : Z -> M W unit) (stop : float) (i n : Z) : M (bench W) Z :=
  match fuel with
  | O => raise (OtherError "out of fuel")
  | S fuel =>
      t ← clock;
      if fltb t stop then _ ← on_world (batch 16 op i); qps_loop fuel op stop (i + 16) (n + 16)
      else mret n
  end.

(** ** Sweeps: every query once at each setting, timed together *)

(** [for i in range(n): hits += len(ids & set(gt[i]))] *)
Fixpoint count_hits (query : nat -> M W (list Z)) (truth : nat -> result (list Z)) (todo : list nat) (hits : Z) : M W Z :=
  match todo with
  | [] => mret hits
  | i :: todo =>
      ids ← query i;
      tr ← lift_result (truth i);
      count_hits query truth todo (hits + common ids tr)
  end.

(** A row of the table of a sweep, printed with a last column of [w]: the setting, the recall,
    the queries per second. *)
Definition sweep_row (w : nat) (query : Z -> nat -> M W (list Z)) (truth : nat -> result (list Z)) (n : nat) (ef : Z)
    : M (bench W) (Z * float * float) :=
  t1 ← clock;
  hits ← on_world (count_hits (query ef) truth (seq 0 n) 0);
  t2 ← clock;
  r ← lift_result (recall hits (Z.of_nat n) RECALL_K);
  qps ← lift_result (py_fdiv (f_of_Z (Z.of_nat n)) (fsub t2 t1));
  _ ← print (sweep_line w (ef, r, qps));
  mret (ef, r, qps).

(** [[f(x) for x in xs]] in the monad *)
Fixpoint map_each {X Y} (f : X -> M (bench W) Y) (xs : list X) : M (bench W) (list Y) :=
  match xs with [] => mret [] | x :: xs => y ← f x; ys ← map_each f xs; mret (y :: ys) end.
End Measure.

(** A process of a pool: its copy of the world, forked from its parent, and its own readings of
    the clock. *)
Record proc (W : Type) := Proc { proc_world : W; proc_clock : Clock }.
Arguments Proc {_} _ _.
Arguments proc_world {_} _.
Arguments proc_clock {_} _.

(** What the process [i] computes. *)
Definition run_proc {W} (procs : nat -> proc W) (worker : Clock -> nat -> M (bench W) Z) (i : nat) : result Z :=
  outcome (worker (proc_clock (procs i)) i) (Bench (proc_world (procs i)) 0).

(** [with mp.Pool(conc) as pool: sum(pool.map(worker, range(conc)))]: a pool of no process is a
    [ValueError], and an exception of a process is the parent's (the first to be raised if there
    are several; here that of the lowest number). *)
Definition pool_sum {W} (conc : Z) (procs : nat -> proc W) (worker : Clock -> nat -> M (bench W) Z) : result Z :=
  if conc <? 1 then Raise ValueError
  else ns ← mapR (run_proc procs worker) (seq 0 (Z.to_nat conc)); Ok (foldl Z.add 0 ns).

(** The queries per second of a pool: its total over the time it took. *)
Definition pool_qps {W} {C : Clock} (conc : Z) (procs : nat -> proc W) (worker : Clock -> nat -> M (bench W) Z)
    : M (bench W) float :=
  t0 ← clock;
  total ← lift_result (pool_sum conc procs worker);
  t1 ← clock;
  lift_result (py_fdiv (f_of_Z total) (fsub t1 t0)).

(** ** Facts *)

Lemma py_item_lookup {A} (xs : list A) i x : xs !! i = Some x -> py_item xs (Z.of_nat i) = Ok x.
Proof.
  intros Hx. unfold py_item. rewrite !(proj2 (Z.ltb_ge (Z.of_nat i) 0)) by lia.
  by rewrite Nat2Z.id, Hx.
Qed.

Lemma py_item_inv {A} (xs : list A) i x : 0 <= i -> py_item xs i = Ok x -> xs !! Z.to_nat i = Some x.
Proof.
  intros Hi. unfold py_item. rewrite !(proj2 (Z.ltb_ge i 0)) by lia.
  destruct (xs !! Z.to_nat i); [|done]. by intros [= ->].
Qed.

(** [xs[i % len(xs)]] *)
Definition nth_mod {A} `{Inhabited A} (xs : list A) (i : Z) : A := xs !!! Z.to_nat (i mod Z.of_nat (length xs)).

Lemma nth_mod_nat {A} `{Inhabited A} (xs : list A) (k : nat) : nth_mod xs (Z.of_nat k) = xs !!! (k mod length xs)%nat.
Proof. unfold nth_mod. by rewrite <- Nat2Z.inj_mod, Nat2Z.id. Qed.

Lemma py_item_mod {A} `{Inhabited A} (xs : list A) i :
  xs <> [] -> 0 <= i -> exists j, py_mod i (Z.of_nat (length xs)) = Ok j /\ py_item xs j = Ok (nth_mod xs i) /\ nth_mod xs i ∈ xs.
Proof.
  intros Hne Hi. assert (length xs <> 0%nat) as Hpos by (destruct xs; [done|cbn; lia]).
  exists (i mod Z.of_nat (length xs)). unfold py_mod. rewrite (proj2 (Z.eqb_neq _ _)) by lia.
  pose proof (Z.mod_pos_bound i (Z.of_nat (length xs)) ltac:(lia)) as Hb. unfold nth_mod.
  destruct (lookup_lt_is_Some_2 xs (Z.to_nat (i mod Z.of_nat (length xs)))) as [x Hx]; [lia|].
  rewrite (list_lookup_total_correct _ _ _ Hx). split_and!; [done| |by eapply list_elem_of_lookup_2].
  rewrite <- (Z2Nat.id (i mod Z.of_nat (length xs))) at 1 by lia. by apply py_item_lookup.
Qed.

Lemma size_list_to_set_le (l : list Z) : (size (list_to_set l : gset Z) <= length l)%nat.
Proof.
  induction l as [|x l IH]; [done|]. rewrite list_to_set_cons, size_union_alt, size_singleton. cbn [length].
  pose proof (subseteq_size (list_to_set l ∖ {[x]}) (list_to_set l : gset Z) ltac:(set_solver)). lia.
Qed.

Lemma common_range ids tr : 0 <= common ids tr <= Z.of_nat (length tr).
Proof.
  unfold common. split; [lia|]. apply Nat2Z.inj_le.
  etransitivity; [apply (subseteq_size _ (list_to_set tr : gset Z)); set_solver|apply size_list_to_set_le].
Qed.

Lemma size_map_succ (X : gset Z) : size (set_map (D := gset Z) (fun x => x + 1) X : gset Z) = size X.
Proof.
  induction X as [|x X Hx IH] using set_ind_L; [done|].
  rewrite set_map_union_L, set_map_singleton_L, (size_union {[x + 1]}), (size_union {[x]}), !size_singleton, IH; [done|set_solver|].
  apply disjoint_singleton_l. intros (y & E & Hy)%elem_of_map. assert (x = y) as -> by lia. done.
Qed.

(** Counting ids from 1 on both sides finds the same ids. *)
Lemma common_one_based a b : common (one_based a) (one_based b) = common a b.
Proof.
  unfold common. f_equal.
  assert (forall l : list Z, list_to_set (one_based l) = set_map (D := gset Z) (fun x => x + 1) (list_to_set l : gset Z)) as Hm.
  { intros l. apply set_eq. intros x. rewrite elem_of_list_to_set, elem_of_map. unfold one_based.
    rewrite list_elem_of_fmap. split; intros (y & -> & Hy); exists y; set_solver. }
  rewrite !Hm. transitivity (size (set_map (D := gset Z) (fun x => x + 1) (list_to_set a ∩ list_to_set b : gset Z) : gset Z)).
  - f_equal. apply set_eq. intros x. set_unfold. split.
    + intros ((y & -> & Hy) & z & E & Hz). assert (z = y) as -> by lia. by exists y.
    + intros (y & -> & Hy & Hz). split; by exists y.
  - apply size_map_succ.
Qed.

Section Rules.
Context {W : Type} {C : Clock}.

(** [map_each]: [J j] before the [j]-th element, and [R j] between it and its value. *)
Lemma wp_map_each {X Y} (J : nat -> bench W -> Prop) (R : nat -> X -> Y -> Prop) (f : X -> M (bench W) Y) xs a b :
  (forall j x b, xs !! j = Some x -> J (a + j)%nat b ->
    wp (f x) b (fun r b' => (exists y, r = Ok y /\ R (a + j)%nat x y) /\ J (a + S j)%nat b')) ->
  J a b ->
  wp (map_each f xs) b (fun r b' =>
    (exists ys, r = Ok ys /\ length ys = length xs /\
      forall j x y, xs !! j = Some x -> ys !! j = Some y -> R (a + j)%nat x y) /\
    J (a + length xs)%nat b').
Proof.
  revert a b. induction xs as [|x xs IH]; intros a b Hf HJ; cbn [map_each length].
  - apply wp_ret. rewrite Nat.add_0_r. split; [|done]. by exists [].
  - apply wp_bind. eapply wp_mono; [apply (Hf 0%nat x); [done|by rewrite Nat.add_0_r]|]. intros r b1 [(y & -> & Hy) HJ1].
    cbn beta iota. apply wp_bind. rewrite <- Nat.add_succ_comm. eapply wp_mono; [apply (IH (S a))|].
    + intros j x' b2 Hj HJ2. rewrite !Nat.add_succ_comm in *. by apply Hf.
    + by replace (S a) with (a + 1)%nat by lia.
    + intros r b2 [(ys & -> & Hl & Hys) HJ2]. cbn beta iota. apply wp_ret. split; [|done].
      exists (y :: ys). split; [done|]. split; [cbn; by rewrite Hl|]. intros [|j] x' y' Hx' Hy'; [by simplify_eq/=|].
      rewrite <- Nat.add_succ_comm. by apply Hys.
Qed.

Lemma wp_on_world {A} (m : M W A) (b : bench W) Q :
  wp m (b_world b) (fun r w => Q r (BenchOut w (b_reads b) (b_out b))) -> wp (on_world m) b Q.
Proof. unfold wp, outcome, after, on_world. by destruct (m (b_world b)). Qed.

Lemma wp_clock (b : bench W) (Q : result float -> bench W -> Prop) :
  Q (Ok (ticks (b_reads b))) (BenchOut (b_world b) (S (b_reads b)) (b_out b)) -> wp clock b Q.
Proof. done. Qed.

Lemma wp_print line (b : bench W) (Q : result unit -> bench W -> Prop) :
  Q (Ok tt) (BenchOut (b_world b) (b_reads b) (b_out b ++ [line])) -> wp (print line) b Q.
Proof. done. Qed.

(** The [j]-th measured interval of a loop that began after [c] readings. *)
Definition interval (c j : nat) : float :=
  fmul (fsub (ticks (S (c + 2 * j))) (ticks (c + 2 * j))) (f_of_Z 1000000).

Lemma intervals_cons c n : interval c <$> seq 0 (S n) = interval c 0 :: (interval (S (S c)) <$> seq 0 n).
Proof.
  cbn [seq fmap list_fmap]. f_equal. rewrite <- fmap_S_seq, <- list_fmap_compose.
  apply list_fmap_ext. intros j x _. unfold interval, compose.
  by replace (c + 2 * S x)%nat with (S (S c) + 2 * x)%nat by lia.
Qed.

Definition total_hits (answer truth : nat -> list Z) (todo : list nat) : Z :=
  foldr (fun i h => common (answer i) (truth i) + h) 0 todo.

(** The timed loop, over queries that answer. *)
Lemma wp_timed_queries (J : W -> Prop) query truth answer tr todo lats hits (b : bench W) :
  (forall i w, i ∈ todo -> J w -> wp (query i) w (fun r w' => r = Ok (answer i) /\ J w')) ->
  (forall i, i ∈ todo -> truth i = Ok (tr i)) ->
  J (b_world b) ->
  wp (timed_queries query truth todo lats hits) b (fun r b' =>
    r = Ok (lats ++ (interval (b_reads b) <$> seq 0 (length todo)), hits + total_hits answer tr todo) /\
    J (b_world b') /\ b_reads b' = (b_reads b + 2 * length todo)%nat).
Proof.
  revert lats hits b. induction todo as [|i todo IH]; intros lats hits b Hq Ht HJ.
  - apply wp_ret. rewrite app_nil_r, Z.add_0_r. split_and!; [done|done|cbn; lia].
  - cbn [timed_queries]. unfold timed. do 2 apply wp_bind. apply wp_clock. apply wp_bind, wp_on_world.
    eapply wp_mono; [apply Hq; [set_solver|done]|]. intros r w' [-> HJ']. cbn beta iota.
    apply wp_bind, wp_clock. apply wp_ret. cbn beta iota. rewrite Ht by set_solver. wp_steps.
    eapply wp_mono; [apply IH; [intros; apply Hq; set_solver|intros; apply Ht; set_solver|done]|].
    intros r b' (-> & HJ'' & Hreads). split_and!; [|done|rewrite Hreads; cbn; lia].
    cbn [b_reads]. rewrite <- app_assoc, length_cons, intervals_cons.
    unfold interval at 2. rewrite Nat.mul_0_r, Nat.add_0_r. cbn [app total_hits foldr].
    by rewrite Z.add_assoc.
Qed.

(** The hits of a sweep's setting, over queries that answer. *)
Lemma wp_count_hits (J : W -> Prop) query truth answer tr todo hits (w : W) :
  (forall i w, i ∈ todo -> J w -> wp (query i) w (fun r w' => r = Ok (answer i) /\ J w')) ->
  (forall i, i ∈ todo -> truth i = Ok (tr i)) ->
  J w ->
  wp (count_hits query truth todo hits) w (fun r w' => r = Ok (hits + total_hits answer tr todo) /\ J w').
Proof.
  revert hits w. induction todo as [|i todo IH]; intros hits w Hq Ht HJ; cbn [count_hits].
  - apply wp_ret. by rewrite Z.add_0_r.
  - apply wp_bind. eapply wp_mono; [apply Hq; [set_solver|done]|]. intros r w' [-> HJ']. cbn beta iota.
    rewrite Ht by set_solver. wp_steps.
    eapply wp_mono; [apply IH; [intros; apply Hq; set_solver|intros; apply Ht; set_solver|done]|].
    intros r w'' [-> HJ'']. split; [|done]. cbn [total_hits foldr]. by rewrite Z.add_assoc.
Qed.

(** The clock reaches [stop] at its [t]-th reading from now. *)
Definition stops_after (t c : nat) (stop : float) : Prop :=
  (forall j, (j < t)%nat -> fltb (ticks (c + j)) stop = true) /\ fltb (ticks (c + t)) stop = false.

Lemma wp_batch (I : Z -> W -> Prop) n op i (w : W) :
  (forall k w, i <= k < i + Z.of_nat n -> I k w -> wp (op k) w (fun r w' => r = Ok tt /\ I (k + 1) w')) ->
  I i w -> wp (batch n op i) w (fun r w' => r = Ok tt /\ I (i + Z.of_nat n) w').
Proof.
  revert i w. induction n as [|n IH]; intros i w Hop HI.
  - apply wp_ret. by rewrite Z.add_0_r.
  - cbn [batch]. apply wp_bind. eapply wp_mono; [apply Hop; [lia|done]|]. intros r w' [-> HI']. cbn beta iota.
    replace (i + Z.of_nat (S n)) with (i + 1 + Z.of_nat n) by lia.
    apply IH; [|done]. intros k w0 Hk. apply Hop. lia.
Qed.

(** The workers' loop counts the queries it makes, and ends when the clock says so. *)
Lemma wp_qps_loop (I : Z -> W -> Prop) t fuel op stop i n (b : bench W) :
  (forall k w, i <= k -> I k w -> wp (op k) w (fun r w' => r = Ok tt /\ I (k + 1) w')) ->
  stops_after t (b_reads b) stop -> (t < fuel)%nat -> I i (b_world b) ->
  wp (qps_loop fuel op stop i n) b (fun r b' =>
    r = Ok (n + 16 * Z.of_nat t) /\ I (i + 16 * Z.of_nat t) (b_world b')).
Proof.
  revert fuel i n b. induction t as [|t IH]; intros [|fuel] i n b Hop [Hgo Hstop] Hf HI; try lia; cbn [qps_loop];
    apply wp_bind, wp_clock.
  - rewrite Nat.add_0_r in Hstop. rewrite Hstop. apply wp_ret. by rewrite !Z.add_0_r.
  - pose proof (Hgo 0%nat ltac:(lia)) as H0. rewrite Nat.add_0_r in H0. rewrite H0.
    apply wp_bind, wp_on_world. eapply wp_mono; [apply (wp_batch I); [|done]|].
    { intros k w Hk. apply Hop. lia. }
    intros r w' [-> HI']. cbn beta iota.
    eapply wp_mono; [apply (IH fuel)|]; [|split| | |]; cbn [b_reads b_world].
    + intros k w Hk. apply Hop. lia.
    + intros j Hj. replace (S (b_reads b) + j)%nat with (b_reads b + S j)%nat by lia. apply Hgo. lia.
    + by replace (S (b_reads b) + t)%nat with (b_reads b + S t)%nat by lia.
    + lia.
    + done.
    + intros r b' [-> HI'']. split; [f_equal; lia|].
      by replace (i + 16 * Z.of_nat (S t)) with (i + 16 + 16 * Z.of_nat t) by lia.
Qed.
End Rules.

(** ** The figures a latency run reports *)

Lemma p99_index : int_of_float (fmul (f_of_Z (Z.of_nat LAT_N)) (f_of_lit 0.99%lit)) = Ok 1980.
Proof. by vm_compute. Qed.
#[global] Opaque LAT_N.

Lemma LAT_N_eq : Z.of_nat LAT_N = 2000.
Proof. by vm_compute. Qed.

(** The percentiles of a run are two of its times, in order. *)
Lemma percentiles_ordered lats :
  numbers lats -> length lats = LAT_N ->
  exists a b, p50 (f_sort lats) = Ok a /\ p99 (f_sort lats) = Ok b /\ a ∈ lats /\ b ∈ lats /\ fleb a b = true.
Proof.
  intros Hn Hl. assert (Z.of_nat (length (f_sort lats)) = 2000) as Hlen by by rewrite length_f_sort, Hl, LAT_N_eq.
  destruct (lookup_lt_is_Some_2 (f_sort lats) 1000) as [a Ha]; [lia|].
  destruct (lookup_lt_is_Some_2 (f_sort lats) 1980) as [b Hb]; [lia|].
  exists a, b. unfold p50, p99. split_and!.
  - rewrite Hlen. by apply (py_item_lookup _ 1000).
  - rewrite length_f_sort, Hl, p99_index. by apply (py_item_lookup _ 1980).
  - rewrite <- (f_sort_perm lats). by eapply list_elem_of_lookup_2.
  - rewrite <- (f_sort_perm lats). by eapply list_elem_of_lookup_2.
  - apply (f_sorted_lookup (f_sort lats) 1000 1980); [|by apply f_sort_sorted|lia|done|done].
    by eapply numbers_perm; [apply f_sort_perm|].
Qed.

(** The recall of a run is a correctly rounded ratio. *)
Lemma recall_ratio hits : recall hits (Z.of_nat LAT_N) RECALL_K = Ok (f_of_ratio hits 20000).
Proof. by rewrite LAT_N_eq. Qed.

Lemma total_hits_range answer tr todo k :
  (forall i, i ∈ todo -> (length (tr i) <= k)%nat) ->
  0 <= total_hits answer tr todo <= Z.of_nat (length todo * k).
Proof.
  induction todo as [|i todo IH]; intros Hk; [done|]. cbn [total_hits foldr length].
  pose proof (common_range (answer i) (tr i)). pose proof (Hk i ltac:(set_solver)).
  specialize (IH ltac:(intros j Hj; apply Hk; set_solver)). unfold total_hits in IH. lia.
Qed.

Lemma total_hits_ext answer answer' tr todo :
  (forall i, i ∈ todo -> answer i = answer' i) -> total_hits answer tr todo = total_hits answer' tr todo.
Proof.
  induction todo as [|i todo IH]; intros Ha; [done|]. cbn [total_hits foldr]. rewrite (Ha i) by by left.
  f_equal. apply IH. intros j Hj. apply Ha. by right.
Qed.

(** The 1-based ground truth of the query [i]. *)
Definition run_truth (gt : list (list Z)) (i : nat) : list Z := one_based (gt !!! i).

Lemma truth_item (gt : list (list Z)) i : (i < length gt)%nat -> truth_of gt i = Ok (run_truth gt i).
Proof.
  intros Hi. unfold run_truth. destruct (lookup_lt_is_Some_2 gt i Hi) as [r Hr].
  unfold truth_of. by rewrite (py_item_lookup _ _ _ Hr), (list_lookup_total_correct _ _ _ Hr).
Qed.

Lemma truth_small (gt : list (list Z)) i :
  Forall (fun r => (length r <= 10)%nat) gt -> (length (run_truth gt i) <= 10)%nat.
Proof.
  intros Hgt. unfold run_truth, one_based. rewrite length_fmap. rewrite list_lookup_total_alt.
  destruct (gt !! i) as [r|] eqn:Hr; [|cbn; lia]. cbn.
  apply (Forall_elem _ _ _ Hgt). by eapply list_elem_of_lookup_2.
Qed.

Lemma mean_of (lats : list float) : length lats = LAT_N -> exists m, mean lats = Ok m.
Proof.
  intros Hl. unfold mean. rewrite Hl, LAT_N_eq. unfold py_fdiv.
  change (f_is_zero (f_of_Z 2000)) with false. by eexists.
Qed.

(** Against a ground truth of ten ids a query, the hits are at most ten a query. *)
Lemma found_range (answer : nat -> list Z) gt :
  Forall (fun r => (length r <= 10)%nat) gt -> 0 <= total_hits answer (run_truth gt) (seq 0 LAT_N) <= 20000.
Proof.
  intros Hgt. pose proof (total_hits_range answer (run_truth gt) (seq 0 LAT_N) 10) as Hr. pose proof LAT_N_eq.
  rewrite length_seq in Hr. specialize (Hr (fun i _ => truth_small gt i Hgt)). lia.
Qed.

(** The figures of a run: its recall, rounded once, and two of its times, in order. *)
Lemma figures_report times found :
  numbers times -> length times = LAT_N ->
  exists p q m, figures times found = Ok (f_of_ratio found 20000, p, q, m) /\
    p ∈ times /\ q ∈ times /\ fleb p q = true.
Proof.
  intros Hnum Hlen. destruct (percentiles_ordered times Hnum Hlen) as (p & q & Hp & Hq & Hin & Hin' & Hle).
  destruct (mean_of (f_sort times)) as [m Hm]; [by rewrite length_f_sort|].
  exists p, q, m. split; [|done]. unfold figures. by rewrite recall_ratio, Hp, Hq, Hm.
Qed.

(** ** Pools *)

(** All the turns of the workers of a pool. *)
Definition pool_turns (conc : Z) (turns : nat -> nat) : nat := sum_list (turns <$> seq 0 (Z.to_nat conc)).

Lemma foldl_add_turns (turns : nat -> nat) (l : list nat) z :
  foldl Z.add z ((fun i => 16 * Z.of_nat (turns i)) <$> l) =
  z + 16 * Z.of_nat (sum_list (turns <$> l)).
Proof.
  revert z. induction l as [|i l IH]; intros z; [cbn; lia|].
  rewrite !fmap_cons. cbn [foldl]. rewrite IH. change (sum_list (turns i :: (turns <$> l))) with (turns i + sum_list (turns <$> l))%nat. lia.
Qed.

(** A pool whose workers count their queries counts them all. *)
Lemma pool_sum_counts {W} conc (procs : nat -> proc W) worker turns :
  1 <= conc ->
  (forall i, (i < Z.to_nat conc)%nat -> run_proc procs worker i = Ok (16 * Z.of_nat (turns i))) ->
  pool_sum conc procs worker = Ok (16 * Z.of_nat (pool_turns conc turns)).
Proof.
  intros Hc Hw. unfold pool_sum. rewrite (proj2 (Z.ltb_ge _ _)) by lia.
  rewrite (mapR_ok _ (fun i => 16 * Z.of_nat (turns i))).
  - cbn [mbind result_bind]. by rewrite foldl_add_turns, Z.add_0_l.
  - intros i [_ Hi]%elem_of_seq. by apply Hw.
Qed.

(** Its rate is its total over the time between the parent's two readings. *)
Lemma wp_pool_qps {W} {C : Clock} conc procs worker total (b : bench W) (Q : result float -> bench W -> Prop) :
  pool_sum conc procs worker = Ok total ->
  Q (py_fdiv (f_of_Z total) (fsub (ticks (S (b_reads b))) (ticks (b_reads b)))) (BenchOut (b_world b) (S (S (b_reads b))) (b_out b)) ->
  wp (pool_qps conc procs worker) b Q.
Proof.
  intros Hs HQ. unfold pool_qps. apply wp_bind, wp_clock. rewrite Hs. apply wp_bind, wp_lift, wp_bind, wp_clock.
  by apply wp_lift.
Qed.

(** ** Sweeps *)

Lemma rate_ok total time : f_is_zero time = false -> exists qps, py_fdiv (f_of_Z total) time = Ok qps.
Proof. intros Hz. unfold py_fdiv. rewrite Hz. by eexists. Qed.

Section Sweeps.
Context {W : Type} {C : Clock}.

(** The [j]-th span between two readings, after [c] readings. *)
Definition span (c j : nat) : float := fsub (ticks (S (c + 2 * j))) (ticks (c + 2 * j)).

Lemma span_first c : span c 0 = fsub (ticks (S c)) (ticks c).
Proof. unfold span. by rewrite Nat.mul_0_r, Nat.add_0_r. Qed.

Lemma span_shift c j : span (c + 2) j = span c (S j).
Proof. unfold span. by replace (c + 2 + 2 * j)%nat with (c + 2 * S j)%nat by lia. Qed.

(** The [j]-th row of a sweep of [n] queries: the setting, the recall of the ids found at it, and
    the rate. *)
Definition row_ok (found : Z -> Z) (n c j : nat) (ef : Z) (row : Z * float * float) : Prop :=
  let '(ef', r, qps) := row in
  ef' = ef /\ recall (found ef) (Z.of_nat n) RECALL_K = Ok r /\ py_fdiv (f_of_Z (Z.of_nat n)) (span c j) = Ok qps.

Definition sweep_ok (found : Z -> Z) (n c : nat) (efs : list Z) (rows : list (Z * float * float)) : Prop :=
  length rows = length efs /\
  forall j ef row, efs !! j = Some ef -> rows !! j = Some row -> row_ok found n c j ef row.

(** The rows one after the other, each between two readings of the clock. *)
Lemma wp_rows (J : W -> Prop) (f : Z -> M (bench W) (Z * float * float)) found n c efs (b : bench W) :
  (forall j ef b, efs !! j = Some ef -> J (b_world b) -> b_reads b = (c + 2 * j)%nat ->
    wp (f ef) b (fun r b' => (exists row, r = Ok row /\ row_ok found n c j ef row) /\
      J (b_world b') /\ b_reads b' = (c + 2 * S j)%nat)) ->
  J (b_world b) -> b_reads b = c ->
  wp (map_each f efs) b (fun r b' => (exists rows, r = Ok rows /\ sweep_ok found n c efs rows) /\ J (b_world b')).
Proof.
  intros Hf HJ Hc.
  eapply wp_mono; [apply (wp_map_each (fun j b => J (b_world b) /\ b_reads b = (c + 2 * j)%nat) (row_ok found n c) f efs 0)|].
  - intros j ef b1 Hj [HJ1 Hc1]. by apply Hf.
  - split; [done|lia].
  - intros r b' [Hr [HJ' _]]. by split.
Qed.

(** A row's figures exist. *)
Lemma row_figures (found : Z -> Z) n c j ef :
  (0 < n)%nat -> f_is_zero (span c j) = false ->
  exists r qps, recall (found ef) (Z.of_nat n) RECALL_K = Ok r /\ py_fdiv (f_of_Z (Z.of_nat n)) (span c j) = Ok qps.
Proof.
  intros Hn Hz. unfold recall, py_int_div, py_fdiv. rewrite Hz.
  destruct (Z.of_nat n * RECALL_K) as [|p|p] eqn:E; [unfold RECALL_K in E; lia|by do 2 eexists|unfold RECALL_K in E; lia].
Qed.

(** A sweep of queries that answer. *)
Lemma wp_sweep (J : W -> Prop) width query truth (answer : Z -> nat -> list Z) tr n efs (b : bench W) :
  (forall ef i w, ef ∈ efs -> (i < n)%nat -> J w -> wp (query ef i) w (fun r w' => r = Ok (answer ef i) /\ J w')) ->
  (forall i, (i < n)%nat -> truth i = Ok (tr i)) -> (0 < n)%nat ->
  (forall j, (j < length efs)%nat -> f_is_zero (span (b_reads b) j) = false) -> J (b_world b) ->
  wp (map_each (sweep_row width query truth n) efs) b (fun r b' =>
    (exists rows, r = Ok rows /\ sweep_ok (fun ef : Z => total_hits (answer ef) tr (seq 0 n)) n (b_reads b) efs rows) /\
    J (b_world b')).
Proof.
  intros Hq Ht Hn Hz HJ. apply wp_rows; [|done|done]. intros j ef b1 Hj HJ1 Hc1.
  unfold sweep_row. apply wp_bind, wp_clock. apply wp_bind, wp_on_world. cbn [b_world b_reads].
  eapply wp_mono; [apply (wp_count_hits J (query ef) truth (answer ef) tr); [| |done]|].
  - intros i w [_ Hi]%elem_of_seq. apply Hq; [by eapply list_elem_of_lookup_2|lia].
  - intros i [_ Hi]%elem_of_seq. apply Ht. lia.
  - intros r w' [-> HJ']. cbn beta iota. rewrite Z.add_0_l. set (found := fun ef : Z => total_hits (answer ef) tr (seq 0 n)).
    apply wp_bind, wp_clock. cbn [b_world b_reads]. rewrite Hc1.
    destruct (row_figures found n (b_reads b) j ef Hn) as (rc & qps & Hr & Hqps); [by eapply Hz, lookup_lt_Some|].
    fold (span (b_reads b) j). change (found ef) with (total_hits (answer ef) tr (seq 0 n)) in Hr.
    apply wp_bind, wp_lift. rewrite Hr. apply wp_bind, wp_lift. rewrite Hqps. apply wp_bind, wp_print.
    apply wp_ret. split; [by exists (ef, rc, qps)|]. split; [done|cbn [b_reads]; lia].
Qed.
End Sweeps.
