(* ===== verification/Pool.v ===== *)
(** * Pools: workers that run at the same time against one server

    {!Bench.pool_sum} runs the processes of a pool one after the other, each on its own copy of
    the world.  Here they run together: a worker is a state machine that goes through
    [_qps_worker] one reading of the clock or one query at a time, the workers of a pool take
    their steps in any order, and one server answers them all.  The server handles a request at
    a time; what a worker has for itself, its connection, is its own.  What is proved of every
    order of the steps is what justifies the copies. *)

From stdpp Require Import relations.
From S2P Require Import Prelude Bytes Float64 FloatOrder Bench.
#[local] Open Scope Z_scope.

(** The shape of [_qps_worker] in the three clients. *)
Definition qps_worker {W H} {C : Clock} (open : M W H) (op : H -> Z -> M W unit) (close : H -> M W unit) (DUR : float)
    (fuel wid : nat) : M (bench W) Z :=
  h ← on_world open;
  t ← clock;
  n ← qps_loop fuel (op h) (fadd t DUR) (Z.of_nat wid) 0;
  _ ← on_world (close h);
  mret n.

Section Machine.
(** the server, what a worker has for itself, and its handle: a connection or a stub *)
Context {S L H : Type}.
Variables (open : M (L * S) H) (op : H -> Z -> M (L * S) unit) (close : H -> M (L * S) unit).
Variable DUR : float.

(** Where a worker is: before its connection, before its first reading of the clock, at the head
    of its loop, with [k] queries of a batch left, before closing, or done.  [i] is the number
    of its next query and [n] its count. *)
Inductive control :=
| Starting
| Timing (h : H)
| Checking (h : H) (stop : float) (i n : Z)
| Batching (h : H) (stop : float) (k : nat) (i n : Z)
| Closing (h : H) (n : Z)
| Finished (r : result Z).

Record worker := Worker { wk_control : control; wk_local : L; wk_reads : nat }.

(** One step of the worker [wid]: what it becomes, the query that was answered if one was, and
    what the server becomes. *)
Definition worker_step (C : Clock) (wid : nat) (wk : worker) (s : S) : option (worker * option Z * S) :=
  let l := wk_local wk in
  let c := wk_reads wk in
  match wk_control wk with
  | Starting =>
      let '(r, (l, s)) := open (l, s) in
      Some (Worker (match r with Ok h => Timing h | Raise e => Finished (Raise e) end) l c, None, s)
  | Timing h => Some (Worker (Checking h (fadd (ticks c) DUR) (Z.of_nat wid) 0) l (Datatypes.S c), None, s)
  | Checking h stop i n =>
      Some (Worker (if fltb (ticks c) stop then Batching h stop 16 i n else Closing h n) l (Datatypes.S c), None, s)
  | Batching h stop O i n => Some (Worker (Checking h stop i n) l c, None, s)
  | Batching h stop (Datatypes.S k) i n =>
      let '(r, (l, s)) := op h i (l, s) in
      match r with
      | Ok _ => Some (Worker (Batching h stop k (i + 1) (n + 1)) l c, Some i, s)
      | Raise e => Some (Worker (Finished (Raise e)) l c, None, s)
      end
  | Closing h n =>
      let '(r, (l, s)) := close h (l, s) in
      Some (Worker (Finished (match r with Ok _ => Ok n | Raise e => Raise e end)) l c, None, s)
  | Finished _ => None
  end.

(** A pool: its workers, the server, and the queries answered so far, in the order the server
    answered them, each with the worker that made it. *)
Record pool := Pool { p_workers : list worker; p_server : S; p_log : list (nat * Z) }.

(** Any worker may take the next step. *)
Inductive pool_step (clocks : nat -> Clock) : pool -> pool -> Prop :=
| worker_steps w wk wk' ev s s' ws log :
    ws !! w = Some wk ->
    worker_step (clocks w) w wk s = Some (wk', ev, s') ->
    pool_step clocks (Pool ws s log) (Pool (<[w := wk']> ws) s' (log ++ (pair w <$> option_list ev))).

Definition pool_start (conc : Z) (locals : nat -> L) (s : S) : pool :=
  Pool ((fun w => Worker Starting (locals w) 0) <$> seq 0 (Z.to_nat conc)) s [].

(** What [sum(pool.map(...))] returns once every worker is done. *)
Definition worker_result (wk : worker) : result Z :=
  match wk_control wk with Finished r => r | _ => Raise (OtherError "still running") end.
Definition pool_total (p : pool) : result Z :=
  ns ← mapR worker_result (p_workers p); Ok (foldl Z.add 0 ns).

(** A pool run by a schedule: which worker takes each step. *)
Fixpoint run_schedule (clocks : nat -> Clock) (turns : list nat) (p : pool) : option pool :=
  match turns with
  | [] => Some p
  | w :: turns =>
      wk ← p_workers p !! w;
      '(wk', ev, s) ← worker_step (clocks w) w wk (p_server p);
      run_schedule clocks turns (Pool (<[w := wk']> (p_workers p)) s (p_log p ++ (pair w <$> option_list ev)))
  end.

Lemma run_schedule_steps clocks turns p p' :
  run_schedule clocks turns p = Some p' -> nsteps (pool_step clocks) (length turns) p p'.
Proof.
  revert p. induction turns as [|w turns IH]; intros p Hp; cbn [run_schedule length] in *; [simplify_eq; constructor|].
  apply bind_Some in Hp as (wk & Hwk & Hp). apply bind_Some in Hp as ([[wk' ev] s] & Hstep & Hp).
  econstructor; [|by apply IH]. destruct p. by econstructor.
Qed.

(** ** A worker alone is the program *)

Inductive solo_step (C : Clock) (wid : nat) : worker * S -> worker * S -> Prop :=
| alone wk wk' ev s s' : worker_step C wid wk s = Some (wk', ev, s') -> solo_step C wid (wk, s) (wk', s').

(** A worker at [ctl], in the state [b] of the program. *)
Definition at_ (ctl : control) (b : bench (L * S)) : worker * S :=
  (Worker ctl (b_world b).1 (b_reads b), (b_world b).2).

Lemma solo_batch C wid h stop k i n (b : bench (L * S)) :
  let '(r, b') := on_world (batch k (op h) i) b in
  rtc (solo_step C wid) (at_ (Batching h stop k i n) b)
    (at_ (match r with Ok _ => Checking h stop (i + Z.of_nat k) (n + Z.of_nat k) | Raise e => Finished (Raise e) end) b').
Proof.
  revert i n b. induction k as [|k IH]; intros i n [[l s] c o].
  - cbn. rewrite !Z.add_0_r. apply rtc_once. by econstructor.
  - unfold on_world. cbn [batch b_world b_reads]. unfold mbind, M_bind.
    destruct (op h i (l, s)) as [[u|e] [l' s']] eqn:Hop.
    + specialize (IH (i + 1) (n + 1) (BenchOut (l', s') c o)). unfold on_world in IH. cbn [b_world b_reads b_out] in IH.
      destruct (batch k (op h) (i + 1) (l', s')) as [r w2]. eapply rtc_l.
      * eapply (alone _ _ _ _ (Some i)). cbn. by rewrite Hop.
      * replace (i + Z.of_nat (Datatypes.S k)) with (i + 1 + Z.of_nat k) by lia.
        replace (n + Z.of_nat (Datatypes.S k)) with (n + 1 + Z.of_nat k) by lia. exact IH.
    + apply rtc_once. eapply (alone _ _ _ _ None). cbn. by rewrite Hop.
Qed.

Definition out_of_fuel : result Z := Raise (OtherError "out of fuel").

Lemma solo_loop (C : Clock) wid h fuel stop i n (b : bench (L * S)) :
  let '(r, b') := qps_loop fuel (op h) stop i n b in
  r <> out_of_fuel ->
  rtc (solo_step C wid) (at_ (Checking h stop i n) b)
    (at_ (match r with Ok n => Closing h n | Raise e => Finished (Raise e) end) b').
Proof.
  revert i n b. induction fuel as [|fuel IH]; intros i n [[l s] c o]; [by intros []|].
  cbn [qps_loop]. unfold clock, mbind, M_bind. cbn [b_world b_reads b_out].
  assert (forall ctl, (if fltb (ticks c) stop then Batching h stop 16 i n else Closing h n) = ctl ->
    solo_step C wid (at_ (Checking h stop i n) (BenchOut (l, s) c o)) (at_ ctl (BenchOut (l, s) (Datatypes.S c) o))) as Hcheck.
  { intros ctl <-. by apply (alone _ _ _ _ None). }
  destruct (fltb (ticks c) stop); [|intros _; by apply rtc_once, Hcheck].
  pose proof (solo_batch C wid h stop 16 i n (BenchOut (l, s) (Datatypes.S c) o)) as Hbatch.
  destruct (on_world (batch 16 (op h) i) (BenchOut (l, s) (Datatypes.S c) o)) as [[u|e] b1].
  - specialize (IH (i + 16) (n + 16) b1). destruct (qps_loop fuel (op h) stop (i + 16) (n + 16) b1) as [r b2].
    intros Hr. eapply rtc_l; [by apply Hcheck|]. etrans; [exact Hbatch|by apply IH].
  - intros _. eapply rtc_l; [by apply Hcheck|exact Hbatch].
Qed.

(** The steps of a worker that runs alone lead to what the program returns, on the state it
    leaves, error or not, unless it is not given the time. *)
Lemma solo_runs (C : Clock) wid fuel (b : bench (L * S)) :
  let '(r, b') := qps_worker open op close DUR fuel wid b in
  r <> out_of_fuel -> rtc (solo_step C wid) (at_ Starting b) (at_ (Finished r) b').
Proof.
  destruct b as [[l s] c o]. unfold qps_worker, on_world, clock, mbind, M_bind. cbn [b_world b_reads b_out].
  destruct (open (l, s)) as [[h|e] [l1 s1]] eqn:Hopen.
  2: { intros _. apply rtc_once. eapply (alone _ _ _ _ None). cbn. by rewrite Hopen. }
  cbn [b_world b_reads b_out].
  pose proof (solo_loop C wid h fuel (fadd (ticks c) DUR) (Z.of_nat wid) 0 (BenchOut (l1, s1) (Datatypes.S c) o)) as Hloop.
  destruct (qps_loop fuel (op h) _ _ _ _) as [[n|e] [[l2 s2] c2 o2]].
  - cbn [b_world b_reads b_out]. destruct (close h (l2, s2)) as [[u|e] [l3 s3]] eqn:Hclose; intros _;
      (eapply rtc_l; [eapply (alone _ _ _ _ None); cbn; by rewrite Hopen|]);
      (eapply rtc_l; [by eapply (alone _ _ _ _ None)|]);
      (etrans; [by apply Hloop|]); apply rtc_once; eapply (alone _ _ _ _ None); cbn; by rewrite Hclose.
  - intros Hr. eapply rtc_l; [eapply (alone _ _ _ _ None); cbn; by rewrite Hopen|].
    eapply rtc_l; [by eapply (alone _ _ _ _ None)|]. by apply Hloop.
Qed.
End Machine.

(** ** Programs on a part of the world *)

(** A program of a world [V], run in a world [W] that has one. *)
Section Focus.
Context {V W : Type} (get : W -> V) (set : V -> W -> W).
Hypothesis get_set : forall v w, get (set v w) = v.
Hypothesis set_set : forall v v' w, set v (set v' w) = set v w.
Hypothesis set_get : forall w, set (get w) w = w.

Definition focus {A} (m : M V A) : M W A := fun w => let '(r, v) := m (get w) in (r, set v w).
Definition focus_bench (b : bench V) (w : W) : bench W := BenchOut (set (b_world b) w) (b_reads b) (b_out b).

(** Two programs do the same, one of them in the part. *)
Definition focused {A} (m : M (bench V) A) (m' : M (bench W) A) : Prop :=
  forall b w, m' (focus_bench b w) = let '(r, b') := m b in (r, focus_bench b' w).

(** An operation of the world that is one of its part. *)
Definition is_focus {A} (m : M V A) (m' : M W A) : Prop := forall w, m' w = focus m w.

Lemma focused_on_world {A} (m : M V A) m' : is_focus m m' -> focused (on_world m) (on_world m').
Proof using get_set set_set.
  intros Hm [v c o] w. unfold on_world, focus_bench. cbn [b_world b_reads b_out]. rewrite Hm. unfold focus. rewrite get_set.
  destruct (m v) as [r v']. cbn. by rewrite set_set.
Qed.
Lemma focused_bind {A B} (m : M (bench V) A) m' (f : A -> M (bench V) B) f' :
  focused m m' -> (forall a, focused (f a) (f' a)) -> focused (a ← m; f a) (a ← m'; f' a).
Proof using. intros Hm Hf b w. unfold mbind, M_bind. rewrite Hm. destruct (m b) as [[a|e] b1]; [apply Hf|done]. Qed.
Lemma focused_clock {C : Clock} : focused clock clock.
Proof using. by intros [v c o] w. Qed.
Lemma focused_ret {A} (a : A) : focused (mret a) (mret a).
Proof using. by intros b w. Qed.

Lemma focused_batch op op' k i : (forall i, is_focus (op i) (op' i)) -> is_focus (batch k op i) (batch k op' i).
Proof using get_set set_set set_get.
  intros Hop. revert i. induction k as [|k IH]; intros i w; [by cbn; unfold focus; cbn; rewrite set_get|].
  cbn [batch]. unfold focus, mbind, M_bind in *. rewrite Hop. unfold focus. destruct (op i (get w)) as [[[]|e] v]; [|done].
  rewrite IH. unfold focus. rewrite get_set. destruct (batch k op (i + 1) v) as [r v']. by rewrite set_set.
Qed.

Lemma focused_loop {C : Clock} fuel op op' stop i n :
  (forall i, is_focus (op i) (op' i)) -> focused (qps_loop fuel op stop i n) (qps_loop fuel op' stop i n).
Proof using get_set set_set set_get.
  intros Hop. revert i n. induction fuel as [|fuel IH]; intros i n; [by intros b w|]. cbn [qps_loop].
  apply focused_bind; [apply focused_clock|]. intros t. destruct (fltb t stop); [|apply focused_ret].
  apply focused_bind; [by apply focused_on_world, focused_batch|intros u; apply IH].
Qed.

Lemma focused_worker {H} {C : Clock} (open : M V H) open' op op' close close' DUR fuel wid :
  is_focus open open' -> (forall h i, is_focus (op h i) (op' h i)) -> (forall h, is_focus (close h) (close' h)) ->
  focused (qps_worker open op close DUR fuel wid) (qps_worker open' op' close' DUR fuel wid).
Proof using get_set set_set set_get.
  intros Ho Hop Hc. unfold qps_worker. apply focused_bind; [by apply focused_on_world|intros h].
  apply focused_bind; [apply focused_clock|intros t]. apply focused_bind; [by apply focused_loop|intros n].
  apply focused_bind; [by apply focused_on_world|intros u]. apply focused_ret.
Qed.
End Focus.

(** A worker that has nothing to close. *)
Lemma qps_worker_open {W H} {C : Clock} (open : M W H) (op : H -> Z -> M W unit) DUR fuel wid b :
  qps_worker open op (fun _ => mret tt) DUR fuel wid b =
  (h ← on_world open; t ← clock; qps_loop fuel (op h) (fadd t DUR) (Z.of_nat wid) 0) b.
Proof.
  unfold qps_worker, mbind, M_bind. destruct (on_world open b) as [[h|e] b1]; [|done].
  destruct (clock b1) as [[t|e] b2]; [|done]. destruct (qps_loop _ _ _ _ _ b2) as [[n|e] [w c o]]; done.
Qed.

(** ** Every order of the steps *)

Section Interleavings.
Context {S L H : Type}.
Variables (open : M (L * S) H) (op : H -> Z -> M (L * S) unit) (close : H -> M (L * S) unit).
Variables (DUR : float) (clocks : nat -> Clock) (conc : Z) (locals : nat -> L) (turns : nat -> nat).
(** what holds of a worker's connection between its queries, what holds of the server, and what
    answering the query [i] does to the server *)
Variables (good : H -> L -> Prop) (inv : S -> Prop) (effect : Z -> S -> S).

(** The workers that have connected are answered whatever the server has answered before, and
    the clock of each reaches its deadline at the check [turns w]. *)
Record pool_ok : Prop := {
  open_ok w s : inv s -> exists h l, open (locals w, s) = (Ok h, (l, s)) /\ good h l;
  op_ok h i l s : 0 <= i -> good h l -> inv s ->
    exists l', op h i (l, s) = (Ok tt, (l', effect i s)) /\ good h l' /\ inv (effect i s);
  close_ok h l s : good h l -> inv s -> exists l', close h (l, s) = (Ok tt, (l', s));
  clock_ok w : (w < Z.to_nat conc)%nat -> stops_after (C := clocks w) (turns w) 1 (fadd (clocks w 0%nat) DUR)
}.
Hypothesis Hok : pool_ok.

#[local] Abbreviation worker := (worker (L := L) (H := H)).
#[local] Abbreviation pool := (pool (S := S) (L := L) (H := H)).
#[local] Abbreviation worker_step := (worker_step open op close DUR).
#[local] Abbreviation pool_step := (pool_step open op close DUR clocks).

Definition deadline (w : nat) : float := fadd (clocks w 0%nat) DUR.

(** All the steps of the worker [w]: its connection, its first reading, eighteen steps a turn,
    its last check, and its end. *)
Definition steps_of (w : nat) : nat := 18 * turns w + 4.

(** [on_track w wk todo sent]: the worker [w] is at [wk], with [todo] steps to make, after [sent]
    queries. *)
Inductive on_track (w : nat) : worker -> nat -> nat -> Prop :=
| track_starting : on_track w (Worker Starting (locals w) 0) (18 * turns w + 4) 0
| track_timing h l : good h l -> on_track w (Worker (Timing h) l 0) (18 * turns w + 3) 0
| track_checking h l c i n todo sent :
    good h l -> (c <= turns w)%nat -> sent = (16 * c)%nat -> todo = (18 * (turns w - c) + 2)%nat ->
    i = Z.of_nat (w + sent) -> n = Z.of_nat sent ->
    on_track w (Worker (Checking h (deadline w) i n) l (1 + c)) todo sent
| track_batching h l c k i n todo sent :
    good h l -> (c < turns w)%nat -> (k <= 16)%nat -> sent = (16 * c + (16 - k))%nat ->
    todo = (k + 1 + 18 * (turns w - c - 1) + 2)%nat -> i = Z.of_nat (w + sent) -> n = Z.of_nat sent ->
    on_track w (Worker (Batching h (deadline w) k i n) l (2 + c)) todo sent
| track_closing h l n c sent :
    good h l -> sent = (16 * turns w)%nat -> n = Z.of_nat sent -> on_track w (Worker (Closing h n) l c) 1 sent
| track_finished l n c sent :
    sent = (16 * turns w)%nat -> n = Z.of_nat sent -> on_track w (Worker (Finished (Ok n)) l c) 0 sent.

(** A step of a worker on track: one of its steps is made, and perhaps one of its queries. *)
Lemma track_step w wk todo sent s :
  (w < Z.to_nat conc)%nat -> on_track w wk todo sent -> inv s ->
  match todo with
  | O => worker_step (clocks w) w wk s = None
  | Datatypes.S todo => exists wk' ev s',
      worker_step (clocks w) w wk s = Some (wk', ev, s') /\ inv s' /\
      match ev with
      | None => on_track w wk' todo sent /\ s' = s
      | Some i => on_track w wk' todo (Datatypes.S sent) /\ i = Z.of_nat (w + sent) /\ s' = effect i s
      end
  end.
Proof using Hok.
  intros Hw Htr Hs. destruct (clock_ok Hok w Hw) as [Hgo Hstop].
  destruct Htr as [|h l Hg|h l c i n todo sent Hg Hc -> -> -> ->|h l c k i n todo sent Hg Hc Hk -> -> -> ->|h l n c sent Hg -> ->|].
  - rewrite Nat.add_comm. cbn [Nat.add]. destruct (open_ok Hok w s Hs) as (h & l & Ho & Hg).
    exists (Worker (Timing h) l 0), None, s. cbn. rewrite Ho. split_and!; [done|done| |done].
    replace (Datatypes.S _) with (18 * turns w + 3)%nat by lia. by constructor.
  - rewrite Nat.add_comm. cbn [Nat.add]. eexists _, None, s. split_and!; [done|done| |done].
    apply (track_checking w h l 0); [done|lia|lia|lia|lia|done].
  - replace (18 * (turns w - c) + 2)%nat with (Datatypes.S (18 * (turns w - c) + 1)) by lia.
    eexists _, None, s. split_and!; [done|done| |done]. cbn [wk_reads wk_local]. destruct (decide (c = turns w)) as [->|Hne].
    + assert (fltb (ticks (Clock := clocks w) (1 + turns w)) (deadline w) = false) as E by exact Hstop. rewrite E.
      replace (18 * (turns w - turns w) + 1)%nat with 1%nat by lia. by constructor.
    + assert (fltb (ticks (Clock := clocks w) (1 + c)) (deadline w) = true) as E by (apply Hgo; lia). rewrite E.
      apply (track_batching w h l c 16); [done|lia|lia|lia|lia|done|done].
  - destruct k as [|k].
    + cbn [Nat.add]. eexists _, None, s. split_and!; [done|done| |done].
      apply (track_checking w h l (1 + c)); [done|lia|lia|lia|lia|done].
    + cbn [Nat.add]. destruct (op_ok Hok h (Z.of_nat (w + (16 * c + (16 - Datatypes.S k)))) l s) as (l' & Hop & Hg' & Hs'); [lia|done|done|].
      eexists _, (Some _), _. split_and!; [unfold Pool.worker_step; cbn [wk_control wk_local wk_reads]; by rewrite Hop|done| |done|done].
      apply (track_batching w h l' c k); [done|lia|lia|lia|lia|lia|lia].
  - destruct (close_ok Hok h l s Hg Hs) as (l' & Hcl). eexists _, None, s. split_and!; [cbn; by rewrite Hcl|done| |done]. by constructor.
  - done.
Qed.

(** The queries of the worker [w] in a log, in order. *)
Definition queries_of (w : nat) (log : list (nat * Z)) : list Z := (filter (fun e => e.1 = w) log).*2.

Lemma queries_of_app w log e :
  queries_of w (log ++ [e]) = queries_of w log ++ if decide (e.1 = w) then [e.2] else [].
Proof.
  unfold queries_of. rewrite list.filter_app, fmap_app. f_equal. rewrite list.filter_cons. by destruct (decide (e.1 = w)).
Qed.

(** The queries a worker makes: from its own number on. *)
Definition own_queries (w n : nat) : list Z := (fun j => Z.of_nat (w + j)) <$> seq 0 n.

(** The server after the queries of a log, one after the other. *)
Definition answered (log : list (nat * Z)) (s : S) : S := foldl (fun s e => effect e.2 s) s log.

Definition all_steps : nat := sum_list (steps_of <$> seq 0 (Z.to_nat conc)).

(** What holds of a pool after [k] steps: [todos] and [sents] are its workers' counts. *)
Record pool_inv (s0 : S) (k : nat) (todos sents : list nat) (p : pool) : Prop := {
  inv_workers : length (p_workers p) = Z.to_nat conc;
  inv_todos : length todos = Z.to_nat conc;
  inv_sents : length sents = Z.to_nat conc;
  inv_track w wk t m : p_workers p !! w = Some wk -> todos !! w = Some t -> sents !! w = Some m -> on_track w wk t m;
  inv_server : inv (p_server p);
  inv_answered : p_server p = answered (p_log p) s0;
  inv_queries w m : sents !! w = Some m -> queries_of w (p_log p) = own_queries w m;
  inv_steps : (k + sum_list todos = all_steps)%nat;
  inv_log : length (p_log p) = sum_list sents
}.

Lemma inv_start s : inv s -> pool_inv s 0 (steps_of <$> seq 0 (Z.to_nat conc)) (replicate (Z.to_nat conc) 0%nat) (pool_start conc locals s).
Proof using.
  intros Hs. split; cbn [p_workers p_server p_log pool_start]; rewrite ?length_fmap, ?length_seq, ?length_replicate; try done.
  - intros w wk t m Hwk Ht Hm. apply lookup_replicate in Hm as [-> _]. rewrite list_lookup_fmap in Hwk. rewrite list_lookup_fmap in Ht.
    destruct (seq 0 (Z.to_nat conc) !! w) as [w'|] eqn:Hw; [|done]. apply lookup_seq in Hw as [-> _]. simplify_eq/=.
    constructor.
  - intros w m Hm. apply lookup_replicate in Hm as [-> _]. done.
  - cbn. by induction (Z.to_nat conc).
Qed.

Lemma sum_list_insert (l : list nat) w x y :
  l !! w = Some x -> (sum_list (<[w := y]> l) + x = sum_list l + y)%nat.
Proof.
  revert w. induction l as [|z l IH]; intros [|w] Hw; simplify_eq/=; [lia|]. specialize (IH w Hw). lia.
Qed.

Lemma inv_step s0 k todos sents p p' :
  pool_inv s0 k todos sents p -> pool_step p p' -> exists todos' sents', pool_inv s0 (Datatypes.S k) todos' sents' p'.
Proof using Hok.
  intros Hinv Hstep. destruct Hstep as [w wk wk' ev s s' ws log Hwk Hws]. destruct Hinv as [Hn Ht Hm Htr Hs Hans Hq Hk Hl].
  cbn [p_workers p_server p_log] in *. pose proof (lookup_lt_Some _ _ _ Hwk) as Hlt.
  destruct (lookup_lt_is_Some_2 todos w) as [t Htw]; [lia|]. destruct (lookup_lt_is_Some_2 sents w) as [m Hmw]; [lia|].
  pose proof (track_step w wk t m s ltac:(lia) (Htr w wk t m Hwk Htw Hmw) Hs) as Hone.
  destruct t as [|t]; [congruence|]. destruct Hone as (wk'' & ev' & s'' & Hws' & Hs' & Hev). rewrite Hws in Hws'.
  injection Hws' as <- <- <-. pose proof (sum_list_insert todos w _ t Htw) as Hsum.
  exists (<[w := t]> todos), (if ev is Some _ then <[w := Datatypes.S m]> sents else sents).
  assert (forall m', on_track w wk' t m' -> forall v wkv tv mv (sents' : list nat), sents' !! w = Some m' -> (forall u, u <> w -> sents' !! u = sents !! u) ->
    <[w := wk']> ws !! v = Some wkv -> <[w := t]> todos !! v = Some tv -> sents' !! v = Some mv -> on_track v wkv tv mv) as Hother.
  { intros m' Htr' v wkv tv mv sents' Hm' Hsame Hv1 Hv2 Hv3. destruct (decide (v = w)) as [->|Hne].
    - rewrite list_lookup_insert_eq in Hv1 by lia. rewrite list_lookup_insert_eq in Hv2 by lia. by simplify_eq.
    - rewrite list_lookup_insert_ne in Hv1 by done. rewrite list_lookup_insert_ne in Hv2 by done. rewrite Hsame in Hv3 by done. by apply Htr. }
  destruct ev as [i|].
  - destruct Hev as (Htr' & -> & ->). change (pair w <$> option_list _) with [(w, Z.of_nat (w + m))]. pose proof (sum_list_insert sents w _ (Datatypes.S m) Hmw) as Hsum'.
    split; cbn [p_workers p_server p_log]; rewrite ?length_insert; try done.
    + intros v wkv tv mv Hv1 Hv2 Hv3. apply (Hother _ Htr' v wkv tv mv (<[w := Datatypes.S m]> sents)); [by rewrite list_lookup_insert_eq by lia| |done..].
      intros u Hu. by rewrite list_lookup_insert_ne.
    + unfold answered. by rewrite foldl_app, Hans.
    + intros v mv Hv. rewrite queries_of_app. cbn [fst snd]. destruct (decide (w = v)) as [<-|Hne].
      * rewrite list_lookup_insert_eq in Hv by lia. simplify_eq. unfold own_queries. rewrite seq_S, fmap_app. f_equal. by apply Hq.
      * rewrite list_lookup_insert_ne in Hv by done. rewrite app_nil_r. by apply Hq.
    + lia.
    + rewrite length_app. cbn. lia.
  - destruct Hev as [Htr' ->]. change (pair w <$> option_list None) with (@nil (nat * Z)). rewrite app_nil_r.
    split; cbn [p_workers p_server p_log]; rewrite ?length_insert; try done.
    + intros v wkv tv mv Hv1 Hv2 Hv3. by apply (Hother _ Htr' v wkv tv mv sents).
    + lia.
Qed.

Lemma inv_reached s k p :
  inv s -> nsteps pool_step k (pool_start conc locals s) p -> exists todos sents, pool_inv s k todos sents p.
Proof using Hok.
  intros Hs Hsteps. pose proof (inv_start s Hs) as H0.
  assert (forall k0 q, nsteps pool_step k q p -> forall todos sents, pool_inv s k0 todos sents q ->
    exists todos sents, pool_inv s (k0 + k) todos sents p) as Hgen.
  { clear -Hok. intros k0 q Hn. revert k0. induction Hn as [q|k q q' r Hqq' _ IH]; intros k0 todos sents Hq.
    - rewrite Nat.add_0_r. by exists todos, sents.
    - destruct (inv_step _ _ _ _ _ _ Hq Hqq') as (todos' & sents' & Hq').
      replace (k0 + Datatypes.S k)%nat with (Datatypes.S k0 + k)%nat by lia. by eapply IH. }
  by eapply (Hgen 0%nat).
Qed.

Lemma track_bound w wk todo sent : on_track w wk todo sent -> (sent <= 16 * turns w)%nat.
Proof using. destruct 1; lia. Qed.

Lemma track_end w wk sent :
  on_track w wk 0 sent -> sent = (16 * turns w)%nat /\ worker_result wk = Ok (16 * Z.of_nat (turns w)).
Proof using. inversion 1; subst; try lia. split; [done|]. cbn. f_equal. lia. Qed.

Lemma sum_list_zero (l : list nat) : sum_list l = 0%nat <-> Forall (fun x => x = 0%nat) l.
Proof using.
  split.
  - induction l as [|x l IH]; intros Hl; cbn in *; constructor; [lia|apply IH; lia].
  - induction 1 as [|x l -> _ IH]; [done|exact IH].
Qed.

(** A pool can step while a worker has steps to make. *)
Lemma inv_progress s0 k todos sents p : pool_inv s0 k todos sents p -> sum_list todos <> 0%nat -> red pool_step p.
Proof using Hok.
  intros [Hn Ht Hm Htr Hs _ _ _ _] Hsum. rewrite sum_list_zero in Hsum.
  apply not_Forall_Exists, Exists_exists in Hsum as (t & [w Hw]%list_elem_of_In%list_elem_of_lookup_1 & Hne); [|apply _].
  pose proof (lookup_lt_Some _ _ _ Hw) as Hlt.
  destruct p as [ws s log]. cbn [p_workers p_server] in *.
  destruct (lookup_lt_is_Some_2 ws w) as [wk Hwk]; [lia|]. destruct (lookup_lt_is_Some_2 sents w) as [m Hmw]; [lia|].
  pose proof (track_step w wk t m s ltac:(lia) (Htr w wk t m Hwk Hw Hmw) Hs) as Hone.
  destruct t as [|t]; [by destruct Hne|]. destruct Hone as (wk' & ev & s' & Hstep & _). eexists. by econstructor.
Qed.

(** And cannot when every worker is done. *)
Lemma inv_end s0 k todos sents p : pool_inv s0 k todos sents p -> sum_list todos = 0%nat ->
  nf pool_step p /\
  (forall w wk m, p_workers p !! w = Some wk -> sents !! w = Some m -> on_track w wk 0 m).
Proof using Hok.
  intros [Hn Ht Hm Htr Hs _ _ _ _] Hsum. apply sum_list_zero in Hsum.
  assert (forall w wk m, p_workers p !! w = Some wk -> sents !! w = Some m -> on_track w wk 0 m) as Hall.
  { intros w wk m Hwk Hmw. destruct (lookup_lt_is_Some_2 todos w) as [t Htw]; [apply lookup_lt_Some in Hwk; lia|].
    pose proof (Forall_lookup_1 _ _ _ _ Hsum Htw) as ->. by apply Htr. }
  split; [|done]. intros [p' Hstep]. destruct Hstep as [w wk wk' ev s s' ws log Hwk Hws]. cbn [p_workers p_server] in *.
  pose proof (lookup_lt_Some _ _ _ Hwk) as Hlt. destruct (lookup_lt_is_Some_2 sents w) as [m Hmw]; [lia|].
  pose proof (track_step w wk 0 m s ltac:(lia) (Hall w wk m Hwk Hmw) Hs) as Hone. cbn in Hone. congruence.
Qed.

(** The total of a pool whose workers are done. *)
Lemma total_end (ws : list worker) a :
  (forall j wk, ws !! j = Some wk -> worker_result wk = Ok (16 * Z.of_nat (turns (a + j)))) ->
  mapR worker_result ws = Ok ((fun w => 16 * Z.of_nat (turns w)) <$> seq a (length ws)).
Proof using.
  revert a. induction ws as [|wk ws IH]; intros a Hws; [done|]. cbn [mapR length seq fmap list_fmap].
  rewrite (Hws 0%nat wk eq_refl), Nat.add_0_r. rewrite (IH (Datatypes.S a)); [done|].
  intros j wk' Hj. rewrite (Hws (Datatypes.S j) wk' Hj). by rewrite Nat.add_succ_comm.
Qed.

Lemma sum_list_ext (f : nat -> nat) (l : list nat) a :
  (forall j x, l !! j = Some x -> x = f (a + j)%nat) -> sum_list l = sum_list (f <$> seq a (length l)).
Proof using.
  revert a. induction l as [|x l IH]; intros a Hl; [done|]. cbn [length seq].
  rewrite fmap_cons. change (sum_list (x :: l)) with (x + sum_list l)%nat.
  change (sum_list (f a :: ?r)) with (f a + sum_list r)%nat.
  rewrite (IH (Datatypes.S a)); [|intros j y Hj; rewrite (Hl (Datatypes.S j) y Hj); f_equal; lia].
  by rewrite (Hl 0%nat x eq_refl), Nat.add_0_r.
Qed.

Lemma sum_scaled (l : list nat) : sum_list ((fun w => (16 * turns w)%nat) <$> l) = (16 * sum_list (turns <$> l))%nat.
Proof using. induction l as [|w l IH]; [done|]. rewrite !fmap_cons. cbn [sum_list_with]. rewrite IH. unfold id. lia. Qed.

(** Whatever the order in which the workers of a pool take their steps: the pool makes as many
    steps as its workers have and no more; as long as it has made fewer it can go on; what the
    server has become is what the queries of the log make of it, one after the other; and the
    queries of each worker are in the log in the worker's own order. *)
Lemma pool_runs s k p :
  inv s -> nsteps pool_step k (pool_start conc locals s) p ->
  (k <= all_steps)%nat /\ (nf pool_step p <-> k = all_steps) /\ p_server p = answered (p_log p) s /\ inv (p_server p) /\
  (forall w, (w < Z.to_nat conc)%nat -> exists m, (m <= 16 * turns w)%nat /\ queries_of w (p_log p) = own_queries w m).
Proof using Hok.
  intros Hs Hk. destruct (inv_reached s k p Hs Hk) as (todos & sents & Hinv).
  pose proof (inv_steps _ _ _ _ _ Hinv) as Hsteps. split_and!; [lia| |apply (inv_answered _ _ _ _ _ Hinv)|apply (inv_server _ _ _ _ _ Hinv)|].
  - split; intros Hend; [|apply (inv_end _ _ _ _ _ Hinv); lia].
    destruct (decide (sum_list todos = 0%nat)) as [?|Hne]; [lia|]. by destruct Hend; eapply inv_progress.
  - intros w Hw. destruct (lookup_lt_is_Some_2 sents w) as [m Hm]; [by rewrite (inv_sents _ _ _ _ _ Hinv)|].
    exists m. split; [|by apply (inv_queries _ _ _ _ _ Hinv)].
    destruct (lookup_lt_is_Some_2 (p_workers p) w) as [wk Hwk]; [by rewrite (inv_workers _ _ _ _ _ Hinv)|].
    destruct (lookup_lt_is_Some_2 todos w) as [t Ht]; [by rewrite (inv_todos _ _ _ _ _ Hinv)|].
    by eapply track_bound, (inv_track _ _ _ _ _ Hinv).
Qed.

(** When no worker can go on, every one has returned its count, and the pool's total is the
    number of queries the server has answered: all those of each worker. *)
Lemma pool_ends s k p :
  inv s -> nsteps pool_step k (pool_start conc locals s) p -> nf pool_step p ->
  pool_total p = Ok (16 * Z.of_nat (pool_turns conc turns)) /\
  length (p_log p) = (16 * pool_turns conc turns)%nat /\
  (forall w, (w < Z.to_nat conc)%nat -> queries_of w (p_log p) = own_queries w (16 * turns w)).
Proof using Hok.
  intros Hs Hk Hnf. pose proof (proj1 (proj1 (proj2 (pool_runs s k p Hs Hk))) Hnf) as Hall.
  destruct (inv_reached s k p Hs Hk) as (todos & sents & Hinv).
  pose proof (inv_steps _ _ _ _ _ Hinv) as Hsteps. destruct (inv_end _ _ _ _ _ Hinv ltac:(lia)) as [_ Hend].
  destruct Hinv as [Hn _ Hm _ _ _ Hq _ Hl].
  assert (forall w, (w < Z.to_nat conc)%nat -> exists wk, p_workers p !! w = Some wk /\ sents !! w = Some (16 * turns w)%nat /\
    worker_result wk = Ok (16 * Z.of_nat (turns w))) as Heach.
  { intros w Hw. destruct (lookup_lt_is_Some_2 (p_workers p) w) as [wk Hwk]; [lia|].
    destruct (lookup_lt_is_Some_2 sents w) as [m Hmw]; [lia|]. exists wk.
    destruct (track_end w wk m (Hend w wk m Hwk Hmw)) as [-> Hr]. by split_and!. }
  split_and!.
  - unfold pool_total. rewrite (total_end _ 0).
    + rewrite Hn. cbn [mbind result_bind]. by rewrite foldl_add_turns, Z.add_0_l.
    + intros j wk Hj. destruct (Heach j) as (wk' & Hj' & _ & Hr); [apply lookup_lt_Some in Hj; lia|]. by simplify_eq.
  - rewrite Hl, (sum_list_ext (fun w => 16 * turns w)%nat _ 0).
    + by rewrite Hm, sum_scaled.
    + intros j x Hj. destruct (Heach j) as (_ & _ & Hj' & _); [apply lookup_lt_Some in Hj; lia|]. by simplify_eq.
  - intros w Hw. destruct (Heach w Hw) as (_ & _ & Hj & _). by apply Hq.
Qed.

(** And that total is the one of {!Bench.pool_sum}, whose workers run one after the other on
    copies, when each of those counts its own queries. *)
Lemma pool_agrees {W} (procs : nat -> proc W) program s k p :
  1 <= conc -> inv s -> nsteps pool_step k (pool_start conc locals s) p ->
  (forall w, (w < Z.to_nat conc)%nat -> run_proc procs program w = Ok (16 * Z.of_nat (turns w))) ->
  k = all_steps ->
  pool_total p = Ok (Z.of_nat (length (p_log p))) /\ pool_total p = pool_sum conc procs program.
Proof using Hok.
  intros Hconc Hs Hk Hprocs Hall. destruct (pool_runs s k p Hs Hk) as (_ & Hnf & _).
  destruct (pool_ends s k p Hs Hk (proj2 Hnf Hall)) as (-> & -> & _). split; [f_equal; lia|].
  symmetry. by apply pool_sum_counts.
Qed.
End Interleavings.
