(* ===== verification/TcpBench.v ===== *)
(** * The runs of [sift1m/rostam_py_client.py]: latency, workers, throughput

    [latency], [_qps_worker], [saturated_qps] and the script over the client of {!TcpClient} and
    the loops of {!Bench}.  A query is a row of float32 patterns, as [read_fvecs] returns it. *)

From S2P Require Import Prelude Bytes Text Float64 FloatOrder Env F32 Numpy Sift Net TcpClient Report Bench.

Section Runs.
Context {P : Peer} {C : Clock}.
(** [ADDR], [DUR]: the address to dial, and the duration of a worker's run *)
Variables (ADDR : string) (DUR : float).

(** [connect()]: a fresh connection, if the address parses and its host accepts it *)
Definition dial : result unit := '(host, port) ← connect_address ADDR; create_connection host port.
Definition connect : M sock unit := fun s =>
  match dial with
  | Ok _ => (Ok tt, connected (sk_sched s))
  | Raise e => (Raise e, s)
  end.

(** [encode_search(q, K)], the values of the row as Python floats *)
Definition encode_query (q : list Z) : result (list byte) := encode_search (f32_value <$> q) K.

Definition latency (queries gt : list (list Z)) : M (bench sock) (float * float * float * float) :=
  _ ← on_world connect;
  frames ← lift_result (mapR (fun i => q ← py_item queries (Z.of_nat i); encode_query q) (seq 0 LAT_N));
  '(lats, hits) ← timed_queries
    (fun i => frame ← lift_result (py_item frames (Z.of_nat i)); search frame)
    (truth_of gt)
    (seq 0 LAT_N) [] 0;
  _ ← on_world sock_close;
  lift_result (figures lats hits).

(** One query of a worker: [search(sock, _FRAMES[i % m])] *)
Definition worker_query (frames : list (list byte)) (i : Z) : M sock unit :=
  j ← lift_result (py_mod i (Z.of_nat (length frames)));
  frame ← lift_result (py_item frames j);
  _ ← search frame;
  mret tt.

Definition _qps_worker (fuel : nat) (frames : list (list byte)) (wid : nat) : M (bench sock) Z :=
  _ ← on_world connect;
  t ← clock;
  let stop := fadd t DUR in
  n ← qps_loop fuel (worker_query frames) stop (Z.of_nat wid) 0;
  _ ← on_world sock_close;
  mret n.
End Runs.

(** ** The script *)

Section Script.
Context {P : Peer}.

(** The settings, read when the script starts. *)
Definition load_settings (env : environment) : result settings :=
  conc ← int_of_str (getenv env "ROSTAM_CONC" "32");
  dur ← float_of_str (getenv env "ROSTAM_QPS_SECONDS" "3");
  Ok {| SIFT := getenv env "ROSTAM_SIFT_DIR" "/tmp/rostam-sift1m/sift";
        ADDR := getenv env "ROSTAM_BENCH_ADDR" "127.0.0.1:7700"; CONC := conc; DUR := dur |}.

(** [procs] are the processes of the pool, [fuel] the checks of the clock each is allowed. *)
Definition saturated_qps {C : Clock} (st : settings) (fuel : nat) (queries : list (list Z)) (procs : nat -> proc sock)
    : M (bench sock) float :=
  frames ← lift_result (mapR encode_query queries);
  pool_qps (CONC st) procs (fun C => _qps_worker (C := C) (ADDR st) (DUR st) fuel frames).

(** The line that says what is measured. *)
Definition banner (st : settings) : string :=
  cat ["[rostam-py] "; ADDR st; ", pure-Python client; latency=single conn, satQPS="; dec (CONC st);
       " concurrent processes x "; fmt_fixed 0 (DUR st); "s (ef fixed at server=64)"].

(** [main]: the figures of the row it prints *)
Definition main {NP : Numpy} {C : Clock} (st : settings) (fuel : nat) (files : file_system) (procs : nat -> proc sock)
    : M (bench sock) (float * float * float * float * float) :=
  queries ← lift_result (load_fvecs files (SIFT st +:+ "/sift_query.fvecs"));
  gt ← lift_result (load_ivecs files (SIFT st +:+ "/sift_groundtruth.ivecs"));
  _ ← print (banner st);
  '(r, a, b, m) ← latency (ADDR st) queries (columns K gt);
  qps ← saturated_qps st fuel queries procs;
  _ ← print latency_header;
  _ ← print (latency_line 64 r a b m qps);
  mret (r, a, b, m, qps).

(** The whole script. *)
Definition script {NP : Numpy} {C : Clock} (env : environment) (fuel : nat) (files : file_system) (procs : nat -> proc sock)
    : M (bench sock) (float * float * float * float * float) :=
  st ← lift_result (load_settings env);
  main st fuel files procs.
End Script.

(** ** A server that answers *)

(** The hits a server returns for each query. *)
Record answering {P : Peer} (hits_of : list Z -> list (Z * Z)) : Prop := {
  answering_reply q : search_args q K ->
    peer_reply (request_bytes q K) = response_frame 0 (response_payload (hits_of q));
  answering_hits q : Forall is_hit (hits_of q);
  answering_size q : 12 * Z.of_nat (length (hits_of q)) + 9 < 4294967296
}.

Section Facts.
Context {P : Peer} {C : Clock}.
Variable hits_of : list Z -> list (Z * Z).
Hypothesis Hserver : answering hits_of.

Lemma length_hits hits : length (concat (hit_bytes <$> hits)) = (12 * length hits)%nat.
Proof.
  induction hits as [|h hits IH]; [done|]. cbn [fmap list_fmap concat].
  rewrite length_app, length_hit_bytes, IH. cbn. lia.
Qed.

Lemma length_reply q : Z.of_nat (length (response_body 0 (response_payload (hits_of q)))) = 12 * Z.of_nat (length (hits_of q)) + 9.
Proof.
  unfold response_body, response_payload. rewrite !length_app, !length_be_bytes, length_hits. lia.
Qed.

(** On an idle connection a query is answered, and the connection is idle again. *)
Lemma search_answered q (s : sock) :
  search_args q K -> sk_in s = [] ->
  wp (search (request_bytes q K)) s (fun r s' =>
    r = Ok (hits_of q).*1 /\ sk_in s' = [] /\ sk_sent s' = sk_sent s ++ request_bytes q K /\ sk_open s' = sk_open s).
Proof.
  intros Hq Hin. destruct Hserver as [Hreply Hhits Hsize]. pose proof (Hsize q).
  eapply wp_mono; [eapply (tcp_search_spec _ (response_body 0 (response_payload (hits_of q)))); [done|by apply Hreply|]|].
  - rewrite length_reply. unfold is_u. change (256 ^ Z.of_nat 4) with 4294967296. lia.
  - intros r s' (-> & Hrest). split; [|done]. apply decode_hits; [done|].
    unfold is_u. change (256 ^ Z.of_nat 4) with 4294967296. lia.
Qed.

Lemma mapR_encode (queries : list (list Z)) :
  Forall (fun q => search_args q K) queries ->
  mapR encode_query queries = Ok ((fun q => request_bytes q K) <$> queries).
Proof.
  induction 1 as [|q qs Hq _ IH]; [done|]. cbn [mapR].
  assert (encode_query q = Ok (request_bytes q K)) as -> by by apply encode_search_bytes.
  by rewrite IH.
Qed.

(** The frames of the queries numbered from [a] on. *)
Lemma mapR_frames (queries : list (list Z)) a n :
  Forall (fun q => search_args q K) queries -> (a + n <= length queries)%nat ->
  mapR (fun i => q ← py_item queries (Z.of_nat i); encode_query q) (seq a n) =
  Ok ((fun q => request_bytes q K) <$> take n (drop a queries)).
Proof.
  intros Hq. revert a. induction n as [|n IH]; intros a Hn; [done|]. cbn [seq mapR].
  destruct (lookup_lt_is_Some_2 queries a) as [q Ha]; [lia|].
  rewrite (py_item_lookup _ _ _ Ha). cbn [mbind result_bind].
  assert (encode_query q = Ok (request_bytes q K)) as ->.
  { apply encode_search_bytes. eapply (Forall_elem _ _ _ Hq), list_elem_of_lookup_2, Ha. }
  rewrite IH by lia. by rewrite (drop_S _ _ _ Ha).
Qed.

Lemma wp_connect ADDR (s : sock) (Q : result unit -> sock -> Prop) :
  is_ok (dial ADDR) = true -> Q (Ok tt) (connected (sk_sched s)) -> wp (connect ADDR) s Q.
Proof. unfold wp, outcome, after, connect. by destruct (dial ADDR). Qed.

(** A connection that is not accepted ends a run: nothing is measured, and nothing else happens. *)
Lemma connect_refused ADDR DUR queries gt fuel frames wid e (b : bench sock) :
  dial ADDR = Raise e ->
  latency ADDR queries gt b = (Raise e, b) /\ _qps_worker ADDR DUR fuel frames wid b = (Raise e, b).
Proof.
  intros He. unfold latency, _qps_worker, mbind, M_bind, on_world, connect. rewrite He. by destruct b.
Qed.

(** The turn [i] of a latency run. *)
Lemma latency_query queries i (s : sock) :
  Forall (fun q => search_args q K) queries -> (i < LAT_N)%nat -> (LAT_N <= length queries)%nat -> sk_in s = [] ->
  wp (frame ← lift_result (py_item ((fun q => request_bytes q K) <$> take LAT_N queries) (Z.of_nat i)); search frame) s
    (fun r s' => r = Ok (hits_of (queries !!! i)).*1 /\ sk_in s' = []).
Proof.
  intros Hq Hi Hn Hs. destruct (lookup_lt_is_Some_2 queries i) as [q Hlook]; [lia|].
  assert (((fun q => request_bytes q K) <$> take LAT_N queries) !! i = Some (request_bytes q K)) as Hf.
  { rewrite list_lookup_fmap, lookup_take_lt by done. by rewrite Hlook. }
  wp_step. wp_step. rewrite (py_item_lookup _ _ _ Hf), (list_lookup_total_correct _ _ _ Hlook).
  eapply wp_mono; [apply search_answered; [|done]|by intros r s' (-> & ? & _)].
  eapply (Forall_elem _ _ _ Hq), list_elem_of_lookup_2, Hlook.
Qed.

(** The ids the server gives for the query [i]. *)
Definition run_answer (queries : list (list Z)) (i : nat) : list Z := (hits_of (queries !!! i)).*1.

(** A latency run against a server that answers: its figures, and its readings of the clock. *)
Lemma wp_tcp_latency ADDR queries gt (b : bench sock) :
  is_ok (dial ADDR) = true ->
  Forall (fun q => search_args q K) queries -> (LAT_N <= length queries)%nat -> (LAT_N <= length gt)%nat ->
  wp (latency ADDR queries gt) b (fun r b' =>
    r = figures (interval (b_reads b) <$> seq 0 LAT_N) (total_hits (run_answer queries) (run_truth gt) (seq 0 LAT_N)) /\
    b_reads b' = (b_reads b + 2 * LAT_N)%nat).
Proof using Hserver.
  intros Haddr Hq Hnq Hng. set (times := interval _ <$> _). set (found := total_hits _ _ _).
  unfold latency. apply wp_bind, wp_on_world, wp_connect; [done|].
  apply wp_bind, wp_lift. rewrite mapR_frames by done. apply wp_bind.
  eapply wp_mono; [apply (wp_timed_queries (fun s => sk_in s = []) _ _ (run_answer queries) (run_truth gt))|].
  - intros i s [_ Hi]%elem_of_seq Hs. by apply latency_query.
  - intros i [_ Hi]%elem_of_seq. apply truth_item. lia.
  - done.
  - cbn [b_reads]. intros r b' (-> & _ & Hreads). rewrite length_seq in Hreads |- *. rewrite app_nil_l, Z.add_0_l.
    fold times found. apply wp_bind, wp_on_world. apply wp_run. cbn beta iota. by apply wp_lift.
Qed.

Lemma tcp_latency_value ADDR queries gt (b : bench sock) :
  is_ok (dial ADDR) = true ->
  Forall (fun q => search_args q K) queries -> (LAT_N <= length queries)%nat -> (LAT_N <= length gt)%nat ->
  outcome (latency ADDR queries gt) b =
  figures (interval (b_reads b) <$> seq 0 LAT_N) (total_hits (run_answer queries) (run_truth gt) (seq 0 LAT_N)).
Proof using Hserver. intros Ha Hq Hnq Hng. exact (proj1 (wp_tcp_latency ADDR queries gt b Ha Hq Hnq Hng)). Qed.

(** The frames a worker sends: the queries in turn, from its number on. *)
Definition worker_frames (frames : list (list byte)) (wid n : nat) : list (list byte) :=
  (fun j => default [] (frames !! ((wid + j) mod length frames)%nat)) <$> seq 0 n.

Lemma worker_frames_S frames wid n :
  worker_frames frames wid (S n) =
  worker_frames frames wid n ++ [default [] (frames !! ((wid + n) mod length frames)%nat)].
Proof. unfold worker_frames. rewrite seq_S, fmap_app. by rewrite Nat.add_0_l. Qed.

(** A worker's state after [n] queries. *)
Definition worker_ran (frames : list (list byte)) (wid : nat) (i : Z) (s : sock) : Prop :=
  exists n, i = Z.of_nat (wid + n) /\ sk_in s = [] /\
    sk_sent s = concat (worker_frames frames wid n).

(** One query of a worker on an idle connection. *)
Lemma worker_query_ok queries i (s : sock) :
  queries <> [] -> Forall (fun q => search_args q K) queries -> 0 <= i -> sk_in s = [] ->
  let frames := (fun q => request_bytes q K) <$> queries in
  wp (worker_query frames i) s (fun r s' => r = Ok tt /\ sk_in s' = [] /\ sk_sent s' = sk_sent s ++ nth_mod frames i).
Proof using Hserver.
  intros Hne Hq Hi Hin frames. assert (frames <> []) as Hf by (by intros E%fmap_nil_inv).
  destruct (py_item_mod frames i Hf Hi) as (j & Hj & Hitem & (q & Hfr & Hin')%list_elem_of_fmap).
  unfold worker_query. rewrite Hj. apply wp_bind, wp_lift. rewrite Hitem. apply wp_bind, wp_lift, wp_bind. rewrite Hfr.
  eapply wp_mono; [apply search_answered; [|done]|].
  { by apply (Forall_elem _ _ _ Hq). }
  intros r s' (-> & Hin'' & Hsent' & _). by apply wp_ret.
Qed.

Lemma worker_query_runs queries wid i (s : sock) :
  queries <> [] -> Forall (fun q => search_args q K) queries ->
  let frames := (fun q => request_bytes q K) <$> queries in
  worker_ran frames wid i s ->
  wp (worker_query frames i) s (fun r s' => r = Ok tt /\ worker_ran frames wid (i + 1) s').
Proof using Hserver.
  intros Hne Hq frames (n & -> & Hin & Hsent).
  eapply wp_mono; [by apply worker_query_ok; [..|lia|]|]. intros r s' (-> & Hin' & Hsent'). split; [done|]. exists (S n).
  split_and!; [lia|done|]. rewrite Hsent', Hsent, nth_mod_nat, list_lookup_total_alt, worker_frames_S, concat_app.
  cbn [concat]. by rewrite app_nil_r.
Qed.

(** A worker's run: what it returns, and what it has sent. *)
Lemma wp_tcp_worker ADDR DUR queries wid t fuel (b : bench sock) :
  is_ok (dial ADDR) = true -> queries <> [] -> Forall (fun q => search_args q K) queries ->
  stops_after t (S (b_reads b)) (fadd (ticks (b_reads b)) DUR) -> (t < fuel)%nat ->
  let frames := (fun q => request_bytes q K) <$> queries in
  wp (_qps_worker ADDR DUR fuel frames wid) b (fun r b' =>
    r = Ok (16 * Z.of_nat t) /\ sk_sent (b_world b') = concat (worker_frames frames wid (16 * t))).
Proof using Hserver.
  intros Haddr Hne Hq Hstop Hf frames. unfold _qps_worker. apply wp_bind, wp_on_world, wp_connect; [done|].
  apply wp_bind, wp_clock. cbn [b_world b_reads]. apply wp_bind.
  eapply wp_mono; [apply (wp_qps_loop (worker_ran frames wid) t); [|done|done|]|].
  - intros k s _. by apply worker_query_runs.
  - exists 0%nat. by rewrite Nat.add_0_r.
  - intros r b' [-> (n & Hi & _ & Hsent)]. apply wp_bind, wp_on_world. apply wp_run. apply wp_ret.
    split; [done|]. cbn [b_world]. replace (16 * t)%nat with n by lia. exact Hsent.
Qed.
End Facts.
