(* ===== verification/TcpProps.v ===== *)
(** * What the SIFT scripts' TCP client guarantees

    The properties of [sift1m/rostam_py_client.py]: its files, its frames, its reading of a
    stream the kernel cuts as it likes, and the figures it reports. *)

From S2P Require Import Prelude Bytes Text Float64 FloatOrder F32 Numpy Sift Net TcpClient Bench TcpBench.

(** ** Files *)

Section Files.
Context {NP : Numpy} {NL : NumpyLaws NP}.

(** C29: the readers read back what the formats store: of a file of vectors of dimension
    [d], each after its length, [read_fvecs] returns the float32 rows bit for bit and
    [read_ivecs] the rows as signed integers. *)
Theorem vecs_roundtrip d rows :
  vecs d rows ->
  read_fvecs (vecs_file d rows) = Ok rows /\ read_ivecs (vecs_file d rows) = Ok (int32_rows rows).
Proof. intros Hv. split; [by apply read_fvecs_file|by apply read_ivecs_file]. Qed.
End Files.

Lemma vecs_roundtrip_witness :
  read_fvecs (vecs_file 2 [[1065353216; 0]; [1073741824; 3212836864]]) = Ok [[1065353216; 0]; [1073741824; 3212836864]] /\
  read_ivecs (vecs_file 2 [[1065353216; 0]; [1073741824; 3212836864]]) = Ok [[1065353216; 0]; [1073741824; -1082130432]].
Proof.
  apply (vecs_roundtrip 2 [[1065353216; 0]; [1073741824; 3212836864]]).
  split; [discriminate|by repeat constructor|apply (bool_decide_unpack _); by vm_compute|done].
Defined.

(** ** Requests *)

(** C30: round trip of a search request.  The frame [encode_search] builds for a query of
    float32 numbers, read back as the header comment says with every length checked, is the
    [vector_search] operation on the collection [sift] with the [k] and the query given, bit
    for bit. *)
Theorem encode_search_roundtrip ws k :
  search_args ws k ->
  exists bs, encode_search (f32_value <$> ws) k = Ok bs /\
    search_request_parse bs =
    Some {| rq_op := OP; rq_flags := 0; rq_coll := COLL; rq_k := k; rq_query := ws |}.
Proof. intros Ha. exists (request_bytes ws k). split; [by apply encode_search_bytes|by apply request_parse]. Qed.

Lemma demo_args : search_args [1065353216; 1073741824] 10.
Proof. split; [done|cbn; lia|apply (bool_decide_unpack _); by vm_compute]. Qed.

Lemma encode_search_roundtrip_witness :
  exists bs, encode_search (f32_value <$> [1065353216; 1073741824]) 10 = Ok bs /\
    search_request_parse bs =
    Some {| rq_op := OP; rq_flags := 0; rq_coll := COLL; rq_k := 10; rq_query := [1065353216; 1073741824] |}.
Proof. exact (encode_search_roundtrip [1065353216; 1073741824] 10 demo_args). Defined.

(** ** Reading *)

Section Reading.
Context {P : Peer}.

(** C31: [_recvn] returns exactly the next [n] bytes of the stream and leaves the rest, or
    raises [ConnectionError] when the peer closes before; it does so however the kernel cuts
    the stream, and its loop always ends. *)
Theorem recvn_exact n (s : sock) :
  let s' := after (_recvn n) s in
  if decide (n <= length (sk_in s))%nat
  then outcome (_recvn n) s = Ok (take n (sk_in s)) /\ sk_in s' = drop n (sk_in s)
  else outcome (_recvn n) s = Raise (ConnectionError "server closed") /\ sk_in s' = [].
Proof. by destruct (recvn_spec n s) as (_ & _ & Hr). Qed.

(** C32: a response is read whole, and only it.  On an idle connection whose peer answers with
    a frame, [search] returns what the frame's body decodes to, or raises what decoding it
    raises, and leaves the connection idle either way: an error status or a malformed body
    never puts the next response out of step. *)
Theorem search_in_step frame body (s : sock) :
  sk_in s = [] -> peer_reply frame = sized body -> is_u 4 (Z.of_nat (length body)) ->
  wp (search frame) s (fun r s' =>
    r = decode_response body /\ sk_in s' = [] /\ sk_sent s' = sk_sent s ++ frame /\ sk_open s' = sk_open s).
Proof. apply tcp_search_spec. Qed.

(** A response cut short is an error: if the peer closes before the end of its frame,
    wherever it does, [search] raises [ConnectionError]. *)
Theorem search_cut_short frame n body (s : sock) :
  sk_in s = [] -> is_u 4 (Z.of_nat (length body)) -> (n < length (sized body))%nat ->
  peer_reply frame = take n (sized body) ->
  outcome (search frame) s = Raise (ConnectionError "server closed").
Proof. intros Hin Hl Hn Hp. exact (tcp_search_closed frame n body s Hin Hl Hn Hp). Qed.
End Reading.

(** Decoding a response.  With status 0 the ids of the hits are returned in order, their
    distances ignored; any other status raises an error that names it. *)
Theorem decode_response_cases status hits payload :
  Forall is_hit hits -> is_u 4 (Z.of_nat (length hits)) -> is_u 1 status -> status <> 0 ->
  decode_response (response_body 0 (response_payload hits)) = Ok hits.*1 /\
  decode_response (response_body status payload) = Raise (RuntimeError ("server status " +:+ dec status)).
Proof. intros Hh Hn Hs Hne. split; [by apply decode_hits|by apply decode_status]. Qed.

Lemma decode_response_cases_witness :
  decode_response (response_body 0 (response_payload [(7, 1065353216); (9, 0)])) = Ok [7; 9] /\
  decode_response (response_body 3 [x61]) = Raise (RuntimeError "server status 3").
Proof.
  refine (decode_response_cases 3 [(7, 1065353216); (9, 0)] [x61] _ _ _ _);
    [apply (bool_decide_unpack _); by vm_compute|done|done|done].
Defined.

(** A peer that answers everything with two hits, and one that is cut in the middle. *)
Definition demo_body : list byte := response_body 0 (response_payload [(7, 1065353216); (9, 0)]).
Definition demo_peer : Peer := {| create_connection _ _ := Ok tt; peer_reply _ := sized demo_body |}.
Definition cut_peer : Peer := {| create_connection _ _ := Ok tt; peer_reply _ := take 11 (sized demo_body) |}.

Lemma search_in_step_witness :
  wp (search (P := demo_peer) [x61]) (connected [1; 2; 1]%nat) (fun r s' =>
    r = Ok [7; 9] /\ sk_in s' = [] /\ sk_sent s' = [x61] /\ sk_open s' = true).
Proof.
  refine (search_in_step (P := demo_peer) [x61] demo_body (connected [1; 2; 1]%nat) _ _ _); done.
Defined.

Lemma search_cut_short_witness :
  outcome (search (P := cut_peer) [x61]) (connected []) = Raise (ConnectionError "server closed").
Proof.
  refine (search_cut_short (P := cut_peer) [x61] 11 demo_body (connected []) _ _ _ _);
    [done|done|apply (bool_decide_unpack _); by vm_compute|done].
Defined.

(** ** Runs *)

Section Runs.
Context {P : Peer} {C : Clock}.
Variables (ADDR : string) (DUR : float) (hits_of : list Z -> list (Z * Z)).
Hypothesis Haddr : is_ok (dial ADDR) = true.
Hypothesis Hserver : answering hits_of.

(** A latency run reports what it measured.  With 2000 queries, a ground truth of at most
    [K] ids for each, a server that answers and a clock that gives numbers, [latency] returns;
    the recall is the number of true ids found over 20000, rounded once, that number being
    between 0 and 20000; and the median and the 99th percentile are two of the times measured,
    in order. *)
Theorem latency_reports queries gt (b : bench sock) :
  Forall (fun q => search_args q K) queries -> (LAT_N <= length queries)%nat ->
  (LAT_N <= length gt)%nat -> Forall (fun r => (length r <= 10)%nat) gt ->
  let times := interval (b_reads b) <$> seq 0 LAT_N in
  numbers times ->
  let found := total_hits (run_answer hits_of queries) (run_truth gt) (seq 0 LAT_N) in
  0 <= found <= 20000 /\
  exists p q m, outcome (latency ADDR queries gt) b = Ok (f_of_ratio found 20000, p, q, m) /\
    p ∈ times /\ q ∈ times /\ fleb p q = true.
Proof.
  intros Hq Hnq Hng Hgt times Hnum found. split; [by apply found_range|].
  destruct (figures_report times found Hnum) as (p & q & m & Hfig & Hpq).
  { unfold times. by rewrite length_fmap, length_seq. }
  exists p, q, m. split; [|done].
  rewrite (tcp_latency_value hits_of Hserver) by done. exact Hfig.
Qed.

(** A worker counts its queries, and stops.  If the clock reaches the deadline at the
    [t]-th check, the worker returns [16 * t] whatever more time it is allowed, having sent
    exactly that many requests: the queries in turn, from its own number on, around the list. *)
Theorem qps_worker_counts queries wid t fuel (b : bench sock) :
  queries <> [] -> Forall (fun q => search_args q K) queries ->
  stops_after t (S (b_reads b)) (fadd (ticks (b_reads b)) DUR) -> (t < fuel)%nat ->
  let frames := (fun q => request_bytes q K) <$> queries in
  let run := _qps_worker ADDR DUR fuel frames wid in
  outcome run b = Ok (16 * Z.of_nat t) /\
  sk_sent (b_world (after run b)) = concat (worker_frames frames wid (16 * t)).
Proof.
  intros Hne Hq Hstop Hf frames run. by apply (wp_tcp_worker hits_of Hserver ADDR DUR queries wid t fuel b).
Qed.
End Runs.

(** A server that gives every query the same two hits; a clock that stands still, and one that
    counts its readings. *)
Definition demo_hits (q : list Z) : list (Z * Z) := [(7, 1065353216); (9, 0)].
Lemma demo_answering : answering (P := demo_peer) demo_hits.
Proof. split; [done| |done]. intros q. apply (bool_decide_unpack _). by vm_compute. Qed.
Definition still_clock : Clock := fun _ => f_of_Z 1.
Definition counting_clock : Clock := fun n => f_of_Z (Z.of_nat n).

Lemma Forall_const {A} (P : A -> Prop) x n : P x -> Forall P (replicate n x).
Proof. intros Hx. by apply Forall_replicate. Qed.

Lemma latency_reports_witness :
  let queries := replicate LAT_N [1065353216; 1073741824] in
  let gt := replicate LAT_N [6; 41] in
  0 <= total_hits (run_answer demo_hits queries) (run_truth gt) (seq 0 LAT_N) <= 20000.
Proof.
  refine (proj1 (latency_reports (P := demo_peer) (C := still_clock) "127.0.0.1:7700" demo_hits _ demo_answering
    (replicate LAT_N [1065353216; 1073741824]) (replicate LAT_N [6; 41]) (Bench (connected []) 0) _ _ _ _ _)).
  - done.
  - apply Forall_const, demo_args.
  - by rewrite length_replicate.
  - by rewrite length_replicate.
  - apply Forall_const. cbn. lia.
  - apply Forall_fmap, Forall_true. intros j. by vm_compute.
Defined.

Lemma qps_worker_counts_witness :
  let run := _qps_worker (P := demo_peer) (C := counting_clock) "127.0.0.1:7700" (f_of_Z 3) 9
    ((fun q => request_bytes q K) <$> [[1065353216; 1073741824]]) 5 in
  outcome run (Bench (connected [1; 3]%nat) 0) = Ok 32.
Proof.
  refine (proj1 (qps_worker_counts (P := demo_peer) (C := counting_clock) "127.0.0.1:7700" (f_of_Z 3) demo_hits _
    demo_answering [[1065353216; 1073741824]] 5 2 9 (Bench (connected [1; 3]%nat) 0) _ _ _ _)).
  - done.
  - discriminate.
  - apply (Forall_const _ _ 1), demo_args.
  - split; [|by vm_compute]. intros [|[|j]] Hj; [by vm_compute|by vm_compute|lia].
  - lia.
Defined.
