(* ===== verification/Protobuf.v ===== *)
(** * The protobuf wire format

    What the documentation of protobuf says of its encoding, as far as [vector.proto] needs
    it: variable-length integers, fields, and messages as sequences of fields.  It is used
    twice: to read the descriptor embedded in the generated [vector_pb2.py], and to give a
    reference codec of its messages.  The runtime library itself is not code of the
    repository. *)

From S2P Require Import Prelude Bytes Text.

(** ** Variable-length integers *)

(** Seven bits a byte, the least significant first; the high bit says that more follow. *)
Fixpoint varint_bytes (fuel : nat) (z : Z) : list byte :=
  match fuel with
  | O => []
  | S fuel => if z <? 128 then [byte_of_Z z] else byte_of_Z (z mod 128 + 128) :: varint_bytes fuel (z / 128)
  end.
(** Ten bytes carry 64 bits. *)
Definition varint (z : Z) : list byte := varint_bytes 10 z.

Fixpoint p_varint_fuel (fuel : nat) : parser Z :=
  match fuel with
  | O => p_fail
  | S fuel =>
      b ← p_uint 1;
      if b <? 128 then mret b else r ← p_varint_fuel fuel; mret (b - 128 + 128 * r)
  end.
Definition p_varint : parser Z := p_varint_fuel 10.

Lemma p_byte_cons z rest : 0 <= z < 256 -> p_uint 1 (byte_of_Z z :: rest) = Some (z, rest).
Proof. intros Hz. apply (p_uint_app 1 z rest). unfold is_u. lia. Qed.

Lemma p_varint_bytes fuel z rest :
  0 <= z < 128 ^ Z.of_nat fuel -> (0 < fuel)%nat ->
  p_varint_fuel fuel (varint_bytes fuel z ++ rest) = Some (z, rest).
Proof.
  revert z. induction fuel as [|fuel IH]; intros z Hz Hf; [lia|].
  rewrite Nat2Z.inj_succ, Z.pow_succ_r in Hz by lia. cbn [varint_bytes p_varint_fuel]. unfold mbind, parser_bind.
  destruct (Z.ltb_spec z 128) as [Hlt|Hge].
  - cbn [app]. rewrite p_byte_cons by lia. by rewrite (proj2 (Z.ltb_lt z 128)).
  - pose proof (Z.mod_pos_bound z 128 ltac:(lia)). pose proof (Z.div_mod z 128 ltac:(lia)).
    cbn [app]. rewrite p_byte_cons by lia. rewrite (proj2 (Z.ltb_ge _ 128)) by lia.
    assert (0 <= z / 128 < 128 ^ Z.of_nat fuel) as Hdiv
      by (split; [apply Z.div_pos; lia|apply Z.div_lt_upper_bound; lia]).
    rewrite IH; [|done|destruct fuel; [cbn in Hdiv; lia|lia]].
    unfold mret, parser_ret. f_equal. f_equal. lia.
Qed.

Lemma p_varint_app z rest : is_u 8 z -> p_varint (varint z ++ rest) = Some (z, rest).
Proof.
  intros Hz. apply p_varint_bytes; [|lia]. unfold is_u in Hz.
  change (256 ^ Z.of_nat 8) with 18446744073709551616 in Hz.
  change (128 ^ Z.of_nat 10) with 1180591620717411303424. lia.
Qed.

Lemma varint_nonempty z : (0 < length (varint z))%nat.
Proof. unfold varint. cbn [varint_bytes]. destruct (z <? 128); cbn; lia. Qed.

(** ** Fields *)

Inductive wire := WVarint (z : Z) | WBytes (bs : list byte) | WFixed32 (z : Z).

Definition wire_type (w : wire) : Z := match w with WVarint _ => 0 | WBytes _ => 2 | WFixed32 _ => 5 end.

(** The four bytes of a fixed word, the least significant first. *)
Definition le_word (z : Z) : list byte := reverse (be_bytes 4 z).
Definition p_le_word : parser Z := bs ← p_take 4; mret (be_val (reverse bs)).

Definition wire_bytes (w : wire) : list byte :=
  match w with
  | WVarint z => varint z
  | WBytes bs => varint (Z.of_nat (length bs)) ++ bs
  | WFixed32 z => le_word z
  end.

(** A field: its number and its value. *)
Definition field : Type := Z * wire.
Definition field_bytes (f : field) : list byte := varint (f.1 * 8 + wire_type f.2) ++ wire_bytes f.2.
Definition fields_bytes (fs : list field) : list byte := concat (field_bytes <$> fs).

Definition p_wire (t : Z) : parser wire :=
  if t =? 0 then z ← p_varint; mret (WVarint z)
  else if t =? 2 then n ← p_varint; bs ← p_take (Z.to_nat n); mret (WBytes bs)
  else if t =? 5 then z ← p_le_word; mret (WFixed32 z)
  else p_fail.
Definition p_field : parser field := tag ← p_varint; w ← p_wire (tag mod 8); mret (tag / 8, w).

(** A message is its fields, to the end of its bytes. *)
Fixpoint read_fields (fuel : nat) (bs : list byte) : option (list field) :=
  match bs with
  | [] => Some []
  | _ =>
      match fuel with
      | O => None
      | S fuel => '(f, rest) ← p_field bs; fs ← read_fields fuel rest; Some (f :: fs)
      end
  end.
Definition message_fields (bs : list byte) : option (list field) := read_fields (length bs) bs.

Definition wire_ok (w : wire) : Prop :=
  match w with WVarint z => is_u 8 z | WBytes bs => is_u 8 (Z.of_nat (length bs)) | WFixed32 z => is_u 4 z end.
(** A field number fits 29 bits. *)
Definition field_ok (f : field) : Prop := 1 <= f.1 < 536870912 /\ wire_ok f.2.

Lemma p_le_word_app z rest : is_u 4 z -> p_le_word (le_word z ++ rest) = Some (z, rest).
Proof.
  intros Hz. unfold p_le_word, le_word, mbind, parser_bind. rewrite p_take_app by by rewrite length_reverse, length_be_bytes.
  unfold mret, parser_ret. by rewrite reverse_involutive, be_val_bytes_small.
Qed.

Lemma p_wire_app w rest : wire_ok w -> p_wire (wire_type w) (wire_bytes w ++ rest) = Some (w, rest).
Proof.
  destruct w as [z|bs|z]; cbn [wire_ok wire_type wire_bytes]; intros Hw; unfold p_wire; cbn [Z.eqb Pos.eqb];
    unfold mbind, parser_bind.
  - by rewrite p_varint_app.
  - rewrite <- app_assoc, p_varint_app, Nat2Z.id, p_take_app by done. done.
  - by rewrite p_le_word_app.
Qed.

Lemma p_field_app f rest : field_ok f -> p_field (field_bytes f ++ rest) = Some (f, rest).
Proof.
  destruct f as [n w]. intros [Hn Hw]; cbn [fst snd] in *. unfold p_field, field_bytes, mbind, parser_bind. cbn [fst snd].
  assert (0 <= wire_type w < 8) as Ht by (destruct w; cbn; lia).
  rewrite <- app_assoc, p_varint_app.
  - assert ((n * 8 + wire_type w) mod 8 = wire_type w) as -> by (rewrite Z.add_comm, Z.mod_add, Z.mod_small; lia).
    assert ((n * 8 + wire_type w) / 8 = n) as -> by (rewrite Z.div_add_l, (Z.div_small (wire_type w)); lia).
    by rewrite p_wire_app.
  - unfold is_u. change (256 ^ Z.of_nat 8) with 18446744073709551616. lia.
Qed.

(** Reading back a sequence of fields. *)
Lemma message_fields_bytes fs : Forall field_ok fs -> message_fields (fields_bytes fs) = Some fs.
Proof.
  intros Hfs. unfold message_fields.
  cut (forall fuel, (length (fields_bytes fs) <= fuel)%nat -> read_fields fuel (fields_bytes fs) = Some fs); [by intros H; apply H|].
  induction Hfs as [|f fs Hf _ IH]; intros fuel Hfuel; [by destruct fuel|].
  unfold fields_bytes in *. cbn [fmap list_fmap concat] in *. rewrite length_app in Hfuel.
  assert (0 < length (field_bytes f))%nat as Hpos
    by (unfold field_bytes; rewrite length_app; pose proof (varint_nonempty (f.1 * 8 + wire_type f.2)); lia).
  destruct fuel as [|fuel]; [lia|].
  assert (exists b bs, field_bytes f ++ concat (field_bytes <$> fs) = b :: bs) as (b & bs & E)
    by (destruct (field_bytes f); [cbn in Hpos; lia|by eexists _, _]).
  pose proof (p_field_app f (concat (field_bytes <$> fs)) Hf) as Hp. rewrite E in *. cbn [read_fields].
  rewrite Hp. cbn [mbind option_bind]. rewrite IH by lia. done.
Qed.

(** ** Access by number *)

(** The values of the fields numbered [n], in order. *)
Definition values (n : Z) (fs : list field) : list wire := snd <$> List.filter (fun f : field => f.1 =? n) fs.
(** Of a field that is not repeated the last value counts. *)
Definition value (n : Z) (fs : list field) : option wire := head (reverse (values n fs)).

Definition value_string (n : Z) (fs : list field) : option string :=
  match value n fs with Some (WBytes bs) => Some (String.string_of_list_byte bs) | _ => None end.
Definition value_int (n : Z) (fs : list field) : option Z :=
  match value n fs with Some (WVarint z) => Some z | _ => None end.
(** The messages nested in the fields numbered [n]. *)
Definition submessages (n : Z) (fs : list field) : option (list (list field)) :=
  mapM (fun w => match w with WBytes bs => message_fields bs | _ => None end) (values n fs).

(** ** Descriptors: what a [.proto] file declares *)

(** The scalar types of [descriptor.proto] that occur here; [TMessage] is a nested message. *)
Inductive ptype := TFloat | TUint64 | TString | TUint32 | TMessage (name : string) | TOther (code : Z).
Definition ptype_of (code : Z) (type_name : string) : ptype :=
  if code =? 2 then TFloat else if code =? 4 then TUint64 else if code =? 9 then TString
  else if code =? 13 then TUint32 else if code =? 11 then TMessage type_name else TOther code.

Record field_decl := { fd_name : string; fd_number : Z; fd_repeated : bool; fd_type : ptype }.
Record message_decl := { md_name : string; md_fields : list field_decl }.
Record method_decl := { rd_name : string; rd_input : string; rd_output : string }.
Record service_decl := { sd_name : string; sd_methods : list method_decl }.
Record file_decl := {
  pf_name : string; pf_package : string; pf_syntax : string;
  pf_messages : list message_decl; pf_services : list service_decl
}.

Definition read_field_decl (fs : list field) : option field_decl :=
  name ← value_string 1 fs;
  number ← value_int 3 fs;
  label ← value_int 4 fs;
  type ← value_int 5 fs;
  Some {| fd_name := name; fd_number := number; fd_repeated := label =? 3;
          fd_type := ptype_of type (default EmptyString (value_string 6 fs)) |}.
Definition read_message_decl (fs : list field) : option message_decl :=
  name ← value_string 1 fs;
  fields ← submessages 2 fs;
  decls ← mapM read_field_decl fields;
  Some {| md_name := name; md_fields := decls |}.
Definition read_method_decl (fs : list field) : option method_decl :=
  name ← value_string 1 fs;
  input ← value_string 2 fs;
  output ← value_string 3 fs;
  Some {| rd_name := name; rd_input := input; rd_output := output |}.
Definition read_service_decl (fs : list field) : option service_decl :=
  name ← value_string 1 fs;
  methods ← submessages 2 fs;
  decls ← mapM read_method_decl methods;
  Some {| sd_name := name; sd_methods := decls |}.

(** A serialized [FileDescriptorProto]. *)
Definition read_file_decl (bs : list byte) : option file_decl :=
  fs ← message_fields bs;
  name ← value_string 1 fs;
  package ← value_string 2 fs;
  messages ← submessages 4 fs;
  message_decls ← mapM read_message_decl messages;
  services ← submessages 6 fs;
  service_decls ← mapM read_service_decl services;
  syntax ← value_string 12 fs;
  Some {| pf_name := name; pf_package := package; pf_syntax := syntax;
          pf_messages := message_decls; pf_services := service_decls |}.
