(* ===== verification/GrpcStubs.v ===== *)
(** * The generated stubs: [sift1m/grpc_stubs]

    [vector_pb2.py] embeds the descriptor of [vector.proto]; [vector_pb2_grpc.py] makes the
    client and the server side of its one service out of the operations of the [grpc] package.
    The protobuf runtime and the [grpc] package are interfaces here: {!Protobuf} (the codecs of
    the messages) and [Grpc] (channels, servers), each with the documented behaviour the stubs
    rely on. *)

From S2P Require Import Prelude Bytes Text Float64 F32 PyVal JsonRead Protobuf.

(** ** [vector_pb2.py]

    Python's bytes literals, as far as the file uses them: plain characters and the escapes
    [\n], [\t], [\r], a quote, a backslash, [\xhh] and three octal digits. *)

Definition hex_digit (c : ascii) : option Z :=
  let n := ascii_Z c in
  if (48 <=? n) && (n <=? 57) then Some (n - 48)
  else if (97 <=? n) && (n <=? 102) then Some (n - 87)
  else if (65 <=? n) && (n <=? 70) then Some (n - 55)
  else None.
Definition octal_digit (c : ascii) : option Z :=
  d ← hex_digit c; if d <? 8 then Some d else None.

Definition quote_char : ascii := "034".

(** The first byte of a literal's text, and the rest of the text. *)
Definition py_byte (s : string) : option (byte * string) :=
  match s with
  | "" => None
  | String "\" (String "n" s) => Some (x0a, s)
  | String "\" (String "t" s) => Some (x09, s)
  | String "\" (String "r" s) => Some (x0d, s)
  | String "\" (String "\" s) => Some (x5c, s)
  | String "\" (String "x" (String h (String l s))) =>
      h ← hex_digit h; l ← hex_digit l; Some (byte_of_Z (16 * h + l), s)
  | String "\" (String a s) =>
      if Ascii.eqb a quote_char then Some (x22, s)
      else match s with
           | String b (String c s) =>
               a ← octal_digit a; b ← octal_digit b; c ← octal_digit c; Some (byte_of_Z (64 * a + 8 * b + c), s)
           | _ => None
           end
  | String c s => Some (byte_of_Z (ascii_Z c), s)
  end.

Fixpoint py_bytes_fuel (fuel : nat) (s : string) : option (list byte) :=
  match s, fuel with
  | "", _ => Some []
  | _, O => None
  | s, S fuel => '(b, s) ← py_byte s; bs ← py_bytes_fuel fuel s; Some (b :: bs)
  end.
Definition py_bytes (s : string) : option (list byte) := py_bytes_fuel (String.length s) s.

(** The argument of [AddSerializedFile]: the text of the literal, with a backquote for each
    double quote. *)
Definition descriptor_literal : string :=
  q "\n\x0cvector.proto\x12\x0bvectorbench\`=\n\rSearchRequest\x12\x12\n\ncollection\x18\x01 \x01(\t\x12\t\n\x01k\x18\x02 \x01(\r\x12\r\n\x05query\x18\x03 \x03(\x02\`#\n\x03Hit\x12\n\n\x02id\x18\x01 \x01(\x04\x12\x10\n\x08\x64istance\x18\x02 \x01(\x02\`0\n\x0eSearchResponse\x12\x1e\n\x04hits\x18\x01 \x03(\x0b\x32\x10.vectorbench.Hit2Q\n\x0cVectorSearch\x12\x41\n\x06Search\x12\x1a.vectorbench.SearchRequest\x1a\x1b.vectorbench.SearchResponseB\x14Z\x12rostamgrpcbench/pbb\x06proto3".

Definition DESCRIPTOR : list byte := default [] (py_bytes descriptor_literal).

(** [_globals['_X']._serialized_start] and [_serialized_end]: where each declaration lies in
    the descriptor. *)
Definition serialized_ranges : list (string * (nat * nat)) :=
  [("SearchRequest", (29, 90)); ("Hit", (92, 127)); ("SearchResponse", (129, 177)); ("VectorSearch", (179, 260))]%nat.

(** [DESCRIPTOR._serialized_options] *)
Definition serialized_options : list byte := default [] (py_bytes "Z\022rostamgrpcbench/pb").

(** The classes that the runtime builds from the descriptor. *)
Record SearchRequest := { sr_collection : string; sr_k : Z; sr_query : list float }.
Record Hit := { h_id : Z; h_distance : float }.
Record SearchResponse := { resp_hits : list Hit }.

(** Their codecs. *)
Class Codec := {
  request_SerializeToString : SearchRequest -> result (list byte);
  request_FromString : list byte -> result SearchRequest;
  response_SerializeToString : SearchResponse -> result (list byte);
  response_FromString : list byte -> result SearchResponse
}.

(** A float that a [float] field can hold. *)
Definition is_float32 (x : float) : Prop := exists w, is_f32 w /\ x = f32_value w.

(** Messages that the fields can hold, below the size limit of the runtime. *)
Definition request_ok (rq : SearchRequest) : Prop :=
  str_ascii (sr_collection rq) = true /\ Z.of_nat (String.length (sr_collection rq)) < 268435456 /\
  is_u 4 (sr_k rq) /\ Forall is_float32 (sr_query rq) /\ Z.of_nat (length (sr_query rq)) < 268435456.
Definition hit_ok (h : Hit) : Prop := is_u 8 (h_id h) /\ is_float32 (h_distance h).
Definition response_ok (r : SearchResponse) : Prop :=
  Forall hit_ok (resp_hits r) /\ Z.of_nat (length (resp_hits r)) < 67108864.

(** A message survives its own codec. *)
Class CodecLaws {PB : Codec} := {
  request_roundtrip rq : request_ok rq ->
    exists bs, request_SerializeToString rq = Ok bs /\ request_FromString bs = Ok rq;
  response_roundtrip r : response_ok r ->
    exists bs, response_SerializeToString r = Ok bs /\ response_FromString bs = Ok r
}.
Arguments CodecLaws : clear implicits.

(** ** The [grpc] package *)

(** The status codes that occur here, and any other. *)
Inductive StatusCode := UNIMPLEMENTED | UNKNOWN | OtherStatus (name : string).

(** What a behaviour sees of one call: the state of its server's application, and the code and the
    details it has set in its [context], if any. *)
Record rpc (S : Type) := Rpc { rpc_state : S; rpc_code : option StatusCode; rpc_details : option string }.
Arguments Rpc {_} _ _ _.
Arguments rpc_state {_} _.
Arguments rpc_code {_} _.
Arguments rpc_details {_} _.

(** [grpc.unary_unary_rpc_method_handler(behavior, request_deserializer, response_serializer)] *)
Record rpc_method_handler (S : Type) := unary_unary_rpc_method_handler {
  mh_request : Type;
  mh_response : Type;
  mh_behavior : mh_request -> M (rpc S) mh_response;
  mh_request_deserializer : list byte -> result mh_request;
  mh_response_serializer : mh_response -> result (list byte)
}.
Arguments unary_unary_rpc_method_handler {_} _ _ _ _ _.
Arguments mh_request {_} _.
Arguments mh_response {_} _.
Arguments mh_behavior {_} _ _.
Arguments mh_request_deserializer {_} _ _.
Arguments mh_response_serializer {_} _ _.

(** [grpc.method_handlers_generic_handler(service, method_handlers)] *)
Record generic_handler (S : Type) := method_handlers_generic_handler {
  gh_service : string;
  gh_methods : dict (rpc_method_handler S)
}.
Arguments method_handlers_generic_handler {_} _ _.
Arguments gh_service {_} _.
Arguments gh_methods {_} _.

(** The optional arguments of a one-off call, with their defaults. *)
Record call_options := {
  co_options : list (string * string);
  co_channel_credentials : option string;
  co_call_credentials : option string;
  co_insecure : bool;
  co_compression : option string;
  co_wait_for_ready : option bool;
  co_timeout : option float;
  co_metadata : list (string * string)
}.
Definition default_options : call_options :=
  {| co_options := []; co_channel_credentials := None; co_call_credentials := None; co_insecure := false;
     co_compression := None; co_wait_for_ready := None; co_timeout := None; co_metadata := [] |}.

(** The operations the stubs use, over a world [W] in which servers with application state [S]
    may listen. *)
Class Grpc (W S : Type) := {
  grpc_channel : Type;
  grpc_server : Type;
  (** [grpc.insecure_channel(target)] *)
  insecure_channel : string -> M W grpc_channel;
  (** [channel.unary_unary(method, request_serializer, response_deserializer,
      _registered_method)], the callable it returns applied to a request *)
  unary_unary {A B : Type} : grpc_channel -> string -> (A -> result (list byte)) -> (list byte -> result B) ->
    bool -> A -> M W B;
  (** [grpc.experimental.unary_unary(request, target, method, request_serializer,
      response_deserializer, options, channel_credentials, insecure, call_credentials,
      compression, wait_for_ready, timeout, metadata, _registered_method)] *)
  experimental_unary_unary {A B : Type} : A -> string -> string -> (A -> result (list byte)) ->
    (list byte -> result B) -> list (string * string) -> option string -> bool -> option string ->
    option string -> option bool -> option float -> list (string * string) -> bool -> M W B;
  (** [server.add_generic_rpc_handlers(handlers)] *)
  add_generic_rpc_handlers : list (generic_handler S) -> grpc_server -> grpc_server;
  (** [server.add_registered_method_handlers(service, method_handlers)] *)
  add_registered_method_handlers : string -> dict (rpc_method_handler S) -> grpc_server -> grpc_server;
  (** the [grpc.RpcError] of a status *)
  RpcError : StatusCode -> string -> exn;
  (** "Exception calling application: ", with the text of the exception *)
  calling_failed : exn -> string
}.
Arguments grpc_channel _ _ {_}.
Arguments grpc_server _ _ {_}.

(** ** [vector_pb2_grpc.py] *)

Definition GRPC_GENERATED_VERSION : string := "1.81.0".

(** Importing [vector_pb2]: its first statement hands the version of the generated code to
    protobuf's runtime, which refuses the ones it does not support. *)
Definition import_vector_pb2 (ValidateProtobufRuntimeVersion : string -> Z -> Z -> Z -> string -> string -> result unit)
    : result unit :=
  ValidateProtobufRuntimeVersion "PUBLIC" 6 33 5 "" "vector.proto".

(** Importing [vector_pb2_grpc]: [lower] is [grpc._utilities.first_version_is_lower], when it can be
    imported. *)
Definition import_vector_pb2_grpc (GRPC_VERSION : string) (lower : option (string -> string -> bool)) : result unit :=
  let _version_not_supported :=
    match lower with
    | Some first_version_is_lower => first_version_is_lower GRPC_VERSION GRPC_GENERATED_VERSION
    | None => true
    end in
  if _version_not_supported then
    Raise (RuntimeError
      ("The grpc package installed is at version " +:+ GRPC_VERSION +:+ ","
       +:+ " but the generated code in vector_pb2_grpc.py depends on"
       +:+ " grpcio>=" +:+ GRPC_GENERATED_VERSION +:+ "."
       +:+ " Please upgrade your grpc module to grpcio>=" +:+ GRPC_GENERATED_VERSION
       +:+ " or downgrade your generated code using grpcio-tools<=" +:+ GRPC_VERSION +:+ "."))
  else Ok tt.

Definition search_path : string := "/vectorbench.VectorSearch/Search".
Definition service_name : string := "vectorbench.VectorSearch".

Section Stubs.
Context {W S : Type} {G : Grpc W S} {PB : Codec}.

(** An instance of [VectorSearchStub]: its one attribute. *)
Record VectorSearchStub := { stub_Search : SearchRequest -> M W SearchResponse }.

(** [VectorSearchStub.__init__] *)
Definition VectorSearchStub_init (channel : grpc_channel W S) : VectorSearchStub :=
  {| stub_Search := unary_unary channel search_path request_SerializeToString response_FromString true |}.

(** A servicer: the class [VectorSearchServicer] or one derived from it. *)
Record servicer := { servicer_Search : SearchRequest -> M (rpc S) SearchResponse }.

(** [context.set_code], [context.set_details] *)
Definition set_code (c : StatusCode) : M (rpc S) unit :=
  modify (fun x => Rpc (rpc_state x) (Some c) (rpc_details x)).
Definition set_details (d : string) : M (rpc S) unit :=
  modify (fun x => Rpc (rpc_state x) (rpc_code x) (Some d)).

Definition VectorSearchServicer : servicer :=
  {| servicer_Search := fun request =>
       _ ← set_code UNIMPLEMENTED;
       _ ← set_details "Method not implemented!";
       raise (NotImplementedError "Method not implemented!") |}.

Definition rpc_method_handlers (s : servicer) : dict (rpc_method_handler S) :=
  [("Search", unary_unary_rpc_method_handler SearchRequest SearchResponse (servicer_Search s)
                request_FromString response_SerializeToString)].

Definition add_VectorSearchServicer_to_server (s : servicer) (server : grpc_server W S) : grpc_server W S :=
  let rpc_method_handlers := rpc_method_handlers s in
  let generic_handler := method_handlers_generic_handler service_name rpc_method_handlers in
  let server := add_generic_rpc_handlers [generic_handler] server in
  add_registered_method_handlers service_name rpc_method_handlers server.

(** [VectorSearch.Search(request, target, options)], the experimental API *)
Definition VectorSearch_Search (request : SearchRequest) (target : string) (o : call_options) : M W SearchResponse :=
  experimental_unary_unary request target search_path request_SerializeToString response_FromString
    (co_options o) (co_channel_credentials o) (co_insecure o) (co_call_credentials o)
    (co_compression o) (co_wait_for_ready o) (co_timeout o) (co_metadata o) true.
End Stubs.
Arguments VectorSearchStub : clear implicits.
Arguments servicer : clear implicits.

(** ** What the stubs rely on *)

Section Laws.
Context {W S : Type}.

(** What a caller gets from a behaviour: its response; or, when it raises, the code it has set,
    [UNKNOWN] if none, with the details it has set, those of the exception if none.  Setting the
    code [OK] and then raising is left out. *)
Definition status_ok (c : option StatusCode) : bool :=
  match c with Some (OtherStatus name) => String.eqb name "OK" | _ => false end.

Inductive answered {A B} (G : Grpc W S) (ser : B -> result (list byte)) (des : list byte -> result A) :
  result B * rpc S -> result A -> S -> Prop :=
| answered_response b bs a s :
    ser b = Ok bs -> des bs = Ok a -> answered G ser des (Ok b, Rpc s None None) (Ok a) s
| answered_status e c d s :
    status_ok c = false ->
    answered G ser des (Raise e, Rpc s c d) (Raise (RpcError (default UNKNOWN c) (default (calling_failed e) d))) s.

(** A network in order: a call goes to the server that listens at the channel's target, to the
    handler registered there for the path, through the codecs of both sides. *)
Class GrpcLaws {G : Grpc W S} := {
  grpc_app : W -> S;
  grpc_with_app : S -> W -> W;
  grpc_listening : W -> string -> option (grpc_server W S);
  grpc_target : grpc_channel W S -> string;
  grpc_method : grpc_server W S -> string -> option (rpc_method_handler S);
  app_with_app s w : grpc_app (grpc_with_app s w) = s;
  with_app_with_app s s' w : grpc_with_app s (grpc_with_app s' w) = grpc_with_app s w;
  listening_with_app s w : grpc_listening (grpc_with_app s w) = grpc_listening w;
  (** a channel connects when it is first used *)
  insecure_channel_ok target w : exists ch, insecure_channel target w = (Ok ch, w) /\ grpc_target ch = target;
  (** a registered method is found under its service and its name *)
  method_registered service methods server name h :
    dict_get name methods = Some h ->
    grpc_method (add_registered_method_handlers service methods server)
      (str_join "/" [EmptyString; service; name]) = Some h;
  unary_unary_call {A B} (ch : grpc_channel W S) path (ser : A -> result (list byte)) (des : list byte -> result B)
      reg (a : A) w server h bs rq r s :
    grpc_listening w (grpc_target ch) = Some server -> grpc_method server path = Some h ->
    ser a = Ok bs -> mh_request_deserializer h bs = Ok rq ->
    answered G (mh_response_serializer h) des (mh_behavior h rq (Rpc (grpc_app w) None None)) r s ->
    unary_unary ch path ser des reg a w = (r, grpc_with_app s w);
  (** a one-off call without credentials, which needs [insecure], and without a deadline *)
  experimental_call {A B} (a : A) target path (ser : A -> result (list byte)) (des : list byte -> result B)
      opts compression wait metadata reg w server h bs rq r s :
    grpc_listening w target = Some server -> grpc_method server path = Some h ->
    ser a = Ok bs -> mh_request_deserializer h bs = Ok rq ->
    answered G (mh_response_serializer h) des (mh_behavior h rq (Rpc (grpc_app w) None None)) r s ->
    experimental_unary_unary a target path ser des opts None true None compression wait None metadata reg w =
      (r, grpc_with_app s w)
}.
End Laws.
Arguments GrpcLaws _ _ _ : clear implicits.

(** ** The stub and the servicer meet *)

Section Meeting.
Context {W S : Type} {G : Grpc W S} {GL : GrpcLaws W S G} {PB : Codec} {PL : CodecLaws PB}.

(** What a caller is to get for [request] from the servicer [s] in the state [app]: its response,
    or the status of its exception. *)
Definition servicer_reply (s : servicer S) (request : SearchRequest) (app : S) : option (result SearchResponse * S) :=
  match servicer_Search s request (Rpc app None None) with
  | (Ok resp, Rpc app' None None) => Some (Ok resp, app')
  | (Raise e, Rpc app' c d) =>
      if status_ok c then None else Some (Raise (RpcError (default UNKNOWN c) (default (calling_failed e) d)), app')
  | _ => None
  end.

(** The servicer's answer, through both codecs. *)
Lemma servicer_answered s request app r app' :
  servicer_reply s request app = Some (r, app') -> (forall resp, r = Ok resp -> response_ok resp) ->
  answered G response_SerializeToString response_FromString
    (servicer_Search s request (Rpc app None None)) r app'.
Proof.
  unfold servicer_reply. intros E Hok.
  destruct (servicer_Search s request (Rpc app None None)) as [[resp|e] [st c d]].
  - destruct c, d; simplify_eq. destruct (response_roundtrip resp (Hok resp eq_refl)) as (bs & Hs & Hd). by eapply answered_response.
  - destruct (status_ok c) eqn:Hc; simplify_eq. by apply answered_status.
Qed.

Definition handler_of (s : servicer S) : rpc_method_handler S :=
  unary_unary_rpc_method_handler SearchRequest SearchResponse (servicer_Search s) request_FromString response_SerializeToString.

Lemma search_registered s server :
  grpc_method (add_VectorSearchServicer_to_server s server) search_path = Some (handler_of s).
Proof. by apply (method_registered service_name (rpc_method_handlers s) _ "Search"). Qed.

Section Call.
Variables (s : servicer S) (server : grpc_server W S) (target : string) (request : SearchRequest) (w : W).
Variables (r : result SearchResponse) (app' : S).
Hypothesis Hlisten : grpc_listening w target = Some (add_VectorSearchServicer_to_server s server).
Hypothesis Hrequest : request_ok request.
Hypothesis Hreply : servicer_reply s request (grpc_app w) = Some (r, app').
Hypothesis Hok : forall resp, r = Ok resp -> response_ok resp.

Lemma stub_call ch :
  grpc_target ch = target -> stub_Search (VectorSearchStub_init ch) request w = (r, grpc_with_app app' w).
Proof using All.
  intros Hch. destruct (request_roundtrip request Hrequest) as (bs & Hs & Hd).
  rewrite <- Hch in Hlisten. pose proof (servicer_answered s request _ r app' Hreply Hok) as Ha.
  exact (unary_unary_call ch search_path _ _ true request w _ (handler_of s) bs request r app'
    Hlisten (search_registered s server) Hs Hd Ha).
Qed.

Lemma one_off_call :
  VectorSearch_Search request target {| co_options := []; co_channel_credentials := None; co_call_credentials := None;
    co_insecure := true; co_compression := None; co_wait_for_ready := None; co_timeout := None; co_metadata := [] |} w =
  (r, grpc_with_app app' w).
Proof using All.
  destruct (request_roundtrip request Hrequest) as (bs & Hs & Hd).
  pose proof (servicer_answered s request _ r app' Hreply Hok) as Ha.
  exact (experimental_call request target search_path _ _ [] None None [] true w _ (handler_of s) bs request r app'
    Hlisten (search_registered s server) Hs Hd Ha).
Qed.
End Call.
End Meeting.
