(* ===== verification/GrpcRef.v ===== *)
(** * A reference protobuf codec and a reference gRPC network

    Concrete instances of the interfaces of {!GrpcStubs}.  The codec writes the messages of
    [vector.proto] as protobuf documents it (fields of value zero are left out, repeated
    floats are packed) and reads them back, unpacked floats too.  The network is a table of
    servers by address, a server a table of methods by path. *)

From S2P Require Import Prelude Bytes Text Float64 F32 PyVal JsonRead Protobuf GrpcStubs.

(** ** The codec *)

Definition words_bytes (ws : list Z) : list byte := concat (le_word <$> ws).
Definition p_words_all (bs : list byte) : option (list Z) := p_run (p_count (length bs / 4) p_le_word) bs.

Definition request_fields (rq : SearchRequest) : list field :=
  (if String.eqb (sr_collection rq) "" then [] else [(1, WBytes (encode (sr_collection rq)))]) ++
  (if sr_k rq =? 0 then [] else [(2, WVarint (sr_k rq))]) ++
  (match sr_query rq with [] => [] | _ => [(3, WBytes (words_bytes (f32_round <$> sr_query rq)))] end).

(** The floats of a repeated field, packed or not. *)
Definition wire_floats (w : wire) : option (list Z) :=
  match w with WBytes bs => p_words_all bs | WFixed32 z => Some [z] | WVarint _ => None end.

Definition fields_request (fs : list field) : option SearchRequest :=
  query ← mapM wire_floats (values 3 fs);
  Some {| sr_collection := default "" (value_string 1 fs); sr_k := default 0 (value_int 2 fs);
          sr_query := f32_value <$> concat query |}.

Definition hit_fields (h : Hit) : list field :=
  (if h_id h =? 0 then [] else [(1, WVarint (h_id h))]) ++
  (if f32_round (h_distance h) =? 0 then [] else [(2, WFixed32 (f32_round (h_distance h)))]).
Definition fields_hit (fs : list field) : Hit :=
  {| h_id := default 0 (value_int 1 fs);
     h_distance := f32_value (match value 2 fs with Some (WFixed32 z) => z | _ => 0 end) |}.

Definition response_fields (r : SearchResponse) : list field :=
  (fun h => (1, WBytes (fields_bytes (hit_fields h)))) <$> resp_hits r.
Definition fields_response (fs : list field) : option SearchResponse :=
  hits ← submessages 1 fs; Some {| resp_hits := fields_hit <$> hits |}.

Definition decoded {A} (o : option A) : result A := match o with Some a => Ok a | None => Raise (OtherError "DecodeError") end.

#[export] Instance codec_ref : Codec := {|
  request_SerializeToString rq := Ok (fields_bytes (request_fields rq));
  request_FromString bs := decoded (fs ← message_fields bs; fields_request fs);
  response_SerializeToString r := Ok (fields_bytes (response_fields r));
  response_FromString bs := decoded (fs ← message_fields bs; fields_response fs)
|}.

Lemma f32_round_range x : is_float32 x -> is_u 4 (f32_round x).
Proof.
  intros (w & Hw & ->). destruct (is_f32_nan w) eqn:Hn; [|by rewrite f32_round_value].
  unfold f32_value, is_f32_nan in *. apply andb_true_iff in Hn as [-> Hm%negb_true_iff]. by rewrite Hm.
Qed.

Lemma f32_value_round x : is_float32 x -> f32_value (f32_round x) = x.
Proof.
  intros (w & Hw & ->). destruct (is_f32_nan w) eqn:Hn; [|by rewrite f32_round_value].
  unfold f32_value at 2 3. unfold is_f32_nan in Hn. apply andb_true_iff in Hn as [-> Hm%negb_true_iff].
  rewrite Hm. by vm_compute.
Qed.

Lemma length_words_bytes ws : length (words_bytes ws) = (4 * length ws)%nat.
Proof.
  induction ws as [|w ws IH]; [done|]. unfold words_bytes in *. rewrite fmap_cons. cbn [concat].
  rewrite length_app, IH. unfold le_word. rewrite length_reverse, length_be_bytes. cbn [length]. lia.
Qed.

Lemma words_round ws : Forall (is_u 4) ws -> p_words_all (words_bytes ws) = Some ws.
Proof.
  intros Hws. unfold p_words_all, p_run.
  rewrite length_words_bytes, Nat.mul_comm.
  rewrite Nat.div_mul by lia. unfold words_bytes. rewrite <- (app_nil_r (concat _)), p_count_app; [done|].
  intros w rest Hw. apply p_le_word_app. exact (Forall_elem _ _ _ Hws Hw).
Qed.

Lemma size_u8 z : 0 <= z < 4294967296 -> is_u 8 z.
Proof. unfold is_u. change (256 ^ Z.of_nat 8) with 18446744073709551616. lia. Qed.
Lemma u4_u8 z : is_u 4 z -> is_u 8 z.
Proof. intros Hz. apply size_u8. exact Hz. Qed.

Lemma request_fields_ok rq : request_ok rq -> Forall field_ok (request_fields rq).
Proof.
  intros (_ & Hc & Hk & Hq & Hn). unfold request_fields. rewrite !Forall_app. split_and!.
  - destruct (String.eqb _ _); [done|]. apply Forall_singleton. split; [cbn; lia|]. cbn [snd wire_ok].
    rewrite length_encode. apply size_u8. lia.
  - destruct (_ =? 0); [done|]. apply Forall_singleton. split; [cbn; lia|]. cbn [snd wire_ok]. by apply u4_u8.
  - destruct (sr_query rq) as [|x q] eqn:E; [done|]. rewrite <- E in *. apply Forall_singleton. split; [cbn; lia|].
    cbn [snd wire_ok]. rewrite length_words_bytes, length_fmap. apply size_u8. lia.
Qed.

(** Each field of a request is found under its number. *)
Lemma request_fields_read rq : request_ok rq -> fields_request (request_fields rq) = Some rq.
Proof.
  intros (_ & _ & _ & Hq & _). unfold fields_request, request_fields, values, value_string, value_int, value, values.
  assert (f32_value <$> (f32_round <$> sr_query rq) = sr_query rq) as Hfl.
  { rewrite <- list_fmap_compose. transitivity (id <$> sr_query rq); [|apply list_fmap_id].
    apply list_fmap_ext. intros i x Hx. apply f32_value_round. by eapply Forall_lookup_1 in Hq. }
  assert (Forall (is_u 4) (f32_round <$> sr_query rq)) as Hw.
  { apply Forall_fmap, List.Forall_forall. intros x Hx%list_elem_of_In. apply f32_round_range. exact (Forall_elem _ _ _ Hq Hx). }
  assert (p_words_all (words_bytes (f32_round <$> sr_query rq)) = Some (f32_round <$> sr_query rq)) as Hp by by apply words_round.
  destruct rq as [c k qs]. cbn [sr_collection sr_k sr_query] in *.
  assert (String.string_of_list_byte (encode c) = c) as Hc by apply String.string_of_list_byte_of_string.
  destruct (String.eqb_spec c "") as [->|], (Z.eqb_spec k 0) as [->|], qs as [|x qs];
    cbn [app List.filter fst snd Z.eqb Pos.eqb fmap list_fmap mapM reverse rev_append head wire_floats] in *;
    rewrite ?Hp; cbn [mbind option_bind option_ret mret default concat from_option]; rewrite ?app_nil_r; cbn [fmap list_fmap]; rewrite ?Hfl; cbn [id]; rewrite ?Hc; done.
Qed.

Lemma hit_fields_ok h : hit_ok h -> Forall field_ok (hit_fields h).
Proof.
  intros [Hi Hd]. unfold hit_fields. rewrite Forall_app. split.
  - destruct (_ =? 0); [done|]. apply Forall_singleton. by split; [cbn; lia|].
  - destruct (_ =? 0); [done|]. apply Forall_singleton. split; [cbn; lia|]. by apply f32_round_range.
Qed.

Lemma hit_fields_read h : hit_ok h -> fields_hit (hit_fields h) = h.
Proof.
  intros [_ Hd]. pose proof (f32_value_round _ Hd) as Hv. destruct h as [i d]. cbn [h_id h_distance] in *.
  unfold fields_hit, hit_fields, value_int, value, values; cbn [h_id h_distance].
  destruct (Z.eqb_spec i 0) as [->|], (Z.eqb_spec (f32_round d) 0) as [E|];
    cbn [app List.filter fst snd Z.eqb Pos.eqb fmap list_fmap reverse rev_append head default id];
    rewrite <- ?E, ?Hv; try done; rewrite E in Hv; by rewrite Hv.
Qed.

(** A field of a hit takes at most twelve bytes. *)
Lemma length_varint_bytes fuel z : (length (varint_bytes fuel z) <= fuel)%nat.
Proof.
  revert z. induction fuel as [|fuel IH]; intros z; [done|]. cbn [varint_bytes].
  destruct (z <? 128); cbn [length]; [lia|]. specialize (IH (z / 128)). lia.
Qed.

Lemma length_hit h : (length (fields_bytes (hit_fields h)) <= 40)%nat.
Proof.
  unfold hit_fields, fields_bytes.
  assert (forall n w, (length (wire_bytes w) <= 10)%nat -> (length (field_bytes (n, w)) <= 20)%nat) as Hf.
  { intros n w Hw. unfold field_bytes. rewrite length_app. pose proof (length_varint_bytes 10 (n * 8 + wire_type w)).
    cbn [fst snd]. unfold varint. lia. }
  pose proof (Hf 1 (WVarint (h_id h)) (length_varint_bytes 10 (h_id h))) as H1.
  pose proof (Hf 2 (WFixed32 (f32_round (h_distance h)))) as H2. cbn [wire_bytes] in H2. unfold le_word in H2.
  rewrite length_reverse, length_be_bytes in H2. specialize (H2 ltac:(lia)).
  destruct (_ =? 0), (_ =? 0); cbn [app fmap list_fmap concat]; rewrite ?length_app; cbn [length]; lia.
Qed.

Lemma response_fields_ok r : Forall field_ok (response_fields r).
Proof.
  unfold response_fields. apply Forall_fmap, Forall_true. intros h. split; [cbn; lia|]. cbn [snd wire_ok].
  apply size_u8. pose proof (length_hit h). lia.
Qed.

Lemma response_fields_read r : response_ok r -> fields_response (response_fields r) = Some r.
Proof.
  intros [Hh _]. destruct r as [hs]. cbn [resp_hits] in *. unfold fields_response, response_fields. cbn [resp_hits].
  assert (values 1 ((fun h => (1, WBytes (fields_bytes (hit_fields h)))) <$> hs) =
    (fun h => WBytes (fields_bytes (hit_fields h))) <$> hs) as Hv.
  { unfold values. clear Hh. induction hs as [|h hs IH]; [done|]. cbn. f_equal. exact IH. }
  assert (submessages 1 ((fun h => (1, WBytes (fields_bytes (hit_fields h)))) <$> hs) = Some (hit_fields <$> hs)) as ->.
  { unfold submessages. rewrite Hv. clear Hv. induction Hh as [|h hs Hh _ IH]; [done|].
    cbn [fmap list_fmap mapM]. rewrite message_fields_bytes by by apply hit_fields_ok. cbn [mbind option_bind].
    change (list_fmap _ _ ?f ?l) with (f <$> l). by rewrite IH. }
  cbn [mbind option_bind]. f_equal. f_equal. rewrite <- list_fmap_compose.
  transitivity (id <$> hs); [|apply list_fmap_id]. apply list_fmap_ext. intros i h Hi.
  apply hit_fields_read. by eapply Forall_lookup_1 in Hh.
Qed.

#[export] Instance codec_ref_laws : CodecLaws codec_ref.
Proof.
  split; cbn.
  - intros rq Hrq. eexists. split; [done|]. rewrite message_fields_bytes by by apply request_fields_ok.
    cbn [mbind option_bind]. by rewrite request_fields_read.
  - intros r Hr. eexists. split; [done|]. rewrite message_fields_bytes by apply response_fields_ok.
    cbn [mbind option_bind]. by rewrite response_fields_read.
Qed.

(** ** The network *)

Definition code_name (c : StatusCode) : string :=
  match c with UNIMPLEMENTED => "UNIMPLEMENTED" | UNKNOWN => "UNKNOWN" | OtherStatus n => n end.
Definition ref_RpcError (c : StatusCode) (details : string) : exn :=
  OtherError ("RpcError " +:+ code_name c +:+ ": " +:+ details).

Definition ref_calling_failed (e : exn) : string :=
  "Exception calling application: " +:+
  match e with
  | RuntimeError msg | NotImplementedError msg | ConnectionError msg | AssertionError msg => msg
  | _ => ""
  end.

Definition ref_server (S : Type) : Type := dict (rpc_method_handler S).

(** The servers by address, and the state of their application. *)
Record net (S : Type) := Net { net_app : S; net_servers : dict (ref_server S) }.
Arguments Net {_} _ _.
Arguments net_app {_} _.
Arguments net_servers {_} _.
Definition net_with_app {S} (s : S) (w : net S) : net S := Net s (net_servers w).

Definition method_path (service name : string) : string := str_join "/" [""; service; name].
Definition method_table {S} (service : string) (methods : dict (rpc_method_handler S)) : ref_server S :=
  (fun '(name, h) => (method_path service name, h)) <$> methods.

(** What a server makes of the bytes of a request. *)
Definition ref_handle {S} (h : rpc_method_handler S) (bs : list byte) (w : net S) : result (list byte) * net S :=
  match mh_request_deserializer h bs with
  | Raise _ => (Raise (ref_RpcError (OtherStatus "INTERNAL") "Exception deserializing request!"), w)
  | Ok rq =>
      match mh_behavior h rq (Rpc (net_app w) None None) with
      | (Ok resp, Rpc s None _) =>
          (match mh_response_serializer h resp with
           | Ok bs => Ok bs
           | Raise _ => Raise (ref_RpcError (OtherStatus "INTERNAL") "Failed to serialize response!")
           end, net_with_app s w)
      | (Ok _, Rpc s (Some c) d) => (Raise (ref_RpcError c (default "" d)), net_with_app s w)
      | (Raise e, Rpc s c d) =>
          (Raise (ref_RpcError (default UNKNOWN c) (default (ref_calling_failed e) d)), net_with_app s w)
      end
  end.

Definition ref_call {S A B} (target path : string) (ser : A -> result (list byte)) (des : list byte -> result B) (a : A)
    : M (net S) B := fun w =>
  match ser a, dict_get target (net_servers w) with
  | Raise e, _ => (Raise e, w)
  | Ok _, None => (Raise (ref_RpcError (OtherStatus "UNAVAILABLE") "failed to connect"), w)
  | Ok bs, Some server =>
      match dict_get path server with
      | None => (Raise (ref_RpcError UNIMPLEMENTED "Method not found!"), w)
      | Some h => let '(r, w') := ref_handle h bs w in (bs ← r; des bs, w')
      end
  end.

#[export] Instance grpc_ref S : Grpc (net S) S := {|
  grpc_channel := string;
  grpc_server := ref_server S;
  insecure_channel target := mret target;
  unary_unary A B ch path ser des _ a := ref_call ch path ser des a;
  experimental_unary_unary A B a target path ser des _ cc insecure _ _ _ _ _ _ :=
    if insecure || bool_decide (cc <> None) then ref_call target path ser des a else raise ValueError;
  add_generic_rpc_handlers hs server :=
    concat ((fun g => method_table (gh_service g) (gh_methods g)) <$> hs) ++ server;
  add_registered_method_handlers service methods server := method_table service methods ++ server;
  RpcError := ref_RpcError;
  calling_failed := ref_calling_failed
|}.

Lemma str_app_eqb p a b : String.eqb (p +:+ a) (p +:+ b) = String.eqb a b.
Proof.
  induction p as [|c p IH]; [done|].
  change (String.eqb (String c p +:+ a) (String c p +:+ b)) with (if Ascii.eqb c c then String.eqb (p +:+ a) (p +:+ b) else false).
  by rewrite Ascii.eqb_refl.
Qed.

Lemma method_table_get {S} service name (methods : dict (rpc_method_handler S)) h rest :
  dict_get name methods = Some h -> dict_get (method_path service name) (method_table service methods ++ rest) = Some h.
Proof.
  induction methods as [|[n h'] methods IH]; [done|]. cbn [method_table fmap list_fmap app dict_get]. intros E.
  assert (String.eqb (method_path service name) (method_path service n) = String.eqb name n) as ->
    by (unfold method_path; cbn [str_join]; by rewrite !str_app_eqb).
  destruct (String.eqb name n); [done|]. by apply IH.
Qed.

Lemma ref_handle_call {S A B} (h : rpc_method_handler S) (ser : A -> result (list byte)) (des : list byte -> result B)
    target path a w server bs rq r s :
  dict_get target (net_servers w) = Some server -> dict_get path server = Some h ->
  ser a = Ok bs -> mh_request_deserializer h bs = Ok rq ->
  answered (grpc_ref S) (mh_response_serializer h) des (mh_behavior h rq (Rpc (net_app w) None None)) r s ->
  ref_call target path ser des a w = (r, net_with_app s w).
Proof.
  intros Hl Hp Hs Hd Ha. unfold ref_call. rewrite Hs, Hl, Hp. unfold ref_handle. rewrite Hd.
  inversion Ha as [b bs' b' s' Hser Hdes E|e c d s' Hc E]; subst.
  - rewrite Hser. cbn. by rewrite Hdes.
  - done.
Qed.

#[export] Program Instance grpc_ref_laws S : GrpcLaws (net S) S (grpc_ref S) := {|
  grpc_app := net_app; grpc_with_app := net_with_app;
  grpc_listening w target := dict_get target (net_servers w);
  grpc_target ch := ch;
  grpc_method server path := dict_get path server
|}.
Next Obligation. done. Qed.
Next Obligation. done. Qed.
Next Obligation. done. Qed.
Next Obligation. intros S target w. by exists target. Qed.
Next Obligation. intros S service methods server name h E. by apply (method_table_get service name). Qed.
Next Obligation. intros S A B ch path ser des reg a w server h bs rq r s Hl Hp Hs Hd Ha. by eapply (ref_handle_call h). Qed.
Next Obligation.
  intros S A B a target path ser des opts compression wait metadata reg w server h bs rq r s Hl Hp Hs Hd Ha.
  by eapply (ref_handle_call h).
Qed.
