(* ===== verification/GrpcClient.v ===== *)
(** * The gRPC client of [sift1m/rostam_grpc_client.py]

    The loops of {!Bench} over the stub of {!GrpcStubs}. *)

From S2P Require Import Prelude Bytes Text Float64 FloatOrder Env F32 PyVal Numpy Sift Report Bench GrpcStubs.

Definition GRPC_K : Z := 10.

(** The script's own copies of the readers of {!Sift}, which are called with a path. *)
Definition read_fvecs {NP : Numpy} (files : file_system) (path : string) : result (list (list Z)) :=
  bs ← files path;
  let x := np_fromfile_i32 bs None in
  d ← first_int x;
  rows ← np_reshape x (d + 1);
  Ok (drop_column rows).
Definition read_ivecs {NP : Numpy} (files : file_system) (path : string) : result (list (list Z)) :=
  bs ← files path;
  let x := np_fromfile_i32 bs None in
  d ← first_int x;
  rows ← np_reshape x (d + 1);
  Ok (int32_rows (drop_column rows)).

Section Runs.
Context {W S : Type} {G : Grpc W S} {PB : Codec} {NP : Numpy} {C : Clock}.
(** [ADDR], [DUR] *)
Variables (ADDR : string) (DUR : float).

Definition new_stub : M W (VectorSearchStub W) :=
  ch ← insecure_channel ADDR;
  mret (VectorSearchStub_init ch).

(** [SearchRequest(collection="sift", k=K, query=q.tolist())] *)
Definition request_of (q : list Z) : SearchRequest :=
  {| sr_collection := "sift"; sr_k := GRPC_K; sr_query := np_float64 <$> q |}.

(** One query of the latency loop: [{h.id for h in stub.Search(reqs[i]).hits}] *)
Definition search_ids (stub : VectorSearchStub W) (reqs : list SearchRequest) (i : nat) : M W (list Z) :=
  rq ← lift_result (py_item reqs (Z.of_nat i));
  resp ← stub_Search stub rq;
  mret (h_id <$> resp_hits resp).

Definition latency (queries gt : list (list Z)) : M (bench W) (float * float * float * float) :=
  stub ← on_world new_stub;
  reqs ← lift_result (mapR (fun i => q ← py_item queries (Z.of_nat i); Ok (request_of q)) (seq 0 LAT_N));
  '(lats, hits) ← timed_queries (search_ids stub reqs) (truth_of gt) (seq 0 LAT_N) [] 0;
  lift_result (figures lats hits).

(** One query of a worker: [stub.Search(_REQS[i % m])] *)
Definition worker_search (stub : VectorSearchStub W) (reqs : list SearchRequest) (i : Z) : M W unit :=
  j ← lift_result (py_mod i (Z.of_nat (length reqs)));
  rq ← lift_result (py_item reqs j);
  _ ← stub_Search stub rq;
  mret tt.

Definition _qps_worker (fuel : nat) (reqs : list SearchRequest) (wid : nat) : M (bench W) Z :=
  stub ← on_world new_stub;
  t ← clock;
  qps_loop fuel (worker_search stub reqs) (fadd t DUR) (Z.of_nat wid) 0.
End Runs.

(** ** The script *)

Section Script.
Context {W S : Type} {G : Grpc W S} {PB : Codec} {NP : Numpy} {C : Clock}.

(** The settings, read when the script starts. *)
Definition load_settings (env : environment) : result settings :=
  conc ← int_of_str (getenv env "ROSTAM_CONC" "32");
  dur ← float_of_str (getenv env "ROSTAM_QPS_SECONDS" "3");
  Ok {| SIFT := getenv env "ROSTAM_SIFT_DIR" "/tmp/rostam-sift1m/sift";
        ADDR := getenv env "ROSTAM_GRPC_ADDR" "127.0.0.1:7701"; CONC := conc; DUR := dur |}.

(** [procs] are the processes of the pool. *)
Definition saturated_qps (st : settings) (fuel : nat) (queries : list (list Z)) (procs : nat -> proc W)
    : M (bench W) float :=
  let reqs := request_of <$> queries in
  pool_qps (CONC st) procs (fun C => _qps_worker (C := C) (ADDR st) (DUR st) fuel reqs).

(** The line that says what is measured. *)
Definition banner (st : settings) : string :=
  cat ["[rostam-grpc] "; ADDR st; ", Python gRPC client; latency=single channel, satQPS="; dec (CONC st);
       " concurrent processes x "; fmt_fixed 0 (DUR st); "s (ef fixed at server=64)"].

(** [main]: the figures of the row it prints, [gt] cut to [K] columns *)
Definition main (st : settings) (fuel : nat) (files : file_system) (procs : nat -> proc W)
    : M (bench W) (float * float * float * float * float) :=
  queries ← lift_result (read_fvecs files (SIFT st +:+ "/sift_query.fvecs"));
  gt ← lift_result (read_ivecs files (SIFT st +:+ "/sift_groundtruth.ivecs"));
  _ ← print (banner st);
  '(r, a, b, m) ← latency (ADDR st) queries (columns GRPC_K gt);
  qps ← saturated_qps st fuel queries procs;
  _ ← print latency_header;
  _ ← print (latency_line 64 r a b m qps);
  mret (r, a, b, m, qps).

(** The whole script: the stubs are imported, then the settings are read. *)
Definition script (validate : string -> Z -> Z -> Z -> string -> string -> result unit) (version : string) (lower : option (string -> string -> bool)) (env : environment) (fuel : nat)
    (files : file_system) (procs : nat -> proc W) : M (bench W) (float * float * float * float * float) :=
  _ ← lift_result (import_vector_pb2 validate);
  _ ← lift_result (import_vector_pb2_grpc version lower);
  st ← lift_result (load_settings env);
  main st fuel files procs.
End Script.

(** ** Facts *)

#[export] Instance SearchRequest_inhabited : Inhabited SearchRequest :=
  populate {| sr_collection := ""; sr_k := 0; sr_query := [] |}.

(** A query a request can carry. *)
Definition query_ok (q : list Z) : Prop := Forall is_f32 q /\ Z.of_nat (length q) < 268435456.

Lemma request_of_ok {NP : Numpy} {NL : NumpyLaws NP} q : query_ok q -> request_ok (request_of q).
Proof.
  intros [Hq Hl]. split_and!; [done..| |by cbn [sr_query request_of]; rewrite length_fmap]. cbn [sr_query request_of].
  apply Forall_fmap. eapply List.Forall_impl; [|exact Hq]. intros w Hw. exists w. split; [done|by apply np_float64_value].
Qed.

(** The requests a worker sends: the queries in turn, from its number on. *)
Definition worker_requests (reqs : list SearchRequest) (wid n : nat) : list SearchRequest :=
  (fun j => reqs !!! ((wid + j) mod length reqs)%nat) <$> seq 0 n.

Lemma worker_requests_S reqs wid n :
  worker_requests reqs wid (S n) = worker_requests reqs wid n ++ [reqs !!! ((wid + n) mod length reqs)%nat].
Proof. unfold worker_requests. rewrite seq_S, fmap_app. by rewrite Nat.add_0_l. Qed.

Section Facts.
Context {W S : Type} {G : Grpc W S} {GL : GrpcLaws W S G} {PB : Codec} {PL : CodecLaws PB}.
Context {NP : Numpy} {NL : NumpyLaws NP} {C : Clock}.
Variables (ADDR : string) (DUR : float) (s : servicer S) (server : grpc_server W S).
(** What the servicer answers to a request, and the state it goes to. *)
Variables (hits_of : SearchRequest -> SearchResponse) (next : SearchRequest -> S -> S).

Definition serves : Prop := forall rq app,
  servicer_reply s rq app = Some (Ok (hits_of rq), next rq app) /\ response_ok (hits_of rq).
Definition up (w : W) : Prop := grpc_listening w ADDR = Some (add_VectorSearchServicer_to_server s server).

Hypothesis Hserves : serves.

Lemma wp_new_stub w (Q : result (VectorSearchStub W) -> W -> Prop) :
  (forall ch, grpc_target ch = ADDR -> Q (Ok (VectorSearchStub_init ch)) w) -> wp (new_stub ADDR) w Q.
Proof.
  intros HQ. unfold new_stub. apply wp_bind. destruct (insecure_channel_ok ADDR w) as (ch & Hch & Ht).
  apply wp_run. unfold outcome, after. rewrite Hch. by apply HQ.
Qed.

Lemma wp_search ch rq w (Q : result SearchResponse -> W -> Prop) :
  grpc_target ch = ADDR -> up w -> request_ok rq ->
  Q (Ok (hits_of rq)) (grpc_with_app (next rq (grpc_app w)) w) -> wp (stub_Search (VectorSearchStub_init ch) rq) w Q.
Proof using Hserves PL NL.
  intros Ht Hup Hrq HQ. destruct (Hserves rq (grpc_app w)) as [Hr Hok]. apply wp_run. unfold outcome, after.
  rewrite (stub_call s server ADDR rq w _ _ Hup Hrq Hr); [done| |done]. by intros resp [= <-].
Qed.

Lemma up_with_app app w : up w -> up (grpc_with_app app w).
Proof. unfold up. by rewrite listening_with_app. Qed.

Lemma mapR_requests (queries : list (list Z)) a n :
  (a + n <= length queries)%nat ->
  mapR (fun i => q ← py_item queries (Z.of_nat i); Ok (request_of q)) (seq a n) =
  Ok (request_of <$> take n (drop a queries)).
Proof.
  revert a. induction n as [|n IH]; intros a Hn; [done|]. cbn [seq mapR].
  destruct (lookup_lt_is_Some_2 queries a) as [q Ha]; [lia|].
  rewrite (py_item_lookup _ _ _ Ha). cbn [mbind result_bind]. rewrite IH by lia. by rewrite (drop_S _ _ _ Ha).
Qed.

Lemma search_ids_runs ch queries i w :
  grpc_target ch = ADDR -> Forall query_ok queries -> (LAT_N <= length queries)%nat -> (i < LAT_N)%nat -> up w ->
  wp (search_ids (VectorSearchStub_init ch) (request_of <$> take LAT_N queries) i) w (fun r w' =>
    r = Ok (h_id <$> resp_hits (hits_of (request_of (queries !!! i)))) /\ up w').
Proof using Hserves PL NL.
  intros Ht Hq Hl Hi Hup. destruct (lookup_lt_is_Some_2 queries i) as [q Hiq]; [lia|].
  assert ((request_of <$> take LAT_N queries) !! i = Some (request_of q)) as Hrq
    by (rewrite list_lookup_fmap, lookup_take_lt by done; by rewrite Hiq).
  unfold search_ids. rewrite (py_item_lookup _ _ _ Hrq). wp_steps. apply wp_search; [done|done| |].
  - apply request_of_ok, (Forall_elem _ _ _ Hq). by eapply list_elem_of_lookup_2.
  - wp_steps. rewrite (list_lookup_total_correct _ _ _ Hiq). split; [done|by apply up_with_app].
Qed.

(** The ids the server gives for the query [i]. *)
Definition grpc_answer (queries : list (list Z)) (i : nat) : list Z := h_id <$> resp_hits (hits_of (request_of (queries !!! i))).

(** A latency run over a servicer that answers: its figures, and its readings of the clock. *)
Lemma wp_grpc_latency queries gt (b : bench W) :
  up (b_world b) -> Forall query_ok queries -> (LAT_N <= length queries)%nat -> (LAT_N <= length gt)%nat ->
  wp (latency ADDR queries gt) b (fun r b' =>
    r = figures (interval (b_reads b) <$> seq 0 LAT_N) (total_hits (grpc_answer queries) (run_truth gt) (seq 0 LAT_N)) /\
    b_reads b' = (b_reads b + 2 * LAT_N)%nat).
Proof using Hserves PL NL.
  intros Hup Hq Hnq Hng. set (times := interval _ <$> _). set (found := total_hits _ _ _).
  unfold latency. apply wp_bind, wp_on_world, wp_new_stub. intros ch Hch.
  apply wp_bind, wp_lift. rewrite mapR_requests by lia. rewrite drop_0. apply wp_bind.
  eapply wp_mono; [apply (wp_timed_queries up _ _ (grpc_answer queries) (run_truth gt))|].
  - intros i w [_ Hi]%elem_of_seq Hw. by eapply search_ids_runs.
  - intros i [_ Hi]%elem_of_seq. apply truth_item. lia.
  - done.
  - cbn [b_reads]. intros r b' (-> & _ & Hreads). rewrite length_seq in Hreads |- *. rewrite app_nil_l, Z.add_0_l.
    fold times found. by apply wp_lift.
Qed.

Lemma grpc_latency_value queries gt (b : bench W) :
  up (b_world b) -> Forall query_ok queries -> (LAT_N <= length queries)%nat -> (LAT_N <= length gt)%nat ->
  outcome (latency ADDR queries gt) b =
  figures (interval (b_reads b) <$> seq 0 LAT_N) (total_hits (grpc_answer queries) (run_truth gt) (seq 0 LAT_N)).
Proof using Hserves PL NL. intros Hup Hq Hnq Hng. exact (proj1 (wp_grpc_latency queries gt b Hup Hq Hnq Hng)). Qed.

(** A worker's world after [n] queries: its server has answered them. *)
Definition worker_served (reqs : list SearchRequest) (wid : nat) (app : S) (i : Z) (w : W) : Prop :=
  exists n, i = Z.of_nat (wid + n) /\ up w /\
    grpc_app w = foldl (fun app rq => next rq app) app (worker_requests reqs wid n).

(** One query of a worker. *)
Lemma worker_search_ok ch reqs i w :
  grpc_target ch = ADDR -> reqs <> [] -> Forall request_ok reqs -> 0 <= i -> up w ->
  worker_search (VectorSearchStub_init ch) reqs i w = (Ok tt, grpc_with_app (next (nth_mod reqs i) (grpc_app w)) w).
Proof using Hserves PL NL.
  intros Ht Hne Hok Hi Hup. destruct (py_item_mod reqs i Hne Hi) as (j & Hj & Hitem & Hin).
  destruct (Hserves (nth_mod reqs i) (grpc_app w)) as [Hr Hresp].
  unfold worker_search, mbind, M_bind, lift_result. rewrite Hj, Hitem.
  rewrite (stub_call s server ADDR (nth_mod reqs i) w _ _ Hup (Forall_elem _ _ _ Hok Hin) Hr); [done| |done]. by intros resp [= <-].
Qed.

Lemma worker_search_runs ch reqs wid app i w :
  grpc_target ch = ADDR -> reqs <> [] -> Forall request_ok reqs -> worker_served reqs wid app i w ->
  wp (worker_search (VectorSearchStub_init ch) reqs i) w (fun r w' => r = Ok tt /\ worker_served reqs wid app (i + 1) w').
Proof using Hserves PL NL.
  intros Ht Hne Hok (n & -> & Hup & Happ). apply wp_run. unfold outcome, after.
  rewrite worker_search_ok by (done || lia). split; [done|]. exists (Datatypes.S n). split_and!; [lia|by apply up_with_app|].
  cbn [snd]. by rewrite app_with_app, worker_requests_S, foldl_app, <- Happ, nth_mod_nat.
Qed.

(** A worker's run: what it returns, and what its server has answered. *)
Lemma wp_grpc_worker reqs wid t fuel (b : bench W) :
  up (b_world b) -> reqs <> [] -> Forall request_ok reqs ->
  stops_after t (Datatypes.S (b_reads b)) (fadd (ticks (b_reads b)) DUR) -> (t < fuel)%nat ->
  wp (_qps_worker ADDR DUR fuel reqs wid) b (fun r b' => r = Ok (16 * Z.of_nat t) /\
    grpc_app (b_world b') = foldl (fun app rq => next rq app) (grpc_app (b_world b)) (worker_requests reqs wid (16 * t))).
Proof using Hserves PL NL.
  intros Hup Hne Hok Hstop Hf. set (app := grpc_app (b_world b)). unfold _qps_worker.
  apply wp_bind, wp_on_world, wp_new_stub. intros ch Hch.
  apply wp_bind, wp_clock. cbn [b_world b_reads].
  eapply wp_mono; [apply (wp_qps_loop (worker_served reqs wid app) t); [|done|done|]|].
  - intros k w _ Hk. by apply worker_search_runs.
  - exists 0%nat. rewrite Nat.add_0_r. by split_and!.
  - intros r b' [-> (n & Hi & _ & Happ)]. split; [done|].
    by replace (16 * t)%nat with n by lia.
Qed.
End Facts.
