(* ===== verification/GrpcProps.v ===== *)
(** * What the gRPC stubs and their client guarantee

    The properties of [sift1m/grpc_stubs] and of [sift1m/rostam_grpc_client.py], proved against
    the interfaces of {!GrpcStubs} and applied to the codec and the network of {!GrpcRef}. *)

From S2P Require Import Prelude Bytes Text Float64 FloatOrder F32 PyVal JsonRead Numpy Sift Bench Protobuf GrpcStubs GrpcRef GrpcClient.

(** ** The descriptor *)

(** What [vector.proto] declares. *)
Definition vector_proto : file_decl := {|
  pf_name := "vector.proto"; pf_package := "vectorbench"; pf_syntax := "proto3";
  pf_messages := [
    {| md_name := "SearchRequest"; md_fields := [
         {| fd_name := "collection"; fd_number := 1; fd_repeated := false; fd_type := TString |};
         {| fd_name := "k"; fd_number := 2; fd_repeated := false; fd_type := TUint32 |};
         {| fd_name := "query"; fd_number := 3; fd_repeated := true; fd_type := TFloat |}] |};
    {| md_name := "Hit"; md_fields := [
         {| fd_name := "id"; fd_number := 1; fd_repeated := false; fd_type := TUint64 |};
         {| fd_name := "distance"; fd_number := 2; fd_repeated := false; fd_type := TFloat |}] |};
    {| md_name := "SearchResponse"; md_fields := [
         {| fd_name := "hits"; fd_number := 1; fd_repeated := true; fd_type := TMessage ".vectorbench.Hit" |}] |}];
  pf_services := [
    {| sd_name := "VectorSearch"; sd_methods := [
         {| rd_name := "Search"; rd_input := ".vectorbench.SearchRequest"; rd_output := ".vectorbench.SearchResponse" |}] |}]
|}.

(** The declaration in a range of the descriptor: its name. *)
Definition declared_at (range : nat * nat) : option string :=
  fs ← message_fields DESCRIPTOR@[range.1 : range.2]; value_string 1 fs.

(** The generated modules are those of [vector.proto].  The bytes [vector_pb2.py] embeds,
    read as a protobuf descriptor, declare the file's three messages, field by field with
    their numbers and types, and its one service; each range it records holds the declaration
    of its name; and the path both sides of [vector_pb2_grpc.py] use is that of the service's
    method, in the package. *)
Example descriptor_declares :
  read_file_decl DESCRIPTOR = Some vector_proto /\
  Forall (fun '(name, range) => declared_at range = Some name) serialized_ranges /\
  (s ← head (pf_services vector_proto); m ← head (sd_methods s);
   Some (method_path (pf_package vector_proto +:+ "." +:+ sd_name s) (rd_name m))) = Some search_path.
Proof. split; [by vm_compute|]. split; [by repeat constructor|done]. Qed.

(** ** Calls *)

(** The options of a one-off call to a server without credentials. *)
Definition insecure_options : call_options :=
  {| co_options := []; co_channel_credentials := None; co_call_credentials := None; co_insecure := true;
     co_compression := None; co_wait_for_ready := None; co_timeout := None; co_metadata := [] |}.

Section Calls.
Context {W S : Type} {G : Grpc W S} {GL : GrpcLaws W S G} {PB : Codec} {PL : CodecLaws PB}.

(** C24: the stub is the servicer.  On a network in order, with a servicer added to the server
    that listens at [target], a request within the limits of its fields sent through a new
    stub, or by the one-off [VectorSearch.Search], brings back exactly what the servicer's
    [Search] returns for it, or the status of its exception: the code it set before
    raising, [UNKNOWN] if none, and the details it set, those of the exception if none; and
    leaves the application as the servicer left it. *)
Theorem stub_reaches_servicer (s : servicer S) server target request (w : W) r app' :
  grpc_listening w target = Some (add_VectorSearchServicer_to_server s server) -> request_ok request ->
  servicer_reply s request (grpc_app w) = Some (r, app') -> (forall resp, r = Ok resp -> response_ok resp) ->
  (stub ← new_stub target; stub_Search stub request) w = (r, grpc_with_app app' w) /\
  VectorSearch_Search request target insecure_options w = (r, grpc_with_app app' w).
Proof.
  intros Hl Hreq Hr Hok. split; [|by eapply one_off_call].
  destruct (insecure_channel_ok target w) as (ch & Hch & Htarget).
  unfold new_stub, mbind, M_bind. rewrite Hch. by eapply stub_call.
Qed.

(** The default servicer implements nothing.  A server to which the generated base class
    was added as it is answers every request with the status [UNIMPLEMENTED] and its details,
    which the stub raises, and its state does not change. *)
Theorem stub_unimplemented server target request (w : W) :
  grpc_listening w target = Some (add_VectorSearchServicer_to_server VectorSearchServicer server) -> request_ok request ->
  (stub ← new_stub target; stub_Search stub request) w =
    (Raise (RpcError UNIMPLEMENTED "Method not implemented!"), grpc_with_app (grpc_app w) w).
Proof.
  intros Hl Hreq. destruct (insecure_channel_ok target w) as (ch & Hch & Htarget).
  unfold new_stub, mbind, M_bind. rewrite Hch. by eapply stub_call.
Qed.
End Calls.

(** The import guard.  The generated module imports exactly when the version check of the
    installed [grpc] can be imported and does not find it older than 1.81.0; otherwise the
    import raises [RuntimeError]. *)
Theorem import_guard version lower :
  match import_vector_pb2_grpc version lower with
  | Ok _ => exists f, lower = Some f /\ f version "1.81.0" = false
  | Raise e => (exists msg, e = RuntimeError msg) /\ forall f, lower = Some f -> f version "1.81.0" = true
  end.
Proof.
  unfold import_vector_pb2_grpc, GRPC_GENERATED_VERSION. destruct lower as [f|].
  - destruct (f version "1.81.0") eqn:E; [|by exists f]. split; [by eexists|]. by intros g [= <-].
  - split; [by eexists|done].
Qed.

(** ** Runs *)

Section Runs.
Context {W S : Type} {G : Grpc W S} {GL : GrpcLaws W S G} {PB : Codec} {PL : CodecLaws PB}.
Context {NP : Numpy} {NL : NumpyLaws NP} {C : Clock}.
Variables (ADDR : string) (DUR : float) (s : servicer S) (server : grpc_server W S).
Variables (hits_of : SearchRequest -> SearchResponse) (next : SearchRequest -> S -> S).

(** A latency run over the generated stubs reports what it measured.  Against a server to
    which a servicer that answers was added, with 2000 queries, a ground truth of at most ten
    ids for each and a clock that gives numbers, [latency] returns; the recall is the number
    of true ids in the servicer's own answers over 20000, rounded once, that number being
    between 0 and 20000; the median and the 99th percentile are two of the times measured, in
    order. *)
Theorem grpc_latency_reports queries gt (b : bench W) :
  serves s hits_of next -> up ADDR s server (b_world b) ->
  Forall query_ok queries -> (LAT_N <= length queries)%nat ->
  (LAT_N <= length gt)%nat -> Forall (fun r => (length r <= 10)%nat) gt ->
  let times := interval (b_reads b) <$> seq 0 LAT_N in
  numbers times ->
  let found := total_hits (grpc_answer hits_of queries) (run_truth gt) (seq 0 LAT_N) in
  0 <= found <= 20000 /\
  exists p q m, outcome (latency ADDR queries gt) b = Ok (f_of_ratio found 20000, p, q, m) /\
    p ∈ times /\ q ∈ times /\ fleb p q = true.
Proof.
  intros Hserves Hup Hq Hnq Hng Hgt times Hnum found. split; [by apply found_range|].
  destruct (figures_report times found Hnum) as (p & q & m & Hfig & Hpq).
  { unfold times. by rewrite length_fmap, length_seq. }
  exists p, q, m. split; [|done].
  rewrite (grpc_latency_value ADDR s server hits_of next Hserves) by done. exact Hfig.
Qed.

(** A gRPC worker counts its queries, and stops.  If the clock reaches the deadline at the
    [t]-th check, the worker returns [16 * t] whatever more time it is allowed, and the state
    of the application is the one the servicer reaches by answering exactly that many
    requests: the queries in turn, from the worker's number on, around the list. *)
Theorem grpc_worker_counts reqs wid t fuel (b : bench W) :
  serves s hits_of next -> up ADDR s server (b_world b) -> reqs <> [] -> Forall request_ok reqs ->
  stops_after t (Datatypes.S (b_reads b)) (fadd (ticks (b_reads b)) DUR) -> (t < fuel)%nat ->
  let run := _qps_worker ADDR DUR fuel reqs wid in
  outcome run b = Ok (16 * Z.of_nat t) /\
  grpc_app (b_world (after run b)) =
    foldl (fun app rq => next rq app) (grpc_app (b_world b)) (worker_requests reqs wid (16 * t)).
Proof.
  intros Hserves Hup Hne Hok Hstop Hf run. by apply (wp_grpc_worker ADDR DUR s server hits_of next Hserves reqs wid t fuel b).
Qed.
End Runs.

(** ** Witnesses *)

(** A servicer that keeps the requests it has answered, and gives each the same two hits. *)
Definition demo_response : SearchResponse :=
  {| resp_hits := [{| h_id := 7; h_distance := f_of_ratio 3 2 |}; {| h_id := 9; h_distance := f_of_Z 0 |}] |}.
Definition demo_next (rq : SearchRequest) (app : list SearchRequest) : list SearchRequest := app ++ [rq].
Definition demo_servicer : servicer (list SearchRequest) :=
  {| servicer_Search := fun rq =>
       _ ← modify (fun x => Rpc (demo_next rq (rpc_state x)) (rpc_code x) (rpc_details x));
       mret demo_response |}.

(** One server, with the servicer given. *)
Definition demo_net (s : servicer (list SearchRequest)) : net (list SearchRequest) :=
  Net [] [("127.0.0.1:7701", add_VectorSearchServicer_to_server (G := grpc_ref _) s [])].
Definition demo_request : SearchRequest :=
  {| sr_collection := "sift"; sr_k := 10; sr_query := [f_of_Z 1; f_of_ratio 1 2; f_of_Z 0] |}.

Lemma float32_exact x : (0 <=? f32_round x) && (f32_round x <? 4294967296) = true -> f32_value (f32_round x) = x -> is_float32 x.
Proof.
  intros Hr Hx. exists (f32_round x). split; [|done]. unfold is_f32, is_u.
  change (256 ^ Z.of_nat 4) with 4294967296. apply andb_true_iff in Hr as [?%Z.leb_le ?%Z.ltb_lt]. lia.
Qed.

Lemma demo_request_ok : request_ok demo_request.
Proof. split_and!; try done. repeat constructor; by apply float32_exact; vm_compute. Qed.
Lemma demo_response_ok : response_ok demo_response.
Proof. split; [|done]. repeat constructor; try done; by apply float32_exact; vm_compute. Qed.
Lemma demo_serves : serves (W := net _) (G := grpc_ref _) demo_servicer (fun _ => demo_response) demo_next.
Proof. intros rq app. split; [done|apply demo_response_ok]. Qed.

Lemma stub_reaches_servicer_witness :
  (stub ← new_stub (G := grpc_ref _) "127.0.0.1:7701"; stub_Search stub demo_request) (demo_net demo_servicer) =
    (Ok demo_response, net_with_app [demo_request] (demo_net demo_servicer)).
Proof.
  refine (proj1 (stub_reaches_servicer (G := grpc_ref _) demo_servicer [] "127.0.0.1:7701" demo_request
    (demo_net demo_servicer) (Ok demo_response) [demo_request] _ _ _ _)).
  - reflexivity.
  - apply demo_request_ok.
  - reflexivity.
  - intros resp [= <-]. apply demo_response_ok.
Defined.

Lemma stub_unimplemented_witness :
  (stub ← new_stub (G := grpc_ref _) "127.0.0.1:7701"; stub_Search stub demo_request) (demo_net VectorSearchServicer) =
    (Raise (ref_RpcError UNIMPLEMENTED "Method not implemented!"), demo_net VectorSearchServicer).
Proof.
  refine (stub_unimplemented (G := grpc_ref _) [] "127.0.0.1:7701" demo_request (demo_net VectorSearchServicer) _ _).
  - reflexivity.
  - apply demo_request_ok.
Defined.

(** The bytes on the wire of the demo request. *)
Example demo_request_bytes :
  request_SerializeToString demo_request =
  Ok (x0a :: x04 :: encode "sift" ++ [x10; x0a; x1a; x0c; x00; x00; x80; x3f; x00; x00; x00; x3f; x00; x00; x00; x00]).
Proof. by vm_compute. Qed.

(** A clock that counts its readings, and one that stands still. *)
Definition grpc_ticking : Clock := fun n => f_of_Z (Z.of_nat n).
Definition grpc_still : Clock := fun _ => f_of_Z 1.

Lemma grpc_latency_reports_witness :
  let queries := replicate LAT_N [1065353216; 1073741824] in
  let gt := replicate LAT_N [6; 41] in
  0 <= total_hits (grpc_answer (fun _ => demo_response) queries) (run_truth gt) (seq 0 LAT_N) <= 20000.
Proof.
  refine (proj1 (grpc_latency_reports (G := grpc_ref _) (C := grpc_still) "127.0.0.1:7701" demo_servicer []
    (fun _ => demo_response) demo_next (replicate LAT_N [1065353216; 1073741824]) (replicate LAT_N [6; 41])
    (Bench (demo_net demo_servicer) 0) demo_serves _ _ _ _ _ _)).
  - reflexivity.
  - apply Forall_replicate. split; [by repeat constructor|done].
  - by rewrite length_replicate.
  - by rewrite length_replicate.
  - apply Forall_replicate. cbn. lia.
  - apply Forall_fmap, Forall_true. intros j. by vm_compute.
Defined.

Lemma grpc_worker_counts_witness :
  outcome (_qps_worker (G := grpc_ref _) (C := grpc_ticking) "127.0.0.1:7701" (f_of_Z 3) 9 [demo_request] 5)
    (Bench (demo_net demo_servicer) 0) = Ok 32.
Proof.
  refine (proj1 (grpc_worker_counts (G := grpc_ref _) (C := grpc_ticking) "127.0.0.1:7701" (f_of_Z 3) demo_servicer []
    (fun _ => demo_response) demo_next [demo_request] 5 2 9 (Bench (demo_net demo_servicer) 0) demo_serves _ _ _ _ _)).
  - reflexivity.
  - discriminate.
  - apply Forall_singleton, demo_request_ok.
  - split; [|by vm_compute]. intros [|[|j]] Hj; [by vm_compute|by vm_compute|lia].
  - lia.
Defined.
