(* ===== verification/RunProps.v ===== *)
(** * What the benchmark clients report, from their environment and their files

    The scripts [rostam_py_client.py] and [rostam_grpc_client.py] from end to end: settings read
    from the environment, queries and ground truth from the files, a latency run, and a pool of
    workers. *)

From S2P Require Import Prelude Bytes Text Float64 FloatOrder Env F32 Numpy Sift Net TcpClient Report Bench GrpcStubs GrpcRef.
From S2P Require TcpBench TcpProps GrpcClient GrpcProps.

(** ** The data *)

(** The ids the scripts compare with: of the ten nearest vectors of each query, counted from
    one. *)
Definition wanted (gt : list (list Z)) : nat -> list Z := run_truth (columns RECALL_K (int32_rows gt)).

Lemma LAT_N_some {A} (xs : list A) : (LAT_N <= length xs)%nat -> xs <> [].
Proof. intros Hl ->. pose proof LAT_N_eq. cbn in Hl. lia. Qed.

Lemma length_columns k gt : length (columns k (int32_rows gt)) = length gt.
Proof. unfold columns, int32_rows. by rewrite !length_fmap. Qed.

Lemma columns_small gt : Forall (fun r => (length r <= 10)%nat) (columns RECALL_K gt).
Proof. apply Forall_fmap, Forall_true. intros r. unfold compose. rewrite length_take.
  change (Z.to_nat RECALL_K) with 10%nat. lia. Qed.

(** The figures of a latency run on the data. *)
Lemma data_figures answer gt times :
  numbers times -> length times = LAT_N ->
  let found := total_hits answer (wanted gt) (seq 0 LAT_N) in
  0 <= found <= 20000 /\
  exists p q m, figures times found = Ok (f_of_ratio found 20000, p, q, m) /\ p ∈ times /\ q ∈ times /\ fleb p q = true.
Proof.
  intros Hnum Hlen found. split; [apply found_range, columns_small|by apply figures_report].
Qed.

(** ** The pool *)

(** The process [i] of the pool reaches its deadline at the [turns i]-th check of its clock. *)
Definition pool_stops {W} (conc : Z) (dur : float) (procs : nat -> proc W) (turns : nat -> nat) (fuel : nat) : Prop :=
  forall i, (i < Z.to_nat conc)%nat ->
    let C := proc_clock (procs i) in stops_after (turns i) 1 (fadd (ticks 0) dur) /\ (turns i < fuel)%nat.

(** The time the pool takes by the parent's clock, whose run has made [c] readings. *)
Definition pool_time {C : Clock} (c : nat) : float := fsub (ticks (S (c + 2 * LAT_N))) (ticks (c + 2 * LAT_N)).

(** What a script reports: the recall, two of the times in order, and the rate of the pool. *)
Definition reports (r : result (float * float * float * float * float)) (found : Z) (times : list float)
    (total : Z) (time : float) : Prop :=
  0 <= found <= 20000 /\
  exists p q m qps, r = Ok (f_of_ratio found 20000, p, q, m, qps) /\
    py_fdiv (f_of_Z total) time = Ok qps /\ p ∈ times /\ q ∈ times /\ fleb p q = true.

(** The end of [main]: the figures, then the rate. *)
Lemma wp_report {W} {C : Clock} found times total c (b : bench W) run pool :
  b_reads b = c -> 0 <= found <= 20000 ->
  wp run b (fun r b' => (exists p q m, r = Ok (f_of_ratio found 20000, p, q, m) /\ p ∈ times /\ q ∈ times /\ fleb p q = true) /\
    b_reads b' = (c + 2 * LAT_N)%nat) ->
  (forall b', wp pool b' (fun r _ => r = py_fdiv (f_of_Z total) (fsub (ticks (S (b_reads b'))) (ticks (b_reads b'))))) ->
  f_is_zero (pool_time c) = false ->
  wp ('(r, a, b, m) ← run; qps ← pool; _ ← print latency_header; _ ← print (latency_line 64 r a b m qps); mret (r, a, b, m, qps)) b
    (fun r _ => reports r found times total (pool_time c)).
Proof.
  intros <- Hf Hrun Hpool Hz. apply wp_bind. eapply wp_mono; [apply Hrun|]. intros r b' [(p & q & m & -> & Hpq) Hreads].
  cbn beta iota. apply wp_bind. eapply wp_mono; [apply Hpool|]. intros r b2 ->. rewrite Hreads. fold (pool_time (b_reads b)).
  destruct (rate_ok total _ Hz) as [qps Hqps]. rewrite Hqps. cbn beta iota. apply wp_bind, wp_print, wp_bind, wp_print, wp_ret.
  split; [done|]. by exists p, q, m, qps.
Qed.

(** ** [rostam_py_client.py] *)

Section Tcp.
Context {P : Peer} {NP : Numpy} {NL : NumpyLaws NP} {C : Clock}.
Variable hits_of : list Z -> list (Z * Z).

(** C12: the TCP benchmark, from its environment to its figures.  With settings that can be read,
    the files of at least 2000 queries and as many rows of ground truth in the directory they
    name, a server that answers, at least one worker, each stopped by its clock, and a clock
    that gives numbers and does not stand still during the pool, the script ends and reports:
    the number of true ids among the server's ten over 20000, rounded once; the median and the
    99th percentile of the 2000 times measured; and 16 queries for each turn of each worker
    over the time of the pool. *)
Theorem tcp_script_reports env st files queries gt turns fuel procs (b : bench sock) :
  TcpBench.load_settings env = Ok st -> is_ok (TcpBench.dial (ADDR st)) = true -> 1 <= CONC st ->
  sift_data files (SIFT st) queries gt -> (LAT_N <= length queries)%nat -> (LAT_N <= length gt)%nat ->
  Forall (fun q => search_args q K) queries -> TcpBench.answering hits_of ->
  pool_stops (CONC st) (DUR st) procs turns fuel -> f_is_zero (pool_time (b_reads b)) = false ->
  let times := interval (b_reads b) <$> seq 0 LAT_N in
  numbers times ->
  reports (outcome (TcpBench.script env fuel files procs) b)
    (total_hits (TcpBench.run_answer hits_of queries) (wanted gt) (seq 0 LAT_N)) times
    (16 * Z.of_nat (pool_turns (CONC st) turns)) (pool_time (b_reads b)).
Proof.
  intros Henv Haddr Hconc Hdata Hnq Hng Hq Hserver Hpool Hz times Hnum.
  set (found := total_hits _ _ _). set (total := 16 * _).
  change (wp (TcpBench.script env fuel files procs) b (fun r _ => reports r found times total (pool_time (b_reads b)))).
  destruct (load_data files (SIFT st) queries gt Hdata) as [Lq Lg].
  destruct (data_figures (TcpBench.run_answer hits_of queries) gt times Hnum) as [Hfound Hfig].
  { unfold times. by rewrite length_fmap, length_seq. }
  unfold TcpBench.script, TcpBench.main. rewrite Henv. apply wp_bind, wp_lift. rewrite Lq. apply wp_bind, wp_lift.
  rewrite Lg. apply wp_bind, wp_lift.
  apply wp_bind, wp_print, wp_report; [done|done| | |done].
  - eapply wp_mono; [apply (TcpBench.wp_tcp_latency hits_of Hserver); [done|done|done|by rewrite length_columns]|].
    intros r b' [-> Hreads]. split; [exact Hfig|done].
  - intros b'. unfold TcpBench.saturated_qps. rewrite (TcpBench.mapR_encode queries Hq). apply wp_bind, wp_lift.
    eapply wp_pool_qps; [|done]. apply pool_sum_counts; [done|]. intros i Hi. destruct (Hpool i Hi) as [Hs Hf].
    refine (proj1 (TcpBench.wp_tcp_worker hits_of Hserver _ _ queries i (turns i) fuel _ Haddr _ Hq Hs Hf)).
    by apply LAT_N_some.
Qed.
End Tcp.

(** ** [rostam_grpc_client.py] *)

Section Grpc.
Context {W S : Type} {G : Grpc W S} {GL : GrpcLaws W S G} {PB : Codec} {PL : CodecLaws PB}.
Context {NP : Numpy} {NL : NumpyLaws NP} {C : Clock}.
Variables (s : servicer S) (server : grpc_server W S) (hits_of : SearchRequest -> SearchResponse).
Variable next : SearchRequest -> S -> S.

(** C13: the gRPC benchmark, from its environment to its figures.  With generated stubs that can
    be imported, settings that can be read, the files they name, a servicer that answers behind
    the address for the parent and for each process of the pool, and the clocks of the TCP
    benchmark, the script ends and reports the same of the servicer's answers. *)
Theorem grpc_script_reports validate version lower env st files queries gt turns fuel procs (b : bench W) :
  import_vector_pb2 validate = Ok tt -> is_ok (import_vector_pb2_grpc version lower) = true ->
  GrpcClient.load_settings env = Ok st -> 1 <= CONC st ->
  sift_data files (SIFT st) queries gt -> (LAT_N <= length queries)%nat -> (LAT_N <= length gt)%nat ->
  Forall GrpcClient.query_ok queries -> GrpcClient.serves s hits_of next ->
  GrpcClient.up (ADDR st) s server (b_world b) -> (forall i, GrpcClient.up (ADDR st) s server (proc_world (procs i))) ->
  pool_stops (CONC st) (DUR st) procs turns fuel -> f_is_zero (pool_time (b_reads b)) = false ->
  let times := interval (b_reads b) <$> seq 0 LAT_N in
  numbers times ->
  reports (outcome (GrpcClient.script validate version lower env fuel files procs) b)
    (total_hits (GrpcClient.grpc_answer hits_of queries) (wanted gt) (seq 0 LAT_N)) times
    (16 * Z.of_nat (pool_turns (CONC st) turns)) (pool_time (b_reads b)).
Proof.
  intros Hpb Himp Henv Hconc Hdata Hnq Hng Hq Hserves Hup Hups Hpool Hz times Hnum.
  set (found := total_hits _ _ _). set (total := 16 * _).
  change (wp (GrpcClient.script validate version lower env fuel files procs) b (fun r _ => reports r found times total (pool_time (b_reads b)))).
  destruct (load_data files (SIFT st) queries gt Hdata) as [Lq Lg].
  destruct (data_figures (GrpcClient.grpc_answer hits_of queries) gt times Hnum) as [Hfound Hfig].
  { unfold times. by rewrite length_fmap, length_seq. }
  unfold GrpcClient.script, GrpcClient.main. rewrite Hpb. do 2 apply wp_bind, wp_lift. destruct (import_vector_pb2_grpc version lower); [|done].
  rewrite Henv. apply wp_bind, wp_lift.
  read_as Lq. apply wp_bind, wp_lift. read_as Lg. apply wp_bind, wp_lift.
  apply wp_bind, wp_print, wp_report; [done|done| | |done].
  - eapply wp_mono; [apply (GrpcClient.wp_grpc_latency (ADDR st) s server hits_of next Hserves); [done|done|done|by rewrite length_columns]|].
    intros r b' [-> Hreads]. split; [exact Hfig|done].
  - intros b'. unfold GrpcClient.saturated_qps. eapply wp_pool_qps; [|done].
    apply pool_sum_counts; [done|]. intros i Hi. destruct (Hpool i Hi) as [Hs Hf].
    refine (proj1 (GrpcClient.wp_grpc_worker (ADDR st) (DUR st) s server hits_of next Hserves _ i (turns i) fuel (Bench _ 0) (Hups i) _ _ Hs Hf)).
    + intros E%fmap_nil_inv. by apply (LAT_N_some queries Hnq).
    + apply Forall_fmap. eapply Forall_impl; [|exact Hq]. intros q. apply GrpcClient.request_of_ok.
Qed.
End Grpc.

(** ** Witnesses *)

(** Two workers for three seconds, on the data of the directory [/data]. *)
Definition demo_environment : environment := fun key =>
  if String.eqb key "ROSTAM_SIFT_DIR" then Some "/data" else
  if String.eqb key "ROSTAM_CONC" then Some " 2 " else None.
Definition demo_settings (addr : string) : settings :=
  {| SIFT := "/data"; ADDR := addr; CONC := 2; DUR := f_of_Z 3 |}.

Definition demo_queries : list (list Z) := replicate LAT_N [1065353216; 1073741824].
Definition demo_truth : list (list Z) := replicate LAT_N [6; 41].
Definition demo_files : file_system := fun path =>
  if String.eqb path "/data/sift_query.fvecs" then Ok (vecs_file 2 demo_queries)
  else if String.eqb path "/data/sift_groundtruth.ivecs" then Ok (vecs_file 2 demo_truth)
  else Raise (OtherError "FileNotFoundError").

Lemma demo_vecs r : length r = 2%nat -> Forall (is_u 4) r -> vecs 2 (replicate LAT_N r).
Proof.
  intros Hl Hr. split; [|by apply Forall_replicate..|done]. apply LAT_N_some. by rewrite length_replicate.
Qed.

Lemma demo_data : sift_data demo_files "/data" demo_queries demo_truth.
Proof.
  exists 2%nat, 2%nat. split_and!; [apply demo_vecs|apply demo_vecs|done|done]; try done;
    apply (bool_decide_unpack _); by vm_compute.
Qed.

(** The parent's clock moves once, after the latency run; a worker's counts its readings. *)
Definition step_clock : Clock := fun n => if (n <=? 4000)%nat then f_of_Z 1 else f_of_Z 2.
Definition demo_procs {W} (w : W) (i : nat) : proc W := Proc w (fun n => f_of_Z (Z.of_nat n)).

Lemma step_numbers : numbers (interval (C := step_clock) 0 <$> seq 0 LAT_N).
Proof.
  apply Forall_fmap, Forall_seq. intros j Hj. assert (2 * j < 3999)%nat as Hlt by (pose proof LAT_N_eq; lia).
  unfold compose, interval, ticks, step_clock. rewrite !(proj2 (Nat.leb_le _ _)) by lia. by vm_compute.
Qed.

Lemma demo_pool_stops {W} (w : W) conc : pool_stops conc (f_of_Z 3) (demo_procs w) (fun _ => 2%nat) 3.
Proof.
  intros i _. split; [|lia]. split; [|by vm_compute]. intros [|[|j]] Hj; [by vm_compute|by vm_compute|lia].
Qed.

Lemma tcp_script_reports_witness :
  reports (outcome (TcpBench.script (P := TcpProps.demo_peer) (C := step_clock) demo_environment 3 demo_files
      (demo_procs (connected []))) (Bench (connected []) 0))
    (total_hits (TcpBench.run_answer TcpProps.demo_hits demo_queries) (wanted demo_truth) (seq 0 LAT_N))
    (interval (C := step_clock) 0 <$> seq 0 LAT_N) 64 (pool_time (C := step_clock) 0).
Proof.
  refine (tcp_script_reports (P := TcpProps.demo_peer) (C := step_clock) TcpProps.demo_hits demo_environment
    (demo_settings "127.0.0.1:7700") demo_files demo_queries demo_truth (fun _ => 2%nat) 3 (demo_procs (connected []))
    (Bench (connected []) 0) _ _ _ demo_data _ _ _ TcpProps.demo_answering (demo_pool_stops _ _) _ step_numbers).
  - by vm_compute.
  - done.
  - done.
  - unfold demo_queries. by rewrite length_replicate.
  - unfold demo_truth. by rewrite length_replicate.
  - apply Forall_replicate, TcpProps.demo_args.
  - by vm_compute.
Defined.

Lemma grpc_script_reports_witness :
  let net := GrpcProps.demo_net GrpcProps.demo_servicer in
  let answer := GrpcClient.grpc_answer (fun _ => GrpcProps.demo_response) demo_queries in
  reports (outcome (GrpcClient.script (G := grpc_ref _) (C := step_clock) (fun _ _ _ _ _ _ => Ok tt) "1.81.0" (Some (fun _ _ => false)) demo_environment 3
      demo_files (demo_procs net)) (Bench net 0))
    (total_hits answer (wanted demo_truth) (seq 0 LAT_N))
    (interval (C := step_clock) 0 <$> seq 0 LAT_N) 64 (pool_time (C := step_clock) 0).
Proof.
  refine (grpc_script_reports (G := grpc_ref _) (C := step_clock) GrpcProps.demo_servicer [] (fun _ => GrpcProps.demo_response)
    GrpcProps.demo_next (fun _ _ _ _ _ _ => Ok tt) "1.81.0" (Some (fun _ _ => false)) demo_environment (demo_settings "127.0.0.1:7701") demo_files
    demo_queries demo_truth (fun _ => 2%nat) 3 (demo_procs _) (Bench _ 0) _ _ _ _ demo_data _ _ _
    GrpcProps.demo_serves _ _ (demo_pool_stops _ _) _ step_numbers).
  - done.
  - done.
  - by vm_compute.
  - done.
  - unfold demo_queries. by rewrite length_replicate.
  - unfold demo_truth. by rewrite length_replicate.
  - apply Forall_replicate. split; [by repeat constructor|done].
  - done.
  - done.
  - by vm_compute.
Defined.

(** Settings that are not numbers stop the script before anything is sent. *)
Example bad_setting :
  TcpBench.load_settings (fun key => if String.eqb key "ROSTAM_QPS_SECONDS" then Some "3s" else None) = Raise ValueError /\
  CONC <$> TcpBench.load_settings (fun _ => None) = Ok 32.
Proof. by vm_compute. Qed.
