(* ===== verification/Qdrant.v ===== *)
(** * The Qdrant scripts: [sift1m/qdrant_bench.py] and [sift1m/qdrant_latency_qps.py]

    The client library and the service are the class [Qdrant].  Both scripts build the same
    collection and wait for its index alike; the first then sweeps the search parameter, the
    second measures latencies and the throughput of many processes.  A wait has fuel: the
    number of polls allowed. *)

From S2P Require Import Prelude Bytes Text Float64 FloatOrder Env F32 Numpy Sift Report Bench.

(** [VectorParams], [HnswConfigDiff] and [ScalarQuantizationConfig], with the fields the
    scripts set ([Distance.EUCLID] and [ScalarType.INT8] are the only values used). *)
Record VectorParams := { vp_size : Z; vp_distance : string; vp_on_disk : option bool }.
Record HnswConfigDiff := { hc_m : Z; hc_ef_construct : Z }.
Record ScalarQuantization := { sq_type : string; sq_quantile : float; sq_always_ram : bool }.
Record collection_config := {
  vectors_config : VectorParams;
  hnsw_config : HnswConfigDiff;
  quantization_config : option ScalarQuantization
}.

(** What the scripts read of [get_collection]'s answer. *)
Record collection_info := { ci_status : string; ci_indexed_vectors_count : option Z }.

(** A point's id: an integer, or a UUID. *)
Inductive point_id := PointInt (z : Z) | PointUuid (s : string).

(** [vectors], [ids], [batch_size], [parallel] *)
Record upload := { up_vectors : list (list Z); up_ids : list Z; up_batch_size : Z; up_parallel : Z }.

(** [QdrantClient(host=..., port=..., grpc_port=..., prefer_grpc=..., timeout=...)] *)
Record client_args := { ca_host : string; ca_port : Z; ca_grpc_port : Z; ca_prefer_grpc : bool; ca_timeout : Z }.

Class Qdrant (W : Type) := {
  QdrantClient : client_args -> M W unit;
  collection_exists : string -> M W bool;
  delete_collection : string -> M W unit;
  create_collection : string -> collection_config -> M W unit;
  upload_collection : string -> upload -> M W unit;
  get_collection : string -> M W collection_info;
  (** [query_points(coll, query=..., limit=..., search_params=SearchParams(hnsw_ef=...)).points] *)
  query_points : string -> list Z -> Z -> Z -> M W (list point_id)
}.

Definition COLL : string := "sift".
Definition K : Z := 10.

(** The client of both scripts: gRPC to the local service. *)
Definition new_client {W} {Q : Qdrant W} : M W unit :=
  QdrantClient {| ca_host := "localhost"; ca_port := 6333; ca_grpc_port := 6334; ca_prefer_grpc := true; ca_timeout := 600 |}.

(** [s.endswith(t)] *)
Definition str_endswith (t s : string) : bool :=
  String.eqb t (String.substring (String.length s - String.length t) (String.length t) s).

(** The integers of a set of ids: the others are in no ground truth. *)
Definition int_ids (ids : list point_id) : list Z :=
  omap (fun i => match i with PointInt z => Some z | PointUuid _ => None end) ids.

(** [info.indexed_vectors_count or 0] *)
Definition indexed (info : collection_info) : Z := default 0 (ci_indexed_vectors_count info).

(** [int(n * 0.99)] *)
Definition enough (n : nat) : result Z := int_of_float (fmul (f_of_Z (Z.of_nat n)) (f_of_lit 0.99%lit)).

(** [str(info.status).endswith("green") and indexed >= int(n * 0.99)] *)
Definition ready (n : nat) (info : collection_info) : result bool :=
  if str_endswith "green" (ci_status info) then e ← enough n; Ok (e <=? indexed info) else Ok false.

(** The script's own copies of the readers of {!Sift}, which are called with a path. *)
Definition read_fvecs {NP : Numpy} (files : file_system) (path : string) : result (list (list Z)) :=
  bs ← files path;
  let x := np_fromfile_i32 bs None in
  d ← first_int x;
  rows ← np_reshape x (d + 1);
  Ok (drop_column rows).
Definition read_ivecs {NP : Numpy} (files : file_system) (path : string) : result (list (list Z)) :=
  bs ← files path;
  let x := np_fromfile_i32 bs None in
  d ← first_int x;
  rows ← np_reshape x (d + 1);
  Ok (int32_rows (drop_column rows)).

(** And those of [qdrant_bench.py]. *)
Definition bench_read_fvecs {NP : Numpy} (files : file_system) (path : string) : result (list (list Z)) :=
  bs ← files path;
  let x := np_fromfile_i32 bs None in
  d ← first_int x;
  rows ← np_reshape x (d + 1);
  Ok (drop_column rows).
Definition bench_read_ivecs {NP : Numpy} (files : file_system) (path : string) : result (list (list Z)) :=
  bs ← files path;
  let x := np_fromfile_i32 bs None in
  d ← first_int x;
  rows ← np_reshape x (d + 1);
  Ok (int32_rows (drop_column rows)).

Section Scripts.
Context {W : Type} {Q : Qdrant W} {NP : Numpy} {C : Clock}.

(** The polling loop of both scripts. *)
Fixpoint wait_ready (fuel : nat) (n : nat) : M W unit :=
  match fuel with
  | O => raise (OtherError "out of fuel")
  | S fuel =>
      info ← get_collection COLL;
      b ← lift_result (ready n info);
      if (b : bool) then mret tt else wait_ready fuel n
  end.

(** The collection of both scripts: L2, M=16, efConstruction=200. *)
Definition config_of (dim : Z) (on_disk : option bool) (quant : option ScalarQuantization) : collection_config :=
  {| vectors_config := {| vp_size := dim; vp_distance := "Euclid"; vp_on_disk := on_disk |};
     hnsw_config := {| hc_m := 16; hc_ef_construct := 200 |};
     quantization_config := quant |}.

Definition upload_of (base : list (list Z)) : upload :=
  {| up_vectors := base; up_ids := Z.of_nat <$> seq 0 (length base); up_batch_size := 2000; up_parallel := 2 |}.

(** [if client.collection_exists(COLL): client.delete_collection(COLL)] *)
Definition drop_existing : M W unit :=
  b ← collection_exists COLL;
  if (b : bool) then delete_collection COLL else mret tt.

(** [n, dim = base.shape] *)
Definition shape (base : list (list Z)) : Z * Z := (Z.of_nat (length base), Z.of_nat (length (default [] (head base)))).

Definition query_ids (queries : list (list Z)) (ef : Z) (i : Z) : M W (list Z) :=
  q ← lift_result (py_item queries i);
  res ← query_points COLL q K ef;
  mret (int_ids res).

(** ** [qdrant_latency_qps.py] *)

(** [build]: [VectorParams(size=dim, distance=EUCLID)] leaves [on_disk] unset. *)
Definition build (fuel : nat) (base : list (list Z)) (dim : Z) : M W unit :=
  _ ← drop_existing;
  _ ← create_collection COLL (config_of dim None None);
  _ ← upload_collection COLL (upload_of base);
  wait_ready fuel (length base).

Definition latency (queries gt : list (list Z)) (ef : Z) : M (bench W) (float * float * float * float) :=
  '(lats, hits) ← timed_queries (fun i => query_ids queries ef (Z.of_nat i)) (truth_at gt) (seq 0 LAT_N) [] 0;
  lift_result (figures lats hits).

(** One query of a worker: [query=q[i % len(q)]] *)
Definition worker_query (queries : list (list Z)) (ef : Z) (i : Z) : M W unit :=
  j ← lift_result (py_mod i (Z.of_nat (length queries)));
  _ ← query_ids queries ef j;
  mret tt.

Definition _qps_worker (DUR : float) (fuel : nat) (queries : list (list Z)) (ef : Z) (wid : nat) : M (bench W) Z :=
  _ ← on_world new_client;
  t ← clock;
  qps_loop fuel (worker_query queries ef) (fadd t DUR) (Z.of_nat wid) 0.

Definition LATENCY_EF_SWEEP : list Z := [16; 64; 128].

(** Whether an existing collection is reused. *)
Definition can_skip (n : nat) : M W bool :=
  b ← collection_exists COLL;
  if (b : bool) then
    info ← get_collection COLL;
    e ← lift_result (enough n);
    mret (e <=? indexed info)
  else mret false.

(** The collection is reused, or built and its build timed. *)
Definition reuse_or_build (polls : nat) (base : list (list Z)) (dim : Z) : M (bench W) unit :=
  skip ← on_world (can_skip (length base));
  let size := dec (Z.of_nat (length base)) +:+ "x" +:+ dec dim in
  if (skip : bool) then print (cat ["[qdrant] reusing existing collection ("; size; ")"])
  else
    _ ← print (cat ["[qdrant] building "; size; " (M=16, efC=200)..."]);
    t0 ← clock;
    _ ← on_world (build polls base dim);
    t1 ← clock;
    print (cat ["[qdrant] built in "; fmt_fixed 1 (fsub t1 t0); "s"]).
End Scripts.

Section Mains.
Context {W : Type} {Q : Qdrant W} {NP : Numpy} {C : Clock}.

(** [CONC] and [DUR] of [qdrant_latency_qps.py], read when the script starts. *)
Definition load_settings (env : environment) : result (Z * float) :=
  conc ← int_of_str (getenv env "QDRANT_CONC" "32");
  dur ← float_of_str (getenv env "QDRANT_QPS_SECONDS" "3");
  Ok (conc, dur).

Definition saturated_qps (CONC : Z) (DUR : float) (fuel : nat) (queries : list (list Z)) (ef : Z) (procs : nat -> proc W)
    : M (bench W) float :=
  pool_qps CONC procs (fun C => _qps_worker (C := C) DUR fuel queries ef).

Definition latency_banner (CONC : Z) (DUR : float) : string :=
  cat ["[qdrant] latency=single-client; satQPS="; dec CONC; " concurrent processes x "; fmt_fixed 0 DUR; "s"].

(** A row: a latency run, and a pool, whose processes are [procs ef]. *)
Definition latency_row (CONC : Z) (DUR : float) (fuel : nat) (queries gt : list (list Z)) (procs : Z -> nat -> proc W) (ef : Z)
    : M (bench W) (Z * (float * float * float * float) * float) :=
  '(r, a, b, m) ← latency queries gt ef;
  qps ← saturated_qps CONC DUR fuel queries ef (procs ef);
  _ ← print (latency_line ef r a b m qps);
  mret (ef, (r, a, b, m), qps).

(** [main], from the files. *)
Definition latency_main (CONC : Z) (DUR : float) (polls fuel : nat) (files : file_system) (procs : Z -> nat -> proc W)
    : M (bench W) (list (Z * (float * float * float * float) * float)) :=
  base ← lift_result (read_fvecs files (SIFT_DIR +:+ "/sift_base.fvecs"));
  queries ← lift_result (read_fvecs files (SIFT_DIR +:+ "/sift_query.fvecs"));
  gt ← lift_result (read_ivecs files (SIFT_DIR +:+ "/sift_groundtruth.ivecs"));
  let gt := columns K gt in
  let dim := snd (shape base) in
  _ ← on_world new_client;
  _ ← reuse_or_build polls base dim;
  _ ← print (latency_banner CONC DUR);
  _ ← print latency_header;
  map_each (latency_row CONC DUR fuel queries gt procs) LATENCY_EF_SWEEP.

Definition latency_script (env : environment) (polls fuel : nat) (files : file_system) (procs : Z -> nat -> proc W)
    : M (bench W) (list (Z * (float * float * float * float) * float)) :=
  '(conc, dur) ← lift_result (load_settings env);
  latency_main conc dur polls fuel files procs.

(** ** [qdrant_bench.py] *)

Definition EF_SWEEP : list Z := [16; 32; 64; 128; 256; 512].

(** [SQ8] *)
Definition load_SQ8 (env : environment) : bool := bool_decide (env "QDRANT_SQ8" = Some "1").

(** The quantization of [QDRANT_SQ8=1] *)
Definition quant_of (SQ8 : bool) : option ScalarQuantization :=
  if SQ8 then Some {| sq_type := "int8"; sq_quantile := f_of_lit 0.99%lit; sq_always_ram := true |} else None.

Definition config_text (SQ8 : bool) : string :=
  "[config] quantization=" +:+ if SQ8 then "SQ8 (int8, always_ram, originals on_disk)" else "none (float32)".
Definition build_text (n dim : Z) (build rate : float) : string :=
  cat ["Qdrant SIFT-1M: corpus="; dec n; " dim="; dec dim; "  build(upload+index)="; fmt_fixed 1 build; "s (";
       fmt_fixed 0 rate; " vec/s)  [M=16 efC=200]"].

(** [main], from the files: the corpus, the build time and its rate, and the
    rows. *)
Definition bench_main (SQ8 : bool) (polls : nat) (files : file_system)
    : M (bench W) (Z * Z * float * float * list (Z * float * float)) :=
  base ← lift_result (bench_read_fvecs files (SIFT_DIR +:+ "/sift_base.fvecs"));
  query ← lift_result (bench_read_fvecs files (SIFT_DIR +:+ "/sift_query.fvecs"));
  gt ← lift_result (bench_read_ivecs files (SIFT_DIR +:+ "/sift_groundtruth.ivecs"));
  let gt := columns K gt in
  let '(n, dim) := shape base in
  _ ← on_world new_client;
  _ ← on_world drop_existing;
  _ ← on_world (create_collection COLL (config_of dim (Some SQ8) (quant_of SQ8)));
  _ ← print (config_text SQ8);
  t0 ← clock;
  _ ← on_world (upload_collection COLL (upload_of base));
  _ ← on_world (wait_ready polls (length base));
  t1 ← clock;
  let build := fsub t1 t0 in
  _ ← print "[mem-marker] index ready — snapshot docker stats now";
  rate ← lift_result (py_fdiv (f_of_Z n) build);
  _ ← print (build_text n dim build rate);
  _ ← print (sweep_header 20 "QPS(svc round-trip)");
  rows ← map_each (sweep_row 20 (fun ef i => query_ids query ef (Z.of_nat i)) (truth_at gt) (length query)) EF_SWEEP;
  mret (n, dim, build, rate, rows).

Definition bench_script (env : environment) (polls : nat) (files : file_system)
    : M (bench W) (Z * Z * float * float * list (Z * float * float)) :=
  bench_main (load_SQ8 env) polls files.
End Mains.

(** ** A service that keeps a record of what it is asked *)

Inductive qdrant_call :=
| CalledExists (answer : bool)
| CalledDelete
| CalledCreate (config : collection_config)
| CalledUpload (u : upload)
| CalledInfo (answer : collection_info).

(** [calls] are the calls made about the collection, with the answers they got; a call that
    raises may be recorded or not.  [coming] are the answers the next polls get. *)
Class QdrantService (W : Type) {Q : Qdrant W} := {
  calls : W -> list qdrant_call;
  coming : W -> nat -> collection_info;
  exists_call w : wp (collection_exists COLL) w (fun r w' =>
    forall b, r = Ok b -> calls w' = calls w ++ [CalledExists b]);
  delete_call w : wp (delete_collection COLL) w (fun r w' => r = Ok tt -> calls w' = calls w ++ [CalledDelete]);
  create_call config w : wp (create_collection COLL config) w (fun r w' =>
    r = Ok tt -> calls w' = calls w ++ [CalledCreate config]);
  upload_call u w : wp (upload_collection COLL u) w (fun r w' => r = Ok tt -> calls w' = calls w ++ [CalledUpload u]);
  info_call w : wp (get_collection COLL) w (fun r w' =>
    r = Ok (coming w 0%nat) /\ calls w' = calls w ++ [CalledInfo (coming w 0%nat)] /\
    forall j, coming w' j = coming w (S j))
}.

Section Service.
Context {W : Type} {Q : Qdrant W} {QS : QdrantService W}.

(** The polls end at the first answer that is ready. *)
Definition ready_at (t n : nat) (w : W) : Prop :=
  (forall j, (j < t)%nat -> ready n (coming w j) = Ok false) /\ ready n (coming w t) = Ok true.

Definition polled (t : nat) (w : W) : list qdrant_call := (fun j => CalledInfo (coming w j)) <$> seq 0 t.

Lemma polled_S t w w' :
  (forall j, coming w' j = coming w (S j)) -> polled (S t) w = CalledInfo (coming w 0%nat) :: polled t w'.
Proof.
  intros Hc. unfold polled. cbn [seq fmap list_fmap]. f_equal. rewrite <- fmap_S_seq, <- list_fmap_compose.
  apply list_fmap_ext. intros j x _. unfold compose. by rewrite Hc.
Qed.

Lemma wp_wait_ready t fuel n w :
  ready_at t n w -> (t < fuel)%nat ->
  wp (wait_ready fuel n) w (fun r w' => r = Ok tt /\ calls w' = calls w ++ polled (S t) w).
Proof.
  revert fuel w. induction t as [|t IH]; intros [|fuel] w [Hno Hyes] Hf; try lia; cbn [wait_ready];
    apply wp_bind; (eapply wp_mono; [apply info_call|]); intros r w' (-> & Hcalls & Hcoming); cbn beta iota; wp_step; wp_step.
  - rewrite Hyes. by apply wp_ret.
  - rewrite (Hno 0%nat) by lia.
    eapply wp_mono; [apply IH; [split|lia]|].
    + intros j Hj. rewrite Hcoming. apply Hno. lia.
    + by rewrite Hcoming.
    + intros r w'' [-> Hc]. split; [done|]. by rewrite Hc, Hcalls, <- app_assoc, (polled_S _ _ _ Hcoming).
Qed.

(** A wait that returns ends with an answer that is ready, and none before. *)
Lemma wp_wait_returns fuel n w :
  wp (wait_ready fuel n) w (fun r w' => r = Ok tt ->
    exists t, ready_at t n w /\ (t < fuel)%nat /\ calls w' = calls w ++ polled (S t) w).
Proof.
  revert w. induction fuel as [|fuel IH]; intros w; cbn [wait_ready]; [by apply wp_raise|].
  apply wp_bind. eapply wp_mono; [apply info_call|]. intros r w' (-> & Hcalls & Hcoming). cbn beta iota.
  wp_step. wp_step. destruct (ready n (coming w 0%nat)) as [[]|e] eqn:Hr; [| |done].
  - apply wp_ret. intros _. exists 0%nat. split_and!; [split; [lia|done]|lia|done].
  - eapply wp_mono; [apply IH|]. intros r w'' Hw Hok. destruct (Hw Hok) as (t & [Hno Hyes] & Hf & Hc).
    exists (S t). split_and!; [split|lia|].
    + intros [|j] Hj; [done|]. rewrite <- Hcoming. apply Hno. lia.
    + by rewrite <- Hcoming.
    + by rewrite Hc, Hcalls, <- app_assoc, (polled_S _ _ _ Hcoming).
Qed.

(** What is asked of the service before the polls. *)
Definition prepared (existed : bool) (config : collection_config) (u : upload) : list qdrant_call :=
  CalledExists existed :: (if existed then [CalledDelete] else []) ++ [CalledCreate config; CalledUpload u].

Lemma wp_drop_existing w :
  wp drop_existing w (fun r w' => r = Ok tt ->
    exists existed, calls w' = calls w ++ CalledExists existed :: if existed then [CalledDelete] else []).
Proof.
  unfold drop_existing. apply wp_bind. eapply wp_mono; [apply exists_call|]. intros [b|e] w' Hb; [|done].
  specialize (Hb b eq_refl). destruct b.
  - eapply wp_mono; [apply delete_call|]. intros r w'' Hd Hok. exists true. by rewrite (Hd Hok), Hb, <- app_assoc.
  - apply wp_ret. intros _. by exists false.
Qed.

(** [build] returns only with the collection rebuilt and ready. *)
Lemma build_returns fuel base dim w :
  wp (build fuel base dim) w (fun r w' => r = Ok tt ->
    exists existed infos last,
      calls w' = calls w ++ prepared existed (config_of dim None None) (upload_of base) ++ (CalledInfo <$> infos ++ [last]) /\
      Forall (fun i => ready (length base) i = Ok false) infos /\ ready (length base) last = Ok true).
Proof.
  unfold build. apply wp_bind. eapply wp_mono; [apply wp_drop_existing|]. intros [[]|e] w1 Hd; [|done].
  destruct (Hd eq_refl) as [existed Hc1]. apply wp_bind. eapply wp_mono; [apply create_call|].
  intros [[]|e] w2 Hcr; [|done]. specialize (Hcr eq_refl). apply wp_bind. eapply wp_mono; [apply upload_call|].
  intros [[]|e] w3 Hu; [|done]. specialize (Hu eq_refl). eapply wp_mono; [apply wp_wait_returns|].
  intros r w4 Hw Hok. destruct (Hw Hok) as (t & [Hno Hyes] & _ & Hc4).
  exists existed, (coming w3 <$> seq 0 t), (coming w3 t). split_and!; [| |done].
  - rewrite Hc4, Hu, Hcr, Hc1. unfold prepared, polled. rewrite seq_S, !fmap_app, <- list_fmap_compose.
    rewrite !app_comm_cons, <- !app_assoc. by destruct existed.
  - apply Forall_fmap, Forall_seq. intros j Hj. apply Hno. lia.
Qed.
(** What the script sees before it decides to build: no collection, or one with too few vectors
    indexed. *)
Definition not_reusable (n : nat) (seen : list qdrant_call) : Prop :=
  seen = [CalledExists false] \/
  exists info e, seen = [CalledExists true; CalledInfo info] /\ enough n = Ok e /\ indexed info < e.

Lemma wp_can_skip n w :
  wp (can_skip n) w (fun r w' => forall b, r = Ok b ->
    if b then exists info e, calls w' = calls w ++ [CalledExists true; CalledInfo info] /\ enough n = Ok e /\ e <= indexed info
    else exists seen, calls w' = calls w ++ seen /\ not_reusable n seen).
Proof.
  unfold can_skip. apply wp_bind. eapply wp_mono; [apply exists_call|]. intros [ex|e] w1 Hex; [|done].
  specialize (Hex ex eq_refl). destruct ex.
  - apply wp_bind. eapply wp_mono; [apply info_call|]. intros r w2 (-> & Hi & _). apply wp_bind, wp_lift.
    destruct (enough n) as [m|e] eqn:He; [|done]. apply wp_ret. intros b [= <-].
    rewrite Hex, <- app_assoc in Hi. destruct (Z.leb_spec m (indexed (coming w1 0%nat))) as [Hle|Hlt]; cbn beta iota.
    + by exists (coming w1 0%nat), m.
    + exists [CalledExists true; CalledInfo (coming w1 0%nat)]. split; [exact Hi|]. right. by exists (coming w1 0%nat), m.
  - apply wp_ret. intros b [= <-]. exists [CalledExists false]. split; [exact Hex|by left].
Qed.

Lemma wp_reuse_or_build {C : Clock} polls base dim (b : bench W) :
  wp (reuse_or_build polls base dim) b (fun r b' => r = Ok tt ->
    (exists info e, calls (b_world b') = calls (b_world b) ++ [CalledExists true; CalledInfo info] /\
       enough (length base) = Ok e /\ e <= indexed info) \/
    (exists seen existed infos last,
       calls (b_world b') = calls (b_world b) ++ seen ++ prepared existed (config_of dim None None) (upload_of base) ++
         (CalledInfo <$> infos ++ [last]) /\
       not_reusable (length base) seen /\ ready (length base) last = Ok true)).
Proof.
  unfold reuse_or_build. apply wp_bind, wp_on_world. eapply wp_mono; [apply wp_can_skip|].
  intros [sk|e] w1 Hs; [|done]. specialize (Hs sk eq_refl). cbn zeta. destruct sk; cbn beta iota in Hs.
  - apply wp_print. intros _. by left.
  - destruct Hs as (seen & Hc & Hnot). apply wp_bind, wp_print, wp_bind, wp_clock, wp_bind, wp_on_world. cbn [b_world b_reads].
    eapply wp_mono; [apply build_returns|]. intros [[]|e] w2 Hb; [|done].
    destruct (Hb eq_refl) as (existed & infos & last & Hc2 & _ & Hlast). apply wp_bind, wp_clock. apply wp_print.
    intros _. right. exists seen, existed, infos, last. cbn [b_world]. by rewrite Hc2, Hc, <- app_assoc.
Qed.
End Service.

(** ** Latency over a service that answers *)

Section Latency.
Context {W : Type} {Q : Qdrant W} {NP : Numpy} {C : Clock}.
Variables (ef : Z) (found_ids : list Z -> list Z) (J : W -> Prop).

(** The service answers a query with the ids [found_ids] gives for it. *)
Definition finds : Prop := forall q w, J w ->
  wp (query_points COLL q K ef) w (fun r w' => (exists points, r = Ok points /\ int_ids points = found_ids q) /\ J w').

Lemma wp_qdrant_latency queries gt (b : bench W) :
  finds -> J (b_world b) -> (LAT_N <= length queries)%nat -> (LAT_N <= length gt)%nat ->
  wp (latency queries gt ef) b (fun r b' =>
    r = figures (interval (b_reads b) <$> seq 0 LAT_N)
          (total_hits (fun i => found_ids (queries !!! i)) (fun i => gt !!! i) (seq 0 LAT_N)) /\
    J (b_world b') /\ b_reads b' = (b_reads b + 2 * LAT_N)%nat).
Proof.
  intros Hf HJ Hq Hg. set (times := interval _ <$> _). set (found := total_hits _ _ _).
  unfold latency. apply wp_bind.
  eapply wp_mono; [apply (wp_timed_queries J _ _ (fun i => found_ids (queries !!! i)) (fun i => gt !!! i))|].
  - intros i w [_ Hi]%elem_of_seq Hw. destruct (lookup_lt_is_Some_2 queries i) as [q Hiq]; [lia|].
    unfold query_ids. rewrite (py_item_lookup _ _ _ Hiq), (list_lookup_total_correct _ _ _ Hiq). wp_step. wp_step. wp_step.
    eapply wp_mono; [by apply Hf|]. intros r w' [(points & -> & <-) HJ']. by apply wp_ret.
  - intros i [_ Hi]%elem_of_seq. destruct (lookup_lt_is_Some_2 gt i) as [g Hig]; [lia|].
    unfold truth_at. by rewrite (py_item_lookup _ _ _ Hig), (list_lookup_total_correct _ _ _ Hig).
  - done.
  - intros r b' (-> & HJ' & Hreads). rewrite length_seq in *. rewrite app_nil_l, Z.add_0_l. apply wp_lift. done.
Qed.

Lemma qdrant_latency_value queries gt (b : bench W) :
  finds -> J (b_world b) -> (LAT_N <= length queries)%nat -> (LAT_N <= length gt)%nat ->
  outcome (latency queries gt ef) b =
  figures (interval (b_reads b) <$> seq 0 LAT_N)
    (total_hits (fun i => found_ids (queries !!! i)) (fun i => gt !!! i) (seq 0 LAT_N)).
Proof. intros Hf HJ Hq Hg. exact (proj1 (wp_qdrant_latency queries gt b Hf HJ Hq Hg)). Qed.

(** One query of a worker, whatever its number. *)
Lemma wp_worker_query queries i (w : W) :
  finds -> J w -> queries <> [] -> 0 <= i -> wp (worker_query queries ef i) w (fun r w' => r = Ok tt /\ J w').
Proof.
  intros Hf HJ Hne Hi. destruct (py_item_mod queries i Hne Hi) as (j & Hj & Hitem & _).
  unfold worker_query, query_ids. rewrite Hj. apply wp_bind, wp_lift, wp_bind. rewrite Hitem. apply wp_bind, wp_lift, wp_bind.
  eapply wp_mono; [by apply Hf|]. intros r w' [(points & -> & _) HJ']. by apply wp_ret, wp_ret.
Qed.

(** A worker counts its queries until its clock reaches the deadline. *)
Lemma wp_qdrant_worker DUR queries wid t fuel (b : bench W) :
  finds -> wp new_client (b_world b) (fun r w' => r = Ok tt /\ J w') -> queries <> [] ->
  stops_after t (S (b_reads b)) (fadd (ticks (b_reads b)) DUR) -> (t < fuel)%nat ->
  wp (_qps_worker DUR fuel queries ef wid) b (fun r b' => r = Ok (16 * Z.of_nat t) /\ J (b_world b')).
Proof.
  intros Hf Hnew Hne Hstop Hfuel. unfold _qps_worker. apply wp_bind, wp_on_world.
  eapply wp_mono; [exact Hnew|]. intros r w1 [-> HJ]. cbn beta iota. apply wp_bind, wp_clock. cbn [b_world b_reads].
  eapply wp_mono; [apply (wp_qps_loop (fun i w => 0 <= i /\ J w) t); [|done|done|]|].
  - intros k w Hk [Hk0 HJk]. eapply wp_mono; [by apply wp_worker_query|]. intros r w' [-> HJ']. split_and!; [done|lia|done].
  - split; [lia|done].
  - intros r b' [-> [_ HJ']]. done.
Qed.
End Latency.

(** ** A service in working order *)

(** It takes the requests; its collection holds what was uploaded since it was created, is
    ready after a number of polls that depends on it, and answers queries with points. *)
Class QdrantEngine (W : Type) {Q : Qdrant W} {QS : QdrantService W} := {
  points : W -> list (Z * list Z);
  indexing : list (Z * list Z) -> nat;
  ranked : list (Z * list Z) -> Z -> list Z -> Z -> list point_id;   (* points, ef, query, limit *)
  client_ok w : wp new_client w (fun r w' => r = Ok tt /\ calls w' = calls w /\ points w' = points w);
  exists_ok w : wp (collection_exists COLL) w (fun r w' => is_ok r = true /\ points w' = points w);
  delete_ok w : wp (delete_collection COLL) w (fun r w' => r = Ok tt);
  create_ok config w : wp (create_collection COLL config) w (fun r w' => r = Ok tt /\ points w' = []);
  upload_ok u w : wp (upload_collection COLL u) w (fun r w' =>
    r = Ok tt /\ points w' = points w ++ zip (up_ids u) (up_vectors u));
  ready_within w : is_ok (enough (length (points w))) = true ->
    exists t, (t <= indexing (points w))%nat /\ ready_at t (length (points w)) w;
  info_points w : wp (get_collection COLL) w (fun r w' => points w' = points w);
  query_ok q k ef w : wp (query_points COLL q k ef) w (fun r w' =>
    r = Ok (ranked (points w) ef q k) /\ points w' = points w /\ calls w' = calls w)
}.

Section Engine.
Context {W : Type} {Q : Qdrant W} {QS : QdrantService W} {QE : QdrantEngine W}.

Lemma wp_drop_ok w :
  wp drop_existing w (fun r w' => r = Ok tt /\
    exists existed, calls w' = calls w ++ CalledExists existed :: if existed then [CalledDelete] else []).
Proof.
  unfold drop_existing. apply wp_bind. eapply wp_mono; [apply wp_and; [apply exists_ok|apply exists_call]|].
  intros [b|e] w' [[Hok _] Hc]; [|done]. specialize (Hc b eq_refl). destruct b.
  - eapply wp_mono; [apply wp_and; [apply delete_ok|apply delete_call]|]. intros r w'' [-> Hd].
    split; [done|]. exists true. by rewrite (Hd eq_refl), Hc, <- app_assoc.
  - apply wp_ret. split; [done|]. by exists false.
Qed.

Lemma wp_wait_points fuel n w : wp (wait_ready fuel n) w (fun r w' => points w' = points w).
Proof.
  revert w. induction fuel as [|fuel IH]; intros w; cbn [wait_ready]; [by apply wp_raise|].
  apply wp_bind. eapply wp_mono; [apply info_points|]. intros [info|e] w' Hp; [|done].
  apply wp_bind, wp_lift. destruct (ready n info) as [[]|e]; [by apply wp_ret| |done].
  eapply wp_mono; [apply IH|]. intros r w'' Hp'. congruence.
Qed.

(** The wait ends, and the last poll it made found the collection ready. *)
Lemma wp_wait_ok fuel n w :
  is_ok (enough n) = true -> (indexing (points w) < fuel)%nat -> length (points w) = n ->
  wp (wait_ready fuel n) w (fun r w' => r = Ok tt /\ points w' = points w /\
    exists infos last, calls w' = calls w ++ (CalledInfo <$> infos ++ [last]) /\ ready n last = Ok true).
Proof.
  intros Hn Hf <-. destruct (ready_within w Hn) as (t & Ht & Hr).
  eapply wp_mono; [apply wp_and; [apply (wp_wait_ready t); [exact Hr|lia]|apply wp_wait_points]|].
  intros r w' [[-> Hc] Hp]. split_and!; [done|done|]. exists (coming w <$> seq 0 t), (coming w t). split; [|apply Hr].
  rewrite Hc. unfold polled. by rewrite seq_S, !fmap_app, <- list_fmap_compose.
Qed.

(** The ids of the hits of the query [i] at a setting. *)
Definition hits_at (base queries : list (list Z)) (ef : Z) (i : nat) : list Z :=
  int_ids (ranked (numbered base) ef (queries !!! i) K).

Lemma wp_query base queries ef i w :
  points w = numbered base -> (i < length queries)%nat ->
  wp (query_ids queries ef (Z.of_nat i)) w (fun r w' =>
    r = Ok (hits_at base queries ef i) /\ points w' = numbered base /\ calls w' = calls w).
Proof.
  intros Hp Hi. destruct (lookup_lt_is_Some_2 queries i Hi) as [q Hq]. unfold query_ids, hits_at.
  rewrite (py_item_lookup _ _ _ Hq), (list_lookup_total_correct _ _ _ Hq). apply wp_bind, wp_lift, wp_bind.
  eapply wp_mono; [apply query_ok|]. intros r w' (-> & Hp' & Hc'). rewrite Hp in *. by apply wp_ret.
Qed.

(** What the collection holds decides what it finds. *)
Lemma engine_finds pts ef : finds ef (fun q => int_ids (ranked pts ef q K)) (fun w => points w = pts).
Proof. intros q w Hp. eapply wp_mono; [apply query_ok|]. intros r w' (-> & Hp' & _). rewrite Hp in *. by eauto. Qed.

(** An answer [info] of the service with enough of [n] vectors indexed. *)
Definition enough_indexed (n : nat) (info : collection_info) : Prop := exists e, enough n = Ok e /\ e <= indexed info.

(** Before it measures, the latency script has the collection it found, which had enough vectors
    indexed, or one with the vectors of the file, built and ready. *)
Inductive measured_collection (base : list (list Z)) (dim : Z) (w w' : W) : nat -> Prop :=
| reused info :
    calls w' = calls w ++ [CalledExists true; CalledInfo info] -> enough_indexed (length base) info ->
    points w' = points w -> measured_collection base dim w w' 0
| rebuilt seen existed infos last :
    calls w' = calls w ++ seen ++ prepared existed (config_of dim None None) (upload_of base) ++ (CalledInfo <$> infos ++ [last]) ->
    not_reusable (length base) seen -> ready (length base) last = Ok true ->
    points w' = numbered base -> measured_collection base dim w w' 2.

Lemma measured_from base dim v w w' k :
  calls v = calls w -> points v = points w -> measured_collection base dim v w' k -> measured_collection base dim w w' k.
Proof.
  intros Hc Hp Hm. destruct Hm as [info|seen existed infos last]; rewrite ?Hc, ?Hp in *.
  - by eapply reused.
  - by eapply rebuilt.
Qed.

Lemma wp_can_skip_ok n w :
  is_ok (enough n) = true ->
  wp (can_skip n) w (fun r w' => is_ok r = true /\ points w' = points w).
Proof.
  intros Hn. unfold can_skip. apply wp_bind. eapply wp_mono; [apply exists_ok|]. intros [[]|e] w1 [Hok Hp]; [| |done].
  - apply wp_bind. eapply wp_mono; [apply wp_and; [apply info_call|apply info_points]|]. intros r w2 [[-> _] Hp2].
    apply wp_bind, wp_lift. destruct (enough n); [|done]. apply wp_ret. split; [done|congruence].
  - by apply wp_ret.
Qed.

Lemma wp_build_ok fuel base dim w :
  is_ok (enough (length base)) = true -> (indexing (numbered base) < fuel)%nat ->
  wp (build fuel base dim) w (fun r w' => r = Ok tt /\ points w' = numbered base).
Proof.
  intros Hn Hf. unfold build. apply wp_bind. eapply wp_mono; [apply wp_drop_ok|]. intros r w1 [-> _]. cbn beta iota.
  apply wp_bind. eapply wp_mono; [apply create_ok|]. intros r w2 [-> P2]. cbn beta iota.
  apply wp_bind. eapply wp_mono; [apply upload_ok|]. intros r w3 [-> P3]. rewrite P2 in P3.
  change (points w3 = numbered base) in P3. cbn beta iota.
  eapply wp_mono; [apply (wp_wait_ok fuel (length base)); [done|by rewrite P3|rewrite P3; apply length_numbered]|].
  intros r w4 (-> & P4 & _). by rewrite P4, P3.
Qed.

Lemma wp_measured {C : Clock} polls base dim (b : bench W) :
  is_ok (enough (length base)) = true -> (indexing (numbered base) < polls)%nat ->
  wp (reuse_or_build polls base dim) b (fun r b' => r = Ok tt /\
    exists k, measured_collection base dim (b_world b) (b_world b') k /\ b_reads b' = (b_reads b + k)%nat).
Proof.
  intros Hn Hf. unfold reuse_or_build. apply wp_bind, wp_on_world.
  eapply wp_mono; [apply wp_and; [apply wp_can_skip|by apply wp_can_skip_ok]|]. intros [sk|e] w1 [Hs [Hok Hp]]; [|done].
  specialize (Hs sk eq_refl). cbn zeta. destruct sk; cbn beta iota in Hs.
  - destruct Hs as (info & e & Hc & He & Hle). apply wp_print. split; [done|]. exists 0%nat.
    split; [|cbn; lia]. apply (reused _ _ _ _ info); [exact Hc|by exists e|exact Hp].
  - destruct Hs as (seen & Hc & Hnot). apply wp_bind, wp_print, wp_bind, wp_clock, wp_bind, wp_on_world. cbn [b_world b_reads].
    eapply wp_mono; [apply wp_and; [apply build_returns|by apply wp_build_ok]|]. intros r w2 (Hb & -> & Hp2).
    destruct (Hb eq_refl) as (existed & infos & last & Hc2 & _ & Hlast). apply wp_bind, wp_clock. apply wp_print.
    split; [done|]. exists 2%nat. cbn [b_world b_reads]. split; [|lia].
    apply (rebuilt _ _ _ _ seen existed infos last); [by rewrite Hc2, Hc, <- app_assoc|done..].
Qed.
End Engine.
