(* ===== verification/Redis.v ===== *)
(** * The RediSearch script: [sift1m/redis_bench.py]

    The client library and the server are the class [Redis]: a command and its reply, and a
    pipeline, which queues commands until it is executed.  The wait for the index has fuel, the
    number of polls allowed. *)

From S2P Require Import Prelude Bytes Text Float64 FloatOrder Env F32 Numpy Sift Report Bench.

(** An argument of a command. *)
Inductive redis_arg := ArgStr (s : string) | ArgBytes (bs : list byte).

(** A reply, as the library hands it over with [decode_responses=False]. *)
#[warnings="-register-all"]
Inductive reply :=
| RNone
| RInt (z : Z)
| RFloat (f : float)
| RBytes (s : string)       (* a byte string *)
| RStr (s : string)
| RList (l : list reply).

Class Redis (W : Type) := {
  (** [redis.Redis(host=..., port=..., decode_responses=..., protocol=...)] *)
  redis_connect : string -> Z -> bool -> Z -> M W unit;
  redis_ping : M W unit;
  execute_command : list redis_arg -> M W reply;
  (** [pipe.hset(key, mapping=...)] on the script's one pipeline, and [pipe.execute()] *)
  pipe_hset : string -> list (string * list byte) -> M W unit;
  pipe_execute : M W unit;
  (** which exceptions are [redis.ResponseError] *)
  is_ResponseError : exn -> bool
}.

Definition IDX : string := "sift_idx".
Definition PREFIX : string := "v:".
Definition K : Z := 10.
Definition EF_SWEEP : list Z := [16; 32; 64; 128; 256; 512].
Definition PORT : Z := 6380.

(** The name of the vector [i]: [f"{PREFIX}{i}"] *)
Definition key_of (i : Z) : string := PREFIX +:+ dec i.

(** The arguments of [FT.CREATE]. *)
Definition create_args (dim : Z) : list redis_arg :=
  ArgStr <$> ["FT.CREATE"; IDX; "ON"; "HASH"; "PREFIX"; "1"; PREFIX;
              "SCHEMA"; "vec"; "VECTOR"; "HNSW"; "10";
              "TYPE"; "FLOAT32"; "DIM"; dec dim;
              "DISTANCE_METRIC"; "L2"; "M"; "16"; "EF_CONSTRUCTION"; "200"].

(** [f"*=>[KNN {K} @vec $BLOB EF_RUNTIME {ef} AS score]"] *)
Definition knn (ef : Z) : string := "*=>[KNN " +:+ dec K +:+ " @vec $BLOB EF_RUNTIME " +:+ dec ef +:+ " AS score]".

Definition search_args (ef : Z) (blob : list byte) : list redis_arg :=
  (ArgStr <$> ["FT.SEARCH"; IDX; knn ef; "PARAMS"; "2"; "BLOB"]) ++ [ArgBytes blob] ++
  (ArgStr <$> ["SORTBY"; "score"; "DIALECT"; "2"; "LIMIT"; "0"; dec K; "RETURN"; "1"; "score"]).

(** [row.tobytes()] of a float32 row: little-endian words *)
Definition tobytes (row : list Z) : list byte := i32_file row.

(** ** Replies *)

(** [bool(v)] *)
Definition reply_truthy (v : reply) : bool :=
  match v with
  | RNone => false
  | RInt z => negb (z =? 0)
  | RFloat f => negb (f_is_zero f)
  | RBytes s | RStr s => negb (String.eqb s "")
  | RList l => match l with [] => false | _ => true end
  end.

(** [v or w] *)
Definition reply_or (v w : reply) : reply := if reply_truthy v then v else w.

(** The keys the script looks up: a byte string, or a [str], which is never equal to one. *)
Definition key_is (bytes : bool) (k : string) (v : reply) : bool :=
  match v with
  | RBytes s => bytes && String.eqb s k
  | RStr s => negb bytes && String.eqb s k
  | _ => false
  end.

(** [{info[i]: info[i + 1] for i in range(0, len(info), 2)}], in order: a later entry wins, and a
    list cannot be a key. *)
Fixpoint info_entries (info : list reply) : result (list (reply * reply)) :=
  match info with
  | [] => Ok []
  | [_] => Raise IndexError
  | k :: v :: rest =>
      match k with
      | RList _ => Raise TypeError
      | _ => d ← info_entries rest; Ok ((k, v) :: d)
      end
  end.
Definition info_get (bytes : bool) (k : string) (dflt : reply) (d : list (reply * reply)) : reply :=
  foldl (fun found e => if key_is bytes k e.1 then e.2 else found) dflt d.

(** [d.get(b"k", d.get("k", dflt)) or dflt'] *)
Definition info_value (k : string) (dflt dflt' : reply) (d : list (reply * reply)) : reply :=
  reply_or (info_get true k (info_get false k dflt d) d) dflt'.

(** [float(v)] and [int(v)] of a reply *)
Definition reply_float (v : reply) : result float :=
  match v with
  | RInt z => match f_of_Z z with S754_infinity _ => Raise OverflowError | x => Ok x end
  | RFloat f => Ok f
  | RBytes s | RStr s => float_of_str s
  | RNone | RList _ => Raise TypeError
  end.
Definition reply_int (v : reply) : result Z :=
  match v with
  | RInt z => Ok z
  | RFloat f => int_of_float f
  | RBytes s | RStr s => int_of_str s
  | RNone | RList _ => Raise TypeError
  end.

(** ** The index *)

(** [pct >= 1.0 and indexing == 0], of the entries of an [FT.INFO] *)
Definition entries_ready (d : list (reply * reply)) : result bool :=
  pct ← reply_float (info_value "percent_indexed" (RInt 1) (RInt 1) d);
  indexing ← reply_int (info_value "indexing" (RInt 0) (RInt 0) d);
  Ok (fleb (f_of_Z 1) pct && (indexing =? 0)).

(** The dictionary made of a string has no key the script looks up. *)
Definition index_ready (info : reply) : result bool :=
  match info with
  | RList l => d ← info_entries l; entries_ready d
  | RBytes s | RStr s => if Nat.even (String.length s) then entries_ready [] else Raise IndexError
  | _ => Raise TypeError
  end.

(** ** The hits of a search *)

(** [int(key.split(":")[1])] *)
Definition key_id (key : string) : result Z :=
  match str_split ":" key with
  | _ :: part :: _ => int_of_str part
  | _ => Raise IndexError
  end.

(** [for j in range(1, len(res), 2)]: the reply is the count, then a key and its fields for each
    hit.  [take_key] tells whether the next element is a key. *)
Fixpoint hit_ids (take_key : bool) (res : list reply) : result (list Z) :=
  match res with
  | [] => Ok []
  | k :: rest =>
      if take_key then
        i ← (match k with RBytes s | RStr s => key_id s | _ => Raise AttributeError end);
        ids ← hit_ids false rest;
        Ok (i :: ids)
      else hit_ids true rest
  end.

(** Of a byte string the elements are integers, of a [str] characters. *)
Definition search_ids (res : reply) : result (list Z) :=
  match res with
  | RList l => hit_ids false l
  | RBytes (String _ (String _ _)) => Raise AttributeError
  | RStr (String _ (String c _)) => key_id (String c "") ≫= fun i => Ok [i]
  | RBytes _ | RStr _ => Ok []
  | _ => Raise TypeError
  end.

(** The script's own copies of the readers of {!Sift}, which are called with a path. *)
Definition read_fvecs {NP : Numpy} (files : file_system) (path : string) : result (list (list Z)) :=
  bs ← files path;
  let x := np_fromfile_i32 bs None in
  d ← first_int x;
  rows ← np_reshape x (d + 1);
  Ok (drop_column rows).
Definition read_ivecs {NP : Numpy} (files : file_system) (path : string) : result (list (list Z)) :=
  bs ← files path;
  let x := np_fromfile_i32 bs None in
  d ← first_int x;
  rows ← np_reshape x (d + 1);
  Ok (int32_rows (drop_column rows)).

Section Script.
Context {W : Type} {R : Redis W} {NP : Numpy} {C : Clock}.

(** [try: DROPINDEX except redis.ResponseError: pass] *)
Definition drop_index : M W unit :=
  try_catch is_ResponseError
    (_ ← execute_command (ArgStr <$> ["FT.DROPINDEX"; IDX; "DD"]); mret tt)
    (fun _ => mret tt).

(** One turn of the loading loop. *)
Definition load_vector (base : list (list Z)) (i : nat) : M W unit :=
  row ← lift_result (py_item base (Z.of_nat i));
  _ ← pipe_hset (key_of (Z.of_nat i)) [("vec", tobytes row)];
  if (i mod 2000 =? 1999)%nat then pipe_execute else mret tt.

Definition load (base : list (list Z)) : M W unit :=
  _ ← for_each (seq 0 (length base)) (load_vector base);
  pipe_execute.

(** The wait for the index. *)
Fixpoint wait_indexed (fuel : nat) : M W unit :=
  match fuel with
  | O => raise (OtherError "out of fuel")
  | S fuel =>
      info ← execute_command (ArgStr <$> ["FT.INFO"; IDX]);
      b ← lift_result (index_ready info);
      if (b : bool) then mret tt else wait_indexed fuel
  end.

(** One query of the sweep: the ids of its hits. *)
Definition search (query : list (list Z)) (ef : Z) (i : nat) : M W (list Z) :=
  q ← lift_result (py_item query (Z.of_nat i));
  res ← execute_command (search_args ef (tobytes q));
  lift_result (search_ids res).

Definition load_text (n : Z) (loaded rate : float) : string :=
  cat ["[load] "; dec n; " vectors HSET in "; fmt_fixed 1 loaded; "s ("; fmt_fixed 0 rate; " vec/s); indexing..."].
Definition build_text (n dim : Z) (build rate : float) : string :=
  cat ["RediSearch SIFT-1M: corpus="; dec n; " dim="; dec dim; "  build(load+index)="; fmt_fixed 1 build; "s (";
       fmt_fixed 0 rate; " vec/s)  [M=16 efC=200]"].

(** [main], from the files: the corpus, the load and build times with their rates, and the
    rows. *)
Definition main (polls : nat) (files : file_system)
    : M (bench W) ((Z * Z) * (float * float) * (float * float) * list (Z * float * float)) :=
  base ← lift_result (read_fvecs files (SIFT_DIR +:+ "/sift_base.fvecs"));
  query ← lift_result (read_fvecs files (SIFT_DIR +:+ "/sift_query.fvecs"));
  gt ← lift_result (read_ivecs files (SIFT_DIR +:+ "/sift_groundtruth.ivecs"));
  let gt := columns K gt in
  let n := Z.of_nat (length base) in
  let dim := Z.of_nat (length (default [] (head base))) in
  _ ← on_world (redis_connect "127.0.0.1" PORT false 2);
  _ ← on_world redis_ping;
  _ ← on_world drop_index;
  _ ← on_world (execute_command (create_args dim));
  t0 ← clock;
  _ ← on_world (load base);
  t1 ← clock;
  let loaded := fsub t1 t0 in
  load_rate ← lift_result (py_fdiv (f_of_Z n) loaded);
  _ ← print (load_text n loaded load_rate);
  _ ← on_world (wait_indexed polls);
  t2 ← clock;
  let build := fsub t2 t0 in
  _ ← print "[mem-marker] index ready — snapshot `docker stats redisstack` now";
  build_rate ← lift_result (py_fdiv (f_of_Z n) build);
  _ ← print (build_text n dim build build_rate);
  _ ← print (sweep_header 20 "QPS(svc round-trip)");
  rows ← map_each (sweep_row 20 (search query) (truth_at gt) (length query)) EF_SWEEP;
  mret ((n, dim), (loaded, load_rate), (build, build_rate), rows).
End Script.

(** ** A server that answers, and what it has been told *)

Definition hset := (string * list (string * list byte))%type.

Class RedisService (W : Type) {R : Redis W} := {
  queued : W -> list hset;     (* in the pipeline *)
  stored : W -> list hset;     (* carried out, oldest first *)
  trips : W -> list nat;       (* the number of commands of each pipeline executed *)
  hset_queues k m w : wp (pipe_hset k m) w (fun r w' =>
    r = Ok tt /\ queued w' = queued w ++ [(k, m)] /\ stored w' = stored w /\ trips w' = trips w);
  execute_runs w : wp pipe_execute w (fun r w' =>
    r = Ok tt /\ queued w' = [] /\ stored w' = stored w ++ queued w /\ trips w' = trips w ++ [length (queued w)])
}.

(** The hash of the vector [i]. *)
Definition vector_hash (base : list (list Z)) (i : nat) : hset :=
  (key_of (Z.of_nat i), [("vec", tobytes (base !!! i))]).

Section Loading.
Context {W : Type} {R : Redis W} {RS : RedisService W}.

(** What the first [j] turns of the loop have done, from [w0] on. *)
Record loaded (base : list (list Z)) (w0 : W) (j : nat) (w : W) : Prop := {
  loaded_all : stored w ++ queued w = stored w0 ++ (vector_hash base <$> seq 0 j);
  loaded_queue : length (queued w) = (j mod 2000)%nat;
  loaded_trips : trips w = trips w0 ++ replicate (j / 2000) 2000%nat
}.

Lemma load_vector_loaded base w0 j (w : W) :
  (j < length base)%nat -> loaded base w0 j w ->
  wp (load_vector base j) w (fun r w' => r = Ok tt /\ loaded base w0 (S j) w').
Proof.
  intros Hj [Hall Hq Ht]. unfold load_vector.
  destruct (lookup_lt_is_Some_2 base j Hj) as [row Hrow].
  rewrite (py_item_lookup _ _ _ Hrow). wp_step. wp_step. apply wp_bind.
  eapply wp_mono; [apply hset_queues|]. intros r w1 (-> & Hq1 & Hs1 & Ht1). cbn beta iota.
  pose proof (Nat.div_mod_eq j 2000) as Hd. pose proof (Nat.mod_upper_bound j 2000 ltac:(done)) as Hm.
  assert (stored w1 ++ queued w1 = stored w0 ++ (vector_hash base <$> seq 0 (S j))) as Hall1.
  { rewrite Hs1, Hq1, app_assoc, Hall, seq_S, fmap_app, app_assoc. cbn.
    unfold vector_hash at 3. by rewrite (list_lookup_total_correct _ _ _ Hrow). }
  assert (length (queued w1) = S (j mod 2000)) as Hlen by (rewrite Hq1, length_app, Hq; cbn; lia).
  destruct (Nat.eqb_spec (j mod 2000) 1999) as [E|E].
  - assert (S j / 2000 = S (j / 2000) /\ S j mod 2000 = 0)%nat as [Hd' Hm'].
    { split; [symmetry; apply (Nat.div_unique _ _ _ 0); lia|symmetry; apply (Nat.mod_unique _ _ (S (j / 2000))); lia]. }
    eapply wp_mono; [apply execute_runs|]. intros r w2 (-> & Hq2 & Hs2 & Ht2). split; [done|]. split.
    + by rewrite Hs2, Hq2, app_nil_r.
    + by rewrite Hq2, Hm'.
    + rewrite Ht2, Ht1, Ht, Hlen, Hd', replicate_S_end, <- app_assoc, E. done.
  - assert (S j / 2000 = j / 2000 /\ S j mod 2000 = S (j mod 2000))%nat as [Hd' Hm'].
    { split; [symmetry; apply (Nat.div_unique _ _ _ (S (j mod 2000))); lia|symmetry; apply (Nat.mod_unique _ _ (j / 2000)); lia]. }
    apply wp_ret. split; [done|]. split; [done|by rewrite Hm'|by rewrite Ht1, Hd'].
Qed.

Lemma load_spec base (w : W) :
  queued w = [] ->
  wp (load base) w (fun r w' => r = Ok tt /\ queued w' = [] /\
    stored w' = stored w ++ (vector_hash base <$> seq 0 (length base)) /\
    trips w' = trips w ++ replicate (length base / 2000) 2000%nat ++ [(length base mod 2000)%nat]).
Proof.
  intros Hw. unfold load. apply wp_bind.
  apply (wp_for_each (fun done => loaded base w (length done))).
  - split; [by rewrite Hw|by rewrite Hw|by rewrite app_nil_r].
  - intros done x rest w1 Hseq Hl. assert (seq 0 (length base) !! length done = Some x) as Hx by by rewrite Hseq, list_lookup_middle.
    apply lookup_seq in Hx as [-> Hlt]. rewrite length_app, Nat.add_1_r. by apply load_vector_loaded.
  - intros w1 Hl. rewrite length_seq in Hl. destruct Hl as [Hall Hq Ht].
    eapply wp_mono; [apply execute_runs|]. intros r w2 (-> & Hq2 & Hs2 & Ht2). split_and!; [done|done| |].
    + by rewrite Hs2.
    + by rewrite Ht2, Ht, Hq, <- app_assoc.
Qed.
End Loading.

(** ** Keys *)

Lemma str_split_none c s : str_forall (fun a => Ascii.eqb a c = false) s -> str_split c s = [s].
Proof.
  unfold str_forall. induction s as [|a s IH]; intros Hs; [done|]. inversion Hs as [|?? Ha Hr]; subst.
  cbn. by rewrite IH, Ha.
Qed.

Lemma dec_no_colon z : str_forall (fun a => Ascii.eqb a ":" = false) (dec z).
Proof.
  destruct (dec_split z) as (body & -> & Hd & _).
  assert (str_forall (fun a => Ascii.eqb a ":" = false) body) as Hb.
  { eapply Forall_impl; [|exact Hd]. intros a (d & Hd' & ->). by apply (digit_cases (fun c => Ascii.eqb c ":" = false)). }
  destruct (z <? 0); [by constructor|done].
Qed.

(** The name of a vector gives its number back. *)
Lemma key_id_of z : key_id (key_of z) = Ok z.
Proof.
  unfold key_id, key_of, PREFIX.
  assert (str_split ":" ("v:" +:+ dec z) = ["v"; dec z]) as ->; [|apply int_of_dec].
  change ("v:" +:+ dec z) with (String "v" (String ":" (dec z))). cbn [str_split].
  by rewrite (str_split_none _ _ (dec_no_colon z)).
Qed.

(** The reply to a search whose hits are the vectors [ids], each with its fields. *)
Definition search_reply (count : Z) (hits : list (Z * list reply)) : reply :=
  RList (RInt count :: concat ((fun h => [RBytes (key_of h.1); RList h.2]) <$> hits)).

Lemma search_ids_reply count hits : search_ids (search_reply count hits) = Ok hits.*1.
Proof.
  cbn [search_ids search_reply hit_ids]. induction hits as [|[i fs] hits IH]; [done|].
  cbn [fmap list_fmap concat app hit_ids fst]. rewrite key_id_of. cbn [mbind result_bind].
  by rewrite IH.
Qed.

(** ** A server with the search module *)

(** What a loaded server has stored: the hash of every vector, in order. *)
Definition hashes (base : list (list Z)) : list hset := vector_hash base <$> seq 0 (length base).

(** [stored] are the hashes the index covers, once there is one; [unready], the polls until it
    has taken them all in, which depends on what is stored; [ranked], the hits of a query at a
    setting, the numbers of the vectors with the fields returned.  Dropping the index with its
    documents fails with a [ResponseError] when there is none. *)
Class RedisEngine (W : Type) {R : Redis W} {RS : RedisService W} := {
  has_index : W -> bool;
  unready : W -> nat;
  indexing : list hset -> nat;
  ranked : list hset -> Z -> list byte -> list (Z * list reply);
  unready_bound w : (unready w <= indexing (stored w))%nat;
  connect_ok host port decode protocol w : wp (redis_connect host port decode protocol) w (fun r w' =>
    r = Ok tt /\ queued w' = [] /\ stored w' = stored w /\ has_index w' = has_index w);
  ping_ok w : wp redis_ping w (fun r w' =>
    r = Ok tt /\ queued w' = queued w /\ stored w' = stored w /\ has_index w' = has_index w);
  drop_ok w : wp (execute_command (ArgStr <$> ["FT.DROPINDEX"; IDX; "DD"])) w (fun r w' =>
    queued w' = queued w /\
    if has_index w then is_ok r = true /\ stored w' = []
    else stored w' = stored w /\ exists e, r = Raise e /\ is_ResponseError e = true);
  create_ok dim w : wp (execute_command (create_args dim)) w (fun r w' =>
    is_ok r = true /\ queued w' = queued w /\ stored w' = stored w);
  info_ok w : wp (execute_command (ArgStr <$> ["FT.INFO"; IDX])) w (fun r w' =>
    (exists info, r = Ok info /\ index_ready info = Ok (unready w =? 0)%nat) /\
    unready w' = pred (unready w) /\ stored w' = stored w);
  search_ok ef blob w : wp (execute_command (search_args ef blob)) w (fun r w' =>
    (exists count, r = Ok (search_reply count (ranked (stored w) ef blob))) /\ stored w' = stored w)
}.

Section Engine.
Context {W : Type} {R : Redis W} {RS : RedisService W} {RE : RedisEngine W}.

(** An index left by an earlier run goes with its documents; without one, nothing does. *)
Lemma wp_drop_index w :
  has_index w = true \/ stored w = [] ->
  wp drop_index w (fun r w' => r = Ok tt /\ queued w' = queued w /\ stored w' = []).
Proof.
  intros Hw. unfold drop_index. apply wp_try_catch, wp_bind. eapply wp_mono; [apply drop_ok|].
  intros r w' [Hq Hd]. destruct (has_index w).
  - destruct Hd as [Hok Hs]. destruct r as [v|e]; [|done]. by apply wp_ret.
  - destruct Hd as [Hs (e & -> & He)]. cbn beta iota. rewrite He. apply wp_ret. destruct Hw as [|Hw]; [done|].
    by rewrite Hs, Hw.
Qed.

Lemma wp_wait_indexed fuel w :
  (unready w < fuel)%nat -> wp (wait_indexed fuel) w (fun r w' => r = Ok tt /\ stored w' = stored w).
Proof.
  revert w. induction fuel as [|fuel IH]; intros w Hf; [lia|]. cbn [wait_indexed]. apply wp_bind.
  eapply wp_mono; [apply info_ok|]. intros r w' [(info & -> & Hr) [Hu Hs]]. cbn beta iota. apply wp_bind, wp_lift.
  rewrite Hr. destruct (Nat.eqb_spec (unready w) 0) as [E|E]; [by apply wp_ret|].
  eapply wp_mono; [apply IH; lia|]. intros r w'' [-> Hs']. split; [done|congruence].
Qed.

(** The ids of the hits of the query [i] at a setting. *)
Definition hits_at (base queries : list (list Z)) (ef : Z) (i : nat) : list Z :=
  (ranked (hashes base) ef (tobytes (queries !!! i))).*1.

Lemma wp_redis_search base queries ef i w :
  stored w = hashes base -> (i < length queries)%nat ->
  wp (search queries ef i) w (fun r w' => r = Ok (hits_at base queries ef i) /\ stored w' = hashes base).
Proof.
  intros Hs Hi. destruct (lookup_lt_is_Some_2 queries i Hi) as [q Hq]. unfold search, hits_at.
  rewrite (py_item_lookup _ _ _ Hq), (list_lookup_total_correct _ _ _ Hq). apply wp_bind, wp_lift, wp_bind.
  eapply wp_mono; [apply search_ok|]. intros r w' [(count & ->) Hs']. rewrite Hs in *. cbn beta iota. apply wp_lift.
  by rewrite search_ids_reply.
Qed.
End Engine.
