(* ===== verification/Hnswlib.v ===== *)
(** * The hnswlib script: [sift1m/hnswlib_bench.py]

    The in-process index is the class [Hnswlib]; the resident memory of the process is what
    [/proc/self/statm] says at each reading, a function of the environment. *)

From S2P Require Import Prelude Bytes Text Float64 FloatOrder Env F32 Numpy Sift Report Bench.

(** The settings of the index, as passed to [init_index]. *)
Record index_settings := { max_elements : Z; ef_construction : Z; M_links : Z; random_seed : Z }.

Class Hnswlib (W : Type) := {
  (** [hnswlib.Index(space=..., dim=...)] *)
  new_index : string -> Z -> M W unit;
  init_index : index_settings -> M W unit;
  (** [add_items(data, ids, num_threads=...)] *)
  add_items : list (list Z) -> list Z -> Z -> M W unit;
  set_ef : Z -> M W unit;
  (** the labels of [knn_query(data, k=..., num_threads=...)] *)
  knn_labels : list (list Z) -> Z -> Z -> M W (list (list Z));
  (** the text of [/proc/self/statm], and [os.sysconf("SC_PAGE_SIZE")] *)
  statm : M W string;
  page_size : Z
}.

Definition K : Z := 10.
Definition EF_SWEEP : list Z := [16; 32; 64; 128; 256; 512].

(** The script's own copies of the readers of {!Sift}, which are called with a path. *)
Definition read_fvecs {NP : Numpy} (files : file_system) (path : string) : result (list (list Z)) :=
  bs ← files path;
  let x := np_fromfile_i32 bs None in
  d ← first_int x;
  rows ← np_reshape x (d + 1);
  Ok (drop_column rows).
Definition read_ivecs {NP : Numpy} (files : file_system) (path : string) : result (list (list Z)) :=
  bs ← files path;
  let x := np_fromfile_i32 bs None in
  d ← first_int x;
  rows ← np_reshape x (d + 1);
  Ok (int32_rows (drop_column rows)).

Section Script.
Context {W : Type} {X : Hnswlib W} {NP : Numpy} {C : Clock}.

(** The resident set, in MiB. *)
Definition rss_mb : M W float :=
  text ← statm;
  field ← lift_result (py_item (str_words text) 1);
  resident ← lift_result (int_of_str field);
  lift_result (py_int_div (resident * page_size) (Z.shiftl 1 20)).

(** [sum(len(set(labels[i]) & set(gt[i])) for i in range(n))] *)
Fixpoint label_hits (labels gt : list (list Z)) (todo : list nat) : result Z :=
  match todo with
  | [] => Ok 0
  | i :: todo =>
      l ← py_item labels (Z.of_nat i);
      g ← py_item gt (Z.of_nat i);
      rest ← label_hits labels gt todo;
      Ok (common l g + rest)
  end.

(** A row of the table: one call answers every query. *)
Definition sweep_row (query gt : list (list Z)) (ef : Z) : M (bench W) (Z * float * float) :=
  _ ← on_world (set_ef ef);
  t1 ← clock;
  labels ← on_world (knn_labels query K 1);
  t2 ← clock;
  hits ← lift_result (label_hits labels gt (seq 0 (length query)));
  r ← lift_result (recall hits (Z.of_nat (length query)) K);
  qps ← lift_result (py_fdiv (f_of_Z (Z.of_nat (length query))) (fsub t2 t1));
  _ ← print (sweep_line 12 (ef, r, qps));
  mret (ef, r, qps).

Definition build_text (n dim : Z) (build rate : float) : string :=
  cat ["hnswlib SIFT-1M: corpus="; dec n; " dim="; dec dim; "  build="; fmt_fixed 1 build; "s (";
       fmt_fixed 0 rate; " vec/s)  [M=16 efC=200, parallel build]"].
Definition memory_text (index_rss rss_after rss_base : float) : string :=
  cat ["[mem] index RSS="; fmt_fixed 0 index_rss; "MB  (rss_after_build_inputs_freed="; fmt_fixed 0 rss_after;
       "MB, baseline="; fmt_fixed 0 rss_base; "MB)  float32+graph, M=16"].

(** [main], from the files: the corpus, the build time and its rate, the memory of
    the index, after its build and before, and the rows. *)
Definition main (files : file_system)
    : M (bench W) ((Z * Z) * (float * float) * (float * float * float) * list (Z * float * float)) :=
  query ← lift_result (read_fvecs files (SIFT_DIR +:+ "/sift_query.fvecs"));
  gt ← lift_result (read_ivecs files (SIFT_DIR +:+ "/sift_groundtruth.ivecs"));
  let gt := columns K gt in
  rss_base ← on_world rss_mb;
  base ← lift_result (read_fvecs files (SIFT_DIR +:+ "/sift_base.fvecs"));
  let n := Z.of_nat (length base) in
  let dim := Z.of_nat (length (default [] (head base))) in
  _ ← on_world (new_index "l2" dim);
  t0 ← clock;
  _ ← on_world (init_index {| max_elements := n; ef_construction := 200; M_links := 16; random_seed := 42 |});
  _ ← on_world (add_items base (Z.of_nat <$> seq 0 (length base)) (-1));
  t1 ← clock;
  let build := fsub t1 t0 in
  rss_after ← on_world rss_mb;
  let index_rss := fsub rss_after rss_base in
  rate ← lift_result (py_fdiv (f_of_Z n) build);
  _ ← print (build_text n dim build rate);
  _ ← print (memory_text index_rss rss_after rss_base);
  _ ← print (sweep_header 12 "QPS(1-thread)");
  rows ← map_each (sweep_row query gt) EF_SWEEP;
  mret ((n, dim), (build, rate), (index_rss, rss_after, rss_base), rows).
End Script.

(** ** An index that answers *)

(** The index holds labelled vectors, up to its capacity, and answers a query with labels;
    [pages] are the resident pages of the process. *)
Class HnswlibService (W : Type) {X : Hnswlib W} := {
  items : W -> list (Z * list Z);
  capacity : W -> Z;
  search_ef : W -> Z;
  pages : W -> Z;
  labels_of : list (Z * list Z) -> Z -> list Z -> Z -> list Z;   (* items, ef, query, k *)
  new_index_ok space dim w : wp (new_index space dim) w (fun r w' => r = Ok tt /\ items w' = []);
  init_index_ok s w : wp (init_index s) w (fun r w' => r = Ok tt /\ items w' = items w /\ capacity w' = max_elements s);
  add_items_ok data ids threads w :
    length ids = length data -> Z.of_nat (length (items w) + length data) <= capacity w ->
    wp (add_items data ids threads) w (fun r w' => r = Ok tt /\ items w' = items w ++ zip ids data);
  set_ef_ok ef w : wp (set_ef ef) w (fun r w' => r = Ok tt /\ items w' = items w /\ search_ef w' = ef);
  knn_ok query k threads w :
    k <= search_ef w -> k <= Z.of_nat (length (items w)) ->
    wp (knn_labels query k threads) w (fun r w' =>
      r = Ok ((fun q => labels_of (items w) (search_ef w) q k) <$> query) /\ items w' = items w);
  statm_ok w : wp statm w (fun r w' =>
    (exists text, r = Ok text /\ str_words text !! 1%nat = Some (dec (pages w))) /\ items w' = items w)
}.

(** [resident * page / (1 << 20)] *)
Definition mib {W} {X : Hnswlib W} (pages : Z) : float := f_of_ratio (pages * page_size) 1048576.

Lemma label_hits_total labels gt todo :
  (forall i, i ∈ todo -> (i < length labels)%nat /\ (i < length gt)%nat) ->
  label_hits labels gt todo = Ok (total_hits (fun i => labels !!! i) (fun i => gt !!! i) todo).
Proof.
  induction todo as [|i todo IH]; intros Hin; [done|]. cbn [label_hits total_hits foldr].
  destruct (Hin i ltac:(set_solver)) as [Hl Hg]. apply lookup_lt_is_Some_2 in Hl as [l Hl]. apply lookup_lt_is_Some_2 in Hg as [g Hg].
  rewrite (py_item_lookup _ _ _ Hl), (py_item_lookup _ _ _ Hg), (list_lookup_total_correct _ _ _ Hl), (list_lookup_total_correct _ _ _ Hg).
  cbn [mbind result_bind]. by rewrite IH by (intros j Hj; apply Hin; set_solver).
Qed.

Section Service.
Context {W : Type} {X : Hnswlib W} {XS : HnswlibService W} {C : Clock}.

Lemma wp_rss_mb w : wp rss_mb w (fun r w' => r = Ok (mib (pages w)) /\ items w' = items w).
Proof.
  unfold rss_mb. apply wp_bind. eapply wp_mono; [apply statm_ok|]. intros r w' [(text & -> & Ht) Hi]. cbn beta iota.
  apply wp_bind, wp_lift. change 1 with (Z.of_nat 1) at 1. rewrite (py_item_lookup _ _ _ Ht). apply wp_bind, wp_lift. rewrite int_of_dec.
  apply wp_lift. by split.
Qed.

(** The rows of the sweep, on an index of at least ten vectors. *)
Lemma wp_label_rows vs query gt (b : bench W) :
  items (b_world b) = vs -> K <= Z.of_nat (length vs) -> (0 < length query <= length gt)%nat ->
  (forall j, (j < length EF_SWEEP)%nat -> f_is_zero (span (b_reads b) j) = false) ->
  let found ef := total_hits (fun i => labels_of vs ef (query !!! i) K) (fun i => gt !!! i) (seq 0 (length query)) in
  wp (map_each (sweep_row query gt) EF_SWEEP) b (fun r b' =>
    (exists rows, r = Ok rows /\ sweep_ok found (length query) (b_reads b) EF_SWEEP rows) /\ items (b_world b') = vs).
Proof.
  intros Hvs Hk [Hn Hgt] Hz found. apply (wp_rows (fun w => items w = vs)); [|done|done]. intros j ef b1 Hj HJ Hc.
  assert (K <= ef) as Hef.
  { assert (Forall (fun ef => K <= ef) EF_SWEEP) as Hall by by repeat constructor.
    eapply (Forall_elem _ _ _ Hall), list_elem_of_lookup_2, Hj. }
  unfold sweep_row. apply wp_bind, wp_on_world. eapply wp_mono; [apply set_ef_ok|]. intros r w1 (-> & Hi1 & He1). cbn beta iota.
  apply wp_bind, wp_clock. cbn [b_world b_reads]. apply wp_bind, wp_on_world.
  eapply wp_mono; [apply knn_ok; cbn [b_world]; rewrite ?He1, ?Hi1, ?HJ; done|]. intros r w2 [-> Hi2]. cbn beta iota.
  apply wp_bind, wp_clock. cbn [b_world b_reads] in *. rewrite Hc.
  destruct (row_figures found (length query) (b_reads b) j ef Hn) as (rc & qps & Hr & Hqps); [by eapply Hz, lookup_lt_Some|].
  fold (span (b_reads b) j). apply wp_bind, wp_lift. rewrite label_hits_total.
  2: { intros i [_ Hi]%elem_of_seq. rewrite length_fmap. lia. }
  assert (total_hits (fun i => ((fun q => labels_of (items w1) (search_ef w1) q K) <$> query) !!! i) (fun i => gt !!! i)
    (seq 0 (length query)) = found ef) as ->.
  { apply total_hits_ext. intros i [_ Hi]%elem_of_seq. rewrite Hi1, HJ, He1.
    destruct (lookup_lt_is_Some_2 query i) as [q Hq]; [lia|]. rewrite (list_lookup_total_correct _ _ _ Hq).
    apply list_lookup_total_correct. by rewrite list_lookup_fmap, Hq. }
  apply wp_bind, wp_lift. change K with RECALL_K. rewrite Hr. apply wp_bind, wp_lift. rewrite Hqps. apply wp_bind, wp_print, wp_ret.
  split; [by exists (ef, rc, qps)|]. split; cbn [b_world b_reads]; [by rewrite Hi2, Hi1|lia].
Qed.
End Service.
