(* ===== verification/SweepProps.v ===== *)
(** * What the sweeping benchmarks report, from their files

    The scripts [hnswlib_bench.py], [redis_bench.py] and [qdrant_bench.py] from end to end: the files, the build,
    and a sweep of the queries at each setting. *)

From S2P Require Import Prelude Bytes Text Float64 FloatOrder Env F32 Numpy Sift Bench.
From S2P Require Hnswlib Redis Qdrant.

(** The ids the scripts compare with: the ten nearest vectors of each query. *)
Definition nearest (gt : list (list Z)) (i : nat) : list Z := columns RECALL_K (int32_rows gt) !!! i.

Lemma length_nearest gt : length (columns RECALL_K (int32_rows gt)) = length gt.
Proof. unfold columns, int32_rows. by rewrite !length_fmap. Qed.

Lemma nearest_item gt i : (i < length gt)%nat -> truth_at (columns RECALL_K (int32_rows gt)) i = Ok (nearest gt i).
Proof.
  intros Hi. unfold truth_at, nearest. destruct (lookup_lt_is_Some_2 (columns RECALL_K (int32_rows gt)) i) as [g Hg].
  { by rewrite length_nearest. }
  by rewrite (list_lookup_total_correct _ _ _ Hg), (py_item_lookup _ _ _ Hg).
Qed.

(** ** [hnswlib_bench.py] *)

Section HnswlibRun.
Import Hnswlib.
Context {W : Type} {X : Hnswlib W} {XS : HnswlibService W} {NP : Numpy} {NL : NumpyLaws NP} {C : Clock}.

(** C14: the hnswlib benchmark, from its files to its figures.  With the three files in their
    formats, at least ten vectors, a row of ground truth for each query and a clock that moves
    during the build and during each setting's search, the script ends with an index that
    holds every vector once under its number, whatever was there, and reports: the shape of
    the data; the time of the build and its rate; the resident memory before, after, and the
    difference; and for each setting of [ef] in turn the recall of the labels the index gives
    at that setting, and the rate of the one call that searched all queries. *)
Theorem hnswlib_script_reports files d base queries gt (b : bench W) :
  base_data files SIFT_DIR d base -> sift_data files SIFT_DIR queries gt ->
  10 <= Z.of_nat (length base) -> (length queries <= length gt)%nat ->
  f_is_zero (span (b_reads b) 0) = false ->
  (forall j, (j < length EF_SWEEP)%nat -> f_is_zero (span (b_reads b + 2) j) = false) ->
  let n := Z.of_nat (length base) in
  let found ef := total_hits (fun i => labels_of (numbered base) ef (queries !!! i) K) (nearest gt) (seq 0 (length queries)) in
  wp (main files) b (fun r b' =>
    items (b_world b') = numbered base /\
    exists rate after_pages rows,
      let before := mib (pages (b_world b)) in
      r = Ok ((n, Z.of_nat d), (span (b_reads b) 0, rate), (fsub (mib after_pages) before, mib after_pages, before), rows) /\
      py_fdiv (f_of_Z n) (span (b_reads b) 0) = Ok rate /\
      sweep_ok found (length queries) (b_reads b + 2) EF_SWEEP rows).
Proof.
  intros Hbase Hdata Hten Hgt Hz Hzs n found. destruct (load_data _ _ _ _ Hdata) as [Lq Lg].
  unfold main. read_as Lq. read_as Lg. do 2 apply wp_bind, wp_lift.
  apply wp_bind, wp_on_world. eapply wp_mono; [apply wp_rss_mb|]. intros r w1 [-> _].
  cbn beta iota. read_as (load_base _ _ _ _ Hbase). apply wp_bind, wp_lift. rewrite (vecs_head d base) by apply Hbase.
  apply wp_bind, wp_on_world. eapply wp_mono; [apply new_index_ok|]. intros r w2 [-> H2]. cbn beta iota.
  apply wp_bind, wp_clock. apply wp_bind, wp_on_world. cbn [b_world b_reads].
  eapply wp_mono; [apply init_index_ok|]. intros r w3 (-> & H3 & Hcap). cbn beta iota. apply wp_bind, wp_on_world.
  eapply wp_mono; [apply add_items_ok; [by rewrite length_fmap, length_seq|]|].
  { cbn [b_world]. rewrite Hcap, H3, H2. cbn. lia. }
  intros r w4 [-> H4]. cbn [b_world] in H4. rewrite H3, H2, app_nil_l in H4. fold (numbered base) in H4. cbn beta iota.
  apply wp_bind, wp_clock. cbn [b_world b_reads]. apply wp_bind, wp_on_world. eapply wp_mono; [apply wp_rss_mb|].
  intros r w5 [-> H5]. cbn [b_world b_reads] in *. cbn beta iota. rewrite <- span_first.
  destruct (rate_ok n _ Hz) as [rate Hrate]. apply wp_bind, wp_lift. fold n. rewrite Hrate. do 3 apply wp_bind, wp_print. apply wp_bind.
  replace (S (S (b_reads b))) with (b_reads b + 2)%nat by lia.
  eapply wp_mono; [apply (wp_label_rows (numbered base)); cbn [b_world b_reads]|].
  - by rewrite H5, H4.
  - rewrite length_numbered. exact Hten.
  - rewrite length_nearest. split; [by eapply data_queries|done].
  - exact Hzs.
  - intros r b' [(rows & -> & Hrows) Hi]. cbn beta iota. apply wp_ret. split; [exact Hi|].
    exists rate, (pages w4), rows. by split_and!.
Qed.
End HnswlibRun.

(** ** [redis_bench.py] *)

Section RedisRun.
Import Redis.
Context {W : Type} {R : Redis W} {RS : RedisService W} {RE : RedisEngine W} {NP : Numpy} {NL : NumpyLaws NP} {C : Clock}.

(** C15: the Redis benchmark, from its files to its figures.  On a server that has the index of an
    earlier run, or none of its hashes, with the three files in their formats, a row of ground
    truth for each query, polls enough for the indexing and a clock that moves when it should,
    the script ends with exactly the hash of each vector stored, and reports: the shape of the
    data; the times of the load and of the load with the indexing, with their rates; and for
    each setting in turn the recall of the hits the server gives at that setting, and the rate
    of the queries. *)
Theorem redis_script_reports files d base queries gt polls (b : bench W) :
  base_data files SIFT_DIR d base -> sift_data files SIFT_DIR queries gt -> (length queries <= length gt)%nat ->
  has_index (b_world b) = true \/ stored (b_world b) = [] -> (indexing (hashes base) < polls)%nat ->
  let c := b_reads b in let build := fsub (ticks (c + 2)) (ticks c) in
  f_is_zero (span c 0) = false -> f_is_zero build = false ->
  (forall j, (j < length EF_SWEEP)%nat -> f_is_zero (span (c + 3) j) = false) ->
  let n := Z.of_nat (length base) in
  let found ef := total_hits (hits_at base queries ef) (nearest gt) (seq 0 (length queries)) in
  wp (main polls files) b (fun r b' =>
    stored (b_world b') = hashes base /\
    exists load_rate build_rate rows,
      r = Ok ((n, Z.of_nat d), (span c 0, load_rate), (build, build_rate), rows) /\
      py_fdiv (f_of_Z n) (span c 0) = Ok load_rate /\ py_fdiv (f_of_Z n) build = Ok build_rate /\
      sweep_ok found (length queries) (c + 3) EF_SWEEP rows).
Proof.
  intros Hbase Hdata Hgt Hold Hpolls c build Hz Hzb Hzs n found. destruct (load_data _ _ _ _ Hdata) as [Lq Lg].
  destruct (rate_ok n _ Hz) as [lr Hlr]. destruct (rate_ok n _ Hzb) as [br Hbr].
  unfold main. read_as (load_base _ _ _ _ Hbase). read_as Lq. read_as Lg. do 3 apply wp_bind, wp_lift.
  rewrite (vecs_head d base) by apply Hbase.
  apply wp_bind, wp_on_world. eapply wp_mono; [apply connect_ok|]. intros r w1 (-> & Q1 & S1 & I1). cbn beta iota.
  apply wp_bind, wp_on_world. eapply wp_mono; [apply ping_ok|]. intros r w2 (-> & Q2 & S2 & I2). cbn beta iota.
  cbn [b_world] in *. apply wp_bind, wp_on_world. eapply wp_mono; [apply wp_drop_index|].
  { cbn [b_world]. destruct Hold; [left|right]; congruence. }
  intros r w3 (-> & Q3 & S3). cbn beta iota. apply wp_bind, wp_on_world. eapply wp_mono; [apply create_ok|].
  intros [v|e] w4 (Hok & Q4 & S4); [|done]. cbn [b_world b_reads] in *. cbn beta iota.
  apply wp_bind, wp_clock, wp_bind, wp_on_world. cbn [b_world b_reads].
  eapply wp_mono; [apply load_spec; congruence|]. intros r w5 (-> & _ & S5 & _). rewrite S4, S3 in S5. cbn beta iota.
  apply wp_bind, wp_clock. cbn [b_world b_reads]. fold c. rewrite <- span_first. fold n. apply wp_bind, wp_lift. rewrite Hlr. apply wp_bind, wp_print.
  apply wp_bind, wp_on_world. cbn [b_world b_reads]. fold (hashes base) in S5. cbn [app] in S5.
  eapply wp_mono; [apply wp_wait_indexed|].
  { pose proof (unready_bound w5) as Hu. rewrite S5 in Hu. lia. }
  intros r w6 [-> S6]. rewrite S5 in S6. cbn beta iota. apply wp_bind, wp_clock, wp_bind, wp_print. cbn [b_world b_reads].
  replace (S (S c)) with (c + 2)%nat by lia. fold build. apply wp_bind, wp_lift. rewrite Hbr. do 2 apply wp_bind, wp_print. apply wp_bind.
  replace (S (c + 2)) with (c + 3)%nat by lia.
  eapply wp_mono; [apply (wp_sweep (fun w => stored w = hashes base) _ _ _ (hits_at base queries) (nearest gt)); cbn [b_world b_reads]|].
  - intros ef i w _ Hi Hs. by apply wp_redis_search.
  - intros i Hi. apply nearest_item. lia.
  - by eapply data_queries.
  - exact Hzs.
  - exact S6.
  - intros r b' [(rows & -> & Hrows) Hs]. cbn beta iota. apply wp_ret. split; [exact Hs|]. exists lr, br, rows. by split_and!.
Qed.
End RedisRun.

(** ** [qdrant_bench.py] *)

Section QdrantRun.
Import Qdrant.
Context {W : Type} {Q : Qdrant W} {QS : QdrantService W} {QE : QdrantEngine W} {NP : Numpy} {NL : NumpyLaws NP} {C : Clock}.

(** C16: the Qdrant benchmark, from its environment and its files to its figures.  On a service in
    working order, with the three files in their formats, a row of ground truth for each query,
    as many vectors as a float can count, polls enough for the indexing and a clock that moves
    when it should, the script ends with a collection that holds every vector once under its number, created anew with the
    benchmark's settings, quantized and on disk exactly when [QDRANT_SQ8] is [1], and last seen
    ready; and reports the shape of the data, the time and the rate of the build, and for each
    setting in turn the recall of the service's answers and the rate of the queries. *)
Theorem qdrant_script_reports env files d base queries gt polls (b : bench W) :
  base_data files SIFT_DIR d base -> sift_data files SIFT_DIR queries gt -> (length queries <= length gt)%nat ->
  is_ok (enough (length base)) = true -> (indexing (numbered base) < polls)%nat ->
  let c := b_reads b in let SQ8 := bool_decide (env "QDRANT_SQ8" = Some "1") in
  f_is_zero (span c 0) = false ->
  (forall j, (j < length EF_SWEEP)%nat -> f_is_zero (span (c + 2) j) = false) ->
  let n := Z.of_nat (length base) in
  let found ef := total_hits (hits_at base queries ef) (nearest gt) (seq 0 (length queries)) in
  wp (bench_script env polls files) b (fun r b' =>
    points (b_world b') = numbered base /\
    (exists existed infos last,
      calls (b_world b') = calls (b_world b) ++
        prepared existed (config_of (Z.of_nat d) (Some SQ8) (quant_of SQ8)) (upload_of base) ++ (CalledInfo <$> infos ++ [last]) /\
      ready (length base) last = Ok true) /\
    exists rate rows,
      r = Ok (n, Z.of_nat d, span c 0, rate, rows) /\ py_fdiv (f_of_Z n) (span c 0) = Ok rate /\
      sweep_ok found (length queries) (c + 2) EF_SWEEP rows).
Proof.
  intros Hbase Hdata Hgt Hn Hpolls c SQ8 Hz Hzs n found. destruct (load_data _ _ _ _ Hdata) as [Lq Lg].
  destruct (rate_ok n _ Hz) as [rate Hrate]. unfold bench_script, bench_main. change (load_SQ8 env) with SQ8.
  read_as (load_base _ _ _ _ Hbase). read_as Lq. read_as Lg. do 3 apply wp_bind, wp_lift.
  unfold shape. rewrite (vecs_head d base) by apply Hbase. fold n.
  apply wp_bind, wp_on_world. eapply wp_mono; [apply client_ok|]. intros r w1 (-> & C1 & _). cbn beta iota.
  apply wp_bind, wp_on_world. eapply wp_mono; [apply wp_drop_ok|]. intros r w2 (-> & existed & C2). cbn beta iota.
  apply wp_bind, wp_on_world. eapply wp_mono; [apply wp_and; [apply create_ok|apply create_call]|].
  intros r w3 [[-> P3] C3]. specialize (C3 eq_refl). cbn [b_world b_reads] in *. cbn beta iota.
  apply wp_bind, wp_print, wp_bind, wp_clock, wp_bind, wp_on_world. cbn [b_world b_reads].
  eapply wp_mono; [apply wp_and; [apply upload_ok|apply upload_call]|]. intros r w4 [[-> P4] C4]. specialize (C4 eq_refl).
  cbn beta iota. rewrite P3 in P4. change (points w4 = numbered base) in P4.
  apply wp_bind, wp_on_world. cbn [b_world b_reads].
  eapply wp_mono; [apply (wp_wait_ok polls (length base)); [done|by rewrite P4..|rewrite P4; apply length_numbered]|].
  intros r w5 (-> & P5 & infos & last & C5 & Hlast). rewrite P4 in P5. cbn beta iota.
  apply wp_bind, wp_clock, wp_bind, wp_print. cbn [b_world b_reads]. fold c. rewrite <- span_first. apply wp_bind, wp_lift. rewrite Hrate.
  apply wp_bind, wp_print, wp_bind, wp_print, wp_bind. replace (S (S c)) with (c + 2)%nat by lia.
  set (J := fun w => points w = numbered base /\ calls w = calls w5).
  eapply wp_mono; [apply (wp_sweep J _ _ _ (hits_at base queries) (nearest gt)); cbn [b_world b_reads]|].
  - intros ef i w _ Hi [Hp Hc]. eapply wp_mono; [by apply (wp_query base)|]. intros r w' (-> & Hp' & Hc').
    split; [done|]. split; [done|congruence].
  - intros i Hi. apply nearest_item. lia.
  - by eapply data_queries.
  - exact Hzs.
  - by split.
  - intros r b' [(rows & -> & Hrows) [Hp Hc]]. cbn beta iota. apply wp_ret. split_and!; [exact Hp| |by exists rate, rows].
    exists existed, infos, last. split; [|done]. rewrite Hc, C5, C4, C3, C2, C1. unfold prepared.
    rewrite !app_comm_cons, <- !app_assoc. by destruct existed.
Qed.
End QdrantRun.

(** ** Witnesses *)

(** Twelve vectors, two queries, and a clock that counts its readings. *)
Definition sweep_base : list (list Z) := replicate 12 [0].
Definition sweep_queries : list (list Z) := [[0]; [1065353216]].
Definition sweep_truth : list (list Z) := [[3; 41]; [0; 3]].
Definition sweep_files : file_system := fun path =>
  if String.eqb path (SIFT_DIR +:+ "/sift_base.fvecs") then Ok (vecs_file 1 sweep_base)
  else if String.eqb path (SIFT_DIR +:+ "/sift_query.fvecs") then Ok (vecs_file 1 sweep_queries)
  else if String.eqb path (SIFT_DIR +:+ "/sift_groundtruth.ivecs") then Ok (vecs_file 2 sweep_truth)
  else Raise (OtherError "FileNotFoundError").
Definition sweep_clock : Clock := fun n => f_of_Z (Z.of_nat n).

Ltac small_vecs := split; [done|by repeat constructor|apply (bool_decide_unpack _); by vm_compute|done].
Lemma sweep_base_data : base_data sweep_files SIFT_DIR 1 sweep_base.
Proof. split; [small_vecs|done]. Qed.
Lemma sweep_sift_data : sift_data sweep_files SIFT_DIR sweep_queries sweep_truth.
Proof. exists 1%nat, 2%nat. split_and!; [small_vecs|small_vecs|done|done]. Qed.

Lemma sweep_spans c : (c <= 3)%nat -> forall j, (j < 6)%nat -> f_is_zero (span (C := sweep_clock) c j) = false.
Proof.
  intros Hc j Hj. assert (forallb (fun c => forallb (fun j => negb (f_is_zero (span (C := sweep_clock) c j))) (seq 0 6)) (seq 0 4) = true) as Hall by by vm_compute.
  rewrite forallb_forall in Hall. specialize (Hall c ltac:(apply in_seq; lia)).
  rewrite forallb_forall in Hall. specialize (Hall j ltac:(apply in_seq; lia)). by apply negb_true_iff.
Qed.

(** An index in memory, which gives every query its first labels. *)
Record mini_index := { mi_items : list (Z * list Z); mi_capacity : Z; mi_ef : Z }.
#[export] Instance mini_hnswlib : Hnswlib.Hnswlib mini_index := {|
  Hnswlib.new_index := fun _ _ w => (Ok tt, {| mi_items := []; mi_capacity := 0; mi_ef := 10 |});
  Hnswlib.init_index := fun s w =>
    (Ok tt, {| mi_items := mi_items w; mi_capacity := Hnswlib.max_elements s; mi_ef := mi_ef w |});
  Hnswlib.add_items := fun data ids _ w =>
    (Ok tt, {| mi_items := mi_items w ++ zip ids data; mi_capacity := mi_capacity w; mi_ef := mi_ef w |});
  Hnswlib.set_ef := fun ef w => (Ok tt, {| mi_items := mi_items w; mi_capacity := mi_capacity w; mi_ef := ef |});
  Hnswlib.knn_labels := fun query k _ w => (Ok ((fun _ => take (Z.to_nat k) (mi_items w).*1) <$> query), w);
  Hnswlib.statm := mret "5000 2560 700";
  Hnswlib.page_size := 4096
|}.
#[export] Program Instance mini_hnswlib_service : Hnswlib.HnswlibService mini_index := {|
  Hnswlib.items := mi_items; Hnswlib.capacity := mi_capacity; Hnswlib.search_ef := mi_ef;
  Hnswlib.pages := fun _ => 2560; Hnswlib.labels_of := fun vs _ _ k => take (Z.to_nat k) vs.*1
|}.
Solve Obligations with (try (intros; apply wp_run; by split_and?)).
Next Obligation. intros w. apply wp_run. split; [|done]. by exists "5000 2560 700". Qed.

Lemma hnswlib_script_reports_witness :
  outcome (Hnswlib.main (C := sweep_clock) sweep_files)
    (Bench {| mi_items := [(1, [])]; mi_capacity := 1; mi_ef := 1 |} 0) <> Raise IndexError /\
  mi_items (b_world (after (Hnswlib.main (C := sweep_clock) sweep_files)
    (Bench {| mi_items := [(1, [])]; mi_capacity := 1; mi_ef := 1 |} 0))) = numbered sweep_base.
Proof.
  destruct (hnswlib_script_reports (C := sweep_clock) sweep_files 1 sweep_base sweep_queries sweep_truth
    (Bench {| mi_items := [(1, [])]; mi_capacity := 1; mi_ef := 1 |} 0)) as [Hitems (rate & p & rows & Hr & _)].
  - apply sweep_base_data.
  - apply sweep_sift_data.
  - done.
  - done.
  - by apply (sweep_spans 0 ltac:(lia)); lia.
  - apply (sweep_spans 2). lia.
  - split; [|exact Hitems]. by rewrite Hr.
Defined.

(** What the hnswlib script reports there: both queries find their [3], and one its [0]. *)
Example hnswlib_rows :
  (fun r => (r.1.1.1, r.2)) <$> outcome (Hnswlib.main (C := sweep_clock) sweep_files)
    (Bench {| mi_items := []; mi_capacity := 0; mi_ef := 1 |} 0) =
  Ok (12, 1, (fun ef => (ef, f_of_ratio 3 20, f_of_Z 2)) <$> [16; 32; 64; 128; 256; 512]).
Proof. by vm_compute. Qed.

(** A server that needs at most three polls, and gives every query the vectors 3 and 0. *)
Record mini_engine := {
  en_queued : list Redis.hset; en_stored : list Redis.hset; en_trips : list nat; en_index : bool; en_wait : nat
}.
Definition mini_hits : list (Z * list Redis.reply) := [(3, [Redis.RBytes "score"]); (0, [])].
Definition en_polls (w : mini_engine) : nat := Nat.min 3 (en_wait w).
Definition mini_reply (args : list Redis.redis_arg) : M mini_engine Redis.reply := fun w =>
  let command := match args with Redis.ArgStr s :: _ => s | _ => "" end in
  if String.eqb command "FT.DROPINDEX" then
    if en_index w then (Ok Redis.RNone, {| en_queued := en_queued w; en_stored := []; en_trips := en_trips w; en_index := false; en_wait := en_wait w |})
    else (Raise (OtherError "ResponseError"), w)
  else if String.eqb command "FT.INFO" then
    (Ok (Redis.RList [Redis.RBytes "percent_indexed"; Redis.RBytes (if en_polls w =? 0 then "1" else "0.25")%nat;
                      Redis.RBytes "indexing"; Redis.RBytes "0"]),
     {| en_queued := en_queued w; en_stored := en_stored w; en_trips := en_trips w; en_index := en_index w; en_wait := pred (en_polls w) |})
  else if String.eqb command "FT.SEARCH" then (Ok (Redis.search_reply 2 mini_hits), w)
  else (Ok Redis.RNone, w).

#[export] Instance engine_redis : Redis.Redis mini_engine := {|
  Redis.redis_connect := fun _ _ _ _ w =>
    (Ok tt, {| en_queued := []; en_stored := en_stored w; en_trips := en_trips w; en_index := en_index w; en_wait := en_wait w |});
  Redis.redis_ping := mret tt;
  Redis.execute_command := mini_reply;
  Redis.pipe_hset := fun k m w =>
    (Ok tt, {| en_queued := en_queued w ++ [(k, m)]; en_stored := en_stored w; en_trips := en_trips w; en_index := en_index w; en_wait := en_wait w |});
  Redis.pipe_execute := fun w =>
    (Ok tt, {| en_queued := []; en_stored := en_stored w ++ en_queued w; en_trips := en_trips w ++ [length (en_queued w)];
               en_index := en_index w; en_wait := en_wait w |});
  Redis.is_ResponseError := fun e => match e with OtherError "ResponseError" => true | _ => false end
|}.
#[export] Program Instance engine_service : Redis.RedisService mini_engine :=
  {| Redis.queued := en_queued; Redis.stored := en_stored; Redis.trips := en_trips |}.
Solve Obligations with (try (intros; by apply wp_run)).
#[export] Program Instance engine_search : Redis.RedisEngine mini_engine := {|
  Redis.has_index := en_index; Redis.unready := en_polls; Redis.indexing := fun _ => 3%nat;
  Redis.ranked := fun _ _ _ => mini_hits
|}.
Solve Obligations with (try (intros; by apply wp_run)).
Next Obligation. intros w. apply Nat.le_min_l. Qed.
Next Obligation.
  intros w. apply wp_run. unfold outcome, after, Redis.execute_command, engine_redis, mini_reply. cbn.
  destruct (en_index w) eqn:E; cbn; rewrite ?E; split_and!; try done. by eexists.
Qed.
Next Obligation.
  intros w. apply wp_run. split_and!; [| |done].
  - eexists. split; [done|]. by destruct (en_polls w =? 0)%nat; vm_compute.
  - change (Nat.min 3 (pred (Nat.min 3 (en_wait w))) = pred (Nat.min 3 (en_wait w))). lia.
Qed.
Next Obligation. intros ef blob w. apply wp_run. split; [by exists 2|done]. Qed.

Lemma redis_script_reports_witness :
  let w := {| en_queued := []; en_stored := [("v:99", [])]; en_trips := []; en_index := true; en_wait := 2 |} in
  Redis.stored (b_world (after (Redis.main (C := sweep_clock) 4 sweep_files) (Bench w 0))) = Redis.hashes sweep_base.
Proof.
  intros w. refine (proj1 (redis_script_reports (C := sweep_clock) sweep_files 1 sweep_base sweep_queries sweep_truth 4
    (Bench w 0) _ _ _ _ _ _ _ _)).
  - apply sweep_base_data.
  - apply sweep_sift_data.
  - done.
  - by left.
  - cbn. lia.
  - by apply (sweep_spans 0 ltac:(lia)); lia.
  - by vm_compute.
  - apply (sweep_spans 3). lia.
Defined.

(** A collection that needs at most two polls, and gives every query the points 3 and 0. *)
Record mini_collection := { mc_calls : list Qdrant.qdrant_call; mc_points : list (Z * list Z); mc_wait : nat }.
Definition mc_coming (w : mini_collection) (j : nat) : Qdrant.collection_info :=
  match (Nat.min 2 (mc_wait w) - j)%nat with
  | O => {| Qdrant.ci_status := "CollectionStatus.GREEN: green";
            Qdrant.ci_indexed_vectors_count :=
              match Qdrant.enough (length (mc_points w)) with Ok e => Some e | Raise _ => None end |}
  | S _ => {| Qdrant.ci_status := "yellow"; Qdrant.ci_indexed_vectors_count := None |}
  end.
Definition mc_call {A} (a : A) (c : Qdrant.qdrant_call) (points : list (Z * list Z)) : M mini_collection A := fun w =>
  (Ok a, {| mc_calls := mc_calls w ++ [c]; mc_points := points; mc_wait := mc_wait w |}).

#[export] Instance collection_qdrant : Qdrant.Qdrant mini_collection := {|
  Qdrant.QdrantClient := fun _ => mret tt;
  Qdrant.collection_exists := fun _ w => mc_call true (Qdrant.CalledExists true) (mc_points w) w;
  Qdrant.delete_collection := fun _ => mc_call tt Qdrant.CalledDelete [];
  Qdrant.create_collection := fun _ c => mc_call tt (Qdrant.CalledCreate c) [];
  Qdrant.upload_collection := fun _ u w =>
    mc_call tt (Qdrant.CalledUpload u) (mc_points w ++ zip (Qdrant.up_ids u) (Qdrant.up_vectors u)) w;
  Qdrant.get_collection := fun _ w =>
    (Ok (mc_coming w 0), {| mc_calls := mc_calls w ++ [Qdrant.CalledInfo (mc_coming w 0)]; mc_points := mc_points w;
                            mc_wait := pred (Nat.min 2 (mc_wait w)) |});
  Qdrant.query_points := fun _ _ _ _ => mret [Qdrant.PointInt 3; Qdrant.PointInt 0]
|}.
#[export] Program Instance collection_service : Qdrant.QdrantService mini_collection :=
  {| Qdrant.calls := mc_calls; Qdrant.coming := mc_coming |}.
Next Obligation. intros w. apply wp_run. by intros b [= <-]. Qed.
Next Obligation. done. Qed.
Next Obligation. done. Qed.
Next Obligation. done. Qed.
Next Obligation.
  intros w. apply wp_run. split_and!; [done|done|]. intros j. unfold mc_coming, after. cbn [mc_wait mc_points snd].
  assert ((2 `min` pred (2 `min` mc_wait w) - j)%nat = (2 `min` mc_wait w - S j)%nat) as E by lia.
  unfold Qdrant.get_collection, collection_qdrant. cbn [snd mc_wait mc_points]. by rewrite E.
Qed.
#[export] Program Instance collection_engine : Qdrant.QdrantEngine mini_collection := {|
  Qdrant.points := mc_points; Qdrant.indexing := fun _ => 2%nat;
  Qdrant.ranked := fun _ _ _ _ => [Qdrant.PointInt 3; Qdrant.PointInt 0]
|}.
Solve Obligations with (try (intros; by apply wp_run)).
Next Obligation.
  intros w Hn. change (is_ok (Qdrant.enough (length (mc_points w))) = true) in Hn.
  exists (Nat.min 2 (mc_wait w)). split; [apply Nat.le_min_l|].
  split; [intros j Hj|]; change (Qdrant.points w) with (mc_points w).
  - change (Qdrant.coming w j) with (mc_coming w j). unfold mc_coming.
    by destruct (2 `min` mc_wait w - j)%nat eqn:E; [lia|].
  - change (Qdrant.coming w (2 `min` mc_wait w)) with (mc_coming w (2 `min` mc_wait w)). unfold mc_coming.
    rewrite Nat.sub_diag. unfold Qdrant.ready. destruct (Qdrant.enough (length (mc_points w))) as [e|]; [|done].
    change (Ok (e <=? e) = Ok true). by rewrite Z.leb_refl.
Qed.

Lemma qdrant_script_reports_witness :
  let w := {| mc_calls := []; mc_points := [(7, [])]; mc_wait := 1 |} in
  Qdrant.points (b_world (after (Qdrant.bench_script (C := sweep_clock) (fun _ => Some "1") 3 sweep_files) (Bench w 0))) =
  numbered sweep_base.
Proof.
  intros w. refine (proj1 (qdrant_script_reports (C := sweep_clock) (fun _ => Some "1") sweep_files 1 sweep_base sweep_queries
    sweep_truth 3 (Bench w 0) _ _ _ _ _ _ _)).
  - apply sweep_base_data.
  - apply sweep_sift_data.
  - done.
  - by vm_compute.
  - cbn. lia.
  - by apply (sweep_spans 0 ltac:(lia)); lia.
  - apply (sweep_spans 2). lia.
Defined.
