(* ===== verification/QdrantProps.v ===== *)
(** * What the Qdrant latency script reports, from its environment and its files

    [qdrant_latency_qps.py] from end to end: the settings and the files, the collection that is
    found or built, and for each setting a latency run and a pool of workers. *)

From S2P Require Import Prelude Bytes Text Float64 FloatOrder Env F32 Numpy Sift Bench Qdrant RunProps SweepProps.

Section LatencyScript.
Context {W : Type} {Q : Qdrant W} {QS : QdrantService W} {QE : QdrantEngine W}.
Context {NP : Numpy} {NL : NumpyLaws NP} {C : Clock}.

(** A setting takes two readings for each query timed, and two for its pool: the readings made
    before the [j]-th one. *)
Definition reads_before (c j : nat) : nat := (c + j * (2 * LAT_N + 2))%nat.
Definition times_at (c : nat) : list float := interval c <$> seq 0 LAT_N.

(** The clock gives numbers during the latency run of each setting, and moves during its pool. *)
Definition steady_clock (c : nat) : Prop :=
  forall j, (j < length LATENCY_EF_SWEEP)%nat ->
    numbers (times_at (reads_before c j)) /\ f_is_zero (pool_time (reads_before c j)) = false.

(** The ids of the true neighbours that the points [pts] give at a setting. *)
Definition found_in (pts : list (Z * list Z)) (queries gt : list (list Z)) (ef : Z) : Z :=
  total_hits (fun i => int_ids (ranked pts ef (queries !!! i) K)) (nearest gt) (seq 0 LAT_N).

(** The [j]-th row: its setting, and what {!RunProps.reports} says of the rest. *)
Definition latency_row_ok (found total : Z -> Z) (c j : nat) (ef : Z) (row : Z * (float * float * float * float) * float) : Prop :=
  let '(ef', (r, a, b, m), qps) := row in
  ef' = ef /\ reports (Ok (r, a, b, m, qps)) (found ef) (times_at (reads_before c j)) (total ef) (pool_time (reads_before c j)).

Lemma found_in_range pts queries gt ef : 0 <= found_in pts queries gt ef <= 20000.
Proof.
  pose proof (total_hits_range (fun i => int_ids (ranked pts ef (queries !!! i) K)) (nearest gt) (seq 0 LAT_N) 10) as Hr.
  rewrite length_seq in Hr. pose proof LAT_N_eq. unfold found_in.
  enough (forall i, (length (nearest gt i) <= 10)%nat) by (specialize (Hr (fun i _ => H0 i)); lia).
  intros i. unfold nearest. rewrite list_lookup_total_alt. destruct (_ !! i) as [r|] eqn:Hr'; [|cbn; lia].
  by apply (Forall_lookup_1 _ _ _ _ (columns_small _) Hr').
Qed.

Lemma wp_latency_row pts queries gt conc dur fuel procs turns c j ef (b : bench W) :
  let gt10 := columns K (int32_rows gt) in
  points (b_world b) = pts -> b_reads b = reads_before c j -> (j < length LATENCY_EF_SWEEP)%nat ->
  (LAT_N <= length queries)%nat -> (LAT_N <= length gt)%nat -> 1 <= conc ->
  pool_stops conc dur (procs ef) turns fuel -> steady_clock c ->
  wp (latency_row conc dur fuel queries gt10 procs ef) b
    (fun r b' => (exists row, r = Ok row /\ latency_row_ok (found_in pts queries gt) (fun _ => 16 * Z.of_nat (pool_turns conc turns)) c j ef row) /\
      points (b_world b') = pts /\ b_reads b' = reads_before c (S j)).
Proof.
  intros gt10 Hp Hb Hj Hnq Hng Hconc Hpool Hclock. destruct (Hclock j Hj) as [Hnum Hz].
  unfold latency_row. apply wp_bind. eapply wp_mono; [apply (wp_qdrant_latency ef _ _ queries gt10 b (engine_finds pts ef)); [done|done|]|].
  { unfold gt10. by rewrite length_columns. }
  intros r b1 (-> & Hp1 & Hb1). rewrite Hb in *. fold (times_at (reads_before c j)).
  change (total_hits _ _ _) with (found_in pts queries gt ef).
  destruct (figures_report (times_at (reads_before c j)) (found_in pts queries gt ef)) as (p & q & m & -> & Hpq); [done| |].
  { unfold times_at. by rewrite length_fmap, length_seq. }
  cbn beta iota. apply wp_bind. unfold saturated_qps. eapply wp_pool_qps.
  - apply (pool_sum_counts _ _ _ turns); [done|]. intros i Hi. destruct (Hpool i Hi) as [Hs Hf].
    refine (proj1 (wp_qdrant_worker ef _ _ dur queries i (turns i) fuel (Bench _ 0)
      (engine_finds (points (proc_world (procs ef i))) ef) _ _ Hs Hf)).
    + eapply wp_mono; [apply client_ok|]. by intros r w' (-> & _ & ->).
    + by apply LAT_N_some.
  - rewrite Hb1. fold (pool_time (reads_before c j)). set (total := 16 * _).
    destruct (rate_ok total _ Hz) as [qps Hqps]. rewrite Hqps. apply wp_bind, wp_print, wp_ret.
    cbn [b_world b_reads]. split_and!; [|done|unfold reads_before; lia].
    eexists. split; [done|]. split; [done|]. split; [apply found_in_range|]. by exists p, q, m, qps.
Qed.

(** C17: the Qdrant latency benchmark, from its environment and its files to its figures.  With
    settings that can be read, the three files in their formats, at least 2000 queries and as
    many rows of ground truth, a service in working order, polls enough for the indexing,
    workers that their clocks stop and a clock that gives numbers and moves when it should, the
    script ends having measured the collection it found, if it had enough vectors indexed, or
    one with exactly the vectors of the file; the points are the same at the end, and for each
    setting in turn it reports what {!RunProps.reports} says of the answers they give at it. *)
Theorem qdrant_latency_script_reports env conc dur files d base queries gt polls fuel procs turns (b : bench W) :
  load_settings env = Ok (conc, dur) -> 1 <= conc ->
  base_data files SIFT_DIR d base -> sift_data files SIFT_DIR queries gt ->
  (LAT_N <= length queries)%nat -> (LAT_N <= length gt)%nat ->
  is_ok (enough (length base)) = true -> (indexing (numbered base) < polls)%nat ->
  (forall ef, ef ∈ LATENCY_EF_SWEEP -> pool_stops conc dur (procs ef) turns fuel) ->
  steady_clock (b_reads b) -> steady_clock (b_reads b + 2) ->
  wp (latency_script env polls fuel files procs) b (fun r b' =>
    exists w k rows,
      measured_collection base (Z.of_nat d) (b_world b) w k /\ points (b_world b') = points w /\
      r = Ok rows /\ length rows = length LATENCY_EF_SWEEP /\
      forall j ef row, LATENCY_EF_SWEEP !! j = Some ef -> rows !! j = Some row ->
        latency_row_ok (found_in (points w) queries gt) (fun _ => 16 * Z.of_nat (pool_turns conc turns)) (b_reads b + k) j ef row).
Proof.
  intros Henv Hconc Hbase Hdata Hnq Hng Hn Hpolls Hpool Hclock0 Hclock2. destruct (load_data _ _ _ _ Hdata) as [Lq Lg].
  unfold latency_script, latency_main. rewrite Henv. apply wp_bind, wp_lift.
  read_as (load_base _ _ _ _ Hbase). read_as Lq. read_as Lg. do 3 apply wp_bind, wp_lift.
  unfold shape. rewrite (vecs_head d base) by apply Hbase. cbn [snd].
  apply wp_bind, wp_on_world. eapply wp_mono; [apply client_ok|]. intros r w1 (-> & C1 & P1). cbn beta iota.
  apply wp_bind. eapply wp_mono; [by apply (wp_measured polls base (Z.of_nat d))|].
  intros r b2 (-> & k & Hmeasured & Hk). cbn [b_world b_reads] in *. cbn beta iota.
  assert (steady_clock (b_reads b + k)) as Hclock by (destruct Hmeasured; by rewrite ?Nat.add_0_r).
  do 2 apply wp_bind, wp_print.
  eapply wp_mono; [apply (wp_map_each (fun j b' => points (b_world b') = points (b_world b2) /\ b_reads b' = reads_before (b_reads b + k) j)
    (latency_row_ok (found_in (points (b_world b2)) queries gt) (fun _ => 16 * Z.of_nat (pool_turns conc turns)) (b_reads b + k)) _ _ 0)|].
  - intros j ef b3 Hj [Hp Hb]. apply wp_latency_row; try done; [by eapply lookup_lt_Some|].
    by eapply Hpool, list_elem_of_lookup_2.
  - split; [done|]. cbn [b_world b_reads]. rewrite Hk. unfold reads_before. lia.
  - intros r b3 [(rows & -> & Hlen & Hrows) [Hp _]]. exists (b_world b2), k, rows. split_and!; [|done..].
    by apply (measured_from base (Z.of_nat d) w1).
Qed.
End LatencyScript.

(** ** Witness *)

(** Two workers a setting, on twelve vectors and the queries of the other clients; the service
    of the sweep, with a collection of another run that has nothing indexed. *)
Definition latency_base : list (list Z) := replicate 12 [0; 1065353216].
Definition latency_files : file_system := fun path =>
  if String.eqb path (SIFT_DIR +:+ "/sift_base.fvecs") then Ok (vecs_file 2 latency_base)
  else if String.eqb path (SIFT_DIR +:+ "/sift_query.fvecs") then Ok (vecs_file 2 demo_queries)
  else if String.eqb path (SIFT_DIR +:+ "/sift_groundtruth.ivecs") then Ok (vecs_file 2 demo_truth)
  else Raise (OtherError "FileNotFoundError").

Lemma latency_base_data : base_data latency_files SIFT_DIR 2 latency_base.
Proof. split; [small_vecs|done]. Qed.
Lemma latency_sift_data : sift_data latency_files SIFT_DIR demo_queries demo_truth.
Proof.
  exists 2%nat, 2%nat. split_and!; [apply demo_vecs|apply demo_vecs|done|done]; try done;
    apply (bool_decide_unpack _); by vm_compute.
Qed.

(** A clock that goes back and forth: every interval of an even number of readings is the same. *)
Definition swing_clock : Clock := fun n => if Nat.even n then f_of_Z 1 else f_of_Z 2.

Lemma swing_interval c : Nat.even c = true -> fsub (ticks (Clock := swing_clock) (S c)) (ticks (Clock := swing_clock) c) = f_of_Z 1.
Proof. intros Hc. unfold ticks, swing_clock. rewrite Nat.even_succ, <- Nat.negb_even, Hc. by vm_compute. Qed.

Lemma swing_steady c : Nat.even c = true -> steady_clock (C := swing_clock) c.
Proof.
  intros Hc j _.
  assert (forall k, Nat.even (reads_before c j + 2 * k) = true) as Heven.
  { intros k. unfold reads_before. replace (c + j * (2 * LAT_N + 2) + 2 * k)%nat with (c + 2 * (j * (LAT_N + 1) + k))%nat by lia.
    by rewrite Nat.even_add, Hc, Nat.even_mul. }
  split; [|unfold pool_time; by rewrite swing_interval].
  apply Forall_fmap, Forall_true. intros k. unfold compose, interval. by rewrite swing_interval.
Qed.

Lemma qdrant_latency_script_reports_witness :
  let w := {| mc_calls := []; mc_points := [(7, [])]; mc_wait := 1 |} in
  exists rows, outcome (latency_script (C := swing_clock) (fun key => if String.eqb key "QDRANT_CONC" then Some "2" else None) 3 3
      latency_files (fun _ => demo_procs w)) (Bench w 0) = Ok rows /\ length rows = 3%nat.
Proof.
  intros w. destruct (qdrant_latency_script_reports (C := swing_clock) (fun key => if String.eqb key "QDRANT_CONC" then Some "2" else None)
    2 (f_of_Z 3) latency_files 2 latency_base demo_queries demo_truth 3 3 (fun _ => demo_procs w) (fun _ => 2%nat) (Bench w 0))
    as (w' & k & rows & _ & _ & Hr & Hl & _).
  - by vm_compute.
  - done.
  - apply latency_base_data.
  - apply latency_sift_data.
  - unfold demo_queries. by rewrite length_replicate.
  - unfold demo_truth. by rewrite length_replicate.
  - by vm_compute.
  - cbn. lia.
  - intros ef _. apply demo_pool_stops.
  - by apply swing_steady.
  - by apply swing_steady.
  - exists rows. split; [exact Hr|exact Hl].
Defined.
