(* ===== verification/PrintProps.v ===== *)
(** * What the benchmark scripts print

    Whatever their clients and servers do, the scripts print what they have measured, and a
    table they print reads back as the texts of its figures. *)

From S2P Require Import Prelude Bytes Text Float64 Accuracy Env F32 Numpy Sift Net Report Bench GrpcStubs.
From S2P Require TcpBench GrpcClient Qdrant Redis Hnswlib.

(** ** Output, as a relation between a computation's outcome and the lines it prints *)

Section Says.
Context {W : Type} {C : Clock}.

(** Whatever the state: the lines [m] adds to the output, and its outcome, are related by [P]. *)
Definition says {A} (m : M (bench W) A) (P : result A -> list string -> Prop) : Prop :=
  forall b, exists d, b_out (after m b) = b_out b ++ d /\ P (outcome m b) d.

(** Nothing is printed, and the outcome may be any. *)
Definition silent {A} (m : M (bench W) A) : Prop := says m (fun _ d => d = []).

Lemma says_bind {A B} (m : M (bench W) A) (f : A -> M (bench W) B) P1 (P : result B -> list string -> Prop) :
  says m P1 -> (forall a d1, P1 (Ok a) d1 -> says (f a) (fun r d2 => P r (d1 ++ d2))) ->
  (forall e d, P1 (Raise e) d -> P (Raise e) d) -> says (a ← m; f a) P.
Proof.
  intros Hm Hf He b. destruct (Hm b) as (d1 & Hd1 & HP1). unfold says, outcome, after, mbind, M_bind in *.
  destruct (m b) as [[a|e] b1]; cbn [fst snd] in *; [|by exists d1; auto].
  destruct (Hf a d1 HP1 b1) as (d2 & Hd2 & HP). exists (d1 ++ d2). by rewrite Hd2, Hd1, app_assoc.
Qed.

(** What follows a silent computation. *)
Lemma says_then {A B} (m : M (bench W) A) (f : A -> M (bench W) B) (P : result B -> list string -> Prop) :
  silent m -> (forall a, says (f a) P) -> (forall e, P (Raise e) []) -> says (a ← m; f a) P.
Proof.
  intros Hm Hf He. eapply says_bind; [exact Hm| |].
  - intros a d1 ->. apply Hf.
  - intros e d ->. apply He.
Qed.

(** What follows a line. *)
Lemma says_print {B} line (f : unit -> M (bench W) B) (P : result B -> list string -> Prop) :
  says (f tt) (fun r d => P r (line :: d)) -> says (u ← print line; f u) P.
Proof.
  intros Hf b. destruct (Hf (BenchOut (b_world b) (b_reads b) (b_out b ++ [line]))) as (d & Hd & HP).
  exists (line :: d). split; [|exact HP]. unfold after, mbind, M_bind in *. cbn in *. by rewrite Hd, <- app_assoc.
Qed.

Lemma says_ret {A} (a : A) (P : result A -> list string -> Prop) : P (Ok a) [] -> says (mret a) P.
Proof. intros HP b. exists []. split; [by rewrite app_nil_r|done]. Qed.
Lemma says_lift {A} (r : result A) (P : result A -> list string -> Prop) : P r [] -> says (lift_result r) P.
Proof. intros HP b. exists []. split; [by rewrite app_nil_r|done]. Qed.
Lemma says_mono {A} (m : M (bench W) A) (P Q : result A -> list string -> Prop) :
  says m P -> (forall r d, P r d -> Q r d) -> says m Q.
Proof. intros Hm HPQ b. destruct (Hm b) as (d & Hd & HP). exists d. by auto. Qed.

(** The computations of {!Bench} that print nothing. *)
Lemma silent_ret {A} (a : A) : silent (mret a).
Proof. by apply says_ret. Qed.
Lemma silent_lift {A} (r : result A) : silent (lift_result r).
Proof. by apply says_lift. Qed.
Lemma silent_clock : silent clock.
Proof. intros b. exists []. split; [by rewrite app_nil_r|done]. Qed.
Lemma silent_on_world {A} (m : M W A) : silent (on_world m).
Proof. intros b. exists []. split; [|done]. unfold after, on_world. destruct (m (b_world b)). by rewrite app_nil_r. Qed.
Lemma silent_bind {A B} (m : M (bench W) A) (f : A -> M (bench W) B) :
  silent m -> (forall a, silent (f a)) -> silent (a ← m; f a).
Proof. intros Hm Hf. by apply says_then. Qed.
End Says.

Create HintDb silent.
#[export] Hint Resolve silent_ret silent_lift silent_clock silent_on_world silent_bind : silent.

Section Quiet.
Context {W : Type} {C : Clock}.

Lemma silent_timed {A} (m : M W A) : silent (timed m).
Proof. unfold timed. auto 10 with silent. Qed.

Lemma silent_timed_queries query truth todo lats hits : silent (W := W) (timed_queries query truth todo lats hits).
Proof.
  revert lats hits. induction todo as [|i todo IH]; intros lats hits; cbn [timed_queries]; [apply silent_ret|].
  apply silent_bind; [apply silent_timed|]. intros [ids t]. apply silent_bind; [apply silent_lift|]. intros tr. apply IH.
Qed.

Lemma silent_pool_qps conc procs worker : silent (W := W) (pool_qps conc procs worker).
Proof. unfold pool_qps. auto 10 with silent. Qed.

(** A loop that prints for each of its elements. *)
Lemma says_map_each {X Y} (f : X -> M (bench W) Y) line xs :
  (forall x, says (f x) (fun r d => forall y, r = Ok y -> d = [line y])) ->
  says (map_each f xs) (fun r d => forall ys, r = Ok ys -> d = line <$> ys).
Proof.
  intros Hf. induction xs as [|x xs IH]; cbn [map_each].
  - apply says_ret. by intros ys [= <-].
  - eapply says_bind; [apply Hf| |by intros].
    intros y d1 Hd1. rewrite (Hd1 y eq_refl). eapply says_bind; [apply IH| |by intros].
    intros ys d2 Hd2. rewrite (Hd2 ys eq_refl). apply says_ret. intros ? [= <-]. by rewrite app_nil_r.
Qed.

Lemma says_sweep_row w query truth n ef :
  says (W := W) (sweep_row w query truth n ef) (fun r d => forall y, r = Ok y -> d = [sweep_line w y]).
Proof.
  unfold sweep_row. do 5 (apply says_then; [auto with silent|intros ?|done]). apply says_print, says_ret.
  by intros y [= <-].
Qed.
End Quiet.
#[export] Hint Resolve silent_timed silent_timed_queries silent_pool_qps : silent.

(** ** Latency scripts *)

(** A line of the latency table reads back as its figures, under their names. *)
Definition reads_back (line : string) (ef : Z) (fig : float * float * float * float * float) : Prop :=
  let '(r, a, b, m, qps) := fig in
  zip (str_words latency_header) (str_words line) =
    [("ef", dec ef); ("recall", fmt_fixed 4 r); ("p50(us)", fmt_fixed 1 a); ("p99(us)", fmt_fixed 1 b);
     ("mean(us)", fmt_fixed 1 m); ("satQPS", fmt_fixed 0 qps)].

Lemma latency_line_reads_back ef r a b m qps : reads_back (latency_line ef r a b m qps) ef (r, a, b, m, qps).
Proof. unfold reads_back. by rewrite latency_line_words. Qed.

(** What a script of one setting prints once its data are read: its banner, and once it has measured
    the header and the line of its figures. *)
Definition prints_figures (banner : string) (r : result (float * float * float * float * float)) (d : list string) : Prop :=
  match r with
  | Ok fig => exists line, d = [banner; latency_header; line] /\ reads_back line 64 fig
  | Raise _ => d = [banner]
  end.

(** A script that reads something first: if it cannot, it raises for that and prints nothing. *)
Definition once_read {T A} (read : result T) (P : T -> result A -> list string -> Prop) (r : result A) (d : list string) : Prop :=
  match read with Ok x => P x r d | Raise e => r = Raise e /\ d = [] end.

Lemma says_once_read {W T A} (read : result T) (f : T -> M (bench W) A) P :
  (forall x, read = Ok x -> says (f x) (P x)) -> says (x ← lift_result read; f x) (once_read read P).
Proof.
  intros Hf. destruct read as [x|e].
  - intros b. destruct (Hf x eq_refl b) as (d & Hd & HP). by exists d.
  - intros b. exists []. by rewrite app_nil_r.
Qed.

(** The end of the two scripts. *)
Lemma says_figures {W} {C : Clock} banner (run : M (bench W) (float * float * float * float)) pool :
  silent run -> silent pool ->
  says ('(r, a, b, m) ← run; qps ← pool; _ ← print latency_header; _ ← print (latency_line 64 r a b m qps); mret (r, a, b, m, qps))
    (fun r d => prints_figures banner r (banner :: d)).
Proof.
  intros Hrun Hpool. apply says_then; [done| |done]. intros [[[r a] b] m]. apply says_then; [done| |done].
  intros qps. do 2 apply says_print. apply says_ret. eexists. split; [done|]. apply latency_line_reads_back.
Qed.

Section Clients.
Context {P : Peer} {NP : Numpy} {C : Clock}.

Lemma silent_tcp_latency ADDR queries gt : silent (TcpBench.latency ADDR queries gt).
Proof.
  unfold TcpBench.latency. do 2 (apply silent_bind; [auto with silent|intros ?]).
  apply silent_bind; [auto with silent|intros [lats hits]]. auto with silent.
Qed.

Lemma tcp_says st fuel files procs :
  says (TcpBench.main st fuel files procs)
    (once_read (load_fvecs files (SIFT st +:+ "/sift_query.fvecs")) (fun _ =>
     once_read (load_ivecs files (SIFT st +:+ "/sift_groundtruth.ivecs")) (fun _ =>
     prints_figures (TcpBench.banner st)))).
Proof.
  unfold TcpBench.main. do 2 (apply says_once_read; intros ? _). apply says_print, says_figures.
  - apply silent_tcp_latency.
  - unfold TcpBench.saturated_qps. auto with silent.
Qed.

Context {W S : Type} {G : Grpc W S} {PB : Codec}.

Lemma silent_grpc_latency ADDR queries gt : silent (GrpcClient.latency ADDR queries gt).
Proof.
  unfold GrpcClient.latency. do 2 (apply silent_bind; [auto with silent|intros ?]).
  apply silent_bind; [auto with silent|intros [lats hits]]. auto with silent.
Qed.

Lemma grpc_says st fuel files procs :
  says (GrpcClient.main st fuel files procs)
    (once_read (GrpcClient.read_fvecs files (SIFT st +:+ "/sift_query.fvecs")) (fun _ =>
     once_read (GrpcClient.read_ivecs files (SIFT st +:+ "/sift_groundtruth.ivecs")) (fun _ =>
     prints_figures (GrpcClient.banner st)))).
Proof.
  unfold GrpcClient.main. do 2 (apply says_once_read; intros ? _). apply says_print, says_figures.
  - apply silent_grpc_latency.
  - unfold GrpcClient.saturated_qps. auto with silent.
Qed.
End Clients.

Section Service.
Context {V : Type} {Q : Qdrant.Qdrant V} {NP : Numpy} {C : Clock}.

Lemma silent_qdrant_latency queries gt ef : silent (Qdrant.latency queries gt ef).
Proof. unfold Qdrant.latency. apply silent_bind; [auto with silent|intros [lats hits]]. auto with silent. Qed.

(** The Qdrant script says whether it found its collection. *)
Definition building_line (size : string) : string := cat ["[qdrant] building "; size; " (M=16, efC=200)..."].
Definition collection_notice (size : string) (d : list string) : Prop :=
  d = [cat ["[qdrant] reusing existing collection ("; size; ")"]] \/
  exists t, d = [building_line size; cat ["[qdrant] built in "; fmt_fixed 1 t; "s"]].

Lemma says_reuse_or_build polls base dim :
  let size := dec (Z.of_nat (length base)) +:+ "x" +:+ dec dim in
  says (Qdrant.reuse_or_build polls base dim) (fun r d =>
    match r with Ok _ => collection_notice size d | Raise _ => d = [] \/ d = [building_line size] end).
Proof.
  unfold Qdrant.reuse_or_build. apply says_then; [auto with silent| |by left]. intros [].
  - intros b. eexists [_]. split; [done|]. by left.
  - apply says_print. do 3 (apply says_then; [auto with silent|intros ?|by right]). intros b. eexists [_]. split; [done|].
    right. by eexists.
Qed.

Definition row_reads_back (row : Z * (float * float * float * float) * float) (line : string) : Prop :=
  let '(ef, (r, a, b, m), qps) := row in reads_back line ef (r, a, b, m, qps).

Lemma says_latency_row conc dur fuel queries gt procs ef :
  says (Qdrant.latency_row conc dur fuel queries gt procs ef) (fun r d =>
    match r with Ok row => exists line, d = [line] /\ row.1.1 = ef /\ row_reads_back row line | Raise _ => d = [] end).
Proof.
  unfold Qdrant.latency_row. apply says_then; [apply silent_qdrant_latency| |done]. intros [[[r a] b] m].
  apply says_then; [unfold Qdrant.saturated_qps; auto with silent|intros qps|done]. apply says_print, says_ret.
  eexists. split_and!; [done|done|apply latency_line_reads_back].
Qed.

(** The settings measured, in turn, and the lines of their rows: all of them unless one failed. *)
Definition rows_printed (efs : list Z) (r : result (list (Z * (float * float * float * float) * float))) (lines : list string) : Prop :=
  exists rows, (fun row => row.1.1) <$> rows = take (length rows) efs /\ Forall2 row_reads_back rows lines /\
    match r with Ok measured => rows = measured /\ length rows = length efs | Raise _ => (length rows < length efs)%nat end.

Lemma says_rows conc dur fuel queries gt procs efs :
  says (map_each (Qdrant.latency_row conc dur fuel queries gt procs) efs) (rows_printed efs).
Proof.
  induction efs as [|ef efs IH]; cbn [map_each].
  - apply says_ret. exists []. split_and!; [done|constructor|done|done].
  - eapply says_bind; [apply says_latency_row| |].
    + intros row d1 (line & -> & He & Hl). eapply says_bind; [apply IH| |].
      * intros rows d2 (rows' & Hefs & Hlines & -> & Hn). apply says_ret. exists (row :: rows). rewrite app_nil_r. cbn.
        split_and!; [by rewrite He, Hefs|by constructor|done|by rewrite Hn].
      * intros e d2 (rows & Hefs & Hlines & Hn). exists (row :: rows). cbn.
        split_and!; [by rewrite He, Hefs|by constructor|lia].
    + intros e d1 ->. exists []. split_and!; [done|constructor|cbn; lia].
Qed.

(** What the script prints once its data are read.  When it fails, that is before it knows the
    collection, while it builds it, or while it measures. *)
Definition prints_rows (conc : Z) (dur : float) (size : string)
    (r : result (list (Z * (float * float * float * float) * float))) (d : list string) : Prop :=
  (exists notice lines, d = notice ++ Qdrant.latency_banner conc dur :: latency_header :: lines /\
     collection_notice size notice /\ rows_printed Qdrant.LATENCY_EF_SWEEP r lines) \/
  is_ok r = false /\ (d = [] \/ d = [building_line size]).

Lemma qdrant_says conc dur polls fuel files procs :
  says (Qdrant.latency_main conc dur polls fuel files procs)
    (once_read (Qdrant.read_fvecs files (SIFT_DIR +:+ "/sift_base.fvecs")) (fun base =>
     once_read (Qdrant.read_fvecs files (SIFT_DIR +:+ "/sift_query.fvecs")) (fun _ =>
     once_read (Qdrant.read_ivecs files (SIFT_DIR +:+ "/sift_groundtruth.ivecs")) (fun _ =>
     prints_rows conc dur (dec (Z.of_nat (length base)) +:+ "x" +:+ dec (Qdrant.shape base).2))))).
Proof.
  unfold Qdrant.latency_main. do 3 (apply says_once_read; intros ? _).
  apply says_then; [auto with silent|intros ?|by right; auto].
  eapply says_bind; [apply says_reuse_or_build| |by intros e d Hd; right].
  intros [] notice Hn. do 2 apply says_print. eapply says_mono; [apply says_rows|].
  intros r lines Hl. left. by exists notice, lines.
Qed.

(** ** Sweeps *)

(** The rows of a sweep, and the lines that read back as them. *)
Definition prints_sweep (w : nat) (rows : list (Z * float * float)) (lines : list string) : Prop :=
  lines = sweep_line w <$> rows /\
  Forall2 (fun '(ef, r, qps) line => str_words line = [dec ef; fmt_fixed 4 r; fmt_fixed 0 qps]) rows lines.

Lemma sweep_prints w rows : prints_sweep w rows (sweep_line w <$> rows).
Proof. split; [done|]. induction rows as [|[[ef r] qps] rows IH]; constructor; [apply sweep_line_words|done]. Qed.

Lemma qdrant_bench_says SQ8 polls files :
  says (Qdrant.bench_main SQ8 polls files) (fun r d => forall n dim build rate rows, r = Ok (n, dim, build, rate, rows) ->
    exists lines, d = Qdrant.config_text SQ8 :: "[mem-marker] index ready — snapshot docker stats now" ::
        Qdrant.build_text n dim build rate :: sweep_header 20 "QPS(svc round-trip)" :: lines /\ prints_sweep 20 rows lines).
Proof.
  unfold Qdrant.bench_main. do 3 (apply says_then; [auto with silent|intros ?|done]). destruct (Qdrant.shape _) as [n dim].
  do 3 (apply says_then; [auto with silent|intros ?|done]). apply says_print.
  do 4 (apply says_then; [auto with silent|intros ?|done]). apply says_print.
  apply says_then; [auto with silent|intros rate|done]. do 2 apply says_print.
  eapply says_bind; [apply says_map_each; intros; apply says_sweep_row| |by intros].
  intros rows d Hd. rewrite (Hd rows eq_refl). apply says_ret. intros ? ? ? ? ? [= <- <- <- <- <-].
  exists (sweep_line 20 <$> rows). rewrite app_nil_r. split; [done|apply sweep_prints].
Qed.
End Service.

Section Store.
Context {V : Type} {R : Redis.Redis V} {NP : Numpy} {C : Clock}.

Lemma redis_says polls files :
  says (Redis.main polls files) (fun r d => forall n dim loaded lr build br rows,
    r = Ok ((n, dim), (loaded, lr), (build, br), rows) ->
    exists lines, d = Redis.load_text n loaded lr :: "[mem-marker] index ready — snapshot `docker stats redisstack` now" ::
        Redis.build_text n dim build br :: sweep_header 20 "QPS(svc round-trip)" :: lines /\ prints_sweep 20 rows lines).
Proof.
  unfold Redis.main. do 11 (apply says_then; [auto with silent|intros ?|done]). apply says_print.
  do 2 (apply says_then; [auto with silent|intros ?|done]). apply says_print.
  apply says_then; [auto with silent|intros br|done]. do 2 apply says_print.
  eapply says_bind; [apply says_map_each; intros; apply says_sweep_row| |by intros].
  intros rows d Hd. rewrite (Hd rows eq_refl). apply says_ret. intros ? ? ? ? ? ? ? [= <- <- <- <- <- <- <-].
  exists (sweep_line 20 <$> rows). rewrite app_nil_r. split; [done|apply sweep_prints].
Qed.
End Store.

Section Index.
Context {V : Type} {X : Hnswlib.Hnswlib V} {NP : Numpy} {C : Clock}.

Lemma says_label_row query gt ef :
  says (Hnswlib.sweep_row query gt ef) (fun r d => forall y, r = Ok y -> d = [sweep_line 12 y]).
Proof.
  unfold Hnswlib.sweep_row. do 7 (apply says_then; [auto with silent|intros ?|done]). apply says_print, says_ret.
  by intros y [= <-].
Qed.

Lemma hnswlib_says files :
  says (Hnswlib.main files) (fun r d => forall n dim build rate index_rss rss_after rss_base rows,
    r = Ok ((n, dim), (build, rate), (index_rss, rss_after, rss_base), rows) ->
    exists lines, d = Hnswlib.build_text n dim build rate :: Hnswlib.memory_text index_rss rss_after rss_base ::
        sweep_header 12 "QPS(1-thread)" :: lines /\ prints_sweep 12 rows lines).
Proof.
  unfold Hnswlib.main. do 11 (apply says_then; [auto with silent|intros ?|done]). do 3 apply says_print.
  eapply says_bind; [apply says_map_each; intros; apply says_label_row| |by intros].
  intros rows d Hd. rewrite (Hd rows eq_refl). apply says_ret. intros ? ? ? ? ? ? ? ? [= <- <- <- <- <- <- <- <-].
  exists (sweep_line 12 <$> rows). rewrite app_nil_r. split; [done|apply sweep_prints].
Qed.
End Index.

(** ** The scripts *)

Section Latency.
Context {P : Peer} {NP : Numpy} {C : Clock} {W S : Type} {G : Grpc W S} {PB : Codec} {V : Type} {Q : Qdrant.Qdrant V}.

(** C22: the latency scripts print what they measured, and only that, and nothing before their data
    are read.  Whatever their clients and servers do, each script raises and prints nothing when
    its stubs, its settings or one of its files cannot be read.  Once they are, the TCP and gRPC
    scripts print their banner alone when the measurement fails, and otherwise their banner, the
    header and one line that, cut at its blanks, gives under each name of the header the text of
    that figure.  The Qdrant script prints the notice of its collection, its banner, the header,
    and such a line for each setting of its sweep in turn, as many as it has measured, all of them
    if it returns; or, failing before that, nothing or that it began to build. *)
Theorem latency_scripts_print env fuel files procs validate version lower gprocs polls qprocs :
  says (TcpBench.script env fuel files procs)
    (once_read (TcpBench.load_settings env) (fun st =>
     once_read (load_fvecs files (SIFT st +:+ "/sift_query.fvecs")) (fun _ =>
     once_read (load_ivecs files (SIFT st +:+ "/sift_groundtruth.ivecs")) (fun _ =>
     prints_figures (TcpBench.banner st))))) /\
  says (GrpcClient.script validate version lower env fuel files gprocs)
    (once_read (import_vector_pb2 validate) (fun _ =>
     once_read (import_vector_pb2_grpc version lower) (fun _ =>
     once_read (GrpcClient.load_settings env) (fun st =>
     once_read (GrpcClient.read_fvecs files (SIFT st +:+ "/sift_query.fvecs")) (fun _ =>
     once_read (GrpcClient.read_ivecs files (SIFT st +:+ "/sift_groundtruth.ivecs")) (fun _ =>
     prints_figures (GrpcClient.banner st))))))) /\
  says (Qdrant.latency_script env polls fuel files qprocs)
    (once_read (Qdrant.load_settings env) (fun st =>
     once_read (Qdrant.read_fvecs files (SIFT_DIR +:+ "/sift_base.fvecs")) (fun base =>
     once_read (Qdrant.read_fvecs files (SIFT_DIR +:+ "/sift_query.fvecs")) (fun _ =>
     once_read (Qdrant.read_ivecs files (SIFT_DIR +:+ "/sift_groundtruth.ivecs")) (fun _ =>
     prints_rows st.1 st.2 (dec (Z.of_nat (length base)) +:+ "x" +:+ dec (Qdrant.shape base).2)))))).
Proof.
  split_and!.
  - apply says_once_read. intros st _. apply tcp_says.
  - unfold GrpcClient.script. do 2 (apply says_once_read; intros [] _). apply says_once_read. intros st _. apply grpc_says.
  - apply says_once_read. intros [conc dur] _. apply qdrant_says.
Qed.
End Latency.

Section Sweep.
Context {NP : Numpy} {C : Clock}.
Context {W : Type} {X : Hnswlib.Hnswlib W} {V : Type} {R : Redis.Redis V} {U : Type} {Q : Qdrant.Qdrant U}.

(** C23: the sweeps print what they measured.  A sweep that ends has printed what it says of its
    build, the header, and a line for each of its rows, in order, which reads back as the row's
    setting, its recall to four decimals and its rate. *)
Theorem sweep_scripts_print env polls files :
  says (Hnswlib.main files) (fun r d => forall n dim build rate index_rss rss_after rss_base rows,
    r = Ok ((n, dim), (build, rate), (index_rss, rss_after, rss_base), rows) ->
    exists lines, d = Hnswlib.build_text n dim build rate :: Hnswlib.memory_text index_rss rss_after rss_base ::
        sweep_header 12 "QPS(1-thread)" :: lines /\ prints_sweep 12 rows lines) /\
  says (Redis.main polls files) (fun r d => forall n dim loaded lr build br rows,
    r = Ok ((n, dim), (loaded, lr), (build, br), rows) ->
    exists lines, d = Redis.load_text n loaded lr :: "[mem-marker] index ready — snapshot `docker stats redisstack` now" ::
        Redis.build_text n dim build br :: sweep_header 20 "QPS(svc round-trip)" :: lines /\ prints_sweep 20 rows lines) /\
  says (Qdrant.bench_script env polls files) (fun r d => forall n dim build rate rows, r = Ok (n, dim, build, rate, rows) ->
    exists lines, d = Qdrant.config_text (Qdrant.load_SQ8 env) :: "[mem-marker] index ready — snapshot docker stats now" ::
        Qdrant.build_text n dim build rate :: sweep_header 20 "QPS(svc round-trip)" :: lines /\ prints_sweep 20 rows lines).
Proof. split_and!; [apply hnswlib_says|apply redis_says|apply qdrant_bench_says]. Qed.
End Sweep.

(** What a line looks like. *)
Example a_latency_line :
  latency_line 64 (f_of_lit 0.9871%lit) (f_of_lit 812.25%lit) (f_of_lit 1930.5%lit) (f_of_lit 871.04%lit) (f_of_Z 15023) =
  "64     0.9871    812.2      1930.5     871.0      15023       ".
Proof. by vm_compute. Qed.

(** ** The recall that is read *)

(** The recall of a line, to its four decimals, is a nearest one to [hits / (10 n)]. *)
Definition nearest_recall (line : string) (hits n : Z) : Prop :=
  exists u, str_words line !! 1%nat = Some (fixed_string 4 u) /\
    Z.abs (2 * (u * (n * RECALL_K) - 10 ^ 4 * hits)) <= n * RECALL_K.

Lemma recall_nearest hits n r :
  0 <= hits <= n * RECALL_K -> n < 2 ^ 32 -> recall hits n RECALL_K = Ok r ->
  exists u, fmt_fixed 4 r = fixed_string 4 u /\ Z.abs (2 * (u * (n * RECALL_K) - 10 ^ 4 * hits)) <= n * RECALL_K.
Proof.
  intros Hh Hn. unfold recall, py_int_div, RECALL_K in *. destruct (n * 10) as [|d|d] eqn:Ed; [done| |lia].
  intros [= <-]. apply (fmt_ratio_nearest 4); [done|]. change (10 ^ Z.of_nat 4) with 10000. lia.
Qed.

Lemma latency_line_nearest hits n r ef a b m qps :
  0 <= hits <= n * RECALL_K -> n < 2 ^ 32 -> recall hits n RECALL_K = Ok r -> nearest_recall (latency_line ef r a b m qps) hits n.
Proof.
  intros Hh Hn Hr. destruct (recall_nearest hits n r Hh Hn Hr) as (u & Hu & Hle). exists u. by rewrite latency_line_words, Hu.
Qed.
Lemma sweep_line_nearest hits n r w ef qps :
  0 <= hits <= n * RECALL_K -> n < 2 ^ 32 -> recall hits n RECALL_K = Ok r -> nearest_recall (sweep_line w (ef, r, qps)) hits n.
Proof.
  intros Hh Hn Hr. destruct (recall_nearest hits n r Hh Hn Hr) as (u & Hu & Hle). exists u. by rewrite sweep_line_words, Hu.
Qed.

Section Recall.
Context {W : Type} {C : Clock}.

(** What a sweep counts is at most the ids of its ground truth. *)
Lemma count_hits_range (query : nat -> M W (list Z)) truth todo hits (w : W) h :
  (forall i row, truth i = Ok row -> (length row <= 10)%nat) ->
  outcome (count_hits query truth todo hits) w = Ok h -> hits <= h <= hits + Z.of_nat (length todo) * RECALL_K.
Proof.
  intros Ht. revert hits w. induction todo as [|i todo IH]; intros hits w; cbn [count_hits length].
  - intros [= <-]. unfold RECALL_K. lia.
  - unfold outcome, mbind, M_bind in *. destruct (query i w) as [[ids|e] w1]; [|done].
    unfold lift_result. destruct (truth i) as [tr|e] eqn:Htr; [|done]. intros Hh. apply IH in Hh.
    pose proof (common_range ids tr). pose proof (Ht i tr Htr). unfold RECALL_K in *. lia.
Qed.

Lemma label_hits_range labels gt todo h :
  (forall i row, py_item gt i = Ok row -> (length row <= 10)%nat) -> Hnswlib.label_hits labels gt todo = Ok h ->
  0 <= h <= Z.of_nat (length todo) * RECALL_K.
Proof.
  intros Ht. revert h. induction todo as [|i todo IH]; intros h; cbn [Hnswlib.label_hits length].
  - intros [= <-]. unfold RECALL_K. lia.
  - destruct (py_item labels _) as [l|]; [|done]. destruct (py_item gt _) as [g|] eqn:Hg; [|done]. cbn [mbind result_bind].
    destruct (Hnswlib.label_hits labels gt todo) as [rest|]; [|done]. intros [= <-].
    pose proof (common_range l g). pose proof (Ht _ g Hg). specialize (IH rest eq_refl). unfold RECALL_K in *. lia.
Qed.

(** The row of [hnswlib_bench.py]. *)
Lemma label_row_nearest {V} {X : Hnswlib.Hnswlib V} (query gt : list (list Z)) ef (b : bench V) row :
  (forall i row, py_item gt i = Ok row -> (length row <= 10)%nat) -> Z.of_nat (length query) < 2 ^ 32 ->
  outcome (Hnswlib.sweep_row query gt ef) b = Ok row ->
  exists labels hits line,
    outcome (_ ← Hnswlib.set_ef ef; Hnswlib.knn_labels query Hnswlib.K 1) (b_world b) = Ok labels /\
    Hnswlib.label_hits labels gt (seq 0 (length query)) = Ok hits /\
    b_out (after (Hnswlib.sweep_row query gt ef) b) = b_out b ++ [line] /\ nearest_recall line hits (Z.of_nat (length query)).
Proof.
  intros Ht Hn. unfold Hnswlib.sweep_row, outcome, after, mbind, M_bind, clock, on_world, print, lift_result.
  destruct (Hnswlib.set_ef ef (b_world b)) as [[[]|e] w1]; [|done]. cbn [b_world b_reads b_out].
  destruct (Hnswlib.knn_labels query Hnswlib.K 1 w1) as [[labels|e] w2] eqn:Hk; [|done]. cbn [b_world b_reads b_out fst snd].
  destruct (Hnswlib.label_hits labels gt _) as [hits|e] eqn:Hh; [|done].
  destruct (recall hits _ Hnswlib.K) as [r|e] eqn:Hr; [|done].
  destruct (py_fdiv _ _) as [qps|e]; [|done]. cbn [b_out fst snd]. intros _.
  exists labels, hits, (sweep_line 12 (ef, r, qps)). split_and!; [done|done|done|].
  apply sweep_line_nearest; [|done|done]. apply label_hits_range in Hh; [|done]. by rewrite length_seq in Hh.
Qed.

(** C28: the recall that is read is the recall that was measured.  In the line that a sweep
    prints for a setting, over fewer than [2 ^ 32] queries with at most ten true ids each, the
    recall is, to its four decimals, a nearest one to the exact quotient of the true ids found
    by that setting's queries over ten for each query, although it was rounded to binary64 in
    between; and so it is in the lines of [hnswlib_bench.py], which asks its queries in one call,
    and in the line of a latency run, over 20000. *)
Theorem printed_recall w (query : Z -> nat -> M W (list Z)) truth n ef (b : bench W) :
  (forall i row, truth i = Ok row -> (length row <= 10)%nat) -> Z.of_nat n < 2 ^ 32 ->
  (forall row, outcome (sweep_row w query truth n ef) b = Ok row ->
    exists hits line, outcome (count_hits (query ef) truth (seq 0 n) 0) (b_world b) = Ok hits /\
      b_out (after (sweep_row w query truth n ef) b) = b_out b ++ [line] /\ nearest_recall line hits (Z.of_nat n)) /\
  (forall V (X : Hnswlib.Hnswlib V) (queries gt : list (list Z)) (bv : bench V) row,
    (forall i row, py_item gt i = Ok row -> (length row <= 10)%nat) -> Z.of_nat (length queries) < 2 ^ 32 ->
    outcome (Hnswlib.sweep_row queries gt ef) bv = Ok row ->
    exists labels hits line,
      outcome (_ ← Hnswlib.set_ef ef; Hnswlib.knn_labels queries Hnswlib.K 1) (b_world bv) = Ok labels /\
      Hnswlib.label_hits labels gt (seq 0 (length queries)) = Ok hits /\
      b_out (after (Hnswlib.sweep_row queries gt ef) bv) = b_out bv ++ [line] /\
      nearest_recall line hits (Z.of_nat (length queries))) /\
  (forall lats hits r p50 p99 mean qps, 0 <= hits <= 20000 -> figures lats hits = Ok (r, p50, p99, mean) ->
    nearest_recall (latency_line 64 r p50 p99 mean qps) hits 2000).
Proof.
  intros Ht Hn. split_and!; [|intros V X queries gt bv row; by apply label_row_nearest|].
  - intros row. unfold sweep_row, outcome, after, mbind, M_bind, clock, on_world, print, lift_result. cbn [b_world].
    destruct (count_hits (query ef) truth (seq 0 n) 0 (b_world b)) as [[hits|e] w1] eqn:Hc; [|done].
    cbn [b_world b_reads b_out fst snd].
    destruct (recall hits (Z.of_nat n) RECALL_K) as [r|e] eqn:Hr; [|done].
    destruct (py_fdiv _ _) as [qps|e]; [|done]. cbn [b_out fst snd]. intros _. exists hits, (sweep_line w (ef, r, qps)).
    split; [done|]. split; [done|]. apply sweep_line_nearest; [|done|done].
    pose proof (count_hits_range (query ef) truth (seq 0 n) 0 (b_world b) hits Ht) as Hrange.
    rewrite length_seq in Hrange. unfold outcome in Hrange. rewrite Hc in Hrange. specialize (Hrange eq_refl). lia.
  - intros lats hits r a p m qps Hh. unfold figures. change (Z.of_nat LAT_N) with 2000.
    destruct (recall hits 2000 RECALL_K) as [r'|e] eqn:Hr; [|done]. cbn [mbind result_bind].
    destruct (p50 _); [|done]. cbn [mbind result_bind]. destruct (p99 _); [|done]. cbn [mbind result_bind].
    destruct (mean _); [|done]. cbn [mbind result_bind]. intros [= <- <- <- <-].
    apply latency_line_nearest; [unfold RECALL_K; lia|lia|done].
Qed.
End Recall.

(** Two queries of which half the true ids are found, on a clock that ticks. *)
Lemma printed_recall_witness :
  let row := sweep_row (C := fun k => f_of_Z (Z.of_nat k)) 10 (fun _ i => mret [Z.of_nat i]) (fun _ => Ok [0; 1; 2; 3; 4]) 2 16 in
  exists hits line, outcome (count_hits (fun i => mret [Z.of_nat i]) (fun _ => Ok [0; 1; 2; 3; 4]) (seq 0 2) 0) tt = Ok hits /\
    b_out (after row (Bench tt 0)) = [line] /\ nearest_recall line hits 2.
Proof.
  refine (proj1 (printed_recall (C := fun k => f_of_Z (Z.of_nat k)) 10 (fun _ i => mret [Z.of_nat i])
    (fun _ => Ok [0; 1; 2; 3; 4]) 2 16 (Bench tt 0) _ _) _ _).
  - intros i row [= <-]. cbn. lia.
  - lia.
  - by vm_compute.
Defined.
