(* ===== verification/PoolProps.v ===== *)
(** * What the pools guarantee when their workers run at the same time

    {!Pool} says what holds of every order of the steps of a pool's workers.  Here it is applied
    to the workers of [rostam_py_client.py], [rostam_grpc_client.py] and
    [qdrant_latency_qps.py], against one server whose state may change with each request it
    answers. *)

From stdpp Require Import relations.
From S2P Require Import Prelude Bytes Text Float64 FloatOrder Env F32 Numpy Sift Net TcpClient Bench Pool GrpcStubs GrpcRef.
From S2P Require TcpBench TcpProps GrpcClient GrpcProps Qdrant SweepProps.
#[local] Open Scope Z_scope.

(** A worker is its program.  The steps of a worker that runs alone, from its connection to
    its end, lead to what the program of the scripts' workers returns, on the connection and
    the server it leaves, after as many readings of the clock, whether it returns its count or
    raises; unless the program is not given the turns it needs. *)
Theorem worker_alone {S L H} (open : M (L * S) H) op close DUR (C : Clock) wid fuel l s :
  let '(r, b) := qps_worker open op close DUR fuel wid (Bench (l, s) 0) in
  r <> out_of_fuel ->
  rtc (solo_step open op close DUR C wid) (Worker Starting l 0, s)
    (Worker (Finished r) (b_world b).1 (b_reads b), (b_world b).2).
Proof. apply (solo_runs open op close DUR C wid fuel (Bench (l, s) 0)). Qed.

(** A program [run] that a worker is in a part of its world, from the connection [l] and the server
    [s]: the worker alone does what the program does. *)
Definition alone_runs {V S L H} (get : L * S -> V) (set : V -> L * S -> L * S) (open : M (L * S) H) op close DUR (C : Clock)
    (wid : nat) (run : M (bench V) Z) (l : L) (s : S) : Prop :=
  let '(r, b) := run (Bench (get (l, s)) 0) in
  r <> out_of_fuel ->
  rtc (solo_step open op close DUR C wid) (Worker Starting l 0, s)
    (Worker (Finished r) (set (b_world b) (l, s)).1 (b_reads b), (set (b_world b) (l, s)).2).

Lemma focused_alone {V S L H} get set (open : M (L * S) H) op close DUR (C : Clock) wid fuel (run : M (bench V) Z) l s :
  set (get (l, s)) (l, s) = (l, s) ->
  focused set run (qps_worker open op close DUR fuel wid) -> alone_runs get set open op close DUR C wid run l s.
Proof.
  intros Hset Hf. pose proof (worker_alone open op close DUR C wid fuel l s) as Halone.
  specialize (Hf (Bench (get (l, s)) 0) (l, s)). unfold focus_bench in Hf. cbn [b_world b_reads b_out] in Hf. rewrite Hset in Hf.
  rewrite Hf in Halone. unfold alone_runs. by destruct (run _) as [r b].
Qed.

(** ** [rostam_py_client.py] *)

Section Tcp.
(** The server: its state, whether it accepts a connection, and its answer to what is sent on one. *)
Context {T : Type}.
Variables (accept : T -> string -> Z -> result unit) (serve : list byte -> T -> list byte * T) (hits_of : list Z -> list (Z * Z)).
Variables (ADDR : string) (DUR : float).

Definition serving (t : T) : Peer := {| create_connection := accept t; peer_reply data := (serve data t).1 |}.

(** Code on a connection, against the server: what it sends reaches the server. *)
Definition against {A} (m : Peer -> M sock A) : M (sock * T) A := fun '(l, t) =>
  let '(r, l') := m (serving t) l in
  (r, (l', match drop (length (sk_sent l)) (sk_sent l') with [] => t | data => (serve data t).2 end)).

(** The worker of the script, its connection as the handle. *)
Definition tcp_open : M (sock * T) unit := against (fun _ => TcpBench.connect ADDR).
Definition tcp_op (frames : list (list byte)) (_ : unit) (i : Z) : M (sock * T) unit :=
  against (fun P => TcpBench.worker_query (P := P) frames i).
Definition tcp_close (_ : unit) : M (sock * T) unit := against (fun _ => sock_close).
Definition tcp_pool_step (clocks : nat -> Clock) (frames : list (list byte)) :=
  pool_step tcp_open (tcp_op frames) tcp_close DUR clocks.

Lemma request_bytes_some q k : request_bytes q k <> [].
Proof. intros E%(f_equal length). unfold request_bytes in E. rewrite length_app, length_be_bytes in E. cbn in E. lia. Qed.

Lemma against_sends {A} (m : Peer -> M sock A) l t r data :
  data <> [] ->
  wp (m (serving t)) l (fun r' l' => r' = r /\ sk_in l' = [] /\ sk_sent l' = sk_sent l ++ data) ->
  exists l', against m (l, t) = (r, (l', (serve data t).2)) /\ sk_in l' = [].
Proof.
  intros Hd Hm. unfold wp, outcome, after in Hm. unfold against. destruct (m (serving t) l) as [r' l'].
  destruct Hm as (Hr & Hin & Hsent). cbn [fst snd] in *. subst r'. exists l'. rewrite Hsent, drop_app_length. split; [|done].
  by destruct data.
Qed.

Lemma tcp_pool_ok queries (clocks : nat -> Clock) conc locals turns :
  let frames := (fun q => request_bytes q K) <$> queries in
  (forall t, TcpBench.answering (P := serving t) hits_of) -> (forall t, is_ok (TcpBench.dial (P := serving t) ADDR) = true) ->
  queries <> [] -> Forall (fun q => search_args q K) queries ->
  (forall w, (w < Z.to_nat conc)%nat -> stops_after (C := clocks w) (turns w) 1 (fadd (clocks w 0%nat) DUR)) ->
  pool_ok tcp_open (tcp_op frames) tcp_close DUR clocks conc locals turns
    (fun _ l => sk_in l = []) (fun _ => True) (fun i t => (serve (nth_mod frames i) t).2).
Proof.
  intros frames Hans Haddr Hne Hq Hclocks. split; [| | |done].
  - intros w t _. unfold tcp_open, against, TcpBench.connect. specialize (Haddr t). destruct (TcpBench.dial ADDR); [|done].
    cbn [sk_sent connected]. rewrite drop_nil. by eexists tt, _.
  - intros h i l t Hi Hl _. destruct (against_sends (fun P => TcpBench.worker_query (P := P) frames i) l t (Ok tt) (nth_mod frames i)) as (l' & Hl' & Hin).
    + destruct (py_item_mod frames i) as (_ & _ & _ & (q & -> & _)%list_elem_of_fmap); [by intros E%fmap_nil_inv|done|].
      apply request_bytes_some.
    + by apply (TcpBench.worker_query_ok (P := serving t) hits_of (Hans t)).
    + by exists l'.
  - intros h l t _ _. unfold tcp_close, against, sock_close. cbn [sk_sent]. rewrite drop_all. by eexists.
Qed.

(** The state of the server after the queries of a log, answered one after the other. *)
Definition tcp_answered (frames : list (list byte)) (log : list (nat * Z)) (t : T) : T :=
  foldl (fun t e => (serve (nth_mod frames e.2) t).2) t log.

(** C18: any order will do.  A pool of workers of the TCP script on one server, which answers each
    query whatever it has answered before but may change with each, whose clocks reach their
    deadlines: in whatever order the workers read the clock, query and finish, they make a
    fixed number of steps, neither stop before nor go on after; at any moment the server is in
    the state it reaches by answering the queries made so far one after the other, those of
    each worker in the worker's order from its own number on; and at the end the total is the
    number of queries the server has answered, and is what the model of the script gives, in
    which each worker runs alone on a copy of the server. *)
Theorem tcp_pool_interleaves queries clocks conc locals turns t0 k p fuel :
  let frames := (fun q => request_bytes q K) <$> queries in
  (forall t, TcpBench.answering (P := serving t) hits_of) -> (forall t, is_ok (TcpBench.dial (P := serving t) ADDR) = true) ->
  queries <> [] -> Forall (fun q => search_args q K) queries -> 1 <= conc ->
  (forall w, (w < Z.to_nat conc)%nat ->
    stops_after (C := clocks w) (turns w) 1 (fadd (clocks w 0%nat) DUR) /\ (turns w < fuel)%nat) ->
  nsteps (tcp_pool_step clocks frames) k (pool_start conc locals t0) p ->
  (k <= all_steps conc turns)%nat /\ (nf (tcp_pool_step clocks frames) p <-> k = all_steps conc turns) /\
  p_server p = tcp_answered frames (p_log p) t0 /\
  (forall w, (w < Z.to_nat conc)%nat -> exists m, (m <= 16 * turns w)%nat /\ queries_of w (p_log p) = own_queries w m) /\
  (k = all_steps conc turns ->
    pool_total p = Ok (Z.of_nat (length (p_log p))) /\
    pool_total p = pool_sum conc (fun w => Proc (locals w) (clocks w))
      (fun C => TcpBench._qps_worker (P := serving t0) (C := C) ADDR DUR fuel frames)).
Proof.
  intros frames Hans Haddr Hne Hq Hconc Hclocks Hk.
  pose proof (tcp_pool_ok queries clocks conc locals turns Hans Haddr Hne Hq (fun w Hw => proj1 (Hclocks w Hw))) as Hok.
  destruct (pool_runs _ _ _ _ _ _ _ _ _ _ _ Hok t0 k p I Hk) as (Hle & Hnf & Hserver & _ & Hlog).
  split_and!; [done..|]. apply (pool_agrees _ _ _ _ _ _ _ _ _ _ _ Hok _ _ t0 k p Hconc I Hk). intros w Hw.
  destruct (Hclocks w Hw) as [Hstop Hf].
  exact (proj1 (TcpBench.wp_tcp_worker (P := serving t0) (C := clocks w) hits_of (Hans t0) ADDR DUR queries w (turns w) fuel
    (Bench (locals w) 0) (Haddr t0) Hne Hq Hstop Hf)).
Qed.
End Tcp.

Section TcpAlone.
Context {P : Peer} (ADDR : string) (DUR : float).
Let accepting (_ : unit) : string -> Z -> result unit := create_connection.
Let stateless (data : list byte) (t : unit) : list byte * unit := (peer_reply data, t).

Lemma against_focus {A} (m : Peer -> M sock A) : is_focus fst (fun l p => (l, p.2)) (m P) (against accepting stateless m).
Proof. intros [l []]. unfold against, focus. cbn [fst]. replace (serving accepting stateless tt) with P by by destruct P. destruct (m P l) as [r l']. by case_match. Qed.

(** Against a server without a state, the worker alone is the script's [_qps_worker]. *)
Theorem tcp_worker_alone (C : Clock) frames wid fuel (l : sock) :
  alone_runs fst (fun l p => (l, p.2)) (tcp_open accepting stateless ADDR) (tcp_op accepting stateless frames) (tcp_close accepting stateless) DUR C wid
    (TcpBench._qps_worker ADDR DUR fuel frames wid) l tt.
Proof.
  apply (focused_alone _ _ _ _ _ _ _ _ fuel); [done|].
  apply (focused_worker fst (fun l p => (l, p.2)) ltac:(done) ltac:(done) ltac:(by intros []) (TcpBench.connect ADDR) _
    (fun _ i => TcpBench.worker_query frames i) _ (fun _ => sock_close)); intros; apply against_focus.
Qed.
End TcpAlone.

(** ** Workers that share a world, and have nothing of their own *)

Section Shared.
Context {W : Type}.

Definition shared {A} (m : M W A) : M (unit * W) A := focus snd (fun w p => (p.1, w)) m.

Lemma shared_at {A} (m : M W A) u w : shared m (u, w) = let '(r, w') := m w in (r, (u, w')).
Proof. done. Qed.

Lemma shared_alone {H} (open : M W H) (op : H -> Z -> M W unit) DUR (C : Clock) wid fuel w :
  alone_runs snd (fun w p => (p.1, w)) (shared open) (fun h i => shared (op h i)) (fun _ => mret tt) DUR C wid
    (h ← on_world open; t ← clock; qps_loop fuel (op h) (fadd t DUR) (Z.of_nat wid) 0) tt w.
Proof.
  apply (focused_alone _ _ _ _ _ _ _ _ fuel); [done|]. intros b p. rewrite <- qps_worker_open.
  apply (focused_worker snd (fun w p => (p.1, w)) ltac:(done) ltac:(done) ltac:(by intros [])); [done|done|by intros h []].
Qed.
End Shared.

(** ** [rostam_grpc_client.py] *)

#[local] Existing Instance GrpcClient.SearchRequest_inhabited.

Section Grpc.
Context {W S : Type} {G : Grpc W S} {GL : GrpcLaws W S G} {PB : Codec} {PL : CodecLaws PB}.
Context {NP : Numpy} {NL : NumpyLaws NP}.
Variables (ADDR : string) (DUR : float) (s : servicer S) (server : grpc_server W S).
Variables (hits_of : SearchRequest -> SearchResponse) (next : SearchRequest -> S -> S).

(** The workers share the network; a worker's stub is its handle. *)
Definition grpc_open : M (unit * W) (VectorSearchStub W) := shared (GrpcClient.new_stub ADDR).
Definition grpc_op (reqs : list SearchRequest) (stub : VectorSearchStub W) (i : Z) : M (unit * W) unit :=
  shared (GrpcClient.worker_search stub reqs i).
Definition grpc_close (_ : VectorSearchStub W) : M (unit * W) unit := mret tt.
Definition grpc_pool_step (clocks : nat -> Clock) (reqs : list SearchRequest) :=
  pool_step grpc_open (grpc_op reqs) grpc_close DUR clocks.

(** A worker alone is the script's [_qps_worker]. *)
Theorem grpc_worker_alone (C : Clock) reqs wid fuel (w : W) :
  alone_runs snd (fun w p => (p.1, w)) grpc_open (grpc_op reqs) grpc_close DUR C wid (GrpcClient._qps_worker ADDR DUR fuel reqs wid) tt w.
Proof. apply shared_alone. Qed.

Definition grpc_effect (reqs : list SearchRequest) (i : Z) (w : W) : W :=
  grpc_with_app (next (nth_mod reqs i) (grpc_app w)) w.

Lemma grpc_pool_ok reqs clocks conc turns :
  GrpcClient.serves s hits_of next -> reqs <> [] -> Forall request_ok reqs ->
  (forall w, (w < Z.to_nat conc)%nat -> stops_after (C := clocks w) (turns w) 1 (fadd (clocks w 0%nat) DUR)) ->
  pool_ok grpc_open (grpc_op reqs) grpc_close DUR clocks conc (fun _ => tt) turns
    (fun stub _ => exists ch, stub = VectorSearchStub_init ch /\ grpc_target ch = ADDR)
    (GrpcClient.up ADDR s server) (grpc_effect reqs).
Proof.
  intros Hserves Hne Hok Hclocks. split; [| | |done].
  - intros w v _. unfold grpc_open. rewrite shared_at. unfold GrpcClient.new_stub, mbind, M_bind.
    destruct (insecure_channel_ok ADDR v) as (ch & -> & Hch). exists (VectorSearchStub_init ch), tt. split; [done|by exists ch].
  - intros stub i u w Hi (ch & -> & Hch) Hup. exists u. unfold grpc_op. rewrite shared_at.
    rewrite (GrpcClient.worker_search_ok ADDR s server hits_of next Hserves) by done.
    split_and!; [done|by exists ch|by apply GrpcClient.up_with_app].
  - intros stub u w _ _. by exists u.
Qed.

Lemma app_answered reqs log w :
  grpc_app (Pool.answered (grpc_effect reqs) log w) = foldl (fun app e => next (nth_mod reqs e.2) app) (grpc_app w) log.
Proof.
  revert w. induction log as [|e log IH]; intros w; [done|]. unfold Pool.answered in *. cbn [foldl].
  rewrite IH. unfold grpc_effect. by rewrite app_with_app.
Qed.

(** C19: any order will do, with stubs.  The same of a pool of workers of the gRPC script, whose
    stubs lead to one server with one application: at any moment the application is in the
    state it reaches by answering the requests made so far one after the other. *)
Theorem grpc_pool_interleaves reqs clocks conc turns w0 k p fuel :
  GrpcClient.serves s hits_of next -> GrpcClient.up ADDR s server w0 -> reqs <> [] -> Forall request_ok reqs -> 1 <= conc ->
  (forall w, (w < Z.to_nat conc)%nat ->
    stops_after (C := clocks w) (turns w) 1 (fadd (clocks w 0%nat) DUR) /\ (turns w < fuel)%nat) ->
  nsteps (grpc_pool_step clocks reqs) k (pool_start conc (fun _ => tt) w0) p ->
  (k <= all_steps conc turns)%nat /\ (nf (grpc_pool_step clocks reqs) p <-> k = all_steps conc turns) /\
  grpc_app (p_server p) = foldl (fun app e => next (nth_mod reqs e.2) app) (grpc_app w0) (p_log p) /\
  (forall w, (w < Z.to_nat conc)%nat -> exists m, (m <= 16 * turns w)%nat /\ queries_of w (p_log p) = own_queries w m) /\
  (k = all_steps conc turns ->
    pool_total p = Ok (Z.of_nat (length (p_log p))) /\
    pool_total p = pool_sum conc (fun w => Proc w0 (clocks w)) (fun C => GrpcClient._qps_worker (C := C) ADDR DUR fuel reqs)).
Proof.
  intros Hserves Hup Hne Hreqs Hconc Hclocks Hk.
  pose proof (grpc_pool_ok reqs clocks conc turns Hserves Hne Hreqs (fun w Hw => proj1 (Hclocks w Hw))) as Hok.
  destruct (pool_runs _ _ _ _ _ _ _ _ _ _ _ Hok w0 k p Hup Hk) as (Hle & Hnf & Hserver & _ & Hlog).
  split_and!; [done|done|by rewrite Hserver, app_answered|done|].
  apply (pool_agrees _ _ _ _ _ _ _ _ _ _ _ Hok _ _ w0 k p Hconc Hup Hk). intros w Hw.
  destruct (Hclocks w Hw) as [Hstop Hf].
  exact (proj1 (GrpcClient.wp_grpc_worker (C := clocks w) ADDR DUR s server hits_of next Hserves reqs w (turns w) fuel
    (Bench w0 0) Hup Hne Hreqs Hstop Hf)).
Qed.
End Grpc.

(** ** [qdrant_latency_qps.py] *)

Section Collection.
Context {W : Type} {Q : Qdrant.Qdrant W} {QS : Qdrant.QdrantService W} {QE : Qdrant.QdrantEngine W}.
Variables (DUR : float) (ef : Z).

(** The workers' clients are made by the library and share one service. *)
Definition qdrant_open : M (unit * W) unit := shared Qdrant.new_client.
Definition qdrant_op (queries : list (list Z)) (_ : unit) (i : Z) : M (unit * W) unit :=
  shared (Qdrant.worker_query queries ef i).
Definition qdrant_close (_ : unit) : M (unit * W) unit := mret tt.
Definition qdrant_pool_step (clocks : nat -> Clock) (queries : list (list Z)) :=
  pool_step qdrant_open (qdrant_op queries) qdrant_close DUR clocks.

(** A worker alone is the script's [_qps_worker]. *)
Theorem qdrant_worker_alone (C : Clock) queries wid fuel (w : W) :
  alone_runs snd (fun w p => (p.1, w)) qdrant_open (qdrant_op queries) qdrant_close DUR C wid (Qdrant._qps_worker DUR fuel queries ef wid) tt w.
Proof. apply (shared_alone Qdrant.new_client (fun _ => Qdrant.worker_query queries ef)). Qed.

Definition qdrant_effect (queries : list (list Z)) (i : Z) (w : W) : W := after (Qdrant.worker_query queries ef i) w.

Lemma qdrant_pool_ok queries clocks conc turns pts :
  (forall w : W, Qdrant.new_client w = (Ok tt, w)) -> queries <> [] ->
  (forall w, (w < Z.to_nat conc)%nat -> stops_after (C := clocks w) (turns w) 1 (fadd (clocks w 0%nat) DUR)) ->
  pool_ok qdrant_open (qdrant_op queries) qdrant_close DUR clocks conc (fun _ => tt) turns
    (fun _ _ => True) (fun w => Qdrant.points w = pts) (qdrant_effect queries).
Proof.
  intros Hnew Hne Hclocks. split; [| | |done].
  - intros w v _. unfold qdrant_open. rewrite shared_at, Hnew. by exists tt, tt.
  - intros [] i [] w Hi _ Hp. exists tt.
    destruct (Qdrant.wp_worker_query ef _ _ queries i w (Qdrant.engine_finds pts ef) Hp Hne Hi) as [Hr Hp'].
    unfold qdrant_op, qdrant_effect. rewrite shared_at. unfold outcome, after in *. destruct (Qdrant.worker_query queries ef i w) as [r w'].
    cbn [fst snd] in *. by rewrite Hr.
  - intros [] [] w _ _. by exists tt.
Qed.

(** C20: any order will do, with a service.  The same of a pool of workers of the Qdrant script, on
    a service that does not notice a client being made: at any moment it holds the points it
    held at first, so that every query of every worker is answered by what they are. *)
Theorem qdrant_pool_interleaves queries clocks conc turns w0 k p fuel :
  (forall w : W, Qdrant.new_client w = (Ok tt, w)) -> queries <> [] -> 1 <= conc ->
  (forall w, (w < Z.to_nat conc)%nat ->
    stops_after (C := clocks w) (turns w) 1 (fadd (clocks w 0%nat) DUR) /\ (turns w < fuel)%nat) ->
  nsteps (qdrant_pool_step clocks queries) k (pool_start conc (fun _ => tt) w0) p ->
  (k <= all_steps conc turns)%nat /\ (nf (qdrant_pool_step clocks queries) p <-> k = all_steps conc turns) /\
  Qdrant.points (p_server p) = Qdrant.points w0 /\
  (forall w, (w < Z.to_nat conc)%nat -> exists m, (m <= 16 * turns w)%nat /\ queries_of w (p_log p) = own_queries w m) /\
  (k = all_steps conc turns ->
    pool_total p = Ok (Z.of_nat (length (p_log p))) /\
    pool_total p = pool_sum conc (fun w => Proc w0 (clocks w)) (fun C => Qdrant._qps_worker (C := C) DUR fuel queries ef)).
Proof.
  intros Hnew Hne Hconc Hclocks Hk.
  pose proof (qdrant_pool_ok queries clocks conc turns (Qdrant.points w0) Hnew Hne (fun w Hw => proj1 (Hclocks w Hw))) as Hok.
  destruct (pool_runs _ _ _ _ _ _ _ _ _ _ _ Hok w0 k p eq_refl Hk) as (Hle & Hnf & _ & Hpts & Hlog).
  split_and!; [done..|]. apply (pool_agrees _ _ _ _ _ _ _ _ _ _ _ Hok _ _ w0 k p Hconc eq_refl Hk). intros w Hw.
  destruct (Hclocks w Hw) as [Hstop Hf].
  refine (proj1 (Qdrant.wp_qdrant_worker (C := clocks w) ef _ _ DUR queries w (turns w) fuel (Bench w0 0)
    (Qdrant.engine_finds (Qdrant.points w0) ef) _ Hne Hstop Hf)).
  cbn [b_world]. apply wp_run. unfold outcome, after. by rewrite Hnew.
Qed.
End Collection.

(** ** Witnesses *)

(** Two workers: one finishes before the other connects, or they take their steps in turn; and a
    clock that reaches the deadline at the second check. *)
Definition one_by_one : list nat := replicate 22 1%nat ++ replicate 22 0%nat.
Definition in_turn : list nat := concat (replicate 22 [0; 1]%nat).
Definition demo_clocks : nat -> Clock := fun _ n => f_of_Z (Z.of_nat n).

Lemma demo_clocks_stop w : stops_after (C := demo_clocks w) 1 1 (fadd (demo_clocks w 0%nat) (f_of_Z 2)) /\ (1 < 2)%nat.
Proof. split; [|lia]. split; [|by vm_compute]. intros [|j] Hj; [by vm_compute|lia]. Qed.

(** A worker whose connection is refused is done, and so is its program. *)
Lemma worker_alone_witness :
  rtc (solo_step (raise (OtherError "ConnectionRefusedError")) (fun (_ : unit) _ => mret tt) (fun _ => mret tt)
      (f_of_Z 2) (demo_clocks 0) 0)
    (Worker Starting 7 0, 8) (Worker (Finished (Raise (OtherError "ConnectionRefusedError"))) 7 0, 8).
Proof.
  refine (worker_alone (raise (OtherError "ConnectionRefusedError")) (fun (_ : unit) _ => mret tt) (fun _ => mret tt)
    (f_of_Z 2) (demo_clocks 0) 0 1 7 8 _). discriminate.
Defined.

(** A server that accepts everyone and keeps all it receives. *)
Definition open_door (t : list (list byte)) (host : string) (port : Z) : result unit := Ok tt.
Definition keeping (data : list byte) (t : list (list byte)) : list byte * list (list byte) :=
  (sized TcpProps.demo_body, t ++ [data]).
Definition demo_queries : list (list Z) := [[1065353216; 1073741824]; [1065353216; 1073741824]].
Definition demo_frames : list (list byte) := (fun q => request_bytes q K) <$> demo_queries.
Definition demo_pool (schedule : list nat) :=
  run_schedule (tcp_open open_door keeping "127.0.0.1:7700") (tcp_op open_door keeping demo_frames) (tcp_close open_door keeping) (f_of_Z 2) demo_clocks schedule
    (pool_start 2 (fun w => connected [w; 3]%nat) []).

Lemma demo_pool_runs : is_Some (demo_pool in_turn).
Proof. apply (bool_decide_unpack _). by vm_compute. Qed.

Lemma demo_pool_steps p : demo_pool in_turn = Some p ->
  nsteps (tcp_pool_step open_door keeping "127.0.0.1:7700" (f_of_Z 2) demo_clocks demo_frames) 44
    (pool_start 2 (fun w => connected [w; 3]%nat) []) p.
Proof. exact (run_schedule_steps _ _ _ _ demo_clocks in_turn _ p). Qed.

Lemma tcp_pool_interleaves_witness : exists p, demo_pool in_turn = Some p /\
  nf (tcp_pool_step open_door keeping "127.0.0.1:7700" (f_of_Z 2) demo_clocks demo_frames) p /\
  pool_total p = Ok (Z.of_nat (length (p_log p))) /\ p_server p = tcp_answered keeping demo_frames (p_log p) [].
Proof.
  destruct demo_pool_runs as [p Hp]. exists p. split; [exact Hp|].
  destruct (tcp_pool_interleaves open_door keeping TcpProps.demo_hits "127.0.0.1:7700" (f_of_Z 2) demo_queries demo_clocks 2
    (fun w => connected [w; 3]%nat) (fun _ => 1%nat) [] 44 p 2) as (_ & Hnf & Hs & _ & Hend).
  - intros t. split; [done| |done]. intros q. apply (TcpBench.answering_hits _ TcpProps.demo_answering).
  - done.
  - discriminate.
  - repeat constructor; apply TcpProps.demo_args.
  - lia.
  - intros w _. apply demo_clocks_stop.
  - exact (demo_pool_steps p Hp).
  - split; [by apply Hnf|]. split; [by apply Hend|exact Hs].
Defined.

(** The same with stubs, the network being the one of {!GrpcRef}. *)
Definition demo_stubs (schedule : list nat) :=
  run_schedule (grpc_open (G := grpc_ref _) "127.0.0.1:7701") (grpc_op [GrpcProps.demo_request])
    (grpc_close (W := net _)) (f_of_Z 2) demo_clocks schedule
    (pool_start 2 (fun _ => tt) (GrpcProps.demo_net GrpcProps.demo_servicer)).

Lemma demo_stubs_run : is_Some (demo_stubs one_by_one).
Proof. apply (bool_decide_unpack _). by vm_compute. Qed.

Lemma demo_stubs_steps p : demo_stubs one_by_one = Some p ->
  nsteps (grpc_pool_step (G := grpc_ref _) "127.0.0.1:7701" (f_of_Z 2) demo_clocks [GrpcProps.demo_request]) 44
    (pool_start 2 (fun _ => tt) (GrpcProps.demo_net GrpcProps.demo_servicer)) p.
Proof. exact (run_schedule_steps _ _ _ _ demo_clocks one_by_one _ p). Qed.

Lemma grpc_pool_interleaves_witness : exists p, demo_stubs one_by_one = Some p /\
  pool_total p = Ok (Z.of_nat (length (p_log p))) /\
  net_app (p_server p) = foldl (fun app e => GrpcProps.demo_next (nth_mod [GrpcProps.demo_request] e.2) app) [] (p_log p).
Proof.
  destruct demo_stubs_run as [p Hp]. exists p. split; [exact Hp|].
  destruct (grpc_pool_interleaves (G := grpc_ref _) "127.0.0.1:7701" (f_of_Z 2) GrpcProps.demo_servicer []
    (fun _ => GrpcProps.demo_response) GrpcProps.demo_next [GrpcProps.demo_request] demo_clocks 2 (fun _ => 1%nat)
    (GrpcProps.demo_net GrpcProps.demo_servicer) 44 p 2) as (_ & _ & Happ & _ & Hend).
  - apply GrpcProps.demo_serves.
  - reflexivity.
  - discriminate.
  - apply Forall_singleton, GrpcProps.demo_request_ok.
  - lia.
  - intros w _. apply demo_clocks_stop.
  - exact (demo_stubs_steps p Hp).
  - split; [by apply Hend|exact Happ].
Defined.

(** And with clients of a service of twelve points. *)
#[local] Existing Instances SweepProps.collection_qdrant SweepProps.collection_service SweepProps.collection_engine.
Definition demo_collection : SweepProps.mini_collection :=
  {| SweepProps.mc_calls := []; SweepProps.mc_points := numbered SweepProps.sweep_base; SweepProps.mc_wait := 0 |}.
Definition demo_clients (schedule : list nat) :=
  run_schedule qdrant_open (qdrant_op 64 demo_queries) qdrant_close (f_of_Z 2) demo_clocks schedule
    (pool_start 2 (fun _ => tt) demo_collection).

Lemma demo_clients_run : is_Some (demo_clients in_turn).
Proof. apply (bool_decide_unpack _). by vm_compute. Qed.

Lemma demo_clients_steps p : demo_clients in_turn = Some p ->
  nsteps (qdrant_pool_step (f_of_Z 2) 64 demo_clocks demo_queries) 44 (pool_start 2 (fun _ => tt) demo_collection) p.
Proof. exact (run_schedule_steps _ _ _ _ demo_clocks in_turn _ p). Qed.

Lemma qdrant_pool_interleaves_witness : exists p, demo_clients in_turn = Some p /\
  pool_total p = Ok (Z.of_nat (length (p_log p))) /\ Qdrant.points (p_server p) = numbered SweepProps.sweep_base.
Proof.
  destruct demo_clients_run as [p Hp]. exists p. split; [exact Hp|].
  destruct (qdrant_pool_interleaves (f_of_Z 2) 64 demo_queries demo_clocks 2 (fun _ => 1%nat) demo_collection 44 p 2)
    as (_ & _ & Hpts & _ & Hend).
  - intros w. reflexivity.
  - discriminate.
  - lia.
  - intros w _. apply demo_clocks_stop.
  - exact (demo_clients_steps p Hp).
  - split; [by apply Hend|exact Hpts].
Defined.
