(* ===== verification/Smoke.v ===== *)
(** * The smoke test of the client: [vectordbbench/smoke_test.py]

    The script drives class [Rostam] of {!Client} against a server, with the ground truth it
    computes itself.  The distances and their sorting are numpy's and parameters.  What [__init__] leaves is the environment the client's methods
    go on from. *)

From S2P Require Import Prelude Bytes Text Float64 Accuracy FloatOrder Env F32 PyVal Numpy Sift Bench Http Config Wire Client Server ClientFacts Sessions Ideal Typed.

Definition K : Z := 10.

(** [os.path.join(a, b)] *)
Definition path_join (a b : string) : string :=
  if String.prefix "/" b then b
  else if String.eqb a "" || String.eqb (String.substring (pred (String.length a)) 1 a) "/" then a +:+ b
  else a +:+ "/" +:+ b.

(** The settings, read when the script starts. *)
Record smoke_settings := { s_VDB : string; s_SIFT : string; s_URL : string; s_N : Z; s_NQ : Z; s_EF : Z }.

Definition load_settings (HERE : string) (variables : environment) : result smoke_settings :=
  n ← int_of_str (getenv variables "N" "20000");
  nq ← int_of_str (getenv variables "NQ" "200");
  ef ← int_of_str (getenv variables "EF" "64");
  Ok {| s_VDB := getenv variables "VDB" (path_join HERE "VectorDBBench");
        s_SIFT := getenv variables "SIFT" "/tmp/rostam-sift1m/sift";
        s_URL := getenv variables "ROSTAM_URL" "http://127.0.0.1:8080"; s_N := n; s_NQ := nq; s_EF := ef |}.

(** [xs[:n]], which counts from the end when [n] is negative *)
Definition py_take {A} (n : Z) (xs : list A) : list A :=
  if 0 <=? n then take (Z.to_nat n) xs else take (length xs - Z.to_nat (- n)) xs.

(** The lines printed on the way. *)
Definition data_line (n nq : nat) (dim EF : Z) : string :=
  "[smoke] base=" +:+ dec (Z.of_nat n) +:+ " query=" +:+ dec (Z.of_nat nq) +:+ " dim=" +:+ dec dim +:+ " ef=" +:+ dec EF.
Definition staged_line (cnt : nat) (t : float) : string :=
  "[smoke] staged " +:+ dec (Z.of_nat cnt) +:+ " vectors in " +:+ fmt_fixed 1 t +:+ "s; building...".
Definition built_line (t : float) : string := "[smoke] index built in " +:+ fmt_fixed 1 t +:+ "s; searching...".
Definition recall_line (recall qps : float) : string :=
  "[smoke] recall@" +:+ dec K +:+ "=" +:+ fmt_fixed 4 recall +:+ "  qps=" +:+ fmt_fixed 0 qps.
Definition ok_line : string := "SMOKE OK ✅  (create -> insert -> build -> search all work; recall sane)".
(** [assert recall > 0.90], and its message *)
Definition good_recall (recall : float) : bool := fltb (f_of_lit 0.90%lit) recall.
Definition too_low (recall : float) : string := "recall " +:+ fmt_fixed 4 recall +:+ " too low — adapter likely wrong".

(** [RostamHNSWConfig(metric_type=MetricType.L2, m=16, ef_construction=200, ef_search=EF)] *)
Definition smoke_case (EF : Z) : RostamHNSWConfig :=
  {| metric_type := Some L2; hnsw_m := 16; hnsw_ef_construction := 200; hnsw_ef_search := EF;
     hnsw_quant := hnsw_quant RostamHNSWConfig_default |}.

Section Script.
Context {H : Type} {HT : Http H} {NP : Numpy} {C : Clock}.
(** [np.linalg.norm(base - q, axis=1)], [np.argsort], and the text of an exception whose message is
    not kept *)
Variables (norms : list (list Z) -> list Z -> list float) (argsort : list float -> list Z) (other_str : exn -> string).

(** [str(err)] *)
Definition exn_str (e : exn) : string :=
  match e with
  | RuntimeError msg | ConnectionError msg | AssertionError msg | NotImplementedError msg => msg
  | _ => other_str e
  end.

(** [read_fvecs(path, limit)], which counts 129 words for each vector; numpy reads the whole file
    when the count is negative, as it does without one. *)
Definition read_fvecs (bs : list byte) (limit : Z) : result (list (list Z)) :=
  let x := np_fromfile_i32 bs (if 0 <? limit then Some (Z.to_nat (limit * 129)) else None) in
  d ← first_int x;
  rows ← np_reshape x (d + 1);
  Ok (drop_column rows).

(** [set(np.argsort(d)[:K].tolist())] *)
Definition nearest (base : list (list Z)) (q : list Z) : list Z := take (Z.to_nat K) (argsort (norms base q)).

(** [for i, q in enumerate(query)] *)
Fixpoint search_each (gt : list (list Z)) (i : nat) (query : list (list Z)) (hits : Z) : M (world H) Z :=
  match query with
  | [] => mret hits
  | q :: query =>
      ids ← search_embedding (np_float64 <$> q) K;
      truth ← lift_result (py_item gt (Z.of_nat i));
      search_each gt (S i) query (hits + common ids truth)
  end.

(** The body of [with db.init()]: the recall. *)
Definition drive (base query gt : list (list Z)) : M (bench (world H)) float :=
  let n := length base in
  t0 ← clock;
  '(cnt, err) ← on_world (insert_embeddings (np_float64_rows base) ((VInt ∘ Z.of_nat) <$> seq 0 n));
  _ ← (match err with None => mret tt | Some e => raise (AssertionError ("insert error: " +:+ exn_str e)) end);
  _ ← py_assert (Nat.eqb cnt n) ("inserted " +:+ dec (Z.of_nat cnt) +:+ " != " +:+ dec (Z.of_nat n));
  t1 ← clock;
  _ ← print (staged_line cnt (fsub t1 t0));
  t0 ← clock;
  _ ← on_world optimize;
  t1 ← clock;
  _ ← print (built_line (fsub t1 t0));
  t0 ← clock;
  hits ← on_world (search_each gt 0 query 0);
  t1 ← clock;
  r ← lift_result (recall hits (Z.of_nat (length query)) K);
  qps ← lift_result (py_fdiv (f_of_Z (Z.of_nat (length query))) (fsub t1 t0));
  _ ← print (recall_line r qps);
  mret r.

(** [with db.init(): body], where the body reads the clock and prints. *)
Definition with_init {A} (body : M (bench (world H)) A) : M (bench (world H)) A :=
  _ ← on_world init_enter; try_finally body (on_world init_exit).

(** Go on with the client [c]. *)
Definition with_client {A} (c : rostam) (m : M (bench (world H)) A) : M (bench (env H)) A := fun b =>
  let '(r, b') := m (BenchOut {| w_self := c; w_env := b_world b |} (b_reads b) (b_out b)) in
  (r, BenchOut (w_env (b_world b')) (b_reads b') (b_out b')).

(** [main], once the files are read: the recall, if it is good enough. *)
Definition smoke_run (URL : string) (EF dim : Z) (base query : list (list Z)) : M (bench (env H)) float :=
  _ ← print (data_line (length base) (length query) dim EF);
  let gt := nearest base <$> query in
  let cfg := to_dict (RostamConfig_url URL) in
  db ← on_world (__init__ dim cfg (smoke_case EF) "smoke_sift" true);
  r ← with_client db (with_init (drive base query gt));
  _ ← py_assert (good_recall r) (too_low r);
  _ ← print ok_line;
  mret r.

(** [main], from the files in the directory [SIFT]; the dimension is that of the array read,
    whatever is left of it. *)
Definition smoke_main (st : smoke_settings) (files : file_system) : M (bench (env H)) float :=
  base ← lift_result (bs ← files (s_SIFT st +:+ "/sift_base.fvecs"); read_fvecs bs (s_N st));
  query ← lift_result (bs ← files (s_SIFT st +:+ "/sift_query.fvecs"); read_fvecs bs (s_NQ st));
  let dim := Z.of_nat (length (default [] (head base))) in
  smoke_run (s_URL st) (s_EF st) dim (py_take (s_N st) base) (py_take (s_NQ st) query).

(** The whole script, in the file [HERE/smoke_test.py]; that the client is imported from [VDB] is
    left to the interpreter. *)
Definition smoke_script (HERE : string) (variables : environment) (files : file_system) : M (bench (env H)) float :=
  st ← lift_result (load_settings HERE variables);
  smoke_main st files.
End Script.

(** ** Reading a limited number of vectors *)

Section Reading.
Context {NP : Numpy} {NL : NumpyLaws NP}.

Lemma fromfile_limit d rows n :
  vecs d rows -> np_fromfile_i32 (vecs_file d rows) (Some n) = take n (vecs_words d rows).
Proof. intros Hv. unfold vecs_file. by rewrite np_fromfile_i32_count, np_fromfile_i32_words by by apply vecs_words_range. Qed.

Lemma take_vecs_words d n rows :
  Forall (fun r => length r = d) rows -> take (n * S d) (vecs_words d rows) = vecs_words d (take n rows).
Proof.
  intros Hd. revert n. induction Hd as [|r rows Hr _ IH]; intros n; [by rewrite (take_nil n); apply take_nil|].
  destruct n as [|n]; [done|]. unfold vecs_words in *. cbn [fmap list_fmap concat take].
  replace (S n * S d)%nat with (length (Z.of_nat d :: r) + n * S d)%nat by (cbn; lia).
  by rewrite take_app_add, IH.
Qed.

Lemma vecs_take d rows n : vecs d rows -> (0 < n)%nat -> vecs d (take n rows).
Proof.
  intros [Hne Hd Hr Hl] Hn. split; [|by apply Forall_take|by apply Forall_take|done].
  destruct rows, n; by try lia.
Qed.

Lemma read_words d rows : vecs d rows ->
  (x ← first_int (vecs_words d rows); r ← np_reshape (vecs_words d rows) (x + 1); Ok (drop_column r)) = Ok rows.
Proof.
  intros Hv. rewrite first_int_words by done. cbn [mbind result_bind]. rewrite reshape_words by done.
  cbn [mbind result_bind]. by rewrite drop_heads.
Qed.

(** Vectors of dimension 128 take 129 words each. *)
Lemma smoke_read_128 rows n :
  vecs 128 rows -> 0 < n -> read_fvecs (vecs_file 128 rows) n = Ok (take (Z.to_nat n) rows).
Proof.
  intros Hv Hn. unfold read_fvecs. rewrite (proj2 (Z.ltb_lt _ _) Hn), (fromfile_limit 128) by done.
  replace (Z.to_nat (n * 129)) with (Z.to_nat n * S 128)%nat by lia. rewrite take_vecs_words by apply Hv.
  apply read_words, vecs_take; [done|lia].
Qed.

(** Without a positive limit the whole file is read, whatever its dimension. *)
Lemma smoke_read_all d rows n : vecs d rows -> n <= 0 -> read_fvecs (vecs_file d rows) n = Ok rows.
Proof.
  intros Hv Hn. unfold read_fvecs. rewrite (proj2 (Z.ltb_ge _ _) Hn). unfold vecs_file.
  rewrite np_fromfile_i32_words by by apply vecs_words_range. by apply read_words.
Qed.

(** Then [[:n]] leaves what the limit asked for, whatever it is, of the dimension of the file. *)
Lemma smoke_load rows n :
  vecs 128 rows -> exists read, read_fvecs (vecs_file 128 rows) n = Ok read /\ py_take n read = py_take n rows /\
    length (default [] (head read)) = 128%nat.
Proof.
  intros Hv. destruct (Z.ltb_spec 0 n) as [Hn|Hn].
  - exists (take (Z.to_nat n) rows). split_and!; [by apply smoke_read_128| |by apply vecs_head, vecs_take; [|lia]].
    unfold py_take. rewrite (proj2 (Z.leb_le 0 n)) by lia. by rewrite take_take, Nat.min_id.
  - exists rows. split_and!; [by apply (smoke_read_all 128)|done|by apply vecs_head].
Qed.

(** Others do not, and the array read has no such shape. *)
Lemma smoke_read_other d rows n :
  vecs d rows -> 0 < n -> n * 129 <= Z.of_nat (length rows * S d) ->
  (n * 129) mod (Z.of_nat d + 1) <> 0 ->
  read_fvecs (vecs_file d rows) n = Raise ValueError.
Proof.
  intros Hv Hn Hl Hm. unfold read_fvecs. rewrite (proj2 (Z.ltb_lt _ _) Hn), (fromfile_limit d) by done.
  assert (length (vecs_words d rows) = (length rows * S d)%nat) as Hw.
  { unfold vecs_words. rewrite (length_concat_rect (S d)), length_fmap; [done|].
    apply Forall_fmap. eapply Forall_impl; [|apply Hv]. intros r Hr. cbn. by rewrite Hr. }
  assert (first_int (take (Z.to_nat (n * 129)) (vecs_words d rows)) = Ok (Z.of_nat d)) as ->.
  { pose proof (first_int_words d rows Hv) as Hf. destruct (Z.to_nat (n * 129)) eqn:E; [lia|]. by destruct (vecs_words d rows). }
  cbn [mbind result_bind]. rewrite np_reshape_err; [done|lia|].
  rewrite length_take, Hw, Nat.min_l by lia. by rewrite Z2Nat.id by lia.
Qed.
End Reading.

(** ** A run against a server in working order *)

(** Administrative requests (deletion, creation, build) are answered 200, a request that carries
    no points leaves the points as they are, and a search does not change later answers, which are
    all 200. *)
Class SmokeServer (H : Type) {HT : Http H} {NP : Numpy} {PS : PointServer H} {SS : SearchServer H} := {
  admin_ok rq h r h' :
    request_points rq = None -> request_query rq = None -> http_send rq h = (r, h') ->
    exists a, r = Ok a /\ status_code a = 200;
  quiet_keeps rq h r h' :
    request_points rq = None -> http_send rq h = (r, h') -> accepted h' = accepted h;
  answers_ok h sq : status_code (search_answer h sq) = 200;
  answers_stable rq sq h r h' sq' :
    request_query rq = Some sq -> request_points rq = None -> http_send rq h = (r, h') ->
    search_answer h' sq' = search_answer h sq'
}.

Section Run.
Context {H : Type} {HT : Http H} {HL : HttpLaws H} {NP : Numpy} {NL : NumpyLaws NP} {C : Clock}.
Context {PS : PointServer H} {WS : WorkingServer H} {SS : SearchServer H} {SV : SmokeServer H}.

(** The ids the server [h] finds for the queries. *)
Definition answers (h : H) (query : list (list Z)) : result (list (list Z)) :=
  mapR (fun q => answer_ids (search_answer h (wanted (np_float64 <$> q) K None))) query.

(** The requests that ask the queries, in turn, all of them when the searches end well. *)
Definition asks (q : list Z) (rq : request) : Prop := request_query rq = Some (wanted (np_float64 <$> q) K None).
Definition in_turn (query : list (list Z)) (whole : bool) (rqs : list request) : Prop :=
  Forall2 asks (take (length rqs) query) rqs /\ (whole = true -> length rqs = length query).

(** In the body of [init], with the answers of [h], and no filter. *)
Record steady (h : H) (w : world H) : Prop := {
  steady_answers : forall sq, search_answer (env_http (w_env w)) sq = search_answer h sq;
  steady_session : cur_session (w_self w) <> None;
  steady_filter : query_filter (w_self w) = None /\ filter_blob (w_self w) = []
}.

Lemma answers_ext h h' query :
  (forall sq, search_answer h' sq = search_answer h sq) -> answers h' query = answers h query.
Proof.
  intros Hsq. unfold answers. induction query as [|q query IH]; [done|]. cbn [mapR]. by rewrite Hsq, IH.
Qed.

Lemma search_steady h q (w : world H) :
  is_u 4 (Z.of_nat (length q)) -> steady h w ->
  wp (search_embedding (np_float64 <$> q) K) w (fun r w' =>
    r = answer_ids (search_answer h (wanted (np_float64 <$> q) K None)) /\ steady h w' /\ taken w' = taken w /\
    exists rq, asks q rq /\ env_log (w_env w') = env_log (w_env w) ++ [rq]).
Proof.
  intros Hq [Ha Hs [Hf Hb]].
  assert (wp (search_embedding (np_float64 <$> q) K) w (fun _ w' => query_changed (w_self w) (w_self w'))) as Hfr
    by apply search_frame.
  apply wp_run in Hfr as (b & p & Hfr).
  pose proof (search_spec (np_float64 <$> q) K w) as Hsp. rewrite Hf, Ha in Hsp.
  specialize (Hsp ltac:(done) ltac:(by rewrite length_fmap)).
  assert (filter_in_step (w_self w)) as Hst by (split; [by rewrite Hf, Hb|by rewrite Hf]).
  specialize (Hsp Hst ltac:(by rewrite Hb)). cbn zeta in Hsp.
  specialize (Hsp (fun _ => supported_200 _ (answers_ok h _))).
  apply wp_run in Hsp as (Hr & rq & Hrq & Hnp & Hsend & Hlog).
  apply wp_run. split_and!; [done| |by apply (quiet_keeps _ _ _ _ Hnp Hsend)|by exists rq]. split.
  - intros sq. by rewrite (answers_stable _ _ _ _ _ _ Hrq Hnp Hsend), Ha.
  - by rewrite Hfr.
  - by rewrite Hfr.
Qed.

(** What a run of searches leaves, from [w]. *)
Definition searched (h : H) (query : list (list Z)) (whole : bool) (w w' : world H) : Prop :=
  steady h w' /\ taken w' = taken w /\
  exists rqs, env_log (w_env w') = env_log (w_env w) ++ rqs /\ in_turn query whole rqs.

Lemma searched_none h (w : world H) : steady h w -> searched h [] true w w.
Proof. intros Hw. split_and!; [done|done|]. exists []. rewrite app_nil_r. split; [done|]. by split. Qed.
Lemma searched_stop h q query rq (w w' : world H) :
  steady h w' -> taken w' = taken w -> env_log (w_env w') = env_log (w_env w) ++ [rq] -> asks q rq ->
  searched h (q :: query) false w w'.
Proof. intros Hw Ht Hl Hq. split_and!; [done|done|]. exists [rq]. split; [done|]. split; [by repeat constructor|done]. Qed.
Lemma searched_more h q query rq whole (w w1 w2 : world H) :
  taken w1 = taken w -> env_log (w_env w1) = env_log (w_env w) ++ [rq] -> asks q rq ->
  searched h query whole w1 w2 -> searched h (q :: query) whole w w2.
Proof.
  intros Ht Hl Hq (Hw & Ht2 & rqs & Hl2 & Ha & Hlen). split_and!; [done|congruence|].
  exists (rq :: rqs). rewrite Hl2, Hl, <- app_assoc. split; [done|]. split; [by constructor|].
  intros Hwh. cbn. by rewrite Hlen.
Qed.

Lemma search_each_run h gt query i hits (w : world H) :
  Forall (fun q : list Z => is_u 4 (Z.of_nat (length q))) query -> steady h w ->
  (length gt = i + length query)%nat ->
  wp (search_each gt i query hits) w (fun r w' =>
    r = (ids ← answers h query; Ok (hits + foldr Z.add 0 (zip_with common ids (drop i gt)))) /\
    searched h query (is_ok (answers h query)) w w').
Proof.
  intros Hq. revert i hits w. induction Hq as [|q query Hq Hqs IH]; intros i hits w Hw Hlen; cbn [search_each].
  - apply wp_ret. split; [|by apply searched_none]. cbn. by rewrite Z.add_0_r.
  - apply wp_bind. eapply wp_mono; [by apply (search_steady h)|]. intros r w' (-> & Hw' & Ht & rq & Hrq & Hl).
    unfold answers. cbn [mapR]. fold (answers h query).
    destruct (answer_ids _) as [ids|e]; cbn beta iota; [|split; [done|by eapply searched_stop]].
    destruct (lookup_lt_is_Some_2 gt i) as [g Hg]; [cbn in Hlen; lia|].
    rewrite (py_item_lookup _ _ _ Hg). wp_step. wp_step.
    eapply wp_mono; [apply (IH (S i)); [done|cbn in Hlen; lia]|]. intros r w'' [-> Hs].
    cbn [mbind result_bind]. destruct (answers h query) as [idss|e]; (split; [|by eapply searched_more]); [|done].
    cbn [mbind result_bind]. rewrite (drop_S _ _ _ Hg). cbn [zip_with foldr]. f_equal. lia.
Qed.

(** Building, on the load path of the script. *)
Lemma optimize_works (w : world H) :
  load_path (w_self w) = "bulk" ->
  wp optimize w (fun r w' => r = Ok tt /\ taken w' = taken w /\ w_self w' = w_self w /\
    env_log (w_env w') = env_log (w_env w) ++
      [build_request (base (w_self w)) (collection_name (w_self w)) (auth_of (w_self w))]).
Proof.
  intros Hp. unfold optimize. client_steps. rewrite Hp. cbn [String.eqb Ascii.eqb Bool.eqb]. client_steps.
  apply wp_sess_view. intros s nx op Hs. client_steps. unfold build_request. rewrite <- Hs.
  match goal with E : http_send ?rq _ = (?r, ?h) |- _ =>
    destruct (admin_ok rq _ _ _ eq_refl eq_refl E) as (a & -> & Ha); pose proof (quiet_keeps rq _ _ _ eq_refl E) as Hk end.
  client_steps. rewrite Ha. client_steps. split_and!; [done|exact Hk|done|done].
Qed.

(** The true ids among the answers of [h], the recall and the rate that the script computes from
    them when its searches took [dt], how it ends, and the lines it prints from there on. *)
Definition found (norms : list (list Z) -> list Z -> list float) (argsort : list float -> list Z)
    (h : H) (base query : list (list Z)) : result Z :=
  ids ← answers h query; Ok (foldr Z.add 0 (zip_with common ids (nearest norms argsort base <$> query))).
Definition measure (hits n : Z) (dt : float) : result (float * float) :=
  r ← recall hits n K; qps ← py_fdiv (f_of_Z n) dt; Ok (r, qps).
Definition verdict (norms : list (list Z) -> list Z -> list float) (argsort : list float -> list Z) (dt : float)
    (h : H) (base query : list (list Z)) : result (float * float) :=
  hits ← found norms argsort h base query; measure hits (Z.of_nat (length query)) dt.
Definition concluded (v : result (float * float)) : result float :=
  '(r, _) ← v; if good_recall r then Ok r else Raise (AssertionError (too_low r)).
Definition told (v : result (float * float)) : list string :=
  match v with
  | Ok (r, qps) => recall_line r qps :: (if good_recall r then [ok_line] else [])
  | Raise _ => []
  end.

(** The metadata of a load, and the matrix of [base.tolist()]. *)
Lemma to_ints_seq n : _to_ints ((VInt ∘ Z.of_nat) <$> seq 0 n) = Ok (Z.of_nat <$> seq 0 n).
Proof. unfold _to_ints. induction (seq 0 n) as [|x l IH]; [done|]. cbn. by rewrite IH. Qed.

Lemma asarray_tolist d ids base :
  load d ids base -> base <> [] -> _as_f32 (np_float64_rows base) = Ok (f32_matrix d base).
Proof.
  intros Hload Hne. unfold _as_f32. rewrite (np_asarray_f32_rect d).
  - f_equal. f_equal. unfold np_float32_rows, np_float64_rows. rewrite <- list_fmap_compose.
    rewrite <- (list_fmap_id base) at 2. apply list_fmap_ext. intros i r Hr. unfold compose, np_float32_row, id.
    rewrite <- list_fmap_compose. rewrite <- (list_fmap_id r) at 2. apply list_fmap_ext. intros j z Hz. unfold compose, id.
    pose proof (Forall_elem _ _ _ (load_finite _ _ _ Hload) (list_elem_of_lookup_2 _ _ _ Hr)) as Hfr.
    destruct (Forall_elem _ _ _ Hfr (list_elem_of_lookup_2 _ _ _ Hz)). by apply np_float32_float64.
  - by destruct base.
  - apply Forall_fmap. eapply Forall_impl; [|apply (load_dim _ _ _ Hload)]. intros r Hr. cbn. by rewrite length_fmap.
Qed.

(** Loading the vectors, on the load path of the script: one request for each chunk, and one more
    if the server turns out not to speak the binary wire. *)
Definition load_requests (c : rostam) (n : nat) : nat :=
  (load_chunks n + if binary c && negb speaks_binary then 1 else 0)%nat.

Lemma insert_base d base (w : world H) :
  load d (Z.of_nat <$> seq 0 (length base)) base -> base <> [] ->
  binary_proven (w_self w) = false -> load_path (w_self w) = "bulk" ->
  wp (insert_embeddings (np_float64_rows base) ((VInt ∘ Z.of_nat) <$> seq 0 (length base))) w (fun r w' =>
    r = Ok (length base, None) /\
    taken w' = taken w ++ chunk_points false (Z.of_nat <$> seq 0 (length base)) base /\
    bulk_changed (w_self w) (w_self w') /\
    exists rqs, env_log (w_env w') = env_log (w_env w) ++ rqs /\ Forall (inserting (w_self w)) rqs /\
      length rqs = load_requests (w_self w) (length base)).
Proof.
  intros Hload Hne Hproven Hpath.
  pose proof (to_ints_seq (length base)) as Hids. pose proof (asarray_tolist d _ base Hload Hne) as Hrows.
  pose proof (insert_works _ _ d _ _ w Hids Hrows Hload ltac:(unfold honest; by rewrite Hproven)) as Hins.
  assert (wf_call (CInsert (np_float64_rows base) ((VInt ∘ Z.of_nat) <$> seq 0 (length base)))) as Hwf
    by (by exists d, (Z.of_nat <$> seq 0 (length base)), base).
  pose proof (insert_frame (np_float64_rows base) ((VInt ∘ Z.of_nat) <$> seq 0 (length base)) w) as Hfr.
  pose proof (insert_inserts _ _ w Hwf) as (rqs & Hlog & Hrqs).
  assert (stores_payload (w_self w) = false) as Hst by (unfold stores_payload; by rewrite Hpath).
  apply wp_run in Hins as [Hr (_ & Htak & _ & Hlen)]. apply wp_run in Hfr. apply wp_run.
  rewrite Hst, ?length_fmap, ?length_seq in *.
  assert (load_chunks (length base) <> 0%nat) as Hpos.
  { pose proof (load_chunks_pos base Hne). lia. }
  split_and!; [done| |done|exists rqs; split_and!; [done|done|]].
  - rewrite Htak. f_equal. apply take_ge. pose proof (load_chunks_cover (length base)).
    pose proof (load_points _ _ _ false Hload) as Hl. rewrite length_fmap, length_seq in Hl. lia.
  - rewrite Hlog, length_app in Hlen. unfold load_requests, falls_back in *.
    destruct (load_chunks (length base)); [done|]. cbn [Nat.ltb Nat.leb andb] in Hlen.
    destruct (binary _ && _); lia.
Qed.

(** The line of the recall. *)
Definition measured (v : result (float * float)) : list string :=
  match v with Ok (r, qps) => [recall_line r qps] | Raise _ => [] end.

Lemma wp_figures {W} hits n dt (b : bench W) Q :
  let v := r ← recall hits n K; qps ← py_fdiv (f_of_Z n) dt; Ok (r, qps) in
  Q ('(x, _) ← v; Ok x) (BenchOut (b_world b) (b_reads b) (b_out b ++ measured v)) ->
  wp (r ← lift_result (recall hits n K); qps ← lift_result (py_fdiv (f_of_Z n) dt); _ ← print (recall_line r qps); mret r) b Q.
Proof.
  intros v HQ. apply wp_bind, wp_lift. subst v. destruct (recall hits n K) as [r|e]; cbn [mbind result_bind measured] in *.
  - apply wp_bind, wp_lift. destruct (py_fdiv _ dt) as [qps|e]; cbn [mbind result_bind measured] in *; [exact HQ|].
    rewrite app_nil_r in HQ. by destruct b.
  - rewrite app_nil_r in HQ. by destruct b.
Qed.

(** What the body of [init] asks of the server. *)
Definition conversation (c : rostam) (n : nat) (query : list (list Z)) (whole : bool) (rqs : list request) : Prop :=
  exists loads searches,
    rqs = loads ++ [build_request (base c) (collection_name c) (auth_of c)] ++ searches /\
    Forall (inserting c) loads /\ length loads = load_requests c n /\ in_turn query whole searches.

Lemma drive_works norms argsort str d base query (b : bench (world H)) :
  let w := b_world b in
  load d (Z.of_nat <$> seq 0 (length base)) base -> base <> [] ->
  Forall (fun q : list Z => is_u 4 (Z.of_nat (length q))) query ->
  binary_proven (w_self w) = false -> load_path (w_self w) = "bulk" -> cur_session (w_self w) <> None ->
  query_filter (w_self w) = None -> filter_blob (w_self w) = [] ->
  let t i := ticks (i + b_reads b) in
  wp (drive str base query (nearest norms argsort base <$> query)) b (fun r b' =>
    let w' := b_world b' in
    let h := env_http (w_env w') in
    let v := verdict norms argsort (fsub (t 5%nat) (t 4%nat)) h base query in
    cur_session (w_self w') <> None /\
    taken w' = taken w ++ chunk_points false (Z.of_nat <$> seq 0 (length base)) base /\
    (exists rqs, env_log (w_env w') = env_log (w_env w) ++ rqs /\
       conversation (w_self w) (length base) query (is_ok (found norms argsort h base query)) rqs) /\
    r = ('(x, _) ← v; Ok x) /\
    b_out b' = b_out b ++ [staged_line (length base) (fsub (t 1%nat) (t 0%nat)); built_line (fsub (t 3%nat) (t 2%nat))]
                       ++ measured v).
Proof.
  intros w Hload Hne Hq Hproven Hpath Hsess Hfil Hblob t. unfold drive.
  apply wp_bind, wp_clock, wp_bind, wp_on_world. eapply wp_mono; [by apply (insert_base d)|].
  intros r w1 (-> & Htak & (bp & p & Hfr) & loads & Hlog & Hloads & Hlen). cbn [b_world] in *. fold w in Htak, Hfr, Hlog, Hloads, Hlen.
  apply wp_bind, wp_ret. rewrite Nat.eqb_refl. apply wp_bind, wp_ret, wp_bind, wp_clock, wp_bind, wp_print.
  apply wp_bind, wp_clock, wp_bind, wp_on_world.
  eapply wp_mono; [apply optimize_works; cbn [b_world]; by rewrite Hfr|].
  intros r w2 (-> & Htak2 & Hself2 & Hlog2). cbn [b_world] in Hself2, Htak2, Hlog2.
  apply wp_bind, wp_clock, wp_bind, wp_print, wp_bind, wp_clock, wp_bind, wp_on_world.
  eapply wp_mono; [apply (search_each_run (env_http (w_env w2))); [done| |by rewrite length_fmap]|].
  - split; cbn [b_world]; [done|by rewrite Hself2, Hfr|by rewrite Hself2, Hfr].
  - intros r w3 (-> & [Ha3 Hs3 _] & Ht3 & searches & Hlog3 & Hin). rewrite drop_0. cbn [b_world b_reads b_out] in *.
    assert (taken w3 = taken w ++ chunk_points false (Z.of_nat <$> seq 0 (length base)) base) as Hacc by congruence.
    assert (env_log (w_env w3) = env_log (w_env w) ++
      loads ++ [build_request (Client.base (w_self w)) (collection_name (w_self w)) (auth_of (w_self w))] ++ searches) as Hlog'.
    { rewrite Hlog3, Hlog2, Hlog, Hfr, <- !app_assoc. done. }
    pose proof (answers_ext _ _ query Ha3) as Ea. rewrite <- Ea in *. clear Ea Ha3.
    unfold verdict, found in *. destruct (answers _ query) as [ids|e] eqn:Ha; cbn [mbind result_bind] in *.
    + apply wp_bind, wp_clock, wp_figures. cbn [b_world b_out]. rewrite ?Ha, Z.add_0_l. cbn [mbind result_bind].
      split_and!; [done|exact Hacc|by eexists; split; [exact Hlog'|]; exists loads, searches|done|by rewrite <- !app_assoc].
    + cbn [b_world b_out]. rewrite ?Ha. cbn [mbind result_bind].
      split_and!; [done|exact Hacc|by eexists; split; [exact Hlog'|]; exists loads, searches|done|by rewrite <- app_assoc].
Qed.

(** The ids found are at most ten for each query, and more than nine in ten of them is what the
    script asks for, in binary64 as in exact arithmetic. *)
Lemma smoke_found_range norms argsort h base query hits :
  found norms argsort h base query = Ok hits -> 0 <= hits <= Z.of_nat (length query) * K.
Proof.
  unfold found, answers. intros E. destruct (mapR _ query) as [ids|]; [|done]. injection E as <-. clear h.
  revert ids. induction query as [|q query IH]; intros [|i ids]; cbn [zip_with foldr fmap list_fmap length]; try (unfold K; lia).
  pose proof (common_range i (nearest norms argsort base q)) as Hc. specialize (IH ids).
  assert (length (nearest norms argsort base q) <= 10)%nat by (unfold nearest, K; rewrite length_take; lia).
  unfold K in *. lia.
Qed.

Lemma good_recall_exact hits n r :
  0 <= hits <= n * K -> n < 2 ^ 40 -> recall hits n K = Ok r -> good_recall r = (9 * n <? hits).
Proof.
  intros Hh Hn. unfold recall, py_int_div, K in *. destruct (n * 10) as [|d|d] eqn:Ed; [done| |lia].
  intros [= <-]. unfold good_recall. rewrite above_nine_tenths by lia.
  destruct (Z.ltb_spec (9 * Zpos d) (10 * hits)), (Z.ltb_spec (9 * n) hits); lia.
Qed.

(** How the script ends, by the number of ids found. *)
Lemma verdict_exact norms argsort dt h base query :
  Z.of_nat (length query) < 2 ^ 40 ->
  let v := verdict norms argsort dt h base query in
  let n := Z.of_nat (length query) in
  match found norms argsort h base query with
  | Ok hits => 0 <= hits <= n * K /\
      concluded v = ('(r, _) ← measure hits n dt; if 9 * n <? hits then Ok r else Raise (AssertionError (too_low r))) /\
      told v = (match measure hits n dt with
                | Ok (r, qps) => recall_line r qps :: (if 9 * n <? hits then [ok_line] else [])
                | Raise _ => []
                end)
  | Raise e => concluded v = Raise e /\ told v = []
  end.
Proof.
  intros Hn v n. unfold v, verdict. destruct (found _ _ h base query) as [hits|e] eqn:Hf; [|done].
  cbn [mbind result_bind]. apply smoke_found_range in Hf as Hr. split; [done|]. fold n in Hr |- *. unfold measure.
  destruct (recall hits n K) as [r|e] eqn:Hrec; [|done]. cbn [mbind result_bind].
  pose proof (good_recall_exact hits n r Hr Hn Hrec) as Hg.
  destruct (py_fdiv _ dt); [|done]. cbn [mbind result_bind concluded told]. by rewrite Hg.
Qed.

(** The construction succeeds, by a deletion and a creation. *)
Lemma construct_works dim db url name c (e : env H) :
  db_url db = Some url -> known_load_path (chosen_load_path db) = true ->
  wp (__init__ dim db c name true) e (fun r e' =>
    let s := {| sess_id := env_next e; sess_auth := bearer (db_api_key db) |} in
    let base := str_rstrip "/" url in
    r = Ok (new_client dim db url name) /\ accepted (env_http e') = accepted (env_http e) /\
    env_log e' = env_log e ++ [delete_request base name s; create_request base name s dim c]).
Proof.
  intros Hurl Hlp. unfold __init__. fold (chosen_load_path db). fold (known_load_path (chosen_load_path db)).
  rewrite Hurl, Hlp. cbn [negb]. client_steps. apply wp_new_session. do 2 apply wp_bind. unfold http_delete.
  apply wp_send. intros r h E. match type of E with http_send ?rq _ = _ =>
    destruct (admin_ok rq _ _ _ eq_refl eq_refl E) as (a & -> & Ha); pose proof (quiet_keeps rq _ _ _ eq_refl E) as K1 end.
  apply wp_ret. do 2 client_step. apply wp_create. intros r h' E'.
  match type of E' with http_send ?rq _ = _ =>
    destruct (admin_ok rq _ _ _ eq_refl eq_refl E') as (a' & -> & Ha'); pose proof (quiet_keeps rq _ _ _ eq_refl E') as K2 end.
  unfold create_answer. rewrite Ha'. cbn [Z.eqb Pos.eqb orb].
  client_step. apply wp_run. cbn beta iota. client_steps. cbn [env_http sent] in K2.
  split_and!; [done|exact (eq_trans K2 K1)|]. cbn. by rewrite <- app_assoc.
Qed.

Lemma wp_with_client {A} (c : rostam) (m : M (bench (world H)) A) (b : bench (env H)) (Q : result A -> bench (env H) -> Prop) :
  wp m (BenchOut {| w_self := c; w_env := b_world b |} (b_reads b) (b_out b))
    (fun r b' => Q r (BenchOut (w_env (b_world b')) (b_reads b') (b_out b'))) ->
  wp (with_client c m) b Q.
Proof. unfold wp, outcome, after, with_client. by destruct (m _). Qed.

Lemma wp_with_init {A} (body : M (bench (world H)) A) (b : bench (world H)) (Q : result A -> bench (world H) -> Prop) :
  wp body (BenchOut (entered (b_world b)) (b_reads b) (b_out b)) (fun r b' =>
    cur_session (w_self (b_world b')) <> None /\
    forall w, env_http (w_env w) = env_http (w_env (b_world b')) -> env_log (w_env w) = env_log (w_env (b_world b')) ->
      Q r (BenchOut w (b_reads b') (b_out b'))) ->
  wp (with_init body) b Q.
Proof.
  intros HQ. unfold with_init. apply wp_bind, wp_on_world, wp_init_enter, wp_try_finally.
  eapply wp_mono; [exact HQ|]. intros r b' [Hs Hr]. apply wp_on_world, wp_init_exit.
  destruct (cur_session (w_self (b_world b'))); [|done]. by apply Hr.
Qed.

Lemma wp_good {W} r (b : bench W) Q :
  Q (if good_recall r then Ok r else Raise (AssertionError (too_low r)))
    (BenchOut (b_world b) (b_reads b) (b_out b ++ if good_recall r then [ok_line] else [])) ->
  wp (_ ← py_assert (good_recall r) (too_low r); _ ← print ok_line; mret r) b Q.
Proof.
  unfold py_assert. destruct (good_recall r); intros HQ; [exact HQ|]. rewrite app_nil_r in HQ. by destruct b.
Qed.

(** The lines printed before the answers. *)
Definition preamble (n nq : nat) (dim EF : Z) (t : nat -> float) : list string :=
  [data_line n nq dim EF; staged_line n (fsub (t 1%nat) (t 0%nat)); built_line (fsub (t 3%nat) (t 2%nat))].

(** Everything the run asks of the server: the deletion and the creation of the collection, the load
    in requests that carry points, one build, then the searches. *)
Definition smoke_requests (URL : string) (EF dim : Z) (n : nat) (query : list (list Z)) (whole : bool)
    (rqs : list request) : Prop :=
  let base := str_rstrip "/" URL in
  let anonymous := {| sess_id := 0; sess_auth := None |} in
  exists loads searches,
    rqs = [delete_request base "smoke_sift" anonymous; create_request base "smoke_sift" anonymous dim (smoke_case EF)] ++
          loads ++ [build_request base "smoke_sift" None] ++ searches /\
    Forall (fun rq => rq_url rq = _url base ["smoke_sift"; "points"; "bulk"] /\ is_Some (request_points rq)) loads /\
    length loads = (load_chunks n + if speaks_binary then 0 else 1)%nat /\
    in_turn query whole searches.

Lemma inserting_bulk c rq : load_path c = "bulk" -> inserting c rq ->
  rq_url rq = _url (base c) [collection_name c; "points"; "bulk"] /\ is_Some (request_points rq).
Proof.
  intros Hp [[_ _ _ Ht] Hs]. split; [|done]. destruct Hs as [ps Hs].
  destruct Ht as [pts inline Hu _ _ _ _|_ Hb _|sq _ _ Hnp _].
  - unfold inline in Hu. by rewrite Hp in Hu.
  - unfold request_points in Hs. by rewrite Hb in Hs.
  - by rewrite Hnp in Hs.
Qed.

Lemma conversation_smoke URL EF dim n query whole id rqs :
  conversation (set_session (Some {| sess_id := id; sess_auth := None |})
    (new_client dim (to_dict (RostamConfig_url URL)) URL "smoke_sift")) n query whole rqs ->
  smoke_requests URL EF dim n query whole
    ([delete_request (str_rstrip "/" URL) "smoke_sift" {| sess_id := 0; sess_auth := None |};
      create_request (str_rstrip "/" URL) "smoke_sift" {| sess_id := 0; sess_auth := None |} dim (smoke_case EF)] ++ rqs).
Proof.
  intros (loads & searches & -> & Hl & Hn & Hs). exists loads, searches. split_and!; [done| | |done].
  - eapply Forall_impl; [|exact Hl]. intros rq. by apply inserting_bulk.
  - rewrite Hn. unfold load_requests. cbn [set_session new_client binary to_dict db_binary_wire cfg_binary_wire RostamConfig_url default from_option andb].
    by destruct speaks_binary.
Qed.

(** What the run leaves: the points added once, the requests, the outcome and the lines. *)
Definition smoke_done norms argsort URL EF dim (base query : list (list Z)) (b : bench (env H)) (r : result float)
    (b' : bench (env H)) : Prop :=
  let t i := ticks (i + b_reads b) in
  let h := env_http (b_world b') in
  let v := verdict norms argsort (fsub (t 5%nat) (t 4%nat)) h base query in
  accepted h = accepted (env_http (b_world b)) ++ chunk_points false (Z.of_nat <$> seq 0 (length base)) base /\
  (exists rqs, env_log (b_world b') = env_log (b_world b) ++ rqs /\
     smoke_requests URL EF dim (length base) query (is_ok (found norms argsort h base query)) rqs) /\
  r = concluded v /\ b_out b' = b_out b ++ preamble (length base) (length query) dim EF t ++ told v.

Lemma smoke_run_works norms argsort str URL EF dim d base query (b : bench (env H)) :
  load d (Z.of_nat <$> seq 0 (length base)) base -> base <> [] ->
  Forall (fun q : list Z => is_u 4 (Z.of_nat (length q))) query ->
  wp (smoke_run norms argsort str URL EF dim base query) b (smoke_done norms argsort URL EF dim base query b).
Proof.
  intros Hload Hne Hq. unfold smoke_run. apply wp_bind, wp_print, wp_bind, wp_on_world.
  eapply wp_mono; [by apply (construct_works _ _ URL)|]. intros r e1 (-> & Hacc1 & Hlog1). cbn beta iota.
  cbn [b_world] in Hacc1, Hlog1. apply wp_bind, wp_with_client, wp_with_init.
  eapply wp_mono; [apply (drive_works norms argsort str d); done|].
  intros r b1 (Hs & Hacc & (rqs & Hlog & Hconv) & -> & Hout). split; [done|]. intros w Hh Hl.
  cbn [b_out b_reads b_world] in Hout, Hacc, Hlog |- *. rewrite <- Hh in *. rewrite <- Hl in *.
  assert (forall r out reads, r = concluded (verdict norms argsort (fsub (ticks (5 + b_reads b)) (ticks (4 + b_reads b)))
      (env_http (w_env w)) base query) ->
    out = b_out b ++ preamble (length base) (length query) dim EF (fun i => ticks (i + b_reads b)) ++
      told (verdict norms argsort (fsub (ticks (5 + b_reads b)) (ticks (4 + b_reads b))) (env_http (w_env w)) base query) ->
    smoke_done norms argsort URL EF dim base query b r (BenchOut (w_env w) reads out)) as Hend.
  { intros r out reads -> ->. split_and!; [| |done|done].
    - cbn [b_world]. unfold taken in Hacc. rewrite <- Hacc1. by rewrite Hh.
    - eexists. split; [|apply (conversation_smoke _ _ _ _ _ _ (env_next e1)), Hconv].
      cbn [b_world]. rewrite Hlog. etransitivity; [apply (f_equal (fun l => l ++ rqs)), Hlog1|]. by rewrite <- app_assoc. }
  destruct (verdict _ _ _ _ _ _) as [[x qps]|e] eqn:Hv; cbn [mbind result_bind measured] in *.
  - apply wp_good. cbn [b_world b_reads b_out]. apply Hend; [done|]. cbn [told]. by rewrite Hout, <- !app_assoc.
  - apply Hend; [done|]. cbn [told]. by rewrite Hout, <- !app_assoc.
Qed.

(** The whole script, on files of the dimension it expects. *)
Lemma smoke_script_works norms argsort str HERE variables st files base query (b : bench (env H)) :
  load_settings HERE variables = Ok st ->
  files (s_SIFT st +:+ "/sift_base.fvecs") = Ok (vecs_file 128 base) -> vecs 128 base ->
  files (s_SIFT st +:+ "/sift_query.fvecs") = Ok (vecs_file 128 query) -> vecs 128 query ->
  let base := py_take (s_N st) base in
  let query := py_take (s_NQ st) query in
  load 128 (Z.of_nat <$> seq 0 (length base)) base -> base <> [] ->
  wp (smoke_script norms argsort str HERE variables files) b
    (smoke_done norms argsort (s_URL st) (s_EF st) 128 base query b).
Proof.
  intros Henv Hfb Hb Hfq Hq base' query' Hload Hne. unfold smoke_script, smoke_main. rewrite Henv. apply wp_bind, wp_lift.
  destruct (smoke_load base (s_N st) Hb) as (rb & Rb & Tb & Lb). destruct (smoke_load query (s_NQ st) Hq) as (rq & Rq & Tq & _).
  rewrite Hfb. cbn [mbind result_bind]. rewrite Rb. apply wp_bind, wp_lift.
  rewrite Hfq. cbn [mbind result_bind]. rewrite Rq. apply wp_bind, wp_lift. rewrite Tb, Tq, Lb.
  apply (smoke_run_works _ _ _ _ _ _ 128); [done|done|].
  assert (forall k, Forall (fun q : list Z => is_u 4 (Z.of_nat (length q))) (take k query)) as Hall.
  { intros k. apply Forall_take. eapply Forall_impl; [|apply Hq]. intros q Hl. cbn. by rewrite Hl. }
  unfold query', py_take. by case_match.
Qed.
End Run.
