(* ===== verification/ScriptProps.v ===== *)
(** * What the remaining scripts guarantee

    The properties of the Redis, Qdrant and hnswlib benchmarks of [sift1m] and of the client's
    smoke test, each proved against the service interface of its script and applied to a
    concrete service. *)

From S2P Require Import Prelude Bytes Text Float64 FloatOrder Env F32 PyVal Numpy Sift Bench Http Config Wire Client Server ClientFacts Sessions RefServer.
From S2P Require Import Net TcpClient GrpcStubs GrpcRef.
From S2P Require TcpBench TcpProps GrpcClient GrpcProps Redis Qdrant Hnswlib Smoke.

(** ** Redis *)

Section RedisLoad.
Import Redis.
Context {W : Type} {R : Redis W} {RS : RedisService W}.

(** The load stores every vector exactly once: the hash of the vector [i] under its own key,
    in order, whatever the number of vectors; the pipeline is left empty, and was executed in
    full groups of 2000 commands and a last one with the rest, empty or not. *)
Theorem redis_load_once base (w : W) :
  queued w = [] ->
  let w' := after (load base) w in
  outcome (load base) w = Ok tt /\ queued w' = [] /\
  stored w' = stored w ++ (vector_hash base <$> seq 0 (length base)) /\
  trips w' = trips w ++ replicate (length base / 2000) 2000%nat ++ [(length base mod 2000)%nat].
Proof. apply load_spec. Qed.

(** A hit is the vector it names.  In a reply to [FT.SEARCH] that gives the keys of the
    vectors [ids], with whatever fields, the script reads [ids]; and different vectors have
    different keys. *)
Theorem redis_keys_roundtrip count (hits : list (Z * list reply)) i j :
  search_ids (search_reply count hits) = Ok hits.*1 /\ (key_of i = key_of j -> i = j).
Proof.
  split; [apply search_ids_reply|]. intros E. pose proof (key_id_of i) as Hi. rewrite E, key_id_of in Hi. by simplify_eq.
Qed.

(** The index counts as ready exactly when [FT.INFO] says that all is indexed and that no
    indexing is under way; the figures are read as the numbers they spell. *)
Theorem redis_ready_cases pct ind p k :
  float_of_str pct = Ok p -> int_of_str ind = Ok k ->
  index_ready (RList [RStr "index_name"; RBytes IDX; RBytes "percent_indexed"; RBytes pct; RBytes "indexing"; RBytes ind]) =
  Ok (fleb (f_of_Z 1) p && (k =? 0)).
Proof.
  intros Hp Hk. change (index_ready _) with
    (x ← reply_float (reply_or (RBytes pct) (RInt 1)); y ← reply_int (reply_or (RBytes ind) (RInt 0));
     Ok (fleb (f_of_Z 1) x && (y =? 0))).
  unfold reply_or. cbn [reply_truthy].
  destruct (String.eqb_spec pct ""); [subst; discriminate|]. destruct (String.eqb_spec ind ""); [subst; discriminate|].
  cbn [negb reply_float reply_int]. rewrite Hp. cbn [mbind result_bind]. by rewrite Hk.
Qed.
End RedisLoad.

(** A Redis that carries everything out, and finds the first ten vectors. *)
Record mini_redis := { mr_queued : list Redis.hset; mr_stored : list Redis.hset; mr_trips : list nat }.
Definition mini_state (q s : list Redis.hset) (t : list nat) : mini_redis :=
  {| mr_queued := q; mr_stored := s; mr_trips := t |}.

#[export] Instance mini_redis_client : Redis.Redis mini_redis := {|
  Redis.redis_connect := fun _ _ _ _ => mret tt;
  Redis.redis_ping := mret tt;
  Redis.execute_command := fun _ => mret (Redis.search_reply 10 ((fun i => (Z.of_nat i, [])) <$> seq 0 10));
  Redis.pipe_hset := fun k m w => (Ok tt, mini_state (mr_queued w ++ [(k, m)]) (mr_stored w) (mr_trips w));
  Redis.pipe_execute := fun w =>
    (Ok tt, mini_state [] (mr_stored w ++ mr_queued w) (mr_trips w ++ [length (mr_queued w)]));
  Redis.is_ResponseError := fun _ => false
|}.
#[export] Program Instance mini_redis_service : Redis.RedisService mini_redis :=
  {| Redis.queued := mr_queued; Redis.stored := mr_stored; Redis.trips := mr_trips |}.
Next Obligation. done. Qed.
Next Obligation. done. Qed.

Lemma redis_load_once_witness :
  let w := mini_state [] [] [] in
  Redis.stored (after (Redis.load [[1065353216]; [0]]) w) =
  [("v:0", [("vec", Redis.tobytes [1065353216])]); ("v:1", [("vec", Redis.tobytes [0])])].
Proof. exact (proj1 (proj2 (proj2 (redis_load_once [[1065353216]; [0]] (mini_state [] [] []) eq_refl)))). Defined.

(** ** Qdrant *)

Section QdrantBuild.
Import Qdrant.
Context {W : Type} {Q : Qdrant W} {QS : QdrantService W} {NP : Numpy}.

(** The steps of [build] before its wait. *)
Definition asked (base : list (list Z)) (dim : Z) : M W unit :=
  _ ← drop_existing; _ ← create_collection COLL (config_of dim None None); upload_collection COLL (upload_of base).

(** The collection is measured only when it is rebuilt and indexed.  If [build] returns, it
    asked whether the collection existed, deleted it if it did, created it with the benchmark's
    settings, uploaded every vector under its number, and polled until the first answer that
    was green with at least 99% of the vectors indexed.  And it does return, whatever polls it
    is allowed beyond those needed, when the service takes the requests and becomes ready. *)
Theorem qdrant_build_ready fuel base dim (w : W) :
  wp (build fuel base dim) w (fun r w' => r = Ok tt ->
    exists existed infos last,
      calls w' = calls w ++ prepared existed (config_of dim None None) (upload_of base) ++ (CalledInfo <$> infos ++ [last]) /\
      Forall (fun i => ready (length base) i = Ok false) infos /\ ready (length base) last = Ok true) /\
  forall t, outcome (asked base dim) w = Ok tt -> ready_at t (length base) (after (asked base dim) w) -> (t < fuel)%nat ->
    outcome (build fuel base dim) w = Ok tt.
Proof.
  split; [apply build_returns|]. intros t Hok Hready Hf.
  assert (build fuel base dim w = (_ ← asked base dim; wait_ready fuel (length base)) w) as Hb.
  { unfold build, asked, mbind, M_bind.
    destruct (drop_existing w) as [[[]|e] v1]; [|done]. by destruct (create_collection _ _ v1) as [[[]|e] v2]. }
  unfold outcome. rewrite Hb. change (wp (_ ← asked base dim; wait_ready fuel (length base)) w (fun r _ => r = Ok tt)).
  apply wp_bind. apply wp_run. rewrite Hok. eapply wp_mono; [by apply (wp_wait_ready t)|]. by intros r w' [-> _].
Qed.
End QdrantBuild.

(** A Qdrant whose index is ready after some polls. *)
Record mini_qdrant := { mq_calls : list Qdrant.qdrant_call; mq_wait : nat }.
Definition mini_info (wait : nat) : Qdrant.collection_info :=
  match wait with
  | O => {| Qdrant.ci_status := "green"; Qdrant.ci_indexed_vectors_count := Some 100 |}
  | S _ => {| Qdrant.ci_status := "yellow"; Qdrant.ci_indexed_vectors_count := None |}
  end.
Definition mini_call {A} (a : A) (c : Qdrant.qdrant_call) : M mini_qdrant A := fun w =>
  (Ok a, {| mq_calls := mq_calls w ++ [c]; mq_wait := mq_wait w |}).

#[export] Instance mini_qdrant_client : Qdrant.Qdrant mini_qdrant := {|
  Qdrant.QdrantClient := fun _ => mret tt;
  Qdrant.collection_exists := fun _ => mini_call true (Qdrant.CalledExists true);
  Qdrant.delete_collection := fun _ => mini_call tt Qdrant.CalledDelete;
  Qdrant.create_collection := fun _ c => mini_call tt (Qdrant.CalledCreate c);
  Qdrant.upload_collection := fun _ u => mini_call tt (Qdrant.CalledUpload u);
  Qdrant.get_collection := fun _ w =>
    (Ok (mini_info (mq_wait w)),
     {| mq_calls := mq_calls w ++ [Qdrant.CalledInfo (mini_info (mq_wait w))]; mq_wait := pred (mq_wait w) |});
  Qdrant.query_points := fun _ _ _ _ => mret [Qdrant.PointInt 6; Qdrant.PointInt 8]
|}.
#[export] Program Instance mini_qdrant_service : Qdrant.QdrantService mini_qdrant :=
  {| Qdrant.calls := mq_calls; Qdrant.coming w j := mini_info (mq_wait w - j) |}.
Next Obligation. intros w. apply wp_run. by intros b [= <-]. Qed.
Next Obligation. intros w. by apply wp_run. Qed.
Next Obligation. intros config w. by apply wp_run. Qed.
Next Obligation. intros u w. by apply wp_run. Qed.
Next Obligation.
  intros w. apply wp_run. cbn [mq_calls mq_wait]. rewrite Nat.sub_0_r. split_and!; [done|done|]. intros j.
  cbn. f_equal. lia.
Qed.

Lemma qdrant_build_ready_witness :
  outcome (Qdrant.build 9 [[1065353216]; [0]] 1) {| mq_calls := []; mq_wait := 2 |} = Ok tt.
Proof.
  refine (proj2 (qdrant_build_ready 9 [[1065353216]; [0]] 1 {| mq_calls := []; mq_wait := 2 |}) 2%nat _ _ _).
  - reflexivity.
  - split; [|by vm_compute]. intros [|[|j]] Hj; [by vm_compute|by vm_compute|lia].
  - lia.
Defined.

Section QdrantReuse.
Import Qdrant.
Context {W : Type} {Q : Qdrant W} {QS : QdrantService W} {NP : Numpy} {C : Clock}.

(** The latency script measures what it finds.  Before it measures, it either reuses the
    collection, having asked nothing but whether it exists and how many of its vectors are
    indexed, at least 99%; or, when there was none or it had fewer, it rebuilds it and waits
    until it is ready.  And an existing collection with that many vectors indexed is reused
    whatever else is true of it: its status, its settings and its quantization are not asked
    for. *)
Theorem qdrant_reuse polls base dim (b : bench W) :
  wp (reuse_or_build polls base dim) b (fun r b' => r = Ok tt ->
    (exists info e, calls (b_world b') = calls (b_world b) ++ [CalledExists true; CalledInfo info] /\
       enough (length base) = Ok e /\ e <= indexed info) \/
    (exists seen existed infos last,
       calls (b_world b') = calls (b_world b) ++ seen ++ prepared existed (config_of dim None None) (upload_of base) ++
         (CalledInfo <$> infos ++ [last]) /\
       not_reusable (length base) seen /\ ready (length base) last = Ok true)) /\
  forall w' e, collection_exists COLL (b_world b) = (Ok true, w') ->
    enough (length base) = Ok e -> e <= indexed (coming w' 0%nat) ->
    outcome (reuse_or_build polls base dim) b = Ok tt /\
    calls (b_world (after (reuse_or_build polls base dim) b)) =
      calls (b_world b) ++ [CalledExists true; CalledInfo (coming w' 0%nat)].
Proof.
  split; [apply wp_reuse_or_build|]. intros w' e Hex He Hle.
  pose proof (exists_call (b_world b)) as Hc. apply wp_run in Hc. unfold outcome, after in Hc. rewrite Hex in Hc.
  specialize (Hc true eq_refl). cbn [snd] in Hc.
  cut (wp (reuse_or_build polls base dim) b (fun r b' => r = Ok tt /\
    calls (b_world b') = calls (b_world b) ++ [CalledExists true; CalledInfo (coming w' 0%nat)])); [done|].
  unfold reuse_or_build, can_skip. apply wp_bind, wp_on_world, wp_bind. apply wp_run. unfold outcome, after.
  rewrite Hex. cbn [fst snd]. apply wp_bind. eapply wp_mono; [apply info_call|]. intros r w'' (-> & Hi & _).
  apply wp_bind, wp_lift. rewrite He. apply wp_ret. rewrite (proj2 (Z.leb_le _ _) Hle). apply wp_print. split; [done|].
  cbn [b_world]. by rewrite Hi, Hc, <- app_assoc.
Qed.
End QdrantReuse.

(** A collection that [qdrant_bench.py] left with its vectors quantized is reused as it is. *)
Definition quantized : mini_qdrant :=
  {| mq_calls := [Qdrant.CalledCreate (Qdrant.config_of 1 (Some true) (Qdrant.quant_of true))]; mq_wait := 0 |}.

Lemma qdrant_reuse_witness :
  Qdrant.calls (b_world (after (Qdrant.reuse_or_build (C := fun _ => f_of_Z 0) 9 [[1065353216]; [0]] 1) (Bench quantized 0))) =
  [Qdrant.CalledCreate (Qdrant.config_of 1 (Some true) (Qdrant.quant_of true));
   Qdrant.CalledExists true; Qdrant.CalledInfo (mini_info 0)].
Proof.
  refine (proj2 (proj2 (qdrant_reuse (C := fun _ => f_of_Z 0) 9 [[1065353216]; [0]] 1 (Bench quantized 0))
    (after (Qdrant.collection_exists Qdrant.COLL) quantized) 1 eq_refl _ _)).
  - by vm_compute.
  - by vm_compute.
Defined.

(** ** The latency scripts *)

Section Alike.
Context {NP : Numpy} {NL : NumpyLaws NP} {C : Clock} {P : Peer}.
Context {W S : Type} {G : Grpc W S} {GL : GrpcLaws W S G} {PB : Codec} {PL : CodecLaws PB}.
Context {V : Type} {Q : Qdrant.Qdrant V}.

(** C33: the three latency scripts are one measurement.  Give the TCP server, the gRPC servicer
    and the Qdrant service the same answers, the first two with ids counted from 1, Qdrant's
    from 0, and the three runs the same clock: then the three latency runs return the same
    recall, percentiles and mean. *)
Theorem latency_scripts_agree ADDR hits_of GADDR (s : servicer S) server resp_of next ef (found : list Z -> list Z) J
    queries gt (sock : bench sock) (w : bench W) (v : bench V) :
  is_ok (TcpBench.dial ADDR) = true -> TcpBench.answering hits_of -> (forall q, (hits_of q).*1 = one_based (found q)) ->
  GrpcClient.serves s resp_of next -> GrpcClient.up GADDR s server (b_world w) ->
  (forall q, h_id <$> resp_hits (resp_of (GrpcClient.request_of q)) = one_based (found q)) ->
  Qdrant.finds ef found J -> J (b_world v) ->
  Forall (fun q => search_args q TcpClient.K) queries -> Forall GrpcClient.query_ok queries ->
  (LAT_N <= length queries)%nat -> (LAT_N <= length gt)%nat ->
  b_reads sock = b_reads w -> b_reads v = b_reads w ->
  let tcp := outcome (TcpBench.latency ADDR queries gt) sock in
  let grpc := outcome (GrpcClient.latency GADDR queries gt) w in
  let qdrant := outcome (Qdrant.latency queries gt ef) v in
  tcp = grpc /\ grpc = qdrant.
Proof.
  intros Haddr Htcp Hids Hserves Hup Hresp Hfinds HJ Hargs Hq Hnq Hng Hs Hv tcp grpc qdrant.
  unfold tcp, grpc, qdrant.
  rewrite (TcpBench.tcp_latency_value hits_of Htcp) by done.
  rewrite (GrpcClient.grpc_latency_value GADDR s server resp_of next Hserves) by done.
  rewrite (Qdrant.qdrant_latency_value ef found J) by done. rewrite Hs, Hv.
  assert (forall answer : nat -> list Z, (forall i, answer i = one_based (found (queries !!! i))) ->
    total_hits answer (run_truth gt) (seq 0 LAT_N) =
    total_hits (fun i => found (queries !!! i)) (fun i => gt !!! i) (seq 0 LAT_N)) as Hhits.
  { intros answer Ha. generalize (seq 0 LAT_N). intros todo. induction todo as [|i todo IH]; [done|].
    cbn [total_hits foldr]. fold (total_hits answer (run_truth gt) todo).
    fold (total_hits (fun i => found (queries !!! i)) (fun i => gt !!! i) todo). rewrite Ha. unfold run_truth at 1.
    by rewrite common_one_based, IH. }
  rewrite (Hhits (TcpBench.run_answer hits_of queries)) by (intros i; apply Hids).
  by rewrite (Hhits (GrpcClient.grpc_answer resp_of queries)) by (intros i; apply Hresp).
Qed.
End Alike.

(** The demonstration servers: they find the vectors 6 and 8 for every query. *)
Lemma latency_scripts_agree_witness :
  let queries := replicate LAT_N [1065353216; 1073741824] in
  let gt := replicate LAT_N [6; 41] in
  outcome (GrpcClient.latency (G := grpc_ref _) (C := TcpProps.still_clock) "127.0.0.1:7701" queries gt)
    (Bench (GrpcProps.demo_net GrpcProps.demo_servicer) 0) =
  outcome (Qdrant.latency (C := TcpProps.still_clock) queries gt 64) (Bench quantized 0).
Proof.
  refine (proj2 (latency_scripts_agree (G := grpc_ref _) (C := TcpProps.still_clock) (P := TcpProps.demo_peer)
    "127.0.0.1:7700" TcpProps.demo_hits "127.0.0.1:7701" GrpcProps.demo_servicer [] (fun _ => GrpcProps.demo_response)
    GrpcProps.demo_next 64 (fun _ => [6; 8]) (fun _ => True)
    (replicate LAT_N [1065353216; 1073741824]) (replicate LAT_N [6; 41])
    (Bench (connected []) 0) (Bench (GrpcProps.demo_net GrpcProps.demo_servicer) 0) (Bench quantized 0)
    _ TcpProps.demo_answering _ GrpcProps.demo_serves _ _ _ _ _ _ _ _ _ _)).
  - done.
  - done.
  - reflexivity.
  - done.
  - intros q w _. apply wp_run. split; [by exists [Qdrant.PointInt 6; Qdrant.PointInt 8]|done].
  - done.
  - apply Forall_replicate, TcpProps.demo_args.
  - apply Forall_replicate. split; [by repeat constructor|done].
  - by rewrite length_replicate.
  - by rewrite length_replicate.
  - reflexivity.
  - reflexivity.
Defined.

(** ** The sweeps *)

(** The sweeps count alike.  The one call of the hnswlib script and the query-by-query loop
    of the Redis and Qdrant scripts find the same number of true neighbours in the same
    answers, so that their recalls compare. *)
Theorem sweeps_count_alike {W} (labels gt : list (list Z)) (query : nat -> M W (list Z)) (w : W) :
  (forall i w, (i < length labels)%nat -> outcome (query i) w = Ok (labels !!! i)) ->
  (length labels <= length gt)%nat ->
  outcome (count_hits query (truth_at gt) (seq 0 (length labels)) 0) w =
  Hnswlib.label_hits labels gt (seq 0 (length labels)).
Proof.
  intros Hq Hgt. set (todo := seq 0 (length labels)).
  assert (forall i, i ∈ todo -> truth_at gt i = Ok (gt !!! i)) as Hin.
  { intros i [_ Hi]%elem_of_seq. unfold truth_at. destruct (lookup_lt_is_Some_2 gt i) as [g Hg]; [lia|].
    by rewrite (py_item_lookup _ _ _ Hg), (list_lookup_total_correct _ _ _ Hg). }
  rewrite Hnswlib.label_hits_total by (intros i [_ Hi]%elem_of_seq; lia).
  destruct (wp_count_hits (fun _ => True) query (truth_at gt) (fun i => labels !!! i) (fun i => gt !!! i) todo 0 w) as [Hr _];
    [|intros i Hi; by apply Hin|done|by rewrite Z.add_0_l in Hr].
  intros i v [_ Hi]%elem_of_seq _. apply wp_run. split; [apply Hq; lia|done].
Qed.

Lemma sweeps_count_alike_witness :
  outcome (count_hits (W := unit) (fun i => mret ([[3; 4]; [5; 6]] !!! i)) (truth_at [[4; 7]; [6; 5]]) [0; 1]%nat 0) tt = Ok 3.
Proof.
  exact (sweeps_count_alike [[3; 4]; [5; 6]] [[4; 7]; [6; 5]] (fun i => mret ([[3; 4]; [5; 6]] !!! i)) tt
    (fun i w _ => eq_refl) (le_n 2)).
Defined.

(** ** The smoke test *)

Section SmokeReading.
Context {NP : Numpy} {NL : NumpyLaws NP}.

(** The smoke test reads SIFT and little else.  Of a file of vectors of dimension 128 its
    reader returns the first [n] vectors; of a file of another dimension [d], when [129 n] is
    not a multiple of [d + 1], it raises [ValueError], although the file is well formed. *)
Theorem smoke_reads_sift d rows n :
  vecs d rows -> 0 < n ->
  (d = 128%nat -> Smoke.read_fvecs (vecs_file d rows) n = Ok (take (Z.to_nat n) rows)) /\
  (n * 129 <= Z.of_nat (length rows * S d) -> (n * 129) mod (Z.of_nat d + 1) <> 0 ->
   Smoke.read_fvecs (vecs_file d rows) n = Raise ValueError).
Proof.
  intros Hv Hn. split.
  - intros ->. by apply Smoke.smoke_read_128.
  - intros Hl Hm. by apply Smoke.smoke_read_other.
Qed.
End SmokeReading.

Lemma smoke_reads_sift_witness :
  Smoke.read_fvecs (vecs_file 1 (replicate 65 [0])) 1 = Raise ValueError.
Proof.
  refine (proj2 (smoke_reads_sift 1 (replicate 65 [0]) 1 _ _) _ _).
  - split; [done|by apply Forall_replicate|apply Forall_replicate; by repeat constructor|done].
  - lia.
  - rewrite length_replicate. lia.
  - by vm_compute.
Defined.

Section SmokeRun.
Context {H : Type} {HT : Http H} {HL : HttpLaws H} {NP : Numpy} {NL : NumpyLaws NP} {C : Clock}.
Context {PS : PointServer H} {WS : WorkingServer H} {SS : SearchServer H} {SV : Smoke.SmokeServer H}.

(** The verdict of the smoke test is the server's, on vectors of any dimension that it is given:
    what [smoke_done] says of the points, the requests, the outcome and the lines holds. *)
Theorem smoke_verdict norms argsort str URL EF dim d base query (b : bench (env H)) :
  load d (Z.of_nat <$> seq 0 (length base)) base -> base <> [] ->
  Forall (fun q : list Z => is_u 4 (Z.of_nat (length q))) query ->
  let run := Smoke.smoke_run norms argsort str URL EF dim base query in
  Smoke.smoke_done norms argsort URL EF dim base query b (outcome run b) (after run b).
Proof. intros Hl Hb Hq run. by apply (Smoke.smoke_run_works norms argsort str URL EF dim d base query b Hl Hb Hq). Qed.

End SmokeRun.

#[export] Program Instance serving_smoke : Smoke.SmokeServer (serving true) := {}.
Next Obligation.
  intros rq h r h' Hp Hq Hsend. rewrite serving_send_eq, Hq in Hsend by done. simplify_eq. by eexists.
Qed.
Next Obligation.
  intros rq h r h' Hp Hsend. rewrite serving_send_eq, Hp in Hsend by done. simplify_eq. cbn. by rewrite app_nil_r.
Qed.
Next Obligation. done. Qed.
Next Obligation.
  intros rq sq h r h' sq' Hq Hp Hsend. rewrite serving_send_eq, Hp in Hsend by done. simplify_eq. cbn.
  by rewrite app_nil_r.
Qed.

(** The distance along the first coordinate, for the demonstration. *)
Definition flat_norms (base : list (list Z)) (q : list Z) : list float := (fun r : list Z => f_of_Z (default 0 (head r))) <$> base.
Definition first_ids (d : list float) : list Z := Z.of_nat <$> seq 0 (length d).

(** A clock that ticks seconds. *)
Definition seconds : Clock := fun n => f_of_Z (Z.of_nat n).
Definition no_str (e : exn) : string := "".
Definition smoke_world : bench (env (serving true)) := Bench (fresh_env (Serving (binary := true) [])) 0.

Lemma smoke_verdict_witness :
  let run := Smoke.smoke_run (C := seconds) flat_norms first_ids no_str "http://h" 64 2 demo_rows demo_rows in
  Smoke.smoke_done (C := seconds) flat_norms first_ids "http://h" 64 2 demo_rows demo_rows smoke_world
    (outcome run smoke_world) (after run smoke_world).
Proof.
  refine (smoke_verdict (C := seconds) flat_norms first_ids no_str "http://h" 64 2 2 demo_rows demo_rows smoke_world _ _ _).
  - destruct demo_load as [_ _ Hd Hf Hw]. split; [reflexivity| |exact Hd|exact Hf|exact Hw].
    apply (bool_decide_unpack _); by vm_compute.
  - discriminate.
  - apply (bool_decide_unpack _); by vm_compute.
Defined.




(** With ten vectors the same server, which returns the first ids, passes the test. *)
Example smoke_passes :
  let run := Smoke.smoke_run (C := seconds) flat_norms first_ids no_str "http://h" 64 1 (replicate 10 [0]) [[0]] in
  outcome run smoke_world = Ok (f_of_Z 1) /\
  b_out (after run smoke_world) =
    ["[smoke] base=10 query=1 dim=1 ef=64"; "[smoke] staged 10 vectors in 1.0s; building...";
     "[smoke] index built in 1.0s; searching..."; "[smoke] recall@10=1.0000  qps=1";
     "SMOKE OK ✅  (create -> insert -> build -> search all work; recall sane)"].
Proof. by vm_compute. Qed.
