(* ===== verification/Num.v ===== *)
(** * Numbers: one layout, two arithmetics

    [decollide] of the chart generator is written once, over the operations a Python float and
    an exact rational share; the float instance is what runs, the rational one is what the
    geometry theorems are about. *)

From S2P Require Import Prelude Bytes Float64.
From Stdlib Require Import QArith.

#[local] Open Scope Z_scope.

Class Num (A : Type) := {
  n_of_Z : Z -> A;
  n_add : A -> A -> A;
  n_sub : A -> A -> A;
  n_ltb : A -> A -> bool
}.

#[export] Instance float_num : Num float :=
  {| n_of_Z := f_of_Z; n_add := fadd; n_sub := fsub; n_ltb := fltb |}.

Definition Qltb (x y : Q) : bool := negb (Qle_bool y x).
#[export] Instance Q_num : Num Q :=
  {| n_of_Z := inject_Z; n_add := Qplus; n_sub := Qminus; n_ltb := Qltb |}.

Section Order.
Context {A : Type} {N : Num A}.

(** [max(a, b)], [min(a, b)]: the first unless the second is strictly beyond it *)
Definition n_max (a b : A) : A := if n_ltb a b then b else a.
Definition n_min (a b : A) : A := if n_ltb b a then b else a.

(** [max(xs)], [min(xs)] *)
Definition py_max (xs : list A) : result A :=
  match xs with [] => Raise ValueError | x :: xs => Ok (foldl n_max x xs) end.
Definition py_min (xs : list A) : result A :=
  match xs with [] => Raise ValueError | x :: xs => Ok (foldl n_min x xs) end.

(** [sorted(xs, key=key)]: stable *)
Fixpoint insert_by {B} (key : B -> A) (x : B) (l : list B) : list B :=
  match l with
  | [] => [x]
  | y :: l' => if n_ltb (key y) (key x) then y :: insert_by key x l' else x :: l
  end.
Definition sorted_by {B} (key : B -> A) (l : list B) : list B := foldr (insert_by key) [] l.
End Order.
