(* ===== verification/Disk.v ===== *)
(** * Paths and files: the disk the chart generators write to

    [pathlib.Path(s)] by its text, and the interface of the disk: writing a file, which may fail,
    and listing a directory.  A directory may have several paths; [same_dir] says which paths are
    of one directory.  The reference disk at the end keeps its files in a map and refuses to write
    to some directories. *)

From S2P Require Import Prelude Text.

(** ** [str(pathlib.Path(s))], on a POSIX system *)

(** The root of a path, and the rest: two slashes, but not three, are a root of their own. *)
Definition path_root (s : string) : string * string :=
  match s with
  | String "/" (String "/" (String "/" r)) => ("/", r)
  | String "/" (String "/" r) => ("//", r)
  | String "/" r => ("/", r)
  | _ => ("", s)
  end.
(** The components: neither empty ones nor dots count. *)
Definition path_part (p : string) : bool := negb (String.eqb p "" || String.eqb p ".").
Definition path_parts (s : string) : list string := List.filter path_part (str_split "/" s).

Definition pathlib_Path (s : string) : string :=
  let '(root, rest) := path_root s in
  let p := root +:+ str_join "/" (path_parts rest) in
  if String.eqb p "" then "." else p.

Example path_examples :
  pathlib_Path <$> [""; "."; "./x"; "missing/"; "a//b/./c/.."; "/"; "//"; "///"; "//a/"; "///a"; "/./a"] =
  ["."; "."; "x"; "missing"; "a/b/c/.."; "/"; "//"; "/"; "//a"; "/a"; "/a"].
Proof. by vm_compute. Qed.

(** ** The disk *)

Class Disk (F : Type) := {
  (** [(d / n).write_text(body)] *)
  write_text : string -> string -> string -> M F unit;
  (** the names in the directory [d] *)
  listing : string -> F -> list string
}.

(** A write that returns has written the file, by whatever path its directory is named; a write,
    even one that raises, changes no other file. *)
Class DiskLaws (F : Type) {D : Disk F} := {
  same_dir : string -> string -> bool;
  same_dir_refl d : same_dir d d = true;
  contents : F -> string -> string -> option string;
  write_ok d n body fs fs' d' :
    write_text d n body fs = (Ok tt, fs') -> same_dir d d' = true -> contents fs' d' n = Some body;
  write_elsewhere d n body fs r fs' d' n' :
    write_text d n body fs = (r, fs') -> same_dir d d' = false \/ n' <> n -> contents fs' d' n' = contents fs d' n';
  listing_contents d n fs : n ∈ listing d fs <-> is_Some (contents fs d n)
}.

Section Writes.
Context {F : Type} {D : Disk F} {DL : DiskLaws F}.

(** From [fs] to [fs'] no file has changed but those of the names [ns] in the directories [ds]. *)
Definition untouched (ds ns : list string) (fs fs' : F) : Prop :=
  forall d n, (forall t, In t ds -> same_dir t d = false) \/ ~ In n ns -> contents fs' d n = contents fs d n.

(** One of these files could not be written, for the reason [e]. *)
Definition write_fails (ds ns : list string) (e : exn) : Prop :=
  exists d n body fs, In d ds /\ In n ns /\ outcome (write_text d n body) fs = Raise e.

(** All of them can be written, at any time. *)
Definition writable (ds ns : list string) : Prop :=
  forall d n body fs, In d ds -> In n ns -> is_ok (outcome (write_text d n body) fs) = true.

Lemma writable_fails ds ns e : writable ds ns -> ~ write_fails ds ns e.
Proof. intros Hw (d & n & body & fs & Hd & Hn & He). specialize (Hw d n body fs Hd Hn). by rewrite He in Hw. Qed.

Lemma untouched_refl ds ns fs : untouched ds ns fs fs.
Proof. done. Qed.
Lemma untouched_trans ds ns fs1 fs2 fs3 : untouched ds ns fs1 fs2 -> untouched ds ns fs2 fs3 -> untouched ds ns fs1 fs3.
Proof. intros H1 H2 d n Hn. by rewrite H2, H1. Qed.
Lemma untouched_mono ds ns ns' fs fs' : incl ns ns' -> untouched ds ns fs fs' -> untouched ds ns' fs fs'.
Proof. intros Hi Hu d n [Hd|Hn]; apply Hu; [by left|right; intros Hin; by apply Hn, Hi]. Qed.
Lemma write_fails_mono ds ns ns' e : incl ns ns' -> write_fails ds ns e -> write_fails ds ns' e.
Proof. intros Hi (d & n & body & fs & Hd & Hn & He). exists d, n, body, fs. auto. Qed.

Lemma write_untouched ds d n body fs r fs' :
  In d ds -> write_text d n body fs = (r, fs') -> untouched ds [n] fs fs'.
Proof.
  intros Hd E d' n' Hn. apply (write_elsewhere _ _ _ _ _ _ _ _ E). destruct Hn as [Ht|Hn]; [left; by apply Ht|].
  right. intros ->. apply Hn. by left.
Qed.

(** Writing one text under one name in each of some directories. *)
Lemma wp_write_each ds n body fs :
  wp (for_each ds (fun d => write_text d n body)) fs (fun r fs' =>
    untouched ds [n] fs fs' /\
    match r with Ok _ => forall d, In d ds -> contents fs' d n = Some body | Raise e => write_fails ds [n] e end).
Proof.
  cut (forall todo fs1, incl todo ds -> wp (for_each todo (fun d => write_text d n body)) fs1 (fun r fs' =>
    untouched ds [n] fs1 fs' /\ (forall d, contents fs1 d n = Some body -> is_ok r = true -> contents fs' d n = Some body) /\
    match r with Ok _ => forall d, In d todo -> contents fs' d n = Some body | Raise e => write_fails ds [n] e end)).
  { intros Hc. eapply wp_mono; [apply (Hc ds fs), incl_refl|]. intros r fs' (Hu & _ & Hr). by split. }
  induction todo as [|d todo IH]; intros fs1 Hi; cbn [for_each].
  { apply wp_ret. split_and!; [done|done|by intros ? []]. }
  assert (In d ds) as Hd by (apply Hi; by left).
  apply wp_bind, wp_run. destruct (write_text d n body fs1) as [[[]|e] fs2] eqn:E; unfold outcome, after; rewrite E; cbn [fst snd].
  - eapply wp_mono; [apply IH; intros x Hx; apply Hi; by right|]. intros r fs3 (Hu & Hkeep & Hr).
    assert (forall d', same_dir d d' = true -> contents fs2 d' n = Some body) as Hnew by (intros d'; by apply (write_ok _ _ _ _ _ _ E)).
    split; [by eapply untouched_trans; [eapply write_untouched|]|]. split.
    + intros d' Hd' Hok. apply Hkeep; [|done]. destruct (same_dir d d') eqn:Hs; [by apply Hnew|].
      by rewrite (write_elsewhere _ _ _ _ _ _ _ _ E (or_introl Hs)).
    + destruct r as [[]|e]; [|done]. intros d' [<-|Hd']; [|by apply Hr]. apply Hkeep; [|done]. apply Hnew, same_dir_refl.
  - split; [by eapply write_untouched|]. split; [done|]. exists d, n, body, fs1. split_and!; [done|by left|].
    unfold outcome. by rewrite E.
Qed.
End Writes.

(** ** A reference disk *)

Record mem_disk := MemDisk { md_files : gmap (string * string) string; md_readonly : list string }.

Definition mem_write (d n body : string) : M mem_disk unit := fun fs =>
  if existsb (String.eqb d) (md_readonly fs) then (Raise (OtherError "PermissionError"), fs)
  else (Ok tt, MemDisk (<[(d, n) := body]> (md_files fs)) (md_readonly fs)).

#[export] Instance mem_disk_disk : Disk mem_disk := {|
  write_text := mem_write;
  listing d fs := omap (fun '((d', n), _) => if String.eqb d' d then Some n else None) (map_to_list (md_files fs))
|}.

#[export] Program Instance mem_disk_laws : DiskLaws mem_disk :=
  {| same_dir := String.eqb; contents fs d n := md_files fs !! (d, n) |}.
Next Obligation. intros d. apply String.eqb_refl. Qed.
Next Obligation.
  intros d n body fs fs' d' E ->%String.eqb_eq. cbn in E. unfold mem_write in E.
  destruct (existsb _ _); [done|]. injection E as <-. apply lookup_insert_eq.
Qed.
Next Obligation.
  intros d n body fs r fs' d' n' E Hn. cbn in E. unfold mem_write in E.
  destruct (existsb _ _); injection E as _ <-; [done|]. apply lookup_insert_ne. intros [= -> ->].
  destruct Hn as [Hd|Hn]; [by rewrite String.eqb_refl in Hd|done].
Qed.
Next Obligation.
  intros d n fs. cbn. rewrite list_elem_of_omap. split.
  - intros ([[d' n'] body] & Hin & E). destruct (String.eqb_spec d' d) as [->|]; [|done]. injection E as ->.
    exists body. by apply elem_of_map_to_list.
  - intros [body Hb]. exists ((d, n), body). split; [by apply elem_of_map_to_list|]. by rewrite String.eqb_refl.
Qed.
