(* ===== verification/KvCharts.v ===== *)
(** * The charts of the key-value benchmark: [netkv/charts/mkcharts.py]

    The whole generator: the SVG writers, the placement of the labels, the data and the
    charts, and the writing of each chart to every target directory in both themes.  Numbers
    are binary64 where the script's are floats and integers where they are integers; a
    template's double quotes are written as backquotes inside [q]. *)

From S2P Require Import Prelude Bytes Text Float64 FloatOrder PyVal Num Disk.
From S2P Require Bench.
From stdpp Require sorting.

Definition W : Z := 760.
Definition H : Z := 400.
Definition ML : Z := 66.
Definition MR : Z := 132.
Definition MT : Z := 52.
Definition MB : Z := 66.
Definition PW : Z := W - ML - MR.
Definition PH : Z := H - MT - MB.

Record theme := {
  surface : string; ink : string; ink2 : string; grid : string; rule_ink : string; series_inks : list string
}.
Inductive theme_name := Light | Dark.
Definition theme_text (th : theme_name) : string := match th with Light => "light" | Dark => "dark" end.

Definition THEMES (th : theme_name) : theme :=
  match th with
  | Light => {| surface := "#fcfcfb"; ink := "#0b0b0b"; ink2 := "#52514e"; grid := "#e5e4e0"; rule_ink := "#8a8880";
                series_inks := ["#2a78d6"; "#eb6834"; "#1baf7a"; "#eda100"; "#e87ba4"; "#008300"; "#4a3aa7"] |}
  | Dark => {| surface := "#1a1a19"; ink := "#ffffff"; ink2 := "#c3c2b7"; grid := "#33322e"; rule_ink := "#7a786f";
               series_inks := ["#3987e5"; "#d95926"; "#199e70"; "#c98500"; "#d55181"; "#008300"; "#9085e9"] |}
  end.

Definition SLOT : dict nat :=
  [("Rostam", 0); ("Memcached", 1); ("Dragonfly", 2); ("Valkey", 3); ("Redis", 4); ("KeyDB", 5); ("Aerospike", 6)]%nat.

Definition esc (s : string) : string :=
  str_replace ">" "&gt;" (str_replace "<" "&lt;" (str_replace "&" "&amp;" s)).

(** [f"{x:.1f}"] *)
Definition f1 (x : float) : string := fmt_fixed 1 x.
Definition z1 (z : Z) : string := f1 (f_of_Z z).

Definition fz := f_of_Z.

Definition nl : string := String "010" "".

Definition head (t : theme) (title sub : string) : string :=
  cat [q "<svg xmlns=`http://www.w3.org/2000/svg` width=`"; dec W; q "` height=`"; dec H; q "` viewBox=`0 0 "; dec W;
       " "; dec H; q "` role=`img` aria-label=`"; esc title; q "`>"; nl;
       q "<rect width=`"; dec W; q "` height=`"; dec H; q "` fill=`"; surface t; q "`/>"; nl;
       "<style>"; nl;
       " .ttl{font:600 15px system-ui,-apple-system,Segoe UI,Roboto,sans-serif;fill:"; ink t; "}"; nl;
       " .sub{font:400 12px system-ui,-apple-system,Segoe UI,Roboto,sans-serif;fill:"; ink2 t; "}"; nl;
       " .ax {font:400 11px system-ui,-apple-system,Segoe UI,Roboto,sans-serif;fill:"; ink2 t; "}"; nl;
       " .lb {font:600 11px system-ui,-apple-system,Segoe UI,Roboto,sans-serif;fill:"; ink t; "}"; nl;
       " .an {font:400 10.5px system-ui,-apple-system,Segoe UI,Roboto,sans-serif;fill:"; ink2 t; "}"; nl;
       "</style>"; nl;
       q "<text class=`ttl` x=`"; dec ML; q "` y=`26`>"; esc title; "</text>"; nl;
       q "<text class=`sub` x=`"; dec ML; q "` y=`43`>"; esc sub; "</text>"; nl].

(** [MT + PH - r * PH], the height of a value at the ratio [r] of the axis *)
Definition y_at (r : float) : float := fsub (fz (MT + PH)) (fmul r (fz PH)).
(** [MT + PH - (v / ymax) * PH], for a float [v] and for an integer one *)
Definition y_of (v : float) (ymax : Z) : result float := r ← py_fdiv v (fz ymax); Ok (y_at r).
Definition y_of_int (v ymax : Z) : result float := r ← py_int_div v ymax; Ok (y_at r).

Definition yaxis_tick (t : theme) (ymax v : Z) : result string :=
  y ← y_of_int v ymax;
  Ok (cat [q "<line x1=`"; dec ML; q "` y1=`"; f1 y; q "` x2=`"; dec (ML + PW); q "` y2=`"; f1 y; q "` stroke=`";
           grid t; q "` stroke-width=`1`/>"] +:+
      cat [q "<text class=`ax` x=`"; dec (ML - 9); q "` y=`"; f1 (fadd y (fz 4)); q "` text-anchor=`end`>";
           fmt_g (fz v); "</text>"]).

Definition yaxis (t : theme) (ymax : Z) (ticks : list Z) (unit : string) : result string :=
  o ← mapR (yaxis_tick t ymax) ticks;
  Ok (cat o +:+ cat [q "<text class=`ax` x=`"; dec (ML - 9); q "` y=`"; dec (MT - 10); q "` text-anchor=`end`>"; unit; "</text>"]).
Definition default_unit : string := "k ops/s".

(** ** Placing the labels *)

Section Decollide.
Context {A : Type} {N : Num A}.

(** [out[i]], for an index of the list *)
Definition at_ (out : list A) (i : nat) : A := nth i out (n_of_Z 0).

(** One turn of the top-down pass, at position [k] of the order. *)
Definition push_down (min_gap : A) (order : list nat) (out : list A) (k : nat) : list A :=
  let i := nth k order 0%nat in
  let j := nth (k - 1) order 0%nat in
  if (negb (Nat.eqb k 0)) && n_ltb (n_sub (at_ out i) (at_ out j)) min_gap
  then <[i := n_add (at_ out j) min_gap]> out
  else out.

(** One turn of the bottom-up correction. *)
Definition push_up (min_gap : A) (order : list nat) (out : list A) (k : nat) : list A :=
  let i := nth k order 0%nat in
  let j := nth (k + 1) order 0%nat in
  if n_ltb (n_sub (at_ out j) (at_ out i)) min_gap
  then <[i := n_sub (at_ out j) min_gap]> out
  else out.

Definition shift_of (lo hi : A) (out : list A) : result A :=
  low ← py_min out;
  high ← py_max out;
  Ok (n_sub (n_max (n_of_Z 0) (n_sub lo low)) (n_max (n_of_Z 0) (n_sub high hi))).

Definition decollide (ys : list A) (min_gap lo hi : A) : result (list A) :=
  let order := sorted_by (at_ ys) (seq 0 (length ys)) in
  let out := foldl (push_down min_gap order) ys (seq 0 (length order)) in
  let out := foldl (push_up min_gap order) out (reverse (seq 0 (length order - 1))) in
  shift ← shift_of lo hi out;
  Ok (map (fun y => n_add y shift) out).
End Decollide.

(** The defaults of its parameters *)
Definition label_gap : float := fz 15.
Definition label_lo : float := fz (MT - 6).
Definition label_hi : float := fz (MT + PH + 6).

(** ** The charts *)

(** [xs[-1]] *)
Definition py_last {A} (xs : list A) : result A :=
  match reverse xs with x :: _ => Ok x | [] => Raise IndexError end.
Definition py_nth {A} (xs : list A) (i : nat) : result A :=
  match xs !! i with Some x => Ok x | None => Raise IndexError end.

(** [t["series"][SLOT[name]] if name in SLOT else t["series"][i]] *)
Definition colour (t : theme) (name : string) (i : nat) : result string :=
  py_nth (series_inks t) (default i (dict_get name SLOT)).

(** [f(i, x)] for each [x] of [xs] and its index, counted from [i] *)
Fixpoint enumR {A B} (f : nat -> A -> result B) (i : nat) (xs : list A) : result (list B) :=
  match xs with
  | [] => Ok []
  | x :: xs => y ← f i x; ys ← enumR f (S i) xs; Ok (y :: ys)
  end.

Definition series := list (string * list float).

Definition point_text (x : float) (v : float) (ymax : Z) : result string :=
  y ← y_of v ymax; Ok (cat [f1 x; ","; f1 y]).

Definition marker (t : theme) (ymax : Z) (c : string) (x v : float) : result string :=
  y ← y_of v ymax;
  Ok (cat [q "<circle cx=`"; f1 x; q "` cy=`"; f1 y; q "` r=`4.5` fill=`"; c; q "` stroke=`"; surface t; q "` stroke-width=`2`/>"]).

(** A series: its line, then its markers. *)
Definition polyline (t : theme) (ymax : Z) (xpos : list float) (vals : list float) (c : string) : result string :=
  pts ← mapR (fun '(x, v) => point_text x v ymax) (zip xpos vals);
  ms ← mapR (fun '(x, v) => marker t ymax c x v) (zip xpos vals);
  Ok (cat [q "<polyline points=`"; str_join " " pts; q "` fill=`none` stroke=`"; c;
           q "` stroke-width=`2` stroke-linejoin=`round` stroke-linecap=`round`/>"] +:+ cat ms).

(** The label of a series at [ly], with a line back to its end [ey] when it was moved. *)
Definition end_label (name c : string) (ey ly : float) : string :=
  (if fltb (f_of_lit 1.5%lit) (SFabs (fsub ly ey))
   then cat [q "<path d=`M "; z1 (ML + PW + 3); " "; f1 ey; " L "; z1 (ML + PW + 9); " "; f1 ly; q "` stroke=`"; c;
             q "` stroke-width=`1` fill=`none` opacity=`0.65`/>"]
   else "") +:+
  cat [q "<circle cx=`"; dec (ML + PW + 13); q "` cy=`"; f1 ly; q "` r=`4.5` fill=`"; c; q "`/>"] +:+
  cat [q "<text class=`lb` x=`"; dec (ML + PW + 23); q "` y=`"; f1 (fadd ly (fz 4)); q "`>"; esc name; "</text>"].

Definition x_tick (x : float) (lab : string) : string :=
  cat [q "<text class=`ax` x=`"; f1 x; q "` y=`"; dec (MT + PH + 20); q "` text-anchor=`middle`>"; lab; "</text>"].

Definition x_label (dy : Z) (xlabel : string) : result string :=
  half ← py_int_div PW 2;
  Ok (cat [q "<text class=`ax` x=`"; f1 (fadd (fz ML) half); q "` y=`"; dec (MT + PH + dy);
           q "` text-anchor=`middle`>"; esc xlabel; "</text>"]).

(** The dashed rule at a value, if there is one. *)
Definition rule_line (t : theme) (ymax : Z) (rule : option (Z * string)) : result string :=
  match rule with
  | None => Ok ""
  | Some (val, txt) =>
      y ← y_of_int val ymax;
      Ok (cat [q "<line x1=`"; dec ML; q "` y1=`"; f1 y; q "` x2=`"; dec (ML + PW); q "` y2=`"; f1 y; q "` stroke=`"; rule_ink t;
               q "` stroke-width=`1.5` stroke-dasharray=`5 4`/>"] +:+
          cat [q "<text class=`an` x=`"; dec (ML + 6); q "` y=`"; f1 (fsub y (fz 7)); q "`>"; esc txt; "</text>"])
  end.

(** [[ML + (PW * i / (n - 1)) for i in range(n)]] *)
Definition x_positions (n : nat) : result (list float) :=
  mapR (fun i => d ← py_int_div (PW * Z.of_nat i) (Z.of_nat n - 1); Ok (fadd (fz ML) d)) (seq 0 n).

(** The heights at which the series end. *)
Definition series_ends (ymax : Z) (s : series) : result (list float) :=
  mapR (fun '(_, v) => last ← py_last v; y_of last ymax) s.

Definition line_chart (th : theme_name) (title sub : string) (xs : list string) (s : series) (ymax : Z)
    (ticks : list Z) (xlabel : string) (rule : option (Z * string)) : result string :=
  let t := THEMES th in
  axis ← yaxis t ymax ticks default_unit;
  xpos ← x_positions (length xs);
  label ← x_label 40 xlabel;
  ruled ← rule_line t ymax rule;
  colors ← enumR (fun i '(name, _) => colour t name i) 0 s;
  ends ← series_ends ymax s;
  lab_y ← decollide ends label_gap label_lo label_hi;
  lines ← mapR (fun '((_, vals), c) => polyline t ymax xpos vals c) (zip s colors);
  Ok (cat [head t title sub; axis; cat (zip_with x_tick xpos xs); label; ruled; cat lines;
           cat (zip_with (fun '((name, _), c) '(ey, ly) => end_label name c ey ly) (zip s colors) (zip ends lab_y));
           "</svg>"]).

(** A bar of [bar_chart]: its rectangle, and its value above. *)
Definition bar (t : theme) (ymax : Z) (ns : nat) (bw gx : float) (gi si : nat) (s : string * list float) : result string :=
  c ← colour t s.1 si;
  v ← py_nth s.2 gi;
  r ← py_fdiv v (fz ymax);
  let bh := fmul r (fz PH) in
  half ← py_fdiv (fmul (fz (Z.of_nat ns)) bw) (fz 2);
  let x := fadd (fadd (fsub gx half) (fmul (fz (Z.of_nat si)) bw)) (fz 1) in
  let y := fsub (fz (MT + PH)) bh in
  mid ← py_fdiv (fsub bw (fz 2)) (fz 2);
  Ok (cat [q "<rect x=`"; f1 x; q "` y=`"; f1 y; q "` width=`"; f1 (fsub bw (fz 2)); q "` height=`"; f1 bh;
           q "` fill=`"; c; q "` rx=`4` ry=`4`/>"] +:+
      cat [q "<text class=`lb` x=`"; f1 (fadd x mid); q "` y=`"; f1 (fsub y (fz 6)); q "` text-anchor=`middle`>"; fmt_g v; "</text>"]).

Definition bar_group (t : theme) (ymax : Z) (gw bw : float) (s : series) (gi : nat) (g : string) : result string :=
  half ← py_fdiv gw (fz 2);
  let gx := fadd (fadd (fz ML) (fmul gw (fz (Z.of_nat gi)))) half in
  bars ← enumR (bar t ymax (length s) bw gx gi) 0 s;
  Ok (cat [q "<text class=`ax` x=`"; f1 gx; q "` y=`"; dec (MT + PH + 20); q "` text-anchor=`middle`>"; esc g; "</text>"] +:+ cat bars).

Definition legend_entry (t : theme) (si : nat) (s : string * list float) : result string :=
  c ← colour t s.1 si;
  let lx := ML + PW + 13 in
  let y := MT + 12 + Z.of_nat si * 22 in
  Ok (cat [q "<rect x=`"; dec lx; q "` y=`"; dec (y - 8); q "` width=`10` height=`10` fill=`"; c; q "` rx=`2`/>"] +:+
      cat [q "<text class=`lb` x=`"; dec (lx + 16); q "` y=`"; dec (y + 1); q "`>"; esc s.1; "</text>"]).

Definition bar_chart (th : theme_name) (title sub : string) (groups : list string) (s : series) (ymax : Z)
    (ticks : list Z) (xlabel : string) (note : option string) : result string :=
  let t := THEMES th in
  axis ← yaxis t ymax ticks default_unit;
  gw ← py_int_div PW (Z.of_nat (length groups));
  room ← py_fdiv (fsub gw (fz 22)) (fz (Z.of_nat (length s)));
  let bw := n_min (fz 46) room in
  bars ← enumR (bar_group t ymax gw bw s) 0 groups;
  label ← x_label 38 xlabel;
  legend ← enumR (legend_entry t) 0 (if (1 <? length s)%nat then s else []);
  Ok (cat [head t title sub; axis; cat bars; label; cat legend;
           match note with
           | Some n => if String.eqb n "" then "" else cat [q "<text class=`an` x=`"; dec ML; q "` y=`"; dec (H - 10); q "`>"; esc n; "</text>"]
           | None => ""
           end;
           "</svg>"]).

(** ** The data, and the charts made of it *)

Definition lits (l : list lit) : list float := f_of_lit <$> l.

Definition CONNS : list string := ["8"; "64"; "256"; "512"].

Definition LOCAL_GET : series :=
  [("Rostam", lits [360.2; 726.1; 732.4; 705.1]%lit);
   ("Memcached", lits [367.8; 682.9; 681.7; 667.1]%lit);
   ("Dragonfly", lits [234.1; 532.0; 551.6; 518.7]%lit);
   ("Aerospike", lits [318.4; 510.6; 516.9; 513.6]%lit);
   ("Valkey", lits [210.3; 239.1; 227.9; 221.3]%lit);
   ("Redis", lits [213.2; 228.3; 219.6; 208.5]%lit);
   ("KeyDB", lits [192.5; 206.3; 208.8; 196.3]%lit)].

Definition LOCAL_PUT : series :=
  [("Rostam", lits [357.0; 688.0; 699.2; 687.4]%lit);
   ("Memcached", lits [363.5; 658.4; 671.5; 664.5]%lit);
   ("Dragonfly", lits [223.6; 487.0; 515.1; 506.5]%lit);
   ("Aerospike", lits [301.4; 499.1; 485.6; 476.1]%lit);
   ("Valkey", lits [214.7; 229.8; 224.1; 214.3]%lit);
   ("KeyDB", lits [199.3; 210.6; 213.7; 208.3]%lit);
   ("Redis", lits [167.6; 197.5; 204.6; 195.3]%lit)].

Definition FAST : list string := ["Rostam"; "Memcached"; "Dragonfly"; "Aerospike"].
Definition FAMILY : list string := ["Rostam"; "Valkey"; "Redis"; "KeyDB"].
Definition pick (rows : series) (names : list string) : series :=
  List.filter (fun r => existsb (String.eqb r.1) names) rows.

Definition RF2_ALL : series :=
  [("Rostam", lits [35.6; 80.9; 113.6]%lit);
   ("Aerospike", lits [38.0; 57.0; 85.9]%lit);
   ("Redis / Valkey / KeyDB", lits [28.7; 42.2; 43.9]%lit)].
Definition RF2_MASTER : series :=
  [("Rostam", lits [57.8; 103.0; 157.4]%lit);
   ("Aerospike", lits [65.3; 94.2; 125.7]%lit)].

Definition WIRE : series :=
  [("Rostam", lits [38.9; 133.6; 147.5; 150.4]%lit);
   ("Memcached", lits [38.9; 134.6; 147.5; 149.8]%lit);
   ("Dragonfly", lits [30.7; 124.2; 141.4; 147.4]%lit);
   ("Aerospike", lits [37.1; 128.1; 125.0; 122.4]%lit)].

Definition wire_sweep (th : theme_name) : result string :=
  line_chart th
    "GET throughput vs concurrency — single node, over the network"
    "Hetzner CCX33, medians of 3, 0 errors. Anything at the dashed line is NIC-bound, not engine-bound."
    CONNS WIRE 170 [0; 50; 100; 150] "concurrent connections"
    (Some (150, "single-RX-queue NIC ceiling ~150k — three engines tie here because of this")).

Definition local_chart (title sub : string) (rows : series) (th : theme_name) : result string :=
  line_chart th title sub CONNS rows 800 [0; 200; 400; 600; 800] "concurrent connections" None.

Definition local_get_fast : theme_name -> result string := local_chart
  "GET — the engines that scale with concurrency (loopback)"
  "One machine, all engines in Docker, 8 pinned cores each, 0 errors. Directional: ranking, not absolutes."
  (pick LOCAL_GET FAST).
Definition local_get_family : theme_name -> result string := local_chart
  "GET — the Redis family plateaus (loopback, same run)"
  "Redis, Valkey and KeyDB execute commands single-threaded, so extra connections queue instead of adding work."
  (pick LOCAL_GET FAMILY).
Definition local_put_fast : theme_name -> result string := local_chart
  "PUT — the engines that scale with concurrency (loopback)"
  "Same run and conditions as the GET chart."
  (pick LOCAL_PUT FAST).
Definition local_put_family : theme_name -> result string := local_chart
  "PUT — the Redis family plateaus (loopback, same run)"
  "Same plateau on writes; Rostam shown for scale."
  (pick LOCAL_PUT FAMILY).

Definition REPLICATION : series :=
  [("single node RF=1", lits [460.2; 452.8; 445.5]%lit);
   ("PB RF=2", lits [307.9; 355.5; 351.5]%lit);
   ("raft RF=3", lits [112.4; 162.3; 175.3]%lit)].

Definition replication (th : theme_name) : result string :=
  line_chart th
    "What replication costs — PUT throughput, Rostam vs Rostam"
    "Local, 4 cores/node, durability matched (raft -nosync -volatile-log; PB has no WAL). Directional."
    ["64"; "256"; "512"] REPLICATION 500 [0; 100; 200; 300; 400; 500] "concurrent connections" None.

Definition SHARDING : series := [("shard sweep @512 conns", lits [329.4; 346.3; 335.7; 349.3]%lit)].

Definition sharding (th : theme_name) : result string :=
  bar_chart th
    "Sharding and scale-out — PUT, 3-node PB RF=2"
    "Shard count is not a throughput lever; the 2->3 node step is (see note)."
    ["4 shards"; "8"; "16"; "32"]
    SHARDING 420 [0; 100; 200; 300; 400] "shards per cluster"
    (Some "4->8 buys ~5%, then flat. Node scale-out 2->3 at constant RF=2: 190k -> 357k (1.88x for 1.5x nodes).").

Definition rf2_commit_all (th : theme_name) : result string :=
  line_chart th
    "Replicated writes (RF=2) — ack only after a replica has the write"
    "12-vCPU EPYC Genoa, 3 co-located nodes + generator, n=2 reps, 0 errors. Third line is Redis/Valkey/KeyDB, which overlap within ~7%."
    ["8"; "32"; "128"] RF2_ALL 130 [0; 50; 100] "concurrent connections" None.
Definition rf2_commit_master (th : theme_name) : result string :=
  line_chart th
    "Same run, both engines relaxed to ack at the master"
    "Worth 1.57x to Rostam and 1.58x to Aerospike — the posture flatters neither."
    ["8"; "32"; "128"] RF2_MASTER 170 [0; 50; 100; 150] "concurrent connections" None.

(** The charts in the order they are emitted, each under its stem; the last two once the files
    written have been listed. *)
Definition FIRST_CHARTS : list (string * (theme_name -> result string)) :=
  [("wire-sweep", wire_sweep); ("local-get-fast", local_get_fast); ("local-get-family", local_get_family);
   ("local-put-fast", local_put_fast); ("local-put-family", local_put_family); ("replication", replication);
   ("sharding", sharding)].
Definition RF2_CHARTS : list (string * (theme_name -> result string)) :=
  [("rf2-commit-all", rf2_commit_all); ("rf2-commit-master", rf2_commit_master)].
Definition CHARTS : list (string * (theme_name -> result string)) := FIRST_CHARTS ++ RF2_CHARTS.

(** ** Writing them *)

(** [TARGETS]: the script's own directory, and the path of each argument if it is a directory *)
Definition target (is_dir : string -> bool) (arg : string) : result string :=
  let d := pathlib_Path arg in
  if is_dir d then Ok d else Raise (SystemExit ("not a directory: " +:+ d)).
Definition targets (OUT : string) (is_dir : string -> bool) (args : list string) : result (list string) :=
  dirs ← mapR (target is_dir) args; Ok (OUT :: dirs).

Definition file_name (stem : string) (th : theme_name) : string := stem +:+ "-" +:+ theme_text th +:+ ".svg".

Section Writing.
Context {F : Type} {D : Disk F}.

(** [for d in TARGETS: (d / f"{stem}-{theme}.svg").write_text(body)] *)
Definition write_all (TARGETS : list string) (name body : string) : M F unit :=
  for_each TARGETS (fun d => write_text d name body).

Definition emit (TARGETS : list string) (stem : string) (fn : theme_name -> result string) : M F unit :=
  for_each [Light; Dark] (fun th =>
    body ← lift_result (fn th);
    write_all TARGETS (file_name stem th) body).

Definition emit_all (TARGETS : list string) (cs : list (string * (theme_name -> result string))) : M F unit :=
  for_each cs (fun '(stem, fn) => emit TARGETS stem fn).

(** [p.name for p in OUT.glob("*.svg")], sorted *)
Definition is_svg (name : string) : bool :=
  (4 <=? String.length name)%nat && String.eqb (String.substring (String.length name - 4) 4 name) ".svg".
Definition svgs (OUT : string) (fs : F) : list string := List.filter is_svg (listing OUT fs).
(** Strings in the order of their code points, which is that of their UTF-8 bytes *)
Definition str_le (a b : string) : Prop := String.leb a b = true.
#[export] Instance str_le_dec a b : Decision (str_le a b) := decide (String.leb a b = true).
Definition sorted (names : list string) : list string := sorting.merge_sort str_le names.
Definition wrote_line (names : list string) : string := "wrote: " +:+ str_join ", " (sorted names).

(** The whole script, in the directory [OUT], with its arguments. *)
Definition main (OUT : string) (is_dir : string -> bool) (args : list string) : M (Bench.bench F) unit :=
  TARGETS ← lift_result (targets OUT is_dir args);
  _ ← Bench.on_world (emit_all TARGETS FIRST_CHARTS);
  fs ← Bench.on_world get_state;
  _ ← Bench.print (wrote_line (svgs OUT fs));
  Bench.on_world (emit_all TARGETS RF2_CHARTS).
End Writing.
