(* ===== verification/KvLayout.v ===== *)
(** * Where the labels go

    Lemmas on [decollide] of {!KvCharts} over exact rationals: its two passes, and the shift
    that brings the labels back into the frame. *)

From S2P Require Import Prelude Bytes Text Float64 PyVal Num KvCharts.
From Stdlib Require Import QArith Lqa Sorted.

#[local] Open Scope Z_scope.
#[local] Open Scope Q_scope.

Lemma Qltb_spec x y : Qltb x y = true <-> x < y.
Proof.
  unfold Qltb. rewrite negb_true_iff, <- not_true_iff_false, Qle_bool_iff. split; intros; lra.
Qed.

Lemma Qltb_false x y : Qltb x y = false <-> y <= x.
Proof. rewrite <- not_true_iff_false, Qltb_spec. split; intros; lra. Qed.

(** ** Sorting by a key *)

Section Sorting.
Context {B : Type} (key : B -> Q).

Lemma insert_by_perm x l : insert_by key x l ≡ₚ x :: l.
Proof.
  induction l as [|y l IH]; [done|]. cbn. destruct (Qltb _ _); [|done]. rewrite IH. by constructor.
Qed.

Lemma sorted_by_perm l : sorted_by key l ≡ₚ l.
Proof. induction l as [|x l IH]; [done|]. cbn. rewrite insert_by_perm. by constructor. Qed.

Definition key_sorted : list B -> Prop := StronglySorted (fun x y => key x <= key y).

Lemma insert_by_sorted x l : key_sorted l -> key_sorted (insert_by key x l).
Proof.
  induction l as [|y l IH]; intros Hs; [repeat constructor|].
  apply StronglySorted_inv in Hs as [Hs Hy]. cbn. destruct (Qltb (key y) (key x)) eqn:E.
  - apply Qltb_spec in E. constructor; [by apply IH|]. rewrite insert_by_perm. constructor; [lra|done].
  - apply Qltb_false in E. constructor; [by constructor|]. constructor; [done|].
    eapply Forall_impl; [|exact Hy]. cbn. intros z Hz. lra.
Qed.

Lemma sorted_by_sorted l : key_sorted (sorted_by key l).
Proof. induction l as [|x l IH]; [constructor|]. by apply insert_by_sorted. Qed.
End Sorting.

(** ** The order of the labels *)

(** An enumeration of the labels by height. *)
Record enumerates (ys : list Q) (order : list nat) : Prop := {
  enum_length : length order = length ys;
  enum_range k : (k < length ys)%nat -> (nth k order 0%nat < length ys)%nat;
  enum_inj j k : (j < length ys)%nat -> (k < length ys)%nat -> nth j order 0%nat = nth k order 0%nat -> j = k;
  enum_surj i : (i < length ys)%nat -> exists k, (k < length ys)%nat /\ nth k order 0%nat = i;
  enum_sorted j k : (j <= k)%nat -> (k < length ys)%nat -> at_ ys (nth j order 0%nat) <= at_ ys (nth k order 0%nat)
}.

Lemma StronglySorted_nth {B} (R : B -> B -> Prop) (l : list B) d j k :
  (forall x, R x x) -> StronglySorted R l -> (j <= k)%nat -> (k < length l)%nat -> R (nth j l d) (nth k l d).
Proof.
  intros Hr Hs. revert j k. induction Hs as [|x l Hs IH Hx]; intros j k Hjk Hk; [cbn in *; lia|].
  destruct j as [|j], k as [|k]; cbn in *; [apply Hr| |lia|apply IH; lia].
  apply (Forall_elem _ _ _ Hx). apply list_elem_of_In, nth_In. lia.
Qed.

Lemma order_enumerates ys : enumerates ys (sorted_by (at_ ys) (seq 0 (length ys))).
Proof.
  set (order := sorted_by _ _). assert (order ≡ₚ seq 0 (length ys)) as Hp by apply sorted_by_perm.
  assert (length order = length ys) as Hl by by rewrite Hp, length_seq.
  assert (NoDup order) as Hnd by (rewrite Hp; apply NoDup_seq).
  assert (forall i, In i order <-> (i < length ys)%nat) as Hin.
  { intros i. rewrite <- list_elem_of_In, Hp, elem_of_seq. lia. }
  split; [done| | | |].
  - intros k Hk. apply Hin, nth_In. lia.
  - intros j k Hj Hk E. apply NoDup_ListNoDup in Hnd. eapply (NoDup_nth order 0%nat); [done|lia..|done].
  - intros i Hi. apply Hin in Hi. destruct (In_nth order i 0%nat Hi) as (k & Hk & E). exists k. split; [lia|done].
  - intros j k Hjk Hk. apply (StronglySorted_nth (fun i j => at_ ys i <= at_ ys j)); [intros; lra| |done|lia].
    apply (sorted_by_sorted (at_ ys)).
Qed.

(** ** The two passes *)

Section Passes.
Variables (ys : list Q) (gap : Q) (order : list nat).
Hypothesis Henum : enumerates ys order.

(** The height of the [k]-th label from the top. *)
Definition nth_label (out : list Q) (k : nat) : Q := at_ out (nth k order 0%nat).

Lemma at_insert (out : list Q) i j x :
  (i < length out)%nat -> at_ (<[i := x]> out) j = if Nat.eqb i j then x else at_ out j.
Proof.
  intros Hi. unfold at_. destruct (Nat.eqb_spec i j) as [<-|Hij].
  - apply nth_lookup_Some. by apply list_lookup_insert_eq.
  - rewrite !nth_lookup. by rewrite list_lookup_insert_ne.
Qed.

Lemma nth_label_insert out j k x :
  length out = length ys -> (j < length ys)%nat -> (k < length ys)%nat ->
  nth_label (<[nth j order 0%nat := x]> out) k = if Nat.eqb j k then x else nth_label out k.
Proof.
  intros Hl Hj Hk. unfold nth_label. rewrite at_insert by (rewrite Hl; by apply (enum_range ys)).
  destruct (Nat.eqb_spec j k) as [->|Hjk]; [by rewrite Nat.eqb_refl|].
  destruct (Nat.eqb_spec (nth j order 0%nat) (nth k order 0%nat)) as [E|]; [|done].
  by destruct Hjk; apply (enum_inj ys order Henum).
Qed.

(** After [m] turns of the top-down pass: the first [m] labels are apart and no higher than
    their series; the others have not moved. *)
Record pushed (m : nat) (out : list Q) : Prop := {
  pushed_length : length out = length ys;
  pushed_apart k : (0 < k)%nat -> (k < m)%nat -> nth_label out (k - 1) + gap <= nth_label out k;
  pushed_down k : (k < m)%nat -> nth_label ys k <= nth_label out k;
  pushed_cause k : (k < m)%nat -> nth_label out k = nth_label ys k \/
    (0 < k)%nat /\ nth_label ys k - nth_label out (k - 1) < gap;
  pushed_rest k : (m <= k)%nat -> (k < length ys)%nat -> nth_label out k = nth_label ys k
}.

Lemma push_down_pushed m out :
  (m < length ys)%nat -> pushed m out -> pushed (S m) (push_down gap order out m).
Proof.
  intros Hm [Hl Ha Hd Hc Hr]. unfold push_down. fold (nth_label out m) (nth_label out (m - 1)).
  destruct (Nat.eqb_spec m 0) as [->|Hm0]; cbn [negb andb].
  - split; [done|lia| | |].
    + intros k Hk. replace k with 0%nat by lia. rewrite Hr by lia. lra.
    + intros k Hk. left. apply Hr; lia.
    + intros k Hk Hk'. by apply Hr; lia.
  - change (n_ltb (n_sub (nth_label out m) (nth_label out (m - 1))) gap)
      with (Qltb (nth_label out m - nth_label out (m - 1)) gap).
    destruct (Qltb _ gap) eqn:E; [apply Qltb_spec in E|apply Qltb_false in E].
    + set (out' := <[_ := _]> out).
      assert (forall k, (k < length ys)%nat -> nth_label out' k =
        if Nat.eqb m k then nth_label out (m - 1) + gap else nth_label out k) as Hout'
        by (intros k Hk; by apply nth_label_insert).
      split.
      * unfold out'. by rewrite length_insert.
      * intros k Hk Hk'. rewrite !Hout' by lia. destruct (Nat.eqb_spec m k) as [<-|].
        -- rewrite (proj2 (Nat.eqb_neq _ _)) by lia. lra.
        -- rewrite (proj2 (Nat.eqb_neq _ _)) by lia. apply Ha; lia.
      * intros k Hk. rewrite Hout' by lia. destruct (Nat.eqb_spec m k) as [<-|]; [|apply Hd; lia].
        rewrite <- Hr by lia. lra.
      * intros k Hk. rewrite !Hout' by lia. destruct (Nat.eqb_spec m k) as [<-|].
        -- right. rewrite (proj2 (Nat.eqb_neq _ _)) by lia. split; [lia|]. rewrite <- Hr by lia. lra.
        -- rewrite (proj2 (Nat.eqb_neq _ _)) by lia. apply Hc; lia.
      * intros k Hk Hk'. rewrite Hout' by lia. rewrite (proj2 (Nat.eqb_neq _ _)) by lia. apply Hr; lia.
    + split; [done| | | |].
      * intros k Hk Hk'. destruct (decide (k = m)) as [->|]; [lra|apply Ha; lia].
      * intros k Hk. destruct (decide (k = m)) as [->|]; [|apply Hd; lia]. rewrite Hr by lia. lra.
      * intros k Hk. destruct (decide (k = m)) as [->|]; [left; apply Hr; lia|apply Hc; lia].
      * intros k Hk Hk'. apply Hr; lia.
Qed.

Lemma top_down_pushed m :
  (m <= length ys)%nat -> pushed m (foldl (push_down gap order) ys (seq 0 m)).
Proof.
  induction m as [|m IH]; intros Hm; [split; [done|lia..|done]|].
  rewrite seq_S, foldl_app. cbn [foldl Nat.add]. by apply push_down_pushed; [lia|apply IH; lia].
Qed.

(** Labels already apart do not move. *)
Lemma bottom_up_still out ks :
  pushed (length ys) out -> Forall (fun k => (k + 1 < length ys)%nat) ks ->
  foldl (push_up gap order) out ks = out.
Proof.
  intros Hp Hks. induction Hks as [|k ks Hk _ IH]; [done|]. cbn [foldl].
  replace (push_up gap order out k) with out; [done|]. unfold push_up.
  change (n_ltb _ gap) with (Qltb (nth_label out (k + 1) - nth_label out k) gap).
  rewrite (proj2 (Qltb_false _ _)); [done|].
  pose proof (pushed_apart _ _ Hp (k + 1) ltac:(lia) ltac:(lia)) as H.
  replace (k + 1 - 1)%nat with k in H by lia. lra.
Qed.

(** Over consecutive gaps. *)
Lemma pushed_far out j k :
  0 <= gap -> pushed (length ys) out -> (j < k)%nat -> (k < length ys)%nat -> nth_label out j + gap <= nth_label out k.
Proof.
  intros Hg Hp Hjk. induction Hjk as [|k Hjk IH]; intros Hk.
  - pose proof (pushed_apart _ _ Hp (S j) ltac:(lia) ltac:(lia)) as H. by replace (S j - 1)%nat with j in H by lia.
  - pose proof (pushed_apart _ _ Hp (S k) ltac:(lia) ltac:(lia)) as H. replace (S k - 1)%nat with k in H by lia.
    specialize (IH ltac:(lia)). lra.
Qed.
End Passes.

(** ** The shift *)

Lemma n_min_le (a b : Q) : n_min a b <= a /\ n_min a b <= b /\ (n_min a b = a \/ n_min a b = b).
Proof.
  unfold n_min. change (n_ltb b a) with (Qltb b a). destruct (Qltb b a) eqn:E;
    [apply Qltb_spec in E|apply Qltb_false in E]; split_and!; try lra; auto.
Qed.
Lemma n_max_ge (a b : Q) : a <= n_max a b /\ b <= n_max a b /\ (n_max a b = a \/ n_max a b = b).
Proof.
  unfold n_max. change (n_ltb a b) with (Qltb a b). destruct (Qltb a b) eqn:E;
    [apply Qltb_spec in E|apply Qltb_false in E]; split_and!; try lra; auto.
Qed.

Lemma foldl_min (l : list Q) a :
  (forall x, In x (a :: l) -> foldl n_min a l <= x) /\ In (foldl n_min a l) (a :: l).
Proof.
  revert a. induction l as [|y l IH]; intros a.
  - split; [|by left]. intros x [<-|[]]. cbn. lra.
  - cbn [foldl]. destruct (IH (n_min a y)) as [Hle Hin]. destruct (n_min_le a y) as (Ha & Hy & Hc). split.
    + pose proof (Hle _ (or_introl eq_refl)) as Hm.
      intros x [<-|[<-|Hx]]; [lra|lra|]. by apply Hle; right.
    + destruct Hin as [<-|Hin]; [destruct Hc as [->| ->]; [by left|right; by left]|by right; right].
Qed.
Lemma foldl_max (l : list Q) a :
  (forall x, In x (a :: l) -> x <= foldl n_max a l) /\ In (foldl n_max a l) (a :: l).
Proof.
  revert a. induction l as [|y l IH]; intros a.
  - split; [|by left]. intros x [<-|[]]. cbn. lra.
  - cbn [foldl]. destruct (IH (n_max a y)) as [Hle Hin]. destruct (n_max_ge a y) as (Ha & Hy & Hc). split.
    + pose proof (Hle _ (or_introl eq_refl)) as Hm.
      intros x [<-|[<-|Hx]]; [lra|lra|]. by apply Hle; right.
    + destruct Hin as [<-|Hin]; [destruct Hc as [->| ->]; [by left|right; by left]|by right; right].
Qed.

(** The shift, by the extremes of the labels. *)
Lemma shift_of_spec lo hi (out : list Q) :
  out <> [] ->
  exists low high shift, shift_of lo hi out = Ok shift /\
    (forall x, In x out -> low <= x <= high) /\ In low out /\ In high out /\
    shift = n_max 0 (lo - low) - n_max 0 (high - hi).
Proof.
  intros Hne. destruct out as [|a l]; [done|]. destruct (foldl_min l a) as [Hmin Hin]. destruct (foldl_max l a) as [Hmax Hin'].
  exists (foldl n_min a l), (foldl n_max a l), (n_max 0 (lo - foldl n_min a l) - n_max 0 (foldl n_max a l - hi)).
  split_and!; [done| |done|done|done]. intros x Hx. split; [by apply Hmin|by apply Hmax].
Qed.

(** ** The whole *)

Lemma decollide_spec ys gap lo hi :
  ys <> [] ->
  let order := sorted_by (at_ ys) (seq 0 (length ys)) in
  exists out low high shift,
    decollide ys gap lo hi = Ok (map (fun y => y + shift) out) /\
    pushed ys gap order (length ys) out /\
    (forall x, In x out -> low <= x <= high) /\ In low out /\ In high out /\
    shift = n_max 0 (lo - low) - n_max 0 (high - hi).
Proof.
  intros Hne order. pose proof (order_enumerates ys) as He. fold order in He.
  set (out := foldl (push_down gap order) ys (seq 0 (length ys))).
  assert (pushed ys gap order (length ys) out) as Hp by by apply top_down_pushed.
  assert (out <> []) as Hout by (pose proof (pushed_length _ _ _ _ _ Hp); destruct out, ys; done).
  destruct (shift_of_spec lo hi out Hout) as (low & high & shift & Hshift & Hrange & Hlow & Hhigh & E).
  exists out, low, high, shift. split_and!; try done; [|by apply Hrange..].
  unfold decollide. fold order. rewrite (enum_length _ _ He). fold out.
  rewrite (bottom_up_still ys gap order out); [by rewrite Hshift|done|].
  apply Forall_reverse, List.Forall_forall. intros k Hk%in_seq. lia.
Qed.

Lemma at_shifted (out : list Q) s i : (i < length out)%nat -> at_ (map (fun y => y + s) out) i = at_ out i + s.
Proof.
  intros Hi. unfold at_. rewrite (nth_indep _ _ (n_of_Z 0 + s)) by (rewrite length_map; lia).
  by rewrite (map_nth (fun y => y + s)).
Qed.

Lemma at_in (out : list Q) i : (i < length out)%nat -> In (at_ out i) out.
Proof. intros Hi. by apply nth_In. Qed.

(** Labels that were already apart have not moved. *)
Lemma pushed_still ys gap order out :
  enumerates ys order -> pushed ys gap order (length ys) out ->
  (forall i j, (i < length ys)%nat -> (j < length ys)%nat -> i <> j -> at_ ys i <= at_ ys j -> at_ ys i + gap <= at_ ys j) ->
  forall i, (i < length ys)%nat -> at_ out i = at_ ys i.
Proof.
  intros He Hp Hapart.
  assert (forall k, (k < length ys)%nat -> nth_label order out k = nth_label order ys k) as Hk.
  { induction k as [|k IH]; intros Hk; destruct (pushed_cause _ _ _ _ _ Hp _ Hk) as [E|[Hpos Hlt]]; [done|lia|done|].
    replace (S k - 1)%nat with k in Hlt by lia. rewrite IH in Hlt by lia.
    pose proof (Hapart (nth k order 0%nat) (nth (S k) order 0%nat)) as Ha.
    unfold nth_label in Hlt. enough (at_ ys (nth k order 0%nat) + gap <= at_ ys (nth (S k) order 0%nat)) by lra.
    apply Ha; [by apply (enum_range ys order He); lia|by apply (enum_range ys order He)| |by apply (enum_sorted ys order He); lia].
    intros E. apply (enum_inj ys order He) in E; lia. }
  intros i Hi. destruct (enum_surj ys order He i Hi) as (k & Hlt & <-). by apply Hk.
Qed.
