(* ===== verification/KvProps.v ===== *)
(** * What the key-value charts guarantee

    The properties of [netkv/charts/mkcharts.py]: the placement of the labels, in exact
    arithmetic; the colours; the degenerate charts; escaping; and the files. *)

From S2P Require Import Prelude Bytes Text Float64 FloatOrder PyVal Num Disk KvCharts KvLayout.
From S2P Require Bench.
From stdpp Require sorting.
From Stdlib Require Import Sorted.
From Stdlib Require Import QArith Lqa.

#[local] Open Scope Z_scope.

(** ** Labels *)

(** C34: labels never overlap.  In exact arithmetic, for any series [decollide] returns one
    place per label, and any two are at least [min_gap] apart, in the order of the series they
    name. *)
Theorem decollide_apart (ys : list Q) min_gap lo hi :
  ys <> [] -> (0 <= min_gap)%Q ->
  exists r, decollide ys min_gap lo hi = Ok r /\ length r = length ys /\
    forall i j, (i < length ys)%nat -> (j < length ys)%nat -> i <> j ->
      (at_ r i + min_gap <= at_ r j \/ at_ r j + min_gap <= at_ r i)%Q /\
      (at_ ys i < at_ ys j -> at_ r i + min_gap <= at_ r j)%Q.
Proof.
  intros Hne Hg. destruct (decollide_spec ys min_gap lo hi Hne) as (out & low & high & s & Hr & Hp & _).
  pose proof (order_enumerates ys) as He. set (order := sorted_by _ _) in *.
  pose proof (pushed_length _ _ _ _ _ Hp) as Hl.
  exists (map (fun y => y + s)%Q out). split; [done|]. split; [by rewrite length_map|].
  intros i j Hi Hj Hij. rewrite !at_shifted by lia.
  destruct (enum_surj _ _ He i Hi) as (k & Hk & <-), (enum_surj _ _ He j Hj) as (m & Hm & <-).
  pose proof (pushed_far ys min_gap order out) as Hfar. unfold nth_label in Hfar.
  destruct (Nat.lt_total k m) as [Hkm|[->|Hkm]]; [|done|].
  - specialize (Hfar k m Hg Hp Hkm Hm). split; [left|intros _]; lra.
  - specialize (Hfar m k Hg Hp Hkm Hk). split; [right; lra|].
    pose proof (enum_sorted _ _ He m k ltac:(lia) Hk). intros. lra.
Qed.

(** C36: Labels stay in the frame when they fit.  In exact arithmetic, if the places returned
    span no more than the frame, every one of them lies in it. *)
Theorem decollide_in_frame (ys : list Q) min_gap lo hi r :
  ys <> [] -> decollide ys min_gap lo hi = Ok r ->
  (forall i j, (i < length r)%nat -> (j < length r)%nat -> at_ r i - at_ r j <= hi - lo)%Q ->
  forall i, (i < length r)%nat -> (lo <= at_ r i <= hi)%Q.
Proof.
  intros Hne Hr Hspan i Hi. destruct (decollide_spec ys min_gap lo hi Hne) as (out & low & high & s & E & _ & Hrange & Hlow & Hhigh & ->).
  rewrite E in Hr. injection Hr as <-. rewrite length_map in Hi, Hspan.
  destruct (In_nth _ _ (n_of_Z 0) Hlow) as (a & Ha & Hlow'), (In_nth _ _ (n_of_Z 0) Hhigh) as (b & Hb & Hhigh').
  specialize (Hspan b a Hb Ha). rewrite !at_shifted in * by done. fold (at_ out a) in Hlow'. fold (at_ out b) in Hhigh'.
  rewrite Hlow', Hhigh' in Hspan. specialize (Hrange (at_ out i) (at_in out i Hi)).
  destruct (n_max_ge 0%Q (lo - low)%Q) as (? & ? & Hm), (n_max_ge 0%Q (high - hi)%Q) as (? & ? & Hm').
  destruct Hm as [Hm|Hm], Hm' as [Hm'|Hm']; rewrite Hm, Hm' in *; lra.
Qed.

(** Labels move only when they must.  In exact arithmetic, labels that are apart and in
    the frame already are left where they are. *)
Theorem decollide_still (ys : list Q) min_gap lo hi :
  ys <> [] ->
  (forall i j, (i < length ys)%nat -> (j < length ys)%nat -> i <> j -> at_ ys i <= at_ ys j -> at_ ys i + min_gap <= at_ ys j)%Q ->
  (forall i, (i < length ys)%nat -> lo <= at_ ys i <= hi)%Q ->
  exists r, decollide ys min_gap lo hi = Ok r /\
    forall i, (i < length ys)%nat -> (at_ r i == at_ ys i)%Q.
Proof.
  intros Hne Hapart Hframe. destruct (decollide_spec ys min_gap lo hi Hne) as (out & low & high & s & E & Hp & _ & Hlow & Hhigh & ->).
  pose proof (pushed_still ys min_gap _ out (order_enumerates ys) Hp Hapart) as Hsame.
  pose proof (pushed_length _ _ _ _ _ Hp) as Hl.
  assert (forall x, In x out -> lo <= x <= hi)%Q as Hin.
  { intros x Hx. destruct (In_nth _ _ (n_of_Z 0) Hx) as (i & Hi & <-). fold (at_ out i). rewrite Hsame by lia. apply Hframe. lia. }
  eexists. split; [exact E|]. intros i Hi. rewrite at_shifted, Hsame by lia.
  pose proof (Hin _ Hlow). pose proof (Hin _ Hhigh).
  destruct (n_max_ge 0%Q (lo - low)%Q) as (? & ? & Hm), (n_max_ge 0%Q (high - hi)%Q) as (? & ? & Hm').
  destruct Hm as [Hm|Hm], Hm' as [Hm'|Hm']; rewrite Hm, Hm' in *; lra.
Qed.

(** C35: the bottom-up correction never corrects.  In exact arithmetic, what the top-down pass
    leaves is what the second pass returns, so a label pushed below the frame is brought back
    by moving every label, not by closing up the ones above it. *)
Theorem bottom_up_never_moves (ys : list Q) min_gap :
  let order := sorted_by (at_ ys) (seq 0 (length ys)) in
  let out := foldl (push_down min_gap order) ys (seq 0 (length order)) in
  foldl (push_up min_gap order) out (reverse (seq 0 (length order - 1))) = out.
Proof.
  intros order out. pose proof (order_enumerates ys) as He. fold order in He.
  unfold out. rewrite (enum_length _ _ He). apply (bottom_up_still ys); [by apply top_down_pushed|].
  apply Forall_reverse, List.Forall_forall. intros k Hk%in_seq. lia.
Qed.

Definition demo_ends : list Q := [100 # 1; 102 # 1; 300 # 1]%Q.

Lemma decollide_apart_witness :
  exists r, decollide demo_ends (15 # 1) (46 # 1) (340 # 1) = Ok r /\ length r = 3%nat /\
    forall i j, (i < 3)%nat -> (j < 3)%nat -> i <> j ->
      (at_ r i + (15 # 1) <= at_ r j \/ at_ r j + (15 # 1) <= at_ r i)%Q /\
      (at_ demo_ends i < at_ demo_ends j -> at_ r i + (15 # 1) <= at_ r j)%Q.
Proof. refine (decollide_apart demo_ends (15 # 1) (46 # 1) (340 # 1) _ _); [discriminate|lra]. Defined.

(** The places of the demonstration, as the script computes them. *)
Definition demo_places : list Q :=
  match decollide demo_ends (15 # 1) (46 # 1) (340 # 1) with Ok r => r | Raise _ => [] end.

Lemma decollide_in_frame_witness : (46 # 1 <= at_ demo_places 1 <= 340 # 1)%Q.
Proof.
  refine (decollide_in_frame demo_ends (15 # 1) (46 # 1) (340 # 1) demo_places _ _ _ 1%nat _).
  - discriminate.
  - by vm_compute.
  - replace (length demo_places) with 3%nat by by vm_compute.
    intros [|[|[|i]]] [|[|[|j]]] Hi Hj; try lia; by vm_compute.
  - replace (length demo_places) with 3%nat by by vm_compute. lia.
Defined.

Lemma decollide_still_witness :
  exists r, decollide [100 # 1; 300 # 1]%Q (15 # 1) (46 # 1) (340 # 1) = Ok r /\
    forall i, (i < 2)%nat -> (at_ r i == at_ [100 # 1; 300 # 1]%Q i)%Q.
Proof.
  refine (decollide_still [100 # 1; 300 # 1]%Q (15 # 1) (46 # 1) (340 # 1) _ _ _).
  - discriminate.
  - intros [|[|i]] [|[|j]] Hi Hj Hij; cbn in *; try lia; intros; lra.
  - intros [|[|i]] Hi; cbn in *; try lia; lra.
Defined.

(** ** The two replication charts *)

(** What acking at the master is worth to an engine: its value in one chart over its value in the
    other, at each number of connections, to two decimals. *)
Definition worth (name : string) : option (list (result string)) :=
  all ← dict_get name RF2_ALL;
  master ← dict_get name RF2_MASTER;
  Some (zip_with (fun m a => fmt_fixed 2 <$> py_fdiv m a) master all).

(** The subtitle of the second chart says 1.57 and 1.58; the values the two charts draw do not. *)
Example commit_master_worth :
  worth "Rostam" = Some (Ok <$> ["1.62"; "1.27"; "1.39"]) /\ worth "Aerospike" = Some (Ok <$> ["1.72"; "1.65"; "1.46"]).
Proof. by vm_compute. Qed.

(** ** Colours *)

(** C37: an engine keeps its colour.  Wherever it comes in a chart, an engine with a slot has
    the one colour of that slot, and two engines never share one. *)
Theorem engine_keeps_colour th name name' i j :
  In name (map fst SLOT) -> In name' (map fst SLOT) ->
  is_ok (colour (THEMES th) name i) = true /\
  (colour (THEMES th) name i = colour (THEMES th) name' j <-> name = name').
Proof.
  intros Hn Hn'. cbn in Hn, Hn'.
  repeat (destruct Hn as [<-|Hn]; [|try done]); repeat (destruct Hn' as [<-|Hn']; [|try done]);
    destruct th; vm_compute; split; try done; split; done.
Qed.

Lemma engine_keeps_colour_witness :
  is_ok (colour (THEMES Dark) "Redis" 9) = true /\
  (colour (THEMES Dark) "Redis" 9 = colour (THEMES Dark) "KeyDB" 2 <-> "Redis" = "KeyDB").
Proof. refine (engine_keeps_colour Dark "Redis" "KeyDB" 9 2 _ _); cbn; tauto. Defined.

(** ** Degenerate charts *)

(** A computation that returns, or raises [e]. *)
Definition raises_only {A} (e : exn) (r : result A) : Prop := r = Raise e \/ exists a, r = Ok a.

Lemma raises_only_mapR {A B} e (f : A -> result B) xs :
  (forall x, raises_only e (f x)) -> raises_only e (mapR f xs).
Proof.
  intros Hf. induction xs as [|x xs IH]; [right; by eexists|]. cbn [mapR].
  destruct (Hf x) as [->|[y ->]]; [by left|]. destruct IH as [->|[ys ->]]; [by left|right; by eexists].
Qed.

Lemma yaxis_raises t ymax ticks unit : raises_only ZeroDivisionError (yaxis t ymax ticks unit).
Proof.
  unfold yaxis. destruct (raises_only_mapR ZeroDivisionError (yaxis_tick t ymax) ticks) as [->|[o ->]];
    [|by left|right; by eexists].
  intros v. unfold yaxis_tick, y_of_int, py_int_div. destruct ymax; [by left|right; by eexists..].
Qed.

(** A line chart needs two columns.  With a single one, the spacing of the columns
    divides by zero, whatever the series: [line_chart] raises [ZeroDivisionError]. *)
Theorem line_chart_one_column th title sub x s ymax ticks xlabel rule :
  line_chart th title sub [x] s ymax ticks xlabel rule = Raise ZeroDivisionError.
Proof. unfold line_chart. by destruct (yaxis_raises (THEMES th) ymax ticks default_unit) as [->|[o ->]]. Qed.

(** ** Text *)

(** Undo [esc]. *)
Fixpoint unesc (s : string) : string :=
  match s with
  | String "&" (String "a" (String "m" (String "p" (String ";" s)))) => String "&" (unesc s)
  | String "&" (String "l" (String "t" (String ";" s))) => String "<" (unesc s)
  | String "&" (String "g" (String "t" (String ";" s))) => String ">" (unesc s)
  | String c s => String c (unesc s)
  | "" => ""
  end.

Definition esc_char (c : ascii) : string :=
  if Ascii.eqb c "&" then "&amp;" else if Ascii.eqb c "<" then "&lt;" else if Ascii.eqb c ">" then "&gt;" else String c "".

Lemma str_replace_app c t s u : str_replace c t (s +:+ u) = str_replace c t s +:+ str_replace c t u.
Proof.
  induction s as [|a s IH]; [done|]. change ((String a s) +:+ u) with (String a (s +:+ u)). cbn [str_replace].
  destruct (Ascii.eqb a c); rewrite IH; [by rewrite str_app_assoc|done].
Qed.

Lemma esc_cons c s : esc (String c s) = esc_char c +:+ esc s.
Proof.
  unfold esc, esc_char. cbn [str_replace]. destruct (Ascii.eqb_spec c "&") as [->|Hamp].
  { by rewrite !str_replace_app. }
  cbn [str_replace]. destruct (Ascii.eqb_spec c "<") as [->|Hlt]; [by rewrite !str_replace_app|].
  cbn [str_replace]. by destruct (Ascii.eqb_spec c ">").
Qed.

(** The characters of a string. *)
Fixpoint chars (s : string) : list ascii := match s with "" => [] | String c s => c :: chars s end.

Lemma chars_app s t : chars (s +:+ t) = chars s ++ chars t.
Proof. induction s as [|c s IH]; [done|]. exact (f_equal (cons c) IH). Qed.

(** Escaped text is text.  What [esc] returns holds no angle bracket, so it opens and
    closes no element, and reading its entities gives back the text exactly. *)
Theorem esc_text s : Forall (fun c => c <> "<"%char /\ c <> ">"%char) (chars (esc s)) /\ unesc (esc s) = s.
Proof.
  induction s as [|c s [IHc IHu]]; [by split; [constructor|]|]. rewrite esc_cons, chars_app. unfold esc_char.
  destruct (Ascii.eqb_spec c "&") as [->|Hamp].
  { split; [apply Forall_app; split; [by repeat constructor|done]|]. by rewrite <- IHu at 2. }
  destruct (Ascii.eqb_spec c "<") as [->|Hlt].
  { split; [apply Forall_app; split; [by repeat constructor|done]|]. by rewrite <- IHu at 2. }
  destruct (Ascii.eqb_spec c ">") as [->|Hgt].
  { split; [apply Forall_app; split; [by repeat constructor|done]|]. by rewrite <- IHu at 2. }
  split; [apply Forall_app; split; [by repeat constructor|done]|].
  rewrite <- IHu at 2. destruct c as [[] [] [] [] [] [] [] []]; try reflexivity; by destruct Hamp.
Qed.

(** ** Files *)

(** The names a chart is written under. *)
Definition names_of (stem : string) : list string := [file_name stem Light; file_name stem Dark].
Definition chart_names {A} (cs : list (string * A)) : list string := concat (map (fun c => names_of c.1) cs).

Lemma file_name_of stem th : In (file_name stem th) (names_of stem).
Proof. destruct th; cbn; tauto. Qed.

Lemma chart_names_app {A} (cs cs' : list (string * A)) : chart_names (cs ++ cs') = chart_names cs ++ chart_names cs'.
Proof. unfold chart_names. by rewrite map_app, concat_app. Qed.

Section Emitting.
Context {F : Type} {D : Disk F} {DL : DiskLaws F}.

(** What emitting [cs] does to the files when nothing fails. *)
Definition emitted (TARGETS : list string) (cs : list (string * (theme_name -> result string))) (fs fs' : F) : Prop :=
  (forall stem fn th b d, In (stem, fn) cs -> fn th = Ok b -> In d TARGETS -> contents fs' d (file_name stem th) = Some b) /\
  untouched TARGETS (chart_names cs) fs fs'.

(** What it does when a file cannot be written: the charts before that one are emitted, and only
    files of that one have changed besides. *)
Definition stopped (TARGETS : list string) (cs : list (string * (theme_name -> result string))) (fs fs' : F) (e : exn) : Prop :=
  exists done c rest fs1, cs = done ++ c :: rest /\ emitted TARGETS done fs fs1 /\
    untouched TARGETS (names_of c.1) fs1 fs' /\ write_fails TARGETS (names_of c.1) e.

Definition written (TARGETS : list string) (cs : list (string * (theme_name -> result string))) (fs : F)
    (r : result unit) (fs' : F) : Prop :=
  match r with Ok _ => emitted TARGETS cs fs fs' | Raise e => stopped TARGETS cs fs fs' e end.

Lemma emitted_none (TARGETS : list string) fs : emitted TARGETS [] fs fs.
Proof. split; [by intros ? ? ? ? ? []|done]. Qed.

Lemma stopped_fails (TARGETS : list string) cs fs fs' e : stopped TARGETS cs fs fs' e -> write_fails TARGETS (chart_names cs) e.
Proof.
  intros (done & c & rest & fs1 & -> & _ & _ & Hw). eapply write_fails_mono; [|exact Hw].
  rewrite chart_names_app. intros n Hn. apply in_app_iff. right. apply in_app_iff. by left.
Qed.

Lemma emit_spec (TARGETS : list string) (stem : string) (fn : theme_name -> result string) (fs : F) :
  (forall th, is_ok (fn th) = true) -> NoDup (names_of stem) ->
  wp (emit TARGETS stem fn) fs (written TARGETS [(stem, fn)] fs).
Proof.
  intros Hok Hnd. unfold emit. cbn [for_each].
  destruct (fn Light) as [bl|] eqn:El; [|by specialize (Hok Light); rewrite El in Hok].
  destruct (fn Dark) as [bd|] eqn:Ed; [|by specialize (Hok Dark); rewrite Ed in Hok].
  assert (file_name stem Light <> file_name stem Dark) as Hne.
  { apply list.NoDup_cons in Hnd as [Hnin _]. intros E. apply Hnin. rewrite E. set_solver. }
  assert (forall th, incl [file_name stem th] (names_of stem)) as Hin by (intros th n [<-|[]]; apply file_name_of).
  assert (forall e fs', untouched TARGETS (names_of stem) fs fs' -> (exists th, write_fails TARGETS [file_name stem th] e) ->
    stopped TARGETS [(stem, fn)] fs fs' e) as Hstop.
  { intros e fs' Hu (th & Hw). exists [], (stem, fn), [], fs. split_and!; [done|apply emitted_none|exact Hu|].
    by eapply write_fails_mono. }
  wp_steps. unfold write_all. eapply wp_mono; [apply wp_write_each|]. intros [[]|e] fs1 [Hu1 Hr1].
  2: { apply Hstop; [by eapply untouched_mono|by exists Light]. }
  apply (untouched_mono _ _ (names_of stem)) in Hu1 as Hu1'; [|apply Hin].
  wp_steps. eapply wp_mono; [apply wp_write_each|]. intros [[]|e] fs2 [Hu2 Hr2]; [apply wp_ret|].
  all: apply (untouched_mono _ _ (names_of stem)) in Hu2 as Hu2'; [|apply Hin].
  2: { apply Hstop; [by eapply untouched_trans|by exists Dark]. }
  split; [|cbn; rewrite ?app_nil_r; by eapply untouched_trans].
  intros stem' fn' th b d [E|[]] Hb Hd. injection E as <- <-.
  destruct th; [rewrite El in Hb|rewrite Ed in Hb]; injection Hb as <-; [|by apply Hr2].
  rewrite Hu2; [by apply Hr1|]. right. intros [E|[]]. by apply Hne.
Qed.

(** First some charts, then others of other names. *)
Lemma emitted_app (TARGETS : list string) (cs cs' : list (string * (theme_name -> result string))) (fs fs1 fs2 : F) :
  NoDup (chart_names (cs ++ cs')) -> emitted TARGETS cs fs fs1 -> emitted TARGETS cs' fs1 fs2 ->
  emitted TARGETS (cs ++ cs') fs fs2.
Proof.
  rewrite chart_names_app. intros (_ & Hdis & _)%list.NoDup_app [Hw Hk] [Hw' Hk']. split.
  - intros stem fn th b d [Hin|Hin]%in_app_iff Hb Hd; [|by eapply Hw'].
    rewrite Hk'; [by eapply Hw|]. right. intros Hin'. apply (Hdis (file_name stem th)); apply list_elem_of_In; [|exact Hin'].
    apply in_concat. exists (names_of stem). split; [by apply (in_map (fun c => names_of c.1) cs (stem, fn))|apply file_name_of].
  - rewrite chart_names_app. eapply untouched_trans; eapply untouched_mono; [|exact Hk| |exact Hk'].
    + by apply incl_appl, incl_refl.
    + by apply incl_appr, incl_refl.
Qed.

Lemma chart_names_prefix {A} (cs cs' : list (string * A)) : NoDup (chart_names (cs ++ cs')) -> NoDup (chart_names cs).
Proof. rewrite chart_names_app. by intros (? & _ & _)%list.NoDup_app. Qed.

Lemma stopped_cons (TARGETS : list string) c cs fs fs1 fs2 e :
  NoDup (chart_names (c :: cs)) -> emitted TARGETS [c] fs fs1 -> stopped TARGETS cs fs1 fs2 e ->
  stopped TARGETS (c :: cs) fs fs2 e.
Proof.
  intros Hnd He (done & c' & rest & fs3 & -> & He' & Hu & Hw). exists (c :: done), c', rest, fs3.
  split_and!; [done| |done|done]. eapply (emitted_app _ [c]); [|exact He|exact He'].
  by apply (chart_names_prefix (c :: done) (c' :: rest)).
Qed.

Lemma stopped_first (TARGETS : list string) c cs fs fs' e : stopped TARGETS [c] fs fs' e -> stopped TARGETS (c :: cs) fs fs' e.
Proof.
  intros (done & c' & rest & fs1 & E & He & Hu & Hw). destruct done as [|? [|]]; [|by destruct rest..].
  injection E as <- <-. by exists [], c, cs, fs1.
Qed.

Lemma emit_all_spec (TARGETS : list string) (cs : list (string * (theme_name -> result string))) (fs : F) :
  (forall stem fn th, In (stem, fn) cs -> is_ok (fn th) = true) -> NoDup (chart_names cs) ->
  wp (emit_all TARGETS cs) fs (written TARGETS cs fs).
Proof.
  unfold emit_all. revert fs. induction cs as [|[stem fn] cs IH]; intros fs Hok Hnd; cbn [for_each].
  { apply wp_ret, emitted_none. }
  pose proof Hnd as (Hnd1 & _ & Hnd2)%list.NoDup_app.
  apply wp_bind. eapply wp_mono; [apply emit_spec; [intros th; apply (Hok stem fn); by left|done]|].
  intros [[]|e] fs1 He; cbn beta iota; [|by apply stopped_first].
  eapply wp_mono; [apply IH; [intros; eapply Hok; by right|done]|]. intros [[]|e] fs2 He'.
  - by eapply (emitted_app _ [(stem, fn)]).
  - by eapply stopped_cons.
Qed.
End Emitting.

Lemma charts_ok : forallb (fun '(_, fn) => is_ok (fn Light) && is_ok (fn Dark)) CHARTS = true.
Proof. by vm_compute. Qed.

(** The first path among the arguments that is not a directory. *)
Definition bad_target (is_dir : string -> bool) (args : list string) : option string :=
  List.find (fun d => negb (is_dir d)) (pathlib_Path <$> args).

Lemma targets_spec OUT is_dir args :
  targets OUT is_dir args =
  match bad_target is_dir args with
  | Some d => Raise (SystemExit ("not a directory: " +:+ d))
  | None => Ok (OUT :: (pathlib_Path <$> args))
  end.
Proof.
  unfold targets, bad_target.
  assert (mapR (target is_dir) args =
    match List.find (fun d => negb (is_dir d)) (pathlib_Path <$> args) with
    | Some d => Raise (SystemExit ("not a directory: " +:+ d))
    | None => Ok (pathlib_Path <$> args)
    end) as ->.
  { induction args as [|a args IH]; [done|]. cbn [mapR fmap list_fmap List.find].
    change (target is_dir a) with (if is_dir (pathlib_Path a) then Ok (pathlib_Path a)
      else Raise (SystemExit ("not a directory: " +:+ pathlib_Path a))).
    destruct (is_dir (pathlib_Path a)); [|done]. cbn [negb mbind result_bind]. rewrite IH.
    by destruct (List.find _ _). }
  by destruct (List.find _ _).
Qed.

(** Strings are in some order. *)
#[export] Instance str_le_total : Total str_le.
Proof.
  intros a b. unfold str_le. by destruct (String.leb_total a b); [left|right].
Qed.

Lemma sorted_sorted names : Sorted str_le (sorted names).
Proof. apply sorting.Sorted_merge_sort, _. Qed.

Lemma in_sorted n names : n ∈ sorted names <-> n ∈ names.
Proof. unfold sorted. by rewrite (sorting.merge_sort_Permutation str_le names). Qed.

Section Generator.
Context {F : Type} {D : Disk F} {DL : DiskLaws F}.

Lemma in_svgs (OUT : string) (fs : F) (n : string) : n ∈ svgs OUT fs <-> is_svg n = true /\ is_Some (contents fs OUT n).
Proof. unfold svgs. by rewrite list_elem_of_In, filter_In, <- list_elem_of_In, listing_contents, (and_comm (is_Some _)). Qed.

Lemma emit_charts (TARGETS : list string) (cs : list (string * (theme_name -> result string))) (fs : F) :
  (forall stem fn, In (stem, fn) cs -> In (stem, fn) CHARTS) -> NoDup (chart_names cs) ->
  wp (emit_all TARGETS cs) fs (written TARGETS cs fs).
Proof.
  intros Hcs Hnd. apply emit_all_spec; [|done]. intros stem fn th Hin.
  pose proof (proj1 (forallb_forall _ _) charts_ok _ (Hcs _ _ Hin)) as Hok. apply andb_true_iff in Hok as [? ?]. by destruct th.
Qed.

(** The images in the directory of the script, once the first charts are drawn. *)
Lemma emitted_svgs (OUT : string) (dirs : list string) (fs fs1 : F) (n : string) :
  emitted (OUT :: dirs) FIRST_CHARTS fs fs1 ->
  is_svg n = true /\ is_Some (contents fs1 OUT n) <->
  In n (chart_names FIRST_CHARTS) \/ is_svg n = true /\ is_Some (contents fs OUT n).
Proof.
  intros [Hw Hk]. destruct (in_dec String.string_dec n (chart_names FIRST_CHARTS)) as [Hin|Hin].
  - split; [by left|]. intros _.
    assert (forallb is_svg (chart_names FIRST_CHARTS) = true) as Hsvg by by vm_compute.
    split; [by apply (proj1 (forallb_forall _ _) Hsvg)|].
    unfold chart_names in Hin. apply in_concat in Hin as (ns & ([stem fn] & <- & Hc)%in_map_iff & Hn). cbn in Hn.
    assert (exists th, file_name stem th = n) as [th <-] by (destruct Hn as [<-|[<-|[]]]; by eexists).
    pose proof (proj1 (forallb_forall _ _) charts_ok (stem, fn) ltac:(by apply in_app_iff; left)) as Hok.
    apply andb_true_iff in Hok as [? ?].
    assert (is_ok (fn th) = true) as Hth by by destruct th.
    destruct (fn th) as [body|] eqn:Hb; [|done]. exists body. eapply Hw; [exact Hc|exact Hb|by left].
  - rewrite Hk by by right. tauto.
Qed.

(** The line printed: in order, the images that were in the directory and those drawn by then. *)
Definition lists_images (OUT : string) (fs : F) (out : list string) : Prop :=
  exists names, out = ["wrote: " +:+ str_join ", " names] /\ Sorted str_le names /\
    forall n, n ∈ names <-> In n (chart_names FIRST_CHARTS) \/ is_svg n = true /\ is_Some (contents fs OUT n).

Lemma line_lists (OUT : string) (dirs : list string) (fs fs1 : F) :
  emitted (OUT :: dirs) FIRST_CHARTS fs fs1 -> lists_images OUT fs [wrote_line (svgs OUT fs1)].
Proof.
  intros He. exists (sorted (svgs OUT fs1)). split; [done|]. split; [apply sorted_sorted|]. intros n.
  rewrite in_sorted, in_svgs. by apply emitted_svgs with dirs.
Qed.

(** What a run leaves, from the files [fs], when the targets are directories. *)
Definition generated (OUT : string) (dirs : list string) (fs : F) (r : result unit) (fs' : F) (out : list string) : Prop :=
  let T := OUT :: dirs in
  match r with
  | Ok _ => emitted T CHARTS fs fs' /\ lists_images OUT fs out
  | Raise e =>
      stopped T FIRST_CHARTS fs fs' e /\ out = [] \/
      exists fs1, emitted T FIRST_CHARTS fs fs1 /\ stopped T RF2_CHARTS fs1 fs' e /\ lists_images OUT fs out
  end.

Lemma charts_run (OUT : string) (is_dir : string -> bool) (args : list string) (fs : F) :
  bad_target is_dir args = None ->
  wp (main OUT is_dir args) (Bench.Bench fs 0)
    (fun r b => generated OUT (pathlib_Path <$> args) fs r (Bench.b_world b) (Bench.b_out b)).
Proof.
  intros Hargs. unfold main. rewrite targets_spec, Hargs. apply wp_bind, wp_lift, wp_bind, Bench.wp_on_world.
  eapply wp_mono; [apply emit_charts; [intros; by apply in_app_iff; left|apply (bool_decide_unpack _); by vm_compute]|].
  intros [[]|e] fs1 He1; [|by left]. apply wp_bind, Bench.wp_on_world, wp_get, wp_bind, Bench.wp_print, Bench.wp_on_world.
  eapply wp_mono; [apply emit_charts; [intros; by apply in_app_iff; right|apply (bool_decide_unpack _); by vm_compute]|].
  cbn [Bench.b_world Bench.b_out] in *. intros [[]|e] fs2 He2.
  - split; [|by eapply line_lists]. eapply emitted_app; [|exact He1|exact He2]. apply (bool_decide_unpack _). by vm_compute.
  - right. exists fs1. split_and!; [done|done|by eapply line_lists].
Qed.

Lemma generated_fails (OUT : string) (dirs : list string) (fs fs' : F) e out :
  generated OUT dirs fs (Raise e) fs' out -> write_fails (OUT :: dirs) (chart_names CHARTS) e.
Proof.
  unfold CHARTS. rewrite chart_names_app.
  intros [[Hs _]|(fs1 & _ & Hs & _)]; (eapply write_fails_mono; [|by eapply stopped_fails]).
  - by apply incl_appl, incl_refl.
  - by apply incl_appr, incl_refl.
Qed.

(** C38: the generator, from its arguments to its files, on a disk where any write may fail.  If
    the path of an argument is not a directory it exits, naming the first such path as [pathlib]
    writes it, and no file has changed and nothing is printed.  Otherwise it returns if the files
    can be written; when it returns, each target directory holds each chart, in both themes, with
    the same contents everywhere, no other file has changed, and the line it prints names, in
    order, the charts that were in its directory before the run and those of the run, except the
    two that it draws afterwards.  When it raises, it is for a chart's file that could not be
    written: the charts before that one are in every target, of the files only those and that
    one's have changed, and the line has been printed exactly if that one is one of the last two. *)
Theorem charts_reach_targets (OUT : string) (is_dir : string -> bool) (args : list string) (fs : F) :
  let run := main OUT is_dir args in
  match bad_target is_dir args with
  | Some d => run (Bench.Bench fs 0) = (Raise (SystemExit ("not a directory: " +:+ d)), Bench.Bench fs 0)
  | None =>
      let dirs := pathlib_Path <$> args in
      let b := after run (Bench.Bench fs 0) in
      generated OUT dirs fs (outcome run (Bench.Bench fs 0)) (Bench.b_world b) (Bench.b_out b) /\
      (writable (OUT :: dirs) (chart_names CHARTS) -> outcome run (Bench.Bench fs 0) = Ok tt)
  end.
Proof.
  intros run. unfold run. destruct (bad_target is_dir args) as [a|] eqn:Hargs.
  { unfold main. by rewrite targets_spec, Hargs. }
  pose proof (charts_run OUT is_dir args fs Hargs) as Hrun. apply wp_run in Hrun. split; [exact Hrun|].
  intros Hw. destruct (outcome _ _) as [[]|e]; [done|]. by destruct (writable_fails _ _ _ Hw (generated_fails _ _ _ _ _ _ Hrun)).
Qed.
End Generator.

(** A first run names fourteen of the eighteen files that it writes. *)
Example first_run :
  Bench.b_out (after (main "charts" (fun _ => true) []) (Bench.Bench (MemDisk ∅ []) 0)) =
    ["wrote: local-get-family-dark.svg, local-get-family-light.svg, local-get-fast-dark.svg, local-get-fast-light.svg, " +:+
     "local-put-family-dark.svg, local-put-family-light.svg, local-put-fast-dark.svg, local-put-fast-light.svg, " +:+
     "replication-dark.svg, replication-light.svg, sharding-dark.svg, sharding-light.svg, wire-sweep-dark.svg, wire-sweep-light.svg"].
Proof. by vm_compute. Qed.

(** With a second directory that cannot be written to, the run stops at the first chart. *)
Lemma charts_reach_targets_witness :
  let run := main "charts" (String.eqb "site") ["./site/"] in
  let start := Bench.Bench (MemDisk ∅ ["site"]) 0 in
  outcome run start = Raise (OtherError "PermissionError") /\
  generated "charts" ["site"] (MemDisk ∅ ["site"]) (outcome run start) (Bench.b_world (after run start)) (Bench.b_out (after run start)).
Proof.
  split; [by vm_compute|].
  exact (proj1 (charts_reach_targets "charts" (String.eqb "site") ["./site/"] (MemDisk ∅ ["site"]))).
Defined.
