(* ===== verification/VecCharts.v ===== *)
(** * The charts of the vector benchmark: [vectordbbench/charts/make_charts.py]

    The measurements, the SVG helpers, the three charts and the writing of the files.
    Measurements are kept as the decimals of the source, and become binary64 where the script
    computes with them.  [math.log10] is the C library's, correctly rounded nowhere: it is the
    parameter [math_log10]. *)

From S2P Require Import Prelude Bytes Text Float64 PyVal Num Disk KvCharts.
From S2P Require Bench.

(** ** The measurements *)

Definition CURVE : dict (list (lit * lit)) :=
  [("rostam", [(0.8889, 4691.5); (0.9694, 2675.4); (0.9877, 1660.9); (0.9952, 1042.3); (0.9978, 713.9)]%lit);
   ("pgvector", [(0.9075, 2833.2); (0.9747, 1087.1); (0.9897, 602.9)]%lit);
   ("milvus", [(0.9080, 2588.9); (0.9838, 1023.2); (0.9906, 805.4)]%lit);
   ("weaviate", [(0.8741, 1135.5); (0.9618, 947.2); (0.9829, 756.9)]%lit);
   ("redis", [(0.8731, 879.9); (0.9616, 423.9); (0.9828, 239.8)]%lit);
   ("qdrant", [(0.9675, 662.0); (0.9926, 385.6); (0.9968, 276.9)]%lit)].

Definition MATCHED : dict (dict (option Z)) :=
  [("0.95", [("rostam", Some 3161); ("milvus", Some 1721); ("pgvector", Some 1729);
             ("weaviate", Some 973); ("qdrant", None); ("redis", Some 484)]);
   ("0.97", [("rostam", Some 2642); ("milvus", Some 1308); ("pgvector", Some 1209);
             ("weaviate", Some 873); ("qdrant", Some 634); ("redis", Some 351)]);
   ("0.98", [("rostam", Some 2088); ("milvus", Some 1102); ("pgvector", Some 916);
             ("weaviate", Some 783); ("qdrant", Some 524); ("redis", Some 264)]);
   ("0.99", [("rostam", Some 1471); ("milvus", Some 826); ("pgvector", None);
             ("weaviate", None); ("qdrant", Some 414); ("redis", None)])].

Record load_row := { load_s : lit; load_cpu : lit; load_cores : lit; load_qps : lit }.
Definition row (a b c d : lit) : load_row := {| load_s := a; load_cpu := b; load_cores := c; load_qps := d |}.
Definition LOAD : dict load_row :=
  [("rostam", row 282.2 1933.8 7.54 2675.4);
   ("pgvector", row 386.1 2637.0 11.04 1087.1);
   ("milvus", row 476.3 2695.6 9.81 1023.2);
   ("qdrant", row 592.2 2386.0 9.92 385.6);
   ("redis", row 1354.9 1355.5 1.00 423.9);
   ("weaviate", row 1432.7 4937.0 8.86 947.2)].

Definition LABEL : dict string :=
  [("rostam", "Rostam"); ("milvus", "Milvus"); ("pgvector", "pgvector"); ("weaviate", "Weaviate");
   ("qdrant", "Qdrant"); ("redis", "Redis")].
Definition ORDER : list string := ["rostam"; "milvus"; "pgvector"; "weaviate"; "qdrant"; "redis"].

Record palette := {
  t_ink : string; t_muted : string; t_faint : string; t_rule : string; t_grid : string; t_bg : string; t_ok : string;
  t_e : dict string
}.
Definition THEME (th : theme_name) : palette :=
  match th with
  | Light =>
      {| t_ink := "#0F151D"; t_muted := "#55616F"; t_faint := "#8994A2"; t_rule := "#DCE1E7"; t_grid := "#E7EBEF";
         t_bg := "#FFFFFF"; t_ok := "#0E7C5A";
         t_e := [("rostam", "#B45309"); ("milvus", "#0E8C86"); ("pgvector", "#4457C9");
                 ("weaviate", "#5E8C1F"); ("qdrant", "#C2385C"); ("redis", "#7B57C4")] |}
  | Dark =>
      {| t_ink := "#E4E9EF"; t_muted := "#93A0AE"; t_faint := "#64717F"; t_rule := "#2A3542"; t_grid := "#1E2732";
         t_bg := "#0D1117"; t_ok := "#3FBE8F";
         t_e := [("rostam", "#F0A22E"); ("milvus", "#35C4BB"); ("pgvector", "#7F90F2");
                 ("weaviate", "#9CCB4B"); ("qdrant", "#F0708F"); ("redis", "#AC8DF0")] |}
  end.

Definition MONO : string := "ui-monospace, SFMono-Regular, Menlo, Consolas, monospace".

(** ** SVG helpers *)

(** A number as an f-string writes it: an integer, or a float. *)
Inductive num := NI (z : Z) | NF (x : lit).
Definition num_text (n : num) : string := match n with NI z => dec z | NF x => float_repr (f_of_lit x) end.

(** The optional arguments of [text]. *)
Record text_style := { size : num; anchor : string; weight : string; spacing : string }.
Definition plain : text_style := {| size := NF 10.5; anchor := "start"; weight := "normal"; spacing := "" |}.
Definition anchored (a : string) : text_style := {| size := NF 10.5; anchor := a; weight := "normal"; spacing := "" |}.
Definition caption : text_style := {| size := NI 10; anchor := "middle"; weight := "normal"; spacing := "0.12em" |}.

(** The script's own [esc], of text that is already a string. *)
Definition esc (s : string) : string :=
  str_replace ">" "&gt;" (str_replace "<" "&lt;" (str_replace "&" "&amp;" s)).

Definition text (x y : float) (s fill : string) (st : text_style) : string :=
  let ls := if String.eqb (spacing st) "" then "" else cat [q " letter-spacing=`"; spacing st; q "`"] in
  cat [q "<text x=`"; f1 x; q "` y=`"; f1 y; q "` fill=`"; fill; q "` font-family=`"; MONO; q "` font-size=`";
       num_text (size st); q "` text-anchor=`"; anchor st; q "` font-weight=`"; weight st; q "`"; ls; ">"; esc s; "</text>"].

Definition line_with (x1 y1 x2 y2 : float) (stroke : string) (w : num) (dash : string) : string :=
  let d := if String.eqb dash "" then "" else cat [q " stroke-dasharray=`"; dash; q "`"] in
  cat [q "<line x1=`"; f1 x1; q "` y1=`"; f1 y1; q "` x2=`"; f1 x2; q "` y2=`"; f1 y2; q "` stroke=`"; stroke;
       q "` stroke-width=`"; num_text w; q "`"; d; "/>"].
(** [line] with its defaults, [w=1] and [dash=None] *)
Definition line (x1 y1 x2 y2 : float) (stroke : string) : string := line_with x1 y1 x2 y2 stroke (NI 1) "".

Definition rect (x y w h : float) (fill : string) (opacity rx : num) : string :=
  cat [q "<rect x=`"; f1 x; q "` y=`"; f1 y; q "` width=`"; f1 (n_max w (fz 0)); q "` height=`"; f1 (n_max h (fz 0));
       q "` fill=`"; fill; q "` opacity=`"; num_text opacity; q "` rx=`"; num_text rx; q "`/>"].

Definition circle (cx cy r : float) (fill stroke : string) (sw opacity : num) : string :=
  cat [q "<circle cx=`"; f1 cx; q "` cy=`"; f1 cy; q "` r=`"; f1 r; q "` fill=`"; fill; q "` opacity=`"; num_text opacity;
       q "` stroke=`"; stroke; q "` stroke-width=`"; num_text sw; q "`/>"].

Definition svg (width height : Z) (body : string) (t : palette) (title : string) : string :=
  cat [q "<svg xmlns=`http://www.w3.org/2000/svg` viewBox=`0 0 "; dec width; " "; dec height; q "` width=`"; dec width;
       q "` height=`"; dec height; q "` role=`img` aria-label=`"; esc title; q "`><title>"; esc title;
       q "</title><rect width=`"; dec width; q "` height=`"; dec height; q "` fill=`"; t_bg t; q "`/>"] +:+
  body +:+ "</svg>" +:+ nl.

(** The digits of an integer part, in groups of three. *)
Fixpoint group_digits (fuel : nat) (s : list ascii) : list ascii :=
  match fuel with
  | O => s
  | S fuel => if (length s <=? 3)%nat then s
              else group_digits fuel (take (length s - 3) s) ++ ["044"%char] ++ drop (length s - 3) s
  end.
Definition commas (s : string) : string :=
  match s with
  | String "-" s => String "-" (String.string_of_list_ascii (group_digits (String.length s) (String.list_ascii_of_string s)))
  | s => String.string_of_list_ascii (group_digits (String.length s) (String.list_ascii_of_string s))
  end.

(** [f"{n:,.0f}"] *)
Definition fmt (n : float) : string := commas (fmt_fixed 0 n).

(** ** The charts *)

Definition fl (x : lit) : float := f_of_lit x.
Definition is_lead (k : string) : bool := String.eqb k "rostam".

(** The frame of a chart: [x0], [x1], [y0], [y1]. *)
Record frame := { fr_x0 : Z; fr_x1 : Z; fr_y0 : Z; fr_y1 : Z }.
Definition frame_of (W H L R T B : Z) : frame := {| fr_x0 := L; fr_x1 := W - R; fr_y0 := H - B; fr_y1 := T |}.

(** [x0 + ratio * (x1 - x0)] and [y0 - ratio * (y0 - y1)] *)
Definition across (f : frame) (r : float) : float := fadd (fz (fr_x0 f)) (fmul r (fz (fr_x1 f - fr_x0 f))).
Definition up (f : frame) (r : float) : float := fsub (fz (fr_y0 f)) (fmul r (fz (fr_y0 f - fr_y1 f))).

(** A horizontal grid line with its label, and a vertical one. *)
Definition h_grid (t : palette) (f : frame) (y : float) (lab : string) : string :=
  line (fz (fr_x0 f)) y (fz (fr_x1 f)) y (t_grid t) +:+
  text (fz (fr_x0 f - 9)) (fadd y (fl 3.5)) lab (t_faint t) (anchored "end").
Definition v_grid (t : palette) (f : frame) (x : float) (lab : string) : string :=
  line x (fz (fr_y0 f)) x (fz (fr_y1 f)) (t_grid t) +:+
  text x (fz (fr_y0 f + 18)) lab (t_faint t) (anchored "middle").

Definition x_axis (t : palette) (f : frame) : string :=
  line (fz (fr_x0 f)) (fz (fr_y0 f)) (fz (fr_x1 f)) (fz (fr_y0 f)) (t_rule t).

(** [(a + b) / 2] *)
Definition middle (a b : Z) : float := f_of_ratio (a + b) 2.

(** The captions of the two axes. *)
Definition x_caption (t : palette) (f : frame) (s : string) : string :=
  text (middle (fr_x0 f) (fr_x1 f)) (fz (fr_y0 f + 40)) s (t_faint t) caption.
Definition y_caption (t : palette) (f : frame) (x : Z) (s : string) : string :=
  cat [q "<g transform=`rotate(-90 "; dec x; " "; f1 (middle (fr_y0 f) (fr_y1 f)); q ")`>"] +:+
  text (fz x) (middle (fr_y0 f) (fr_y1 f)) s (t_faint t) caption +:+ "</g>".

Definition bold (sz : num) : text_style := {| size := sz; anchor := "start"; weight := "600"; spacing := "" |}.

Class Libm := math_log10 : float -> float.

Section Pareto.
Context {L : Libm}.

Definition pareto_frame : frame := frame_of 880 470 62 112 26 56.

Definition pareto_x (r : float) : result float :=
  v ← py_fdiv (fsub r (fl 0.865)) (fsub (fl 1.0) (fl 0.865)); Ok (across pareto_frame v).
Definition pareto_y (qps : float) : result float :=
  v ← py_fdiv (fsub (math_log10 qps) (math_log10 (fl 200.0)))
              (fsub (math_log10 (fl 5200.0)) (math_log10 (fl 200.0)));
  Ok (up pareto_frame v).

Definition pareto_point (i : nat) (p : lit * lit) : result string :=
  x ← pareto_x (fl p.1); y ← pareto_y (fl p.2);
  Ok (cat [if Nat.eqb i 0 then "M" else "L"; f1 x; ","; f1 y]).

Definition pareto_dot (t : palette) (k col : string) (p : lit * lit) : result string :=
  x ← pareto_x (fl p.1); y ← pareto_y (fl p.2);
  Ok (circle x y (if is_lead k then fl 4.4 else fl 3.1) (t_bg t) col (if is_lead k then NF 2.5 else NF 1.7) (NI 1)).

(** [text(X(lr) + 11, Y(lq) + dy, s, col, size=size, weight="600")] at the last point *)
Definition pareto_note (pts : list (lit * lit)) (dy : Z) (s col : string) (sz : num) : result string :=
  '(lr, lq) ← py_last pts;
  x ← pareto_x (fl lr); y ← pareto_y (fl lq);
  Ok (text (fadd x (fz 11)) (fadd y (fz dy)) s col (bold sz)).

(** An engine: its path, its points and its name. *)
Definition pareto_engine (t : palette) (k : string) : result string :=
  pts ← dict_item k CURVE;
  col ← dict_item k (t_e t);
  d ← enumR pareto_point 0 pts;
  dots ← mapR (pareto_dot t k col) pts;
  lab ← dict_item k LABEL;
  note ← pareto_note pts 4 lab col (NF 11.5);
  Ok (cat [q "<path d=`"; str_join " " d; q "` fill=`none` stroke=`"; col; q "` stroke-width=`";
           num_text (if is_lead k then NF 2.8 else NF 1.6); q "` stroke-linecap=`round` stroke-linejoin=`round` opacity=`";
           num_text (if is_lead k then NI 1 else NF 0.85); q "`/>"] +:+ cat dots +:+ note).

Definition chart_pareto (t : palette) : result string :=
  let f := pareto_frame in
  hs ← mapR (fun n => y ← pareto_y (fz n); Ok (h_grid t f y (fmt (fz n)))) [200; 500; 1000; 2000; 5000];
  vs ← mapR (fun r => x ← pareto_x (fl r); Ok (v_grid t f x (fmt_fixed 2 (fl r))))
         [0.88; 0.90; 0.92; 0.94; 0.96; 0.98; 1.00]%lit;
  engines ← mapR (pareto_engine t) ORDER;
  pts ← dict_item "rostam" CURVE;
  col ← dict_item "rostam" (t_e t);
  best ← pareto_note pts 19 "0.9978" col (NF 10.5);
  Ok (svg 880 470 (cat [cat hs; cat vs; x_axis t f; x_caption t f "RECALL @ k=100"; y_caption t f 16 "QUERIES / SEC";
                        cat engines; best]) t
      "Recall versus queries per second. Rostam's curve is above every other engine across the full recall range.").
End Pareto.

(** *** Throughput at matched recall *)

Definition matched_frame : frame := frame_of 880 400 60 24 20 70.
Definition matched_y (v : float) : result float := r ← py_fdiv v (fl 3400.0); Ok (up matched_frame r).

Definition matched_bar (t : palette) (gx gw bw : float) (bi : nat) (k : string) (v : option Z) : result string :=
  let f := matched_frame in
  pad ← py_fdiv (fsub gw (fmul bw (fz (Z.of_nat (length ORDER))))) (fz 2);
  let x := fadd (fadd gx pad) (fmul (fz (Z.of_nat bi)) bw) in
  match v with
  | None =>
      half ← py_fdiv bw (fz 2);
      Ok (text (fadd x half) (fz (fr_y0 f - 6)) "–" (t_faint t) (anchored "middle"))
  | Some v =>
      y ← matched_y (fz v);
      col ← dict_item k (t_e t);
      mid ← py_fdiv (fsub bw (fz 3)) (fz 2);
      Ok (rect x y (fsub bw (fz 3)) (fsub (fz (fr_y0 f)) y) col (if is_lead k then NI 1 else NF 0.8) (NI 1) +:+
          if is_lead k
          then text (fadd x mid) (fsub y (fz 6)) (fmt (fz v)) col
                 {| size := NF 10.5; anchor := "middle"; weight := "600"; spacing := "" |}
          else "")
  end.

Definition matched_group (t : palette) (gw bw : float) (gi : nat) (lv : string) : result string :=
  let f := matched_frame in
  let gx := fadd (fz (fr_x0 f)) (fmul (fz (Z.of_nat gi)) gw) in
  levels ← dict_item lv MATCHED;
  bars ← enumR (fun bi k => v ← dict_item k levels; matched_bar t gx gw bw bi k v) 0 ORDER;
  half ← py_fdiv gw (fz 2);
  Ok (cat bars +:+ text (fadd gx half) (fz (fr_y0 f + 20)) ("recall " +:+ lv) (t_muted t) (anchored "middle")).

(** The legend, from [lx] on. *)
Fixpoint matched_legend (t : palette) (lx : float) (ks : list string) : result string :=
  let f := matched_frame in
  match ks with
  | [] => Ok ""
  | k :: ks =>
      col ← dict_item k (t_e t);
      lab ← dict_item k LABEL;
      let here := rect lx (fz (fr_y0 f + 40)) (fz 9) (fz 9) col (NI 1) (NI 2) +:+
                  text (fadd lx (fz 14)) (fz (fr_y0 f + 48)) lab (t_muted t) plain in
      rest ← matched_legend t
        (fadd lx (fadd (fmul (fz (Z.of_nat (String.length lab))) (fl 6.5)) (fz 36))) ks;
      Ok (here +:+ rest)
  end.

Definition chart_matched (t : palette) : result string :=
  let f := matched_frame in
  let levels := ["0.95"; "0.97"; "0.98"; "0.99"] in
  hs ← mapR (fun n => y ← matched_y (fz n); Ok (h_grid t f y (fmt (fz n)))) [0; 1000; 2000; 3000];
  gw ← py_int_div (fr_x1 f - fr_x0 f) (Z.of_nat (length levels));
  room ← py_fdiv (fsub gw (fz 34)) (fz (Z.of_nat (length ORDER)));
  let bw := n_min (fl 21.0) room in
  groups ← enumR (matched_group t gw bw) 0 levels;
  legend ← matched_legend t (fz (fr_x0 f)) ORDER;
  Ok (svg 880 400 (cat [cat hs; cat groups; x_axis t f; legend]) t
      "Throughput at matched recall for six engines at recall 0.95 through 0.99.").

(** *** Load time against CPU time *)

Definition load_frame : frame := frame_of 880 420 68 132 28 56.
Definition load_x (s : float) : result float := r ← py_fdiv s (fl 1550.0); Ok (across load_frame r).
Definition load_y (c : float) : result float := r ← py_fdiv c (fl 5200.0); Ok (up load_frame r).

(** An engine: a bubble whose area grows with its cores, and two lines of text beside it. *)
Definition load_engine (t : palette) (k : string) : result string :=
  d ← dict_item k LOAD;
  col ← dict_item k (t_e t);
  lab ← dict_item k LABEL;
  let lead := is_lead k in
  let r := fadd (fz 5) (fmul (fsqrt (fl (load_cores d))) (fl 2.6)) in
  x ← load_x (fl (load_s d));
  y ← load_y (fl (load_cpu d));
  let right := fleb (fl (load_s d)) (fz 1100) in
  let dx := if right then fadd r (fz 9) else SFopp (fadd r (fz 9)) in
  let anch := if right then "start" else "end" in
  Ok (circle x y r col col (if lead then NF 2.5 else NF 1.6) (if lead then NF 0.95 else NF 0.3) +:+
      text (fadd x dx) (fsub y (fz 2)) lab col {| size := NF 11.5; anchor := anch; weight := "600"; spacing := "" |} +:+
      text (fadd x dx) (fadd y (fz 12)) (cat [fmt_fixed 0 (fl (load_s d)); "s · "; fmt (fl (load_cpu d)); " cpu-s"])
        (if lead then col else t_muted t)
        {| size := NF 10.5; anchor := anch; weight := if lead then "600" else "normal"; spacing := "" |}).

Definition chart_loadcpu (t : palette) : result string :=
  let f := load_frame in
  hs ← mapR (fun c => y ← load_y (fz c); Ok (h_grid t f y (fmt (fz c)))) [0; 1000; 2000; 3000; 4000; 5000];
  vs ← mapR (fun s => x ← load_x (fz s); Ok (v_grid t f x (dec s +:+ "s"))) [0; 300; 600; 900; 1200; 1500];
  engines ← mapR (load_engine t) ORDER;
  Ok (svg 880 420 (cat [cat hs; cat vs; x_axis t f; x_caption t f "LOAD WALL-CLOCK"; y_caption t f 18 "CPU-SECONDS SPENT";
                        text (fz (fr_x0 f + 6)) (fz (fr_y1 f + 10)) "← faster · cheaper ↓" (t_ok t) plain;
                        cat engines]) t
      "Load wall-clock against CPU seconds spent. Rostam is fastest and cheapest simultaneously.").

(** ** Writing them *)

Section Main.
Context {L : Libm} {F : Type} {D : Disk F}.

(** [CHARTS], each under its name *)
Definition VEC_CHARTS : list (string * (palette -> result string)) :=
  [("pareto", chart_pareto); ("matched-recall", chart_matched); ("load-cpu", chart_loadcpu)].

(** The chart of a name and a theme, to every target. *)
Definition wrote (targets : list string) (name : string) (th : theme_name) : string :=
  cat ["wrote "; file_name name th; "  ->  "; dec (Z.of_nat (length targets)); " location(s)"].
Definition write_chart (targets : list string) (name : string) (fn : palette -> result string) (th : theme_name)
    : M (Bench.bench F) unit :=
  body ← lift_result (fn (THEME th));
  _ ← Bench.on_world (write_all targets (file_name name th) body);
  Bench.print (wrote targets name th).

(** The script's [main]: all targets are checked before anything is written. *)
Definition main (OUT : string) (is_dir : string -> bool) (args : list string) : M (Bench.bench F) unit :=
  targets ← lift_result (targets OUT is_dir args);
  for_each VEC_CHARTS (fun '(name, fn) => for_each [Light; Dark] (write_chart targets name fn)).
End Main.
