(* ===== verification/VecProps.v ===== *)
(** * What the vector charts guarantee

    The properties of [vectordbbench/charts/make_charts.py]: its tables against one another,
    in exact arithmetic; the number format; and the writing of the files. *)

From S2P Require Import Prelude Bytes Text Float64 PyVal Num Disk KvCharts KvProps VecCharts.
From S2P Require Bench.
From Stdlib Require Import QArith Lqa.

#[local] Open Scope Z_scope.

(** ** The measurements *)

(** The exact value of a decimal of the source. *)
Definition lit_Q (x : lit) : Q := lit_num x # Z.to_pos (10 ^ Z.of_nat (lit_scale x)).

(** The throughput at recall [r], on the straight line between the two measured points around
    it; [None] outside the measured range. *)
Fixpoint interpolate (pts : list (lit * lit)) (r : Q) : option Q :=
  match pts with
  | (r0, q0) :: ((r1, q1) :: _) as rest =>
      if Qle_bool (lit_Q r0) r && Qle_bool r (lit_Q r1)
      then Some (lit_Q q0 + (r - lit_Q r0) / (lit_Q r1 - lit_Q r0) * (lit_Q q1 - lit_Q q0))%Q
      else interpolate rest r
  | _ => None
  end.

Definition nearest (x : Q) : Z := round_half_even (Qnum x) (Qden x).

Definition LEVELS : list (string * lit) := [("0.95", 0.95%lit); ("0.97", 0.97%lit); ("0.98", 0.98%lit); ("0.99", 0.99%lit)].

(** The cell of the table for a level and an engine, and the one its curve gives. *)
Definition cell (lv k : string) : option (option Z) := row ← dict_get lv MATCHED; dict_get k row.
Definition curve_cell (lv : lit) (k : string) : option (option Z) :=
  pts ← dict_get k CURVE; Some (nearest <$> interpolate pts (lit_Q lv)).

(** The matched-recall table comes from the curves.  Every cell is the engine's curve
    interpolated linearly at that recall and rounded, and empty exactly outside the engine's
    measured range; except Milvus at 0.99, where the curve gives 825 and the table says 826. *)
Example matched_from_curve :
  forallb (fun '(lv, r) => forallb (fun k =>
    bool_decide (cell lv k = curve_cell r k) || (String.eqb lv "0.99" && String.eqb k "milvus")) ORDER) LEVELS = true /\
  cell "0.99" "milvus" = Some (Some 826) /\ curve_cell 0.99 "milvus" = Some (Some 825).
Proof. by vm_compute. Qed.

(** The recalls at which two engines are both measured or interpolated. *)
Definition above_at (pts pts' : list (lit * lit)) (r : Q) : bool :=
  match interpolate pts r, interpolate pts' r with
  | Some x, Some y => Qltb y x
  | _, _ => true
  end.
Definition above (pts pts' : list (lit * lit)) : bool :=
  forallb (fun p => above_at pts pts' (lit_Q p.1)) (pts ++ pts').

(** Rostam's curve is above the others.  At every measured recall of Rostam and of the
    other engine at which both are in range, Rostam's throughput is strictly the greater; it
    is the greatest of every row of the matched table; and it reaches the highest recall. *)
Example rostam_above :
  match dict_get "rostam" CURVE with
  | Some pts => forallb (fun '(k, pts') => is_lead k || above pts pts' &&
      forallb (fun p => existsb (fun p' => Qltb (lit_Q p.1) (lit_Q p'.1)) pts) pts') CURVE
  | None => false
  end &&
  forallb (fun '(_, row) => match dict_get "rostam" row with
    | Some (Some best) => forallb (fun '(k, v) => is_lead k || match v with Some v => v <? best | None => true end) row
    | _ => false end) MATCHED = true.
Proof. by vm_compute. Qed.

(** The load chart's title claims too much.  Rostam's load is the fastest of the table,
    and spends the least CPU of the engines that load on more than one core; but Redis, on its
    single core, spends less. *)
Theorem load_claims :
  match dict_get "rostam" LOAD, dict_get "redis" LOAD with
  | Some a, Some r =>
      forallb (fun '(k, b) => is_lead k || Qltb (lit_Q (load_s a)) (lit_Q (load_s b)) &&
        (Qltb (lit_Q (load_cpu a)) (lit_Q (load_cpu b)) || Qle_bool (lit_Q (load_cores b)) 1)) LOAD &&
      Qltb (lit_Q (load_cpu r)) (lit_Q (load_cpu a))
  | _, _ => false
  end = true.
Proof. by vm_compute. Qed.

(** ** The number format *)








Example commas_of : commas "-1234567" = "-1,234,567". Proof. done. Qed.

(** ** The files *)

Section Files.
Context {L : Libm} {F : Type} {D : Disk F} {DL : DiskLaws F}.

(** The charts, each in both themes. *)
Definition in_themes (cs : list (string * (palette -> result string))) : list (string * (theme_name -> result string)) :=
  (fun '(name, fn) => (name, fun th => fn (THEME th))) <$> cs.
Definition themed : list (string * (theme_name -> result string)) := in_themes VEC_CHARTS.

(** The lines printed for them. *)
Definition reported (targets : list string) (names : list string) : list string :=
  concat ((fun name => [wrote targets name Light; wrote targets name Dark]) <$> names).

(** The files are those of the other generator's [emit]; a line is printed besides for each name
    written in every directory. *)
Definition reports (targets : list string) (cs : list (string * (palette -> result string))) (b : Bench.bench F)
    (r : result unit) (b' : Bench.bench F) : Prop :=
  match r with
  | Ok _ => emitted targets (in_themes cs) (Bench.b_world b) (Bench.b_world b') /\
      Bench.b_out b' = Bench.b_out b ++ reported targets cs.*1
  | Raise e => exists done c rest fs said, cs = done ++ c :: rest /\
      emitted targets (in_themes done) (Bench.b_world b) fs /\ untouched targets (names_of c.1) fs (Bench.b_world b') /\
      (said = [] /\ write_fails targets [file_name c.1 Light] e \/
       said = [wrote targets c.1 Light] /\ write_fails targets [file_name c.1 Dark] e) /\
      Bench.b_out b' = Bench.b_out b ++ reported targets done.*1 ++ said
  end.

Lemma write_chart_spec (targets : list string) (name : string) (fn : palette -> result string) (b : Bench.bench F) :
  (forall th, is_ok (fn (THEME th)) = true) -> NoDup (names_of name) ->
  wp (for_each [Light; Dark] (write_chart targets name fn)) b (reports targets [(name, fn)] b).
Proof.
  intros Hok Hnd.
  assert (file_name name Light <> file_name name Dark) as Hne.
  { apply list.NoDup_cons in Hnd as [Hnin _]. intros E. apply Hnin. rewrite E. set_solver. }
  assert (forall th, incl [file_name name th] (names_of name)) as Hin by (intros th n [<-|[]]; apply file_name_of).
  unfold write_chart. cbn [for_each].
  destruct (fn (THEME Light)) as [bl|] eqn:El; [|by specialize (Hok Light); rewrite El in Hok].
  destruct (fn (THEME Dark)) as [bd|] eqn:Ed; [|by specialize (Hok Dark); rewrite Ed in Hok].
  wp_steps. apply Bench.wp_on_world. unfold write_all. eapply wp_mono; [apply wp_write_each|]. intros [[]|e] fs1 [Hu1 Hr1].
  2: { exists [], (name, fn), [], (Bench.b_world b), []. cbn. rewrite app_nil_r.
       split_and!; [done|apply emitted_none|by eapply untouched_mono|by left|done]. }
  apply (untouched_mono _ _ (names_of name)) in Hu1 as Hu1'; [|apply Hin].
  apply Bench.wp_print. cbn beta iota. wp_steps. apply Bench.wp_on_world.
  eapply wp_mono; [apply wp_write_each|]. intros [[]|e] fs2 [Hu2 Hr2]; cbn [Bench.b_world Bench.b_out] in *.
  all: apply (untouched_mono _ _ (names_of name)) in Hu2 as Hu2'; [|apply Hin].
  2: { exists [], (name, fn), [], (Bench.b_world b), [wrote targets name Light]. cbn.
       split_and!; [done|apply emitted_none|by eapply untouched_trans|by right|done]. }
  apply Bench.wp_print. cbn beta iota. apply wp_ret. cbn [Bench.b_world Bench.b_out]. split; [|by rewrite <- app_assoc].
  split; [|cbn; rewrite ?app_nil_r; by eapply untouched_trans].
  intros stem' fn' th body d [E|[]] Hb Hd. injection E as <- <-.
  destruct th; [rewrite El in Hb|rewrite Ed in Hb]; injection Hb as <-; [|by apply Hr2].
  rewrite Hu2; [by apply Hr1|]. right. intros [E|[]]. by apply Hne.
Qed.

Lemma write_charts (targets : list string) (cs : list (string * (palette -> result string))) (b : Bench.bench F) :
  (forall name fn th, In (name, fn) cs -> is_ok (fn (THEME th)) = true) -> NoDup (chart_names (in_themes cs)) ->
  wp (for_each cs (fun '(name, fn) => for_each [Light; Dark] (write_chart targets name fn))) b (reports targets cs b).
Proof.
  revert b. induction cs as [|[name fn] cs IH]; intros b Hok Hnd; cbn [for_each].
  { apply wp_ret. split; [apply emitted_none|by rewrite app_nil_r]. }
  pose proof Hnd as (Hnd1 & _ & Hnd2)%list.NoDup_app. apply wp_bind.
  eapply wp_mono; [apply (write_chart_spec targets name fn b); [intros th; apply (Hok name fn); by left|done]|].
  intros [[]|e] b1 Hb1; cbn beta iota.
  - destruct Hb1 as [He Ho]. eapply wp_mono; [apply IH; [intros; eapply Hok; by right|done]|]. intros [[]|e] b2 Hb2.
    + destruct Hb2 as [He2 Ho2]. split; [by eapply (emitted_app _ [(name, fun th => fn (THEME th))])|].
      rewrite Ho2, Ho, <- app_assoc. done.
    + destruct Hb2 as (done & c & rest & fs & said & -> & He2 & Hu & Hs & Ho2).
      exists ((name, fn) :: done), c, rest, fs, said. split_and!; [done| |done|done|].
      * eapply (emitted_app _ [(name, fun th => fn (THEME th))]); [|exact He|exact He2].
        unfold in_themes in Hnd. rewrite (fmap_app _ (_ :: done) (c :: rest) : _ <$> ((name, fn) :: done ++ c :: rest) = _) in Hnd.
        by apply chart_names_prefix in Hnd.
      * rewrite Ho2, Ho, <- !app_assoc. done.
  - destruct Hb1 as (done & c & rest & fs & said & E & He & Hu & Hs & Ho).
    destruct done as [|? [|]]; [|by destruct rest..]. injection E as <- <-. by exists [], (name, fn), cs, fs, said.
Qed.

Lemma reports_fails (targets : list string) cs b e b' : reports targets cs b (Raise e) b' -> write_fails targets (chart_names (in_themes cs)) e.
Proof.
  intros (done & [name fn] & rest & fs & said & -> & _ & _ & Hs & _).
  assert (incl (names_of name) (chart_names (in_themes (done ++ (name, fn) :: rest)))) as Hi.
  { unfold in_themes. rewrite fmap_app, chart_names_app. intros n Hn. apply in_app_iff. right. apply in_app_iff. by left. }
  destruct Hs as [[_ Hw]|[_ Hw]]; (eapply write_fails_mono; [|exact Hw]); intros n [<-|[]]; apply Hi, file_name_of.
Qed.

(** C39: all targets are checked before anything is written, on a disk where any write may fail.
    If the path of an argument is not a directory, the script exits naming the first such path as
    [pathlib] writes it, nothing is printed and no file has changed.  Otherwise, if the charts can
    be drawn, it returns if the files can be written; when it returns, each target directory holds
    each chart in both themes, the same everywhere, no other file has changed, and the lines
    printed name each file written, with the number of directories.  When it raises, it is for a
    chart's file that could not be written: the charts before that one are in every target, of
    the files only those and that one's have changed, and the lines printed are those of the
    names written in every directory. *)
Theorem vec_charts_reach_targets (OUT : string) (is_dir : string -> bool) (args : list string) (fs : F) :
  (forall name fn th, In (name, fn) VEC_CHARTS -> is_ok (fn (THEME th)) = true) ->
  let run := main OUT is_dir args in
  match bad_target is_dir args with
  | Some d => run (Bench.Bench fs 0) = (Raise (SystemExit ("not a directory: " +:+ d)), Bench.Bench fs 0)
  | None =>
      let dirs := pathlib_Path <$> args in
      let b := after run (Bench.Bench fs 0) in
      (writable (OUT :: dirs) (chart_names themed) -> outcome run (Bench.Bench fs 0) = Ok tt) /\
      match outcome run (Bench.Bench fs 0) with
      | Ok _ =>
          emitted (OUT :: dirs) themed fs (Bench.b_world b) /\
          Bench.b_out b =
            concat ((fun name => (fun th => cat ["wrote "; file_name name th; "  ->  "; dec (Z.of_nat (S (length args))); " location(s)"])
                                 <$> [Light; Dark]) <$> ["pareto"; "matched-recall"; "load-cpu"])
      | Raise e => reports (OUT :: dirs) VEC_CHARTS (Bench.Bench fs 0) (Raise e) b
      end
  end.
Proof.
  intros Hok run. destruct (bad_target is_dir args) as [a|] eqn:Hargs.
  { unfold run, main. by rewrite targets_spec, Hargs. }
  intros dirs b. assert (wp run (Bench.Bench fs 0) (reports (OUT :: dirs) VEC_CHARTS (Bench.Bench fs 0))) as Hw.
  { unfold run, main. rewrite targets_spec, Hargs. apply wp_bind, wp_lift, write_charts; [exact Hok|].
    apply (bool_decide_unpack _). by vm_compute. }
  apply wp_run in Hw. destruct (outcome run _) as [[]|e].
  - split; [done|]. destruct Hw as [He Ho]. split; [exact He|]. refine (eq_trans Ho _).
    unfold reported, wrote. cbn. unfold dirs. by rewrite length_fmap.
  - split; [|exact Hw]. intros Hwr. by destruct (writable_fails _ _ _ Hwr (reports_fails _ _ _ _ _ Hw)).
Qed.
End Files.

(** With some increasing function for [math.log10] the charts can be drawn. *)
Definition demo_libm : Libm := fun x => x.

Lemma vec_charts_reach_targets_witness :
  let run := main (L := demo_libm) "charts" (String.eqb "site") ["./site/"] in
  let start := Bench.Bench (MemDisk ∅ []) 0 in
  outcome run start = Ok tt /\
  emitted ["charts"; "site"] (themed (L := demo_libm)) (MemDisk ∅ []) (Bench.b_world (after run start)).
Proof.
  assert (forall name fn th, In (name, fn) (VEC_CHARTS (L := demo_libm)) -> is_ok (fn (THEME th)) = true) as Hok.
  { intros name fn th Hin.
    assert (forallb (fun '(_, fn) => is_ok (fn (THEME Light)) && is_ok (fn (THEME Dark))) (VEC_CHARTS (L := demo_libm)) = true)
      as Hall by by vm_compute.
    pose proof (proj1 (forallb_forall _ _) Hall _ Hin) as Hth. apply andb_true_iff in Hth as [? ?]. by destruct th. }
  pose proof (vec_charts_reach_targets (L := demo_libm) "charts" (String.eqb "site") ["./site/"] (MemDisk ∅ []) Hok) as Hrun.
  assert (outcome (main (L := demo_libm) "charts" (String.eqb "site") ["./site/"]) (Bench.Bench (MemDisk ∅ []) 0) = Ok tt) as E
    by by vm_compute.
  split; [exact E|]. refine (proj1 (_ : _ /\ _)). destruct Hrun as [_ Hrun]. rewrite E in Hrun. exact Hrun.
Defined.
